(* ===== verification/_CoqProject ===== *)
-Q . S2P
Prelude.v
Outcome.v
Jtag.v
Bits.v
Memory.v
CString.v
D2xx.v
SimDevice.v
MpsseBuffer.v
MpsseSettled.v
MpsseScan.v
MpsseShift.v
MpsseRefine.v
MpsseAdapter.v
MpsseFaults.v
FtdiAdapter.v
XvcProtocol.v
XvcRefine.v
XvcServer.v
XvcStream.v
XvcSafe.v
Config.v
ConfigRefine.v
Whitelist.v
TcpServer.v
TcpInvariant.v
Instance.v
InstanceLock.v
Frame.v
HandleFrame.v
ServerFrame.v
InstanceFrame.v
InstanceSession.v
Ends.v
AdapterEnds.v
InstanceEnds.v
InstanceSafe.v
Logging.v
DeviceManager.v
DeviceRefine.v
Discover.v
DiscoverRefine.v
Supervisor.v
SupervisorInvariant.v
