(* ===== verification/Prelude.v ===== *)
(** A verification of xvc-server-d2xx.

    The program gives Vivado and the like access to the JTAG chain behind an
    FTDI chip: it serves the Xilinx Virtual Cable protocol on TCP ports and
    drives the chip's MPSSE engine through the D2XX driver.  A supervisor
    process ([main], src/main.c) loads the configuration (src/config.c) and
    forks one child per instance.  An instance ([run_instance], src/main.c)
    opens the adapter (src/ftdi_adapter.c over src/mpsse_adapter.c), starts a
    server (src/tcp_server.c) with its white list (src/whitelist.c) and polls
    it until a signal stops it; the server calls back into the instance, which
    hands the bytes of a client to the protocol handler (src/xvc_protocol.c),
    which scans the vectors of a shift through the adapter.  A second program
    (src/discover_main.c) lists the devices (src/device_manager.c) and prints
    a configuration for them.  src/logging.c and the headers serve all.

    ** How C is modelled

    Integers are [Z] with their width written out (section "C integers":
    [u8], [u32], [i32], [u64]; signed arithmetic that may overflow goes through
    [int_arith]).  An array is the list of its bytes, checked at both ends
    ([read_at], [write_at]); the heap of Memory.v has blocks, so that a use
    after free, a double free and an access out of bounds are visible.
    A computation is an [M S A], state passing with three outcomes ([exec]):
    [Done], [Undef] where C leaves defined behaviour, and [Stuck] where the
    program is held for ever: in a call that does not return ([may_block]: a
    read or a write of a client that stalls, a wait for a child that does not
    end), or in a loop that has used up its budget.  A loop of the source is
    [while_loop] on its loop variables with a budget of 2^64 rounds; the
    theorems that say that code returns exclude [Stuck] by a measure below the
    budget ([while_total], [while_indexed]), so that the budget is never what
    ends a loop.
    Early returns are values of a sum or an option.

    ** The boundary

    What is not in the repository is a parameter with named laws:
    - the driver: [D2XX], and what is documented of it, [DriverReads] (a read
      stores at most what was asked for, and a successful one of a queue that
      is not empty at least a byte; [flush_spins] is what happens without the
      latter) and [DriverHandles] (which calls open and close handles); a
      healthy device is [MpsseDeviceLaws] over the command engine
      [MpsseEngineLaws] with its clock setting, and [MpsseOpenLaws] (all in
      D2xx.v).
      SimDevice.v is a concrete device on which every law is proved;
      MpsseFaults.v has one that fails;
    - the sockets of a client: [Sockets], with the calls that block
      ([read_blocks], [write_blocks]: the handlers are installed with
      SA_RESTART, so that a signal does not end such a call); [Streams] for a stream that is read
      and written in fragments (XvcProtocol.v, XvcRefine.v), [ClientStreams]
      and [Clients] for clients that may fail at any read or write, come and
      go (XvcSafe.v, InstanceSafe.v, with the concrete [net]);
    - the socket calls of the server: [TcpOs], [TcpOsLaws]; signals and
      processes: [Signals], [QuietIo], [InstanceStops], [Procs], [ProcsLaws],
      [StopComes].  What the theorems about the end of a process assume is
      there: a signal to stop is due, and the clients send a bounded number of
      bytes and do not stall ([InstanceStops]); a child ends once it has been
      sent SIGTERM, and a wait for one that has not may block
      ([ChildrenObey]);
    - inside the program, the protocol handler is proved against the interface
      [Adapter] with the laws [JtagCable], which XvcServer.v proves of the
      FTDI adapter.
    The contents of files, the answers of getopt_long, the time as text and
    what vsnprintf makes of a format are arguments.

    ** The files

    - Prelude.v: records, the monad, loops, integers, checked lists;
      Frame.v: [preserves], what a computation leaves alone; Ends.v: [tame],
      what comes back; Outcome.v: [outcome], the postcondition of a computation
      with the outcomes that are excluded; each with a tactic that walks over a
      program's text.
    - Jtag.v: the two TAP state machines of the program and their agreement.
    - Bits.v: src/mpsse_adapter.c [get_bit], [set_bit], [copy_bits], and
      include/bit_copy.h.  Memory.v, CString.v: the heap and the C library.
    - D2xx.v, SimDevice.v: the driver, and the concrete device.
    - MpsseBuffer.v, MpsseScan.v, MpsseAdapter.v: src/mpsse_adapter.c, the
      command buffer with its observers, the scan, the life cycle.
      MpsseSettled.v, MpsseShift.v, MpsseRefine.v: on a healthy device
      buffering is invisible and a scan is the bit-serial reference.
      MpsseFaults.v: memory safety on any device.
    - FtdiAdapter.v: src/ftdi_adapter.c and its chunked scan.
      AdapterEnds.v: no adapter operation is caught in a loop.
    - XvcProtocol.v: src/xvc_protocol.c.  XvcRefine.v: sessions of well-formed
      commands against a specification of the protocol; XvcServer.v: the first
      call, buffers, the adapter as a cable; XvcStream.v: every byte stream;
      XvcSafe.v: the handler when reads and writes may fail at any point.
    - Config.v, ConfigRefine.v: src/config.c.  Whitelist.v: src/whitelist.c.
    - TcpServer.v, TcpInvariant.v: src/tcp_server.c and its invariant, proved
      once against a contract of the callbacks ([callbacks_keep]: what they
      keep of their world, and which of the outcomes they exclude).
    - Instance.v: the instance of src/main.c; InstanceLock.v: the client lock
      and the callbacks; HandleFrame.v, ServerFrame.v, InstanceFrame.v: what
      the adapter, the server and the callbacks leave alone, and that a run
      gives its descriptors and driver handles back; InstanceSession.v: that the session belongs to a
      connection; InstanceEnds.v: that a run comes to its end; InstanceSafe.v:
      that the callbacks meet the contract of the server on a healthy device,
      so that the whole run stays within defined behaviour.
    - Logging.v: src/logging.c.  DeviceManager.v, DeviceRefine.v:
      src/device_manager.c.  Discover.v, DiscoverRefine.v:
      src/discover_main.c.  Supervisor.v, SupervisorInvariant.v: [main] and
      the children.

    The state of each component is a record with the fields of its structure,
    its operations have the names of the C functions.

    ** What is shown

    - From the client to the pins: [xvc_session_correct] and [xvc_first_call]
      (a session has the replies and moves the target as the protocol says,
      however the stream is cut), [xvc_any_stream] (the same for arbitrary
      bytes, with the exact set that leaves defined behaviour),
      [xvc_disconnect], [xvc_refuses], [exact_io_correct],
      [int32_wire_format]; [mpsse_scan_correct] and [scan_chunked_correct]
      (a scan is the bit-serial reference); [copy_bits_correct],
      [bit_copy_refines_copy_bits], [jtag_machines_agree],
      [set_frequency_correct].
    - On a device that may fail: [scans_any_device] (memory safety, a
      well-formed adapter after any failure), [flush_terminates],
      [mpsse_open_handles], [mpsse_lifecycle], [xvc_init_free].
    - Processes: [tcp_server_invariant], [session_is_connected],
      [tcp_start_stop], [rejected_client_stays], [connect_policy],
      [disconnect_policy], [ended_session_lock], [run_instance_ends] (a
      device that may fail, clients that do not stall: neither a loop nor a
      call holds the run, and if it returns the descriptors and the driver
      handles are given back), [run_instance_defined] (a healthy device, a
      [runnable] configuration, clients in range that do not stall: the run
      returns, within defined behaviour), [child_ended], [main_terminates].
      The heap at the end of a run is not part of them: [stop_keeps_buffers].
    - Configuration and tools: [config_load_wf], [config_roundtrip],
      [device_id_roundtrip], [whitelist_policy], [whitelist_load_correct],
      [slash_zero_undefined], [device_scan_correct], [device_exclusive],
      [generated_config], [ini_roundtrip], [log_message]; besides them
      [level_name_roundtrip].
    The bounds that appear in them: [SCAN_MAX] = 2^19 bits, the longest scan
    whose whole bytes are one chunk of the chip (the server's default vectors
    are 2 KiB); a vector size of at most 64 KiB in [xvc_any_stream] and
    [run_instance_defined] ([runnable]) for the same reason; streams of less
    than 2^64 bytes.
    Where a proof met behaviour that the code cannot mean, the fact is an
    [Example] or a theorem: [slash_zero_undefined], [rejected_client_stays],
    [old_shift_misread], [stale_observer_undefined], [freed_result_written],
    [silent_driver_spins], [stalled_client_holds], [stop_keeps_buffers],
    [stubborn_child_holds].

    ** Not modelled

    The driver, which is a binary; the headers under include/txvc, which
    nothing includes and whose implementation is absent; the hardware test
    programs and the scripts.  Of the modelled files: the text of log calls,
    the timing statistics of the trace level, [usleep] and the mutex of the
    logger, which change no state that the program reads, and the registration
    of the signal handlers ([setup_signals], src/main.c); a handler runs where
    the flags are next looked at.  The counters of flushes and of bits in
    [mpsse_adapter] are only printed: they are integers without a width.  The
    tests that a context pointer is not null have no counterpart, since an
    operation gets its context as a value. *)

From stdpp Require Export base list gmap strings.
From Stdlib Require Export ZArith Lia Bool.

Declare Scope xvc_scope.
Delimit Scope xvc_scope with xvc.
Open Scope Z_scope.

Create HintDb xvc.
Create Rewrite HintDb zlen.

(** ** Functional record update

    [Eta R] lists the projections of a record; the setter of a projection is
    computed from it, so that [r <| f := v |>] reduces on an abstract [r]. *)

Class Eta (R : Type) := eta : R -> R.
Class Setter {R E : Type} (g : R -> E) := setter : (E -> E) -> R -> R.
Arguments setter {R E} g {_} _ _ /.

Ltac derive_setter g :=
  match goal with
  | |- @Setter ?R ?E _ =>
      exact (fun (f : E -> E) (r : R) =>
        ltac:(let b := eval hnf in (eta r) in
              let p := eval pattern (g r) in b in
              match p with
              | ?h _ => let t := eval cbv beta in (h (f (g r))) in
                        tryif constr_eq t b then fail 1 "no such field" else exact t
              end))
  end.

#[export] Hint Extern 0 (Setter ?g) => derive_setter g : typeclass_instances.

Notation "r <| g := v |>" := (setter g (fun _ => v) r)
  (at level 1, g at next level, left associativity, format "r <| g  :=  v |>") : xvc_scope.
Open Scope xvc_scope.

(** ** Outcomes of running C code

    [Undef] is undefined behaviour (an out-of-bounds access, a use after free,
    a signed overflow); [Stuck] is a program held for ever, by a call that
    blocks or by a loop whose step budget was exhausted. *)

Inductive exec (A : Type) : Type :=
  | Done (a : A)
  | Undef
  | Stuck.
Arguments Done {A} a.
Arguments Undef {A}.
Arguments Stuck {A}.

#[export] Instance exec_ret : MRet exec := fun A a => Done a.
#[export] Instance exec_bind : MBind exec := fun A B f m =>
  match m with Done a => f a | Undef => Undef | Stuck => Stuck end.

Definition of_option {A} (o : option A) : exec A :=
  match o with Some a => Done a | None => Undef end.

(** A stateful computation of the modelled program. *)
Definition M (S A : Type) : Type := S -> exec (A * S).

#[export] Instance M_ret S : MRet (M S) := fun A a s => Done (a, s).
#[export] Instance M_bind S : MBind (M S) := fun A B f m s =>
  match m s with
  | Done (a, s') => f a s'
  | Undef => Undef
  | Stuck => Stuck
  end.

Definition get_state {S} : M S S := fun s => Done (s, s).
Definition put_state {S} (s : S) : M S unit := fun _ => Done (tt, s).
Definition modify {S} (f : S -> S) : M S unit := fun s => Done (tt, f s).
Definition gets {S A} (f : S -> A) : M S A := fun s => Done (f s, s).
Definition lift_exec {S A} (e : exec A) : M S A := fun s =>
  match e with Done a => Done (a, s) | Undef => Undef | Stuck => Stuck end.
Definition undefined {S A} : M S A := fun _ => Undef.

Lemma bind_done {S A B} (m : M S A) (k : A -> M S B) s a s' :
  m s = Done (a, s') -> (m ≫= k) s = k a s'.
Proof. intros H. unfold mbind, M_bind. by rewrite H. Qed.

Lemma bind_done_inv {S A B} (m : M S A) (k : A -> M S B) s r :
  (m ≫= k) s = Done r -> exists a s', m s = Done (a, s') /\ k a s' = Done r.
Proof.
  unfold mbind, M_bind. destruct (m s) as [[a s']| |]; [|done..]. eauto.
Qed.

Lemma bind_assoc_at {S A B C} (m : M S A) (k : A -> M S B) (l : B -> M S C) s :
  (m ≫= (fun a => k a ≫= l)) s = ((m ≫= k) ≫= l) s.
Proof. unfold mbind, M_bind. by destruct (m s) as [[? ?]| |]. Qed.

(** Run a computation on a part of a larger state. *)
Definition zoom {S T A} (g : T -> S) (p : S -> T -> T) (m : M S A) : M T A := fun t =>
  match m (g t) with
  | Done (a, s) => Done (a, p s t)
  | Undef => Undef
  | Stuck => Stuck
  end.

(** One step of a proof that runs a monadic body: the head call is rewritten
    with the equation [H] that gives its outcome. *)
Ltac run_with H := erewrite bind_done; [|eapply H].

(** ** Loops

    [while_loop body l] runs [body] on the loop variables [l] until it answers
    [inr].  The step budget is binary ([2 ^ loop_budget] steps), so a budget
    that covers every run of a C loop costs nothing when a model is
    evaluated; [while_total] shows that a loop with a decreasing measure
    below the budget returns. *)

Definition loop_budget : nat := 64.

Fixpoint iterate {S L R : Type} (n : nat) (body : L -> M S (L + R)) (l : L) : M S (L + R) :=
  match n with
  | O => body l
  | Datatypes.S n' =>
      r ← iterate n' body l;
      match r with
      | inl l' => iterate n' body l'
      | inr r => mret (inr r)
      end
  end.

Definition stuck {S A} : M S A := fun _ => Stuck.

(** A call that does not return where [blocks]. *)
Definition may_block {S A} (blocks : S -> bool) (call : S -> A * S) : M S A :=
  fun s => if blocks s then Stuck else let '(a, s) := call s in Done (a, s).

Lemma may_block_done {S A} (blocks : S -> bool) (call : S -> A * S) s a s' :
  blocks s = false -> call s = (a, s') -> may_block blocks call s = Done (a, s').
Proof. intros Hb E. unfold may_block. by rewrite Hb, E. Qed.

#[global] Opaque loop_budget.

Definition while_loop {S L R : Type} (body : L -> M S (L + R)) (l : L) : M S R :=
  r ← iterate loop_budget body l;
  match r with
  | inl _ => stuck
  | inr r => mret r
  end.

Section Loop.
Context {S L R : Type} (body : L -> M S (L + R)).
Context (Inv : L -> S -> Prop) (Post : R -> S -> Prop).

(** Total correctness: a measure that every further round decreases. *)
Lemma iterate_total (mu : L -> S -> Z) n l s :
  (forall l s, Inv l s ->
     exists r s', body l s = Done (r, s') /\
       match r with
       | inl l' => Inv l' s' /\ 0 <= mu l' s' < mu l s
       | inr r => Post r s'
       end) ->
  Inv l s ->
  exists r s', iterate n body l s = Done (r, s') /\
    match r with
    | inl l' => Inv l' s' /\ 0 <= mu l' s' /\ mu l' s' + 2 ^ Z.of_nat n <= mu l s
    | inr r => Post r s'
    end.
Proof.
  intros Hb. revert l s. induction n as [|n IH]; intros l s HI.
  - destruct (Hb l s HI) as (r & s' & E & H). exists r, s'. split; [exact E|].
    destruct r; [destruct H as [? ?]; simpl; repeat split; (done || lia)|done].
  - destruct (IH l s HI) as (r & s' & E & H).
    simpl. run_with E. destruct r as [l'|r].
    + destruct H as (HI' & H0 & H1).
      destruct (IH l' s' HI') as (r2 & s2 & E2 & H2).
      exists r2, s2. split; [exact E2|]. destruct r2 as [l2|r2]; [|done].
      destruct H2 as (? & ? & ?). repeat split; [done|done|].
      rewrite Nat2Z.inj_succ, Z.pow_succ_r by lia. lia.
    + exists (inr r), s'. done.
Qed.

Lemma while_total (mu : L -> S -> Z) l s :
  (forall l s, Inv l s ->
     exists r s', body l s = Done (r, s') /\
       match r with
       | inl l' => Inv l' s' /\ 0 <= mu l' s' < mu l s
       | inr r => Post r s'
       end) ->
  Inv l s -> mu l s < 2 ^ 64 ->
  exists r s', while_loop body l s = Done (r, s') /\ Post r s'.
Proof.
  intros Hb HI Hmu. destruct (iterate_total mu loop_budget l s Hb HI) as (r & s' & E & H).
  unfold while_loop. destruct r as [l'|r].
  - destruct H as (_ & H0 & H1). change (Z.of_nat loop_budget) with 64 in H1. lia.
  - exists r, s'. split; [|exact H]. by rewrite (bind_done _ _ _ _ _ E).
Qed.

(** How a loop ends, undefined behaviour of its body included.  The invariant
    carries a bound on the rounds that are left. *)
Lemma iterate_indexed (J : Z -> L -> S -> Prop) (Q : exec (R * S) -> Prop) n i l s :
  (forall i l s, J i l s ->
     match body l s with
     | Done (inl l', s') => exists j, 0 <= j < i /\ J j l' s'
     | Done (inr r, s') => Q (Done (r, s'))
     | Undef => Q Undef
     | Stuck => Q Stuck
     end) ->
  J i l s ->
  match iterate n body l s with
  | Done (inl l', s') => exists j, 0 <= j /\ j + 2 ^ Z.of_nat n <= i /\ J j l' s'
  | Done (inr r, s') => Q (Done (r, s'))
  | Undef => Q Undef
  | Stuck => Q Stuck
  end.
Proof.
  intros Hb. revert i l s. induction n as [|n IH]; intros i l s HI.
  - specialize (Hb i l s HI). cbn [iterate]. destruct (body l s) as [[[l'|r] s']| |]; [|done..].
    destruct Hb as (j & Hj & HJ). exists j. split; [lia|]. split; [simpl; lia|done].
  - specialize (IH i l s HI) as H1. simpl. unfold mbind, M_bind.
    destruct (iterate n body l s) as [[[l'|r] s']| |]; [|done..].
    destruct H1 as (j & H0 & H1 & HI'). specialize (IH j l' s' HI').
    destruct (iterate n body l' s') as [[[l2|r2] s2]| |]; [|done..].
    destruct IH as (k & Hk0 & Hk & HJ). exists k. split; [done|]. split; [|done].
    rewrite Nat2Z.inj_succ, Z.pow_succ_r by lia. lia.
Qed.

Lemma while_indexed (J : Z -> L -> S -> Prop) (Q : exec (R * S) -> Prop) i l s :
  (forall i l s, J i l s ->
     match body l s with
     | Done (inl l', s') => exists j, 0 <= j < i /\ J j l' s'
     | Done (inr r, s') => Q (Done (r, s'))
     | Undef => Q Undef
     | Stuck => Q Stuck
     end) ->
  J i l s -> i < 2 ^ 64 -> Q (while_loop body l s).
Proof.
  intros Hb HI Hi. pose proof (iterate_indexed J Q loop_budget i l s Hb HI) as H.
  unfold while_loop, mbind, M_bind. destruct (iterate loop_budget body l s) as [[[l'|r] s']| |]; [|done..].
  destruct H as (j & H0 & H1 & _). change (Z.of_nat loop_budget) with 64 in H1. lia.
Qed.

Lemma while_outcome (mu : L -> S -> Z) (Q : exec (R * S) -> Prop) l s :
  (forall l s, Inv l s ->
     match body l s with
     | Done (inl l', s') => Inv l' s' /\ 0 <= mu l' s' < mu l s
     | Done (inr r, s') => Q (Done (r, s'))
     | Undef => Q Undef
     | Stuck => Q Stuck
     end) ->
  Inv l s -> mu l s < 2 ^ 64 -> Q (while_loop body l s).
Proof.
  intros Hb HI. apply (while_indexed (fun i l s => Inv l s /\ mu l s = i) Q (mu l s)); [|done].
  intros i l1 s1 [H1 <-]. specialize (Hb l1 s1 H1). destruct (body l1 s1) as [[[l'|r] s']| |]; [|done..].
  destruct Hb as [H2 H3]. by exists (mu l' s').
Qed.

(** The loop ends, whatever undefined behaviour its body may have. *)
Lemma while_not_stuck (mu : L -> S -> Z) l s :
  (forall l s, Inv l s ->
     match body l s with
     | Done (inl l', s') => Inv l' s' /\ 0 <= mu l' s' < mu l s
     | Done (inr _, _) | Undef => True
     | Stuck => False
     end) ->
  Inv l s -> mu l s < 2 ^ 64 -> while_loop body l s <> Stuck.
Proof.
  intros Hb. apply (while_outcome mu (fun e => e <> Stuck)). intros l1 s1 H1. specialize (Hb l1 s1 H1).
  destruct (body l1 s1) as [[[l'|r] s']| |]; done.
Qed.

(** Partial correctness. *)
Lemma iterate_partial n l s r s' :
  (forall l s r s', Inv l s -> body l s = Done (r, s') ->
     match r with inl l' => Inv l' s' | inr r => Post r s' end) ->
  Inv l s -> iterate n body l s = Done (r, s') ->
  match r with inl l' => Inv l' s' | inr r => Post r s' end.
Proof.
  intros Hb. revert l s r s'. induction n as [|n IH]; intros l s r s' HI E.
  - eapply Hb; eauto.
  - simpl in E. apply bind_done_inv in E as (r1 & s1 & E1 & E2).
    specialize (IH l s r1 s1 HI E1) as H1. destruct r1 as [l1|r1].
    + eapply IH; eauto.
    + by injection E2 as <- <-.
Qed.

Lemma while_partial l s r s' :
  (forall l s r s', Inv l s -> body l s = Done (r, s') ->
     match r with inl l' => Inv l' s' | inr r => Post r s' end) ->
  Inv l s -> while_loop body l s = Done (r, s') -> Post r s'.
Proof.
  intros Hb HI E. apply bind_done_inv in E as (r1 & s1 & E1 & E2).
  pose proof (iterate_partial _ _ _ _ _ Hb HI E1) as H.
  destruct r1; [done|]. by injection E2 as <- <-.
Qed.

(** A loop that never leaves its invariant is stuck. *)
Lemma while_forever l s :
  (forall l s, Inv l s -> exists l' s', body l s = Done (inl l', s') /\ Inv l' s') ->
  Inv l s -> while_loop body l s = Stuck.
Proof.
  intros Hb HI. assert (Hn : forall n l s, Inv l s -> exists l' s', iterate n body l s = Done (inl l', s') /\ Inv l' s').
  { induction n as [|n IH]; intros l1 s1 H1; [by apply Hb|]. simpl. destruct (IH l1 s1 H1) as (l2 & s2 & E2 & H2).
    run_with E2. by apply IH. }
  destruct (Hn loop_budget l s HI) as (l' & s' & E & _). unfold while_loop. by rewrite (bind_done _ _ _ _ _ E).
Qed.
End Loop.

(** ** C integers

    Machine integers are [Z] with the wrap-around written out.  Signed
    overflow is undefined: [int_arith] checks a result that the C code
    computes in type [int]. *)

Definition u8 (x : Z) : Z := x mod 2 ^ 8.
Definition u16 (x : Z) : Z := x mod 2 ^ 16.
Definition u32 (x : Z) : Z := x mod 2 ^ 32.
Definition u64 (x : Z) : Z := x mod 2 ^ 64.
Definition i32 (x : Z) : Z := (x + 2 ^ 31) mod 2 ^ 32 - 2 ^ 31.

Definition INT_MIN : Z := - 2 ^ 31.
Definition INT_MAX : Z := 2 ^ 31 - 1.
Definition int_ok (x : Z) : bool := (INT_MIN <=? x) && (x <=? INT_MAX).
Definition int_arith (x : Z) : exec Z := if int_ok x then Done x else Undef.

Definition byte_ok (b : Z) : Prop := 0 <= b < 256.

Lemma u8_byte_ok x : byte_ok (u8 x).
Proof. unfold byte_ok, u8. pose proof (Z.mod_pos_bound x (2 ^ 8)). lia. Qed.
Lemma u8_id x : byte_ok x -> u8 x = x.
Proof. intros H. apply Z.mod_small. unfold byte_ok in H. lia. Qed.
Lemma u32_range x : 0 <= u32 x < 2 ^ 32.
Proof. apply Z.mod_pos_bound. lia. Qed.
Lemma u32_id x : 0 <= x < 2 ^ 32 -> u32 x = x.
Proof. apply Z.mod_small. Qed.
Lemma i32_range x : INT_MIN <= i32 x <= INT_MAX.
Proof.
  unfold i32, INT_MIN, INT_MAX. pose proof (Z.mod_pos_bound (x + 2 ^ 31) (2 ^ 32)). lia.
Qed.
Lemma i32_id x : INT_MIN <= x <= INT_MAX -> i32 x = x.
Proof. unfold i32, INT_MIN, INT_MAX. intros. rewrite Z.mod_small; lia. Qed.
Lemma int_arith_ok x : INT_MIN <= x <= INT_MAX -> int_arith x = Done x.
Proof.
  intros [H1 H2]. unfold int_arith, int_ok.
  apply Z.leb_le in H1, H2. by rewrite H1, H2.
Qed.

#[export] Hint Resolve u8_byte_ok u32_range : xvc.

Lemma land_255 x : Z.land x 255 = u8 x.
Proof. change 255 with (Z.ones 8). apply Z.land_ones. lia. Qed.

(** ** Arrays as lists *)

Definition zlen {A} (l : list A) : Z := Z.of_nat (length l).

Definition read_at {A} (off n : Z) (l : list A) : option (list A) :=
  if (0 <=? off) && (0 <=? n) && (off + n <=? zlen l)
  then Some (take (Z.to_nat n) (drop (Z.to_nat off) l))
  else None.

Definition write_at {A} (off : Z) (d l : list A) : option (list A) :=
  if (0 <=? off) && (off + zlen d <=? zlen l)
  then Some (take (Z.to_nat off) l ++ d ++ drop (Z.to_nat off + length d) l)
  else None.

Definition get_at {A} (i : Z) (l : list A) : option A :=
  if 0 <=? i then l !! Z.to_nat i else None.

Definition set_at {A} (i : Z) (x : A) (l : list A) : option (list A) :=
  if (0 <=? i) && (i <? zlen l) then Some (<[Z.to_nat i := x]> l) else None.

Lemma zlen_app {A} (l k : list A) : zlen (l ++ k) = zlen l + zlen k.
Proof. unfold zlen. rewrite length_app. lia. Qed.
Lemma zlen_nonneg {A} (l : list A) : 0 <= zlen l.
Proof. unfold zlen. lia. Qed.
Lemma zlen_nil {A} : zlen (@nil A) = 0.
Proof. done. Qed.
Lemma zlen_cons {A} (x : A) l : zlen (x :: l) = 1 + zlen l.
Proof. unfold zlen. cbn [length]. lia. Qed.
Lemma zlen_replicate {A} n (x : A) : 0 <= n -> zlen (replicate (Z.to_nat n) x) = n.
Proof. intros. unfold zlen. rewrite length_replicate. lia. Qed.
#[export] Hint Rewrite @zlen_app @zlen_nil @zlen_cons : zlen.
#[export] Hint Resolve zlen_nonneg : xvc.

Lemma read_at_ok {A} off n (l : list A) :
  0 <= off -> 0 <= n -> off + n <= zlen l ->
  read_at off n l = Some (take (Z.to_nat n) (drop (Z.to_nat off) l)).
Proof.
  intros H1 H2 H3. unfold read_at.
  apply Z.leb_le in H1, H2, H3. by rewrite H1, H2, H3.
Qed.

Lemma read_at_prefix {A} n (p l : list A) :
  zlen p = n -> read_at 0 n (p ++ l) = Some p.
Proof.
  intros <-. rewrite read_at_ok.
  - unfold zlen. rewrite Nat2Z.id, drop_0. f_equal. apply take_app_length.
  - lia.
  - auto with xvc.
  - rewrite zlen_app. pose proof (zlen_nonneg l). lia.
Qed.

Lemma write_at_ok {A} off (d l : list A) :
  0 <= off -> off + zlen d <= zlen l ->
  write_at off d l = Some (take (Z.to_nat off) l ++ d ++ drop (Z.to_nat off + length d) l).
Proof.
  intros H1 H2. unfold write_at. apply Z.leb_le in H1, H2. by rewrite H1, H2.
Qed.

Lemma write_at_length {A} off (d l l' : list A) :
  write_at off d l = Some l' -> length l' = length l.
Proof.
  unfold write_at. destruct ((0 <=? off) && (off + zlen d <=? zlen l)) eqn:E; [|done].
  intros [= <-]. apply andb_true_iff in E as [E1%Z.leb_le E2%Z.leb_le]. unfold zlen in E2.
  rewrite !length_app, length_take, length_drop. lia.
Qed.

Lemma set_at_ok {A} i (x : A) l :
  0 <= i < zlen l -> set_at i x l = Some (<[Z.to_nat i := x]> l).
Proof.
  intros [H1 H2]. unfold set_at. apply Z.leb_le in H1. apply Z.ltb_lt in H2. by rewrite H1, H2.
Qed.

Lemma get_at_ok (i : Z) (l : list Z) :
  0 <= i < zlen l -> get_at i l = Some (nth (Z.to_nat i) l 0).
Proof.
  intros [H1 H2]. unfold get_at. rewrite (proj2 (Z.leb_le 0 i) H1). unfold zlen in H2.
  destruct (lookup_lt_is_Some_2 l (Z.to_nat i)) as [x Hx]; [lia|].
  rewrite Hx. f_equal. symmetry. by apply nth_lookup_Some.
Qed.

Lemma get_at_Some_range {A} (i : Z) (l : list A) x :
  get_at i l = Some x -> 0 <= i < zlen l.
Proof.
  unfold get_at. destruct (Z.leb_spec 0 i); [|done].
  intros Hx%lookup_lt_Some. unfold zlen. lia.
Qed.

(** Case analysis on the boolean comparisons of the code. *)
Ltac zb :=
  repeat match goal with
  | H : (_ && _) = true |- _ => apply andb_true_iff in H as [? ?]
  | H : (_ || _) = false |- _ => apply orb_false_iff in H as [? ?]
  | H : (_ <=? _) = true |- _ => apply Z.leb_le in H
  | H : (_ <=? _) = false |- _ => apply Z.leb_gt in H
  | H : (_ <? _) = true |- _ => apply Z.ltb_lt in H
  | H : (_ <? _) = false |- _ => apply Z.ltb_ge in H
  | H : (_ =? _) = true |- _ => apply Z.eqb_eq in H
  | H : (_ =? _) = false |- _ => apply Z.eqb_neq in H
  end.

Ltac zcase b := let E := fresh "E" in destruct b eqn:E; zb.

(** Literal arrays of bytes. *)
Ltac byte_list :=
  repeat (apply Forall_cons_2;
    [first [assumption | apply u8_byte_ok | unfold byte_ok; lia | by (split; vm_compute)]|]);
  apply Forall_nil_2.
