(* ===== verification/Outcome.v ===== *)
(** What comes out of a computation.

    [outcome Bad Hang e Q]: [e] comes back with [Q], or leaves defined
    behaviour and then [Bad], or is caught in a loop and then [Hang].  With
    [False] for both it is total correctness; with [False] and [True] it says
    that defined behaviour is not left, whatever the loops do. *)

From S2P Require Import Prelude.

Definition outcome (Bad Hang : Prop) {S A} (e : exec (A * S)) (Q : A -> S -> Prop) : Prop :=
  match e with
  | Done (a, s) => Q a s
  | Undef => Bad
  | Stuck => Hang
  end.

Section Outcome.
Context {Bad Hang : Prop} {S : Type}.
#[local] Abbreviation out := (outcome Bad Hang).

Lemma outcome_mono {A} (e : exec (A * S)) (Q R : A -> S -> Prop) : out e Q -> (forall a s, Q a s -> R a s) -> out e R.
Proof. destruct e as [[a s]| |]; cbn; auto. Qed.

Lemma outcome_bind {A B} (m : M S A) (k : A -> M S B) s Q R :
  out (m s) Q -> (forall a s', Q a s' -> out (k a s') R) -> out ((m ≫= k) s) R.
Proof. unfold mbind, M_bind. destruct (m s) as [[a s']| |]; cbn; auto. Qed.

Lemma outcome_gets {A B} (f : S -> A) (k : A -> M S B) s R : out (k (f s) s) R -> out ((gets f ≫= k) s) R.
Proof. done. Qed.

Lemma outcome_modify {B} (f : S -> S) (k : unit -> M S B) s R : out (k tt (f s)) R -> out ((modify f ≫= k) s) R.
Proof. done. Qed.

(** A part of the state. *)
Lemma outcome_zoom {T A} (g : S -> T) (p : T -> S -> S) (m : M T A) s Q :
  out (m (g s)) (fun a t => Q a (p t s)) -> out (zoom g p m s) Q.
Proof. unfold zoom. by destruct (m (g s)) as [[a t]| |]. Qed.

(** With what is known of every run that comes back. *)
Lemma outcome_and {A} (e : exec (A * S)) (Q R : A -> S -> Prop) :
  out e Q -> (forall a s, e = Done (a, s) -> R a s) -> out e (fun a s => Q a s /\ R a s).
Proof. destruct e as [[a s]| |]; cbn; auto. Qed.

(** A loop that may run out of its budget. *)
Context {L R : Type} (body : L -> M S (L + R)) (Inv : L -> S -> Prop) (Q : R -> S -> Prop).
Context (Hbody : forall l s, Inv l s -> out (body l s) (fun r s' => match r with inl l' => Inv l' s' | inr r => Q r s' end)).

Lemma outcome_iterate n l s : Inv l s ->
  out (iterate n body l s) (fun r s' => match r with inl l' => Inv l' s' | inr r => Q r s' end).
Proof.
  revert l s. induction n as [|n IH]; intros l s Hi; [by apply Hbody|]. cbn [iterate].
  eapply outcome_bind; [by apply IH|]. intros [l'|r] s' Hs; [by apply IH|done].
Qed.

Lemma outcome_while l s : Hang -> Inv l s -> out (while_loop body l s) Q.
Proof.
  intros Hh Hi. eapply outcome_bind; [by apply outcome_iterate|]. by intros [l'|r] s' Hs.
Qed.
End Outcome.

(** ** What a computation leaves alone, and comes through

    [safe P m]: from a state with [P] the outcome of [m] is one with [P].  The
    tactic [safely] walks over the text of a program, as those of Frame.v and
    Ends.v do; the calls that it cannot see are hints of the database [safe]. *)

Create HintDb safe.

Section Safe.
Context (Bad Hang : Prop) {S : Type} (P : S -> Prop).

Definition safe {A} (m : M S A) : Prop := forall s, P s -> outcome Bad Hang (m s) (fun _ => P).

Lemma safe_bind {A B} (m : M S A) (k : A -> M S B) : safe m -> (forall a, safe (k a)) -> safe (m ≫= k).
Proof. intros Hm Hk s Hs. eapply outcome_bind; [by apply Hm|]. intros a s' Hs'. by apply Hk. Qed.

Lemma safe_ret {A} (a : A) : safe (mret a).
Proof. by intros s Hs. Qed.

Lemma safe_gets {A} (f : S -> A) : safe (gets f).
Proof. by intros s Hs. Qed.

Lemma safe_get : safe get_state.
Proof. by intros s Hs. Qed.

Lemma safe_modify f : (forall s, P s -> P (f s)) -> safe (modify f).
Proof. intros Hf s Hs. by apply Hf. Qed.
End Safe.

Ltac safe_step :=
  match goal with
  | |- safe _ _ _ (_ ≫= _) => apply safe_bind
  | |- safe _ _ _ (mret _) => apply safe_ret
  | |- safe _ _ _ (gets _) => apply safe_gets
  | |- safe _ _ _ get_state => apply safe_get
  | |- forall _, _ => intro
  | |- safe _ _ _ (match ?x with _ => _ end) => destruct x eqn:?
  | |- safe _ _ _ _ => solve [eauto with safe nocore]
  end.

Ltac safely := repeat safe_step.
