(* ===== verification/Jtag.v ===== *)
(** JTAG test-access-port state machines.

    The server keeps the TAP state twice: [xvc_protocol.c] with the enum
    [jtag_state_t] and the table [jtag_next_state], [mpsse_adapter.c] with the
    enum [jtag_state] and the switch [next_state].  Both are translated here,
    with the bijection between the enums under which the table and the switch
    are the same machine. *)

From S2P Require Import Prelude.

(** ** The state machine of xvc_protocol.c *)

Inductive jtag_state_t :=
  | JTAG_TEST_LOGIC_RESET
  | JTAG_RUN_TEST_IDLE
  | JTAG_SELECT_DR_SCAN
  | JTAG_CAPTURE_DR
  | JTAG_SHIFT_DR
  | JTAG_EXIT1_DR
  | JTAG_PAUSE_DR
  | JTAG_EXIT2_DR
  | JTAG_UPDATE_DR
  | JTAG_SELECT_IR_SCAN
  | JTAG_CAPTURE_IR
  | JTAG_SHIFT_IR
  | JTAG_EXIT1_IR
  | JTAG_PAUSE_IR
  | JTAG_EXIT2_IR
  | JTAG_UPDATE_IR.

#[export] Instance jtag_state_t_eq_dec : EqDecision jtag_state_t.
Proof. solve_decision. Defined.

(** One row per designated initialiser: the successor for TMS = 0 and TMS = 1. *)
Definition jtag_next_state (s : jtag_state_t) : jtag_state_t * jtag_state_t :=
  match s with
  | JTAG_TEST_LOGIC_RESET => (JTAG_RUN_TEST_IDLE, JTAG_TEST_LOGIC_RESET)
  | JTAG_RUN_TEST_IDLE => (JTAG_RUN_TEST_IDLE, JTAG_SELECT_DR_SCAN)
  | JTAG_SELECT_DR_SCAN => (JTAG_CAPTURE_DR, JTAG_SELECT_IR_SCAN)
  | JTAG_CAPTURE_DR => (JTAG_SHIFT_DR, JTAG_EXIT1_DR)
  | JTAG_SHIFT_DR => (JTAG_SHIFT_DR, JTAG_EXIT1_DR)
  | JTAG_EXIT1_DR => (JTAG_PAUSE_DR, JTAG_UPDATE_DR)
  | JTAG_PAUSE_DR => (JTAG_PAUSE_DR, JTAG_EXIT2_DR)
  | JTAG_EXIT2_DR => (JTAG_SHIFT_DR, JTAG_UPDATE_DR)
  | JTAG_UPDATE_DR => (JTAG_RUN_TEST_IDLE, JTAG_SELECT_DR_SCAN)
  | JTAG_SELECT_IR_SCAN => (JTAG_CAPTURE_IR, JTAG_TEST_LOGIC_RESET)
  | JTAG_CAPTURE_IR => (JTAG_SHIFT_IR, JTAG_EXIT1_IR)
  | JTAG_SHIFT_IR => (JTAG_SHIFT_IR, JTAG_EXIT1_IR)
  | JTAG_EXIT1_IR => (JTAG_PAUSE_IR, JTAG_UPDATE_IR)
  | JTAG_PAUSE_IR => (JTAG_PAUSE_IR, JTAG_EXIT2_IR)
  | JTAG_EXIT2_IR => (JTAG_SHIFT_IR, JTAG_UPDATE_IR)
  | JTAG_UPDATE_IR => (JTAG_RUN_TEST_IDLE, JTAG_SELECT_DR_SCAN)
  end.

Definition jtag_index (s : jtag_state_t) (tms : Z) : jtag_state_t :=
  if tms =? 0 then (jtag_next_state s).1 else (jtag_next_state s).2.

(** [jtag_next_state[state][tms ? 1 : 0]] *)
Definition jtag_step (state : jtag_state_t) (tms : Z) : jtag_state_t :=
  jtag_index state (if tms =? 0 then 0 else 1).

Definition jtag_state_name (s : jtag_state_t) : string :=
  match s with
  | JTAG_TEST_LOGIC_RESET => "TEST_LOGIC_RESET"
  | JTAG_RUN_TEST_IDLE => "RUN_TEST_IDLE"
  | JTAG_SELECT_DR_SCAN => "SELECT_DR_SCAN"
  | JTAG_CAPTURE_DR => "CAPTURE_DR"
  | JTAG_SHIFT_DR => "SHIFT_DR"
  | JTAG_EXIT1_DR => "EXIT1_DR"
  | JTAG_PAUSE_DR => "PAUSE_DR"
  | JTAG_EXIT2_DR => "EXIT2_DR"
  | JTAG_UPDATE_DR => "UPDATE_DR"
  | JTAG_SELECT_IR_SCAN => "SELECT_IR_SCAN"
  | JTAG_CAPTURE_IR => "CAPTURE_IR"
  | JTAG_SHIFT_IR => "SHIFT_IR"
  | JTAG_EXIT1_IR => "EXIT1_IR"
  | JTAG_PAUSE_IR => "PAUSE_IR"
  | JTAG_EXIT2_IR => "EXIT2_IR"
  | JTAG_UPDATE_IR => "UPDATE_IR"
  end.

(** ** The state machine of mpsse_adapter.c *)

Inductive jtag_state :=
  | TEST_LOGIC_RESET
  | RUN_TEST_IDLE
  | SELECT_DR_SCAN
  | CAPTURE_DR
  | SHIFT_DR
  | EXIT_1_DR
  | PAUSE_DR
  | EXIT_2_DR
  | UPDATE_DR
  | SELECT_IR_SCAN
  | CAPTURE_IR
  | SHIFT_IR
  | EXIT_1_IR
  | PAUSE_IR
  | EXIT_2_IR
  | UPDATE_IR.

#[export] Instance jtag_state_eq_dec : EqDecision jtag_state.
Proof. solve_decision. Defined.

Definition next_state (curState : jtag_state) (tmsHigh : bool) : jtag_state :=
  match curState with
  | TEST_LOGIC_RESET => if tmsHigh then TEST_LOGIC_RESET else RUN_TEST_IDLE
  | RUN_TEST_IDLE => if tmsHigh then SELECT_DR_SCAN else RUN_TEST_IDLE
  | SELECT_DR_SCAN => if tmsHigh then SELECT_IR_SCAN else CAPTURE_DR
  | CAPTURE_DR => if tmsHigh then EXIT_1_DR else SHIFT_DR
  | SHIFT_DR => if tmsHigh then EXIT_1_DR else SHIFT_DR
  | EXIT_1_DR => if tmsHigh then UPDATE_DR else PAUSE_DR
  | PAUSE_DR => if tmsHigh then EXIT_2_DR else PAUSE_DR
  | EXIT_2_DR => if tmsHigh then UPDATE_DR else SHIFT_DR
  | UPDATE_DR => if tmsHigh then SELECT_DR_SCAN else RUN_TEST_IDLE
  | SELECT_IR_SCAN => if tmsHigh then TEST_LOGIC_RESET else CAPTURE_IR
  | CAPTURE_IR => if tmsHigh then EXIT_1_IR else SHIFT_IR
  | SHIFT_IR => if tmsHigh then EXIT_1_IR else SHIFT_IR
  | EXIT_1_IR => if tmsHigh then UPDATE_IR else PAUSE_IR
  | PAUSE_IR => if tmsHigh then EXIT_2_IR else PAUSE_IR
  | EXIT_2_IR => if tmsHigh then UPDATE_IR else SHIFT_IR
  | UPDATE_IR => if tmsHigh then SELECT_DR_SCAN else RUN_TEST_IDLE
  end.

(** The test [jtag_state == SHIFT_DR || jtag_state == SHIFT_IR] of the scan. *)
Definition is_shift (s : jtag_state) : bool :=
  match s with SHIFT_DR | SHIFT_IR => true | _ => false end.

(** ** Relating the two machines *)

Definition of_xvc (s : jtag_state_t) : jtag_state :=
  match s with
  | JTAG_TEST_LOGIC_RESET => TEST_LOGIC_RESET
  | JTAG_RUN_TEST_IDLE => RUN_TEST_IDLE
  | JTAG_SELECT_DR_SCAN => SELECT_DR_SCAN
  | JTAG_CAPTURE_DR => CAPTURE_DR
  | JTAG_SHIFT_DR => SHIFT_DR
  | JTAG_EXIT1_DR => EXIT_1_DR
  | JTAG_PAUSE_DR => PAUSE_DR
  | JTAG_EXIT2_DR => EXIT_2_DR
  | JTAG_UPDATE_DR => UPDATE_DR
  | JTAG_SELECT_IR_SCAN => SELECT_IR_SCAN
  | JTAG_CAPTURE_IR => CAPTURE_IR
  | JTAG_SHIFT_IR => SHIFT_IR
  | JTAG_EXIT1_IR => EXIT_1_IR
  | JTAG_PAUSE_IR => PAUSE_IR
  | JTAG_EXIT2_IR => EXIT_2_IR
  | JTAG_UPDATE_IR => UPDATE_IR
  end.

#[export] Instance of_xvc_inj : Inj (=) (=) of_xvc.
Proof. intros [] []; done. Qed.

Lemma of_xvc_step s t :
  of_xvc (jtag_step s (Z.b2z t)) = next_state (of_xvc s) t.
Proof. by destruct s, t. Qed.

(** Both machines read a TMS sequence in order. *)
Definition jtag_run (s : jtag_state_t) (tms : list bool) : jtag_state_t :=
  fold_left (fun s t => jtag_step s (Z.b2z t)) tms s.

Definition tap_run (s : jtag_state) (tms : list bool) : jtag_state :=
  fold_left next_state tms s.

Lemma jtag_run_app s l k : jtag_run s (l ++ k) = jtag_run (jtag_run s l) k.
Proof. apply fold_left_app. Qed.

Lemma tap_run_app s l k : tap_run s (l ++ k) = tap_run (tap_run s l) k.
Proof. apply fold_left_app. Qed.

Lemma tap_run_of_xvc s tms : tap_run (of_xvc s) tms = of_xvc (jtag_run s tms).
Proof.
  revert s. induction tms as [|t tms IH]; intros s; [done|].
  change (tap_run (next_state (of_xvc s) t) tms = of_xvc (jtag_run (jtag_step s (Z.b2z t)) tms)).
  by rewrite <- of_xvc_step, IH.
Qed.

(** A shift state is entered and kept with TMS low only. *)
Lemma shift_needs_tms_low s t : is_shift (next_state s t) = true -> t = false.
Proof. by destruct s, t. Qed.

(** ** Properties *)

(** C25: the transition table that xvc_protocol.c indexes and the switch of
    mpsse_adapter.c are the same TAP controller: driven from corresponding
    states by the same TMS sequence, of any length, the protocol layer and the
    adapter end in corresponding states, and equal states correspond to equal
    states only. *)
Theorem jtag_machines_agree (s s' : jtag_state_t) (tms : list bool) :
  tap_run (of_xvc s) tms = of_xvc (jtag_run s tms) /\
  (tap_run (of_xvc s) tms = of_xvc s' <-> jtag_run s tms = s').
Proof.
  split; [apply tap_run_of_xvc|]. rewrite tap_run_of_xvc. split; [apply (inj of_xvc)|by intros ->].
Qed.

(** Five TCK cycles with TMS high put the TAP in Test-Logic-Reset from
    every state, and no shorter all-high sequence does so from every state. *)
Theorem five_tms_high_reset (n : nat) :
  (forall s, jtag_run s (replicate n true) = JTAG_TEST_LOGIC_RESET) <-> (5 <= n)%nat.
Proof.
  split.
  - intros H. destruct (decide (5 <= n)%nat) as [|Hn]; [done|].
    specialize (H JTAG_SHIFT_DR) as H1. exfalso.
    do 5 (destruct n as [|n]; [discriminate H1|]). lia.
  - intros Hn s. replace n with (5 + (n - 5))%nat by lia.
    rewrite replicate_add, jtag_run_app.
    replace (jtag_run s (replicate 5 true)) with JTAG_TEST_LOGIC_RESET by (by destruct s).
    induction (n - 5)%nat as [|k IH]; [done|]. exact IH.
Qed.
