(* ===== verification/Bits.v ===== *)
(** Bit-addressed buffers.

    The bit helpers of [mpsse_adapter.c] ([get_bit], [set_bit], [copy_bits])
    and of [bit_copy.h] ([bit_copy], [bit_copy_tms], [byte_copy]).  A buffer is
    the list of the bytes from the pointer on; an access outside it is [None].
    Bit [i] of a buffer is bit [i mod 8] of byte [i / 8] ([lbit]). *)

From S2P Require Import Prelude.

(** ** mpsse_adapter.c *)

(** [!!(p[idx / 8] & (1 << (idx % 8)))]; the callers pass idx >= 0. *)
Definition get_bit (p : list Z) (idx : Z) : option bool :=
  octet ← get_at (idx / 8) p;
  mret (negb (Z.land octet (Z.shiftl 1 (idx mod 8)) =? 0)).

Definition set_bit (p : list Z) (idx : Z) (bit : bool) : option (list Z) :=
  octet ← get_at (idx / 8) p;
  if bit
  then set_at (idx / 8) (u8 (Z.lor octet (Z.shiftl 1 (idx mod 8)))) p
  else set_at (idx / 8) (u8 (Z.land octet (Z.lnot (Z.shiftl 1 (idx mod 8))))) p.

(** The [for] loop of [copy_bits], [n] rounds left; answers the final indices. *)
Fixpoint copy_bits_loop (src : list Z) (fromIdx : Z) (dst : list Z) (toIdx : Z) (n : nat)
  : option (list Z * Z * Z) :=
  match n with
  | O => Some (dst, fromIdx, toIdx)
  | S n =>
      b ← get_bit src fromIdx;
      dst ← set_bit dst toIdx b;
      copy_bits_loop src (fromIdx + 1) dst (toIdx + 1) n
  end.

Definition copy_bits (src : list Z) (fromIdx : Z) (dst : list Z) (toIdx : Z)
    (numBits : Z) (duplicateLastBit : bool) : option (list Z) :=
  '(dst, fromIdx, toIdx) ← copy_bits_loop src fromIdx dst toIdx (Z.to_nat numBits);
  if duplicateLastBit
  then b ← get_bit src (fromIdx - 1); set_bit dst toIdx b
  else Some dst.

(** ** bit_copy.h *)

(** The two-way update [if (bit) dst[di / 8] |= ..; else dst[di / 8] &= ~..]
    that the three functions of the header share with [set_bit]. *)
Definition put_bit (dst : list Z) (di : Z) (bit : Z) : option (list Z) :=
  octet ← get_at (di / 8) dst;
  if negb (bit =? 0)
  then set_at (di / 8) (u8 (Z.lor octet (Z.shiftl 1 (di mod 8)))) dst
  else set_at (di / 8) (u8 (Z.land octet (Z.lnot (Z.shiftl 1 (di mod 8))))) dst.

(** [for (i = 0; i < bit_count / 8; i++) dst[i] = src[i]] *)
Fixpoint bit_copy_fast (dst src : list Z) (i : Z) (n : nat) : option (list Z) :=
  match n with
  | O => Some dst
  | S n =>
      x ← get_at i src;
      dst ← set_at i x dst;
      bit_copy_fast dst src (i + 1) n
  end.

Fixpoint bit_copy_slow (dst : list Z) (dst_offset : Z) (src : list Z) (src_offset i : Z) (n : nat)
  : option (list Z) :=
  match n with
  | O => Some dst
  | S n =>
      let si := u32 (src_offset + i) in
      let di := u32 (dst_offset + i) in
      octet ← get_at (si / 8) src;
      let bit := Z.land (Z.shiftr octet (si mod 8)) 1 in
      dst ← put_bit dst di bit;
      bit_copy_slow dst dst_offset src src_offset (i + 1) n
  end.

(** [src += src_offset / 8; dst += dst_offset / 8] moves the pointers: the
    copy works on the rest of the buffers and leaves what is before alone. *)
Definition bit_copy (dst : list Z) (dst_offset : Z) (src : list Z) (src_offset : Z)
    (bit_count : Z) : option (list Z) :=
  let src' := drop (Z.to_nat (src_offset / 8)) src in
  let before := take (Z.to_nat (dst_offset / 8)) dst in
  let dst' := drop (Z.to_nat (dst_offset / 8)) dst in
  let so := src_offset mod 8 in
  let d_o := dst_offset mod 8 in
  dst' ← (if (so =? 0) && (d_o =? 0) && (bit_count mod 8 =? 0)
          then bit_copy_fast dst' src' 0 (Z.to_nat (bit_count / 8))
          else bit_copy_slow dst' d_o src' so 0 (Z.to_nat bit_count));
  Some (before ++ dst').

Fixpoint bit_copy_tms_loop (dst : list Z) (dst_offset src_byte i : Z) (n : nat) : option (list Z) :=
  match n with
  | O => Some dst
  | S n =>
      let di := u32 (dst_offset + i) in
      let bit := Z.land (Z.shiftr src_byte i) 1 in
      dst ← put_bit dst di bit;
      bit_copy_tms_loop dst dst_offset src_byte (i + 1) n
  end.

(** [src_byte >>= 8 - bit_count] is undefined for bit_count > 8: the shift
    distance is an unsigned difference. *)
Definition bit_copy_tms (dst : list Z) (dst_offset : Z) (src : list Z) (bit_count : Z)
  : option (list Z) :=
  src_byte ← get_at 0 src;
  if bit_count <=? 8 then
    let src_byte := Z.shiftr src_byte (8 - bit_count) in
    let before := take (Z.to_nat (dst_offset / 8)) dst in
    dst' ← bit_copy_tms_loop (drop (Z.to_nat (dst_offset / 8)) dst) (dst_offset mod 8)
             src_byte 0 (Z.to_nat bit_count);
    Some (before ++ dst')
  else None.

(** [byte_copy]: [total_bits = byte_count * 8] rounds of the bit loop. *)
Definition byte_copy (dst : list Z) (dst_offset : Z) (src : list Z) (byte_count : Z)
  : option (list Z) :=
  bit_copy_slow dst dst_offset src 0 0 (Z.to_nat (u32 (byte_count * 8))).

(** ** The bit view of a buffer *)

Definition lbit (l : list Z) (i : Z) : bool := Z.testbit (nth (Z.to_nat (i / 8)) l 0) (i mod 8).

(** Setting one bit, for an index in range. *)
Definition lset (l : list Z) (i : Z) (b : bool) : list Z :=
  let octet := nth (Z.to_nat (i / 8)) l 0 in
  <[Z.to_nat (i / 8) := if b then u8 (Z.lor octet (Z.shiftl 1 (i mod 8)))
                        else u8 (Z.land octet (Z.lnot (Z.shiftl 1 (i mod 8))))]> l.

Definition bits_in (l : list Z) : Z := 8 * zlen l.

Lemma bits_in_nonneg l : 0 <= bits_in l.
Proof. unfold bits_in. pose proof (zlen_nonneg l). lia. Qed.

Lemma byte_index_range l i : 0 <= i < bits_in l -> 0 <= i / 8 < zlen l.
Proof. unfold bits_in. intros. pose proof (Z.div_mod i 8). pose proof (Z.mod_pos_bound i 8). lia. Qed.

Lemma bit_test_spec o k : 0 <= k -> negb (Z.land o (Z.shiftl 1 k) =? 0) = Z.testbit o k.
Proof.
  intros Hk. rewrite Z.shiftl_1_l.
  destruct (Z.testbit o k) eqn:E.
  - apply negb_true_iff, Z.eqb_neq. intros H.
    apply (f_equal (fun x => Z.testbit x k)) in H.
    rewrite Z.land_spec, E, Z.pow2_bits_true, Z.bits_0 in H by done. done.
  - apply negb_false_iff, Z.eqb_eq. apply Z.bits_inj'. intros n Hn.
    rewrite Z.land_spec, Z.bits_0. destruct (Z.eq_dec n k) as [->|Hne].
    + by rewrite E.
    + rewrite Z.pow2_bits_false by done. apply andb_false_r.
Qed.

Lemma bit_extract_spec o k : 0 <= k -> (Z.land (Z.shiftr o k) 1 =? 0) = negb (Z.testbit o k).
Proof.
  intros Hk. change 1 with (Z.ones 1). rewrite Z.land_ones by lia.
  rewrite Z.testbit_eqb by done. rewrite Z.shiftr_div_pow2 by done. change (2 ^ 1) with 2.
  pose proof (Z.mod_pos_bound (o / 2 ^ k) 2). 
  destruct (Z.eqb_spec (o / 2 ^ k mod 2) 0), (Z.eqb_spec (o / 2 ^ k mod 2) 1); (done || lia).
Qed.

Lemma u8_testbit x k : Z.testbit (u8 x) k = (k <? 8) && Z.testbit x k.
Proof.
  unfold u8. destruct (Z.ltb_spec k 8).
  - by rewrite Z.mod_pow2_bits_low by lia.
  - by rewrite Z.mod_pow2_bits_high by lia.
Qed.

Lemma get_bit_ok l i : 0 <= i < bits_in l -> get_bit l i = Some (lbit l i).
Proof.
  intros H. unfold get_bit. rewrite get_at_ok by (by apply byte_index_range).
  cbn. f_equal. apply bit_test_spec. apply Z.mod_pos_bound. lia.
Qed.

Lemma set_bit_ok l i b : 0 <= i < bits_in l -> set_bit l i b = Some (lset l i b).
Proof.
  intros H. apply byte_index_range in H. unfold set_bit, lset.
  rewrite get_at_ok by done. cbn. by destruct b; rewrite set_at_ok by done.
Qed.

Lemma put_bit_ok l i bit b :
  0 <= i < bits_in l -> (bit =? 0) = negb b -> put_bit l i bit = Some (lset l i b).
Proof.
  intros H Hb. apply byte_index_range in H. unfold put_bit, lset.
  rewrite get_at_ok by done. cbn. rewrite Hb, negb_involutive.
  by destruct b; rewrite set_at_ok by done.
Qed.

Lemma length_lset l i b : length (lset l i b) = length l.
Proof. apply length_insert. Qed.

Lemma zlen_lset l i b : zlen (lset l i b) = zlen l.
Proof. unfold zlen. by rewrite length_lset. Qed.

Lemma bits_in_lset l i b : bits_in (lset l i b) = bits_in l.
Proof. unfold bits_in. by rewrite zlen_lset. Qed.
#[export] Hint Rewrite zlen_lset bits_in_lset : zlen.

Lemma lbit_lset l i j b :
  0 <= i < bits_in l -> 0 <= j -> lbit (lset l i b) j = if j =? i then b else lbit l j.
Proof.
  intros Hi Hj. pose proof (byte_index_range _ _ Hi) as Hr. unfold lbit, lset.
  set (o := nth (Z.to_nat (i / 8)) l 0).
  assert (Hm : 0 <= i mod 8 < 8) by (apply Z.mod_pos_bound; lia).
  assert (Hm' : 0 <= j mod 8 < 8) by (apply Z.mod_pos_bound; lia).
  destruct (Z.eq_dec (j / 8) (i / 8)) as [Hd|Hd].
  - rewrite Hd. unfold zlen in Hr.
    rewrite nth_lookup, list_lookup_insert_eq by lia. cbn.
    assert (Hji : (j =? i) = (j mod 8 =? i mod 8)).
    { pose proof (Z.div_mod i 8). pose proof (Z.div_mod j 8).
      destruct (Z.eqb_spec j i), (Z.eqb_spec (j mod 8) (i mod 8)); (done || lia). }
    rewrite Hji. fold o.
    destruct b; rewrite u8_testbit; rewrite (proj2 (Z.ltb_lt _ _)) by lia; cbn.
    + rewrite Z.lor_spec, Z.shiftl_1_l.
      destruct (Z.eqb_spec (j mod 8) (i mod 8)) as [->|Hne].
      * rewrite Z.pow2_bits_true by lia. apply orb_true_r.
      * rewrite Z.pow2_bits_false by done. apply orb_false_r.
    + rewrite Z.land_spec, Z.lnot_spec, Z.shiftl_1_l by lia.
      destruct (Z.eqb_spec (j mod 8) (i mod 8)) as [->|Hne].
      * rewrite Z.pow2_bits_true by lia. apply andb_false_r.
      * rewrite Z.pow2_bits_false by done. apply andb_true_r.
  - assert (0 <= j / 8) by (apply Z.div_pos; lia).
    rewrite !nth_lookup, list_lookup_insert_ne by lia.
    rewrite (proj2 (Z.eqb_neq j i)); [done|]. by intros ->.
Qed.

#[export] Hint Rewrite @length_lset : zlen.

(** Byte arrays with the same bits are equal. *)
Lemma byte_bits_eq x y :
  byte_ok x -> byte_ok y -> (forall k, 0 <= k < 8 -> Z.testbit x k = Z.testbit y k) -> x = y.
Proof.
  intros Hx Hy H. apply Z.bits_inj'. intros n Hn.
  destruct (Z.lt_ge_cases n 8); [apply H; lia|].
  rewrite <- (u8_id x), <- (u8_id y), !u8_testbit by done.
  by rewrite (proj2 (Z.ltb_ge n 8)).
Qed.

Lemma lbit_ext l k :
  Forall byte_ok l -> Forall byte_ok k -> length l = length k ->
  (forall j, 0 <= j < bits_in l -> lbit l j = lbit k j) -> l = k.
Proof.
  intros Hl Hk Hlen H. apply (nth_ext _ _ 0 0); [done|]. intros n Hn.
  rewrite Forall_forall in Hl, Hk.
  apply byte_bits_eq; [apply Hl|apply Hk|]; [apply list_elem_of_In, nth_In; lia..|].
  intros i Hi. specialize (H (8 * Z.of_nat n + i)). unfold lbit in H.
  replace ((8 * Z.of_nat n + i) / 8) with (Z.of_nat n) in H by (apply Z.div_unique with i; lia).
  replace ((8 * Z.of_nat n + i) mod 8) with i in H by (apply Z.mod_unique with (Z.of_nat n); lia).
  rewrite Nat2Z.id in H. apply H. unfold bits_in, zlen. lia.
Qed.

Lemma lset_byte_ok l i b : Forall byte_ok l -> Forall byte_ok (lset l i b).
Proof. intros H. unfold lset. apply Forall_insert; [done|]. destruct b; apply u8_byte_ok. Qed.
#[export] Hint Resolve lset_byte_ok : xvc.

(** [bits_copied src from dst to n dst']: [dst'] is [dst] with the [n] bits
    from [from] of [src] written at [to].  The contract of every copy here. *)
Definition bits_copied (src : list Z) (from : Z) (dst : list Z) (to n : Z) (dst' : list Z) : Prop :=
  length dst' = length dst /\
  (Forall byte_ok dst -> Forall byte_ok dst') /\
  forall j, 0 <= j -> lbit dst' j =
    if (to <=? j) && (j <? to + n) then lbit src (from + (j - to)) else lbit dst j.

Lemma bits_copied_unique src from dst to n d1 d2 :
  Forall byte_ok dst -> bits_copied src from dst to n d1 -> bits_copied src from dst to n d2 ->
  d1 = d2.
Proof.
  intros Hd (L1 & B1 & H1) (L2 & B2 & H2). apply lbit_ext; [by auto..|congruence|].
  intros j Hj. rewrite H1, H2 by lia. done.
Qed.

Lemma bits_copied_nil src from dst to : bits_copied src from dst to 0 dst.
Proof. repeat split; [done|]. intros j Hj. zcase ((to <=? j) && (j <? to + 0)); [lia|done]. Qed.

(** One round of a bit loop followed by the rest. *)
Lemma bits_copied_step src from dst to n dst' :
  0 <= to < bits_in dst -> 0 <= n ->
  bits_copied src (from + 1) (lset dst to (lbit src from)) (to + 1) n dst' ->
  bits_copied src from dst to (n + 1) dst'.
Proof.
  intros Hto Hn (L & B & H). repeat split.
  - by rewrite L, length_lset.
  - auto with xvc.
  - intros j Hj. rewrite H, lbit_lset by done.
    zcase ((to + 1 <=? j) && (j <? to + 1 + n)); zcase ((to <=? j) && (j <? to + (n + 1)));
      zcase (j =? to); try lia; try done.
    + f_equal. lia.
    + subst. f_equal. lia.
Qed.

Lemma copy_bits_loop_ok src from dst to n :
  0 <= from -> 0 <= to -> from + Z.of_nat n <= bits_in src -> to + Z.of_nat n <= bits_in dst ->
  exists dst', copy_bits_loop src from dst to n = Some (dst', from + Z.of_nat n, to + Z.of_nat n) /\
               bits_copied src from dst to (Z.of_nat n) dst'.
Proof.
  revert from dst to. induction n as [|n IH]; intros from dst to Hf Ht Hs Hd.
  - exists dst. rewrite !Z.add_0_r. split; [done|apply bits_copied_nil].
  - cbn [copy_bits_loop]. rewrite get_bit_ok by lia. cbn. rewrite set_bit_ok by lia. cbn.
    destruct (IH (from + 1) (lset dst to (lbit src from)) (to + 1)) as (dst' & E & H);
      rewrite ?bits_in_lset; try lia.
    exists dst'. rewrite E. split.
    + do 2 f_equal; [f_equal|]; lia.
    + rewrite Nat2Z.inj_succ. apply bits_copied_step; [lia..|done].
Qed.

Lemma bit_copy_slow_ok dst dst_offset src src_offset i n :
  0 <= src_offset -> 0 <= dst_offset -> 0 <= i ->
  src_offset + i + Z.of_nat n <= bits_in src -> dst_offset + i + Z.of_nat n <= bits_in dst ->
  bits_in src <= 2 ^ 32 -> bits_in dst <= 2 ^ 32 ->
  exists dst', bit_copy_slow dst dst_offset src src_offset i n = Some dst' /\
               bits_copied src (src_offset + i) dst (dst_offset + i) (Z.of_nat n) dst'.
Proof.
  revert dst i. induction n as [|n IH]; intros dst i Hf Ht Hi Hs Hd Ws Wd.
  - exists dst. split; [done|apply bits_copied_nil].
  - cbn [bit_copy_slow]. rewrite !u32_id by lia.
    rewrite get_at_ok by (apply byte_index_range; lia). cbn.
    rewrite (put_bit_ok _ _ _ (lbit src (src_offset + i))); [|lia|].
    2: { apply bit_extract_spec. apply Z.mod_pos_bound. lia. }
    cbn.
    destruct (IH (lset dst (dst_offset + i) (lbit src (src_offset + i))) (i + 1))
      as (dst' & E & H); rewrite ?bits_in_lset; try lia.
    exists dst'. split; [exact E|].
    rewrite Nat2Z.inj_succ. apply bits_copied_step; [lia..|]. by rewrite <- !Z.add_assoc.
Qed.

Lemma lbit_byte l k b :
  0 <= k -> 0 <= b < 8 -> lbit l (8 * k + b) = Z.testbit (nth (Z.to_nat k) l 0) b.
Proof.
  intros Hk Hb. unfold lbit.
  replace ((8 * k + b) / 8) with k by (apply Z.div_unique with b; lia).
  by replace ((8 * k + b) mod 8) with b by (apply Z.mod_unique with k; lia).
Qed.

(** Every bit index is a byte index and a position in the byte. *)
Lemma bit_index_split j : 0 <= j -> exists k b, j = 8 * k + b /\ 0 <= k /\ 0 <= b < 8.
Proof.
  intros Hj. exists (j / 8), (j mod 8). pose proof (Z.div_mod j 8).
  pose proof (Z.mod_pos_bound j 8). pose proof (Z.div_pos j 8). lia.
Qed.

Lemma lbit_drop l k j : 0 <= k -> 0 <= j -> lbit (drop (Z.to_nat k) l) j = lbit l (8 * k + j).
Proof.
  intros Hk Hj. destruct (bit_index_split j Hj) as (m & b & -> & Hm & Hb).
  rewrite lbit_byte by done. replace (8 * k + (8 * m + b)) with (8 * (k + m) + b) by lia.
  rewrite lbit_byte by lia. rewrite !nth_lookup, lookup_drop. do 3 f_equal. lia.
Qed.

Lemma lbit_app_l l k j : 0 <= j < bits_in l -> lbit (l ++ k) j = lbit l j.
Proof.
  intros Hj. pose proof (byte_index_range _ _ Hj) as Hr. unfold lbit, zlen in *.
  by rewrite app_nth1 by lia.
Qed.

Lemma lbit_app_r l k j : bits_in l <= j -> lbit (l ++ k) j = lbit k (j - bits_in l).
Proof.
  intros Hj. pose proof (bits_in_nonneg l).
  destruct (bit_index_split (j - bits_in l)) as (m & b & E & Hm & Hb); [lia|].
  rewrite E. replace j with (8 * (zlen l + m) + b) by (unfold bits_in in *; lia).
  rewrite !lbit_byte by (pose proof (zlen_nonneg l); lia). unfold zlen.
  rewrite app_nth2 by lia. do 2 f_equal. lia.
Qed.

Lemma bits_in_drop k l : 0 <= k -> 8 * k <= bits_in l -> bits_in (drop (Z.to_nat k) l) = bits_in l - 8 * k.
Proof. unfold bits_in, zlen. intros. rewrite length_drop. lia. Qed.

(** The fast path copies whole bytes. *)
Lemma bit_copy_fast_loop dst src i n :
  0 <= i -> i + Z.of_nat n <= zlen src -> i + Z.of_nat n <= zlen dst ->
  bit_copy_fast dst src i n =
    Some (take (Z.to_nat i) dst ++ take n (drop (Z.to_nat i) src) ++ drop (Z.to_nat i + n) dst).
Proof.
  revert dst i. induction n as [|n IH]; intros dst i Hi Hs Hd.
  - cbn [bit_copy_fast]. rewrite take_0, Nat.add_0_r. cbn [app]. by rewrite take_drop.
  - cbn [bit_copy_fast]. rewrite get_at_ok by lia. cbn. rewrite set_at_ok by lia. cbn.
    set (x := nth (Z.to_nat i) src 0). unfold zlen in *.
    assert (Hx : src !! Z.to_nat i = Some x).
    { destruct (lookup_lt_is_Some_2 src (Z.to_nat i)) as [y Hy]; [lia|].
      subst x. by rewrite nth_lookup, Hy. }
    rewrite IH by (rewrite ?length_insert; lia). f_equal.
    replace (Z.to_nat (i + 1)) with (Datatypes.S (Z.to_nat i)) by lia.
    rewrite (take_S_r _ _ x) by (apply list_lookup_insert_eq; lia).
    rewrite take_insert_ge, drop_insert_lt by lia.
    rewrite <- app_assoc. cbn. f_equal.
    rewrite (drop_S src x _ Hx). cbn. do 3 f_equal. lia.
Qed.

Lemma bit_copy_fast_ok dst src n :
  0 <= n -> n <= zlen src -> n <= zlen dst -> Forall byte_ok src ->
  exists dst', bit_copy_fast dst src 0 (Z.to_nat n) = Some dst' /\
               bits_copied src 0 dst 0 (8 * n) dst'.
Proof.
  intros Hn Hs Hd Hb. rewrite bit_copy_fast_loop by lia. eexists. split; [done|].
  change (Z.to_nat 0) with 0%nat. rewrite take_0, drop_0. cbn [app Nat.add].
  unfold zlen in *. repeat split.
  - rewrite length_app, length_take, length_drop. lia.
  - intros Hd'. apply Forall_app. split; [by apply Forall_take|by apply Forall_drop].
  - intros j Hj.
    assert (Hb' : bits_in (take (Z.to_nat n) src) = 8 * n).
    { unfold bits_in, zlen. rewrite length_take. lia. }
    zcase ((0 <=? j) && (j <? 0 + 8 * n)).
    + rewrite lbit_app_l by lia. rewrite Z.sub_0_r, Z.add_0_l.
      rewrite <- (take_drop (Z.to_nat n) src) at 2. by rewrite lbit_app_l by lia.
    + rewrite lbit_app_r by lia. rewrite Hb', lbit_drop by lia. f_equal. lia.
Qed.

Lemma copy_bits_ok src from dst to n :
  0 <= from -> 0 <= to -> 0 <= n -> from + n <= bits_in src -> to + n <= bits_in dst ->
  exists dst', copy_bits src from dst to n false = Some dst' /\ bits_copied src from dst to n dst'.
Proof.
  intros. destruct (copy_bits_loop_ok src from dst to (Z.to_nat n)) as (dst' & E & H'); [lia..|].
  exists dst'. unfold copy_bits. rewrite E. split; [done|]. by rewrite Z2Nat.id in H'.
Qed.

(** Moving both base pointers by whole bytes. *)
Lemma bits_copied_shift src so dst d_o n dst' ks kd :
  0 <= ks -> 0 <= kd -> 0 <= so -> 0 <= d_o -> 0 <= n ->
  8 * kd + d_o + n <= bits_in dst -> 8 * kd <= bits_in dst ->
  bits_copied (drop (Z.to_nat ks) src) so (drop (Z.to_nat kd) dst) d_o n dst' ->
  bits_copied src (8 * ks + so) dst (8 * kd + d_o) n (take (Z.to_nat kd) dst ++ dst').
Proof.
  intros Hks Hkd Hso Hdo Hn Hd Hk (L & B & H).
  assert (Ht : bits_in (take (Z.to_nat kd) dst) = 8 * kd).
  { unfold bits_in, zlen in *. rewrite length_take. lia. }
  repeat split.
  - rewrite length_app, L, length_take, length_drop. lia.
  - intros Hb. apply Forall_app. split; [by apply Forall_take|]. apply B. by apply Forall_drop.
  - intros j Hj. destruct (Z.lt_ge_cases j (8 * kd)).
    + rewrite lbit_app_l by lia.
      zcase ((8 * kd + d_o <=? j) && (j <? 8 * kd + d_o + n)); [lia|].
      rewrite <- (take_drop (Z.to_nat kd) dst) at 2. by rewrite lbit_app_l by lia.
    + rewrite lbit_app_r by lia. rewrite Ht, H by lia.
      zcase ((d_o <=? j - 8 * kd) && (j - 8 * kd <? d_o + n));
        zcase ((8 * kd + d_o <=? j) && (j <? 8 * kd + d_o + n)); try lia.
      * rewrite lbit_drop by lia. f_equal. lia.
      * rewrite lbit_drop by lia. f_equal. lia.
Qed.

Lemma bit_copy_ok dst d_o src so n :
  0 <= so -> 0 <= d_o -> 0 <= n -> so + n <= bits_in src -> d_o + n <= bits_in dst ->
  bits_in src <= 2 ^ 32 -> bits_in dst <= 2 ^ 32 -> Forall byte_ok src ->
  exists dst', bit_copy dst d_o src so n = Some dst' /\ bits_copied src so dst d_o n dst'.
Proof.
  intros Hso Hdo Hn Hs Hd Ws Wd Hb. unfold bit_copy.
  destruct (bit_index_split so Hso) as (ks & bs & -> & Hks & Hbs).
  destruct (bit_index_split d_o Hdo) as (kd & bd & -> & Hkd & Hbd).
  replace ((8 * ks + bs) / 8) with ks by (apply Z.div_unique with bs; lia).
  replace ((8 * kd + bd) / 8) with kd by (apply Z.div_unique with bd; lia).
  replace ((8 * ks + bs) mod 8) with bs by (apply Z.mod_unique with ks; lia).
  replace ((8 * kd + bd) mod 8) with bd by (apply Z.mod_unique with kd; lia).
  pose proof (bits_in_drop ks src Hks) as Hls. pose proof (bits_in_drop kd dst Hkd) as Hld.
  destruct ((bs =? 0) && (bd =? 0) && (n mod 8 =? 0)) eqn:E; zb.
  - subst bs bd. pose proof (Z.div_mod n 8). unfold bits_in in Hls, Hld, Hs, Hd.
    destruct (bit_copy_fast_ok (drop (Z.to_nat kd) dst) (drop (Z.to_nat ks) src) (n / 8))
      as (dst' & E' & Hc); [apply Z.div_pos; lia|lia|lia|by apply Forall_drop|].
    rewrite E'. eexists. split; [done|].
    apply bits_copied_shift; unfold bits_in; try lia.
    by replace n with (8 * (n / 8)) at 1 by lia.
  - destruct (bit_copy_slow_ok (drop (Z.to_nat kd) dst) bd (drop (Z.to_nat ks) src) bs 0 (Z.to_nat n))
      as (dst' & E' & Hc); [lia..|].
    rewrite E'. eexists. split; [done|]. rewrite !Z.add_0_r, Z2Nat.id in Hc by done.
    apply bits_copied_shift; (lia || done).
Qed.

Lemma bit_copy_tms_loop_ok dst d_o b i n :
  0 <= d_o -> 0 <= i -> d_o + i + Z.of_nat n <= bits_in dst -> bits_in dst <= 2 ^ 32 ->
  i + Z.of_nat n <= 8 -> 
  exists dst', bit_copy_tms_loop dst d_o b i n = Some dst' /\
               bits_copied [b] i dst (d_o + i) (Z.of_nat n) dst'.
Proof.
  revert dst i. induction n as [|n IH]; intros dst i Hd Hi Hl Wd H8.
  - exists dst. split; [done|apply bits_copied_nil].
  - cbn [bit_copy_tms_loop]. rewrite u32_id by lia.
    assert (Hbit : lbit [b] i = Z.testbit b i).
    { replace i with (8 * 0 + i) at 1 by lia. by rewrite lbit_byte by lia. }
    rewrite (put_bit_ok _ _ _ (lbit [b] i)); [|lia|].
    2: { rewrite Hbit. apply bit_extract_spec. lia. }
    cbn. destruct (IH (lset dst (d_o + i) (lbit [b] i)) (i + 1)) as (dst' & E & H);
      rewrite ?bits_in_lset; try lia.
    exists dst'. split; [exact E|].
    rewrite Nat2Z.inj_succ. apply bits_copied_step; [lia..|]. by rewrite <- !Z.add_assoc.
Qed.

(** [lputs d i os]: the bits [os] written from bit [i] on. *)
Fixpoint lputs (d : list Z) (i : Z) (os : list bool) : list Z :=
  match os with
  | [] => d
  | o :: os => lputs (lset d i o) (i + 1) os
  end.

Lemma lputs_app d i os1 os2 :
  lputs d i (os1 ++ os2) = lputs (lputs d i os1) (i + zlen os1) os2.
Proof.
  revert d i. induction os1 as [|o os1 IH]; intros d i; cbn [lputs app].
  - by rewrite zlen_nil, Z.add_0_r.
  - rewrite IH, zlen_cons. f_equal. lia.
Qed.

Lemma length_lputs d i os : length (lputs d i os) = length d.
Proof. revert d i. induction os as [|o os IH]; intros; cbn; [done|]. by rewrite IH, length_lset. Qed.

Lemma zlen_lputs d i os : zlen (lputs d i os) = zlen d.
Proof. unfold zlen. by rewrite length_lputs. Qed.

Lemma lputs_byte_ok d i os : Forall byte_ok d -> Forall byte_ok (lputs d i os).
Proof. revert d i. induction os as [|o os IH]; intros d i Hd; cbn; auto with xvc. Qed.
#[export] Hint Resolve lputs_byte_ok : xvc.

Lemma lbit_lputs d i os j :
  0 <= i -> i + zlen os <= bits_in d -> 0 <= j ->
  lbit (lputs d i os) j =
    if (i <=? j) && (j <? i + zlen os) then nth (Z.to_nat (j - i)) os false else lbit d j.
Proof.
  revert d i. induction os as [|o os IH]; intros d i Hi Hlen Hj; cbn [lputs].
  - rewrite zlen_nil. zcase ((i <=? j) && (j <? i + 0)); [lia|done].
  - rewrite zlen_cons in *. pose proof (zlen_nonneg os).
    rewrite IH by (rewrite ?bits_in_lset; lia). rewrite lbit_lset by lia.
    zcase ((i + 1 <=? j) && (j <? i + 1 + zlen os)); zcase ((i <=? j) && (j <? i + (1 + zlen os)));
      zcase (j =? i); try lia; try done.
    + replace (Z.to_nat (j - i)) with (S (Z.to_nat (j - (i + 1)))) by lia. done.
    + subst. by rewrite Z.sub_diag.
Qed.

(** A copy whose source range holds the bits [os] is [lputs]. *)
Lemma bits_copied_lputs src from d to os d' :
  Forall byte_ok d -> 0 <= to -> to + zlen os <= bits_in d ->
  (forall i, (i < length os)%nat -> lbit src (from + Z.of_nat i) = nth i os false) ->
  bits_copied src from d to (zlen os) d' -> d' = lputs d to os.
Proof.
  intros Hd Hto Hlen Hos (L & B & H).
  apply lbit_ext; [by auto|by auto with xvc|by rewrite length_lputs|].
  intros j Hj. rewrite H, lbit_lputs by lia.
  zcase ((to <=? j) && (j <? to + zlen os)); [|done]. unfold zlen in *.
  rewrite <- Hos by lia. f_equal. lia.
Qed.

(** ** Properties *)

(** C23: [copy_bits] on buffers that hold both bit ranges stays inside them,
    writes exactly the [numBits] bits of the source range at the destination
    range, repeats the last of them once more when asked to, and changes no
    other bit of the destination. *)
Theorem copy_bits_correct (src dst : list Z) (from to n : Z) (dup : bool) :
  0 <= from -> 0 <= to -> 1 <= n ->
  from + n <= bits_in src -> to + n + Z.b2z dup <= bits_in dst ->
  exists dst', copy_bits src from dst to n dup = Some dst' /\ length dst' = length dst /\
    forall j, 0 <= j -> lbit dst' j =
      if (to <=? j) && (j <? to + n) then lbit src (from + (j - to))
      else if dup && (j =? to + n) then lbit src (from + n - 1)
      else lbit dst j.
Proof.
  intros Hf Ht Hn Hs Hd.
  destruct (copy_bits_loop_ok src from dst to (Z.to_nat n)) as (d1 & E & L & _ & H);
    [destruct dup; cbn in Hd; lia..|].
  rewrite Z2Nat.id in * by lia. unfold copy_bits. rewrite E. cbn.
  destruct dup; cbn in Hd |- *.
  - rewrite get_bit_ok by lia. cbn.
    assert (Hb : bits_in d1 = bits_in dst) by (unfold bits_in, zlen; by rewrite L).
    rewrite set_bit_ok by lia. eexists. split; [done|]. split; [by rewrite length_lset|].
    intros j Hj. rewrite lbit_lset, H by lia.
    zcase ((to <=? j) && (j <? to + n)); zcase (j =? to + n); (lia || done).
  - exists d1. split; [done|]. split; [done|]. intros j Hj. by rewrite H.
Qed.

Lemma copy_bits_correct_witness :
  (1 <= 3 /\ 6 + 3 <= bits_in [0x5a; 0x01]) /\
  exists dst', copy_bits [0x5a; 0x01] 6 [0xff] 2 3 true = Some dst' /\ length dst' = length [0xff] /\
    forall j, 0 <= j -> lbit dst' j =
      if (2 <=? j) && (j <? 2 + 3) then lbit [0x5a; 0x01] (6 + (j - 2))
      else if true && (j =? 2 + 3) then lbit [0x5a; 0x01] (6 + 3 - 1)
      else lbit [0xff] j.
Proof.
  split; [unfold bits_in, zlen; cbn; lia|].
  apply (copy_bits_correct [0x5a; 0x01] [0xff] 6 2 3 true); unfold bits_in, zlen; cbn; lia.
Defined.

(** C24: the three copies of bit_copy.h are [copy_bits]: [bit_copy], with its
    byte-aligned fast path and its moved base pointers, on every pair of bit
    offsets; [byte_copy] as the copy of [8 * k] bits; [bit_copy_tms] as the
    copy of the [k] most significant bits of the response byte, lowest first. *)
Theorem bit_copy_refines_copy_bits (src dst : list Z) (so d_o n k : Z) :
  Forall byte_ok src -> Forall byte_ok dst -> bits_in src <= 2 ^ 32 -> bits_in dst <= 2 ^ 32 ->
  0 <= so -> 0 <= d_o -> 0 <= n -> so + n <= bits_in src -> d_o + n <= bits_in dst ->
  0 <= k <= 8 -> k <= n -> 8 <= bits_in src ->
  bit_copy dst d_o src so n = copy_bits src so dst d_o n false /\
  bit_copy_tms dst d_o src k = copy_bits src (8 - k) dst d_o k false /\
  (8 * k <= n -> 8 * k <= bits_in src ->
   byte_copy dst d_o src k = copy_bits src 0 dst d_o (8 * k) false).
Proof.
  intros Hbs Hbd Ws Wd Hso Hdo Hn Hs Hd Hk Hkn H8. repeat split.
  - destruct (bit_copy_ok dst d_o src so n) as (d1 & E1 & H1); try done.
    destruct (copy_bits_ok src so dst d_o n) as (d2 & E2 & H2); try done.
    rewrite E1, E2. f_equal. by eapply bits_copied_unique.
  - destruct (copy_bits_ok src (8 - k) dst d_o k) as (d2 & E2 & H2); [lia..|]. rewrite E2.
    unfold bit_copy_tms. rewrite get_at_ok by (unfold bits_in in H8; lia). cbn.
    rewrite (proj2 (Z.leb_le k 8)) by lia.
    destruct (bit_index_split d_o Hdo) as (kd & bd & -> & Hkd & Hbd').
    replace ((8 * kd + bd) / 8) with kd by (apply Z.div_unique with bd; lia).
    replace ((8 * kd + bd) mod 8) with bd by (apply Z.mod_unique with kd; lia).
    set (b := nth (Z.to_nat 0) src 0).
    destruct (bit_copy_tms_loop_ok (drop (Z.to_nat kd) dst) bd (Z.shiftr b (8 - k)) 0 (Z.to_nat k))
      as (d1 & E1 & H1); rewrite ?bits_in_drop; try lia.
    rewrite E1. cbn. f_equal. rewrite Z2Nat.id, Z.add_0_r in H1 by lia.
    apply (bits_copied_shift [Z.shiftr b (8 - k)] 0 dst bd k d1 0 kd) in H1; [|lia..].
    apply (bits_copied_unique src (8 - k) dst (8 * kd + bd) k _ _ Hbd); [|exact H2].
    destruct H1 as (L1 & B1 & H1). repeat split; [done..|]. intros j Hj. rewrite H1 by done.
    zcase ((8 * kd + bd <=? j) && (j <? 8 * kd + bd + k)); [|done].
    set (i := j - (8 * kd + bd)).
    replace (8 * 0 + 0 + i) with (8 * 0 + i) by lia.
    replace (8 - k + i) with (8 * 0 + (8 - k + i)) by lia. rewrite !lbit_byte by lia.
    fold b. change (nth (Z.to_nat 0) [Z.shiftr b (8 - k)] 0) with (Z.shiftr b (8 - k)).
    rewrite Z.shiftr_spec by lia. f_equal. lia.
  - intros H8n Hks. unfold byte_copy. rewrite u32_id by lia.
    destruct (copy_bits_ok src 0 dst d_o (8 * k)) as (d2 & E2 & H2); [lia..|]. rewrite E2.
    destruct (bit_copy_slow_ok dst d_o src 0 0 (Z.to_nat (k * 8))) as (d1 & E1 & H1); [lia..|].
    rewrite E1. f_equal. rewrite Z2Nat.id, !Z.add_0_r, (Z.mul_comm k 8) in H1 by lia.
    by eapply bits_copied_unique.
Qed.

Lemma bit_copy_refines_copy_bits_witness :
  (Forall byte_ok [0x5a; 0x91] /\ Forall byte_ok [0xff; 0x00; 0xff] /\ 0 <= 3 /\ 5 + 9 <= 24) /\
  (bit_copy [0xff; 0x00; 0xff] 5 [0x5a; 0x91] 3 9 = copy_bits [0x5a; 0x91] 3 [0xff; 0x00; 0xff] 5 9 false /\
   bit_copy_tms [0xff; 0x00; 0xff] 5 [0x5a; 0x91] 1 =
     copy_bits [0x5a; 0x91] (8 - 1) [0xff; 0x00; 0xff] 5 1 false /\
   (8 * 1 <= 9 -> 8 * 1 <= bits_in [0x5a; 0x91] ->
    byte_copy [0xff; 0x00; 0xff] 5 [0x5a; 0x91] 1 =
      copy_bits [0x5a; 0x91] 0 [0xff; 0x00; 0xff] 5 (8 * 1) false)).
Proof.
  split; [repeat split; repeat constructor; unfold byte_ok; lia|].
  apply (bit_copy_refines_copy_bits [0x5a; 0x91] [0xff; 0x00; 0xff] 3 5 9 1);
    try (unfold bits_in, zlen; cbn; lia); repeat constructor; unfold byte_ok; lia.
Defined.
