(* ===== verification/Memory.v ===== *)
(** The C heap.

    Blocks of bytes by identifier, as [malloc] hands them out; a pointer is a
    block and an offset.  The answers of [malloc] are part of the state: the
    list [m_fail] says which of the next calls fail, and [m_junk] what a fresh
    block holds.  Every access outside a live block, a double free included,
    is [Undef]. *)

From S2P Require Import Prelude.

Inductive ptr :=
  | NULL
  | Ptr (block : nat) (offset : Z).

#[export] Instance ptr_eq_dec : EqDecision ptr.
Proof. solve_decision. Defined.

Definition is_null (p : ptr) : bool := match p with NULL => true | _ => false end.

Definition ptr_add (p : ptr) (n : Z) : ptr :=
  match p with NULL => NULL | Ptr b o => Ptr b (o + n) end.

Record mem := mk_mem {
  m_blocks : gmap nat (list Z);
  m_next : nat;
  m_fail : list bool;
  m_junk : nat -> nat -> Z
}.
#[export] Instance eta_mem : Eta mem := fun m =>
  mk_mem (m_blocks m) (m_next m) (m_fail m) (m_junk m).

(** The bytes from a pointer to the end of its block. *)
Definition load_from (m : mem) (p : ptr) : option (list Z) :=
  match p with
  | NULL => None
  | Ptr b o =>
      l ← m_blocks m !! b;
      if (0 <=? o) && (o <=? zlen l) then Some (drop (Z.to_nat o) l) else None
  end.

Definition load_bytes (m : mem) (p : ptr) (n : Z) : option (list Z) :=
  match p with
  | NULL => None
  | Ptr b o => l ← m_blocks m !! b; read_at o n l
  end.

Definition load8 (m : mem) (p : ptr) : option Z :=
  match p with
  | NULL => None
  | Ptr b o => l ← m_blocks m !! b; get_at o l
  end.

(** Update the bytes from a pointer on; [f] keeps the length. *)
Definition update_from (m : mem) (p : ptr) (f : list Z -> option (list Z)) : option mem :=
  match p with
  | NULL => None
  | Ptr b o =>
      l ← m_blocks m !! b;
      if (0 <=? o) && (o <=? zlen l) then
        d ← f (drop (Z.to_nat o) l);
        Some (m <| m_blocks := <[b := take (Z.to_nat o) l ++ d]> (m_blocks m) |>)
      else None
  end.

Definition store_bytes (m : mem) (p : ptr) (d : list Z) : option mem :=
  match p with
  | NULL => None
  | Ptr b o =>
      l ← m_blocks m !! b;
      l' ← write_at o d l;
      Some (m <| m_blocks := <[b := l']> (m_blocks m) |>)
  end.

Definition malloc (m : mem) (n : Z) : ptr * mem :=
  match m_fail m with
  | true :: rest => (NULL, m <| m_fail := rest |>)
  | _ =>
      (Ptr (m_next m) 0,
       m <| m_blocks := <[m_next m := map (fun i => u8 (m_junk m (m_next m) i)) (seq 0 (Z.to_nat n))]> (m_blocks m) |>
         <| m_next := S (m_next m) |> <| m_fail := tail (m_fail m) |>)
  end.

(** [calloc] of a structure kept outside the heap model: only its success matters. *)
Definition alloc_ok (m : mem) : bool * mem :=
  match m_fail m with
  | b :: rest => (negb b, m <| m_fail := rest |>)
  | [] => (true, m)
  end.

(** [malloc] of an array that its structure keeps outside the heap model: the
    contents are whatever was there. *)
Definition malloc_array (m : mem) (n : Z) : option (list Z) * mem :=
  match m_fail m with
  | true :: rest => (None, m <| m_fail := rest |>)
  | _ =>
      (Some (map (fun i => u8 (m_junk m (m_next m) i)) (seq 0 (Z.to_nat n))),
       m <| m_next := S (m_next m) |> <| m_fail := tail (m_fail m) |>)
  end.

Definition free (m : mem) (p : ptr) : option mem :=
  match p with
  | NULL => Some m
  | Ptr b o =>
      _ ← m_blocks m !! b;
      if o =? 0 then Some (m <| m_blocks := delete b (m_blocks m) |>) else None
  end.

(** [memset(p, c, n)] where [n] was converted from [int] to [size_t]. *)
Definition memset (m : mem) (p : ptr) (c n : Z) : option mem :=
  match p with
  | NULL => None
  | Ptr b o =>
      l ← m_blocks m !! b;
      if o + u64 n <=? zlen l then store_bytes m p (replicate (Z.to_nat (u64 n)) (u8 c)) else None
  end.

(** No live block has an identifier that [malloc] may still hand out. *)
Definition mem_wf (m : mem) : Prop :=
  forall b l, m_blocks m !! b = Some l -> (b < m_next m)%nat.

Lemma malloc_fresh m n p m' :
  mem_wf m -> malloc m n = (p, m') ->
  mem_wf m' /\ match p with
               | NULL => m_blocks m' = m_blocks m
               | Ptr b o => o = 0 /\ m_blocks m !! b = None /\
                   exists l, zlen l = Z.max 0 n /\ Forall byte_ok l /\ m_blocks m' = <[b := l]> (m_blocks m)
               end.
Proof.
  intros Hwf. unfold malloc.
  destruct (m_fail m) as [|[] rest] eqn:E; intros [= <- <-]; cbn; try (split; [exact Hwf|done]);
    (split; [|split; [done|split]]).
  1, 4: intros b l; cbn; rewrite lookup_insert_Some;
    intros [[<- _]|[_ H]]; [lia|specialize (Hwf _ _ H); lia].
  1, 3: destruct (m_blocks m !! m_next m) eqn:E'; [specialize (Hwf _ _ E'); lia|done].
  all: eexists; split; [|split; [|done]].
  1, 3: unfold zlen; rewrite length_map, length_seq; lia.
  all: apply Forall_map, Forall_forall; intros; apply u8_byte_ok.
Qed.

Lemma malloc_array_length m n l m' :
  0 <= n -> malloc_array m n = (Some l, m') -> zlen l = n.
Proof.
  intros Hn. unfold malloc_array.
  destruct (m_fail m) as [|[] rest]; intros [= <- <-]; unfold zlen; rewrite length_map, length_seq; lia.
Qed.

Lemma malloc_array_blocks m n r m' : malloc_array m n = (r, m') -> m_blocks m' = m_blocks m.
Proof. unfold malloc_array. by destruct (m_fail m) as [|[] rest]; intros [= <- <-]. Qed.

Lemma free_live m p m' : free m p = Some m' -> mem_wf m -> mem_wf m'.
Proof.
  unfold free. destruct p as [|b o]; [by intros [= <-]|].
  destruct (m_blocks m !! b) eqn:E; [|done]. cbn. destruct (o =? 0); [|done].
  intros [= <-] H b' l'. cbn. rewrite lookup_delete_Some. intros [_ Hb]. eauto.
Qed.

(** A freed block is dead: any later use of a pointer into it is undefined. *)
Lemma free_dead m b m' o n :
  free m (Ptr b 0) = Some m' ->
  load_bytes m' (Ptr b o) n = None /\ store_bytes m' (Ptr b o) [] = None /\
  free m' (Ptr b 0) = None.
Proof.
  unfold free at 1. destruct (m_blocks m !! b) eqn:E; [|done]. intros [= <-].
  unfold load_bytes, store_bytes, free. cbn. by rewrite lookup_delete_eq.
Qed.

(** ** What a write through a pointer leaves alone

    [mem_frame p m m']: [m'] differs from [m] at most in the bytes from [p] to
    the end of its block. *)

Definition mem_frame (p : ptr) (m m' : mem) : Prop :=
  m_next m' = m_next m /\ m_fail m' = m_fail m /\ m_junk m' = m_junk m /\
  match p with
  | NULL => m_blocks m' = m_blocks m
  | Ptr b o =>
      (forall b', b' <> b -> m_blocks m' !! b' = m_blocks m !! b') /\
      (forall l, m_blocks m !! b = Some l -> exists l', m_blocks m' !! b = Some l' /\
         length l' = length l /\ take (Z.to_nat o) l' = take (Z.to_nat o) l) /\
      (m_blocks m !! b = None -> m_blocks m' !! b = None)
  end.

#[export] Instance mem_frame_preorder p : PreOrder (mem_frame p).
Proof.
  split.
  - intros m. unfold mem_frame. destruct p; repeat split; eauto.
  - intros m1 m2 m3. unfold mem_frame. destruct p as [|b o].
    + intros (-> & -> & -> & ->) (-> & -> & -> & ->). done.
    + intros (-> & -> & -> & A1 & B1 & C1) (-> & -> & -> & A2 & B2 & C2).
      do 3 (split; [done|]). split; [|split].
      * intros b' Hb. by rewrite A2, A1.
      * intros l Hl. destruct (B1 l Hl) as (l1 & H1 & L1 & T1).
        destruct (B2 l1 H1) as (l2 & H2 & L2 & T2). exists l2. split; [done|].
        split; congruence.
      * auto.
Qed.

Lemma load_from_Ptr m b o d :
  load_from m (Ptr b o) = Some d <->
  exists l, m_blocks m !! b = Some l /\ 0 <= o <= zlen l /\ d = drop (Z.to_nat o) l.
Proof.
  unfold load_from. split.
  - destruct (m_blocks m !! b) as [l|]; [|done]. cbn.
    destruct ((0 <=? o) && (o <=? zlen l)) eqn:E; [|done]. zb. intros [= <-]. eauto.
  - intros (l & -> & [H1 H2] & ->). cbn. apply Z.leb_le in H1, H2. by rewrite H1, H2.
Qed.

(** The bytes from a pointer elsewhere survive a framed write. *)
Lemma load_from_frame b o m m' q d :
  mem_frame (Ptr b o) m m' -> match q with NULL => False | Ptr b' _ => b' <> b end ->
  load_from m q = Some d -> load_from m' q = Some d.
Proof.
  destruct q as [|b' o']; [done|]. intros (_ & _ & _ & A & _) Hb.
  rewrite !load_from_Ptr. by rewrite A.
Qed.

Lemma load_bytes_frame b o m m' q n d :
  mem_frame (Ptr b o) m m' -> match q with NULL => False | Ptr b' _ => b' <> b end ->
  load_bytes m q n = Some d -> load_bytes m' q n = Some d.
Proof.
  destruct q as [|b' o']; [done|]. intros (_ & _ & _ & A & _) Hb. cbn. by rewrite A.
Qed.

Lemma update_block_frame m b o l d' :
  m_blocks m !! b = Some l -> 0 <= o <= zlen l -> length d' = length (drop (Z.to_nat o) l) ->
  let m' := m <| m_blocks := <[b := take (Z.to_nat o) l ++ d']> (m_blocks m) |> in
  load_from m' (Ptr b o) = Some d' /\ mem_frame (Ptr b o) m m'.
Proof.
  intros Hl Ho Hd m'. unfold zlen in Ho.
  assert (Ht : length (take (Z.to_nat o) l) = Z.to_nat o) by (rewrite length_take; lia).
  split.
  - apply load_from_Ptr. exists (take (Z.to_nat o) l ++ d'). subst m'. cbn.
    rewrite lookup_insert_eq. split; [done|]. split.
    + unfold zlen. rewrite length_app. lia.
    + by rewrite drop_app_length'.
  - subst m'. repeat split; cbn.
    + intros b' Hb. by rewrite lookup_insert_ne.
    + intros l0 Hl0. rewrite Hl in Hl0. injection Hl0 as <-. rewrite lookup_insert_eq.
      eexists. split; [done|]. split.
      * rewrite length_app, Hd, length_take, length_drop. lia.
      * by rewrite take_app_length'.
    + intros Hn. by rewrite Hl in Hn.
Qed.

Lemma update_from_ok m b o f d d' :
  load_from m (Ptr b o) = Some d -> f d = Some d' -> length d' = length d ->
  exists m', update_from m (Ptr b o) f = Some m' /\ load_from m' (Ptr b o) = Some d' /\
             mem_frame (Ptr b o) m m'.
Proof.
  intros (l & Hl & Ho & ->)%load_from_Ptr Hf Hlen.
  destruct (update_block_frame m b o l d' Hl Ho Hlen) as [H1 H2].
  eexists. split; [|exact (conj H1 H2)]. unfold update_from. rewrite Hl. cbn.
  destruct Ho as [Ho1 Ho2]. apply Z.leb_le in Ho1, Ho2. rewrite Ho1, Ho2. cbn. by rewrite Hf.
Qed.

Lemma write_at_drop {A} o k (x l d' : list A) :
  0 <= o <= zlen l -> 0 <= k -> write_at k x (drop (Z.to_nat o) l) = Some d' ->
  write_at (o + k) x l = Some (take (Z.to_nat o) l ++ d').
Proof.
  intros Ho Hk. unfold write_at.
  destruct ((0 <=? k) && _) eqn:E; [|done]. zb. intros [= <-].
  unfold zlen in *. rewrite length_drop in *.
  rewrite (proj2 (Z.leb_le 0 (o + k))), (proj2 (Z.leb_le _ _)) by lia. cbn. f_equal.
  assert (Htk : take (Z.to_nat (o + k)) l =
                take (Z.to_nat o) l ++ take (Z.to_nat k) (drop (Z.to_nat o) l)).
  { rewrite <- (take_drop (Z.to_nat o) l) at 1.
    rewrite take_app_ge by (rewrite length_take; lia). do 2 f_equal.
    rewrite length_take. lia. }
  rewrite Htk, drop_drop, <- !app_assoc. do 4 f_equal. lia.
Qed.

Lemma store_bytes_from m b o k x d d' :
  load_from m (Ptr b o) = Some d -> 0 <= k -> write_at k x d = Some d' ->
  exists m', store_bytes m (Ptr b (o + k)) x = Some m' /\ load_from m' (Ptr b o) = Some d' /\
             mem_frame (Ptr b o) m m'.
Proof.
  intros (l & Hl & Ho & ->)%load_from_Ptr Hk Hw.
  pose proof (write_at_length _ _ _ _ Hw) as Hlen.
  destruct (update_block_frame m b o l d' Hl Ho Hlen) as [H1 H2].
  eexists. split; [|exact (conj H1 H2)].
  unfold store_bytes. rewrite Hl. cbn. by rewrite (write_at_drop _ _ _ _ _ Ho Hk Hw).
Qed.

Lemma mem_frame_wf p m m' : mem_frame p m m' -> mem_wf m -> mem_wf m'.
Proof.
  intros (Hn & _ & _ & Hp) Hwf b l Hl. rewrite Hn. destruct p as [|b0 o].
  - rewrite Hp in Hl. eauto.
  - destruct Hp as (A & B & C). destruct (decide (b = b0)) as [->|Hb].
    + destruct (m_blocks m !! b0) as [l0|] eqn:E; [eauto|]. by rewrite C in Hl.
    + rewrite A in Hl by done. eauto.
Qed.

(** Blocks other than the written one are untouched. *)
Lemma mem_frame_other b o m m' b' :
  mem_frame (Ptr b o) m m' -> b' <> b -> m_blocks m' !! b' = m_blocks m !! b'.
Proof. intros (_ & _ & _ & A & _) Hb. by apply A. Qed.

Lemma mem_frame_fail p m m' : mem_frame p m m' -> m_fail m' = m_fail m.
Proof. by intros (_ & F & _). Qed.

(** A load depends on its block only. *)
Lemma load_from_block m m' b o :
  m_blocks m' !! b = m_blocks m !! b -> load_from m' (Ptr b o) = load_from m (Ptr b o).
Proof. intros Hb. cbn. by rewrite Hb. Qed.

Lemma load_from_add m b o k d :
  load_from m (Ptr b o) = Some d -> 0 <= k <= zlen d ->
  load_from m (Ptr b (o + k)) = Some (drop (Z.to_nat k) d).
Proof.
  intros (l & Hl & Ho & ->)%load_from_Ptr Hk. apply load_from_Ptr. exists l. unfold zlen in *.
  rewrite length_drop in Hk. split; [done|]. split; [lia|]. rewrite drop_drop. f_equal. lia.
Qed.

(** A fresh block is none of the caller's. *)
Lemma malloc_ok m n :
  mem_wf m -> m_fail m = [] -> 0 <= n ->
  exists b l m', malloc m n = (Ptr b 0, m') /\ mem_wf m' /\ m_fail m' = [] /\ zlen l = n /\ Forall byte_ok l /\
    m_blocks m !! b = None /\ m_blocks m' = <[b := l]> (m_blocks m).
Proof.
  intros Hwf Hf Hn. destruct (malloc m n) as [p m'] eqn:E1.
  pose proof (malloc_fresh m n p m' Hwf E1) as [Hwf' Hp].
  unfold malloc in E1. rewrite Hf in E1. injection E1 as <- <-.
  destruct Hp as (_ & Hb & l & Hl & Hbl & Hm). eexists _, l, _. split; [reflexivity|].
  split_and!; try done. cbn. lia.
Qed.

(** ** memset *)

(** The bytes of a vector after [memset(p, 0, total)]. *)
Definition cleared (total : Z) (d : list Z) : list Z :=
  replicate (Z.to_nat total) 0 ++ drop (Z.to_nat total) d.

Lemma memset_ok m b o d n :
  load_from m (Ptr b o) = Some d -> 0 <= n <= zlen d -> n < 2 ^ 64 ->
  exists m', memset m (Ptr b o) 0 n = Some m' /\ load_from m' (Ptr b o) = Some (cleared n d) /\
    mem_frame (Ptr b o) m m'.
Proof.
  intros Hd Hn Hmax. pose proof Hd as (l & Hl & Ho & ->)%load_from_Ptr.
  assert (Hu : u64 n = n) by (apply Z.mod_small; lia).
  assert (Hw : write_at 0 (replicate (Z.to_nat n) 0) (drop (Z.to_nat o) l) = Some (cleared n (drop (Z.to_nat o) l))).
  { rewrite write_at_ok; [|lia|rewrite zlen_replicate by lia; lia].
    change (Z.to_nat 0) with 0%nat. rewrite take_0. cbn [app]. by rewrite length_replicate. }
  destruct (store_bytes_from m b o 0 _ _ _ Hd ltac:(lia) Hw) as (m' & E1 & L1 & F1).
  exists m'. split; [|done]. unfold memset. rewrite Hl. cbn [mbind option_bind]. rewrite Hu.
  unfold zlen in Hn, Ho. rewrite length_drop in Hn. rewrite (proj2 (Z.leb_le _ _)) by (unfold zlen; lia).
  rewrite Z.add_0_r in E1. exact E1.
Qed.

Lemma ptr_add_0 p : ptr_add p 0 = p.
Proof. destruct p; cbn; [done|]. f_equal. lia. Qed.
