(* ===== verification/CString.v ===== *)
(** C strings.

    A C string is the Rocq string of its bytes up to the terminating NUL.
    The functions of <string.h>, <ctype.h>, <stdlib.h> and the conversions of
    [snprintf] that the program uses, in the "C" locale. *)

From S2P Require Import Prelude.
From Stdlib Require Import Ascii String.
Open Scope Z_scope.

Notation LF := (Ascii.Ascii false true false true false false false false).

(** ** Lengths and prefixes *)

Definition strlen (s : string) : Z := Z.of_nat (String.length s).

(** The first [n] bytes of a string. *)
Fixpoint str_take (n : nat) (s : string) : string :=
  match n, s with
  | S n, String c s => String c (str_take n s)
  | _, _ => ""%string
  end.

Fixpoint str_drop (n : nat) (s : string) : string :=
  match n, s with
  | S n, String _ s => str_drop n s
  | _, _ => s
  end.

(** [snprintf(buf, size, ..)] and [strncpy] into a zeroed field of [size]
    bytes with bound [size - 1] keep the first [size - 1] bytes. *)
Definition truncated (size : Z) (s : string) : string := str_take (Z.to_nat (size - 1)) s.

(** [strncmp(s, p, strlen(p)) == 0] *)
Definition has_prefix (p s : string) : bool := String.prefix p s.

(** [strchr(s, c)] splits the string around the first occurrence. *)
Fixpoint str_chr (c : ascii) (s : string) : option (string * string) :=
  match s with
  | EmptyString => None
  | String d s' =>
      if Ascii.eqb d c then Some (""%string, s')
      else '(l, r) ← str_chr c s'; Some (String d l, r)
  end.

(** [strrchr] *)
Definition str_rchr (c : ascii) (s : string) : option (string * string) :=
  (fix go (s : string) : option (string * string) :=
     match s with
     | EmptyString => None
     | String d s' =>
         match go s' with
         | Some (l, r) => Some (String d l, r)
         | None => if Ascii.eqb d c then Some (""%string, s') else None
         end
     end) s.

(** ** Characters *)

Definition code (c : ascii) : Z := Z.of_N (N_of_ascii c).

Definition isspace (c : ascii) : bool :=
  (code c =? 32) || ((9 <=? code c) && (code c <=? 13)).

Definition isdigit (c : ascii) : bool := (48 <=? code c) && (code c <=? 57).

Definition tolower (c : ascii) : ascii :=
  if (65 <=? code c) && (code c <=? 90) then ascii_of_N (Z.to_N (code c + 32)) else c.

(** [strcasecmp(a, b) == 0] *)
Fixpoint str_caseeq (a b : string) : bool :=
  match a, b with
  | EmptyString, EmptyString => true
  | String c a, String d b => Ascii.eqb (tolower c) (tolower d) && str_caseeq a b
  | _, _ => false
  end.

(** ** Printing integers *)

Definition digit (d : Z) : ascii := ascii_of_N (Z.to_N (48 + d)).

(** The digits of [n >= 0], most significant first; 20 digits hold any
    64-bit value. *)
Fixpoint dec_digits (fuel : nat) (n : Z) : string :=
  match fuel with
  | O => String (digit (n mod 10)) ""
  | S f => if n <? 10 then String (digit n) ""
           else (dec_digits f (n / 10) +:+ String (digit (n mod 10)) "")%string
  end.

(** ["%u"] of a value in [0, 2^64). *)
Definition fmt_u (n : Z) : string := dec_digits 20 n.

(** ["%d"] *)
Definition fmt_d (n : Z) : string := if n <? 0 then ("-" +:+ fmt_u (- n))%string else fmt_u n.

Definition hex_digit (d : Z) : ascii :=
  ascii_of_N (Z.to_N (if d <? 10 then 48 + d else 55 + d)).

(** ["%02X"] of a byte *)
Definition fmt_02X (b : Z) : string :=
  String (hex_digit (b / 16 mod 16)) (String (hex_digit (b mod 16)) "").

(** ["%04X"] of a 16-bit value *)
Definition fmt_04X (x : Z) : string := (fmt_02X (x / 256) +:+ fmt_02X (x mod 256))%string.

(** ** Reading integers *)

(** The value of a run of decimal digits, continuing from [acc]. *)
Fixpoint read_dec (acc : Z) (s : string) : Z :=
  match s with
  | String c s' => if isdigit c then read_dec (10 * acc + (code c - 48)) s' else acc
  | EmptyString => acc
  end.

Fixpoint skip_space (s : string) : string :=
  match s with
  | String c s' => if isspace c then skip_space s' else s
  | EmptyString => s
  end.

Definition read_sign (s : string) : Z * string :=
  match s with
  | String c s' => if code c =? 45 then (-1, s') else if code c =? 43 then (1, s') else (1, s)
  | EmptyString => (1, s)
  end.

Definition LONG_MIN : Z := - 2 ^ 63.
Definition LONG_MAX : Z := 2 ^ 63 - 1.
Definition clamp (lo hi x : Z) : Z := Z.max lo (Z.min hi x).

(** [strtol(s, NULL, 10)] saturates at the range of [long]; [atoi(s)] is
    [(int) strtol(s, NULL, 10)]. *)
Definition strtol10 (s : string) : Z :=
  let '(sg, s) := read_sign (skip_space s) in clamp LONG_MIN LONG_MAX (sg * read_dec 0 s).

Definition atoi (s : string) : Z := i32 (strtol10 s).

Definition digit_value (c : ascii) : Z :=
  if isdigit c then code c - 48
  else if (97 <=? code (tolower c)) && (code (tolower c) <=? 122) then code (tolower c) - 87
  else 36.

Fixpoint read_base (base acc : Z) (s : string) : Z :=
  match s with
  | String c s' => if digit_value c <? base then read_base base (base * acc + digit_value c) s' else acc
  | EmptyString => acc
  end.

(** The prefix of base 0: "0x" before a hexadecimal digit is base 16, a
    leading "0" is base 8, anything else base 10. *)
Definition read_base0 (s : string) : Z :=
  match s with
  | String c0 (String c1 (String c2 _ as r)) =>
      if (code c0 =? 48) && (code (tolower c1) =? 120) && (digit_value c2 <? 16)
      then read_base 16 0 r
      else if code c0 =? 48 then read_base 8 0 s else read_base 10 0 s
  | String c0 _ => if code c0 =? 48 then read_base 8 0 s else read_base 10 0 s
  | EmptyString => 0
  end.

Definition strtol0 (s : string) : Z :=
  let '(sg, s) := read_sign (skip_space s) in clamp LONG_MIN LONG_MAX (sg * read_base0 s).

(** [strtoul(s, NULL, 0)]: saturates, and negates modulo [2 ^ 64]. *)
Definition strtoul0 (s : string) : Z :=
  let '(sg, s) := read_sign (skip_space s) in
  let v := Z.min (2 ^ 64 - 1) (read_base0 s) in
  if read_base0 s <=? 2 ^ 64 - 1 then u64 (sg * v) else v.

(** ** Lemmas *)

Lemma str_take_all n s : (String.length s <= n)%nat -> str_take n s = s.
Proof.
  revert s. induction n as [|n IH]; intros [|c s] Hn; cbn in *; try done; [lia|]. by rewrite IH by lia.
Qed.

Lemma truncated_id n s : strlen s < n -> truncated n s = s.
Proof. unfold strlen, truncated. intros. apply str_take_all. lia. Qed.

Lemma app_string_cons c (a b : string) : (String c a +:+ b)%string = String c (a +:+ b)%string.
Proof. done. Qed.

Lemma app_string_empty (b : string) : ("" +:+ b)%string = b.
Proof. done. Qed.

Lemma app_string_assoc (a b c : string) : ((a +:+ b) +:+ c)%string = (a +:+ (b +:+ c))%string.
Proof. induction a as [|x a IH]; [done|]. exact (f_equal (String x) IH). Qed.

Lemma app_string_nil (a : string) : (a +:+ "")%string = a.
Proof. induction a as [|x a IH]; [done|]. exact (f_equal (String x) IH). Qed.

Lemma length_app_string (a b : string) : String.length (a +:+ b)%string = (String.length a + String.length b)%nat.
Proof. induction a as [|x a IH]; [done|]. exact (f_equal S IH). Qed.

(** A property of all characters. *)
Fixpoint all_chars (f : ascii -> bool) (s : string) : bool :=
  match s with
  | String c s => f c && all_chars f s
  | EmptyString => true
  end.

Lemma all_chars_app f a b : all_chars f (a +:+ b)%string = all_chars f a && all_chars f b.
Proof. induction a as [|x a IH]; [done|].
  change (f x && all_chars f (a +:+ b)%string = f x && all_chars f a && all_chars f b). by rewrite IH, andb_assoc. Qed.

Lemma all_chars_impl (f g : ascii -> bool) s :
  (forall c, f c = true -> g c = true) -> all_chars f s = true -> all_chars g s = true.
Proof.
  intros Hfg. induction s as [|c s IH]; [done|]. cbn. intros [H1 H2]%andb_true_iff. by rewrite Hfg, IH.
Qed.

Lemma str_chr_app c a b : all_chars (fun d => negb (Ascii.eqb d c)) a = true ->
  str_chr c (a +:+ String c b)%string = Some (a, b).
Proof.
  induction a as [|d a IH]; rewrite ?app_string_cons, ?app_string_empty; cbn [str_chr all_chars];
    [by rewrite Ascii.eqb_refl|].
  intros [H1 H2]%andb_true_iff. apply negb_true_iff in H1. rewrite H1, IH by done. done.
Qed.

Lemma str_chr_none c a : all_chars (fun d => negb (Ascii.eqb d c)) a = true -> str_chr c a = None.
Proof.
  induction a as [|d a IH]; cbn; [done|]. intros [H1 H2]%andb_true_iff. apply negb_true_iff in H1. by rewrite H1, IH.
Qed.

(** *** Printed integers are read back *)

Lemma code_digit d : 0 <= d < 10 -> code (digit d) = 48 + d.
Proof.
  intros Hd. unfold code, digit. rewrite N_ascii_embedding by lia. rewrite Z2N.id; lia.
Qed.

Lemma isdigit_digit d : 0 <= d < 10 -> isdigit (digit d) = true.
Proof. intros Hd. unfold isdigit. rewrite code_digit by done. apply andb_true_iff. split; apply Z.leb_le; lia. Qed.

Lemma read_dec_app acc s t : all_chars isdigit s = true -> read_dec acc (s +:+ t)%string = read_dec (read_dec acc s) t.
Proof.
  revert acc. induction s as [|c s IH]; intros acc; [done|]. cbn [all_chars]. intros [H1 H2]%andb_true_iff.
  change (read_dec acc (String c (s +:+ t)%string) = read_dec (read_dec acc (String c s)) t). cbn [read_dec].
  rewrite H1. by apply IH.
Qed.

Lemma dec_digits_ok f n :
  0 <= n < 10 ^ (Z.of_nat f + 1) ->
  all_chars isdigit (dec_digits f n) = true /\ read_dec 0 (dec_digits f n) = n.
Proof.
  revert n. induction f as [|f IH]; intros n Hn; cbn [dec_digits].
  - change (10 ^ (Z.of_nat 0 + 1)) with 10 in Hn. rewrite Z.mod_small by lia. cbn.
    rewrite isdigit_digit, code_digit by lia. split; [done|lia].
  - destruct (Z.ltb_spec n 10).
    + cbn. rewrite isdigit_digit, code_digit by lia. split; [done|lia].
    + pose proof (Z.div_mod n 10). pose proof (Z.mod_pos_bound n 10).
      assert (Hp : 10 ^ (Z.of_nat (S f) + 1) = 10 * 10 ^ (Z.of_nat f + 1)).
      { rewrite <- Z.pow_succ_r by lia. f_equal. lia. }
      assert (Hd : 0 <= n / 10 < 10 ^ (Z.of_nat f + 1)).
      { split; [apply Z.div_pos; lia|]. apply Z.div_lt_upper_bound; lia. }
      destruct (IH (n / 10) Hd) as [IH1 IH2]. rewrite all_chars_app, read_dec_app by done. rewrite IH1, IH2. cbn.
      rewrite isdigit_digit, code_digit by lia. split; [done|lia].
Qed.

Lemma fmt_u_ok n : 0 <= n < 2 ^ 64 -> all_chars isdigit (fmt_u n) = true /\ read_dec 0 (fmt_u n) = n.
Proof. intros Hn. apply dec_digits_ok. change (Z.of_nat 20 + 1) with 21. lia. Qed.

(** The first digit of a positive number is not zero. *)
Lemma dec_digits_head f n :
  1 <= n < 10 ^ (Z.of_nat f + 1) -> exists c s, dec_digits f n = String c s /\ code c <> 48 /\ isdigit c = true.
Proof.
  revert n. induction f as [|f IH]; intros n Hn; cbn [dec_digits].
  - change (10 ^ (Z.of_nat 0 + 1)) with 10 in Hn. rewrite Z.mod_small by lia. eexists _, _. split; [done|].
    rewrite code_digit by lia. split; [lia|by apply isdigit_digit; lia].
  - destruct (Z.ltb_spec n 10).
    + eexists _, _. split; [done|]. rewrite code_digit by lia. split; [lia|by apply isdigit_digit; lia].
    + pose proof (Z.div_mod n 10). pose proof (Z.mod_pos_bound n 10).
      assert (Hp : 10 ^ (Z.of_nat (S f) + 1) = 10 * 10 ^ (Z.of_nat f + 1)).
      { rewrite <- Z.pow_succ_r by lia. f_equal. lia. }
      destruct (IH (n / 10)) as (c & s & -> & Hc); [split; [lia|apply Z.div_lt_upper_bound; lia]|].
      eexists _, _. by split.
Qed.

Lemma fmt_u_head n : 0 <= n < 2 ^ 64 -> exists c s, fmt_u n = String c s /\ isdigit c = true /\ (1 <= n -> code c <> 48).
Proof.
  intros Hn. destruct (Z.eq_dec n 0) as [->|].
  - eexists _, _. split; [done|]. split; [done|lia].
  - destruct (dec_digits_head 20 n) as (c & s & E1 & Hc & Hd); [change (Z.of_nat 20 + 1) with 21; lia|].
    exists c, s. by split_and!.
Qed.

Lemma isdigit_code c : isdigit c = true -> 48 <= code c <= 57.
Proof. unfold isdigit. intros [H1%Z.leb_le H2%Z.leb_le]%andb_true_iff. done. Qed.

Lemma read_sign_digit c s : isdigit c = true -> read_sign (String c s) = (1, String c s).
Proof.
  intros Hd%isdigit_code. cbn. rewrite (proj2 (Z.eqb_neq _ _)), (proj2 (Z.eqb_neq _ _)) by lia. done.
Qed.

Lemma skip_space_digit c s : isdigit c = true -> skip_space (String c s) = String c s.
Proof.
  intros Hd%isdigit_code. cbn. unfold isspace. rewrite (proj2 (Z.eqb_neq _ _)) by lia.
  rewrite (proj2 (Z.leb_gt (code c) 13)) by lia. by rewrite andb_false_r.
Qed.

Lemma fmt_d_cases n : INT_MIN <= n <= INT_MAX ->
  (0 <= n /\ fmt_d n = fmt_u n \/ n < 0 /\ fmt_d n = String "-" (fmt_u (- n))).
Proof. intros Hn. unfold fmt_d. destruct (Z.ltb_spec n 0); [right|left]; by split. Qed.

(** [%d] is read by [atoi]. *)
Lemma atoi_fmt_d n : INT_MIN <= n <= INT_MAX -> atoi (fmt_d n) = n.
Proof.
  intros Hn. pose proof Hn as Hr. unfold INT_MIN, INT_MAX in Hr. unfold atoi.
  assert (Hs : strtol10 (fmt_d n) = n); [|rewrite Hs; by apply i32_id].
  destruct (fmt_d_cases n Hn) as [[H0 ->]|[H0 ->]]; unfold strtol10.
  - destruct (fmt_u_head n ltac:(lia)) as (c & s & E1 & Hd & _). destruct (fmt_u_ok n ltac:(lia)) as [_ Hv].
    rewrite E1 in *. rewrite skip_space_digit, read_sign_digit, Hv by done.
    unfold clamp, LONG_MIN, LONG_MAX. lia.
  - destruct (fmt_u_ok (- n) ltac:(lia)) as [_ Hv]. revert Hv. generalize (fmt_u (- n)). intros u Hv.
    change (skip_space (String "-" u)) with (String "-" u). change (read_sign (String "-" u)) with (-1, u).
    cbv beta iota. rewrite Hv.
    unfold clamp, LONG_MIN, LONG_MAX. lia.
Qed.

Lemma read_base10 acc s : all_chars isdigit s = true -> read_base 10 acc s = read_dec acc s.
Proof.
  revert acc. induction s as [|c s IH]; intros acc; [done|]. cbn [all_chars read_base read_dec].
  intros [H1 H2]%andb_true_iff. unfold digit_value. rewrite H1. apply isdigit_code in H1.
  rewrite (proj2 (Z.ltb_lt _ _)) by lia. by apply IH.
Qed.

Lemma read_base0_dec c s : code c <> 48 -> read_base0 (String c s) = read_base 10 0 (String c s).
Proof.
  intros Hc. apply Z.eqb_neq in Hc. unfold read_base0. destruct s as [|c1 [|c2 s]]; rewrite Hc; done.
Qed.

Lemma read_base0_fmt_u n : 0 <= n < 2 ^ 64 -> read_base0 (fmt_u n) = n.
Proof.
  intros Hn. destruct (Z.eq_dec n 0) as [->|Hne]; [done|].
  destruct (fmt_u_head n Hn) as (c & s & E1 & _ & Hc). destruct (fmt_u_ok n Hn) as [Hd Hv]. rewrite E1 in *.
  rewrite read_base0_dec by (apply Hc; lia). by rewrite read_base10.
Qed.

(** [%u] is read by [strtoul], [%d] by [strtol], in base 0. *)
Lemma strtoul0_fmt_u n : 0 <= n < 2 ^ 64 -> strtoul0 (fmt_u n) = n.
Proof.
  intros Hn. unfold strtoul0. destruct (fmt_u_head n Hn) as (c & s & E1 & Hd & _).
  pose proof (read_base0_fmt_u n Hn) as Hv. rewrite E1 in *. rewrite skip_space_digit, read_sign_digit by done.
  rewrite Hv, Z.min_r, (proj2 (Z.leb_le _ _)) by lia. rewrite Z.mul_1_l. apply Z.mod_small. lia.
Qed.

Lemma strtol0_fmt_d n : INT_MIN <= n <= INT_MAX -> strtol0 (fmt_d n) = n.
Proof.
  intros Hn. pose proof Hn as Hr. unfold INT_MIN, INT_MAX in Hr.
  destruct (fmt_d_cases n Hn) as [[H0 ->]|[H0 ->]]; unfold strtol0.
  - destruct (fmt_u_head n ltac:(lia)) as (c & s & E1 & Hd & _). pose proof (read_base0_fmt_u n ltac:(lia)) as Hv.
    rewrite E1 in *. rewrite skip_space_digit, read_sign_digit, Hv by done. unfold clamp, LONG_MIN, LONG_MAX. lia.
  - pose proof (read_base0_fmt_u (- n) ltac:(lia)) as Hv. revert Hv. generalize (fmt_u (- n)). intros u Hv.
    change (skip_space (String "-" u)) with (String "-" u). change (read_sign (String "-" u)) with (-1, u).
    cbv beta iota. rewrite Hv.
    unfold clamp, LONG_MIN, LONG_MAX. lia.
Qed.

(** *** Parts and lengths *)

Lemma str_take_drop n s : (str_take n s +:+ str_drop n s)%string = s.
Proof.
  revert s. induction n as [|n IH]; intros [|c s]; try done. cbn [str_take str_drop].
  rewrite app_string_cons. by rewrite IH.
Qed.

Lemma str_take_app n a b :
  str_take n (a +:+ b)%string = (str_take n a +:+ str_take (n - String.length a) b)%string.
Proof.
  revert n. induction a as [|c a IH]; intros n.
  - rewrite app_string_empty. cbn [String.length str_take]. rewrite Nat.sub_0_r. by destruct n.
  - destruct n as [|n]; [done|]. cbn [String.length Nat.sub]. rewrite app_string_cons. cbn [str_take].
    by rewrite IH, app_string_cons.
Qed.

Lemma strlen_take n s : strlen (str_take n s) <= Z.of_nat n.
Proof.
  unfold strlen. revert s. induction n as [|n IH]; intros [|c s]; cbn [str_take String.length]; try lia.
  specialize (IH s). lia.
Qed.

Lemma strlen_app a b : strlen (a +:+ b)%string = strlen a + strlen b.
Proof. unfold strlen. rewrite length_app_string. lia. Qed.

Lemma strlen_nonneg s : 0 <= strlen s.
Proof. unfold strlen. lia. Qed.

Lemma strlen_truncated size s : 1 <= size -> strlen (truncated size s) <= size - 1.
Proof. intros Hs. unfold truncated. pose proof (strlen_take (Z.to_nat (size - 1)) s). lia. Qed.

Lemma dec_digits_length f n : (String.length (dec_digits f n) <= S f)%nat.
Proof.
  revert n. induction f as [|f IH]; intros n; cbn [dec_digits]; [done|].
  destruct (n <? 10); [cbn; lia|]. rewrite length_app_string. cbn. specialize (IH (n / 10)). lia.
Qed.

Lemma fmt_u_length n : strlen (fmt_u n) <= 21.
Proof. unfold strlen, fmt_u. pose proof (dec_digits_length 20 n). lia. Qed.

Lemma fmt_d_length n : strlen (fmt_d n) <= 22.
Proof.
  unfold fmt_d. destruct (n <? 0); [|pose proof (fmt_u_length n); lia].
  rewrite app_string_cons, app_string_empty. pose proof (fmt_u_length (- n)). unfold strlen in *. cbn [String.length]. lia.
Qed.
