(* ===== verification/D2xx.v ===== *)
(** The boundary to the FTDI D2XX driver.

    The driver (vendor/, a binary library) is a parameter of the model: a type
    of worlds [W] and the calls the adapter and the device manager make, each a
    function of the world.  [FT_STATUS], [DWORD] and [FT_HANDLE] are integers;
    handle 0 is the null handle.  [FT_Read] answers the bytes it stored, whose
    number is the [actualRead] of the C interface. *)

From S2P Require Import Prelude.

Definition FT_OK : Z := 0.
Definition FT_PURGE_RX : Z := 1.
Definition FT_PURGE_TX : Z := 2.
Definition FT_BITMODE_RESET : Z := 0.
Definition FT_BITMODE_MPSSE : Z := 2.

(** The fields of FT_DEVICE_LIST_INFO_NODE that the program reads. *)
Record FT_DEVICE_LIST_INFO_NODE := mk_ft_node {
  ft_ID : Z;
  ft_SerialNumber : string;
  ft_Description : string
}.

Class D2XX (W : Type) := {
  FT_SetVIDPID : Z -> Z -> W -> Z * W;
  FT_CreateDeviceInfoList : W -> (Z * Z) * W;
  FT_GetDeviceInfoList : Z -> W -> (Z * list FT_DEVICE_LIST_INFO_NODE) * W;
  FT_OpenEx : string -> W -> (Z * Z) * W;
  FT_Open : Z -> W -> (Z * Z) * W;
  FT_ResetDevice : Z -> W -> Z * W;
  FT_Purge : Z -> Z -> W -> Z * W;
  FT_SetUSBParameters : Z -> Z -> Z -> W -> Z * W;
  FT_SetChars : Z -> Z -> Z -> Z -> Z -> W -> Z * W;
  FT_SetTimeouts : Z -> Z -> Z -> W -> Z * W;
  FT_SetBitMode : Z -> Z -> Z -> W -> Z * W;
  FT_GetDeviceInfo : Z -> W -> Z * W;
  FT_GetQueueStatus : Z -> W -> (Z * Z) * W;
  FT_Read : Z -> Z -> W -> (Z * list Z) * W;
  FT_Write : Z -> list Z -> W -> (Z * Z) * W;
  FT_Close : Z -> W -> Z * W
}.

(** ** What the scan relies on of an MPSSE device

    The engine executes the byte stream it receives; [eng_feed] answers the
    engine after the bytes and the response bytes they produced.  One TCK
    cycle of the target with given TMS and TDI levels is [tap_clock]; it
    answers the sampled TDO.  The laws are the command reference of the
    adapter (the OP_ constants of mpsse_adapter.c: every data command shifts
    LSB first, writes and samples on the falling edge; a bit-mode response is
    left-justified; a byte-mode response is one byte per byte; a command whose
    bytes are not complete has produced nothing). *)

(** [n] TCK cycles with TDI from the bits of a byte, lowest first, and TMS
    constant; answers the TDO samples. *)
Fixpoint clock_bits {T} (clk : T -> bool -> bool -> T * bool) (t : T) (bits : list (bool * bool))
  : T * list bool :=
  match bits with
  | [] => (t, [])
  | (tms, tdi) :: bits =>
      let '(t, o) := clk t tms tdi in
      let '(t, os) := clock_bits clk t bits in
      (t, o :: os)
  end.

Definition byte_bits (n : nat) (b : Z) : list bool :=
  map (fun i => Z.testbit b (Z.of_nat i)) (seq 0 n).

(** The TCK cycles of the commands the adapter issues. *)
Definition cycles_tms (n : nat) (b : Z) : list (bool * bool) :=
  map (fun tms => (tms, Z.testbit b 7)) (byte_bits n b).
Definition cycles_bits (tms : bool) (n : nat) (b : Z) : list (bool * bool) :=
  map (fun tdi => (tms, tdi)) (byte_bits n b).
Definition cycles_bytes (tms : bool) (d : list Z) : list (bool * bool) :=
  flat_map (cycles_bits tms 8) d.

(** A response byte carries the samples in its [n] highest bits, first sample
    lowest. *)
Definition left_justified (r : Z) (os : list bool) : Prop :=
  byte_ok r /\ forall i, (i < length os)%nat ->
    Z.testbit r (8 - Z.of_nat (length os) + Z.of_nat i) = nth i os false.

(** A byte-mode response carries eight samples per byte, first sample lowest. *)
Definition packed (r : list Z) (os : list bool) : Prop :=
  Forall byte_ok r /\ length os = (8 * length r)%nat /\
  forall k i, (k < length r)%nat -> (i < 8)%nat ->
    Z.testbit (nth k r 0) (Z.of_nat i) = nth (8 * k + i) os false.

Class MpsseEngine (E T : Type) := {
  eng_feed : E -> list Z -> E * list Z;
  eng_tap : E -> T;
  eng_tms : E -> bool;
  eng_idle : E -> Prop;
  eng_clock : E -> bool * Z;
  tap_clock : T -> bool -> bool -> T * bool
}.

(** The TCK frequency in Hz of a clock setting: 60 MHz, or a fifth of it,
    divided by twice the divisor plus one. *)
Definition tck_hz (clock : bool * Z) : Z := (if clock.1 then 12000000 else 60000000) / ((1 + clock.2) * 2).

Class MpsseEngineLaws E T `{MpsseEngine E T} := {
  eng_feed_nil : forall e, eng_feed e [] = (e, []);
  eng_feed_app : forall e a b,
    eng_feed e (a ++ b) =
      let '(e1, o1) := eng_feed e a in
      let '(e2, o2) := eng_feed e1 b in (e2, o1 ++ o2);
  (** 0x4B: [n] clocks with TMS from the low bits and TDI from bit 7. *)
  eng_tms_no_read : forall e n b, eng_idle e -> (1 <= n <= 7)%nat -> byte_ok b ->
    exists e', eng_feed e [0x4B; Z.of_nat n - 1; b] = (e', []) /\ eng_idle e' /\
      eng_tap e' = (clock_bits tap_clock (eng_tap e) (cycles_tms n b)).1 /\
      eng_tms e' = Z.testbit b (Z.of_nat n - 1);
  (** 0x6F, length 0: one clock with TMS bit 0 and TDI bit 7, TDO in bit 7. *)
  eng_tms_read : forall e b, eng_idle e -> byte_ok b ->
    exists e' r, eng_feed e [0x6F; 0; b] = (e', [r]) /\ eng_idle e' /\
      eng_tap e' = (clock_bits tap_clock (eng_tap e) (cycles_tms 1 b)).1 /\
      left_justified r (clock_bits tap_clock (eng_tap e) (cycles_tms 1 b)).2 /\
      eng_tms e' = Z.testbit b 0;
  (** 0x3F: [n] data bits, TMS unchanged. *)
  eng_data_bits : forall e n b, eng_idle e -> (1 <= n <= 8)%nat -> byte_ok b ->
    exists e' r, eng_feed e [0x3F; Z.of_nat n - 1; b] = (e', [r]) /\ eng_idle e' /\
      eng_tap e' = (clock_bits tap_clock (eng_tap e) (cycles_bits (eng_tms e) n b)).1 /\
      left_justified r (clock_bits tap_clock (eng_tap e) (cycles_bits (eng_tms e) n b)).2 /\
      eng_tms e' = eng_tms e;
  (** 0x3D: a 16-bit length minus one, then the data bytes, TMS unchanged. *)
  eng_data_header : forall e lo hi, eng_idle e -> (eng_feed e [0x3D; lo; hi]).2 = [];
  eng_data_bytes : forall e d, eng_idle e -> Forall byte_ok d -> 1 <= zlen d <= 65536 ->
    exists e' r, eng_feed e ([0x3D; (zlen d - 1) mod 256; (zlen d - 1) / 256] ++ d) = (e', r) /\
      eng_idle e' /\ length r = length d /\
      eng_tap e' = (clock_bits tap_clock (eng_tap e) (cycles_bytes (eng_tms e) d)).1 /\
      packed r (clock_bits tap_clock (eng_tap e) (cycles_bytes (eng_tms e) d)).2 /\
      eng_tms e' = eng_tms e;
  (** 0x8A, then 0x86: no division of the base clock by five, and the clock
      divisor, low byte first; no TCK cycle. *)
  eng_divisor : forall e lo hi, eng_idle e ->
    exists e', eng_feed e [0x8A; 0x86; lo; hi] = (e', []) /\ eng_idle e' /\
      eng_tap e' = eng_tap e /\ eng_tms e' = eng_tms e /\ eng_clock e' = (false, lo + 256 * hi);
  (** 0x85, the divisor, 0x80: the pin levels, TMS in bit 3; no TCK cycle. *)
  eng_setup : forall e lo hi pins dir, eng_idle e ->
    exists e', eng_feed e [0x85; 0x8A; 0x86; lo; hi; 0x80; pins; dir] = (e', []) /\ eng_idle e' /\
      eng_tap e' = eng_tap e /\ eng_tms e' = Z.testbit pins 3
}.

(** A healthy USB link to such a device: [FT_Write] hands every byte to the
    engine, whose responses queue up in [dev_rx]; [FT_Read] takes bytes from
    the queue in order; [FT_GetQueueStatus] reports between one byte and the
    whole queue, after at most [dev_lag] polls that report nothing. *)
Class MpsseDevice (W E T : Type) `{D2XX W} `{MpsseEngine E T} := {
  dev_handle : W -> Z;
  dev_engine : W -> E;
  dev_rx : W -> list Z;
  dev_lag : W -> Z
}.

Class MpsseDeviceLaws W E T `{MpsseDevice W E T} := {
  dev_lag_bound : forall w, 0 <= dev_lag w <= 1000;
  dev_write : forall h w d, h = dev_handle w -> Forall byte_ok d ->
    exists w', FT_Write h d w = ((FT_OK, zlen d), w') /\
      dev_handle w' = h /\
      dev_engine w' = (eng_feed (dev_engine w) d).1 /\
      dev_rx w' = dev_rx w ++ (eng_feed (dev_engine w) d).2;
  dev_poll : forall h w, h = dev_handle w ->
    exists n w', FT_GetQueueStatus h w = ((FT_OK, n), w') /\
      dev_handle w' = h /\ dev_engine w' = dev_engine w /\ dev_rx w' = dev_rx w /\
      0 <= n <= zlen (dev_rx w) /\
      (n = 0 -> dev_rx w <> [] -> dev_lag w' < dev_lag w);
  dev_read : forall h w n, h = dev_handle w -> 0 <= n <= zlen (dev_rx w) ->
    exists w', FT_Read h n w = ((FT_OK, take (Z.to_nat n) (dev_rx w)), w') /\
      dev_handle w' = h /\ dev_engine w' = dev_engine w /\
      dev_rx w' = drop (Z.to_nat n) (dev_rx w)
}.

(** ** What opening and closing rely on

    The driver hands out fresh non-null handles and keeps the others; the
    configuration calls keep the device they are given. *)

Class DriverHandles (W : Type) `{D2XX W} := {
  opened : W -> list Z;
  opened_open_ex : forall s w st h w', FT_OpenEx s w = ((st, h), w') ->
    if st =? FT_OK then h <> 0 /\ (h ∉ opened w) /\ opened w' = h :: opened w else opened w' = opened w;
  opened_open : forall i w st h w', FT_Open i w = ((st, h), w') ->
    if st =? FT_OK then h <> 0 /\ (h ∉ opened w) /\ opened w' = h :: opened w else opened w' = opened w;
  opened_close : forall h w, opened (FT_Close h w).2 = filter (.≠ h) (opened w);
  opened_list : forall w, opened (FT_CreateDeviceInfoList w).2 = opened w;
  opened_reset : forall h w, opened (FT_ResetDevice h w).2 = opened w;
  opened_purge : forall h m w, opened (FT_Purge h m w).2 = opened w;
  opened_usb : forall h a b w, opened (FT_SetUSBParameters h a b w).2 = opened w;
  opened_chars : forall h a b c d w, opened (FT_SetChars h a b c d w).2 = opened w;
  opened_timeouts : forall h a b w, opened (FT_SetTimeouts h a b w).2 = opened w;
  opened_bitmode : forall h a b w, opened (FT_SetBitMode h a b w).2 = opened w;
  opened_info : forall h w, opened (FT_GetDeviceInfo h w).2 = opened w;
  opened_poll : forall h w, opened (FT_GetQueueStatus h w).2 = opened w;
  opened_read : forall h n w, opened (FT_Read h n w).2 = opened w;
  opened_write : forall h d w, opened (FT_Write h d w).2 = opened w
}.

(** A device that can be opened: the handle is the device's, and entering
    MPSSE mode leaves an idle engine and an empty queue. *)
Class MpsseOpenLaws W E T `{MpsseDevice W E T} := {
  dev_open_ex : forall s w h w', FT_OpenEx s w = ((FT_OK, h), w') -> dev_handle w' = h;
  dev_open : forall i w h w', FT_Open i w = ((FT_OK, h), w') -> dev_handle w' = h;
  dev_reset : forall h w, dev_handle (FT_ResetDevice h w).2 = dev_handle w;
  dev_purge : forall h m w, dev_handle (FT_Purge h m w).2 = dev_handle w;
  dev_usb : forall h a b w, dev_handle (FT_SetUSBParameters h a b w).2 = dev_handle w;
  dev_chars : forall h a b c d w, dev_handle (FT_SetChars h a b c d w).2 = dev_handle w;
  dev_timeouts : forall h a b w, dev_handle (FT_SetTimeouts h a b w).2 = dev_handle w;
  dev_bitmode : forall h a b w, dev_handle (FT_SetBitMode h a b w).2 = dev_handle w;
  dev_info : forall h w, let w' := (FT_GetDeviceInfo h w).2 in
    dev_handle w' = dev_handle w /\ dev_engine w' = dev_engine w /\ dev_rx w' = dev_rx w;
  dev_mpsse : forall h w w', FT_SetBitMode h 0 FT_BITMODE_MPSSE w = (FT_OK, w') ->
    eng_idle (dev_engine w') /\ dev_rx w' = []
}.

(** What FT_GetQueueStatus and FT_Read promise of any driver: a queue length
    is below 2^31, a read stores at most what was asked for, and a successful
    read of a queue that was just reported non-empty stores something. *)
Class DriverReads (W : Type) `{D2XX W} : Prop := {
  poll_range : forall h w, 0 <= (FT_GetQueueStatus h w).1.2 < 2 ^ 31;
  read_length : forall h n w, 0 <= n -> zlen (FT_Read h n w).1.2 <= n;
  read_progress : forall h n q w w1, FT_GetQueueStatus h w = ((FT_OK, q), w1) -> 0 < q -> 1 <= n ->
    (FT_Read h n w1).1.1 = FT_OK -> 1 <= zlen (FT_Read h n w1).1.2
}.
