(* ===== verification/SimDevice.v ===== *)
(** A concrete device for the witnesses.

    An MPSSE engine that parses the command stream byte by byte and drives a
    target whose selected register is one bit long, behind a link that answers
    after a few empty polls.  It satisfies the laws of D2xx.v, so the
    hypotheses of the device theorems can hold, and it runs: the witnesses
    evaluate scans on it. *)

From S2P Require Import Prelude Jtag D2xx.

(** ** The target: a TAP with a bypass register *)

Record target := mk_target { tg_state : jtag_state; tg_reg : bool }.

Definition target_clock (t : target) (tms tdi : bool) : target * bool :=
  (mk_target (next_state (tg_state t) tms) (if is_shift (tg_state t) then tdi else tg_reg t),
   tg_reg t).

(** ** The engine *)

(** Bytes of an incomplete command, payload bytes still to come, the target
    and the level of the TMS pin. *)
Record engine := mk_engine {
  en_cmd : list Z;
  en_left : Z;
  en_tap : target;
  en_tms : bool;
  en_clock : bool * Z
}.

(** The value of a list of bits, lowest first. *)
Fixpoint pack (os : list bool) : Z :=
  match os with
  | [] => 0
  | o :: os => Z.b2z o + 2 * pack os
  end.

Definition justify (os : list bool) : Z := Z.shiftl (pack os) (8 - Z.of_nat (length os)).

Definition engine_byte (e : engine) (b : Z) : engine * list Z :=
  if 0 <? en_left e then
    let '(t, os) := clock_bits target_clock (en_tap e) (cycles_bits (en_tms e) 8 b) in
    (mk_engine [] (en_left e - 1) t (en_tms e) (en_clock e), [pack os])
  else
    match en_cmd e with
    | [op; x] =>
        if op =? 0x3D then (mk_engine [] (x + 256 * b + 1) (en_tap e) (en_tms e) (en_clock e), [])
        else if op =? 0x3F then
          let '(t, os) := clock_bits target_clock (en_tap e) (cycles_bits (en_tms e) (Z.to_nat (x + 1)) b) in
          (mk_engine [] 0 t (en_tms e) (en_clock e), [justify os])
        else if op =? 0x4B then
          let '(t, os) := clock_bits target_clock (en_tap e) (cycles_tms (Z.to_nat (x + 1)) b) in
          (mk_engine [] 0 t (Z.testbit b x) (en_clock e), [])
        else if op =? 0x6F then
          let '(t, os) := clock_bits target_clock (en_tap e) (cycles_tms (Z.to_nat (x + 1)) b) in
          (mk_engine [] 0 t (Z.testbit b x) (en_clock e), [justify os])
        else if op =? 0x86 then (mk_engine [] 0 (en_tap e) (en_tms e) ((en_clock e).1, x + 256 * b), [])
        else if op =? 0x80 then (mk_engine [] 0 (en_tap e) (Z.testbit x 3) (en_clock e), [])
        else (mk_engine [] 0 (en_tap e) (en_tms e) (en_clock e), [])
    | [] =>
        if b =? 0x85 then (e, [])
        else if b =? 0x8A then (mk_engine [] 0 (en_tap e) (en_tms e) (false, (en_clock e).2), [])
        else (mk_engine [b] 0 (en_tap e) (en_tms e) (en_clock e), [])
    | l => (mk_engine (l ++ [b]) 0 (en_tap e) (en_tms e) (en_clock e), [])
    end.

Fixpoint engine_feed (e : engine) (bs : list Z) : engine * list Z :=
  match bs with
  | [] => (e, [])
  | b :: bs =>
      let '(e, o) := engine_byte e b in
      let '(e, os) := engine_feed e bs in
      (e, o ++ os)
  end.

#[export] Instance sim_engine : MpsseEngine engine target := {
  eng_feed := engine_feed;
  eng_tap := en_tap;
  eng_tms := en_tms;
  eng_idle := fun e => en_cmd e = [] /\ en_left e = 0;
  eng_clock := en_clock;
  tap_clock := target_clock
}.

(** ** The link *)

Record world := mk_world {
  w_engine : engine;
  w_rx : list Z;
  w_lag : Z;
  w_open : list Z
}.

Definition w_wait (w : world) : Z := Z.max 0 (Z.min 1000 (w_lag w)).

(** One device, which can be open once. *)
Definition sim_open (w : world) : (Z * Z) * world :=
  if bool_decide (1 ∈ w_open w) then ((3, 0), w)
  else ((FT_OK, 1), mk_world (w_engine w) (w_rx w) (w_lag w) (1 :: w_open w)).

#[export] Instance sim_d2xx : D2XX world := {
  FT_SetVIDPID := fun _ _ w => (FT_OK, w);
  FT_CreateDeviceInfoList := fun w => ((FT_OK, 1), w);
  FT_GetDeviceInfoList := fun _ w => ((FT_OK, [mk_ft_node 0x04036010 "210249A" "Digilent USB Device"]), w);
  FT_OpenEx := fun _ w => sim_open w;
  FT_Open := fun _ w => sim_open w;
  FT_ResetDevice := fun _ w => (FT_OK, w);
  FT_Purge := fun _ _ w => (FT_OK, mk_world (w_engine w) [] (w_lag w) (w_open w));
  FT_SetUSBParameters := fun _ _ _ w => (FT_OK, w);
  FT_SetChars := fun _ _ _ _ _ w => (FT_OK, w);
  FT_SetTimeouts := fun _ _ _ w => (FT_OK, w);
  FT_SetBitMode := fun _ _ _ w =>
    (FT_OK, mk_world (mk_engine [] 0 (en_tap (w_engine w)) (en_tms (w_engine w)) (en_clock (w_engine w))) [] (w_lag w) (w_open w));
  FT_GetDeviceInfo := fun _ w => (FT_OK, w);
  FT_GetQueueStatus := fun _ w =>
    if 0 <? w_wait w then ((FT_OK, 0), mk_world (w_engine w) (w_rx w) (w_wait w - 1) (w_open w))
    else ((FT_OK, Z.min (zlen (w_rx w)) INT_MAX), w);
  FT_Read := fun _ n w =>
    ((FT_OK, take (Z.to_nat n) (w_rx w)), mk_world (w_engine w) (drop (Z.to_nat n) (w_rx w)) 1 (w_open w));
  FT_Write := fun _ d w =>
    let '(e, o) := engine_feed (w_engine w) d in
    ((FT_OK, zlen d), mk_world e (w_rx w ++ o) 3 (w_open w));
  FT_Close := fun h w => (FT_OK, mk_world (w_engine w) (w_rx w) (w_lag w) (filter (.≠ h) (w_open w)))
}.

#[export] Instance sim_device : MpsseDevice world engine target := {
  dev_handle := fun _ => 1;
  dev_engine := w_engine;
  dev_rx := w_rx;
  dev_lag := w_wait
}.

(** ** The laws *)

Lemma engine_feed_app e a b :
  engine_feed e (a ++ b) =
    let '(e1, o1) := engine_feed e a in
    let '(e2, o2) := engine_feed e1 b in (e2, o1 ++ o2).
Proof.
  revert e. induction a as [|x a IH]; intros e; cbn [engine_feed app].
  - by destruct (engine_feed e b).
  - destruct (engine_byte e x) as [e1 o1]. rewrite IH.
    destruct (engine_feed e1 a) as [e2 o2]. destruct (engine_feed e2 b) as [e3 o3].
    by rewrite app_assoc.
Qed.

Lemma clock_bits_length {T} (clk : T -> bool -> bool -> T * bool) t l :
  length (clock_bits clk t l).2 = length l.
Proof.
  revert t. induction l as [|[tms tdi] l IH]; intros t; cbn; [done|].
  destruct (clk t tms tdi) as [t1 o]. specialize (IH t1).
  destruct (clock_bits clk t1 l). cbn in *. congruence.
Qed.

Lemma pack_bound os : 0 <= pack os < 2 ^ Z.of_nat (length os).
Proof.
  induction os as [|o os IH]; [cbn; lia|].
  cbn [pack length]. rewrite Nat2Z.inj_succ, Z.pow_succ_r by lia. destruct o; cbn [Z.b2z]; lia.
Qed.

Lemma pack_testbit os i : (i < length os)%nat -> Z.testbit (pack os) (Z.of_nat i) = nth i os false.
Proof.
  revert i. induction os as [|o os IH]; intros i Hi; [cbn in Hi; lia|].
  cbn [pack]. rewrite Z.add_comm. destruct i as [|i].
  - cbn [nth]. by rewrite Z.testbit_0_r.
  - cbn [nth length] in *. rewrite Nat2Z.inj_succ, Z.testbit_succ_r by lia. apply IH. lia.
Qed.

Lemma justify_ok os : (1 <= length os <= 8)%nat -> left_justified (justify os) os.
Proof.
  intros Hl. pose proof (pack_bound os) as Hb. unfold justify. split.
  - unfold byte_ok. rewrite Z.shiftl_mul_pow2 by lia.
    assert (H8 : 2 ^ Z.of_nat (length os) * 2 ^ (8 - Z.of_nat (length os)) = 256).
    { rewrite <- Z.pow_add_r by lia. by replace (_ + _) with 8 by lia. }
    assert (0 < 2 ^ (8 - Z.of_nat (length os))) by (apply Z.pow_pos_nonneg; lia). nia.
  - intros i Hi. rewrite Z.shiftl_spec by lia.
    replace (8 - _ + _ - _) with (Z.of_nat i) by lia. by apply pack_testbit.
Qed.

Lemma length_byte_bits n b : length (byte_bits n b) = n.
Proof. unfold byte_bits. by rewrite length_map, length_seq. Qed.

Lemma length_cycles_bits tms n b : length (cycles_bits tms n b) = n.
Proof. unfold cycles_bits. by rewrite length_map, length_byte_bits. Qed.

Lemma length_cycles_tms n b : length (cycles_tms n b) = n.
Proof. unfold cycles_tms. by rewrite length_map, length_byte_bits. Qed.

Lemma clock_bits_app {T} (clk : T -> bool -> bool -> T * bool) t l k :
  clock_bits clk t (l ++ k) =
    let '(t1, o1) := clock_bits clk t l in
    let '(t2, o2) := clock_bits clk t1 k in (t2, o1 ++ o2).
Proof.
  revert t. induction l as [|[tms tdi] l IH]; intros t; cbn.
  - by destruct (clock_bits clk t k).
  - destruct (clk t tms tdi) as [t1 o]. rewrite IH.
    destruct (clock_bits clk t1 l) as [t2 o2]. by destruct (clock_bits clk t2 k).
Qed.

Lemma packed_cons r rs os1 os2 :
  byte_ok r -> length os1 = 8%nat -> (forall i, (i < 8)%nat -> Z.testbit r (Z.of_nat i) = nth i os1 false) ->
  packed rs os2 -> packed (r :: rs) (os1 ++ os2).
Proof.
  intros Hr H8 Hb (Hrs & Hl & Hbs). split; [by constructor|]. split.
  - rewrite length_app, H8, Hl. cbn. lia.
  - intros k i Hk Hi. destruct k as [|k].
    + cbn [nth]. rewrite app_nth1 by lia. rewrite Nat.mul_0_r. by apply Hb.
    + cbn [nth length] in *. rewrite app_nth2 by lia. rewrite Hbs by lia. f_equal. lia.
Qed.

(** The payload of a byte command, from any number of bytes still to come. *)
Lemma engine_payload d e :
  Forall byte_ok d -> en_cmd e = [] -> en_left e = zlen d ->
  exists e' r, engine_feed e d = (e', r) /\ en_cmd e' = [] /\ en_left e' = 0 /\ length r = length d /\
    en_tap e' = (clock_bits target_clock (en_tap e) (cycles_bytes (en_tms e) d)).1 /\
    packed r (clock_bits target_clock (en_tap e) (cycles_bytes (en_tms e) d)).2 /\
    en_tms e' = en_tms e.
Proof.
  intros Hd. revert e. induction Hd as [|b d Hb Hd IH]; intros e Hc Hl.
  - exists e, []. cbn. rewrite zlen_nil in Hl. split_and!; try done.
    split; [constructor|]. split; [done|]. cbn. lia.
  - rewrite zlen_cons in Hl. pose proof (zlen_nonneg d). cbn [engine_feed].
    unfold engine_byte. rewrite (proj2 (Z.ltb_lt 0 (en_left e))) by lia.
    unfold cycles_bytes. cbn [flat_map]. rewrite clock_bits_app.
    pose proof (clock_bits_length target_clock (en_tap e) (cycles_bits (en_tms e) 8 b)) as Hlen.
    destruct (clock_bits target_clock (en_tap e) (cycles_bits (en_tms e) 8 b)) as [t os] eqn:Ec.
    rewrite length_cycles_bits in Hlen. cbn in Hlen.
    destruct (IH (mk_engine [] (en_left e - 1) t (en_tms e) (en_clock e))) as (e' & r & E' & H1 & H2 & H3 & H4 & H5 & H6);
      [done|cbn; lia|].
    cbn [en_tap en_tms] in *. unfold cycles_bytes in *. rewrite E'.
    destruct (clock_bits target_clock t (flat_map (cycles_bits (en_tms e) 8) d)) as [t2 os2].
    exists e', (pack os :: r). cbn in H4, H5 |- *.
    split_and!; try done; [lia|]. apply packed_cons; [|done| |done].
    + pose proof (pack_bound os) as Hp. rewrite Hlen in Hp. unfold byte_ok. cbn in Hp. lia.
    + intros i Hi. apply pack_testbit. lia.
Qed.

(** The first two bytes of a three-byte command are collected. *)
Lemma engine_command t tms ck op x b :
  (op =? 0x85) = false -> (op =? 0x8A) = false ->
  engine_feed (mk_engine [] 0 t tms ck) [op; x; b] =
    let '(e, o) := engine_byte (mk_engine [op; x] 0 t tms ck) b in (e, o ++ []).
Proof.
  intros Hop Hop'. cbn [engine_feed]. unfold engine_byte at 1. cbn [en_left en_cmd en_tap en_tms en_clock Z.ltb Z.compare].
  rewrite Hop, Hop'. unfold engine_byte at 1. cbn [en_left en_cmd en_tap en_tms en_clock Z.ltb Z.compare app].
  by destruct (engine_byte (mk_engine [op; x] 0 t tms ck) b).
Qed.

#[export] Instance sim_engine_laws : MpsseEngineLaws engine target.
Proof.
  split.
  - done.
  - apply engine_feed_app.
  - intros [cmd left t tms ck] n b [Hc Hl] Hn Hb. cbn in Hc, Hl. subst cmd left.
    cbn [eng_feed sim_engine]. rewrite engine_command by done.
    cbn [engine_byte en_left en_cmd en_tap en_tms en_clock Z.ltb Z.compare app].
    change (0x4B =? 0x3D) with false. change (0x4B =? 0x3F) with false. change (0x4B =? 0x4B) with true.
    cbv iota. replace (Z.to_nat (Z.of_nat n - 1 + 1)) with n by lia.
    destruct (clock_bits target_clock t (cycles_tms n b)) as [t' os] eqn:Ec.
    eexists. split; [reflexivity|]. cbn. rewrite Ec. done.
  - intros [cmd left t tms ck] b [Hc Hl] Hb. cbn in Hc, Hl. subst cmd left.
    cbn [eng_feed sim_engine]. rewrite engine_command by done.
    cbn [engine_byte en_left en_cmd en_tap en_tms en_clock Z.ltb Z.compare app].
    change (0x6F =? 0x3D) with false. change (0x6F =? 0x3F) with false. change (0x6F =? 0x4B) with false.
    change (0x6F =? 0x6F) with true. cbv iota. change (Z.to_nat (0 + 1)) with 1%nat.
    pose proof (clock_bits_length target_clock t (cycles_tms 1 b)) as Hlen.
    cbn [eng_tap sim_engine en_tap tap_clock].
    destruct (clock_bits target_clock t (cycles_tms 1 b)) as [t' os] eqn:Ec.
    rewrite length_cycles_tms in Hlen. cbn [snd] in Hlen.
    eexists _, _. split; [reflexivity|]. cbn [eng_idle sim_engine en_cmd en_left en_tap en_tms fst snd].
    split_and!; try done; apply justify_ok; lia.
  - intros [cmd left t tms ck] n b [Hc Hl] Hn Hb. cbn in Hc, Hl. subst cmd left.
    cbn [eng_feed sim_engine]. rewrite engine_command by done.
    cbn [engine_byte en_left en_cmd en_tap en_tms en_clock Z.ltb Z.compare app].
    change (0x3F =? 0x3D) with false. change (0x3F =? 0x3F) with true. cbv iota.
    replace (Z.to_nat (Z.of_nat n - 1 + 1)) with n by lia.
    pose proof (clock_bits_length target_clock t (cycles_bits tms n b)) as Hlen.
    cbn [eng_tap sim_engine en_tap tap_clock eng_tms en_tms].
    destruct (clock_bits target_clock t (cycles_bits tms n b)) as [t' os] eqn:Ec.
    rewrite length_cycles_bits in Hlen. cbn [snd] in Hlen.
    eexists _, _. split; [reflexivity|]. cbn [eng_idle sim_engine en_cmd en_left en_tap en_tms fst snd].
    split_and!; try done; apply justify_ok; lia.
  - intros [cmd left t tms ck] lo hi [Hc Hl]. cbn in Hc, Hl. subst cmd left.
    cbn [eng_feed sim_engine]. by rewrite engine_command.
  - intros [cmd left t tms ck] d [Hc Hl] Hd Hn. cbn in Hc, Hl. subst cmd left.
    cbn [eng_feed sim_engine]. rewrite engine_feed_app, engine_command by done.
    cbn [engine_byte en_left en_cmd en_tap en_tms en_clock Z.ltb Z.compare app].
    change (0x3D =? 0x3D) with true. cbv iota.
    destruct (engine_payload d (mk_engine [] ((zlen d - 1) mod 256 + 256 * ((zlen d - 1) / 256) + 1) t tms ck) Hd)
      as (e' & r & E' & H1 & H2 & H3 & H4 & H5 & H6); [done| |].
    { cbn [en_left]. pose proof (Z.div_mod (zlen d - 1) 256). lia. }
    rewrite E'. exists e', r. split_and!; done.
  - intros [cmd left t tms ck] lo hi [Hc Hl]. cbn in Hc, Hl. subst cmd left. by eexists.
  - intros [cmd left t tms ck] lo hi pins dir [Hc Hl]. cbn in Hc, Hl. subst cmd left. by eexists.
Qed.

#[export] Instance sim_device_laws : MpsseDeviceLaws world engine target.
Proof.
  split.
  - intros w. unfold dev_lag, sim_device, w_wait. lia.
  - intros h w d -> Hd. cbn. destruct (engine_feed (w_engine w) d) as [e o].
    eexists. split; [reflexivity|]. done.
  - intros h w ->. cbn. destruct (Z.ltb_spec 0 (w_wait w)) as [Hw|Hw].
    + eexists 0, _. split; [reflexivity|]. cbn. pose proof (zlen_nonneg (w_rx w)).
      split_and!; try done; try lia. intros _ _. unfold w_wait at 1. cbn. unfold w_wait in *. lia.
    + exists (Z.min (zlen (w_rx w)) INT_MAX), w. split; [reflexivity|]. pose proof (zlen_nonneg (w_rx w)).
      unfold INT_MAX. split_and!; try done; try lia. intros H0 Hne. destruct (w_rx w); [done|]. rewrite zlen_cons in H0.
      pose proof (zlen_nonneg l). lia.
  - intros h w n -> Hn. cbn. eexists. split; [reflexivity|]. done.
Qed.

Lemma sim_open_handles w st h w' :
  sim_open w = ((st, h), w') ->
  if st =? FT_OK then h <> 0 /\ (h ∉ w_open w) /\ w_open w' = h :: w_open w else w_open w' = w_open w.
Proof.
  unfold sim_open. case_bool_decide as Hin; intros [= <- <- <-]; [done|]. cbn. done.
Qed.

#[export] Instance sim_handles : DriverHandles world.
Proof.
  refine {| opened := w_open |}; try done.
  - intros s w st h w'. apply sim_open_handles.
  - intros i w st h w'. apply sim_open_handles.
  - intros h w. cbn. by destruct (0 <? w_wait w).
  - intros h d w. cbn. by destruct (engine_feed (w_engine w) d).
Defined.

#[export] Instance sim_open_laws : MpsseOpenLaws world engine target.
Proof.
  split; try done.
  - intros s w h w'. cbn. unfold sim_open. by case_bool_decide; intros [= <- <-].
  - intros s w h w'. cbn. unfold sim_open. by case_bool_decide; intros [= <- <-].
  - intros h w w' [= <-]. done.
Qed.

#[export] Instance sim_reads : DriverReads world.
Proof.
  split.
  - intros h w. cbn. pose proof (zlen_nonneg (w_rx w)). unfold INT_MAX.
    destruct (0 <? w_wait w); cbn; lia.
  - intros h n w Hn. cbn. unfold zlen. rewrite length_take. lia.
  - intros h n q w w1. cbn. destruct (0 <? w_wait w); [intros [= <- <-]; lia|]. intros [= Hq <-] Hq0 Hn _.
    unfold zlen in *. rewrite length_take. lia.
Qed.
