(* ===== verification/MpsseBuffer.v ===== *)
(** The command buffer of mpsse_adapter.c.

    The context [mpsse_context_s], the observer pool, the transmit and receive
    buffers with their observers, [mpsse_buffer_flush] and the append
    functions.  The two buffers are arrays of their allocated size; an
    observer refers to its extra object by its pool address and to its bytes
    by their offset in the receive buffer, and writes through a heap pointer. *)

From S2P Require Import Prelude Jtag Bits Memory CString D2xx.

(** ** Constants and data *)

Definition OP_SET_DBUS_LOBYTE : Z := 0x80.
Definition OP_SET_TCK_DIVISOR : Z := 0x86.
Definition OP_DISABLE_CLK_DIVIDE_BY_5 : Z := 0x8A.
Definition OP_LOOPBACK_OFF : Z := 0x85.
Definition OP_CLK_DATA_BYTES_OUT_NEG_IN_NEG : Z := 0x3D.
Definition OP_CLK_DATA_BITS_OUT_NEG_IN_NEG : Z := 0x3F.
Definition OP_CLK_TMS_NO_READ : Z := 0x4B.
Definition OP_CLK_TMS_READ_NEG : Z := 0x6F.

Definition MEMORY_POOL_SIZE : Z := 65536.

(** The [extra] objects of the observers, by structure type. *)
Inductive rx_extra :=
  | bit_copier_extra (from_bit : Z) (dst : ptr) (to_bit num_bits : Z)
  | byte_copier_extra (dst : ptr) (num_bytes : Z)
  | bulk_byte_copier_extra (dst : ptr) (total_bytes bytes_copied : Z).

(** [sizeof] of the structures on the LP64 targets of the Makefile. *)
Definition sizeof_rx_observer_node : Z := 32.
Definition sizeof_extra (e : rx_extra) : Z :=
  match e with
  | bit_copier_extra _ _ _ _ => 24
  | byte_copier_extra _ _ => 16
  | bulk_byte_copier_extra _ _ _ => 16
  end.

(** The pool: bytes in use and the objects by their offset in [buffer]. *)
Record memory_pool := mk_pool {
  pool_used : Z;
  pool_objs : gmap Z rx_extra
}.
#[export] Instance eta_pool : Eta memory_pool := fun p => mk_pool (pool_used p) (pool_objs p).

Inductive rx_observer_fn :=
  | bit_copier_rx_observer_fn
  | byte_copier_rx_observer_fn
  | bulk_byte_copier_rx_observer_fn.

Record rx_observer_node := mk_node {
  node_fn : rx_observer_fn;
  node_data : Z;
  node_extra : Z
}.

Record mpsse_buffer := mk_buffer {
  tx_buffer : list Z;
  tx_num_bytes : Z;
  max_tx_buffer_bytes : Z;
  rx_buffer : list Z;
  rx_num_bytes : Z;
  max_rx_buffer_bytes : Z;
  rx_observers : list rx_observer_node
}.
#[export] Instance eta_buffer : Eta mpsse_buffer := fun b =>
  mk_buffer (tx_buffer b) (tx_num_bytes b) (max_tx_buffer_bytes b) (rx_buffer b)
    (rx_num_bytes b) (max_rx_buffer_bytes b) (rx_observers b).

Record mpsse_context := mk_context {
  ft_handle : Z;
  buffer : mpsse_buffer;
  state : jtag_state;
  last_tdi : bool;
  is_open : bool;
  verbose : Z;
  chip_buffer_size : Z;
  observer_pool : memory_pool;
  total_flushes : Z;
  failed_flushes : Z;
  error : string;
  dump_file : option string;
  current_tms : ptr;
  current_tdi : ptr;
  current_bit_offset : Z
}.
#[export] Instance eta_context : Eta mpsse_context := fun c =>
  mk_context (ft_handle c) (buffer c) (state c) (last_tdi c) (is_open c) (verbose c)
    (chip_buffer_size c) (observer_pool c) (total_flushes c) (failed_flushes c) (error c)
    (dump_file c) (current_tms c) (current_tdi c) (current_bit_offset c).

(** The adapter runs on its context, the heap and the world of the driver. *)
Record mstate (W : Type) := mk_mstate {
  ms_ctx : mpsse_context;
  ms_mem : mem;
  ms_w : W
}.
Arguments mk_mstate {W} _ _ _.
Arguments ms_ctx {W} _.
Arguments ms_mem {W} _.
Arguments ms_w {W} _.
#[export] Instance eta_mstate {W} : Eta (mstate W) := fun s =>
  mk_mstate (ms_ctx s) (ms_mem s) (ms_w s).

Section Buffer.
Context {W : Type} `{D2XX W}.

#[local] Abbreviation MP := (M (mstate W)).

Definition ctx_of : MP mpsse_context := gets ms_ctx.
Definition buf_of : MP mpsse_buffer := gets (fun s => buffer (ms_ctx s)).
Definition set_ctx (f : mpsse_context -> mpsse_context) : MP unit :=
  modify (fun s => s <| ms_ctx := f (ms_ctx s) |>).
Definition set_buf (f : mpsse_buffer -> mpsse_buffer) : MP unit :=
  set_ctx (fun c => c <| buffer := f (buffer c) |>).
Definition ft {A} (call : W -> A * W) : MP A := fun s =>
  let '(a, w) := call (ms_w s) in Done (a, s <| ms_w := w |>).
Definition set_error (e : string) : MP unit := set_ctx (fun c => c <| error := truncated 256 e |>).

(** ** The observer pool *)

(** [pool_alloc(pool, sizeof(..))] and the initialisation of the object. *)
Definition pool_alloc (size : Z) : MP (option Z) := fun s =>
  let p := observer_pool (ms_ctx s) in
  if MEMORY_POOL_SIZE * 256 <? pool_used p + size then Done (None, s)
  else Done (Some (pool_used p),
             s <| ms_ctx := (ms_ctx s) <| observer_pool := p <| pool_used := pool_used p + size |> |> |>).

Definition pool_put (addr : Z) (e : rx_extra) : MP unit :=
  set_ctx (fun c => c <| observer_pool :=
    (observer_pool c) <| pool_objs := <[addr := e]> (pool_objs (observer_pool c)) |> |>).

Definition pool_reset : MP unit :=
  set_ctx (fun c => c <| observer_pool := (observer_pool c) <| pool_used := 0 |> |>).

Definition alloc_extra (e : rx_extra) : MP (option Z) :=
  a ← pool_alloc (sizeof_extra e);
  match a with
  | None => mret None
  | Some addr => pool_put addr e ;; mret (Some addr)
  end.

(** ** The dump file *)

(** The loop of [format_tms_tdi_hex]: [i] runs up to [num_bytes] while the text
    leaves 10 bytes of the buffer free. *)
Fixpoint format_loop (m : mem) (tms tdi : ptr) (start_byte buf_size i : Z) (acc : string) (n : nat)
  : option string :=
  match n with
  | O => Some acc
  | S n =>
      if strlen acc <? buf_size - 10 then
        a ← load8 m (ptr_add tms (start_byte + i));
        b ← load8 m (ptr_add tdi (start_byte + i));
        format_loop m tms tdi start_byte buf_size (i + 1)
          (acc +:+ (if 0 <? i then " " else "") +:+ fmt_02X a +:+ fmt_02X b) n
      else Some acc
  end.

Definition format_tms_tdi_hex (bit_offset num_bits buf_size : Z) : MP string := fun s =>
  let c := ms_ctx s in
  if is_null (current_tms c) || is_null (current_tdi c) || (num_bits <=? 0) then Done ("N/A"%string, s)
  else
    let start_byte := bit_offset / 8 in
    let end_byte := (bit_offset + num_bits - 1) / 8 in
    match format_loop (ms_mem s) (current_tms c) (current_tdi c) start_byte buf_size 0 ""
            (Z.to_nat (end_byte - start_byte + 1)) with
    | Some t => Done (t, s)
    | None => Undef
    end.

Fixpoint dump_bytes (l : list Z) : string :=
  match l with
  | [] => ""
  | [b] => fmt_02X b
  | b :: l => fmt_02X b +:+ " " +:+ dump_bytes l
  end%string.

(** The [if (ctx->dump_file)] block of the flush. *)
Definition flush_dump (tx : list Z) (tx_num : Z) : MP unit :=
  c ← ctx_of;
  match dump_file c with
  | None => mret tt
  | Some text =>
      line ← format_tms_tdi_hex (current_bit_offset c) ((tx_num + 1) / 2 * 8) 2048;
      set_ctx (fun c => c <| dump_file :=
        Some (text +:+ "INPUT: " +:+ line +:+ String LF (dump_bytes tx +:+ String LF ""))%string |>)
  end.

(** ** Flush *)

(** The transmit half of [mpsse_buffer_flush]. *)
Definition flush_tx : MP Z :=
  b ← buf_of;
  data ← lift_exec (of_option (read_at 0 (tx_num_bytes b) (tx_buffer b)));
  flush_dump data (tx_num_bytes b) ;;
  c ← ctx_of;
  '(ftStatus, bytesWritten) ← ft (FT_Write (ft_handle c) data);
  set_ctx (fun c => c <| current_bit_offset := current_bit_offset c + (tx_num_bytes b + 1) / 2 * 8 |>
                      <| total_flushes := total_flushes c + 1 |>) ;;
  if negb (ftStatus =? FT_OK) then
    set_ctx (fun c => c <| failed_flushes := failed_flushes c + 1 |>) ;;
    set_error ("FT_Write failed: " +:+ fmt_d (i32 ftStatus))%string ;;
    mret (-1)
  else if negb (i32 bytesWritten =? tx_num_bytes b) then
    set_ctx (fun c => c <| failed_flushes := failed_flushes c + 1 |>) ;;
    set_error ("Partial write: " +:+ fmt_u (u32 bytesWritten) +:+ "/" +:+ fmt_d (tx_num_bytes b))%string ;;
    mret (-1)
  else
    set_buf (fun b => b <| tx_num_bytes := 0 |>) ;;
    mret 0.

Definition max_spin : Z := 1000.

(** One round of the read loop; the loop variables are [bytes_read],
    [timeout_us] and [spin_count].  [inr None] is a [return -1] inside the
    loop, [inr (Some n)] its regular exit with [n] bytes read. *)
Definition read_round (v : Z * Z * Z) : MP ((Z * Z * Z) + option Z) :=
  let '(bytes_read, timeout_us, spin_count) := v in
  c ← ctx_of;
  let b := buffer c in
  if (bytes_read <? rx_num_bytes b) && (0 <? timeout_us) then
    '(ftStatus, rxQueue) ← ft (FT_GetQueueStatus (ft_handle c));
    if negb (ftStatus =? FT_OK) then mret (inr None)
    else if 0 <? rxQueue then
      let toRead := u32 (Z.min (i32 rxQueue) (i32 (u32 (rx_num_bytes b - bytes_read)))) in
      '(ftStatus, data) ← ft (FT_Read (ft_handle c) toRead);
      rx ← lift_exec (of_option (write_at bytes_read data (rx_buffer b)));
      set_buf (fun b => b <| rx_buffer := rx |>) ;;
      if negb (ftStatus =? FT_OK) then mret (inr None)
      else mret (inl (i32 (bytes_read + zlen data), timeout_us, 0))
    else if spin_count <? max_spin then mret (inl (bytes_read, timeout_us, spin_count + 1))
    else mret (inl (bytes_read, timeout_us - 10, spin_count))
  else mret (inr (Some bytes_read)).

(** The observer functions on the bytes from [node_data] on; an [extra] that
    is not of the function's type would be a type confusion. *)
Definition run_observer (rx : list Z) (o : rx_observer_node) : MP unit := fun s =>
  let c := ms_ctx s in
  let rxData := drop (Z.to_nat (node_data o)) rx in
  match node_fn o, pool_objs (observer_pool c) !! node_extra o with
  | bit_copier_rx_observer_fn, Some (bit_copier_extra from_bit dst to_bit num_bits) =>
      match update_from (ms_mem s) dst (fun d => copy_bits rxData from_bit d to_bit num_bits false) with
      | Some m => Done (tt, s <| ms_mem := m |>)
      | None => Undef
      end
  | byte_copier_rx_observer_fn, Some (byte_copier_extra dst num_bytes) =>
      match (d ← read_at 0 num_bytes rxData; store_bytes (ms_mem s) dst d) with
      | Some m => Done (tt, s <| ms_mem := m |>)
      | None => Undef
      end
  | bulk_byte_copier_rx_observer_fn, Some (bulk_byte_copier_extra dst total_bytes bytes_copied) =>
      match (d ← read_at 0 (total_bytes - bytes_copied) rxData;
             store_bytes (ms_mem s) (ptr_add dst bytes_copied) d) with
      | Some m =>
          Done (tt, s <| ms_mem := m |>
            <| ms_ctx := c <| observer_pool := (observer_pool c) <| pool_objs :=
                 <[node_extra o := bulk_byte_copier_extra dst total_bytes total_bytes]>
                   (pool_objs (observer_pool c)) |> |> |>)
      | None => Undef
      end
  | _, _ => Undef
  end.

Fixpoint run_observers (rx : list Z) (l : list rx_observer_node) : MP unit :=
  match l with
  | [] => mret tt
  | o :: l => run_observer rx o ;; run_observers rx l
  end.

(** The receive half of [mpsse_buffer_flush]. *)
Definition flush_rx : MP Z :=
  r ← while_loop read_round (0, 500000, 0);
  match r with
  | None => mret (-1)
  | Some bytes_read =>
      b ← buf_of;
      if negb (bytes_read =? rx_num_bytes b) then
        set_error ("Read timeout: " +:+ fmt_d bytes_read +:+ "/" +:+ fmt_d (rx_num_bytes b))%string ;;
        mret (-1)
      else
        run_observers (rx_buffer b) (rx_observers b) ;;
        set_buf (fun b => b <| rx_observers := [] |> <| rx_num_bytes := 0 |>) ;;
        mret 0
  end.

Definition mpsse_buffer_flush : MP Z :=
  b ← buf_of;
  r ← (if 0 <? tx_num_bytes b then flush_tx else mret 0);
  if r <? 0 then mret (-1)
  else
    b ← buf_of;
    if 0 <? rx_num_bytes b then flush_rx else mret 0.

(** ** Append *)

Definition mpsse_buffer_ensure_can_append (tx_bytes rx_bytes : Z) : MP Z :=
  b ← buf_of;
  let tx_safety_threshold := max_tx_buffer_bytes b * 95 / 100 in
  let rx_safety_threshold := max_rx_buffer_bytes b * 95 / 100 in
  if (max_tx_buffer_bytes b <? tx_num_bytes b + tx_bytes)
     || (max_rx_buffer_bytes b <? rx_num_bytes b + rx_bytes)
     || (tx_safety_threshold <? tx_num_bytes b)
     || (rx_safety_threshold <? rx_num_bytes b)
  then
    r ← mpsse_buffer_flush;
    if r <? 0 then mret (-1) else mret 0
  else mret 0.

(** The bytes to send: a local command array or a range of the heap, which is
    read only when it is copied. *)
Inductive tx_source :=
  | Local (l : list Z)
  | Heap (p : ptr).

Definition fetch (src : tx_source) (n : Z) : MP (list Z) := fun s =>
  match (match src with Local l => read_at 0 n l | Heap p => load_bytes (ms_mem s) p n end) with
  | Some d => Done (d, s)
  | None => Undef
  end.

(** [if (tx_bytes > 0)]: copy the command into the transmit buffer. *)
Definition append_tx (src : tx_source) (tx_bytes : Z) : MP Z :=
  b ← buf_of;
  if 0 <? tx_bytes then
    if max_tx_buffer_bytes b <? tx_num_bytes b + tx_bytes then mret (-1)
    else
      d ← fetch src tx_bytes;
      tx ← lift_exec (of_option (write_at (tx_num_bytes b) d (tx_buffer b)));
      set_buf (fun b => b <| tx_buffer := tx |> <| tx_num_bytes := tx_num_bytes b + tx_bytes |>) ;;
      mret 0
  else mret 0.

(** [if (rx_bytes > 0)]: register the observer and reserve the response. *)
Definition append_rx (observer : option (rx_observer_fn * Z)) (rx_bytes : Z) : MP Z :=
  b ← buf_of;
  if 0 <? rx_bytes then
    if max_rx_buffer_bytes b <? rx_num_bytes b + rx_bytes then mret (-1)
    else
      r ← match observer with
          | None => mret 0
          | Some (fn, extra) =>
              node ← pool_alloc sizeof_rx_observer_node;
              match node with
              | None => mret (-1)
              | Some _ =>
                  set_buf (fun b => b <| rx_observers :=
                    rx_observers b ++ [mk_node fn (rx_num_bytes b) extra] |>) ;;
                  mret 0
              end
          end;
      if r <? 0 then mret (-1)
      else
        set_buf (fun b => b <| rx_num_bytes := rx_num_bytes b + rx_bytes |>) ;;
        mret 0
  else mret 0.

Definition mpsse_buffer_append (tx_data : tx_source) (tx_bytes : Z)
    (observer : option (rx_observer_fn * Z)) (rx_bytes : Z) : MP Z :=
  b ← buf_of;
  let tx_threshold := max_tx_buffer_bytes b * 9 / 10 in
  let rx_threshold := max_rx_buffer_bytes b * 9 / 10 in
  let would_overflow := (max_tx_buffer_bytes b <? tx_num_bytes b + tx_bytes)
                        || (max_rx_buffer_bytes b <? rx_num_bytes b + rx_bytes) in
  let at_threshold := (tx_threshold <=? tx_num_bytes b) || (rx_threshold <=? rx_num_bytes b) in
  r ← (if would_overflow || at_threshold then mpsse_buffer_flush else mret 0);
  if r <? 0 then mret (-1)
  else
    r ← append_tx tx_data tx_bytes;
    if r <? 0 then mret (-1)
    else append_rx observer rx_bytes.

Definition mpsse_buffer_add_write_with_readback (tx_data : tx_source) (tx_bytes : Z)
    (observer : rx_observer_fn) (observer_extra : Z) (rx_bytes : Z) : MP Z :=
  r ← mpsse_buffer_ensure_can_append tx_bytes rx_bytes;
  if r <? 0 then mret (-1)
  else mpsse_buffer_append tx_data tx_bytes (Some (observer, observer_extra)) rx_bytes.

Definition mpsse_buffer_add_write_simple (tx_data : tx_source) (tx_bytes : Z)
    (rx_data : ptr) (rx_bytes : Z) : MP Z :=
  extra ← alloc_extra (byte_copier_extra rx_data rx_bytes);
  match extra with
  | None => mret (-1)
  | Some extra =>
      mpsse_buffer_add_write_with_readback tx_data tx_bytes byte_copier_rx_observer_fn extra rx_bytes
  end.

(** ** Running the primitive operations *)

Lemma ft_done {A} (call : W -> A * W) (s : mstate W) a w :
  call (ms_w s) = (a, w) -> ft call s = Done (a, s <| ms_w := w |>).
Proof. intros E. unfold ft. by rewrite E. Qed.

Lemma lift_done {A} (o : option A) (s : mstate W) a :
  o = Some a -> lift_exec (of_option o) s = Done (a, s).
Proof. by intros ->. Qed.

End Buffer.

(** Steps of a proof that runs a body: a driver call, a checked array access. *)
Ltac run_ft E := erewrite bind_done; [|apply ft_done; exact E]; cbv beta iota.
Ltac run_lift E := erewrite bind_done; [|apply lift_done; exact E]; cbv beta iota.
