(* ===== verification/MpsseSettled.v ===== *)
(** Buffering is invisible.

    The contract of the command buffer against a healthy device: whatever is
    still in the transmit buffer, in the device's queue or in unread
    observers, the state is as good as the one in which every appended byte
    has been executed at once and every observer has run ([Settled]).  The
    append and flush functions are proved against this view, so that the scan
    can be verified as if commands were executed immediately. *)

From S2P Require Import Prelude Jtag Bits Memory CString D2xx MpsseBuffer.

(** ** What an observer does to the TDO buffer *)

(** [PBits from to n] copies [n] bits from bit [from] of the response byte to
    bit [to]; [PBytes k n] copies [n] response bytes to byte [k]. *)
Inductive pobs :=
  | PBits (from to n : Z)
  | PBytes (k n : Z).

Definition pwidth (o : pobs) : Z := match o with PBits _ _ _ => 1 | PBytes _ n => n end.

Definition pobs_ok (dlen : Z) (o : pobs) : Prop :=
  match o with
  | PBits from to n => 0 <= from /\ 1 <= n /\ from + n <= 8 /\ 0 <= to /\ to + n <= 8 * dlen
  | PBytes k n => 0 <= k /\ 1 <= n /\ k + n <= dlen
  end.

Definition papply (o : pobs) (r d : list Z) : list Z :=
  match o with
  | PBits from to n => default d (copy_bits r from d to n false)
  | PBytes k n => default d (write_at k r d)
  end.

Fixpoint papply_all (ps : list pobs) (out d : list Z) : list Z :=
  match ps with
  | [] => d
  | o :: ps =>
      papply_all ps (drop (Z.to_nat (pwidth o)) out) (papply o (take (Z.to_nat (pwidth o)) out) d)
  end.

Fixpoint pwidths (ps : list pobs) : Z :=
  match ps with [] => 0 | o :: ps => pwidth o + pwidths ps end.

(** The function and the extra object that stand for an observer of the TDO
    buffer at [tdo]. *)
Definition fn_of (o : pobs) : rx_observer_fn :=
  match o with
  | PBits _ _ _ => bit_copier_rx_observer_fn
  | PBytes _ _ => bulk_byte_copier_rx_observer_fn
  end.
Definition extra_of (tdo : ptr) (o : pobs) : rx_extra :=
  match o with
  | PBits from to n => bit_copier_extra from tdo to n
  | PBytes k n => bulk_byte_copier_extra (ptr_add tdo k) n 0
  end.

Fixpoint nodes_match (tdo : ptr) (objs : gmap Z rx_extra) (off : Z)
    (nodes : list rx_observer_node) (ps : list pobs) : Prop :=
  match nodes, ps with
  | [], [] => True
  | nd :: nodes, o :: ps =>
      node_fn nd = fn_of o /\ node_data nd = off /\
      objs !! node_extra nd = Some (extra_of tdo o) /\
      nodes_match tdo objs (off + pwidth o) nodes ps
  | _, _ => False
  end.

(** The bytes from the TDO pointer on; a null pointer has none, which is the
    view of the operations that read nothing back. *)
Definition tdo_view (m : mem) (tdo : ptr) (d : list Z) : Prop :=
  match tdo with NULL => d = [] | Ptr _ _ => load_from m tdo = Some d end.

(** ** Lemmas on observers *)

Lemma pwidth_pos dl o : pobs_ok dl o -> 1 <= pwidth o.
Proof. destruct o; unfold pobs_ok, pwidth; lia. Qed.

Lemma pwidth_nonneg dl o : pobs_ok dl o -> 0 <= pwidth o.
Proof. destruct o; unfold pobs_ok, pwidth; lia. Qed.

Lemma pwidths_nonneg dl ps : Forall (pobs_ok dl) ps -> 0 <= pwidths ps.
Proof. induction 1 as [|o ps H _ IH]; [done|]. apply pwidth_nonneg in H. cbn [pwidths]. lia. Qed.

Lemma pwidths_zero dl ps : Forall (pobs_ok dl) ps -> pwidths ps = 0 -> ps = [].
Proof.
  intros Hps H0. destruct Hps as [|o ps Ho Hps]; [done|]. cbn [pwidths] in H0.
  apply pwidth_pos in Ho. apply pwidths_nonneg in Hps. lia.
Qed.

Lemma pwidths_app ps qs : pwidths (ps ++ qs) = pwidths ps + pwidths qs.
Proof. induction ps as [|o ps IH]; cbn; [done|]. rewrite IH. lia. Qed.

Lemma papply_length o r d : length (papply o r d) = length d.
Proof.
  destruct o as [from to n|k n]; cbn.
  - destruct (copy_bits r from d to n false) as [d'|] eqn:E; [|done]. cbn.
    unfold copy_bits in E.
    destruct (copy_bits_loop r from d to (Z.to_nat n)) as [[[d1 f1] t1]|] eqn:E1; [|done].
    injection E as <-. revert from d to E1.
    induction (Z.to_nat n) as [|k IH]; intros from d to; cbn; [by intros [= <- <- <-]|].
    destruct (get_bit r from); [|done]. cbn.
    destruct (set_bit d to b) as [d2|] eqn:E2; [|done]. cbn.
    intros E1%IH. rewrite E1. clear -E2. unfold set_bit in E2.
    destruct (get_at (to / 8) d); [|done]. cbn in E2. unfold set_at in E2.
    destruct b, ((0 <=? to / 8) && (to / 8 <? zlen d)); try done; injection E2 as <-; apply length_insert.
  - destruct (write_at k r d) as [d'|] eqn:E; [|done]. by eapply write_at_length.
Qed.

Lemma papply_all_length ps out d : length (papply_all ps out d) = length d.
Proof. revert out d. induction ps as [|o ps IH]; intros; cbn; [done|]. by rewrite IH, papply_length. Qed.

Lemma papply_all_app ps qs out r d :
  0 <= pwidths ps -> zlen out = pwidths ps -> Forall (fun o => 0 <= pwidth o) ps ->
  papply_all (ps ++ qs) (out ++ r) d = papply_all qs r (papply_all ps out d).
Proof.
  intros _ Hl Hps. revert out d Hl. induction Hps as [|o ps Ho Hps IH]; intros out d Hl; cbn.
  - cbn in Hl. destruct out; [done|]. rewrite zlen_cons in Hl. pose proof (zlen_nonneg out). lia.
  - cbn in Hl. assert (0 <= pwidths ps).
    { clear -Hps. induction Hps; cbn; lia. }
    unfold zlen in *. rewrite drop_app_le, take_app_le by lia. apply IH.
    rewrite length_drop. lia.
Qed.

Lemma nodes_match_app tdo objs off n1 p1 n2 p2 :
  nodes_match tdo objs off n1 p1 -> nodes_match tdo objs (off + pwidths p1) n2 p2 ->
  nodes_match tdo objs off (n1 ++ n2) (p1 ++ p2).
Proof.
  revert off p1. induction n1 as [|nd n1 IH]; intros off [|o p1]; cbn; try done.
  - rewrite Z.add_0_r. done.
  - intros (Hf & Hd & Ho & H1) H2. repeat split; try done. apply IH; [done|].
    by rewrite <- Z.add_assoc.
Qed.

Lemma nodes_match_put tdo objs off nodes ps a e :
  a ∉ map node_extra nodes -> nodes_match tdo objs off nodes ps ->
  nodes_match tdo (<[a := e]> objs) off nodes ps.
Proof.
  revert off ps. induction nodes as [|nd nodes IH]; intros off [|o ps]; cbn; try done.
  intros Ha (Hf & Hd & Ho & H1). repeat split; try done.
  - rewrite lookup_insert_ne; [done|]. intros ->. apply Ha. left.
  - apply IH; [|done]. intros Hin. apply Ha. by right.
Qed.

Lemma get_bit_prefix (r l : list Z) i :
  0 <= i -> i / 8 < zlen r -> get_bit (r ++ l) i = get_bit r i.
Proof.
  intros Hi Hr. assert (0 <= i / 8) by (apply Z.div_pos; lia).
  unfold get_bit, get_at. rewrite (proj2 (Z.leb_le 0 (i / 8))) by done.
  unfold zlen in Hr. by rewrite lookup_app_l by lia.
Qed.

(** A copy reads only the source bytes of its bit range. *)
Lemma copy_bits_prefix r l from d to n :
  0 <= from -> from + n <= bits_in r ->
  copy_bits (r ++ l) from d to n false = copy_bits r from d to n false.
Proof.
  intros Hf Hn. unfold copy_bits.
  enough (H : forall k from d to, 0 <= from -> from + Z.of_nat k <= bits_in r ->
            copy_bits_loop (r ++ l) from d to k = copy_bits_loop r from d to k).
  { destruct (Z.lt_ge_cases n 0).
    - replace (Z.to_nat n) with 0%nat by lia. done.
    - rewrite H by lia. done. }
  clear. induction k as [|k IH]; intros from d to Hf Hn; [done|].
  cbn [copy_bits_loop]. rewrite get_bit_prefix; [|done|].
  - destruct (get_bit r from); [|done]. cbn. destruct (set_bit d to b); [|done]. cbn.
    apply IH; lia.
  - apply byte_index_range. lia.
Qed.

Section Settled.
Context {W E T : Type} `{MpsseDeviceLaws W E T} `{!MpsseEngineLaws E T}.

(** The sizes of [mpsse_adapter_create] and [mpsse_adapter_open]. *)
Definition TX_MAX : Z := 3 * 65536.
Definition RX_MAX : Z := 65536 * 2.

(** ** The state of the buffer

    [Buf tdo s P ps rs d]: the transmit buffer holds [P], the pending
    observers are [ps], [rs] are extra objects in the pool that no observer
    refers to yet, and the bytes from [tdo] on are [d]. *)
Record Buf (tdo : ptr) (s : mstate W) (P : list Z) (ps : list pobs)
    (rs : list (Z * pobs)) (d : list Z) : Prop := {
  Buf_handle : ft_handle (ms_ctx s) = dev_handle (ms_w s);
  Buf_dump : dump_file (ms_ctx s) = None;
  Buf_max_tx : max_tx_buffer_bytes (buffer (ms_ctx s)) = TX_MAX;
  Buf_max_rx : max_rx_buffer_bytes (buffer (ms_ctx s)) = RX_MAX;
  Buf_tx_len : zlen (tx_buffer (buffer (ms_ctx s))) = TX_MAX;
  Buf_rx_len : zlen (rx_buffer (buffer (ms_ctx s))) = RX_MAX;
  Buf_tx : exists rest, tx_buffer (buffer (ms_ctx s)) = P ++ rest;
  Buf_tx_num : tx_num_bytes (buffer (ms_ctx s)) = zlen P;
  Buf_bytes : Forall byte_ok P;
  Buf_rx_num : rx_num_bytes (buffer (ms_ctx s)) = pwidths ps;
  Buf_rx_max : pwidths ps <= RX_MAX;
  Buf_queue : dev_rx (ms_w s) = [];
  Buf_out : zlen (eng_feed (dev_engine (ms_w s)) P).2 = pwidths ps;
  Buf_nodes : nodes_match tdo (pool_objs (observer_pool (ms_ctx s))) 0
                (rx_observers (buffer (ms_ctx s))) ps;
  Buf_reserved : Forall (fun '(a, o) =>
                   pool_objs (observer_pool (ms_ctx s)) !! a = Some (extra_of tdo o)) rs;
  Buf_nodup : NoDup (map node_extra (rx_observers (buffer (ms_ctx s))) ++ map fst rs);
  Buf_pool : Forall (fun a => a < pool_used (observer_pool (ms_ctx s)))
               (map node_extra (rx_observers (buffer (ms_ctx s))) ++ map fst rs);
  Buf_ps : Forall (pobs_ok (zlen d)) ps;
  Buf_tdo : tdo_view (ms_mem s) tdo d
}.

(** The view of a buffer state: the engine after the pending bytes and the
    TDO buffer after the pending observers. *)
Definition Settled (tdo : ptr) (s : mstate W) (rs : list (Z * pobs)) (e : E) (d : list Z) : Prop :=
  exists P ps d0, Buf tdo s P ps rs d0 /\
    e = (eng_feed (dev_engine (ms_w s)) P).1 /\
    d = papply_all ps (eng_feed (dev_engine (ms_w s)) P).2 d0.

(** What the buffer functions leave alone. *)
Record Frame (tdo : ptr) (s s' : mstate W) : Prop := {
  Frame_state : state (ms_ctx s') = state (ms_ctx s);
  Frame_tdi : last_tdi (ms_ctx s') = last_tdi (ms_ctx s);
  Frame_open : is_open (ms_ctx s') = is_open (ms_ctx s);
  Frame_chip : chip_buffer_size (ms_ctx s') = chip_buffer_size (ms_ctx s);
  Frame_mem : mem_frame tdo (ms_mem s) (ms_mem s')
}.

#[export] Instance Frame_preorder tdo : PreOrder (Frame tdo).
Proof.
  split.
  - intros s. by split.
  - intros s1 s2 s3 [] []. split; try congruence. etrans; eassumption.
Qed.

Definition pool_used_of (s : mstate W) : Z := pool_used (observer_pool (ms_ctx s)).

(** ** The read loop *)

(** What the loop has collected: [k] bytes of the response [out]. *)
Record Reading (s0 : mstate W) (out : list Z) (v : Z * Z * Z) (s : mstate W) : Prop := {
  Reading_k : 0 <= v.1.1 <= zlen out;
  Reading_timeout : v.1.2 = 500000;
  Reading_spin : 0 <= v.2 /\ (v.1.1 < zlen out -> v.2 + dev_lag (ms_w s) <= 1000);
  Reading_queue : dev_rx (ms_w s) = drop (Z.to_nat v.1.1) out;
  Reading_rx : exists rest, rx_buffer (buffer (ms_ctx s)) = take (Z.to_nat v.1.1) out ++ rest;
  Reading_same : ms_mem s = ms_mem s0 /\ dev_engine (ms_w s) = dev_engine (ms_w s0) /\
    dev_handle (ms_w s) = dev_handle (ms_w s0) /\
    zlen (rx_buffer (buffer (ms_ctx s))) = zlen (rx_buffer (buffer (ms_ctx s0))) /\
    ms_ctx s = (ms_ctx s0) <| buffer := (buffer (ms_ctx s0)) <| rx_buffer := rx_buffer (buffer (ms_ctx s)) |> |>
}.

(** The next [t] bytes of the response are stored behind the first [k]. *)
Lemma store_next (out rx rest : list Z) k t :
  rx = take (Z.to_nat k) out ++ rest -> 0 <= k -> 0 <= t -> k + t <= zlen out -> zlen out <= zlen rx ->
  zlen (take (Z.to_nat t) (drop (Z.to_nat k) out)) = t /\
  exists rx', write_at k (take (Z.to_nat t) (drop (Z.to_nat k) out)) rx = Some rx' /\ zlen rx' = zlen rx /\
    exists rest', rx' = take (Z.to_nat (k + t)) out ++ rest'.
Proof.
  intros Hrx Hk Ht Ho Hc. set (data := take _ _).
  assert (Hd : zlen data = t) by (subst data; unfold zlen in *; rewrite length_take, length_drop; lia).
  split; [done|]. rewrite write_at_ok by lia. eexists. split; [reflexivity|].
  split; [unfold zlen in *; rewrite !length_app, length_take, length_drop; lia|].
  exists (drop (Z.to_nat k + length data) rx). rewrite app_assoc. f_equal. rewrite Hrx.
  rewrite take_app_le, take_take, Nat.min_id by (unfold zlen in *; rewrite length_take; lia).
  subst data. rewrite take_take_drop. f_equal. lia.
Qed.

(** [int] and [DWORD] hold what is still to be read. *)
Lemma to_read_ok n left : 0 <= n <= RX_MAX -> 0 <= left <= RX_MAX -> u32 (Z.min (i32 n) (i32 (u32 left))) = Z.min n left.
Proof.
  unfold RX_MAX. intros Hn Hl. rewrite (u32_id left) by lia.
  rewrite !i32_id by (unfold INT_MIN, INT_MAX; lia). by rewrite u32_id by lia.
Qed.

Lemma read_round_ok s0 out v s :
  ft_handle (ms_ctx s0) = dev_handle (ms_w s0) ->
  rx_num_bytes (buffer (ms_ctx s0)) = zlen out ->
  zlen out <= zlen (rx_buffer (buffer (ms_ctx s0))) -> zlen out <= RX_MAX ->
  Reading s0 out v s ->
  exists r s', read_round v s = Done (r, s') /\
    match r with
    | inl v' => Reading s0 out v' s' /\
        0 <= (zlen out - v'.1.1) * 1002 + dev_lag (ms_w s') < (zlen out - v.1.1) * 1002 + dev_lag (ms_w s)
    | inr r => r = Some (zlen out) /\ exists v', Reading s0 out v' s' /\ v'.1.1 = zlen out
    end.
Proof.
  intros Hh Hn Hcap Hmax Hr. pose proof Hr as [Hk Ht [Hs1 Hs2] Hq [rest Hrx] (Hm & He & Hdh & Hl & Hc)].
  destruct v as [[k tmo] spin]. cbn [fst snd] in *. subst tmo.
  assert (Hh' : ft_handle (ms_ctx s) = dev_handle (ms_w s)).
  { rewrite Hc, Hdh. cbn. done. }
  assert (Hn' : rx_num_bytes (buffer (ms_ctx s)) = zlen out) by (rewrite Hc; done).
  unfold read_round, ctx_of. rewrite (bind_done _ _ s (ms_ctx s) s eq_refl). cbn zeta.
  rewrite Hn'. rewrite (proj2 (Z.ltb_lt 0 500000)) by lia. rewrite andb_true_r.
  destruct (Z.ltb_spec k (zlen out)) as [Hlt|Hge].
  2: { eexists _, s. split; [done|]. split; [f_equal; lia|].
       exists (k, 500000, spin). split; [done|]. cbn. lia. }
  destruct (dev_poll (ft_handle (ms_ctx s)) (ms_w s) Hh') as (n & w1 & E1 & D1 & D2 & D3 & D4 & D5).
  assert (Hqlen : zlen (dev_rx (ms_w s)) = zlen out - k).
  { rewrite Hq. unfold zlen in *. rewrite length_drop. lia. }
  pose proof (dev_lag_bound w1) as Hlag1. pose proof (dev_lag_bound (ms_w s)) as Hlag0.
  run_ft E1.
  change (negb (FT_OK =? FT_OK)) with false. cbv iota.
  destruct (Z.ltb_spec 0 n) as [Hn0|Hn0].
  - (* data available *)
    rewrite to_read_ok by lia. assert (Ht : 0 < Z.min n (zlen out - k) <= zlen (dev_rx w1)) by (rewrite D3; lia).
    assert (Htk : k + Z.min n (zlen out - k) <= zlen out) by lia.
    generalize dependent (Z.min n (zlen out - k)). intros t Ht Htk.
    destruct (dev_read (ft_handle (ms_ctx s)) w1 t) as (w2 & E2 & F1 & F2 & F3); [congruence|lia|].
    run_ft E2. rewrite D3, Hq.
    destruct (store_next out _ rest k t Hrx) as (Hdl & rx & Ew & Hrxl & rest' & Erx); [lia..|].
    run_lift Ew.
    eexists _, _. split; [reflexivity|]. cbn [fst snd].
    assert (Hi : i32 (k + zlen (take (Z.to_nat t) (drop (Z.to_nat k) out))) = k + t).
    { rewrite Hdl. apply i32_id. unfold INT_MIN, INT_MAX, RX_MAX in *. lia. }
    rewrite Hi. split.
    + split; cbn [fst snd ms_w ms_ctx ms_mem setter buffer rx_buffer].
      * lia.
      * done.
      * split; [lia|]. intros _. pose proof (dev_lag_bound w2). lia.
      * rewrite F3, D3, Hq, drop_drop. f_equal. lia.
      * eauto.
      * repeat split; try congruence. rewrite Hc. done.
    + cbn [ms_w setter]. pose proof (dev_lag_bound w2). lia.
  - (* nothing yet *)
    assert (Hne : dev_rx (ms_w s) <> []) by (intros Hq0; rewrite Hq0, zlen_nil in Hqlen; lia).
    assert (Hl1 : dev_lag w1 < dev_lag (ms_w s)) by (apply D5; [lia|done]).
    unfold max_spin. rewrite (proj2 (Z.ltb_lt spin 1000)) by lia.
    eexists _, _. split; [reflexivity|]. cbn [fst snd ms_w setter].
    split; [|lia].
    split; cbn [fst snd ms_w ms_ctx ms_mem setter buffer rx_buffer]; try done; try lia.
    + congruence.
    + eauto.
    + repeat split; try congruence. done.
Qed.

(** ** Running the observers *)

Definition objs_of (s : mstate W) : gmap Z rx_extra := pool_objs (observer_pool (ms_ctx s)).

Lemma ctx_objs_id (c : mpsse_context) :
  c <| observer_pool := (observer_pool c) <| pool_objs := pool_objs (observer_pool c) |> |> = c.
Proof. by destruct c as [? ? ? ? ? ? ? [] ? ? ? ? ? ? ?]. Qed.

Lemma papply_done o rx off d :
  pobs_ok (zlen d) o -> 0 <= off -> off + pwidth o <= zlen rx ->
  let r := drop (Z.to_nat off) rx in
  match o with
  | PBits from to n => copy_bits r from d to n false
  | PBytes k n => x ← read_at 0 n r; write_at k x d
  end = Some (papply o (take (Z.to_nat (pwidth o)) r) d).
Proof.
  intros Hok Hoff Hlen r.
  assert (Hr : pwidth o <= zlen r) by (subst r; unfold zlen in *; rewrite length_drop; lia).
  destruct o as [from to n|k n]; cbn [pwidth papply] in *.
  - destruct Hok as (Hf & Hn & Hfn & Ht & Htn).
    assert (Hb : bits_in (take (Z.to_nat 1) r) = 8).
    { unfold bits_in, zlen in *. rewrite length_take. lia. }
    rewrite <- (take_drop (Z.to_nat 1) r) at 1. rewrite copy_bits_prefix by lia.
    destruct (copy_bits_ok (take (Z.to_nat 1) r) from d to n) as (d' & -> & _);
      [done|done|lia|lia|unfold bits_in; lia|done].
  - destruct Hok as (Hk & Hn & Hkn). rewrite read_at_ok by lia. cbn.
    change (Z.to_nat 0) with 0%nat. rewrite drop_0.
    rewrite write_at_ok; [done|done|]. unfold zlen in *. rewrite length_take. lia.
Qed.

Lemma run_observer_ok tdo rx nd o off s d :
  node_fn nd = fn_of o -> node_data nd = off -> objs_of s !! node_extra nd = Some (extra_of tdo o) ->
  tdo_view (ms_mem s) tdo d -> pobs_ok (zlen d) o ->
  0 <= off -> off + pwidth o <= zlen rx ->
  exists s' objs', run_observer rx nd s = Done (tt, s') /\ ms_w s' = ms_w s /\
    ms_ctx s' = (ms_ctx s) <| observer_pool := (observer_pool (ms_ctx s)) <| pool_objs := objs' |> |> /\
    (forall a, a <> node_extra nd -> objs' !! a = objs_of s !! a) /\
    mem_frame tdo (ms_mem s) (ms_mem s') /\
    tdo_view (ms_mem s') tdo (papply o (take (Z.to_nat (pwidth o)) (drop (Z.to_nat off) rx)) d).
Proof.
  intros Hfn Hdata Hobj Hd Hok Hoff Hlen.
  pose proof (papply_done o rx off d Hok Hoff Hlen) as Hap. cbn zeta in Hap.
  destruct tdo as [|b p].
  { rewrite Hd in Hok. change (zlen (@nil Z)) with 0 in Hok. destruct o; unfold pobs_ok in Hok; lia. }
  unfold run_observer, objs_of in *. rewrite Hfn, Hobj, Hdata.
  destruct o as [from to n|k n]; cbn [fn_of extra_of] in *.
  - destruct (update_from_ok (ms_mem s) b p
      (fun d => copy_bits (drop (Z.to_nat off) rx) from d to n false) d _ Hd Hap) as (m' & E1 & E2 & E3).
    { apply papply_length. }
    rewrite E1. exists (s <| ms_mem := m' |>), (pool_objs (observer_pool (ms_ctx s))).
    split; [done|]. split; [done|]. split; [by rewrite ctx_objs_id|]. done.
  - rewrite Z.sub_0_r. destruct (read_at 0 n (drop (Z.to_nat off) rx)) as [x|]; [|done]. cbn in Hap |- *.
    rewrite Z.add_0_r.
    destruct (store_bytes_from (ms_mem s) b p k x d _ Hd (proj1 Hok) Hap) as (m' & E1 & E2 & E3).
    cbn in E1. rewrite E1. eexists _, _. split; [reflexivity|]. cbn.
    split; [done|]. split; [done|]. split; [|done].
    intros a Ha. by rewrite lookup_insert_ne.
Qed.

Lemma nodes_match_ext tdo objs objs' off nodes ps :
  (forall a, a ∈ map node_extra nodes -> objs' !! a = objs !! a) ->
  nodes_match tdo objs off nodes ps -> nodes_match tdo objs' off nodes ps.
Proof.
  revert off ps. induction nodes as [|nd nodes IH]; intros off [|o ps]; cbn; try done.
  intros Hext (Hf & Hd & Ho & Hm). repeat split; try done.
  - rewrite Hext; [done|]. left.
  - apply IH; [|done]. intros a Ha. apply Hext. by right.
Qed.

Lemma run_observers_ok tdo rx nodes ps off s d :
  nodes_match tdo (objs_of s) off nodes ps -> NoDup (map node_extra nodes) ->
  tdo_view (ms_mem s) tdo d -> Forall (pobs_ok (zlen d)) ps ->
  0 <= off -> off + pwidths ps <= zlen rx ->
  exists s' objs', run_observers rx nodes s = Done (tt, s') /\ ms_w s' = ms_w s /\
    ms_ctx s' = (ms_ctx s) <| observer_pool := (observer_pool (ms_ctx s)) <| pool_objs := objs' |> |> /\
    (forall a, a ∉ map node_extra nodes -> objs' !! a = objs_of s !! a) /\
    mem_frame tdo (ms_mem s) (ms_mem s') /\
    tdo_view (ms_mem s') tdo (papply_all ps (drop (Z.to_nat off) rx) d).
Proof.
  revert ps off s d. induction nodes as [|nd nodes IH]; intros [|o ps] off s d Hm Hnd Hd Hok Hoff Hlen;
    try done.
  - exists s, (objs_of s). split; [done|]. split; [done|].
    split; [symmetry; apply ctx_objs_id|]. split; [done|]. split; [reflexivity|done].
  - destruct Hm as (Hfn & Hdata & Hobj & Hm). apply NoDup_cons in Hnd as [Hnin Hnd].
    apply Forall_cons in Hok as [Ho Hok]. cbn [pwidths] in Hlen.
    pose proof (pwidth_nonneg _ _ Ho). pose proof (pwidths_nonneg _ _ Hok).
    destruct (run_observer_ok tdo rx nd o off s d) as (s1 & objs1 & E1 & W1 & C1 & O1 & M1 & L1);
      [done..|lia|].
    assert (Ho1 : objs_of s1 = objs1) by (unfold objs_of; by rewrite C1).
    destruct (IH ps (off + pwidth o) s1 (papply o (take (Z.to_nat (pwidth o)) (drop (Z.to_nat off) rx)) d))
      as (s2 & objs2 & E2 & W2 & C2 & O2 & M2 & L2); [|done|done| |lia|lia|].
    + rewrite Ho1. eapply nodes_match_ext; [|exact Hm]. intros a Ha. apply O1. by intros ->.
    + unfold zlen. rewrite papply_length. done.
    + exists s2, objs2. cbn [run_observers]. rewrite (bind_done _ _ _ _ _ E1).
      split; [exact E2|]. split; [congruence|].
      split; [by rewrite C2, C1|]. split; [|split; [by etrans|]].
      * intros a Ha. rewrite O2 by (intros Hin; apply Ha; by right). rewrite Ho1.
        apply O1. intros ->. apply Ha. left.
      * cbn [papply_all]. rewrite drop_drop.
        by replace (Z.to_nat off + Z.to_nat (pwidth o))%nat with (Z.to_nat (off + pwidth o)) by lia.
Qed.

(** ** Flush *)

(** The context fields outside the buffer, the error text and the counters. *)
Record SameCtx (c c' : mpsse_context) : Prop := {
  Same_handle : ft_handle c' = ft_handle c;
  Same_dump : dump_file c' = dump_file c;
  Same_state : state c' = state c;
  Same_tdi : last_tdi c' = last_tdi c;
  Same_open : is_open c' = is_open c;
  Same_chip : chip_buffer_size c' = chip_buffer_size c;
  Same_pool : observer_pool c' = observer_pool c
}.

Lemma flush_tx_ok tdo s P ps rs d :
  Buf tdo s P ps rs d -> 
  exists s', flush_tx s = Done (0, s') /\ ms_mem s' = ms_mem s /\ SameCtx (ms_ctx s) (ms_ctx s') /\
    buffer (ms_ctx s') = (buffer (ms_ctx s)) <| tx_num_bytes := 0 |> /\
    dev_handle (ms_w s') = dev_handle (ms_w s) /\
    dev_engine (ms_w s') = (eng_feed (dev_engine (ms_w s)) P).1 /\
    dev_rx (ms_w s') = (eng_feed (dev_engine (ms_w s)) P).2.
Proof.
  intros B. destruct (Buf_tx _ _ _ _ _ _ B) as [rest Htx].
  destruct (dev_write (ft_handle (ms_ctx s)) (ms_w s) P (Buf_handle _ _ _ _ _ _ B) (Buf_bytes _ _ _ _ _ _ B))
    as (w' & E1 & D1 & D2 & D3).
  assert (Hr : read_at 0 (tx_num_bytes (buffer (ms_ctx s))) (tx_buffer (buffer (ms_ctx s))) = Some P).
  { rewrite Htx, (Buf_tx_num _ _ _ _ _ _ B). by apply read_at_prefix. }
  assert (Hlen : 0 <= zlen P <= TX_MAX).
  { pose proof (Buf_tx_len _ _ _ _ _ _ B) as Hl. rewrite Htx, zlen_app in Hl.
    pose proof (zlen_nonneg P). pose proof (zlen_nonneg rest). lia. }
  unfold flush_tx, buf_of. rewrite (bind_done _ _ s (buffer (ms_ctx s)) s eq_refl).
  run_lift Hr.
  assert (Hd : flush_dump P (tx_num_bytes (buffer (ms_ctx s))) s = Done (tt, s)).
  { unfold flush_dump, ctx_of. rewrite (bind_done _ _ s (ms_ctx s) s eq_refl).
    by rewrite (Buf_dump _ _ _ _ _ _ B). }
  rewrite (bind_done _ _ _ _ _ Hd). unfold ctx_of. rewrite (bind_done _ _ s (ms_ctx s) s eq_refl).
  run_ft E1. erewrite bind_done; [|reflexivity]. cbv beta.
  change (negb (FT_OK =? FT_OK)) with false. cbv iota.
  rewrite i32_id by (unfold TX_MAX, INT_MIN, INT_MAX in *; lia).
  rewrite (Buf_tx_num _ _ _ _ _ _ B), Z.eqb_refl. cbv iota.
  eexists. split; [reflexivity|]. cbn. rewrite (Buf_queue _ _ _ _ _ _ B) in D3.
  rewrite (Buf_handle _ _ _ _ _ _ B) in D1. repeat split; done.
Qed.

Lemma reading_done tdo s P ps rs d :
  Buf tdo s P ps rs d -> forall s1 out,
  ms_mem s1 = ms_mem s -> SameCtx (ms_ctx s) (ms_ctx s1) ->
  buffer (ms_ctx s1) = (buffer (ms_ctx s)) <| tx_num_bytes := 0 |> ->
  dev_handle (ms_w s1) = dev_handle (ms_w s) -> dev_rx (ms_w s1) = out -> zlen out = pwidths ps ->
  exists s2 v, while_loop read_round (0, 500000, 0) s1 = Done (Some (zlen out), s2) /\
    Reading s1 out v s2 /\ v.1.1 = zlen out.
Proof.
  intros B s1 out Hm [Sh _ _ _ _ _ _] Hb Hdh Hq Hl.
  pose proof (Buf_rx_max _ _ _ _ _ _ B) as Hmax.
  pose proof (dev_lag_bound (ms_w s1)) as Hlag.
  assert (Hn : rx_num_bytes (buffer (ms_ctx s1)) = zlen out).
  { rewrite Hb. cbn. by rewrite (Buf_rx_num _ _ _ _ _ _ B). }
  assert (Hc : zlen (rx_buffer (buffer (ms_ctx s1))) = RX_MAX).
  { rewrite Hb. cbn. apply (Buf_rx_len _ _ _ _ _ _ B). }
  destruct (while_total read_round (Reading s1 out)
    (fun r s => r = Some (zlen out) /\ exists v, Reading s1 out v s /\ v.1.1 = zlen out)
    (fun v s => (zlen out - v.1.1) * 1002 + dev_lag (ms_w s)) (0, 500000, 0) s1)
    as (r & s2 & E1 & -> & v & R & Hv).
  - intros v s' R. destruct (read_round_ok s1 out v s') as (r & s2 & E1 & H'); [|done|lia|lia|done|].
    + rewrite Sh, Hdh. apply (Buf_handle _ _ _ _ _ _ B).
    + exists r, s2. split; [exact E1|]. destruct r as [v'|r]; exact H'.
  - pose proof (zlen_nonneg out). split; cbn [fst snd]; try done; try lia.
    + by exists (rx_buffer (buffer (ms_ctx s1))).
    + repeat split; try done. by destruct (ms_ctx s1) as [? []].
  - cbn [fst]. unfold RX_MAX in *. lia.
  - exists s2, v. done.
Qed.

Lemma zlen_nil_inv {A} (l : list A) : zlen l = 0 -> l = [].
Proof. by destruct l. Qed.

Lemma nodes_match_nil tdo objs off nodes : nodes_match tdo objs off nodes [] -> nodes = [].
Proof. by destruct nodes. Qed.

(** The receive half, after the pending bytes have been written. *)
Lemma flush_rx_ok tdo s P ps rs d s1 :
  Buf tdo s P ps rs d ->
  ms_mem s1 = ms_mem s -> SameCtx (ms_ctx s) (ms_ctx s1) ->
  buffer (ms_ctx s1) = (buffer (ms_ctx s)) <| tx_num_bytes := 0 |> ->
  dev_handle (ms_w s1) = dev_handle (ms_w s) ->
  dev_rx (ms_w s1) = (eng_feed (dev_engine (ms_w s)) P).2 ->
  exists s', flush_rx s1 = Done (0, s') /\
    Buf tdo s' [] [] rs (papply_all ps (eng_feed (dev_engine (ms_w s)) P).2 d) /\
    dev_engine (ms_w s') = dev_engine (ms_w s1) /\ Frame tdo s s' /\ pool_used_of s' = pool_used_of s.
Proof.
  intros B Hm S Hb Hdh Hq. set (out := (eng_feed (dev_engine (ms_w s)) P).2) in *.
  pose proof (Buf_out _ _ _ _ _ _ B) as Hout. fold out in Hout.
  destruct (reading_done tdo s P ps rs d B s1 out Hm S Hb Hdh Hq Hout) as (s2 & v & E2 & R & Hv).
  destruct R as [_ _ _ Rq [rest Rrx] (Rm & Re & Rdh & Rl & Rc)].
  rewrite Hv in Rrx, Rq. rewrite take_ge in Rrx by (unfold zlen; lia).
  rewrite drop_ge in Rq by (unfold zlen; lia).
  assert (Rb : rx_num_bytes (buffer (ms_ctx s2)) = pwidths ps /\
               rx_observers (buffer (ms_ctx s2)) = rx_observers (buffer (ms_ctx s)) /\
               objs_of s2 = pool_objs (observer_pool (ms_ctx s))).
  { unfold objs_of. rewrite Rc. cbn. rewrite Hb, (Same_pool _ _ S). cbn.
    by rewrite (Buf_rx_num _ _ _ _ _ _ B). }
  destruct Rb as (Rn & Ro & Rp).
  pose proof (Buf_nodup _ _ _ _ _ _ B) as Hnd. apply NoDup_app in Hnd as (Hnd1 & Hnd2 & Hnd3).
  destruct (run_observers_ok tdo (rx_buffer (buffer (ms_ctx s2))) (rx_observers (buffer (ms_ctx s))) ps 0 s2 d)
    as (s3 & objs3 & E3 & W3 & C3 & O3 & M3 & L3).
  - rewrite Rp. apply (Buf_nodes _ _ _ _ _ _ B).
  - done.
  - rewrite Rm, Hm. apply (Buf_tdo _ _ _ _ _ _ B).
  - apply (Buf_ps _ _ _ _ _ _ B).
  - done.
  - rewrite Rrx, zlen_app. pose proof (zlen_nonneg rest). lia.
  - assert (L4 : tdo_view (ms_mem s3) tdo (papply_all ps out d)).
    { change (Z.to_nat 0) with 0%nat in L3. rewrite drop_0, Rrx in L3.
      replace (papply_all ps out d) with (papply_all ps (out ++ rest) d); [done|].
      pose proof (pwidths_nonneg _ _ (Buf_ps _ _ _ _ _ _ B)).
      rewrite <- (app_nil_r ps) at 1. apply (papply_all_app ps []); [done|done|].
      eapply Forall_impl; [apply (Buf_ps _ _ _ _ _ _ B)|]. apply pwidth_nonneg. }
    clear L3. unfold flush_rx. rewrite (bind_done _ _ _ _ _ E2). cbv beta iota.
    unfold buf_of. rewrite (bind_done _ _ s2 (buffer (ms_ctx s2)) s2 eq_refl).
    rewrite Rn, Hout, Z.eqb_refl. cbv beta iota delta [negb].
    rewrite Ro, (bind_done _ _ _ _ _ E3).
    eexists. split; [reflexivity|].
    destruct S as [S1 S2 S3 S4 S5 S6 S7]. rewrite Rc in C3. cbn in C3. rewrite Hb in C3. cbn in C3.
    split; [|split; [|split]]; cbn.
    + split; cbn; rewrite ?C3; cbn; rewrite ?W3, ?S1, ?S2.
      1: by rewrite Rdh, Hdh; apply B.
      all: try first [done | by apply B | by rewrite Rl, Hb; apply B | by rewrite eng_feed_nil | by eexists].
      * eapply Forall_impl; [apply Forall_and; split; [apply (Buf_reserved _ _ _ _ _ _ B)|]|].
        { apply Forall_forall. intros x Hx. exact Hx. }
        intros [a o] [Ha Hin]. rewrite O3; [by rewrite Rp|].
        intros Hin'. apply (Hnd2 a Hin'). apply list_elem_of_fmap. by exists (a, o).
      * rewrite S7. eapply Forall_app. apply (Buf_pool _ _ _ _ _ _ B).
    + by rewrite W3.
    + split; cbn; rewrite ?C3; cbn; congruence.
    + unfold pool_used_of. cbn. rewrite C3. cbn. by rewrite S7.
Qed.

Lemma flush_ok tdo s P ps rs d :
  Buf tdo s P ps rs d ->
  exists s', mpsse_buffer_flush s = Done (0, s') /\
    Buf tdo s' [] [] rs (papply_all ps (eng_feed (dev_engine (ms_w s)) P).2 d) /\
    dev_engine (ms_w s') = (eng_feed (dev_engine (ms_w s)) P).1 /\
    Frame tdo s s' /\ pool_used_of s' = pool_used_of s.
Proof.
  intros B. pose proof (Buf_tx_num _ _ _ _ _ _ B) as Ht. pose proof (Buf_out _ _ _ _ _ _ B) as Hout.
  unfold mpsse_buffer_flush, buf_of. rewrite (bind_done _ _ s (buffer (ms_ctx s)) s eq_refl).
  destruct (Z.ltb_spec 0 (tx_num_bytes (buffer (ms_ctx s)))) as [Hlt|Hge].
  - destruct (flush_tx_ok tdo s P ps rs d B) as (s1 & E1 & M1 & S1 & B1 & D1 & D2 & D3).
    rewrite (bind_done _ _ _ _ _ E1). cbn [Z.ltb Z.compare].
    rewrite (bind_done _ _ s1 (buffer (ms_ctx s1)) s1 eq_refl).
    destruct (Z.ltb_spec 0 (rx_num_bytes (buffer (ms_ctx s1)))) as [Hr|Hr].
    + destruct (flush_rx_ok tdo s P ps rs d s1) as (s' & E' & B' & De & F & Hp); try done.
      exists s'. split; [exact E'|]. split; [exact B'|]. split; [congruence|]. done.
    + assert (Hp0 : pwidths ps = 0).
      { rewrite B1 in Hr. cbn in Hr. rewrite (Buf_rx_num _ _ _ _ _ _ B) in Hr.
        pose proof (pwidths_nonneg _ _ (Buf_ps _ _ _ _ _ _ B)). lia. }
      pose proof (pwidths_zero _ _ (Buf_ps _ _ _ _ _ _ B) Hp0) as ->.
      cbn [pwidths] in Hout. apply zlen_nil_inv in Hout.
      exists s1. split; [done|]. cbn [papply_all]. destruct S1 as [S1 S2 S3 S4 S5 S6 S7].
      split; [|split; [|split]].
      * destruct B. split; rewrite ?B1; cbn; rewrite ?S1, ?S2, ?S7, ?M1, ?D3, ?eng_feed_nil; try done.
        -- congruence.
        -- by eexists.
      * done.
      * split; try congruence. rewrite M1. reflexivity.
      * unfold pool_used_of. by rewrite S7.
  - assert (HP : P = []) by (apply zlen_nil_inv; pose proof (zlen_nonneg P); lia).
    subst P. rewrite eng_feed_nil in Hout |- *. cbn in Hout.
    pose proof (pwidths_zero _ _ (Buf_ps _ _ _ _ _ _ B) (eq_sym Hout)) as ->.
    rewrite (bind_done _ _ s 0 s eq_refl). cbn [Z.ltb Z.compare].
    rewrite (bind_done _ _ s (buffer (ms_ctx s)) s eq_refl).
    rewrite (Buf_rx_num _ _ _ _ _ _ B). cbn [pwidths Z.ltb Z.compare].
    exists s. split; [done|]. split; [exact B|]. split; [done|]. split; [reflexivity|done].
Qed.

(** ** Append *)

Lemma flush_settled tdo s rs e d :
  Settled tdo s rs e d ->
  exists s', mpsse_buffer_flush s = Done (0, s') /\ Buf tdo s' [] [] rs d /\
    dev_engine (ms_w s') = e /\ Frame tdo s s' /\ pool_used_of s' = pool_used_of s.
Proof.
  intros (P & ps & d0 & B & -> & ->). apply flush_ok, B.
Qed.

Lemma Buf_settled tdo s rs d e :
  Buf tdo s [] [] rs d -> dev_engine (ms_w s) = e -> Settled tdo s rs e d.
Proof.
  intros B <-. exists [], [], d. split; [done|]. by rewrite eng_feed_nil.
Qed.

(** A flush on demand that leaves room for [n] more bytes and [m] response
    bytes, if the demand covers the case that there is no room. *)
Lemma make_room tdo s rs e d (demand : bool) n m :
  Settled tdo s rs e d -> 0 <= n <= TX_MAX -> 0 <= m <= RX_MAX ->
  (demand = false -> tx_num_bytes (buffer (ms_ctx s)) + n <= TX_MAX /\
                     rx_num_bytes (buffer (ms_ctx s)) + m <= RX_MAX) ->
  exists s' P ps d0, (if demand then mpsse_buffer_flush else mret 0) s = Done (0, s') /\
    Buf tdo s' P ps rs d0 /\ e = (eng_feed (dev_engine (ms_w s')) P).1 /\
    d = papply_all ps (eng_feed (dev_engine (ms_w s')) P).2 d0 /\
    zlen P + n <= TX_MAX /\ pwidths ps + m <= RX_MAX /\
    Frame tdo s s' /\ pool_used_of s' = pool_used_of s.
Proof.
  intros Hs Hn Hm Hd. destruct demand.
  - destruct (flush_settled _ _ _ _ _ Hs) as (s' & E1 & B & <- & F & Hp).
    exists s', [], [], d. rewrite eng_feed_nil. cbn [pwidths papply_all]. change (zlen (@nil Z)) with 0.
    split_and!; (done || lia).
  - destruct Hs as (P & ps & d0 & B & -> & ->). destruct (Hd eq_refl) as [H3 H4].
    rewrite (Buf_tx_num _ _ _ _ _ _ B) in H3. rewrite (Buf_rx_num _ _ _ _ _ _ B) in H4.
    exists s, P, ps, d0. split_and!; done.
Qed.

Lemma append_tx_ok tdo s P ps rs d src n dat :
  Buf tdo s P ps rs d -> fetch src n s = Done (dat, s) -> zlen dat = n ->
  0 < n -> zlen P + n <= TX_MAX ->
  exists s' tx, append_tx src n s = Done (0, s') /\ ms_mem s' = ms_mem s /\ ms_w s' = ms_w s /\
    ms_ctx s' = (ms_ctx s) <| buffer := (buffer (ms_ctx s)) <| tx_buffer := tx |>
                                          <| tx_num_bytes := zlen (P ++ dat) |> |> /\
    zlen tx = TX_MAX /\ exists rest, tx = (P ++ dat) ++ rest.
Proof.
  intros B Hf Hl Hn Hroom. destruct (Buf_tx _ _ _ _ _ _ B) as [rest Htx].
  pose proof (Buf_tx_len _ _ _ _ _ _ B) as Hlen. pose proof (zlen_nonneg P).
  unfold append_tx, buf_of. rewrite (bind_done _ _ s (buffer (ms_ctx s)) s eq_refl).
  rewrite (proj2 (Z.ltb_lt 0 n)) by done.
  rewrite (Buf_max_tx _ _ _ _ _ _ B), (Buf_tx_num _ _ _ _ _ _ B).
  rewrite (proj2 (Z.ltb_ge TX_MAX (zlen P + n))) by done.
  rewrite (bind_done _ _ _ _ _ Hf).
  assert (Hw : write_at (zlen P) dat (tx_buffer (buffer (ms_ctx s))) =
               Some ((P ++ dat) ++ drop (length dat) rest)).
  { rewrite write_at_ok by lia. f_equal. rewrite Htx, <- app_assoc.
    unfold zlen. rewrite Nat2Z.id, take_app_length. do 2 f_equal.
    rewrite drop_app_ge by lia. f_equal. lia. }
  run_lift Hw. eexists _, _. split; [reflexivity|]. cbn.
  rewrite (Buf_tx_num _ _ _ _ _ _ B), zlen_app, Hl.
  repeat split; [|eauto]. apply write_at_length in Hw. unfold zlen in *. congruence.
Qed.

(** Appending bytes that produce no response. *)
Lemma append_settled tdo s rs e d src n dat :
  Settled tdo s rs e d ->
  (forall s', Frame tdo s s' -> fetch src n s' = Done (dat, s')) ->
  zlen dat = n -> 0 < n <= 65536 -> Forall byte_ok dat -> (eng_feed e dat).2 = [] ->
  exists s', mpsse_buffer_append src n None 0 s = Done (0, s') /\
    Settled tdo s' rs (eng_feed e dat).1 d /\ Frame tdo s s' /\ pool_used_of s' = pool_used_of s.
Proof.
  intros Hs Hf Hl Hn Hb Hr. unfold mpsse_buffer_append, buf_of.
  rewrite (bind_done _ _ s (buffer (ms_ctx s)) s eq_refl). cbv zeta.
  set (demand := _ || _ || (_ || _)).
  destruct (make_room tdo s rs e d demand n 0) as (s1 & P & ps & d0 & E1 & B & -> & -> & Hp & Hw & F & Hu).
  - exact Hs.
  - unfold TX_MAX. lia.
  - unfold RX_MAX. lia.
  - intros Hd. subst demand. destruct Hs as (P & ps & d0 & B & _).
    rewrite (Buf_max_tx _ _ _ _ _ _ B), (Buf_max_rx _ _ _ _ _ _ B) in Hd. zb. lia.
  - rewrite (bind_done _ _ _ _ _ E1). cbn [Z.ltb Z.compare].
    destruct (append_tx_ok tdo s1 P ps rs d0 src n dat B (Hf s1 F) Hl) as
      (s2 & tx & E2 & M2 & W2 & C2 & L2 & R2); [lia|lia|].
    rewrite (bind_done _ _ _ _ _ E2). cbn [Z.ltb Z.compare].
    exists s2. split; [reflexivity|].
    destruct (eng_feed (dev_engine (ms_w s1)) P) as [e1 o1] eqn:EP. cbn [fst snd] in *.
    assert (Happ : eng_feed (dev_engine (ms_w s1)) (P ++ dat) = ((eng_feed e1 dat).1, o1)).
    { rewrite eng_feed_app, EP. destruct (eng_feed e1 dat) as [e2 o2]. cbn in Hr |- *.
      by rewrite Hr, app_nil_r. }
    split; [|split].
    + exists (P ++ dat), ps, d0. rewrite W2, Happ. split; [|done].
      destruct B. split; rewrite ?C2, ?W2, ?M2; cbn; try done.
      * by apply Forall_app.
      * rewrite Happ. rewrite EP in Buf_out0. done.
    + etrans; [exact F|]. split; rewrite ?C2, ?M2; done.
    + unfold pool_used_of in *. rewrite C2. done.
Qed.

Definition POOL_MAX : Z := MEMORY_POOL_SIZE * 256.

Lemma pool_alloc_ok (s : mstate W) size :
  pool_used_of s + size <= POOL_MAX ->
  pool_alloc size s = Done (Some (pool_used_of s), s <| ms_ctx := (ms_ctx s) <| observer_pool :=
    (observer_pool (ms_ctx s)) <| pool_used := pool_used_of s + size |> |> |>).
Proof.
  unfold pool_alloc, pool_used_of, POOL_MAX. intros Hp.
  by rewrite (proj2 (Z.ltb_ge _ _) Hp).
Qed.

Lemma append_rx_ok (s : mstate W) fn a m :
  0 < m -> max_rx_buffer_bytes (buffer (ms_ctx s)) = RX_MAX ->
  rx_num_bytes (buffer (ms_ctx s)) + m <= RX_MAX -> pool_used_of s + 32 <= POOL_MAX ->
  exists s', append_rx (Some (fn, a)) m s = Done (0, s') /\ ms_mem s' = ms_mem s /\ ms_w s' = ms_w s /\
    ms_ctx s' = (ms_ctx s)
      <| observer_pool := (observer_pool (ms_ctx s)) <| pool_used := pool_used_of s + 32 |> |>
      <| buffer := (buffer (ms_ctx s))
          <| rx_observers := rx_observers (buffer (ms_ctx s)) ++
               [mk_node fn (rx_num_bytes (buffer (ms_ctx s))) a] |>
          <| rx_num_bytes := rx_num_bytes (buffer (ms_ctx s)) + m |> |>.
Proof.
  intros Hm Hmax Hroom Hpool. unfold append_rx, buf_of.
  rewrite (bind_done _ _ s (buffer (ms_ctx s)) s eq_refl).
  rewrite (proj2 (Z.ltb_lt 0 m) Hm), Hmax, (proj2 (Z.ltb_ge _ _) Hroom).
  erewrite bind_done; [|erewrite bind_done; [|by apply pool_alloc_ok]; reflexivity].
  eexists. split; [reflexivity|]. done.
Qed.

(** The state of the buffer with a command and the observer of its response
    behind the others. *)
Lemma Buf_append_obs tdo s s' P ps rs d dat a o tx :
  Buf tdo s P ps ((a, o) :: rs) d ->
  Forall byte_ok dat -> zlen (eng_feed (eng_feed (dev_engine (ms_w s)) P).1 dat).2 = pwidth o -> pobs_ok (zlen d) o ->
  0 < pwidth o -> pwidths ps + pwidth o <= RX_MAX -> zlen tx = TX_MAX -> (exists rest, tx = (P ++ dat) ++ rest) ->
  ms_w s' = ms_w s -> ms_mem s' = ms_mem s ->
  ms_ctx s' = (ms_ctx s)
      <| observer_pool := (observer_pool (ms_ctx s)) <| pool_used := pool_used_of s + 32 |> |>
      <| buffer := (buffer (ms_ctx s)) <| tx_buffer := tx |> <| tx_num_bytes := zlen (P ++ dat) |>
          <| rx_observers := rx_observers (buffer (ms_ctx s)) ++ [mk_node (fn_of o) (pwidths ps) a] |>
          <| rx_num_bytes := pwidths ps + pwidth o |> |> ->
  Settled tdo s' rs (eng_feed (eng_feed (dev_engine (ms_w s)) P).1 dat).1
    (papply o (eng_feed (eng_feed (dev_engine (ms_w s)) P).1 dat).2 (papply_all ps (eng_feed (dev_engine (ms_w s)) P).2 d)).
Proof.
  intros B Hb Hr Ho Hw1 Hroom Htl Htx W3 M3 C3.
  destruct (eng_feed (dev_engine (ms_w s)) P) as [e1 o1] eqn:EP. cbn [fst snd] in *.
  assert (Happ : eng_feed (dev_engine (ms_w s)) (P ++ dat) = ((eng_feed e1 dat).1, o1 ++ (eng_feed e1 dat).2)).
  { rewrite eng_feed_app, EP. by destruct (eng_feed e1 dat). }
  assert (Ho1 : zlen o1 = pwidths ps) by (pose proof (Buf_out _ _ _ _ _ _ B) as HB; by rewrite EP in HB).
  pose proof (Buf_ps _ _ _ _ _ _ B) as Hps.
  exists (P ++ dat), (ps ++ [o]), d. rewrite W3, Happ. split; [|split; [done|]].
  - destruct B. split; rewrite ?C3, ?W3, ?M3, ?pwidths_app; cbn -[pwidths]; try done.
    + by apply Forall_app.
    + cbn [pwidths]. lia.
    + cbn [pwidths]. lia.
    + rewrite Happ. cbn [snd pwidths]. rewrite zlen_app, Hr, Ho1. lia.
    + apply Forall_cons in Buf_reserved0 as [Ha _]. apply nodes_match_app; [done|]. cbn. by rewrite Z.add_0_l.
    + by apply Forall_cons in Buf_reserved0 as [_ Hrs].
    + rewrite map_app, <- app_assoc. done.
    + rewrite map_app, <- app_assoc. cbn -[app]. eapply Forall_impl; [exact Buf_pool0|].
      intros x Hx. cbn in Hx. unfold pool_used_of. lia.
    + apply Forall_app. split; [done|by repeat constructor].
  - cbn [snd]. rewrite papply_all_app; [|by eapply pwidths_nonneg|done|].
    + cbn [papply_all]. f_equal. rewrite take_ge; [done|]. unfold zlen in Hr. lia.
    + eapply Forall_impl; [exact Hps|]. apply pwidth_nonneg.
Qed.

(** Appending bytes whose response an observer takes.  The extra object of the
    observer is the last one reserved. *)
Lemma append_obs_settled tdo s rs e d src n dat a o :
  Settled tdo s ((a, o) :: rs) e d ->
  (forall s', Frame tdo s s' -> fetch src n s' = Done (dat, s')) ->
  zlen dat = n -> 0 < n <= 65536 -> Forall byte_ok dat ->
  zlen (eng_feed e dat).2 = pwidth o -> pobs_ok (zlen d) o -> pwidth o <= 65536 ->
  pool_used_of s + 32 <= POOL_MAX ->
  exists s', mpsse_buffer_append src n (Some (fn_of o, a)) (pwidth o) s = Done (0, s') /\
    Settled tdo s' rs (eng_feed e dat).1 (papply o (eng_feed e dat).2 d) /\
    Frame tdo s s' /\ pool_used_of s' = pool_used_of s + 32.
Proof.
  intros Hs Hf Hl Hn Hb Hr Ho Hw Hpool. pose proof (pwidth_pos _ _ Ho) as Hw1.
  unfold mpsse_buffer_append, buf_of.
  rewrite (bind_done _ _ s (buffer (ms_ctx s)) s eq_refl). cbv zeta.
  set (demand := _ || _ || (_ || _)).
  destruct (make_room tdo s _ e d demand n (pwidth o) Hs) as
    (s1 & P & ps & d0 & E1 & B & -> & -> & Hp & Hm & F & Hu);
    [unfold TX_MAX; lia|unfold RX_MAX; lia| |].
  { intros Hd. subst demand. destruct Hs as (P & ps & d0 & B & _).
    rewrite (Buf_max_tx _ _ _ _ _ _ B), (Buf_max_rx _ _ _ _ _ _ B) in Hd. zb. lia. }
  rewrite (bind_done _ _ _ _ _ E1). cbn [Z.ltb Z.compare].
  destruct (append_tx_ok tdo s1 P ps _ d0 src n dat B (Hf s1 F) Hl) as
    (s2 & tx & E2 & M2 & W2 & C2 & L2 & R2); [lia|lia|].
  rewrite (bind_done _ _ _ _ _ E2). cbn [Z.ltb Z.compare].
  destruct (append_rx_ok s2 (fn_of o) a (pwidth o)) as (s3 & E3 & M3 & W3 & C3); [lia|..].
  { rewrite C2. apply (Buf_max_rx _ _ _ _ _ _ B). }
  { rewrite C2. cbn. by rewrite (Buf_rx_num _ _ _ _ _ _ B). }
  { unfold pool_used_of in *. rewrite C2. cbn. lia. }
  exists s3. split; [exact E3|]. rewrite C2 in C3. cbn in C3. rewrite (Buf_rx_num _ _ _ _ _ _ B) in C3.
  split; [|split].
  - apply (Buf_append_obs tdo s1 s3 P ps rs d0 dat a o tx B); try done.
    all: match goal with |- pobs_ok _ _ => idtac | _ => try first [lia | congruence] end.
    { unfold zlen in *. by rewrite papply_all_length in Ho. }
    unfold pool_used_of in *. by rewrite C2 in C3.
  - etrans; [exact F|]. split; rewrite ?C3, ?M3, ?M2; done.
  - unfold pool_used_of in *. rewrite C3. cbn. rewrite C2. cbn. lia.
Qed.

Lemma ensure_settled tdo s rs e d n m :
  Settled tdo s rs e d ->
  exists s', mpsse_buffer_ensure_can_append n m s = Done (0, s') /\ Settled tdo s' rs e d /\
    Frame tdo s s' /\ pool_used_of s' = pool_used_of s.
Proof.
  intros Hs. unfold mpsse_buffer_ensure_can_append, buf_of.
  rewrite (bind_done _ _ s (buffer (ms_ctx s)) s eq_refl). cbv zeta.
  destruct (_ || _ || _ || _).
  - destruct (flush_settled _ _ _ _ _ Hs) as (s' & E1 & B & He & F & Hp).
    exists s'. rewrite (bind_done _ _ _ _ _ E1). split; [done|].
    split; [by apply Buf_settled|done].
  - exists s. split; [done|]. split; [done|]. split; [reflexivity|done].
Qed.

(** [mpsse_buffer_add_write_with_readback] *)
Lemma add_write_settled tdo s rs e d src n dat a o :
  Settled tdo s ((a, o) :: rs) e d ->
  (forall s', Frame tdo s s' -> fetch src n s' = Done (dat, s')) ->
  zlen dat = n -> 0 < n <= 65536 -> Forall byte_ok dat ->
  zlen (eng_feed e dat).2 = pwidth o -> pobs_ok (zlen d) o -> pwidth o <= 65536 ->
  pool_used_of s + 32 <= POOL_MAX ->
  exists s', mpsse_buffer_add_write_with_readback src n (fn_of o) a (pwidth o) s = Done (0, s') /\
    Settled tdo s' rs (eng_feed e dat).1 (papply o (eng_feed e dat).2 d) /\
    Frame tdo s s' /\ pool_used_of s' = pool_used_of s + 32.
Proof.
  intros Hs Hf Hl Hn Hb Hr Ho Hw Hpool. unfold mpsse_buffer_add_write_with_readback.
  destruct (ensure_settled tdo s _ e d n (pwidth o) Hs) as (s1 & E1 & S1 & F1 & U1).
  rewrite (bind_done _ _ _ _ _ E1). cbn [Z.ltb Z.compare].
  destruct (append_obs_settled tdo s1 rs e d src n dat a o S1) as (s2 & E2 & S2 & F2 & U2);
    try done; [|lia|].
  - intros s' F'. apply Hf. by etrans.
  - exists s2. split; [exact E2|]. split; [done|]. split; [by etrans|lia].
Qed.

(** Reserving an extra object for an observer. *)
Lemma alloc_extra_settled tdo s rs e d o :
  Settled tdo s rs e d -> pool_used_of s + sizeof_extra (extra_of tdo o) <= POOL_MAX ->
  exists s' a, alloc_extra (extra_of tdo o) s = Done (Some a, s') /\
    Settled tdo s' ((a, o) :: rs) e d /\ Frame tdo s s' /\
    pool_used_of s' = pool_used_of s + sizeof_extra (extra_of tdo o).
Proof.
  intros (P & ps & d0 & B & -> & ->) Hp. unfold alloc_extra.
  rewrite (bind_done _ _ _ _ _ (pool_alloc_ok s _ Hp)).
  assert (Hsz : 0 < sizeof_extra (extra_of tdo o)) by (by destruct o).
  eexists _, (pool_used_of s). split; [reflexivity|].
  pose proof (Buf_pool _ _ _ _ _ _ B) as HP.
  assert (Hnin : pool_used_of s ∉ map node_extra (rx_observers (buffer (ms_ctx s))) ++ map fst rs).
  { intros Hin. rewrite Forall_forall in HP. specialize (HP _ Hin). unfold pool_used_of in HP. lia. }
  split; [|split; [|done]].
  - exists P, ps, d0. split; [|done]. destruct B. split; cbn; try done.
    + apply nodes_match_put; [|done]. intros Hin. apply Hnin, elem_of_app. by left.
    + apply Forall_cons. split; [by rewrite lookup_insert_eq|].
      rewrite Forall_forall in Buf_reserved0. apply Forall_forall. intros [a' o'] Hin.
      rewrite lookup_insert_ne; [by apply (Buf_reserved0 (a', o'))|]. intros <-.
      apply Hnin, elem_of_app. right. apply list_elem_of_fmap. by exists (pool_used_of s, o').
    + rewrite <- Permutation_middle. by constructor.
    + rewrite <- Permutation_middle. constructor; [unfold pool_used_of; lia|].
      eapply Forall_impl; [exact HP|]. unfold pool_used_of. cbn. lia.
  - by split.
Qed.

End Settled.
