(* ===== verification/MpsseScan.v ===== *)
(** The scan of mpsse_adapter.c.

    [append_tms_shift], [append_tdi_shift] and [mpsse_adapter_scan]: TMS/TDI
    vectors to MPSSE commands, with the TDO bits delivered by observers. *)

From S2P Require Import Prelude Jtag Bits Memory CString D2xx MpsseBuffer.

Section Scan.
Context {W : Type} `{D2XX W}.
#[local] Abbreviation MP := (M (mstate W)).

(** A read through a pointer to bytes of the caller. *)
Definition deref (p : ptr) (i : Z) : MP Z := fun s =>
  lift_exec (of_option (load8 (ms_mem s) (ptr_add p i))) s.

Definition get_bit_at (p : ptr) (idx : Z) : MP bool := fun s =>
  lift_exec (of_option (d ← load_from (ms_mem s) p; get_bit d idx)) s.

(** ** TMS shifts *)

(** [for (i = 0; i < bits_to_transfer; i++) if (get_bit(..)) tms_byte |= 1 << i] *)
Fixpoint build_tms_byte (tms : ptr) (from_bit_idx i tms_byte : Z) (n : nat) {struct n} : MP Z :=
  match n with
  | O => mret tms_byte
  | S n =>
      b ← get_bit_at tms (from_bit_idx + i);
      build_tms_byte tms from_bit_idx (i + 1)
        (if (b : bool) then u8 (Z.lor tms_byte (Z.shiftl 1 i)) else tms_byte) n
  end.

Definition max_tms_bits_per_command : Z := 6.

(** One round of the [while] loop; [None] is [return -1]. *)
Definition tms_round (tms : ptr) (to_bit_idx from_bit_idx : Z) : MP (Z + option unit) :=
  if from_bit_idx <? to_bit_idx then
    let bits_to_transfer := Z.min (to_bit_idx - from_bit_idx) max_tms_bits_per_command in
    tms_byte ← build_tms_byte tms from_bit_idx 0 0 (Z.to_nat bits_to_transfer);
    c ← ctx_of;
    let cmd := [OP_CLK_TMS_NO_READ; u8 (bits_to_transfer - 1);
                u8 (Z.lor tms_byte (Z.shiftl (Z.b2z (last_tdi c)) 7))] in
    r ← mpsse_buffer_append (Local cmd) 3 None 0;
    if r <? 0 then mret (inr None) else mret (inl (from_bit_idx + bits_to_transfer))
  else mret (inr (Some tt)).

Definition append_tms_shift (tms : ptr) (from_bit_idx to_bit_idx : Z) : MP Z :=
  r ← while_loop (tms_round tms to_bit_idx) from_bit_idx;
  match r with None => mret (-1) | Some _ => mret 0 end.

(** ** TDI shifts *)

(** The constants computed at the head of [append_tdi_shift]. *)
Record tdi_plan := mk_plan {
  from_bit_idx : Z;
  to_bit_idx : Z;
  last_bit_idx : Z;
  num_leading_bits : Z;
  leading_only : bool;
  inner_end_idx : Z;
  num_trailing_bits : Z;
  total_inner_bytes : Z
}.

Definition plan_tdi_shift (from to : Z) : tdi_plan :=
  let last := to - 1 in
  let num_regular_bits := last - from in
  let num_first_octet_bits := 8 - from mod 8 in
  let leading := Z.min (if num_first_octet_bits =? 8 then 0 else num_first_octet_bits) num_regular_bits in
  let only := leading =? num_regular_bits in
  let inner_end := if only then -1 else last - last mod 8 in
  let trailing := if only then 0 else last mod 8 in
  let total := if (from <? inner_end) && negb only then (inner_end - (from + leading)) / 8 else 0 in
  mk_plan from to last leading only inner_end trailing total.

(** "Leading bits (not byte-aligned)"; each stage answers the new [cur_idx],
    [None] is [return -1]. *)
Definition shift_leading (p : tdi_plan) (tdi tdo : ptr) (cur_idx : Z) : MP (option Z) :=
  if (cur_idx =? from_bit_idx p) && (0 <? num_leading_bits p) then
    b ← deref tdi (from_bit_idx p / 8);
    let cmd := [OP_CLK_DATA_BITS_OUT_NEG_IN_NEG; u8 (num_leading_bits p - 1);
                u8 (Z.shiftr b (from_bit_idx p mod 8))] in
    extra ← alloc_extra (bit_copier_extra (8 - num_leading_bits p) tdo (from_bit_idx p) (num_leading_bits p));
    match extra with
    | None => mret None
    | Some extra =>
        r ← mpsse_buffer_add_write_with_readback (Local cmd) 3 bit_copier_rx_observer_fn extra 1;
        if r <? 0 then mret None else mret (Some (cur_idx + num_leading_bits p))
    end
  else mret (Some cur_idx).

(** "Whole bytes" *)
Definition shift_inner (p : tdi_plan) (tdi tdo : ptr) (bulk_extra : option Z) (cur_idx : Z)
  : MP (option Z) :=
  if (cur_idx <? last_bit_idx p) && (cur_idx <? inner_end_idx p) then
    c ← ctx_of;
    let inner_octets_to_send := Z.min ((inner_end_idx p - cur_idx) / 8) (chip_buffer_size c) in
    let cmd := [OP_CLK_DATA_BYTES_OUT_NEG_IN_NEG;
                Z.land (Z.shiftr (inner_octets_to_send - 1) 0) 0xff;
                Z.land (Z.shiftr (inner_octets_to_send - 1) 8) 0xff] in
    let remaining_bytes :=
      total_inner_bytes p - (cur_idx - (from_bit_idx p + num_leading_bits p)) / 8 in
    let is_last_chunk := remaining_bytes <=? inner_octets_to_send in
    r ← mpsse_buffer_append (Local cmd) 3 None 0;
    if r <? 0 then mret None
    else
      r ← match is_last_chunk, bulk_extra with
          | true, Some bulk_extra =>
              mpsse_buffer_add_write_with_readback (Heap (ptr_add tdi (cur_idx / 8)))
                inner_octets_to_send bulk_byte_copier_rx_observer_fn bulk_extra inner_octets_to_send
          | _, _ =>
              mpsse_buffer_add_write_simple (Heap (ptr_add tdi (cur_idx / 8))) inner_octets_to_send
                (ptr_add tdo (cur_idx / 8)) inner_octets_to_send
          end;
      if r <? 0 then mret None else mret (Some (cur_idx + inner_octets_to_send * 8))
  else mret (Some cur_idx).

(** "Trailing bits" *)
Definition shift_trailing (p : tdi_plan) (tdi tdo : ptr) (cur_idx : Z) : MP (option Z) :=
  if (0 <? num_trailing_bits p) && (cur_idx <? last_bit_idx p) then
    b ← deref tdi (inner_end_idx p / 8);
    let cmd := [OP_CLK_DATA_BITS_OUT_NEG_IN_NEG; u8 (num_trailing_bits p - 1); b] in
    extra ← alloc_extra (bit_copier_extra (8 - num_trailing_bits p) tdo (inner_end_idx p) (num_trailing_bits p));
    match extra with
    | None => mret None
    | Some extra =>
        r ← mpsse_buffer_add_write_with_readback (Local cmd) 3 bit_copier_rx_observer_fn extra 1;
        if r <? 0 then mret None else mret (Some (cur_idx + num_trailing_bits p))
    end
  else mret (Some cur_idx).

(** "Last bit with TMS to exit shift state" *)
Definition shift_last (p : tdi_plan) (tdi tdo : ptr) (last_tms_bit_high : bool) (cur_idx : Z)
  : MP (option Z) :=
  if cur_idx =? last_bit_idx p then
    last_tdi_bit ← get_bit_at tdi (last_bit_idx p);
    let last_tms_bit := Z.b2z last_tms_bit_high in
    let cmd := [OP_CLK_TMS_READ_NEG; 0x00;
                u8 (Z.lor (Z.lor (Z.shiftl (Z.b2z last_tdi_bit) 7) (Z.shiftl last_tms_bit 1)) last_tms_bit)] in
    extra ← alloc_extra (bit_copier_extra 7 tdo (last_bit_idx p) 1);
    match extra with
    | None => mret None
    | Some extra =>
        r ← mpsse_buffer_add_write_with_readback (Local cmd) 3 bit_copier_rx_observer_fn extra 1;
        if r <? 0 then mret None
        else
          set_ctx (fun c => c <| last_tdi := last_tdi_bit |>) ;;
          mret (Some (cur_idx + 1))
    end
  else mret (Some cur_idx).

(** Stages run one after the other until one returns. *)
Definition then_stage (r : option Z) (k : Z -> MP (option Z)) : MP (option Z) :=
  match r with None => mret None | Some cur_idx => k cur_idx end.

(** One round of [for (cur_idx = from; cur_idx < to;)]. *)
Definition tdi_round (p : tdi_plan) (tdi tdo : ptr) (bulk_extra : option Z) (last_tms_bit_high : bool)
    (cur_idx : Z) : MP (Z + option unit) :=
  if cur_idx <? to_bit_idx p then
    r ← shift_leading p tdi tdo cur_idx;
    r ← then_stage r (shift_inner p tdi tdo bulk_extra);
    r ← then_stage r (shift_trailing p tdi tdo);
    r ← then_stage r (shift_last p tdi tdo last_tms_bit_high);
    match r with None => mret (inr None) | Some cur_idx => mret (inl cur_idx) end
  else mret (inr (Some tt)).

Definition append_tdi_shift (tdi tdo : ptr) (from to : Z) (last_tms_bit_high : bool) : MP Z :=
  let p := plan_tdi_shift from to in
  bulk ← (if 0 <? total_inner_bytes p then
            extra ← alloc_extra (bulk_byte_copier_extra
                      (ptr_add tdo ((from + num_leading_bits p) / 8)) (total_inner_bytes p) 0);
            match extra with
            | None => mret None
            | Some extra => mret (Some (Some extra))
            end
          else mret (Some None));
  match bulk with
  | None => mret (-1)
  | Some bulk_extra =>
      r ← while_loop (tdi_round p tdi tdo bulk_extra last_tms_bit_high) from;
      match r with None => mret (-1) | Some _ => mret 0 end
  end.

(** ** Scan *)

(** The inner [for]: up to eight bits of one TMS byte, [n] of them left.
    Answers [first_pending_bit_idx] and [jtag_state]; [None] is [return -1]. *)
Fixpoint scan_octet (tms tdi tdo : ptr) (bits : Z) (tms_byte bit_idx first_pending : Z)
    (jtag : jtag_state) (n : nat) : MP (option (Z * jtag_state)) :=
  match n with
  | O => mret (Some (first_pending, jtag))
  | S n =>
      let tms_bit := negb (Z.land tms_byte 1 =? 0) in
      let next_jtag_state := next_state jtag tms_bit in
      let shifting := is_shift jtag in
      let next_is_shift := is_shift next_jtag_state in
      let entering_shift := negb shifting && next_is_shift in
      let leaving_shift := shifting && negb next_is_shift in
      let end_of_vector := bit_idx =? bits - 1 in
      let event := end_of_vector || entering_shift || leaving_shift in
      r ← (if event then
             let next_pending_bit_idx := bit_idx + 1 in
             r ← (if shifting
                  then append_tdi_shift tdi tdo first_pending next_pending_bit_idx leaving_shift
                  else append_tms_shift tms first_pending next_pending_bit_idx);
             if r <? 0 then mret None else mret (Some next_pending_bit_idx)
           else mret (Some first_pending));
      match r with
      | None => mret None
      | Some first_pending =>
          scan_octet tms tdi tdo bits (Z.shiftr tms_byte 1) (bit_idx + 1) first_pending next_jtag_state n
      end
  end.

(** One round of the outer [for]; [bit_idx + 8] is computed in [int]. *)
Definition scan_round (tms tdi tdo : ptr) (bits : Z) (v : Z * Z * jtag_state)
  : MP ((Z * Z * jtag_state) + option jtag_state) :=
  let '(bit_idx, first_pending, jtag) := v in
  if bit_idx <? bits then
    tms_byte ← deref tms (bit_idx / 8);
    next ← lift_exec (int_arith (bit_idx + 8));
    let this_round_end_bit_idx := if bits <? next then bits else next in
    r ← scan_octet tms tdi tdo bits tms_byte bit_idx first_pending jtag
          (Z.to_nat (this_round_end_bit_idx - bit_idx));
    match r with
    | None => mret (inr None)
    | Some (first_pending, jtag) => mret (inl (this_round_end_bit_idx, first_pending, jtag))
    end
  else mret (inr (Some jtag)).

(** The context pointer itself is the state of the computation, so the test
    [!ctx] has no counterpart here; ftdi_adapter.c guards it. *)
Definition mpsse_adapter_scan (tms tdi tdo : ptr) (bits : Z) : MP Z :=
  c ← ctx_of;
  if negb (is_open c) || is_null tms || is_null tdi || is_null tdo || (bits <=? 0) then mret (-1)
  else
    set_ctx (fun c => c <| current_tms := tms |> <| current_tdi := tdi |> <| current_bit_offset := 0 |>) ;;
    r ← while_loop (scan_round tms tdi tdo bits) (0, 0, state c);
    match r with
    | None => mret (-1)
    | Some jtag =>
        r ← mpsse_buffer_flush;
        if r <? 0 then mret (-1)
        else
          set_ctx (fun c => c <| current_bit_offset := current_bit_offset c + bits |>) ;;
          pool_reset ;;
          set_ctx (fun c => c <| state := jtag |>) ;;
          mret 0
    end.

End Scan.
