(* ===== verification/MpsseShift.v ===== *)
(** Commands as TCK cycles.

    Against a healthy device [append_tms_shift] appends commands that clock
    the TMS bits of its range with TDI held, and [append_tdi_shift] commands
    that clock the TDI bits of its range, the last one with the closing TMS
    level, and store the sampled TDO bits at the same bit indices.  Both are
    stated on the settled view of MpsseSettled.v. *)

From S2P Require Import Prelude Jtag Bits Memory CString D2xx SimDevice MpsseBuffer.
From S2P Require Import MpsseSettled MpsseScan.

(** ** Segments of TCK cycles *)

(** The cycles of the bit indices [from .. from + n - 1], each a TMS and a TDI level. *)
Definition seg (f : Z -> bool * bool) (from n : Z) : list (bool * bool) := map f (seqZ from n).

Lemma length_seg f from n : length (seg f from n) = Z.to_nat n.
Proof. unfold seg. by rewrite length_map, length_seqZ. Qed.

Lemma seg_app f from n m : 0 <= n -> 0 <= m -> seg f from (n + m) = seg f from n ++ seg f (from + n) m.
Proof. intros. unfold seg. by rewrite seqZ_app, map_app. Qed.

Lemma seg_ext f g from n :
  (forall j, from <= j < from + n -> f j = g j) -> seg f from n = seg g from n.
Proof.
  intros Hfg. unfold seg. apply map_ext_in. intros j Hj.
  apply Hfg. apply list_elem_of_In, elem_of_seqZ in Hj. lia.
Qed.

Lemma seg_one f from : seg f from 1 = [f from].
Proof. done. Qed.

Lemma byte_bits_S n b : byte_bits (S n) b = byte_bits n b ++ [Z.testbit b (Z.of_nat n)].
Proof. unfold byte_bits. by rewrite seq_S, map_app. Qed.

(** The bits of a command byte are the bits of a range of the vector. *)
Lemma byte_bits_seg (g : bool -> bool * bool) l b from n :
  (forall i, 0 <= i < Z.of_nat n -> Z.testbit b i = lbit l (from + i)) ->
  map g (byte_bits n b) = seg (fun j => g (lbit l j)) from (Z.of_nat n).
Proof.
  induction n as [|n IH]; intros Hb; [done|].
  rewrite byte_bits_S, map_app, IH by (intros; apply Hb; lia).
  rewrite Nat2Z.inj_succ, <- Z.add_1_r, seg_app by lia. f_equal.
  rewrite seg_one. cbn. rewrite Hb by lia. done.
Qed.

Lemma cycles_bytes_seg l k n :
  0 <= k -> k + Z.of_nat n <= zlen l ->
  cycles_bytes false (take n (drop (Z.to_nat k) l)) =
    seg (fun j => (false, lbit l j)) (8 * k) (8 * Z.of_nat n).
Proof.
  intros Hk Hl. unfold zlen in Hl. revert k Hk Hl. induction n as [|n IH]; intros k Hk Hl; [done|].
  destruct (lookup_lt_is_Some_2 l (Z.to_nat k)) as [x Hx]; [lia|].
  rewrite (drop_S l x _ Hx). cbn [take]. unfold cycles_bytes in *. cbn [flat_map].
  replace (8 * Z.of_nat (S n)) with (8 + 8 * Z.of_nat n) by lia. rewrite seg_app by lia. f_equal.
  - apply (byte_bits_seg (fun tdi => (false, tdi)) l x (8 * k) 8). intros i Hi.
    rewrite lbit_byte by lia. by rewrite (nth_lookup_Some l (Z.to_nat k) 0 x Hx).
  - replace (S (Z.to_nat k)) with (Z.to_nat (k + 1)) by lia. rewrite IH by lia. f_equal. lia.
Qed.

(** ** Responses *)

Lemma papply_left_justified r os d to :
  left_justified r os -> Forall byte_ok d -> 0 <= to -> to + zlen os <= bits_in d -> zlen os <= 8 ->
  papply (PBits (8 - zlen os) to (zlen os)) [r] d = lputs d to os.
Proof.
  intros [Hr Hos] Hd Hto Hl H8. pose proof (zlen_nonneg os). cbn [papply].
  destruct (copy_bits_ok [r] (8 - zlen os) d to (zlen os)) as (d' & E & Hc);
    [lia..|unfold bits_in, zlen in *; cbn; lia|lia|].
  rewrite E. cbn. eapply bits_copied_lputs; [done|done|done| |exact Hc].
  intros i Hi. rewrite <- Hos by done. unfold zlen in *.
  replace (8 - Z.of_nat (length os) + Z.of_nat i)
    with (8 * 0 + (8 - Z.of_nat (length os) + Z.of_nat i)) at 1 by lia.
  by rewrite lbit_byte by lia.
Qed.

Lemma papply_packed r os d k :
  packed r os -> Forall byte_ok d -> 0 <= k -> k + zlen r <= zlen d ->
  papply (PBytes k (zlen r)) r d = lputs d (8 * k) os.
Proof.
  intros (Hr & Hl & Hos) Hd Hk Hle. cbn [papply]. rewrite write_at_ok by done. cbn.
  assert (Hzos : zlen os = 8 * zlen r) by (unfold zlen; lia).
  eapply (bits_copied_lputs r 0); [done|lia|unfold bits_in; lia| |].
  - intros i Hi. destruct (bit_index_split (Z.of_nat i)) as (m & b & E & Hm & Hb); [lia|].
    replace (0 + Z.of_nat i) with (8 * m + b) by lia. rewrite lbit_byte by done.
    specialize (Hos (Z.to_nat m) (Z.to_nat b)). rewrite Z2Nat.id in Hos by lia.
    rewrite Hos by (unfold zlen in *; lia). f_equal. lia.
  - unfold zlen in *. repeat split.
    + rewrite !length_app, length_take, length_drop. lia.
    + intros Hd'. rewrite !Forall_app. split; [by apply Forall_take|]. split; [done|by apply Forall_drop].
    + intros j Hj.
      assert (Ht : bits_in (take (Z.to_nat k) d) = 8 * k) by (unfold bits_in, zlen; rewrite length_take; lia).
      assert (Hbr : bits_in r = Z.of_nat (length os)) by (unfold bits_in, zlen; lia).
      zcase ((8 * k <=? j) && (j <? 8 * k + Z.of_nat (length os))).
      * rewrite lbit_app_r by lia. rewrite lbit_app_l by lia. f_equal. lia.
      * destruct (Z.lt_ge_cases j (8 * k)).
        -- rewrite lbit_app_l by lia. rewrite <- (take_drop (Z.to_nat k) d) at 2.
           by rewrite lbit_app_l by lia.
        -- rewrite !lbit_app_r by lia. 
           replace (Z.to_nat k + length r)%nat with (Z.to_nat (k + Z.of_nat (length r))) by lia.
           rewrite lbit_drop by lia. f_equal. unfold bits_in, zlen in *. lia.
Qed.

(** ** Reads of the caller's vectors *)

(** [p] points into another block than [q]. *)
Definition apart (p q : ptr) : Prop :=
  match p, q with Ptr b _, Ptr b' _ => b <> b' | _, _ => False end.

Lemma load8_from m p d i :
  load_from m p = Some d -> 0 <= i < zlen d -> load8 m (ptr_add p i) = Some (nth (Z.to_nat i) d 0).
Proof.
  destruct p as [|b o]; [done|]. intros (l & Hl & Ho & ->)%load_from_Ptr Hi.
  cbn. rewrite Hl. cbn. unfold zlen in *. rewrite length_drop in Hi.
  rewrite get_at_ok by (unfold zlen; lia). f_equal. rewrite !nth_lookup, lookup_drop.
  do 2 f_equal. lia.
Qed.

Lemma load_bytes_from m p d i n :
  load_from m p = Some d -> 0 <= i -> 0 <= n -> i + n <= zlen d ->
  load_bytes m (ptr_add p i) n = Some (take (Z.to_nat n) (drop (Z.to_nat i) d)).
Proof.
  destruct p as [|b o]; [done|]. intros (l & Hl & Ho & ->)%load_from_Ptr Hi Hn Hin.
  cbn. rewrite Hl. cbn. unfold zlen in *. rewrite length_drop in Hin.
  rewrite read_at_ok by (unfold zlen; lia). rewrite drop_drop. do 3 f_equal. lia.
Qed.

Lemma load_from_apart q m m' p d :
  mem_frame q m m' -> apart p q -> load_from m p = Some d -> load_from m' p = Some d.
Proof.
  destruct p as [|b o]; [done|]. destruct q as [|b' o']; [done|]. intros F A.
  by eapply load_from_frame.
Qed.

Section Shift.
Context {W E T : Type} `{MpsseDeviceLaws W E T} `{!MpsseEngineLaws E T}.
#[local] Abbreviation MP := (M (mstate W)).

(** The engine [e'] is [e] after the cycles [l], with TDO samples [os]. *)
Record Clocked (e : E) (l : list (bool * bool)) (os : list bool) (e' : E) : Prop := {
  Clocked_idle : eng_idle e';
  Clocked_run : clock_bits tap_clock (eng_tap e) l = (eng_tap e', os)
}.

Lemma Clocked_nil e : eng_idle e -> Clocked e [] [] e.
Proof. by split. Qed.

Lemma Clocked_app e l1 o1 e1 l2 o2 e2 :
  Clocked e l1 o1 e1 -> Clocked e1 l2 o2 e2 -> Clocked e (l1 ++ l2) (o1 ++ o2) e2.
Proof. intros [I1 R1] [I2 R2]. split; [done|]. by rewrite clock_bits_app, R1, R2. Qed.

Lemma Clocked_length e l os e' : Clocked e l os e' -> length os = length l.
Proof. intros [_ R]. rewrite <- (clock_bits_length tap_clock (eng_tap e) l). by rewrite R. Qed.

(** The TDO buffer, and what every append keeps: the frame and a bound on the
    pool bytes taken. *)
Context (bo : nat) (oo : Z).
#[local] Abbreviation tdo := (Ptr bo oo).

Definition Keeps (cost : Z) (s s' : mstate W) : Prop :=
  Frame tdo s s' /\ pool_used_of s' <= pool_used_of s + cost.

Lemma Keeps_trans c1 c2 s1 s2 s3 : Keeps c1 s1 s2 -> Keeps c2 s2 s3 -> Keeps (c1 + c2) s1 s3.
Proof. intros [F1 P1] [F2 P2]. split; [by etrans|lia]. Qed.

Lemma Keeps_refl s : Keeps 0 s s.
Proof. split; [reflexivity|lia]. Qed.

Lemma Keeps_load c s s' p d :
  Keeps c s s' -> apart p tdo -> load_from (ms_mem s) p = Some d -> load_from (ms_mem s') p = Some d.
Proof. intros [F _]. apply load_from_apart, F. Qed.

(** Bytes of a local array without a response. *)
Lemma append_local_settled s rs e d dat :
  Settled tdo s rs e d -> 0 < zlen dat <= 65536 -> Forall byte_ok dat -> (eng_feed e dat).2 = [] ->
  exists s', mpsse_buffer_append (Local dat) (zlen dat) None 0 s = Done (0, s') /\
    Settled tdo s' rs (eng_feed e dat).1 d /\ Keeps 0 s s'.
Proof.
  intros Hs Hl Hb Hr.
  destruct (append_settled tdo s rs e d (Local dat) (zlen dat) dat) as (s' & E' & S' & F & U);
    try done.
  - intros s' _. unfold fetch. rewrite <- (app_nil_r dat) at 1 2.
    rewrite read_at_prefix; [done|]. by rewrite app_nil_r.
  - exists s'. split; [exact E'|]. split; [done|]. split; [done|lia].
Qed.

Lemma fetch_local (dat : list Z) (s : mstate W) : fetch (Local dat) (zlen dat) s = Done (dat, s).
Proof.
  unfold fetch. rewrite <- (app_nil_r dat) at 2. by rewrite read_at_prefix.
Qed.

(** ** TMS segments *)

(** The bits of a command byte that is being built: the first [i] are in. *)
Definition built (dt : list Z) (from i b : Z) : Prop :=
  forall j, 0 <= j < 8 -> Z.testbit b j = (j <? i) && lbit dt (from + j).

Lemma built_step dt from i b :
  0 <= i < 8 -> built dt from i b ->
  built dt from (i + 1) (if lbit dt (from + i) then u8 (Z.lor b (Z.shiftl 1 i)) else b).
Proof.
  intros Hi Hb j Hj. specialize (Hb j Hj).
  destruct (lbit dt (from + i)) eqn:El.
  - rewrite u8_testbit, (proj2 (Z.ltb_lt j 8)) by lia. cbn [andb].
    rewrite Z.lor_spec, Z.shiftl_1_l, Hb.
    destruct (Z.eq_dec j i) as [->|Hne].
    + rewrite Z.pow2_bits_true, El by lia. rewrite (proj2 (Z.ltb_lt i (i + 1))) by lia. apply orb_true_r.
    + rewrite Z.pow2_bits_false, orb_false_r by done.
      f_equal. zcase (j <? i); zcase (j <? i + 1); (lia || done).
  - rewrite Hb. destruct (Z.eq_dec j i) as [->|Hne]; [by rewrite El, !andb_false_r|].
    f_equal. zcase (j <? i); zcase (j <? i + 1); (lia || done).
Qed.

Lemma build_tms_byte_ok tms dt (s : mstate W) from i n b :
  load_from (ms_mem s) tms = Some dt -> 0 <= from -> 0 <= i -> i + Z.of_nat n <= 8 ->
  from + i + Z.of_nat n <= bits_in dt -> byte_ok b -> built dt from i b ->
  exists b', build_tms_byte tms from i b n s = Done (b', s) /\ byte_ok b' /\
    built dt from (i + Z.of_nat n) b'.
Proof.
  intros Hm Hf. revert i b. induction n as [|n IH]; intros i b Hi H8 Hl Hok Hb.
  - exists b. rewrite Z.add_0_r. done.
  - cbn [build_tms_byte].
    assert (Eg : get_bit_at tms (from + i) s = Done (lbit dt (from + i), s)).
    { unfold get_bit_at. rewrite Hm. cbn. by rewrite get_bit_ok by lia. }
    rewrite (bind_done _ _ _ _ _ Eg).
    destruct (IH (i + 1) (if lbit dt (from + i) then u8 (Z.lor b (Z.shiftl 1 i)) else b))
      as (b' & E' & Hok' & Hb'); [lia..| |by apply built_step; [lia|]|].
    { destruct (lbit dt (from + i)); auto with xvc. }
    exists b'. split; [exact E'|]. split; [done|].
    by replace (i + Z.of_nat (S n)) with (i + 1 + Z.of_nat n) by lia.
Qed.

(** The TMS command byte: the TMS bits and the TDI level in bit 7. *)
Definition tms_cycle (dt : list Z) (ltdi : bool) (j : Z) : bool * bool := (lbit dt j, ltdi).

Lemma tms_command_cycles dt from n b ltdi :
  (n <= 6)%nat -> byte_ok b -> built dt from (Z.of_nat n) b ->
  cycles_tms n (u8 (Z.lor b (Z.shiftl (Z.b2z ltdi) 7))) = seg (tms_cycle dt ltdi) from (Z.of_nat n).
Proof.
  intros Hn Hok Hb. set (x := u8 _).
  assert (Hx : forall j, 0 <= j < 8 -> Z.testbit x j = if j =? 7 then ltdi else (j <? Z.of_nat n) && lbit dt (from + j)).
  { intros j Hj. subst x. rewrite u8_testbit, (proj2 (Z.ltb_lt j 8)) by lia.
    rewrite Z.lor_spec, Hb, Z.shiftl_spec by lia. zcase (j =? 7).
    - subst j. rewrite (proj2 (Z.ltb_ge 7 (Z.of_nat n))) by lia. by destruct ltdi.
    - rewrite (Z.testbit_neg_r _ (j - 7)), orb_false_r by lia. done. }
  unfold cycles_tms. rewrite (Hx 7) by lia. change (7 =? 7) with true. cbv iota.
  apply (byte_bits_seg (fun tms => (tms, ltdi)) dt). intros i Hi.
  rewrite Hx by lia. rewrite (proj2 (Z.eqb_neq i 7)), (proj2 (Z.ltb_lt i (Z.of_nat n))) by lia. done.
Qed.

(** One command of at most six TMS bits. *)
Lemma tms_command_settled s rs e d dt b from n :
  Settled tdo s rs e d -> eng_idle e -> (1 <= n <= 6)%nat -> byte_ok b -> built dt from (Z.of_nat n) b ->
  let cmd := [OP_CLK_TMS_NO_READ; u8 (Z.of_nat n - 1);
              u8 (Z.lor b (Z.shiftl (Z.b2z (last_tdi (ms_ctx s))) 7))] in
  exists s' e' os, mpsse_buffer_append (Local cmd) 3 None 0 s = Done (0, s') /\
    Settled tdo s' rs e' d /\ Keeps 0 s s' /\
    Clocked e (seg (tms_cycle dt (last_tdi (ms_ctx s))) from (Z.of_nat n)) os e' /\
    eng_tms e' = lbit dt (from + Z.of_nat n - 1).
Proof.
  intros Hs Hi Hn Hok Hb. rewrite (u8_id (Z.of_nat n - 1)) by (unfold byte_ok; lia). intros cmd.
  pose proof (tms_command_cycles dt from n b (last_tdi (ms_ctx s)) ltac:(lia) Hok Hb) as Hc.
  set (x := u8 _) in *. assert (Hx : byte_ok x) by apply u8_byte_ok.
  destruct (eng_tms_no_read e n x Hi ltac:(lia) Hx) as (e' & Ef & Hi' & Ht & Hm).
  change (eng_feed e cmd = (e', [])) in Ef.
  destruct (append_local_settled s rs e d cmd) as (s' & E' & S' & K); [done|unfold zlen; cbn; lia| | |].
  - byte_list.
  - by rewrite Ef.
  - exists s', e', (clock_bits tap_clock (eng_tap e) (cycles_tms n x)).2.
    split; [exact E'|]. rewrite Ef in S'. split; [done|]. split; [done|]. split.
    + split; [done|]. rewrite <- Hc, Ht. by destruct (clock_bits tap_clock (eng_tap e) (cycles_tms n x)).
    + rewrite Hm. subst x. rewrite u8_testbit, (proj2 (Z.ltb_lt _ _)) by lia. cbn [andb].
      rewrite Z.lor_spec, Hb by lia. rewrite (proj2 (Z.ltb_lt _ _)) by lia. cbn [andb].
      rewrite Z.shiftl_spec_low, orb_false_r by lia. f_equal. lia.
Qed.

(** [append_tms_shift] clocks its range. *)
Lemma append_tms_shift_ok tms dt s0 rs e0 d from to :
  Settled tdo s0 rs e0 d -> eng_idle e0 -> apart tms tdo -> load_from (ms_mem s0) tms = Some dt ->
  0 <= from < to -> to <= bits_in dt -> to <= INT_MAX ->
  exists s' e' os, append_tms_shift tms from to s0 = Done (0, s') /\
    Settled tdo s' rs e' d /\ Keeps 0 s0 s' /\
    Clocked e0 (seg (tms_cycle dt (last_tdi (ms_ctx s0))) from (to - from)) os e' /\
    eng_tms e' = lbit dt (to - 1).
Proof.
  intros Hs Hi Ha Hm Hft Hto Hmax.
  set (Inv := fun (i : Z) (s : mstate W) => from <= i <= to /\ exists e os,
    Settled tdo s rs e d /\ Keeps 0 s0 s /\ eng_idle e /\
    Clocked e0 (seg (tms_cycle dt (last_tdi (ms_ctx s0))) from (i - from)) os e /\
    (from < i -> eng_tms e = lbit dt (i - 1))).
  destruct (while_total (tms_round tms to) Inv (fun r s => r = Some tt /\ Inv to s) (fun i _ => to - i) from s0)
    as (r & s' & Ew & -> & _ & e & os & Hs' & K & _ & Hc & Ht).
  - intros i s (Hit & e & os & Hs1 & K & Hi1 & Hc & Ht). unfold tms_round.
    destruct (Z.ltb_spec i to) as [Hlt|Hge].
    2: { replace i with to in * by lia. exists (inr (Some tt)), s. split; [done|]. split; [done|].
         split; [done|]. exists e, os. done. }
    unfold max_tms_bits_per_command. set (n := Z.min (to - i) 6).
    destruct (build_tms_byte_ok tms dt s i 0 (Z.to_nat n) 0) as (b & Eb & Hok & Hb);
      [by eapply Keeps_load|lia..| | |].
    { unfold byte_ok. lia. }
    { intros j Hj. rewrite Z.bits_0. by rewrite (proj2 (Z.ltb_ge j 0)) by lia. }
    rewrite (bind_done _ _ _ _ _ Eb). unfold ctx_of. rewrite (bind_done _ _ s (ms_ctx s) s eq_refl).
    destruct (tms_command_settled s rs e d dt b i (Z.to_nat n) Hs1 Hi1 ltac:(lia) Hok Hb)
      as (s1 & e1 & os1 & E1 & S1 & K1 & C1 & T1).
    rewrite Z2Nat.id in * by lia. rewrite (bind_done _ _ _ _ _ E1). cbn [Z.ltb Z.compare].
    eexists _, s1. split; [reflexivity|]. split; [|lia]. split; [lia|].
    exists e1, (os ++ os1). split; [done|]. split; [exact (Keeps_trans 0 0 _ _ _ K K1)|].
    split; [apply C1|]. split; [|intros _; rewrite T1; f_equal; lia].
    replace (i + n - from) with (i - from + n) by lia. rewrite seg_app by lia.
    replace (from + (i - from)) with i by lia. eapply Clocked_app; [exact Hc|].
    destruct K as [F _]. by rewrite (Frame_tdi _ _ _ F) in C1.
  - split; [lia|]. exists e0, []. split; [done|]. split; [apply Keeps_refl|]. split; [done|].
    replace (from - from) with 0 by lia. split; [by apply Clocked_nil|lia].
  - unfold INT_MAX in Hmax. lia.
  - exists s', e, os. unfold append_tms_shift. rewrite (bind_done _ _ _ _ _ Ew).
    split; [done|]. split; [done|]. split; [done|]. split; [done|]. apply Ht. lia.
Qed.

(** ** TDI segments *)

(** Reserve the extra object of an observer, then append its command. *)
Lemma obs_command s rs e d cmd e' r o :
  Settled tdo s rs e d -> 0 < zlen cmd <= 65536 -> Forall byte_ok cmd ->
  eng_feed e cmd = (e', r) -> zlen r = pwidth o -> pobs_ok (zlen d) o -> pwidth o <= 65536 ->
  pool_used_of s + (sizeof_extra (extra_of tdo o) + 32) <= POOL_MAX ->
  exists a s1 s', alloc_extra (extra_of tdo o) s = Done (Some a, s1) /\
    mpsse_buffer_add_write_with_readback (Local cmd) (zlen cmd) (fn_of o) a (pwidth o) s1 = Done (0, s') /\
    Settled tdo s' rs e' (papply o r d) /\ Keeps (sizeof_extra (extra_of tdo o) + 32) s s'.
Proof.
  intros Hs Hl Hb Hf Hr Ho Hw Hp.
  assert (Hsz : 0 < sizeof_extra (extra_of tdo o)) by (by destruct o).
  destruct (alloc_extra_settled tdo s rs e d o Hs) as (s1 & a & E1 & S1 & F1 & U1); [lia|].
  destruct (add_write_settled tdo s1 rs e d (Local cmd) (zlen cmd) cmd a o S1) as (s2 & E2 & S2 & F2 & U2);
    rewrite ?Hf; try done; [intros; apply fetch_local|lia|].
  rewrite Hf in S2. exists a, s1, s2. split; [done|]. split; [done|]. split; [done|].
  split; [by etrans|lia].
Qed.

Context (tdi : ptr) (di : list Z).
Hypothesis tdi_apart : apart tdi tdo.

(** The buffer in the middle of a shift, TMS low. *)
Record At (rs : list (Z * pobs)) (s : mstate W) (e : E) (d : list Z) : Prop := {
  At_settled : Settled tdo s rs e d;
  At_idle : eng_idle e;
  At_tms : eng_tms e = false;
  At_bytes : Forall byte_ok d;
  At_tdi : load_from (ms_mem s) tdi = Some di
}.

(** From [s, e, d] the bits [from .. from + n - 1] were shifted, in at most
    [cost] bytes of the pool. *)
Definition Shifted (f : Z -> bool * bool) (from n cost : Z) (s : mstate W) (e : E) (d : list Z)
    (s' : mstate W) (e' : E) (d' : list Z) : Prop :=
  Keeps cost s s' /\ exists os, Clocked e (seg f from n) os e' /\ d' = lputs d from os.

Lemma Shifted_trans f from n m c1 c2 s e d s1 e1 d1 s2 e2 d2 :
  0 <= n -> 0 <= m -> Shifted f from n c1 s e d s1 e1 d1 -> Shifted f (from + n) m c2 s1 e1 d1 s2 e2 d2 ->
  Shifted f from (n + m) (c1 + c2) s e d s2 e2 d2.
Proof.
  intros Hn Hm [K1 (o1 & C1 & ->)] [K2 (o2 & C2 & ->)].
  split; [by eapply Keeps_trans|]. exists (o1 ++ o2). rewrite seg_app by done.
  split; [by eapply Clocked_app|]. rewrite lputs_app. do 2 f_equal.
  apply Clocked_length in C1. rewrite length_seg in C1. unfold zlen. lia.
Qed.

Lemma Shifted_nil f from s e d : eng_idle e -> Shifted f from 0 0 s e d s e d.
Proof.
  intros Hi. split; [apply Keeps_refl|]. exists []. split; [by apply Clocked_nil|done].
Qed.

Lemma Shifted_ext f g from n c s e d s' e' d' :
  (forall j, from <= j < from + n -> f j = g j) ->
  Shifted f from n c s e d s' e' d' -> Shifted g from n c s e d s' e' d'.
Proof. intros Hfg [K (os & C & Hd)]. split; [done|]. exists os. by rewrite <- (seg_ext f g from n Hfg). Qed.

Lemma At_after rs rs' s e d s' e' c os from :
  At rs s e d -> Keeps c s s' -> Settled tdo s' rs' e' (lputs d from os) -> eng_idle e' ->
  eng_tms e' = false -> At rs' s' e' (lputs d from os).
Proof.
  intros [S I M B D] K S' I' M'. split; try done; [auto with xvc|]. by eapply Keeps_load.
Qed.

(** The cycles of data bits: TMS low. *)
Definition data_cycle (j : Z) : bool * bool := (false, lbit di j).

(** Data bits of one command, as "leading" and "trailing" bits send them. *)
Lemma bits_command_ok rs s e d cur n b :
  At rs s e d -> 1 <= n <= 8 -> 0 <= cur -> cur + n <= bits_in d -> byte_ok b ->
  (forall i, 0 <= i < n -> Z.testbit b i = lbit di (cur + i)) ->
  pool_used_of s + 56 <= POOL_MAX ->
  exists a s1 s' e' d', alloc_extra (bit_copier_extra (8 - n) tdo cur n) s = Done (Some a, s1) /\
    mpsse_buffer_add_write_with_readback (Local [OP_CLK_DATA_BITS_OUT_NEG_IN_NEG; u8 (n - 1); b]) 3
      bit_copier_rx_observer_fn a 1 s1 = Done (0, s') /\
    At rs s' e' d' /\ zlen d' = zlen d /\ Shifted data_cycle cur n 56 s e d s' e' d'.
Proof.
  intros HA Hn Hc Hd Hok Hb Hp. pose proof HA as [S I M B D].
  rewrite (u8_id (n - 1)) by (unfold byte_ok; lia).
  destruct (eng_data_bits e (Z.to_nat n) b I ltac:(lia) Hok) as (e' & r & Ef & I' & Ht & Hj & Hm).
  rewrite Z2Nat.id in Ef by lia. rewrite M in Ht, Hj, Hm.
  assert (Hseg : cycles_bits false (Z.to_nat n) b = seg data_cycle cur n).
  { unfold cycles_bits. erewrite (byte_bits_seg (fun tdi => (false, tdi)) di);
      [rewrite Z2Nat.id by lia; reflexivity|]. intros i Hi. apply Hb. lia. }
  rewrite Hseg in Ht, Hj. destruct (clock_bits tap_clock (eng_tap e) (seg data_cycle cur n)) as [t os] eqn:Ec.
  cbn [fst snd] in *.
  assert (C : Clocked e (seg data_cycle cur n) os e') by (split; [done|by rewrite Ec, Ht]).
  assert (Hos : zlen os = n) by (apply Clocked_length in C; rewrite length_seg in C; unfold zlen; lia).
  destruct (obs_command s rs e d [OP_CLK_DATA_BITS_OUT_NEG_IN_NEG; n - 1; b] e' [r] (PBits (8 - n) cur n))
    as (a & s1 & s' & E1 & E2 & S' & K); try done.
  { byte_list. }
  { unfold bits_in in Hd. cbn. lia. }
  rewrite <- Hos, papply_left_justified in S' by (try done; lia).
  exists a, s1, s', e', (lputs d cur os). split; [exact E1|]. split; [exact E2|].
  split; [|split; [apply zlen_lputs|split; [exact K|by exists os]]].
  eapply At_after; eauto.
Qed.

(** The parts of a range: leading bits up to a byte boundary, whole bytes,
    trailing bits, the last bit. *)
Record Plan (from to : Z) (p : tdi_plan) : Prop := {
  Plan_from : from_bit_idx p = from;
  Plan_to : to_bit_idx p = to;
  Plan_last : last_bit_idx p = to - 1;
  Plan_leading : 0 <= num_leading_bits p <= 7 /\ from mod 8 + num_leading_bits p <= 8;
  Plan_trailing : 0 <= num_trailing_bits p <= 7;
  Plan_total : 0 <= total_inner_bytes p;
  Plan_sum : from + num_leading_bits p + 8 * total_inner_bytes p + num_trailing_bits p = to - 1;
  Plan_inner : 0 < total_inner_bytes p \/ 0 < num_trailing_bits p ->
    inner_end_idx p = from + num_leading_bits p + 8 * total_inner_bytes p /\
    (from + num_leading_bits p) mod 8 = 0;
  Plan_no_inner : total_inner_bytes p = 0 -> inner_end_idx p <= from + num_leading_bits p
}.

Lemma plan_ok from to : 0 <= from < to -> Plan from to (plan_tdi_shift from to).
Proof.
  intros Hft. pose proof (Z.div_mod from 8). pose proof (Z.mod_pos_bound from 8).
  pose proof (Z.div_mod (to - 1) 8). pose proof (Z.mod_pos_bound (to - 1) 8).
  unfold plan_tdi_shift.
  set (first := 8 - from mod 8). set (lead := Z.min _ _). set (only := lead =? _).
  assert (Hlead : 0 <= lead <= 7 /\ from mod 8 + lead <= 8 /\ lead <= to - 1 - from /\
                  (lead < to - 1 - from -> (from + lead) mod 8 = 0 /\ 8 * ((from + lead) / 8) = from + lead)).
  { subst lead first. pose proof (Z.div_mod (from + (8 - from mod 8)) 8).
    zcase (8 - from mod 8 =? 8); split_and!; try lia; intros Hlt; rewrite Z.min_l by lia.
    - replace (from + 0) with (from / 8 * 8) by lia. rewrite Z_mod_mult, Z_div_mult by lia. lia.
    - replace (from + (8 - from mod 8)) with ((from / 8 + 1) * 8) by lia.
      rewrite Z_mod_mult, Z_div_mult by lia. lia. }
  destruct Hlead as (L1 & L2 & L3 & L4).
  destruct only eqn:Eo; subst only; zb; cbn [negb]; rewrite ?andb_false_r, ?andb_true_r.
  - split; cbn; try lia.
  - destruct (L4 ltac:(lia)) as [L5 L6].
    assert (Hdiv : (to - 1 - (to - 1) mod 8 - (from + lead)) / 8 = (to - 1) / 8 - (from + lead) / 8).
    { symmetry. apply Z.div_unique with 0; lia. }
    assert (Hle : (from + lead) / 8 <= (to - 1) / 8) by (apply Z.div_le_mono; lia).
    zcase (from <? to - 1 - (to - 1) mod 8); rewrite ?Hdiv; split; cbn; try lia.
Qed.

(** The stages, from a state in the middle of the shift.  [cost] bounds the
    pool bytes a stage takes. *)
Context (from to : Z) (p : tdi_plan) (dlen : Z).
Hypothesis Hplan : Plan from to p.
Hypothesis Hrange : 0 <= from < to.
Hypothesis Htdi : to <= bits_in di.
Hypothesis Htdo : to <= 8 * dlen.

(** A read of the byte that holds bit [i] of the vector. *)
Lemma deref_ok (s : mstate W) i :
  load_from (ms_mem s) tdi = Some di -> 0 <= i < bits_in di ->
  deref tdi (i / 8) s = Done (nth (Z.to_nat (i / 8)) di 0, s).
Proof.
  intros Hm Hi. unfold deref. erewrite load8_from; [reflexivity|done|]. by apply byte_index_range.
Qed.

Definition leading_cost : Z := if 0 <? num_leading_bits p then 56 else 0.
Definition inner_cost : Z := if 0 <? total_inner_bytes p then 32 else 0.
Definition trailing_cost : Z := if 0 <? num_trailing_bits p then 56 else 0.

Lemma shift_leading_ok rs s e d :
  At rs s e d -> zlen d = dlen -> pool_used_of s + leading_cost <= POOL_MAX -> Forall byte_ok di ->
  exists s' e' d', shift_leading p tdi tdo from s = Done (Some (from + num_leading_bits p), s') /\
    At rs s' e' d' /\ zlen d' = dlen /\
    Shifted data_cycle from (num_leading_bits p) leading_cost s e d s' e' d'.
Proof.
  intros HA Hd Hpool Hdi. pose proof Hplan as [P1 P2 P3 P4 P5 P6 P7 P8 P9].
  unfold shift_leading, leading_cost in *. rewrite P1, Z.eqb_refl. cbn [andb].
  destruct (Z.ltb_spec 0 (num_leading_bits p)) as [Hlt|Hge].
  2: { replace (num_leading_bits p) with 0 by lia. rewrite Z.add_0_r.
       exists s, e, d. split; [done|]. split; [done|]. split; [done|]. apply Shifted_nil, HA. }
  rewrite (bind_done _ _ _ _ _ (deref_ok s from (At_tdi _ _ _ _ HA) ltac:(lia))).
  pose proof (Z.mod_pos_bound from 8). pose proof (Z.div_mod from 8).
  destruct (bits_command_ok rs s e d from (num_leading_bits p)
              (u8 (Z.shiftr (nth (Z.to_nat (from / 8)) di 0) (from mod 8))))
    as (a & s1 & s' & e' & d' & E1 & E2 & HA' & Hd' & HS); try done; try lia.
  - unfold bits_in. lia.
  - apply u8_byte_ok.
  - intros i Hi. rewrite u8_testbit, (proj2 (Z.ltb_lt i 8)) by lia. cbn [andb].
    rewrite Z.shiftr_spec by lia. replace (from + i) with (8 * (from / 8) + (i + from mod 8)) by lia.
    by rewrite lbit_byte by lia.
  - rewrite (bind_done _ _ _ _ _ E1), (bind_done _ _ _ _ _ E2). cbn [Z.ltb Z.compare].
    exists s', e', d'. split; [done|]. split; [done|]. split; [lia|done].
Qed.

Lemma shift_trailing_ok rs s e d :
  At rs s e d -> zlen d = dlen -> pool_used_of s + trailing_cost <= POOL_MAX -> Forall byte_ok di ->
  let cur := from + num_leading_bits p + 8 * total_inner_bytes p in
  exists s' e' d', shift_trailing p tdi tdo cur s = Done (Some (to - 1), s') /\
    At rs s' e' d' /\ zlen d' = dlen /\
    Shifted data_cycle cur (num_trailing_bits p) trailing_cost s e d s' e' d'.
Proof.
  intros HA Hd Hpool Hdi cur. pose proof Hplan as [P1 P2 P3 P4 P5 P6 P7 P8 P9].
  unfold shift_trailing, trailing_cost in *. rewrite P3.
  assert (Hcur : cur + num_trailing_bits p = to - 1) by lia.
  destruct (Z.ltb_spec 0 (num_trailing_bits p)) as [Hlt|Hge]; cbn [andb].
  2: { replace (num_trailing_bits p) with 0 in * by lia. rewrite <- Hcur, Z.add_0_r.
       exists s, e, d. split; [done|]. split; [done|]. split; [done|]. apply Shifted_nil, HA. }
  destruct (P8 (or_intror Hlt)) as [Hie Hmod]. fold cur in Hie.
  rewrite (proj2 (Z.ltb_lt cur (to - 1))), Hie by lia.
  rewrite (bind_done _ _ _ _ _ (deref_ok s cur (At_tdi _ _ _ _ HA) ltac:(lia))).
  pose proof (Z.div_mod (from + num_leading_bits p) 8).
  assert (Hc8 : cur = 8 * (cur / 8)).
  { subst cur. replace (from + num_leading_bits p + 8 * total_inner_bytes p)
      with ((((from + num_leading_bits p) / 8) + total_inner_bytes p) * 8) by lia.
    rewrite Z_div_mult by lia. lia. }
  assert (Hcd : 0 <= cur / 8) by lia.
  destruct (bits_command_ok rs s e d cur (num_trailing_bits p) (nth (Z.to_nat (cur / 8)) di 0))
    as (a & s1 & s' & e' & d' & E1 & E2 & HA' & Hd' & HS); try done; try lia.
  - unfold bits_in. lia.
  - rewrite Forall_forall in Hdi. apply Hdi, list_elem_of_In, nth_In.
    pose proof (byte_index_range di cur ltac:(lia)) as Hr. unfold zlen in Hr. lia.
  - intros i Hi. rewrite Hc8 at 2. by rewrite lbit_byte by lia.
  - rewrite (bind_done _ _ _ _ _ E1), (bind_done _ _ _ _ _ E2). cbn [Z.ltb Z.compare].
    rewrite Hcur. exists s', e', d'. split; [done|]. split; [done|]. split; [lia|done].
Qed.

(** The header of a byte command carries its length minus one. *)
Lemma data_header_length n : 1 <= n <= 65536 ->
  [OP_CLK_DATA_BYTES_OUT_NEG_IN_NEG; Z.land (Z.shiftr (n - 1) 0) 0xff; Z.land (Z.shiftr (n - 1) 8) 0xff] =
  [0x3D; (n - 1) mod 256; (n - 1) / 256].
Proof.
  intros Hn. change 0xff with 255. rewrite !land_255, Z.shiftr_0_r, Z.shiftr_div_pow2 by lia.
  change (2 ^ 8) with 256. rewrite (u8_id (_ / 256)); [done|].
  unfold byte_ok. pose proof (Z.div_mod (n - 1) 256). pose proof (Z.mod_pos_bound (n - 1) 256). lia.
Qed.

(** The payload after its header: [n] bytes of the vector from bit [8 * k] on. *)
Lemma payload_ok e k n :
  eng_idle e -> eng_tms e = false -> 1 <= n <= 65536 -> 0 <= k -> k + n <= zlen di -> Forall byte_ok di ->
  let hdr := [0x3D; (n - 1) mod 256; (n - 1) / 256] in
  let dat := take (Z.to_nat n) (drop (Z.to_nat k) di) in
  exists e' r os, eng_feed (eng_feed e hdr).1 dat = (e', r) /\ zlen r = n /\ zlen dat = n /\
    Clocked e (seg data_cycle (8 * k) (8 * n)) os e' /\ packed r os /\ eng_tms e' = false.
Proof.
  intros Hi Hm Hn Hk Hl Hdi hdr dat.
  assert (Hdat : zlen dat = n).
  { subst dat. unfold zlen in *. rewrite length_take, length_drop. lia. }
  assert (Hb : Forall byte_ok dat) by (by apply Forall_take, Forall_drop).
  destruct (eng_data_bytes e dat Hi Hb ltac:(lia)) as (e' & r & Ef & I' & Hr & Ht & Hp & Hm').
  rewrite Hdat in Ef. change ([0x3D; (n - 1) mod 256; (n - 1) / 256]) with hdr in Ef.
  rewrite eng_feed_app in Ef. pose proof (eng_data_header e ((n - 1) mod 256) ((n - 1) / 256) Hi) as Hh.
  change ([0x3D; (n - 1) mod 256; (n - 1) / 256]) with hdr in Hh.
  destruct (eng_feed e hdr) as [e1 o1]. cbn in Hh. subst o1. cbn [fst].
  destruct (eng_feed e1 dat) as [e2 o2]. cbn in Ef. injection Ef as -> ->.
  rewrite Hm in Ht, Hp, Hm'.
  assert (Hseg : cycles_bytes false dat = seg data_cycle (8 * k) (8 * n)).
  { subst dat. rewrite cycles_bytes_seg by lia. by rewrite Z2Nat.id by lia. }
  rewrite Hseg in Ht, Hp. destruct (clock_bits tap_clock (eng_tap e) _) as [t os] eqn:Ec.
  cbn [fst snd] in *. exists e', r, os.
  split; [done|]. split; [unfold zlen in *; lia|]. split; [done|]. split; [|done].
  split; [done|]. by rewrite Ec, Ht.
Qed.

Lemma shift_inner_ok rs s e d (bulk : option Z) :
  let cur := from + num_leading_bits p in
  let n := total_inner_bytes p in
  match bulk with
  | Some a => 0 < n /\ At ((a, PBytes (cur / 8) n) :: rs) s e d
  | None => n = 0 /\ At rs s e d
  end ->
  zlen d = dlen -> n <= 65536 -> chip_buffer_size (ms_ctx s) = 65536 -> Forall byte_ok di ->
  pool_used_of s + inner_cost <= POOL_MAX ->
  exists s' e' d', shift_inner p tdi tdo bulk cur s = Done (Some (cur + 8 * n), s') /\
    At rs s' e' d' /\ zlen d' = dlen /\ Shifted data_cycle cur (8 * n) inner_cost s e d s' e' d'.
Proof.
  intros cur n HA Hd Hn Hchip Hdi Hpool. pose proof Hplan as [P1 P2 P3 P4 P5 P6 P7 P8 P9].
  fold n in P6, P7, P8, P9. fold cur in P8, P9.
  unfold shift_inner, inner_cost in *. rewrite P3. fold n cur. fold n in Hpool.
  destruct bulk as [a|]; destruct HA as [Hn0 HA].
  2: { rewrite (proj2 (Z.ltb_ge cur (inner_end_idx p))) by lia. rewrite andb_false_r, Hn0, Z.add_0_r.
       exists s, e, d. split; [done|]. split; [done|]. split; [done|]. apply Shifted_nil, HA. }
  rewrite (proj2 (Z.ltb_lt 0 n)) in * by done. destruct (P8 (or_introl Hn0)) as [Hie Hmod].
  rewrite Hie, (proj2 (Z.ltb_lt cur (to - 1))), (proj2 (Z.ltb_lt cur (cur + 8 * n))) by lia. cbn [andb].
  unfold ctx_of. rewrite (bind_done _ _ s (ms_ctx s) s eq_refl). rewrite Hchip.
  replace ((cur + 8 * n - cur) / 8) with n by (apply Z.div_unique with 0; lia).
  rewrite Z.min_l by done. rewrite P1. fold cur. rewrite Z.sub_diag. change (0 / 8) with 0.
  rewrite Z.sub_0_r, (proj2 (Z.leb_le n n)), data_header_length by lia.
  pose proof (Z.div_mod cur 8) as Hdm.
  set (k := cur / 8) in *. assert (Hk : cur = 8 * k) by lia.
  pose proof HA as [S I M B D].
  destruct (payload_ok e k n I M ltac:(lia) ltac:(lia)) as (e' & r & os & Ef & Hr & Hdl & C & Hp & M');
    [unfold bits_in in Htdi; lia|done|].
  set (hdr := [0x3D; (n - 1) mod 256; (n - 1) / 256]) in *.
  destruct (append_local_settled s _ e d hdr S) as (s1 & E1 & S1 & K1).
  { unfold zlen. cbn. lia. }
  { pose proof (Z.mod_pos_bound (n - 1) 256). pose proof (Z.div_mod (n - 1) 256). byte_list. }
  { apply eng_data_header, I. }
  change (zlen hdr) with 3 in E1. rewrite (bind_done _ _ _ _ _ E1). cbn [Z.ltb Z.compare].
  destruct (add_write_settled tdo s1 rs _ d (Heap (ptr_add tdi k)) n
              (take (Z.to_nat n) (drop (Z.to_nat k) di)) a (PBytes k n) S1) as (s2 & E2 & S2 & F2 & U2);
    rewrite ?Ef; try done; try (cbn; unfold bits_in in *; lia).
  { intros s' F'. unfold fetch. erewrite load_bytes_from; [done| |lia|lia|unfold bits_in in Htdi; lia].
    eapply load_from_apart; [apply (Frame_mem _ _ _ F')|done|]. by eapply Keeps_load. }
  { by apply Forall_take, Forall_drop. }
  { destruct K1. lia. }
  rewrite (bind_done _ _ _ _ _ E2). cbn [Z.ltb Z.compare]. replace (cur + n * 8) with (cur + 8 * n) by lia.
  rewrite Ef in S2. cbn [fst snd] in S2. rewrite <- Hr in S2 at 1.
  rewrite (papply_packed r os) in S2 by (done || unfold bits_in in *; lia). rewrite <- Hk in S2.
  assert (K : Keeps 32 s s2) by (apply (Keeps_trans 0 32 s s1 s2 K1); split; [done|lia]).
  exists s2, e', (lputs d cur os). split; [done|]. split; [|split].
  - eapply At_after; eauto. apply C.
  - by rewrite zlen_lputs.
  - split; [done|]. exists os. by rewrite Hk.
Qed.

(** The state with another [last_tdi]. *)
Definition with_tdi (b : bool) (s : mstate W) : mstate W :=
  s <| ms_ctx := (ms_ctx s) <| last_tdi := b |> |>.

Lemma Settled_with_tdi s rs e d b : Settled tdo s rs e d -> Settled tdo (with_tdi b s) rs e d.
Proof.
  intros (P & ps & d0 & B & He & Hd). exists P, ps, d0. split; [|done]. destruct B. by split.
Qed.

(** The last cycle has the closing TMS level. *)
Definition tdi_cycle (high : bool) (j : Z) : bool * bool := ((j =? to - 1) && high, lbit di j).

Lemma last_command_byte tdib tms :
  let b := u8 (Z.lor (Z.lor (Z.shiftl (Z.b2z tdib) 7) (Z.shiftl (Z.b2z tms) 1)) (Z.b2z tms)) in
  byte_ok b /\ cycles_tms 1 b = [(tms, tdib)] /\ Z.testbit b 0 = tms.
Proof. destruct tdib, tms; split_and!; (done || (vm_compute; split; congruence)). Qed.

Lemma shift_last_ok rs s e d high :
  At rs s e d -> zlen d = dlen -> pool_used_of s + 56 <= POOL_MAX ->
  exists s1 e' d', shift_last p tdi tdo high (to - 1) s = Done (Some to, with_tdi (lbit di (to - 1)) s1) /\
    Settled tdo s1 rs e' d' /\ eng_tms e' = high /\ zlen d' = dlen /\ Forall byte_ok d' /\
    Shifted (tdi_cycle high) (to - 1) 1 56 s e d s1 e' d'.
Proof.
  intros HA Hd Hpool. pose proof Hplan as [P1 P2 P3 P4 P5 P6 P7 P8 P9]. pose proof HA as [S I M B D].
  unfold shift_last. rewrite P3, Z.eqb_refl.
  assert (Eg : get_bit_at tdi (to - 1) s = Done (lbit di (to - 1), s)).
  { unfold get_bit_at. rewrite D. cbn. by rewrite get_bit_ok by lia. }
  rewrite (bind_done _ _ _ _ _ Eg). set (tb := lbit di (to - 1)) in *.
  destruct (last_command_byte tb high) as (Hb & Hcyc & Ht0). cbv zeta in *.
  set (b := u8 _) in *.
  destruct (eng_tms_read e b I Hb) as (e' & r & Ef & I' & Ht & Hj & Hm).
  rewrite Hcyc in Ht, Hj.
  assert (Hseg : seg (tdi_cycle high) (to - 1) 1 = [(high, tb)]).
  { rewrite seg_one. unfold tdi_cycle. by rewrite Z.eqb_refl. }
  destruct (clock_bits tap_clock (eng_tap e) [(high, tb)]) as [t os] eqn:Ec. cbn [fst snd] in *.
  assert (C : Clocked e (seg (tdi_cycle high) (to - 1) 1) os e').
  { split; [done|]. by rewrite Hseg, Ec, Ht. }
  assert (Hos : zlen os = 1) by (apply Clocked_length in C; rewrite length_seg in C; unfold zlen; lia).
  destruct (obs_command s rs e d [OP_CLK_TMS_READ_NEG; 0x00; b] e' [r] (PBits 7 (to - 1) 1))
    as (a & s1 & s' & E1 & E2 & S' & K); try done.
  { byte_list. }
  { cbn. lia. }
  replace (PBits 7 (to - 1) 1) with (PBits (8 - zlen os) (to - 1) (zlen os)) in S' by (by rewrite Hos).
  rewrite papply_left_justified in S' by (try done; unfold bits_in; lia).
  rewrite (bind_done _ _ _ _ _ E1), (bind_done _ _ _ _ _ E2). cbn [Z.ltb Z.compare].
  exists s', e', (lputs d (to - 1) os). split.
  { unfold set_ctx, modify. erewrite bind_done; [|reflexivity].
    replace (to - 1 + 1) with to by lia. reflexivity. }
  split; [done|]. split; [congruence|]. split; [by rewrite zlen_lputs|].
  split; [auto with xvc|]. split; [exact K|by exists os].
Qed.

(** ** The whole shift *)

Definition bulk_cost : Z := if 0 <? total_inner_bytes p then 16 else 0.
Definition tdi_cost : Z := bulk_cost + (leading_cost + (inner_cost + (trailing_cost + 56))).

Lemma tdi_cost_bound : 0 <= tdi_cost <= 216 /\ tdi_cost <= 28 * (to - from) + 84.
Proof.
  pose proof Hplan as [P1 P2 P3 P4 P5 P6 P7 P8 P9].
  unfold tdi_cost, bulk_cost, leading_cost, inner_cost, trailing_cost.
  zcase (0 <? total_inner_bytes p); zcase (0 <? num_leading_bits p); zcase (0 <? num_trailing_bits p); lia.
Qed.

Lemma stage_costs : 0 <= bulk_cost /\ 0 <= leading_cost /\ 0 <= inner_cost /\ 0 <= trailing_cost.
Proof.
  unfold bulk_cost, leading_cost, inner_cost, trailing_cost.
  destruct (0 <? total_inner_bytes p), (0 <? num_leading_bits p), (0 <? num_trailing_bits p); lia.
Qed.

Lemma data_tdi_cycle high k n j : k + n <= to - 1 -> k <= j < k + n -> data_cycle j = tdi_cycle high j.
Proof.
  intros Hk Hj. unfold data_cycle, tdi_cycle. by rewrite (proj2 (Z.eqb_neq j (to - 1))) by lia.
Qed.

(** The extra object of the bulk copier, when there are inner bytes. *)
Definition bulk_at (s : mstate W) (e : E) (d : list Z) (bulk : option Z) : Prop :=
  let cur := from + num_leading_bits p in
  let n := total_inner_bytes p in
  match bulk with
  | Some a => 0 < n /\ At [(a, PBytes (cur / 8) n)] s e d
  | None => n = 0 /\ At [] s e d
  end.

Lemma bulk_alloc_ok s e d :
  At [] s e d -> pool_used_of s + bulk_cost <= POOL_MAX ->
  exists bulk s', (if 0 <? total_inner_bytes p then
      extra ← alloc_extra (bulk_byte_copier_extra
                (ptr_add tdo ((from + num_leading_bits p) / 8)) (total_inner_bytes p) 0);
      match extra with
      | None => mret None
      | Some extra => mret (Some (Some extra))
      end
    else mret (Some None)) s = Done (Some bulk, s') /\
    bulk_at s' e d bulk /\ Keeps bulk_cost s s'.
Proof.
  intros HA Hpool. unfold bulk_cost, bulk_at in *. pose proof (Plan_total _ _ _ Hplan).
  destruct (Z.ltb_spec 0 (total_inner_bytes p)) as [Hlt|Hge].
  - pose proof HA as [S I M B D].
    destruct (alloc_extra_settled tdo s [] e d
                (PBytes ((from + num_leading_bits p) / 8) (total_inner_bytes p)) S) as (s' & a & Ea & S' & F & U);
      [done|].
    assert (K : Keeps 16 s s') by (split; [done|]; cbn [sizeof_extra extra_of] in U; lia).
    exists (Some a), s'. rewrite (bind_done _ _ _ _ _ Ea). split; [done|]. split; [|done].
    split; [done|]. split; try done. by eapply Keeps_load.
  - exists None, s. split; [done|]. split; [split; [lia|done]|apply Keeps_refl].
Qed.

(** The first round sends everything. *)
Lemma tdi_round_ok s e d bulk high :
  bulk_at s e d bulk -> zlen d = dlen -> total_inner_bytes p <= 65536 ->
  chip_buffer_size (ms_ctx s) = 65536 -> Forall byte_ok di ->
  pool_used_of s + (leading_cost + (inner_cost + (trailing_cost + 56))) <= POOL_MAX ->
  exists s1 e' d', tdi_round p tdi tdo bulk high from s =
      Done (inl to, with_tdi (lbit di (to - 1)) s1) /\
    Settled tdo s1 [] e' d' /\ eng_tms e' = high /\ zlen d' = dlen /\ Forall byte_ok d' /\
    Shifted (tdi_cycle high) from (to - from) (leading_cost + (inner_cost + (trailing_cost + 56)))
      s e d s1 e' d'.
Proof.
  intros HA Hd Hn Hchip Hdi Hpool. pose proof Hplan as [P1 P2 P3 P4 P5 P6 P7 P8 P9].
  pose proof stage_costs. unfold tdi_round. rewrite P2, (proj2 (Z.ltb_lt from to)) by lia.
  set (rs := match bulk with
             | Some a => [(a, PBytes ((from + num_leading_bits p) / 8) (total_inner_bytes p))]
             | None => [] end).
  assert (HA0 : At rs s e d) by (subst rs; unfold bulk_at in HA; destruct bulk; apply HA).
  destruct (shift_leading_ok rs s e d HA0 Hd) as (s1 & e1 & d1 & E1 & A1 & L1 & Sh1); [lia|done|].
  rewrite (bind_done _ _ _ _ _ E1). cbn [then_stage].
  pose proof Sh1 as [[F1 U1] _].
  destruct (shift_inner_ok [] s1 e1 d1 bulk) as (s2 & e2 & d2 & E2 & A2 & L2 & Sh2); try done; try lia.
  { subst rs. unfold bulk_at in HA. destruct bulk; (split; [apply HA|exact A1]). }
  { by rewrite (Frame_chip _ _ _ F1). }
  rewrite (bind_done _ _ _ _ _ E2). cbn [then_stage].
  pose proof Sh2 as [[F2 U2] _].
  destruct (shift_trailing_ok [] s2 e2 d2 A2 L2) as (s3 & e3 & d3 & E3 & A3 & L3 & Sh3); [lia|done|].
  rewrite (bind_done _ _ _ _ _ E3). cbn [then_stage].
  pose proof Sh3 as [[F3 U3] _].
  destruct (shift_last_ok [] s3 e3 d3 high A3 L3) as (s4 & e4 & d4 & E4 & S4 & T4 & L4 & B4 & Sh4); [lia|].
  rewrite (bind_done _ _ _ _ _ E4).
  exists s4, e4, d4. split; [done|]. split_and!; try done.
  replace (to - from) with (num_leading_bits p + (8 * total_inner_bytes p + (num_trailing_bits p + 1))) by lia.
  eapply Shifted_trans; [lia|lia|eapply (Shifted_ext data_cycle), Sh1|].
  { intros j Hj. eapply data_tdi_cycle; [|exact Hj]. lia. }
  eapply Shifted_trans; [lia|lia|eapply (Shifted_ext data_cycle), Sh2|].
  { intros j Hj. eapply data_tdi_cycle; [|exact Hj]. lia. }
  eapply Shifted_trans; [lia|lia|eapply (Shifted_ext data_cycle), Sh3|].
  { intros j Hj. eapply data_tdi_cycle; [|exact Hj]. lia. }
  by rewrite P7.
Qed.

Lemma append_tdi_shift_ok s e d high :
  p = plan_tdi_shift from to -> At [] s e d -> zlen d = dlen -> total_inner_bytes p <= 65536 ->
  chip_buffer_size (ms_ctx s) = 65536 -> Forall byte_ok di -> pool_used_of s + tdi_cost <= POOL_MAX ->
  to <= INT_MAX ->
  exists s1 e' d', append_tdi_shift tdi tdo from to high s = Done (0, with_tdi (lbit di (to - 1)) s1) /\
    Settled tdo s1 [] e' d' /\ eng_tms e' = high /\ zlen d' = dlen /\ Forall byte_ok d' /\
    Shifted (tdi_cycle high) from (to - from) tdi_cost s e d s1 e' d'.
Proof.
  intros Hp HA Hd Hn Hchip Hdi Hpool Hmax. unfold append_tdi_shift. cbv zeta. rewrite <- Hp.
  unfold tdi_cost in *. pose proof stage_costs.
  destruct (bulk_alloc_ok s e d HA) as (bulk & s0 & E0 & HA0 & K0); [lia|].
  rewrite (bind_done _ _ _ _ _ E0).
  destruct (tdi_round_ok s0 e d bulk high HA0 Hd Hn) as (s1 & e1 & d1 & E1 & S1 & T1 & L1 & B1 & Sh1); try done.
  { destruct K0 as [F0 _]. by rewrite (Frame_chip _ _ _ F0). }
  { destruct K0. lia. }
  set (s2 := with_tdi (lbit di (to - 1)) s1) in *.
  destruct (while_total (tdi_round p tdi tdo bulk high)
              (fun i s => (i = from /\ s = s0) \/ (i = to /\ s = s2))
              (fun r s => r = Some tt /\ s = s2) (fun i _ => to - i) from s0) as (r & s3 & Ew & -> & ->).
  - intros i s' [[-> ->]|[-> ->]].
    + exists (inl to), s2. split; [exact E1|]. split; [by right|lia].
    + exists (inr (Some tt)), s2. unfold tdi_round. rewrite (Plan_to _ _ _ Hplan), Z.ltb_irrefl. done.
  - by left.
  - unfold INT_MAX in Hmax. lia.
  - rewrite (bind_done _ _ _ _ _ Ew). exists s1, e1, d1. split; [done|]. split_and!; try done.
    destruct Sh1 as [K1 (os & C & ->)]. split; [by eapply Keeps_trans|by exists os].
Qed.

End Shift.
