(* ===== verification/MpsseRefine.v ===== *)
(** The scan is a bit-serial JTAG cable.

    The specification drives the target one TCK cycle per vector bit ([ref_run]);
    the theorem says that [mpsse_adapter_scan], with its command chunking, its
    buffer and its deferred observers, does the same to the target, the TDO
    vector and the adapter's state. *)

From S2P Require Import Prelude Jtag Bits Memory CString D2xx SimDevice MpsseBuffer.
From S2P Require Import MpsseSettled MpsseScan MpsseShift.

(** ** The specification *)

(** State of the TAP, level of TDI, the target and the TDO vector. *)
Record ref (T : Type) := mk_ref {
  rf_state : jtag_state;
  rf_tdi : bool;
  rf_tap : T;
  rf_tdo : list Z
}.
Arguments mk_ref {T} _ _ _ _.
Arguments rf_state {T} _.
Arguments rf_tdi {T} _.
Arguments rf_tap {T} _.
Arguments rf_tdo {T} _.

Section Spec.
Context {E T : Type} `{MpsseEngine E T} (dt di : list Z).

(** Bit [i] of the vectors is one TCK cycle.  In a shift state TDI follows the
    vector and TDO is recorded; elsewhere TDI is held and TDO ignored. *)
Definition ref_step (r : ref T) (i : Z) : ref T :=
  let tms := lbit dt i in
  let shifting := is_shift (rf_state r) in
  let tdi := if shifting then lbit di i else rf_tdi r in
  let '(tap, o) := tap_clock (rf_tap r) tms tdi in
  mk_ref (next_state (rf_state r) tms) tdi tap (if shifting then lset (rf_tdo r) i o else rf_tdo r).

Definition ref_run (r : ref T) (from n : Z) : ref T := fold_left ref_step (seqZ from n) r.

(** The TAP state before bit [i]. *)
Definition ref_state (s0 : jtag_state) (i : Z) : jtag_state :=
  fold_left (fun s j => next_state s (lbit dt j)) (seqZ 0 i) s0.

Lemma ref_run_add r from n m : 0 <= n -> 0 <= m -> ref_run r from (n + m) = ref_run (ref_run r from n) (from + n) m.
Proof. intros. unfold ref_run. by rewrite seqZ_app, fold_left_app. Qed.

Lemma ref_run_one r i : ref_run r i 1 = ref_step r i.
Proof. done. Qed.

Lemma ref_state_succ s0 i : 0 <= i -> ref_state s0 (i + 1) = next_state (ref_state s0 i) (lbit dt i).
Proof. intros. unfold ref_state. by rewrite seqZ_app, fold_left_app by lia. Qed.

Lemma rf_state_step r i : rf_state (ref_step r i) = next_state (rf_state r) (lbit dt i).
Proof. unfold ref_step. by destruct (tap_clock _ _ _). Qed.

Lemma rf_state_run r n : 0 <= n -> rf_state (ref_run r 0 n) = ref_state (rf_state r) n.
Proof.
  revert n. apply natlike_ind; [done|]. intros n Hn IH. rewrite <- Z.add_1_r.
  rewrite ref_run_add by lia. rewrite Z.add_0_l, ref_run_one, rf_state_step, IH.
  by rewrite ref_state_succ.
Qed.

(** A segment outside the shift states is a TMS segment. *)
Lemma ref_run_tms r from n :
  0 <= n -> (forall j, 0 <= j < n -> is_shift (rf_state (ref_run r from j)) = false) ->
  let '(tap, _) := clock_bits tap_clock (rf_tap r) (seg (tms_cycle dt (rf_tdi r)) from n) in
  rf_tap (ref_run r from n) = tap /\ rf_tdi (ref_run r from n) = rf_tdi r /\
  rf_tdo (ref_run r from n) = rf_tdo r.
Proof.
  revert n. apply (natlike_ind (fun n => _ -> _)); [done|]. intros n Hn IH Hs.
  rewrite <- Z.add_1_r, seg_app, clock_bits_app, seg_one by lia.
  specialize (IH ltac:(intros j Hj; apply Hs; lia)).
  destruct (clock_bits _ _ (seg _ from n)) as [t1 o1]. destruct IH as (IH1 & IH2 & IH3).
  rewrite ref_run_add, ref_run_one by lia. unfold ref_step.
  rewrite (Hs n), IH1, IH2, IH3 by lia. cbn [clock_bits]. unfold tms_cycle at 1.
  by destruct (tap_clock t1 (lbit dt (from + n)) (rf_tdi r)).
Qed.

(** A segment of shift states is a TDI segment. *)
Lemma ref_run_tdi r from n :
  0 <= n -> (forall j, 0 <= j < n -> is_shift (rf_state (ref_run r from j)) = true) ->
  let '(tap, os) := clock_bits tap_clock (rf_tap r) (seg (fun j => (lbit dt j, lbit di j)) from n) in
  rf_tap (ref_run r from n) = tap /\ rf_tdo (ref_run r from n) = lputs (rf_tdo r) from os /\
  (0 < n -> rf_tdi (ref_run r from n) = lbit di (from + n - 1)).
Proof.
  revert n. apply (natlike_ind (fun n => _ -> _)); [done|]. intros n Hn IH Hs.
  rewrite <- Z.add_1_r, seg_app, clock_bits_app, seg_one by lia.
  specialize (IH ltac:(intros j Hj; apply Hs; lia)).
  destruct (clock_bits _ _ (seg _ from n)) as [t1 o1] eqn:Ec. destruct IH as (IH1 & IH2 & _).
  assert (Ho : zlen o1 = n).
  { pose proof (clock_bits_length tap_clock (rf_tap r) (seg (fun j => (lbit dt j, lbit di j)) from n)) as L.
    rewrite Ec, length_seg in L. cbn in L. unfold zlen. lia. }
  rewrite ref_run_add, ref_run_one by lia. unfold ref_step.
  rewrite (Hs n), IH1, IH2 by lia. cbn [clock_bits].
  destruct (tap_clock t1 (lbit dt (from + n)) (lbit di (from + n))) as [t2 o] eqn:E2. cbn.
  rewrite lputs_app, Ho. split_and!; [done|done|]. intros _. f_equal. lia.
Qed.

End Spec.

(** ** Running the specification on a part of the vectors *)

Lemma lset_app_mid (X C R : list Z) k j o :
  zlen X = k -> 0 <= j < bits_in C -> lset (X ++ C ++ R) (8 * k + j) o = X ++ lset C j o ++ R.
Proof.
  intros HX Hj. pose proof (byte_index_range C j Hj) as Hr. pose proof (Z.mod_pos_bound j 8).
  pose proof (Z.div_mod j 8). pose proof (zlen_nonneg X).
  assert (Hq : (8 * k + j) / 8 = k + j / 8) by (symmetry; apply Z.div_unique with (j mod 8); lia).
  assert (Hm : (8 * k + j) mod 8 = j mod 8) by (symmetry; apply Z.mod_unique with (k + j / 8); lia).
  unfold lset. rewrite Hq, Hm. unfold zlen in *.
  replace (Z.to_nat (k + j / 8)) with (length X + Z.to_nat (j / 8))%nat by lia.
  rewrite app_nth2, Nat.add_comm, Nat.add_sub, app_nth1 by lia.
  rewrite Nat.add_comm, insert_app_r, insert_app_l by lia. done.
Qed.

Lemma ref_run_shift {E T} `{MpsseEngine E T} dt di st t (tap : T) X C R k n :
  zlen X = k -> 0 <= n <= bits_in C ->
  let r' := ref_run (drop (Z.to_nat k) dt) (drop (Z.to_nat k) di) (mk_ref st t tap C) 0 n in
  ref_run dt di (mk_ref st t tap (X ++ C ++ R)) (8 * k) n =
    mk_ref (rf_state r') (rf_tdi r') (rf_tap r') (X ++ rf_tdo r' ++ R) /\
  zlen (rf_tdo r') = zlen C.
Proof.
  intros HX [Hn Hle]. revert n Hn Hle. apply (natlike_ind (fun n => _ -> _)); [done|].
  intros n Hn IH Hle. specialize (IH ltac:(lia)). cbv zeta in *. destruct IH as [IH1 IH2].
  pose proof (zlen_nonneg X). rewrite <- Z.add_1_r, !ref_run_add, IH1, !ref_run_one by lia.
  set (r := ref_run _ _ (mk_ref st t tap C) 0 n) in *. rewrite Z.add_0_l.
  unfold ref_step. cbn [rf_state rf_tdi rf_tap rf_tdo]. rewrite !lbit_drop by lia.
  destruct (tap_clock (rf_tap r) _ _) as [tap' o]. cbn [rf_state rf_tdi rf_tap rf_tdo].
  destruct (is_shift (rf_state r)); [|done]. rewrite zlen_lset. split; [|done].
  rewrite lset_app_mid; [done|done|]. unfold bits_in in *. lia.
Qed.

(** ** The scan loop *)

(** Pool bytes that may be in use beyond 28 per vector bit: a TDI segment of
    [n] bits takes at most [28 * n + 84], and the bits up to the next shift
    state pay the rest. *)
Definition allow (s : jtag_state) : Z :=
  match s with
  | EXIT_1_DR | EXIT_1_IR => 84
  | PAUSE_DR | PAUSE_IR | UPDATE_DR | UPDATE_IR => 56
  | EXIT_2_DR | EXIT_2_IR | RUN_TEST_IDLE | SELECT_DR_SCAN => 28
  | _ => 0
  end.

Lemma allow_nonneg s : 0 <= allow s.
Proof. by destruct s. Qed.

Lemma allow_step s t : is_shift s = false -> allow s <= allow (next_state s t) + 28.
Proof. by destruct s, t. Qed.

Lemma allow_leave s t : is_shift s = true -> is_shift (next_state s t) = false -> allow (next_state s t) = 84.
Proof. by destruct s, t. Qed.

(** The longest vector whose observers fit the pool of 16 MiB. *)
Definition SCAN_MAX : Z := 524288.

(** The vectors lie in other blocks than the TDO buffer and are long enough. *)
Record Vectors (tms tdi : ptr) (bo : nat) (oo : Z) (dt di : list Z) (bits : Z) (m : mem) (d : list Z) : Prop := {
  Vec_tms_apart : apart tms (Ptr bo oo);
  Vec_tdi_apart : apart tdi (Ptr bo oo);
  Vec_tms : load_from m tms = Some dt;
  Vec_tdi : load_from m tdi = Some di;
  Vec_tdo : Forall byte_ok d;
  Vec_tdi_bytes : Forall byte_ok di;
  Vec_bits : 1 <= bits <= SCAN_MAX;
  Vec_dt : bits <= bits_in dt;
  Vec_di : bits <= bits_in di;
  Vec_do : bits <= 8 * zlen d
}.

Section Loop.
Context {W E T : Type} `{MpsseDeviceLaws W E T} `{!MpsseEngineLaws E T}.
Context (tms tdi : ptr) (bo : nat) (oo : Z) (dt di : list Z) (bits : Z).
#[local] Abbreviation tdo := (Ptr bo oo).
Context (s0 : mstate W) (r0 : ref T).

Hypothesis Hvec : Vectors tms tdi bo oo dt di bits (ms_mem s0) (rf_tdo r0).

Definition st (i : Z) : jtag_state := ref_state dt (rf_state r0) i.
Definition run (i : Z) : ref T := ref_run dt di r0 0 i.

(** What the scan keeps of the starting state. *)
Record Same (s : mstate W) : Prop := {
  Same_state : state (ms_ctx s) = state (ms_ctx s0);
  Same_open : is_open (ms_ctx s) = is_open (ms_ctx s0);
  Same_chip : chip_buffer_size (ms_ctx s) = 65536;
  Same_mem : mem_frame tdo (ms_mem s0) (ms_mem s)
}.

(** The engine and the TDO buffer are where the specification is after [i] bits. *)
Record Synced (i : Z) (s : mstate W) : Prop := {
  Syn_engine : exists e, Settled tdo s [] e (rf_tdo (run i)) /\ eng_idle e /\
    eng_tap e = rf_tap (run i) /\ (is_shift (st i) = true -> eng_tms e = false);
  Syn_bytes : Forall byte_ok (rf_tdo (run i));
  Syn_len : zlen (rf_tdo (run i)) = zlen (rf_tdo r0);
  Syn_tdi : last_tdi (ms_ctx s) = rf_tdi (run i);
  Syn_same : Same s;
  Syn_pool : i < bits -> pool_used_of s <= 28 * i + allow (st i)
}.

(** The loop invariant at [bit_idx] with the pending bits from [fp] on. *)
Record ScanInv (bit_idx fp : Z) (jtag : jtag_state) (s : mstate W) : Prop := {
  Inv_range : 0 <= fp <= bit_idx /\ bit_idx <= bits /\ (bit_idx = bits -> fp = bits);
  Inv_jtag : jtag = st bit_idx;
  Inv_pending : forall j, fp <= j <= bit_idx -> is_shift (st j) = is_shift jtag;
  Inv_synced : Synced fp s
}.

Lemma run_add fp n : 0 <= fp -> 0 <= n -> run (fp + n) = ref_run dt di (run fp) fp n.
Proof. apply (ref_run_add dt di r0 0 fp n). Qed.

Lemma rf_state_run_from fp j : 0 <= fp -> 0 <= j -> rf_state (ref_run dt di (run fp) fp j) = st (fp + j).
Proof. intros Hf Hj. rewrite <- run_add by done. apply rf_state_run. lia. Qed.

Lemma st_succ i : 0 <= i -> st (i + 1) = next_state (st i) (lbit dt i).
Proof. apply ref_state_succ. Qed.

(** Inside a run of shift states TMS is low. *)
Lemma shift_run_low fp i j :
  0 <= fp -> (forall j, fp <= j <= i -> is_shift (st j) = true) -> fp <= j < i -> lbit dt j = false.
Proof.
  intros Hf Hs Hj. apply (shift_needs_tms_low (st j)). rewrite <- st_succ by lia. apply Hs. lia.
Qed.

(** The pool over a TMS segment: each bit pays 28 bytes of the allowance. *)
Lemma allow_run fp n :
  0 <= fp -> 0 <= n -> (forall j, fp <= j < fp + n -> is_shift (st j) = false) ->
  allow (st fp) <= allow (st (fp + n)) + 28 * n.
Proof.
  intros Hf Hn. revert n Hn. apply (natlike_ind (fun n => _ -> _)).
  { intros _. replace (fp + 0) with fp by lia. lia. }
  intros n Hn IH Hs. specialize (IH ltac:(intros; apply Hs; lia)).
  pose proof (allow_step (st (fp + n)) (lbit dt (fp + n)) (Hs (fp + n) ltac:(lia))) as Ha.
  rewrite <- st_succ in Ha by lia. replace (fp + Z.succ n) with (fp + n + 1) by lia. lia.
Qed.

(** A pending TMS segment is flushed to the buffer. *)
Lemma tms_event_ok fp i s :
  0 <= fp <= i -> i < bits -> (forall j, fp <= j <= i -> is_shift (st j) = false) -> Synced fp s ->
  exists s', append_tms_shift tms fp (i + 1) s = Done (0, s') /\ Synced (i + 1) s'.
Proof.
  intros Hfp Hi Hsh [ (e & S & I & Ht & Hm) B L Htdi [M1 M2 M3 M4] P].
  pose proof Hvec as [V1 V2 V3 V4 V5 V6 V7 V8 V9 V10]. unfold SCAN_MAX in V7.
  destruct (append_tms_shift_ok bo oo tms dt s [] e _ fp (i + 1) S I V1) as (s' & e' & os & E1 & S' & K & C & T');
    [by eapply load_from_apart|lia|lia|unfold INT_MAX; lia|].
  exists s'. split; [exact E1|].
  pose proof (ref_run_tms dt di (run fp) fp (i + 1 - fp) ltac:(lia)) as Hr.
  rewrite <- Htdi, <- Ht in Hr. destruct C as [I' C]. rewrite C in Hr.
  destruct Hr as (R1 & R2 & R3).
  { intros j Hj. rewrite rf_state_run_from by lia. apply Hsh. lia. }
  rewrite <- run_add in R1, R2, R3 by lia. replace (fp + (i + 1 - fp)) with (i + 1) in * by lia.
  destruct K as [F U]. split; rewrite ?R3; try done.
  - exists e'. split_and!; try done. intros Hsh'. rewrite T'. replace (i + 1 - 1) with i by lia.
    rewrite st_succ in Hsh' by lia. by eapply shift_needs_tms_low.
  - by rewrite R2, (Frame_tdi _ _ _ F).
  - split; [by rewrite (Frame_state _ _ _ F)|by rewrite (Frame_open _ _ _ F)|by rewrite (Frame_chip _ _ _ F)|].
    etrans; [exact M4|apply F].
  - intros Hlt. specialize (P ltac:(lia)).
    pose proof (allow_run fp (i + 1 - fp) ltac:(lia) ltac:(lia)) as Ha.
    replace (fp + (i + 1 - fp)) with (i + 1) in Ha by lia.
    specialize (Ha ltac:(intros; apply Hsh; lia)). lia.
Qed.

(** A pending TDI segment is flushed to the buffer. *)
Lemma tdi_event_ok fp i s :
  0 <= fp <= i -> i < bits -> (forall j, fp <= j <= i -> is_shift (st j) = true) -> Synced fp s ->
  (i + 1 < bits -> is_shift (st (i + 1)) = false) ->
  exists s', append_tdi_shift tdi tdo fp (i + 1) (negb (is_shift (st (i + 1)))) s = Done (0, s') /\
    Synced (i + 1) s'.
Proof.
  intros Hfp Hi Hsh [ (e & S & I & Ht & Hm) B L Htdi [M1 M2 M3 M4] P] Hend.
  pose proof Hvec as [V1 V2 V3 V4 V5 V6 V7 V8 V9 V10]. unfold SCAN_MAX in V7.
  specialize (Hm (Hsh fp ltac:(lia))). set (high := negb (is_shift (st (i + 1)))).
  pose proof (plan_ok fp (i + 1) ltac:(lia)) as Hplan.
  assert (Hc : tdi_cost (plan_tdi_shift fp (i + 1)) <= 216 /\
               tdi_cost (plan_tdi_shift fp (i + 1)) <= 28 * (i + 1 - fp) + 84).
  { pose proof (tdi_cost_bound fp (i + 1) _ Hplan). lia. }
  specialize (P ltac:(lia)).
  assert (Hal : allow (st fp) = 0).
  { specialize (Hsh fp ltac:(lia)). destruct (st fp); done. }
  destruct (append_tdi_shift_ok bo oo tdi di V2 fp (i + 1) _ (zlen (rf_tdo r0)) Hplan ltac:(lia)
              ltac:(lia) ltac:(lia) s e (rf_tdo (run fp)) high eq_refl)
    as (s1 & e' & d' & E1 & S' & T' & L' & B' & [F U] & os & C & Hd').
  { split; try done. by eapply load_from_apart. }
  { done. }
  { destruct Hplan. lia. }
  { done. }
  { done. }
  { unfold POOL_MAX, MEMORY_POOL_SIZE. lia. }
  { unfold INT_MAX. lia. }
  replace (i + 1 - 1) with i in * by lia.
  exists (with_tdi (lbit di i) s1). split; [exact E1|].
  pose proof (ref_run_tdi dt di (run fp) fp (i + 1 - fp) ltac:(lia)) as Hr.
  rewrite <- Ht in Hr. destruct C as [I' C].
  rewrite (seg_ext _ (tdi_cycle di (i + 1) high)) in Hr.
  2: { intros j Hj. unfold tdi_cycle. f_equal. replace (i + 1 - 1) with i by lia.
       zcase (j =? i); [subst j|by rewrite (shift_run_low fp i j) by (lia || done)].
       subst high. rewrite st_succ by lia. specialize (Hsh i ltac:(lia)).
       by destruct (st i), (lbit dt i). }
  rewrite C in Hr. destruct Hr as (R1 & R2 & R3).
  { intros j Hj. rewrite rf_state_run_from by lia. apply Hsh. lia. }
  rewrite <- run_add in R1, R2, R3 by lia. replace (fp + (i + 1 - fp)) with (i + 1) in * by lia.
  rewrite <- Hd' in R2. specialize (R3 ltac:(lia)). split; rewrite ?R2; try done.
  - exists e'. split_and!; try done; [by apply Settled_with_tdi|].
    intros Hsh'. rewrite T'. subst high. by rewrite Hsh'.
  - cbn. rewrite R3. f_equal. lia.
  - split; cbn; [by rewrite (Frame_state _ _ _ F)|by rewrite (Frame_open _ _ _ F)|by rewrite (Frame_chip _ _ _ F)|].
    etrans; [exact M4|apply F].
  - intros Hlt. change (pool_used_of s1 <= 28 * (i + 1) + allow (st (i + 1))).
    specialize (Hend Hlt). rewrite st_succ in Hend |- * by lia.
    rewrite (allow_leave _ _ (Hsh i ltac:(lia)) Hend). lia.
Qed.

(** One bit: the segment ends here, or the bit stays pending. *)
Lemma scan_bit_ok i fp s :
  i < bits -> ScanInv i fp (st i) s ->
  let shifting := is_shift (st i) in
  let next_is_shift := is_shift (st (i + 1)) in
  let event := (i =? bits - 1) || (negb shifting && next_is_shift) || (shifting && negb next_is_shift) in
  exists fp' s', (if event then
      r ← (if shifting
           then append_tdi_shift tdi tdo fp (i + 1) (shifting && negb next_is_shift)
           else append_tms_shift tms fp (i + 1));
      if r <? 0 then mret None else mret (Some (i + 1))
    else mret (Some fp)) s = Done (Some fp', s') /\ ScanInv (i + 1) fp' (st (i + 1)) s'.
Proof.
  intros Hi [(Hr1 & Hr2 & Hr3) _ Hp Hs] shifting next_is_shift event.
  destruct event eqn:Ee.
  - assert (Hsync : forall s', Synced (i + 1) s' -> ScanInv (i + 1) (i + 1) (st (i + 1)) s').
    { intros s' Hs'. split; [lia|done| |done]. intros j Hj. by replace j with (i + 1) by lia. }
    destruct shifting eqn:Esh; subst shifting.
    + destruct (tdi_event_ok fp i s) as (s' & E1 & S1); try done; try lia.
      { intros j Hj. rewrite Hp by lia. done. }
      { intros Hlt. subst event. cbn in Ee. rewrite (proj2 (Z.eqb_neq i (bits - 1))) in Ee by lia.
        cbn in Ee. by apply negb_true_iff in Ee. }
      exists (i + 1), s'. cbn [andb]. subst next_is_shift. rewrite (bind_done _ _ _ _ _ E1). split; [done|auto].
    + destruct (tms_event_ok fp i s) as (s' & E1 & S1); try done; try lia.
      { intros j Hj. rewrite Hp by lia. done. }
      exists (i + 1), s'. rewrite (bind_done _ _ _ _ _ E1). split; [done|auto].
  - exists fp, s. split; [done|]. subst event. zb.
    assert (Hsame : next_is_shift = shifting).
    { by destruct shifting, next_is_shift. }
    split; [lia|done| |done]. intros j Hj. fold next_is_shift. rewrite Hsame.
    destruct (Z.eq_dec j (i + 1)) as [->|]; [done|]. apply Hp. lia.
Qed.

(** The bits of a TMS byte that is shifted down as it is consumed. *)
Definition low_bits (b i : Z) (n : nat) : Prop :=
  forall k, 0 <= k < Z.of_nat n -> Z.testbit b k = lbit dt (i + k).

Lemma scan_octet_ok n b i fp s :
  low_bits b i n -> i + Z.of_nat n <= bits -> ScanInv i fp (st i) s ->
  exists fp' s', scan_octet tms tdi tdo bits b i fp (st i) n s =
      Done (Some (fp', st (i + Z.of_nat n)), s') /\
    ScanInv (i + Z.of_nat n) fp' (st (i + Z.of_nat n)) s'.
Proof.
  revert b i fp s. induction n as [|n IH]; intros b i fp s Hb Hn HI.
  - exists fp, s. rewrite Z.add_0_r. done.
  - cbn [scan_octet]. pose proof (Inv_range _ _ _ _ HI) as Hrange.
    assert (Ht : negb (Z.land b 1 =? 0) = lbit dt i).
    { rewrite <- (Z.add_0_r i), <- (Hb 0) by lia. apply (bit_test_spec b 0). lia. }
    rewrite Ht, <- st_succ by lia.
    destruct (scan_bit_ok i fp s ltac:(lia) HI) as (fp1 & s1 & E1 & I1).
    rewrite (bind_done _ _ _ _ _ E1).
    destruct (IH (Z.shiftr b 1) (i + 1) fp1 s1) as (fp2 & s2 & E2 & I2); [|lia|done|].
    { intros k Hk. rewrite Z.shiftr_spec, Hb by lia. f_equal. lia. }
    replace (i + Z.of_nat (S n)) with (i + 1 + Z.of_nat n) by lia. eauto.
Qed.

(** The loop ends with every bit in the buffer and the final TAP state. *)
Lemma scan_loop_ok s :
  ScanInv 0 0 (st 0) s ->
  exists s', while_loop (scan_round tms tdi tdo bits) (0, 0, st 0) s = Done (Some (st bits), s') /\
    Synced bits s'.
Proof.
  intros HI. pose proof Hvec as [V1 V2 V3 V4 V5 V6 V7 V8 V9 V10]. unfold SCAN_MAX in V7.
  destruct (while_total (scan_round tms tdi tdo bits)
    (fun '(i, fp, jtag) s => ScanInv i fp jtag s /\ (i = bits \/ i mod 8 = 0))
    (fun r s => r = Some (st bits) /\ Synced bits s)
    (fun '(i, _, _) _ => bits - i) (0, 0, st 0) s) as (r & s' & Ew & -> & Hs'); [|split; [done|by right]|lia|eauto].
  clear HI s. intros [[i fp] jtag] s [HI H8]. pose proof HI as [(Hr1 & Hr2 & Hr3) -> Hp Hs].
  unfold scan_round. destruct (Z.ltb_spec i bits) as [Hlt|Hge].
  2: { replace i with bits in * by lia. exists (inr (Some (st bits))), s. split; [done|]. split; [done|].
       rewrite Hr3 in Hs; done. }
  destruct H8 as [->|H8]; [lia|]. pose proof (Z.div_mod i 8).
  assert (Hd : deref tms (i / 8) s = Done (nth (Z.to_nat (i / 8)) dt 0, s)).
  { apply deref_ok; [|lia]. eapply load_from_apart; [apply (Same_mem _ (Syn_same _ _ Hs))|done|done]. }
  rewrite (bind_done _ _ _ _ _ Hd).
  rewrite int_arith_ok by (unfold INT_MIN, INT_MAX; lia). cbn [lift_exec].
  rewrite (bind_done _ _ s (i + 8) s eq_refl).
  set (next := if bits <? i + 8 then bits else i + 8).
  assert (Hnext : i < next <= bits /\ next <= i + 8 /\ (next = bits \/ next = i + 8)).
  { subst next. zcase (bits <? i + 8); lia. }
  destruct (scan_octet_ok (Z.to_nat (next - i)) (nth (Z.to_nat (i / 8)) dt 0) i fp s)
    as (fp' & s' & E1 & I1); [|lia|done|].
  { intros k Hk. replace (i + k) with (8 * (i / 8) + k) by lia. by rewrite lbit_byte by lia. }
  replace (i + Z.of_nat (Z.to_nat (next - i))) with next in * by lia.
  rewrite (bind_done _ _ _ _ _ E1). eexists _, s'. split; [reflexivity|].
  split; [|lia]. split; [done|]. destruct Hnext as (_ & _ & [->| ->]); [by left|right].
  rewrite <- H8. symmetry. rewrite <- (Z_mod_plus_full i 1 8). f_equal.
Qed.

End Loop.

(** ** The scan *)

Section Scan.
Context {W E T : Type} `{MpsseDeviceLaws W E T} `{!MpsseEngineLaws E T}.

(** An open adapter between two operations: nothing buffered, nothing in
    flight, the pool empty, and TMS low if the TAP is in a shift state. *)
Record Ready (s : mstate W) : Prop := {
  Rdy_open : is_open (ms_ctx s) = true;
  Rdy_chip : chip_buffer_size (ms_ctx s) = 65536;
  Rdy_handle : ft_handle (ms_ctx s) = dev_handle (ms_w s);
  Rdy_dump : dump_file (ms_ctx s) = None;
  Rdy_max_tx : max_tx_buffer_bytes (buffer (ms_ctx s)) = TX_MAX;
  Rdy_max_rx : max_rx_buffer_bytes (buffer (ms_ctx s)) = RX_MAX;
  Rdy_tx_len : zlen (tx_buffer (buffer (ms_ctx s))) = TX_MAX;
  Rdy_rx_len : zlen (rx_buffer (buffer (ms_ctx s))) = RX_MAX;
  Rdy_tx_num : tx_num_bytes (buffer (ms_ctx s)) = 0;
  Rdy_rx_num : rx_num_bytes (buffer (ms_ctx s)) = 0;
  Rdy_observers : rx_observers (buffer (ms_ctx s)) = [];
  Rdy_queue : dev_rx (ms_w s) = [];
  Rdy_pool : pool_used_of s = 0;
  Rdy_idle : eng_idle (dev_engine (ms_w s));
  Rdy_tms : is_shift (state (ms_ctx s)) = true -> eng_tms (dev_engine (ms_w s)) = false
}.

Lemma Ready_Buf tdo s d : Ready s -> tdo_view (ms_mem s) tdo d -> Buf tdo s [] [] [] d.
Proof.
  intros [] Hd. split; rewrite ?Rdy_observers0, ?eng_feed_nil; try done.
  - by exists (tx_buffer (buffer (ms_ctx s))).
  - constructor.
Qed.

Lemma Buf_Ready tdo s d :
  Buf tdo s [] [] [] d -> is_open (ms_ctx s) = true -> chip_buffer_size (ms_ctx s) = 65536 ->
  pool_used_of s = 0 -> eng_idle (dev_engine (ms_w s)) ->
  (is_shift (state (ms_ctx s)) = true -> eng_tms (dev_engine (ms_w s)) = false) -> Ready s.
Proof.
  intros [] Ho Hc Hp Hi Ht. split; try done.
  destruct (rx_observers (buffer (ms_ctx s))); done.
Qed.

(** A scan of nothing is refused. *)
Lemma scan_guards (s : mstate W) tms tdi tdo bits :
  is_open (ms_ctx s) = false \/ tms = NULL \/ tdi = NULL \/ tdo = NULL \/ bits <= 0 ->
  mpsse_adapter_scan tms tdi tdo bits s = Done (-1, s).
Proof.
  intros Hg. unfold mpsse_adapter_scan, ctx_of. rewrite (bind_done _ _ s (ms_ctx s) s eq_refl).
  destruct Hg as [->|[->|[->|[->|Hb]]]]; cbn [is_null negb orb]; rewrite ?orb_true_r; [done..|].
  by rewrite (proj2 (Z.leb_le bits 0) Hb), orb_true_r.
Qed.

(** Where the specification starts from a state of the adapter, and what it
    means that the adapter follows it. *)
Definition ref_of (s : mstate W) (d : list Z) : ref T :=
  mk_ref (state (ms_ctx s)) (last_tdi (ms_ctx s)) (eng_tap (dev_engine (ms_w s))) d.

Definition follows (s : mstate W) (r : ref T) : Prop :=
  state (ms_ctx s) = rf_state r /\ last_tdi (ms_ctx s) = rf_tdi r /\ eng_tap (dev_engine (ms_w s)) = rf_tap r.

Lemma mpsse_scan_ok (tms tdi : ptr) (bo : nat) (oo : Z) (dt di d : list Z) (bits : Z) (s : mstate W) :
  let tdo := Ptr bo oo in
  let r0 := ref_of s d in
  let r := ref_run dt di r0 0 bits in
  Ready s -> load_from (ms_mem s) tdo = Some d -> Vectors tms tdi bo oo dt di bits (ms_mem s) d ->
  exists s', mpsse_adapter_scan tms tdi tdo bits s = Done (0, s') /\ Ready s' /\
    load_from (ms_mem s') tdo = Some (rf_tdo r) /\ mem_frame tdo (ms_mem s) (ms_mem s') /\
    follows s' r.
Proof.
  intros tdo r0 r HR Hd Hvec. pose proof Hvec as [V1 V2 V3 V4 V5 V6 V7 V8 V9 V10].
  set (s1 := s <| ms_ctx := (ms_ctx s) <| current_tms := tms |> <| current_tdi := tdi |>
                              <| current_bit_offset := 0 |> |>).
  assert (HR1 : Ready s1) by (destruct HR; by split).
  assert (Hvec1 : Vectors tms tdi bo oo dt di bits (ms_mem s1) (rf_tdo r0)) by (by split).
  assert (HI : ScanInv bo oo dt di bits s1 r0 0 0 (st dt r0 0) s1).
  { split; [lia|done|by intros j Hj; replace j with 0 by lia|]. split; try done.
    - exists (dev_engine (ms_w s1)). split_and!; [|apply HR1|done|apply HR1].
      by apply Buf_settled; [apply Ready_Buf|].
    - split; try done. apply HR.
    - intros _. change (pool_used_of s1) with (pool_used_of s). rewrite (Rdy_pool _ HR).
      pose proof (allow_nonneg (st dt r0 0)). lia. }
  destruct (scan_loop_ok tms tdi bo oo dt di bits s1 r0 Hvec1 s1 HI)
    as (s2 & E2 & [(e & S2 & I2 & T2 & M2) B2 L2 D2 [F1 F2 F3 F4] _]).
  destruct (flush_settled _ _ _ _ _ S2) as (s3 & E3 & B3 & He & F & U).
  unfold mpsse_adapter_scan, ctx_of. rewrite (bind_done _ _ s (ms_ctx s) s eq_refl).
  rewrite (Rdy_open _ HR). destruct tms as [|tb to]; [done|]. destruct tdi as [|ib io]; [done|].
  rewrite (proj2 (Z.leb_gt bits 0)) by lia. change (is_null tdo) with false. cbn [is_null negb orb].
  erewrite (bind_done _ _ s tt s1); [|reflexivity].
  change (state (ms_ctx s)) with (st dt r0 0). rewrite (bind_done _ _ _ _ _ E2).
  rewrite (bind_done _ _ _ _ _ E3). cbn [Z.ltb Z.compare].
  unfold pool_reset, set_ctx, modify. do 3 (erewrite bind_done; [|reflexivity]).
  eexists. split; [reflexivity|]. cbn -[ref_run].
  split; [|split_and!].
  - eapply (Buf_Ready tdo _ (rf_tdo r)); cbn.
    + destruct B3. split; try done. cbn. destruct (rx_observers (buffer (ms_ctx s3))); [constructor|done].
    + rewrite (Frame_open _ _ _ F), F2. apply HR.
    + by rewrite (Frame_chip _ _ _ F).
    + done.
    + by rewrite He.
    + by rewrite He.
  - apply (Buf_tdo _ _ _ _ _ _ B3).
  - etrans; [exact F4|apply F].
  - unfold follows. cbn -[ref_run]. split_and!; [symmetry; apply rf_state_run; lia| |by rewrite He].
    by rewrite (Frame_tdi _ _ _ F).
Qed.

(** C3: a scan with open adapter, against any device that obeys the MPSSE
    command reference, is a bit-serial JTAG cable: for every TMS and TDI vector
    of up to 524288 bits and from every TAP state it terminates with success,
    drives the target through one TCK cycle per vector bit, with TDI following
    the vector in the shift states and held elsewhere, stores exactly the TDO
    samples of the shift states at their bit indices, leaves every other bit
    of the TDO vector and all other memory alone, and ends in the TAP state
    that the TMS vector leads to, ready for the next scan. *)
Theorem mpsse_scan_correct (tms tdi : ptr) (bo : nat) (oo : Z) (dt di d : list Z) (bits : Z) (s : mstate W) :
  let tdo := Ptr bo oo in
  let r0 := ref_of s d in
  let r := ref_run dt di r0 0 bits in
  Ready s -> load_from (ms_mem s) tdo = Some d -> Vectors tms tdi bo oo dt di bits (ms_mem s) d ->
  exists s', mpsse_adapter_scan tms tdi tdo bits s = Done (0, s') /\ Ready s' /\
    load_from (ms_mem s') tdo = Some (rf_tdo r) /\ mem_frame tdo (ms_mem s) (ms_mem s') /\
    follows s' r.
Proof. apply mpsse_scan_ok. Qed.

End Scan.

(** ** A run on the concrete device *)

Definition sim_context (tx rx : list Z) : mpsse_context :=
  mk_context 1 (mk_buffer tx 0 TX_MAX rx 0 RX_MAX []) TEST_LOGIC_RESET false true 0 65536
    (mk_pool 0 ∅) 0 0 "" None NULL NULL 0.
Definition sim_world : world := mk_world (mk_engine [] 0 (mk_target TEST_LOGIC_RESET false) true (true, 0)) [] 0 [1].

(** A heap of three blocks: the TMS, TDI and TDO vectors. *)
Definition sim_mem (tms tdi tdo : list Z) : mem :=
  mk_mem (<[0%nat := tms]> (<[1%nat := tdi]> {[2%nat := tdo]})) 3 [] (fun _ _ => 0).
Definition sim_state (tms tdi tdo : list Z) : mstate world :=
  mk_mstate (sim_context (replicate (Z.to_nat TX_MAX) 0) (replicate (Z.to_nat RX_MAX) 0))
    (sim_mem tms tdi tdo) sim_world.

Lemma sim_context_ready tx rx m :
  zlen tx = TX_MAX -> zlen rx = RX_MAX -> Ready (mk_mstate (sim_context tx rx) m sim_world).
Proof. intros Htx Hrx. by split. Qed.

Lemma sim_ready tms tdi tdo : Ready (sim_state tms tdi tdo).
Proof. apply sim_context_ready; by apply zlen_replicate. Qed.

(** Thirty-eight bits: Reset to Shift-DR, 32 bits shifted, Exit1-DR. *)
Lemma mpsse_scan_correct_witness :
  let dt := [0x02; 0x00; 0x00; 0x00; 0x10] in
  let di := [0xff; 0xa5; 0x5a; 0xc3; 0x7f] in
  let d := [0xff; 0xff; 0xff; 0xff; 0xff] in
  let s := sim_state dt di d in
  let r0 := mk_ref TEST_LOGIC_RESET false (mk_target TEST_LOGIC_RESET false) d in
  (Ready s /\ Vectors (Ptr 0 0) (Ptr 1 0) 2 0 dt di 38 (ms_mem s) d) /\
  exists s', mpsse_adapter_scan (Ptr 0 0) (Ptr 1 0) (Ptr 2 0) 38 s = Done (0, s') /\ Ready s' /\
    load_from (ms_mem s') (Ptr 2 0) = Some (rf_tdo (ref_run dt di r0 0 38)) /\
    mem_frame (Ptr 2 0) (ms_mem s) (ms_mem s') /\
    follows s' (ref_run dt di r0 0 38).
Proof.
  intros dt di d s r0. assert (HV : Vectors (Ptr 0 0) (Ptr 1 0) 2 0 dt di 38 (ms_mem s) d).
  { split; try done; try (unfold bits_in, zlen, SCAN_MAX; cbn; lia); byte_list. }
  split; [split; [apply sim_ready|exact HV]|].
  exact (mpsse_scan_correct (Ptr 0 0) (Ptr 1 0) 2 0 dt di d 38 s (sim_ready dt di d) eq_refl HV).
Defined.

Example ref_run_example :
  let d := [0xff; 0xff; 0xff; 0xff; 0xff] in
  let r0 := mk_ref TEST_LOGIC_RESET false (mk_target TEST_LOGIC_RESET false) d in
  rf_tdo (ref_run [0x02; 0x00; 0x00; 0x00; 0x10] [0xff; 0xa5; 0x5a; 0xc3; 0x7f] r0 0 38) =
    [0xef; 0x4b; 0xb5; 0x86; 0xff].
Proof. vm_compute. reflexivity. Qed.
