(* ===== verification/MpsseAdapter.v ===== *)
(** The life cycle of the adapter of mpsse_adapter.c.

    Creation, opening (the driver calls in their order, every failure branch),
    closing, the TCK frequency and the small accessors.  Log output and
    [usleep] have no counterpart: they touch no state of the program. *)

From S2P Require Import Prelude Jtag Bits Memory CString D2xx SimDevice MpsseBuffer.
From S2P Require Import MpsseSettled MpsseScan MpsseShift MpsseRefine.

Definition MPSSE_MAX_FREQUENCY : Z := 30000000.

(** ** Creation *)

(** [calloc] zeroes the context; the observer pool is empty. *)
Definition mpsse_zero : mpsse_context :=
  mk_context 0 (mk_buffer [] 0 0 [] 0 0 []) TEST_LOGIC_RESET false false 0 0 (mk_pool 0 ∅)
    0 0 "" None NULL NULL 0.

Definition mpsse_adapter_create (m : mem) : option mpsse_context * mem :=
  let '(ok, m) := alloc_ok m in
  if negb ok then (None, m)
  else
    let b := mk_buffer [] 0 (3 * 65536) [] 0 (65536 * 2) [] in
    let '(tx, m) := malloc_array m (max_tx_buffer_bytes b) in
    let '(rx, m) := malloc_array m (max_rx_buffer_bytes b) in
    match tx, rx with
    | Some tx, Some rx =>
        (Some (mpsse_zero <| buffer := b <| tx_buffer := tx |> <| rx_buffer := rx |> |>
                          <| state := TEST_LOGIC_RESET |> <| last_tdi := false |>
                          <| chip_buffer_size := 65536 |>
                          <| total_flushes := 0 |> <| failed_flushes := 0 |>
                          <| ft_handle := 0 |> <| is_open := false |>), m)
    | _, _ => (None, m)
    end.

Section Adapter.
Context {W : Type} `{D2XX W}.
#[local] Abbreviation MP := (M (mstate W)).

Definition heap {A} (f : mem -> A * mem) : MP A := fun s =>
  let '(a, m) := f (ms_mem s) in Done (a, s <| ms_mem := m |>).

(** ** Opening *)

(** "Get number of devices" and "Open device by serial number or index". *)
Definition open_device (serial : option string) (index : Z) : MP Z :=
  '(ftStatus, numDevs) ← ft FT_CreateDeviceInfoList;
  if negb (ftStatus =? FT_OK) then
    set_error ("FT_CreateDeviceInfoList failed: " +:+ fmt_d (i32 ftStatus)) ;; mret (-1)
  else if numDevs =? 0 then
    set_error "No FTDI devices found" ;; mret (-1)
  else
    match serial with
    | Some (String c serial) =>
        '(ftStatus, h) ← ft (FT_OpenEx (String c serial));
        if negb (ftStatus =? FT_OK) then
          set_error ("FT_OpenEx by serial failed: " +:+ fmt_d (i32 ftStatus)) ;; mret (-1)
        else set_ctx (fun c => c <| ft_handle := h |>) ;; mret 0
    | _ =>
        '(ftStatus, h) ← ft (FT_Open index);
        if negb (ftStatus =? FT_OK) then
          set_error ("FT_Open failed: " +:+ fmt_d (i32 ftStatus)) ;; mret (-1)
        else set_ctx (fun c => c <| ft_handle := h |>) ;; mret 0
    end.

(** Reset, purge, transfer sizes, characters, timeouts, bit mode reset; a
    failure of any of them is only logged. *)
Definition configure_device : MP unit :=
  c ← ctx_of;
  let h := ft_handle c in
  ft (FT_ResetDevice h) ;;
  ft (FT_Purge h (Z.lor FT_PURGE_RX FT_PURGE_TX)) ;;
  ft (FT_SetUSBParameters h 65536 65536) ;;
  ft (FT_SetChars h 0 0 0 0) ;;
  ft (FT_SetTimeouts h 5000 5000) ;;
  ft (FT_SetBitMode h 0x00 FT_BITMODE_RESET) ;;
  mret tt.

(** [FT_Close(ctx->ft_handle); ctx->ft_handle = NULL;] *)
Definition close_handle : MP unit :=
  c ← ctx_of;
  ft (FT_Close (ft_handle c)) ;;
  set_ctx (fun c => c <| ft_handle := 0 |>).

(** Clear the receive queue into [junk[256]]. *)
Definition drain_junk : MP unit :=
  c ← ctx_of;
  '(_, rxBytes) ← ft (FT_GetQueueStatus (ft_handle c));
  if 0 <? rxBytes then
    '(_, data) ← ft (FT_Read (ft_handle c) (u32 (Z.min (i32 rxBytes) (i32 256))));
    _ ← lift_exec (of_option (write_at 0 data (replicate 256 0)));
    mret tt
  else mret tt.

Definition setup_cmds : list Z :=
  [OP_LOOPBACK_OFF; OP_DISABLE_CLK_DIVIDE_BY_5;
   OP_SET_TCK_DIVISOR; Z.land 29 0xFF; Z.land (Z.shiftr 29 8) 0xFF;
   OP_SET_DBUS_LOBYTE; 0x08; 0x0B].

(** "Enable MPSSE mode" to the second clearing of the queue. *)
Definition enter_mpsse : MP Z :=
  c ← ctx_of;
  ftStatus ← ft (FT_SetBitMode (ft_handle c) 0x00 FT_BITMODE_MPSSE);
  if negb (ftStatus =? FT_OK) then
    set_error ("FT_SetBitMode MPSSE failed: " +:+ fmt_d (i32 ftStatus)) ;;
    close_handle ;; mret (-1)
  else
    drain_junk ;;
    c ← ctx_of;
    '(ftStatus, bytesWritten) ← ft (FT_Write (ft_handle c) setup_cmds);
    if negb (ftStatus =? FT_OK) || negb (bytesWritten =? zlen setup_cmds) then
      set_error ("FT_Write setup failed: " +:+ fmt_d (i32 ftStatus)) ;;
      close_handle ;; mret (-1)
    else drain_junk ;; mret 0.

(** "Detect chip type" and "Reallocate buffers": both arrays are freed and
    allocated again, and only a success of both is kept. *)
Definition setup_buffers : MP Z :=
  c ← ctx_of;
  ft (FT_GetDeviceInfo (ft_handle c)) ;;
  set_ctx (fun c => c <| chip_buffer_size := 65536 |>) ;;
  set_ctx (fun c => c <| buffer := (buffer c) <| max_tx_buffer_bytes := 3 * chip_buffer_size c |>
                                             <| max_rx_buffer_bytes := chip_buffer_size c * 2 |> |>) ;;
  b ← buf_of;
  tx ← heap (fun m => malloc_array m (max_tx_buffer_bytes b));
  rx ← heap (fun m => malloc_array m (max_rx_buffer_bytes b));
  set_buf (fun b => b <| tx_buffer := default [] tx |> <| rx_buffer := default [] rx |>) ;;
  match tx, rx with
  | Some _, Some _ => mret 0
  | _, _ => close_handle ;; mret (-1)
  end.

(** [vendor], [product] and [interface] are not used by the source. *)
Definition mpsse_adapter_open (vendor product : Z) (serial : option string) (index interface : Z) : MP Z :=
  r ← open_device serial index;
  if r <? 0 then mret (-1)
  else
    configure_device ;;
    r ← enter_mpsse;
    if r <? 0 then mret (-1)
    else
      r ← setup_buffers;
      if r <? 0 then mret (-1)
      else
        set_ctx (fun c => c <| is_open := true |> <| state := TEST_LOGIC_RESET |> <| last_tdi := false |>) ;;
        mret 0.

(** ** Closing *)

Definition mpsse_adapter_close : MP unit :=
  c ← ctx_of;
  if negb (is_open c) then mret tt
  else
    mpsse_buffer_flush ;;
    c ← ctx_of;
    (if negb (ft_handle c =? 0) then
       ft (FT_SetBitMode (ft_handle c) 0x00 FT_BITMODE_RESET) ;;
       ft (FT_Close (ft_handle c)) ;;
       set_ctx (fun c => c <| ft_handle := 0 |>)
     else mret tt) ;;
    set_ctx (fun c => c <| is_open := false |>).

(** The context itself is gone afterwards: what is left is its last state with
    the arrays released. *)
Definition mpsse_adapter_destroy : MP unit :=
  c ← ctx_of;
  (if is_open c then mpsse_adapter_close else mret tt) ;;
  set_ctx (fun c => c <| dump_file := None |>) ;;
  set_buf (fun b => b <| tx_buffer := [] |> <| rx_buffer := [] |>).

(** ** Frequency *)

Definition frequency_divisor (frequency_hz : Z) : Z :=
  let f := if MPSSE_MAX_FREQUENCY <? frequency_hz then MPSSE_MAX_FREQUENCY else frequency_hz in
  let f := if f <? 1 then 1 else f in
  let divisor := 60000000 / u32 (2 * f) in
  let divisor := if 0 <? divisor then divisor - 1 else divisor in
  if 0xFFFF <? divisor then 0xFFFF else divisor.

Definition mpsse_adapter_set_frequency (frequency_hz : Z) : MP Z :=
  c ← ctx_of;
  if negb (is_open c) then mret (-1)
  else
    let divisor := frequency_divisor frequency_hz in
    let actual := 60000000 / u32 ((1 + divisor) * 2) in
    let cmd := [OP_DISABLE_CLK_DIVIDE_BY_5; OP_SET_TCK_DIVISOR;
                Z.land divisor 0xFF; Z.land (Z.shiftr divisor 8) 0xFF] in
    r ← mpsse_buffer_append (Local cmd) 4 None 0;
    if r <? 0 then mret (-1)
    else
      r ← mpsse_buffer_flush;
      if r <? 0 then mret (-1) else mret actual.

(** ** The rest of the interface *)

Definition mpsse_adapter_flush : MP Z :=
  c ← ctx_of;
  if negb (is_open c) then mret (-1) else mpsse_buffer_flush.

Definition mpsse_adapter_error : MP string :=
  c ← ctx_of;
  mret (match error c with ""%string => "No error"%string | e => e end).

Definition mpsse_adapter_set_verbose (level : Z) : MP unit :=
  set_ctx (fun c => c <| verbose := level |>).

(** [opened]: whether [fopen(path, "w")] succeeds. *)
Definition mpsse_adapter_set_dump_file (path : option string) (opened : bool) : MP Z :=
  match path with
  | None => mret (-1)
  | Some path =>
      set_ctx (fun c => c <| dump_file := None |>) ;;
      if negb opened then
        set_error ("Failed to open dump file: " +:+ path) ;; mret (-1)
      else
        set_ctx (fun c => c <| dump_file := Some
          ("# MPSSE command dump started" +:+ String LF
           ("# Format: INPUT: <TMS TDI bytes> followed by MPSSE command bytes" +:+ String LF ""))%string |>) ;;
        mret 0
  end.

End Adapter.

(** ** The flush terminates *)

Section Termination.
Context {W : Type} `{DriverReads W}.

(** Bytes still expected, empty polls still allowed, microseconds left. *)
Definition read_measure (v : Z * Z * Z) (s : mstate W) : Z :=
  (rx_num_bytes (buffer (ms_ctx s)) - v.1.1) * 1001 + (1000 - v.2) + Z.max 0 v.1.2.

Definition reading_state (num : Z) (v : Z * Z * Z) (s : mstate W) : Prop :=
  rx_num_bytes (buffer (ms_ctx s)) = num /\ num <= INT_MAX /\ 0 <= v.1.1 <= Z.max 0 num /\ 0 <= v.2 <= 1000 /\
  v.1.2 <= 500000.

(** A round with data: at least one byte arrives. *)
Lemma read_round_data v (s : mstate W) n w1 :
  let c := ms_ctx s in
  let num := rx_num_bytes (buffer c) in
  reading_state num v s -> v.1.1 < num ->
  FT_GetQueueStatus (ft_handle c) (ms_w s) = ((FT_OK, n), w1) -> 0 < n ->
  let toRead := u32 (Z.min (i32 n) (i32 (u32 (num - v.1.1)))) in
  1 <= toRead <= num - v.1.1 /\ zlen (FT_Read (ft_handle c) toRead w1).1.2 <= toRead /\
  ((FT_Read (ft_handle c) toRead w1).1.1 = FT_OK -> 1 <= zlen (FT_Read (ft_handle c) toRead w1).1.2).
Proof.
  intros c num (_ & Hnum & Hk & Hs & Ht) Hlt Hp Hn toRead.
  pose proof (poll_range (ft_handle c) (ms_w s)) as Hr. rewrite Hp in Hr. cbn in Hr. unfold INT_MAX in Hnum.
  assert (Htr : toRead = Z.min n (num - v.1.1)).
  { subst toRead. rewrite (u32_id (num - v.1.1)) by lia.
    rewrite !i32_id by (unfold INT_MIN, INT_MAX; lia). by rewrite u32_id by lia. }
  rewrite Htr. split; [lia|]. split; [apply read_length; lia|].
  intros Hok. by apply (read_progress (ft_handle c) _ n (ms_w s)); [|lia..|].
Qed.

Lemma read_round_step num v (s : mstate W) :
  reading_state num v s ->
  match read_round v s with
  | Done (inl v', s') => reading_state num v' s' /\ 0 <= read_measure v' s' < read_measure v s
  | Done (inr _, _) | Undef => True
  | Stuck => False
  end.
Proof.
  intros Hrs. pose proof Hrs as (Hn & Hm & Hk & Hs & Ht). destruct v as [[k tmo] spin]. cbn [fst snd] in *.
  unfold read_round, ctx_of. rewrite (bind_done _ _ s (ms_ctx s) s eq_refl). cbv zeta. rewrite Hn.
  destruct (Z.ltb_spec k num) as [Hlt|Hge]; [|done].
  destruct (Z.ltb_spec 0 tmo) as [Htmo|Htmo]; cbn [andb]; [|done].
  destruct (FT_GetQueueStatus (ft_handle (ms_ctx s)) (ms_w s)) as [[st n] w1] eqn:Ep.
  run_ft Ep. destruct (Z.eqb_spec st FT_OK) as [->|Hst]; cbn [negb]; [|done].
  destruct (Z.ltb_spec 0 n) as [Hn0|Hn0].
  - assert (Hrd := read_round_data (k, tmo, spin) s n w1). cbv zeta in Hrd. rewrite Hn in Hrd. cbn [fst snd] in Hrd.
    destruct (Hrd Hrs Hlt Ep Hn0) as (Ht1 & Hl & Hpr). clear Hrd.
    set (tr := u32 _) in *.
    destruct (FT_Read (ft_handle (ms_ctx s)) tr w1) as [[st2 data] w2] eqn:Er. cbn [fst snd] in *.
    run_ft Er. unfold lift_exec.
    destruct (write_at k data (rx_buffer (buffer (ms_ctx s)))) as [rx|] eqn:Ew; cbn [of_option];
      unfold mbind at 1, M_bind at 1; [|done].
    destruct (Z.eqb_spec st2 FT_OK) as [->|Hst2]; cbn [negb]; [|done].
    specialize (Hpr eq_refl). pose proof (zlen_nonneg data). unfold INT_MAX in Hm.
    unfold set_buf, set_ctx, modify. erewrite bind_done; [|reflexivity]. cbn [mret M_ret].
    rewrite i32_id by (unfold INT_MIN, INT_MAX; lia).
    unfold reading_state, read_measure. cbn. unfold INT_MAX. lia.
  - unfold max_spin. destruct (Z.ltb_spec spin 1000); cbn [mret M_ret];
      unfold reading_state, read_measure; cbn; rewrite ?Hn; unfold INT_MAX in *; lia.
Qed.

Lemma run_observers_not_stuck rx l (s : mstate W) : run_observers rx l s <> Stuck.
Proof.
  revert s. induction l as [|o l IH]; intros s; [done|]. cbn [run_observers].
  unfold mbind, M_bind. destruct (run_observer rx o s) as [[[] s']| |] eqn:Eo; [apply IH|done|].
  unfold run_observer in Eo. destruct (node_fn o), (pool_objs _ !! node_extra o) as [[]|]; try done;
    repeat case_match; done.
Qed.

Lemma bind_not_stuck {A B} (m : M (mstate W) A) (k : A -> M (mstate W) B) s :
  m s <> Stuck -> (forall a s', m s = Done (a, s') -> k a s' <> Stuck) -> (m ≫= k) s <> Stuck.
Proof. intros Hm Hk. unfold mbind, M_bind. destruct (m s) as [[a s']| |]; [by apply Hk|done|done]. Qed.

Lemma flush_tx_not_stuck (s : mstate W) : flush_tx s <> Stuck.
Proof.
  unfold flush_tx, buf_of, ctx_of, gets.
  apply bind_not_stuck; [done|]. intros b s1 _.
  apply bind_not_stuck; [by unfold lift_exec; destruct (read_at _ _ _)|]. intros data s2 _.
  apply bind_not_stuck.
  { unfold flush_dump, ctx_of, gets. apply bind_not_stuck; [done|]. intros c s3 _.
    destruct (dump_file c); [|done]. apply bind_not_stuck; [|done].
    unfold format_tms_tdi_hex. repeat case_match; done. }
  intros _ s3 _. apply bind_not_stuck; [done|]. intros c s4 _.
  apply bind_not_stuck; [unfold ft; by destruct (FT_Write _ _ _)|]. intros [st n] s5 _.
  apply bind_not_stuck; [done|]. intros _ s6 _.
  by destruct (negb (st =? FT_OK)); [|destruct (negb (i32 n =? tx_num_bytes b))].
Qed.

Lemma flush_tx_rx_num (s : mstate W) r s' :
  flush_tx s = Done (r, s') -> rx_num_bytes (buffer (ms_ctx s')) = rx_num_bytes (buffer (ms_ctx s)).
Proof.
  unfold flush_tx. intros E.
  apply bind_done_inv in E as (b & s1 & [= <- <-] & E).
  apply bind_done_inv in E as (data & s1 & E1 & E). unfold lift_exec in E1.
  destruct (of_option _); [|done..]. injection E1 as <- <-.
  apply bind_done_inv in E as (u & s1 & E1 & E).
  assert (H1 : buffer (ms_ctx s1) = buffer (ms_ctx s)).
  { unfold flush_dump in E1. apply bind_done_inv in E1 as (c & s2 & [= <- <-] & E1).
    destruct (dump_file (ms_ctx s)); [|by injection E1 as _ <-].
    apply bind_done_inv in E1 as (line & s2 & E2 & E1).
    unfold format_tms_tdi_hex in E2. injection E1 as _ <-. cbn.
    repeat case_match; by simplify_eq. }
  apply bind_done_inv in E as (c & s2 & [= <- <-] & E).
  apply bind_done_inv in E as ([st n] & s2 & E2 & E). unfold ft in E2.
  destruct (FT_Write _ _ _) as [[st' n'] w]. injection E2 as <- <- <-.
  apply bind_done_inv in E as (u2 & s2 & [= _ <-] & E). cbn in E.
  apply (f_equal (fun x => match x with Done (_, s) => rx_num_bytes (buffer (ms_ctx s)) | _ => 0 end)) in E.
  rewrite <- H1, <- E. by destruct (negb (st' =? FT_OK)); [|destruct (negb _)].
Qed.

(** C18: a flush comes back, under the promise of a driver that a successful
    read of a queue it has just reported non-empty stores a byte
    ([DriverReads]).  The rest of what the driver does is free: errors, short
    writes and reads, silence.  [mpsse_buffer_flush] leaves its read loop: the
    spin and timeout counters bound the empty polls, and every read takes
    expected bytes.  Without that promise the loop does spin: [flush_spins]. *)
Theorem flush_terminates (s : mstate W) :
  rx_num_bytes (buffer (ms_ctx s)) <= INT_MAX -> mpsse_buffer_flush s <> Stuck.
Proof.
  intros Hmax. unfold mpsse_buffer_flush, buf_of, gets.
  apply bind_not_stuck; [done|]. intros b s1 [= <- <-].
  apply bind_not_stuck.
  { destruct (0 <? _); [apply flush_tx_not_stuck|done]. }
  intros r s1 E1. destruct (r <? 0); [done|].
  apply bind_not_stuck; [done|]. intros b s2 [= <- <-].
  assert (Hn : rx_num_bytes (buffer (ms_ctx s1)) = rx_num_bytes (buffer (ms_ctx s))).
  { destruct (0 <? _); [by eapply flush_tx_rx_num|by injection E1 as <- <-]. }
  destruct (Z.ltb_spec 0 (rx_num_bytes (buffer (ms_ctx s1)))) as [Hpos|]; [|done].
  unfold flush_rx. apply bind_not_stuck.
  - apply (while_not_stuck _ (reading_state (rx_num_bytes (buffer (ms_ctx s1)))) read_measure).
    + intros v s'. apply read_round_step.
    + unfold reading_state. cbn. lia.
    + unfold read_measure. cbn. unfold INT_MAX in Hmax. lia.
  - intros [k|] s2 _; [|done]. unfold buf_of, gets. apply bind_not_stuck; [done|]. intros b s3 _.
    destruct (negb _); [done|]. apply bind_not_stuck; [apply run_observers_not_stuck|done].
Qed.

End Termination.

(** The promise is needed: against a driver that reports queued bytes and reads
    none, successfully, the counters never run down and the flush never comes
    back. *)
Section Spin.
Context {W : Type} `{D2XX W} (J : W -> Prop).
Context (idle_read : forall h w, J w -> exists q w1, FT_GetQueueStatus h w = ((FT_OK, q), w1) /\ 0 < q /\
  forall n, exists w2, FT_Read h n w1 = ((FT_OK, []), w2) /\ J w2).

Lemma flush_spins (s : mstate W) :
  let b := buffer (ms_ctx s) in
  tx_num_bytes b <= 0 -> 0 < rx_num_bytes b -> J (ms_w s) -> mpsse_buffer_flush s = Stuck.
Proof.
  intros b Htx Hrx Hs. unfold mpsse_buffer_flush, buf_of, gets. rewrite (bind_done _ _ s b s eq_refl).
  rewrite (proj2 (Z.ltb_ge 0 _) Htx), (bind_done (mret 0) _ s 0 s eq_refl). cbn [Z.ltb Z.compare].
  rewrite (bind_done _ _ s b s eq_refl), (proj2 (Z.ltb_lt 0 _) Hrx).
  enough (Hl : while_loop read_round (0, 500000, 0) s = Stuck) by (unfold flush_rx, mbind, M_bind; by rewrite Hl).
  apply (while_forever _ (fun v s' => v = (0, 500000, 0) /\ 0 < rx_num_bytes (buffer (ms_ctx s')) /\ J (ms_w s'))); [|done].
  clear s b Htx Hrx Hs. intros v s (-> & Hrx & Hs).
  destruct (idle_read (ft_handle (ms_ctx s)) (ms_w s) Hs) as (q & w1 & E1 & Hq & Hr).
  unfold read_round, ctx_of, gets. rewrite (bind_done _ _ s (ms_ctx s) s eq_refl). cbv zeta.
  rewrite (proj2 (Z.ltb_lt 0 (rx_num_bytes _)) Hrx). cbn [Z.ltb Z.compare andb]. run_ft E1.
  change (negb (FT_OK =? FT_OK)) with false. rewrite (proj2 (Z.ltb_lt 0 q) Hq). cbv iota zeta.
  set (n := u32 _). destruct (Hr n) as (w2 & E2 & Hs2). run_ft E2.
  assert (Ew : write_at 0 [] (rx_buffer (buffer (ms_ctx s))) = Some (rx_buffer (buffer (ms_ctx s)))).
  { unfold write_at. pose proof (zlen_nonneg (rx_buffer (buffer (ms_ctx s)))).
    change (zlen []) with 0. rewrite (proj2 (Z.leb_le (0 + 0) (zlen (rx_buffer (buffer (ms_ctx s))))) ltac:(lia)). cbn. by rewrite drop_0. }
  run_lift Ew. eexists _, _. split; [reflexivity|]. by split.
Qed.
End Spin.

(** Such a driver: the simulated one with a byte in its queue that no read
    gets. *)
Definition silent_d2xx : D2XX world := {|
  FT_SetVIDPID := FT_SetVIDPID;
  FT_CreateDeviceInfoList := FT_CreateDeviceInfoList;
  FT_GetDeviceInfoList := FT_GetDeviceInfoList;
  FT_OpenEx := FT_OpenEx;
  FT_Open := FT_Open;
  FT_ResetDevice := FT_ResetDevice;
  FT_Purge := FT_Purge;
  FT_SetUSBParameters := FT_SetUSBParameters;
  FT_SetChars := FT_SetChars;
  FT_SetTimeouts := FT_SetTimeouts;
  FT_SetBitMode := FT_SetBitMode;
  FT_GetDeviceInfo := FT_GetDeviceInfo;
  FT_GetQueueStatus := fun h w => ((FT_OK, 1), w);
  FT_Read := fun h n w => ((FT_OK, []), w);
  FT_Write := FT_Write;
  FT_Close := FT_Close
|}.

Example silent_driver_spins : forall s : mstate world,
  tx_num_bytes (buffer (ms_ctx s)) = 0 -> rx_num_bytes (buffer (ms_ctx s)) = 1 ->
  @mpsse_buffer_flush world silent_d2xx s = Stuck.
Proof.
  intros s Ht Hr. apply (@flush_spins world silent_d2xx (fun _ => True)); [|lia|lia|done].
  intros h w _. exists 1, w. split; [done|]. split; [lia|]. intros n. by exists w.
Qed.

(** The simulated device with a command in the buffer that one response byte
    is expected of: the flush sends it and reads the byte. *)
Definition pending_state : mstate world :=
  match mpsse_buffer_append (Local [0x3F; 7; 0x55]) 3 None 1 (sim_state [1] [2] [3]) with
  | Done (_, s) => s
  | _ => sim_state [1] [2] [3]
  end.

Lemma flush_terminates_witness :
  rx_num_bytes (buffer (ms_ctx pending_state)) = 1 /\
  match mpsse_buffer_flush pending_state with Done (r, s) => r = 0 /\ rx_num_bytes (buffer (ms_ctx s)) = 0 | _ => False end /\
  mpsse_buffer_flush pending_state <> Stuck.
Proof.
  assert (Hn : rx_num_bytes (buffer (ms_ctx pending_state)) = 1) by (vm_compute; reflexivity).
  split; [exact Hn|]. split; [vm_compute; split; reflexivity|].
  apply (flush_terminates pending_state). rewrite Hn. unfold INT_MAX. lia.
Defined.

(** ** Opening and closing *)

Section Handles.
Context {W : Type} `{DriverHandles W} `{!DriverReads W}.

(** What the steps between the open call and the end leave alone, and the
    handles of the driver. *)
Definition steady (s s' : mstate W) : Prop :=
  opened (ms_w s') = opened (ms_w s) /\ ft_handle (ms_ctx s') = ft_handle (ms_ctx s) /\
  is_open (ms_ctx s') = is_open (ms_ctx s).

(** The handle was given back. *)
Definition given_back (s s' : mstate W) : Prop :=
  opened (ms_w s') = filter (.≠ ft_handle (ms_ctx s)) (opened (ms_w s)) /\
  ft_handle (ms_ctx s') = 0 /\ is_open (ms_ctx s') = is_open (ms_ctx s).

#[local] Instance steady_preorder : PreOrder steady.
Proof.
  split; [by intros s|]. intros s1 s2 s3 (A1 & B1 & C1) (A2 & B2 & C2). unfold steady. split_and!; congruence.
Qed.

Lemma ft_steady {A} (call : W -> A * W) (s : mstate W) :
  opened (call (ms_w s)).2 = opened (ms_w s) ->
  exists s', ft call s = Done ((call (ms_w s)).1, s') /\ steady s s' /\ s' = s <| ms_w := (call (ms_w s)).2 |>.
Proof.
  intros Ho. unfold ft. destruct (call (ms_w s)) as [a w]. by eexists.
Qed.

Lemma close_handle_ok (s : mstate W) :
  exists s', close_handle s = Done (tt, s') /\ given_back s s'.
Proof.
  unfold close_handle, ctx_of, gets. rewrite (bind_done _ _ s (ms_ctx s) s eq_refl).
  unfold ft, mbind, M_bind. pose proof (opened_close (ft_handle (ms_ctx s)) (ms_w s)) as Hc.
  destruct (FT_Close _ _) as [st w]. eexists. split; [reflexivity|]. by split_and!.
Qed.

Lemma configure_device_ok (s : mstate W) :
  exists s', configure_device s = Done (tt, s') /\ steady s s' /\ ms_mem s' = ms_mem s /\ ms_ctx s' = ms_ctx s.
Proof.
  unfold configure_device, ctx_of, gets. rewrite (bind_done _ _ s (ms_ctx s) s eq_refl).
  cbv zeta. set (h := ft_handle (ms_ctx s)). clearbody h.
  destruct (ft_steady (FT_ResetDevice h) s) as (s1 & E1 & S1 & D1); [apply opened_reset|].
  rewrite (bind_done _ _ _ _ _ E1).
  destruct (ft_steady (FT_Purge h (Z.lor FT_PURGE_RX FT_PURGE_TX)) s1) as (s2 & E2 & S2 & D2); [apply opened_purge|].
  rewrite (bind_done _ _ _ _ _ E2).
  destruct (ft_steady (FT_SetUSBParameters h 65536 65536) s2) as (s3 & E3 & S3 & D3); [apply opened_usb|].
  rewrite (bind_done _ _ _ _ _ E3).
  destruct (ft_steady (FT_SetChars h 0 0 0 0) s3) as (s4 & E4 & S4 & D4); [apply opened_chars|].
  rewrite (bind_done _ _ _ _ _ E4).
  destruct (ft_steady (FT_SetTimeouts h 5000 5000) s4) as (s5 & E5 & S5 & D5); [apply opened_timeouts|].
  rewrite (bind_done _ _ _ _ _ E5).
  destruct (ft_steady (FT_SetBitMode h 0x00 FT_BITMODE_RESET) s5) as (s6 & E6 & S6 & D6); [apply opened_bitmode|].
  rewrite (bind_done _ _ _ _ _ E6).
  exists s6. split; [done|]. split; [by repeat (etrans; [eassumption|])|].
  by rewrite D6, D5, D4, D3, D2, D1.
Qed.

Lemma drain_junk_ok (s : mstate W) :
  exists s', drain_junk s = Done (tt, s') /\ steady s s' /\ ms_mem s' = ms_mem s /\ ms_ctx s' = ms_ctx s.
Proof.
  unfold drain_junk, ctx_of, gets. rewrite (bind_done _ _ s (ms_ctx s) s eq_refl).
  set (h := ft_handle (ms_ctx s)).
  destruct (ft_steady (FT_GetQueueStatus h) s) as (s1 & E1 & S1 & D1); [apply opened_poll|].
  rewrite (bind_done _ _ _ _ _ E1). pose proof (poll_range h (ms_w s)) as Hr.
  destruct (FT_GetQueueStatus h (ms_w s)) as [[st n] w1]. cbn [fst snd] in D1, Hr |- *.
  destruct (Z.ltb_spec 0 n) as [Hn|]; [|by exists s1; rewrite D1 in *].
  set (k := u32 (Z.min (i32 n) (i32 256))).
  assert (Hk : 0 <= k <= 256).
  { subst k. rewrite !i32_id by (unfold INT_MIN, INT_MAX; lia). rewrite u32_id; lia. }
  destruct (ft_steady (FT_Read h k) s1) as (s2 & E2 & S2 & D2); [apply opened_read|].
  rewrite (bind_done _ _ _ _ _ E2). pose proof (read_length h k (ms_w s1) ltac:(lia)) as Hl.
  destruct (FT_Read h k (ms_w s1)) as [[st2 data] w2]. cbn [fst snd] in D2, Hl |- *.
  assert (Hj : zlen (replicate 256 0) = 256) by done.
  rewrite write_at_ok by lia. cbn [of_option].
  exists s2. split; [done|]. split; [by etrans|]. by rewrite D2, D1.
Qed.

(** [enter_mpsse] either leaves the handle open or gives it back. *)
Lemma enter_mpsse_ok (s : mstate W) :
  exists r s', enter_mpsse s = Done (r, s') /\
    ((r = 0 /\ steady s s' /\ ms_ctx s' = ms_ctx s) \/ (r = -1 /\ given_back s s')).
Proof.
  unfold enter_mpsse, ctx_of, gets. rewrite (bind_done _ _ s (ms_ctx s) s eq_refl).
  set (h := ft_handle (ms_ctx s)).
  destruct (ft_steady (FT_SetBitMode h 0x00 FT_BITMODE_MPSSE) s) as (s1 & E1 & S1 & D1); [apply opened_bitmode|].
  rewrite (bind_done _ _ _ _ _ E1).
  assert (Hfail : forall (e : string) s2, steady s s2 ->
    exists s', (set_error e ;; close_handle ;; mret (-1)) s2 = Done (-1, s') /\ given_back s s').
  { intros e s2 (A & B & C). unfold set_error at 1, set_ctx at 1, modify at 1.
    erewrite bind_done; [|reflexivity].
    destruct (close_handle_ok (s2 <| ms_ctx := (ms_ctx s2) <| error := truncated 256 e |> |>)) as (s3 & E3 & G1 & G2 & G3).
    rewrite (bind_done _ _ _ _ _ E3). exists s3. split; [done|]. cbn in G1, G3.
    split_and!; [by rewrite G1, A, B|done|by rewrite G3]. }
  destruct (negb _).
  { destruct (Hfail ("FT_SetBitMode MPSSE failed: " +:+ fmt_d (i32 (FT_SetBitMode h 0x00 FT_BITMODE_MPSSE (ms_w s)).1))%string s1 S1)
      as (s' & E' & G). exists (-1), s'. split; [exact E'|by right]. }
  destruct (drain_junk_ok s1) as (s2 & E2 & S2 & M2 & C2). rewrite (bind_done _ _ _ _ _ E2).
  rewrite (bind_done _ _ s2 (ms_ctx s2) s2 eq_refl).
  destruct (ft_steady (FT_Write (ft_handle (ms_ctx s2)) setup_cmds) s2) as (s3 & E3 & S3 & D3); [apply opened_write|].
  rewrite (bind_done _ _ _ _ _ E3). assert (S13 : steady s s3) by (by repeat (etrans; [eassumption|])).
  destruct (FT_Write _ _ (ms_w s2)) as [[st n] w3]. cbn [fst].
  destruct (negb (st =? FT_OK) || negb (n =? zlen setup_cmds)).
  { destruct (Hfail ("FT_Write setup failed: " +:+ fmt_d (i32 st))%string s3 S13) as (s' & E' & G).
    exists (-1), s'. split; [exact E'|by right]. }
  destruct (drain_junk_ok s3) as (s4 & E4 & S4 & M4 & C4). rewrite (bind_done _ _ _ _ _ E4).
  exists 0, s4. split; [done|]. left. split; [done|]. split; [by etrans|].
  rewrite C4, D3. cbn. by rewrite C2, D1.
Qed.

(** The context after a successful open. *)
Definition opened_context (c c' : mpsse_context) : Prop :=
  is_open c' = true /\ state c' = TEST_LOGIC_RESET /\ last_tdi c' = false /\ chip_buffer_size c' = 65536 /\
  max_tx_buffer_bytes (buffer c') = TX_MAX /\ max_rx_buffer_bytes (buffer c') = RX_MAX /\
  zlen (tx_buffer (buffer c')) = TX_MAX /\ zlen (rx_buffer (buffer c')) = RX_MAX /\
  tx_num_bytes (buffer c') = tx_num_bytes (buffer c) /\ rx_num_bytes (buffer c') = rx_num_bytes (buffer c) /\
  rx_observers (buffer c') = rx_observers (buffer c) /\ observer_pool c' = observer_pool c /\
  dump_file c' = dump_file c.

Lemma heap_ok {A} (f : mem -> A * mem) (s : mstate W) a m :
  f (ms_mem s) = (a, m) -> heap f s = Done (a, s <| ms_mem := m |>).
Proof. intros E. unfold heap. by rewrite E. Qed.

(** The context before [is_open] is set. *)
Lemma setup_buffers_ok (s : mstate W) :
  exists r s', setup_buffers s = Done (r, s') /\
    ((r = 0 /\ steady s s' /\ ms_w s' = (FT_GetDeviceInfo (ft_handle (ms_ctx s)) (ms_w s)).2 /\
      opened_context (ms_ctx s) ((ms_ctx s') <| is_open := true |> <| state := TEST_LOGIC_RESET |>
                                             <| last_tdi := false |>)) \/
     (r = -1 /\ given_back s s')).
Proof.
  unfold setup_buffers, ctx_of, buf_of, gets. rewrite (bind_done _ _ s (ms_ctx s) s eq_refl).
  destruct (ft_steady (FT_GetDeviceInfo (ft_handle (ms_ctx s))) s) as (s1 & E1 & (A1 & B1 & C1) & D1); [apply opened_info|].
  rewrite (bind_done _ _ _ _ _ E1).
  unfold set_ctx at 1 2, modify at 1 2. do 3 (erewrite bind_done; [|reflexivity]).
  destruct (malloc_array (ms_mem s1) (3 * 65536)) as [tx m1] eqn:Et.
  destruct (malloc_array m1 (65536 * 2)) as [rx m2] eqn:Ex.
  erewrite bind_done; [|apply heap_ok; exact Et].
  erewrite bind_done; [|apply heap_ok; exact Ex].
  unfold set_buf, set_ctx, modify. erewrite bind_done; [|reflexivity].
  destruct tx as [tx|]; [destruct rx as [rx|]|].
  - eexists _, _. split; [reflexivity|]. left. split; [done|]. split; [by split_and!|]. split; [by rewrite D1|].
    rewrite D1. unfold opened_context. cbn. split_and!; try done.
    + apply malloc_array_length in Et; [done|lia].
    + apply malloc_array_length in Ex; [done|lia].
  - edestruct close_handle_ok as (s3 & E3 & G1 & G2 & G3). rewrite (bind_done _ _ _ _ _ E3).
    exists (-1), s3. split; [done|]. right. cbn in G1, G3. split; [done|]. by rewrite A1, B1 in G1; rewrite C1 in G3.
  - edestruct close_handle_ok as (s3 & E3 & G1 & G2 & G3). rewrite (bind_done _ _ _ _ _ E3).
    exists (-1), s3. split; [done|]. right. cbn in G1, G3. split; [done|]. by rewrite A1, B1 in G1; rewrite C1 in G3.
Qed.

(** [open_device] opens at most one handle and stores it. *)
Lemma open_device_ok serial index (s : mstate W) :
  exists r s', open_device serial index s = Done (r, s') /\ is_open (ms_ctx s') = is_open (ms_ctx s) /\
    ((r = 0 /\ ms_ctx s' = (ms_ctx s) <| ft_handle := ft_handle (ms_ctx s') |> /\ ms_mem s' = ms_mem s /\
      ft_handle (ms_ctx s') <> 0 /\ (ft_handle (ms_ctx s') ∉ opened (ms_w s)) /\
      opened (ms_w s') = ft_handle (ms_ctx s') :: opened (ms_w s)) \/
     (r = -1 /\ opened (ms_w s') = opened (ms_w s))).
Proof.
  unfold open_device.
  destruct (ft_steady FT_CreateDeviceInfoList s) as (s1 & E1 & (A1 & B1 & C1) & D1); [apply opened_list|].
  rewrite (bind_done _ _ _ _ _ E1). destruct (FT_CreateDeviceInfoList (ms_w s)) as [[st n] w1]. cbn [fst snd] in *.
  subst s1. cbn in A1.
  destruct (negb (st =? FT_OK)); [|destruct (n =? 0)].
  1, 2: eexists (-1), _; split; [reflexivity|]; split; [done|by right].
  assert (Hopen : forall (call : W -> (Z * Z) * W) e,
    (forall st h w', call w1 = ((st, h), w') ->
       if st =? FT_OK then h <> 0 /\ (h ∉ opened w1) /\ opened w' = h :: opened w1
       else opened w' = opened w1) ->
    exists r s', ('(ftStatus, h) ← ft call;
       if negb (ftStatus =? FT_OK) then set_error (e +:+ fmt_d (i32 ftStatus)) ;; mret (-1)
       else set_ctx (fun c => c <| ft_handle := h |>) ;; mret 0) (s <| ms_w := w1 |>) = Done (r, s') /\
      is_open (ms_ctx s') = is_open (ms_ctx s) /\
      ((r = 0 /\ ms_ctx s' = (ms_ctx s) <| ft_handle := ft_handle (ms_ctx s') |> /\ ms_mem s' = ms_mem s /\
        ft_handle (ms_ctx s') <> 0 /\ (ft_handle (ms_ctx s') ∉ opened (ms_w s)) /\
        opened (ms_w s') = ft_handle (ms_ctx s') :: opened (ms_w s)) \/
       (r = -1 /\ opened (ms_w s') = opened (ms_w s)))).
  { intros call e Hcall. destruct (call w1) as [[st2 h] w2] eqn:Ec. specialize (Hcall _ _ _ eq_refl).
    erewrite bind_done; [|by apply ft_done]. cbv beta iota.
    destruct (st2 =? FT_OK); cbn [negb]; eexists _, _; (split; [reflexivity|]); (split; [done|]).
    - left. destruct Hcall as (Hn & Hf & Ho). cbn. by rewrite Ho, <- A1.
    - right. cbn. split; [done|]. by rewrite Hcall. }
  destruct serial as [[|c0 serial]|]; apply Hopen; intros st2 h w';
    [apply opened_open|apply opened_open_ex|apply opened_open].
Qed.

Lemma filter_fresh (h : Z) l : h ∉ l -> filter (.≠ h) (h :: l) = l.
Proof.
  intros Hh. rewrite filter_cons_False by tauto.
  induction l as [|x l IH]; [done|]. apply not_elem_of_cons in Hh as [Hx Hh].
  rewrite filter_cons_True by done. by rewrite IH.
Qed.

Lemma mpsse_open_ok vendor product serial index interface (s : mstate W) :
  exists r s', mpsse_adapter_open vendor product serial index interface s = Done (r, s') /\
    ((r = 0 /\ ft_handle (ms_ctx s') <> 0 /\ (ft_handle (ms_ctx s') ∉ opened (ms_w s)) /\
      opened (ms_w s') = ft_handle (ms_ctx s') :: opened (ms_w s) /\
      opened_context (ms_ctx s) (ms_ctx s')) \/
     (r = -1 /\ opened (ms_w s') = opened (ms_w s) /\ is_open (ms_ctx s') = is_open (ms_ctx s))).
Proof.
  unfold mpsse_adapter_open.
  destruct (open_device_ok serial index s) as (r1 & s1 & E1 & I1 & H1). rewrite (bind_done _ _ _ _ _ E1).
  destruct H1 as [(-> & C1 & M1 & N1 & F1 & O1)|(-> & O1)].
  2: { exists (-1), s1. split; [done|]. by right. }
  cbn [Z.ltb Z.compare].
  destruct (configure_device_ok s1) as (s2 & E2 & (A2 & B2 & I2) & M2 & C2). rewrite (bind_done _ _ _ _ _ E2).
  assert (Hback : forall s', given_back s2 s' ->
    opened (ms_w s') = opened (ms_w s) /\ is_open (ms_ctx s') = is_open (ms_ctx s)).
  { intros s' (G1 & G2 & G3). rewrite G1, G3, A2, O1, B2, I2, I1. by rewrite filter_fresh. }
  destruct (enter_mpsse_ok s2) as (r3 & s3 & E3 & [(-> & (A3 & B3 & I3) & C3)|(-> & G)]);
    rewrite (bind_done _ _ _ _ _ E3); cbn [Z.ltb Z.compare].
  2: { exists (-1), s3. split; [done|]. right. split; [done|]. by apply Hback. }
  destruct (setup_buffers_ok s3) as (r4 & s4 & E4 & [(-> & (A4 & B4 & I4) & D4 & C4)|(-> & G1 & G2 & G3)]);
    rewrite (bind_done _ _ _ _ _ E4); cbn [Z.ltb Z.compare].
  2: { exists (-1), s4. split; [done|]. right. split; [done|]. apply Hback.
       split_and!; [by rewrite G1, A3, B3|done|by rewrite G3]. }
  eexists 0, _. split; [reflexivity|]. left. cbn. split; [done|]. rewrite A4, A3, A2, O1, B4, B3, B2.
  split; [done|]. split; [done|]. split; [done|]. rewrite C3, C2, C1 in C4. exact C4.
Qed.

(** C21: opening never leaks a driver handle.  On every path, whatever the
    driver answers, [mpsse_adapter_open] returns 0 with exactly one more open
    handle, the one in the context, and the adapter open in
    Test-Logic-Reset with buffers of the sizes it declares, or returns -1 with
    the driver's handles and [is_open] as they were. *)
Theorem mpsse_open_handles vendor product serial index interface (s : mstate W) :
  exists r s', mpsse_adapter_open vendor product serial index interface s = Done (r, s') /\
    ((r = 0 /\ ft_handle (ms_ctx s') <> 0 /\ (ft_handle (ms_ctx s') ∉ opened (ms_w s)) /\
      opened (ms_w s') = ft_handle (ms_ctx s') :: opened (ms_w s) /\
      opened_context (ms_ctx s) (ms_ctx s')) \/
     (r = -1 /\ opened (ms_w s') = opened (ms_w s) /\ is_open (ms_ctx s') = is_open (ms_ctx s))).
Proof. apply mpsse_open_ok. Qed.

End Handles.

(** The device before it is opened. *)
Definition sim_closed_world : world :=
  mk_world (mk_engine [] 0 (mk_target TEST_LOGIC_RESET false) true (true, 0)) [] 0 [].

Lemma mpsse_open_handles_witness :
  exists r s', mpsse_adapter_open (-1) (-1) None 0 0 (mk_mstate mpsse_zero (sim_mem [] [] []) sim_closed_world) =
      Done (r, s') /\
    ((r = 0 /\ ft_handle (ms_ctx s') <> 0 /\ (ft_handle (ms_ctx s') ∉ []) /\ opened (ms_w s') = [ft_handle (ms_ctx s')] /\
      opened_context mpsse_zero (ms_ctx s')) \/
     (r = -1 /\ opened (ms_w s') = [] /\ is_open (ms_ctx s') = false)).
Proof.
  exact (mpsse_open_handles (-1) (-1) None 0 0 (mk_mstate mpsse_zero (sim_mem [] [] []) sim_closed_world)).
Defined.

Section Ready.
Context {W E T : Type} `{MpsseDeviceLaws W E T} `{!MpsseEngineLaws E T} `{!MpsseOpenLaws W E T}
  `{!DriverHandles W} `{!DriverReads W}.

(** The driver's device under the handle of the context. *)
Definition attached (s : mstate W) : Prop := ft_handle (ms_ctx s) = dev_handle (ms_w s).

Lemma open_device_attached serial index (s s' : mstate W) :
  open_device serial index s = Done (0, s') -> attached s'.
Proof.
  unfold open_device, attached. intros E0.
  apply bind_done_inv in E0 as ([st n] & s1 & _ & E0).
  destruct (negb (st =? FT_OK)); [done|]. destruct (n =? 0); [done|].
  assert (Hopen : forall (call : W -> (Z * Z) * W) e,
    (forall h w w', call w = ((FT_OK, h), w') -> dev_handle w' = h) ->
    ('(ftStatus, h) ← ft call;
       if negb (ftStatus =? FT_OK) then set_error (e +:+ fmt_d (i32 ftStatus)) ;; mret (-1)
       else set_ctx (fun c => c <| ft_handle := h |>) ;; mret 0) s1 = Done (0, s') ->
    ft_handle (ms_ctx s') = dev_handle (ms_w s')).
  { intros call e Hc E1. apply bind_done_inv in E1 as ([st2 h] & s2 & E2 & E1). unfold ft in E2.
    destruct (call (ms_w s1)) as [[st3 h3] w3] eqn:Ec. injection E2 as <- <- <-.
    destruct (Z.eqb_spec st3 FT_OK) as [->|]; cbn [negb] in E1; [|done].
    injection E1 as <-. cbn. symmetry. by eapply Hc. }
  destruct serial as [[|c0 serial]|]; eapply Hopen; try exact E0; intros h w w';
    [apply dev_open|apply dev_open_ex|apply dev_open].
Qed.

Lemma configure_device_attached (s s' : mstate W) :
  attached s -> configure_device s = Done (tt, s') -> attached s'.
Proof.
  intros Ha. destruct (configure_device_ok s) as (s1 & E1 & _ & _ & C1). intros E2.
  rewrite E1 in E2. injection E2 as <-. unfold attached. rewrite C1, Ha.
  unfold configure_device, ctx_of, gets in E1. rewrite (bind_done _ _ s (ms_ctx s) s eq_refl) in E1.
  cbv zeta in E1. repeat (apply bind_done_inv in E1 as (? & ? & ? & E1)).
  injection E1 as <-. unfold ft in *. repeat case_match; simplify_eq; cbn.
  repeat match goal with
  | Hc : FT_ResetDevice ?h ?w = (_, ?w') |- _ =>
      pose proof (dev_reset h w); rewrite Hc in *; clear Hc
  | Hc : FT_Purge ?h ?m ?w = (_, ?w') |- _ =>
      pose proof (dev_purge h m w); rewrite Hc in *; clear Hc
  | Hc : FT_SetUSBParameters ?h ?a ?b ?w = (_, ?w') |- _ =>
      pose proof (dev_usb h a b w); rewrite Hc in *; clear Hc
  | Hc : FT_SetChars ?h ?a ?b ?c ?d ?w = (_, ?w') |- _ =>
      pose proof (dev_chars h a b c d w); rewrite Hc in *; clear Hc
  | Hc : FT_SetTimeouts ?h ?a ?b ?w = (_, ?w') |- _ =>
      pose proof (dev_timeouts h a b w); rewrite Hc in *; clear Hc
  | Hc : FT_SetBitMode ?h ?a ?b ?w = (_, ?w') |- _ =>
      pose proof (dev_bitmode h a b w); rewrite Hc in *; clear Hc
  end.
  cbn in *. congruence.
Qed.

(** Draining an empty queue does nothing. *)
Lemma drain_junk_empty (s : mstate W) :
  attached s -> dev_rx (ms_w s) = [] ->
  exists s', drain_junk s = Done (tt, s') /\ attached s' /\ ms_ctx s' = ms_ctx s /\ ms_mem s' = ms_mem s /\
    dev_engine (ms_w s') = dev_engine (ms_w s) /\ dev_rx (ms_w s') = [].
Proof.
  intros Ha Hq. unfold drain_junk, ctx_of, gets. rewrite (bind_done _ _ s (ms_ctx s) s eq_refl).
  destruct (dev_poll (ft_handle (ms_ctx s)) (ms_w s) Ha) as (n & w1 & E1 & D1 & D2 & D3 & D4 & _).
  run_ft E1. rewrite Hq in D4. change (zlen (@nil Z)) with 0 in D4.
  rewrite (proj2 (Z.ltb_ge 0 n)) by lia. eexists. split; [reflexivity|].
  unfold attached. cbn. by rewrite D1, D2, D3, Hq.
Qed.

(** MPSSE mode: the engine idles with TMS high. *)
Lemma enter_mpsse_ready (s s' : mstate W) :
  attached s -> enter_mpsse s = Done (0, s') ->
  attached s' /\ ms_ctx s' = ms_ctx s /\ eng_idle (dev_engine (ms_w s')) /\ dev_rx (ms_w s') = [].
Proof.
  intros Ha E0. unfold enter_mpsse, ctx_of, gets in E0. rewrite (bind_done _ _ s (ms_ctx s) s eq_refl) in E0.
  apply bind_done_inv in E0 as (st & s1 & E1 & E0). unfold ft in E1.
  pose proof (dev_bitmode (ft_handle (ms_ctx s)) 0 FT_BITMODE_MPSSE (ms_w s)) as Hh.
  destruct (FT_SetBitMode (ft_handle (ms_ctx s)) 0 FT_BITMODE_MPSSE (ms_w s)) as [st1 w1] eqn:Eb.
  injection E1 as <- <-. destruct (Z.eqb_spec st1 FT_OK) as [->|]; cbn [negb] in E0;
    [|by repeat (apply bind_done_inv in E0 as (? & ? & _ & E0))].
  apply dev_mpsse in Eb as [Hi Hq]. cbn in Hh.
  destruct (drain_junk_empty (s <| ms_w := w1 |>)) as (s2 & E2 & A2 & C2 & M2 & En2 & Q2);
    [unfold attached; cbn; by rewrite Hh|done|].
  rewrite (bind_done _ _ _ _ _ E2), (bind_done _ _ s2 (ms_ctx s2) s2 eq_refl) in E0. cbn in En2.
  destruct (dev_write (ft_handle (ms_ctx s2)) (ms_w s2) setup_cmds A2) as (w3 & E3 & D3 & En3 & Q3); [byte_list|].
  erewrite bind_done in E0; [|apply ft_done; exact E3]. cbv beta iota in E0.
  rewrite !Z.eqb_refl in E0. cbn [negb orb] in E0.
  destruct (eng_setup (dev_engine w1) (Z.land 29 0xFF) (Z.land (Z.shiftr 29 8) 0xFF) 0x08 0x0B Hi)
    as (e' & Ef & Hi' & _ & Ht).
  change (eng_feed (dev_engine w1) setup_cmds = (e', [])) in Ef.
  rewrite En2, Ef in En3, Q3. rewrite Q2 in Q3. cbn in En3, Q3.
  destruct (drain_junk_empty (s2 <| ms_w := w3 |>)) as (s4 & E4 & A4 & C4 & M4 & En4 & Q4);
    [unfold attached; cbn; by rewrite D3|done|].
  rewrite (bind_done _ _ _ _ _ E4) in E0. injection E0 as <-. cbn in En4, C4.
  split; [done|]. split; [by rewrite C4, C2|]. split; [by rewrite En4, En3|done].
Qed.

(** A context without pending commands, as [mpsse_adapter_create] makes it. *)
Definition fresh_context (c : mpsse_context) : Prop :=
  tx_num_bytes (buffer c) = 0 /\ rx_num_bytes (buffer c) = 0 /\ rx_observers (buffer c) = [] /\
  pool_used (observer_pool c) = 0 /\ dump_file c = None.

Lemma create_fresh m c m' : mpsse_adapter_create m = (Some c, m') -> fresh_context c.
Proof.
  unfold mpsse_adapter_create. destruct (alloc_ok m) as [[] m1]; [|done]. cbn [negb].
  destruct (malloc_array m1 _) as [[tx|] m2]; destruct (malloc_array m2 _) as [[rx|] m3]; try done.
  intros [= <- <-]. done.
Qed.

Lemma open_ready vendor product serial index interface (s s' : mstate W) :
  fresh_context (ms_ctx s) -> mpsse_adapter_open vendor product serial index interface s = Done (0, s') ->
  Ready s'.
Proof.
  intros (F1 & F2 & F3 & F4 & F5) E0.
  destruct (mpsse_open_ok vendor product serial index interface s) as (r & s0 & E1 & H3).
  rewrite E0 in E1. injection E1 as <- <-. destruct H3 as [(_ & _ & _ & _ & Hc)|(? & _)]; [|done].
  destruct Hc as (O1 & O2 & O3 & O4 & O5 & O6 & O7 & O8 & O9 & O10 & O11 & O12 & O13).
  unfold mpsse_adapter_open in E0.
  apply bind_done_inv in E0 as (r1 & s1 & E1 & E0). destruct (Z.ltb_spec r1 0); [done|].
  destruct (open_device_ok serial index s) as (r1' & s1' & E1' & _ & H1'). rewrite E1 in E1'. injection E1' as <- <-.
  destruct H1' as [(-> & _)|(-> & _)]; [|done]. apply open_device_attached in E1.
  apply bind_done_inv in E0 as ([] & s2 & E2 & E0). apply configure_device_attached in E2; [|done].
  apply bind_done_inv in E0 as (r3 & s3 & E3 & E0). destruct (Z.ltb_spec r3 0); [done|].
  destruct (enter_mpsse_ok s2) as (r3' & s3' & E3' & H3'). rewrite E3 in E3'. injection E3' as <- <-.
  destruct H3' as [(-> & _)|(-> & _)]; [|done]. apply enter_mpsse_ready in E3 as (A3 & C3 & I3 & Q3); [|done].
  apply bind_done_inv in E0 as (r4 & s4 & E4 & E0). destruct (Z.ltb_spec r4 0); [done|].
  destruct (setup_buffers_ok s3) as (r4' & s4' & E4' & H4'). rewrite E4 in E4'. injection E4' as <- <-.
  destruct H4' as [(-> & (_ & B4 & _) & W4 & _)|(-> & _)]; [|done].
  destruct (dev_info (ft_handle (ms_ctx s3)) (ms_w s3)) as (D1 & D2 & D3). rewrite <- W4 in D1, D2, D3.
  injection E0 as <-. cbn in *.
  split; cbn; try congruence. unfold pool_used_of. cbn. congruence.
Qed.

(** Nothing is pending on a ready adapter. *)
Lemma ready_flush (s : mstate W) : Ready s -> mpsse_buffer_flush s = Done (0, s).
Proof.
  intros HR. unfold mpsse_buffer_flush, buf_of, gets. erewrite bind_done; [|reflexivity].
  rewrite (Rdy_tx_num _ HR). erewrite bind_done; [|reflexivity]. cbn [Z.ltb Z.compare].
  erewrite bind_done; [|reflexivity]. by rewrite (Rdy_rx_num _ HR).
Qed.

Lemma close_ready (s : mstate W) : Ready s ->
  exists s', mpsse_adapter_close s = Done (tt, s') /\ is_open (ms_ctx s') = false.
Proof.
  intros HR. unfold mpsse_adapter_close, ctx_of, gets. rewrite (bind_done _ _ s (ms_ctx s) s eq_refl).
  rewrite (Rdy_open _ HR). cbn [negb]. rewrite (bind_done _ _ _ _ _ (ready_flush s HR)), (bind_done _ _ s (ms_ctx s) s eq_refl).
  destruct (negb _); [|by eexists]. unfold ft, mbind, M_bind.
  destruct (FT_SetBitMode _ _ _ _) as [st w]. cbn [ms_w setter].
  match goal with |- context [FT_Close ?h ?w] => destruct (FT_Close h w) as [st2 w2] end. by eexists.
Qed.

(** C20: create, open, close is a complete life cycle.  When
    [mpsse_adapter_create] succeeds and [mpsse_adapter_open] answers 0 on a
    device that enters MPSSE mode with an idle engine, the adapter is ready for
    scans; closing it then takes it back to closed with a null handle and the
    driver to exactly the open handles it had before. *)
Theorem mpsse_lifecycle vendor product serial index interface (m : mem) (w : W) c m' s :
  mpsse_adapter_create m = (Some c, m') ->
  mpsse_adapter_open vendor product serial index interface (mk_mstate c m' w) = Done (0, s) ->
  Ready s /\ exists s', mpsse_adapter_close s = Done (tt, s') /\
    is_open (ms_ctx s') = false /\ ft_handle (ms_ctx s') = 0 /\ opened (ms_w s') = opened w.
Proof.
  intros Hc E0. pose proof (create_fresh _ _ _ Hc) as Hf.
  pose proof (open_ready _ _ _ _ _ (mk_mstate c m' w) s Hf E0) as HR. split; [done|].
  destruct (mpsse_open_ok vendor product serial index interface (mk_mstate c m' w)) as (r & s0 & E1 & Ho).
  rewrite E0 in E1. injection E1 as <- <-. destruct Ho as [(_ & Hnz & Hfr & Hop & _)|(? & _)]; [|done]. cbn in Hfr, Hop.
  assert (Hh : filter (.≠ ft_handle (ms_ctx s)) (opened (ms_w s)) = opened w) by (by rewrite Hop, filter_fresh).
  unfold mpsse_adapter_close, ctx_of, gets. rewrite (bind_done _ _ s (ms_ctx s) s eq_refl).
  rewrite (Rdy_open _ HR). cbn [negb].
  rewrite (bind_done _ _ _ _ _ (ready_flush s HR)), (bind_done _ _ s (ms_ctx s) s eq_refl).
  rewrite (proj2 (Z.eqb_neq _ 0) Hnz). cbn [negb].
  destruct (ft_steady (FT_SetBitMode (ft_handle (ms_ctx s)) 0 FT_BITMODE_RESET) s) as (s1 & E1 & (A1 & B1 & I1) & D1);
    [apply opened_bitmode|].
  pose proof (opened_close (ft_handle (ms_ctx s)) (ms_w s1)) as Hcl.
  destruct (FT_Close (ft_handle (ms_ctx s)) (ms_w s1)) as [st w2] eqn:Ecl.
  erewrite bind_done.
  2: { rewrite (bind_done _ _ _ _ _ E1). erewrite bind_done; [|by apply ft_done]. reflexivity. }
  eexists. split; [reflexivity|]. cbn. cbn in Hcl. by rewrite Hcl, A1.
Qed.

End Ready.

Lemma mpsse_lifecycle_witness :
  let m := mk_mem ∅ 0 [] (fun _ _ => 0) in
  exists c m' s,
    (mpsse_adapter_create m = (Some c, m') /\
     mpsse_adapter_open (-1) (-1) (Some "210249A"%string) 0 0 (mk_mstate c m' sim_closed_world) = Done (0, s)) /\
    Ready s /\ exists s', mpsse_adapter_close s = Done (tt, s') /\
      is_open (ms_ctx s') = false /\ ft_handle (ms_ctx s') = 0 /\ opened (ms_w s') = opened sim_closed_world.
Proof.
  intros m. destruct (mpsse_adapter_create m) as [[c|] m'] eqn:Ec.
  - destruct (mpsse_adapter_open (-1) (-1) (Some "210249A"%string) 0 0 (mk_mstate c m' sim_closed_world))
      as [[r s]| |] eqn:Eo.
    + assert (Hr : r = 0).
      { assert (Hv : match mpsse_adapter_create m with
                     | (Some c, m') =>
                         match mpsse_adapter_open (-1) (-1) (Some "210249A"%string) 0 0
                                 (mk_mstate c m' sim_closed_world) with
                         | Done (r, _) => r
                         | _ => -2
                         end
                     | _ => -3
                     end = 0) by (vm_compute; reflexivity).
        by rewrite Ec, Eo in Hv. }
      subst r. exists c, m', s. split; [exact (conj eq_refl Eo)|]. exact (mpsse_lifecycle _ _ _ _ _ _ _ _ _ _ Ec Eo).
    + exfalso.
      destruct (mpsse_open_ok (-1) (-1) (Some "210249A"%string) 0 0 (mk_mstate c m' sim_closed_world)) as (r & s & E & _).
      by rewrite Eo in E.
    + exfalso.
      destruct (mpsse_open_ok (-1) (-1) (Some "210249A"%string) 0 0 (mk_mstate c m' sim_closed_world)) as (r & s & E & _).
      by rewrite Eo in E.
  - exfalso. assert (Hv : match mpsse_adapter_create m with (Some _, _) => true | _ => false end = true)
      by (vm_compute; reflexivity).
    by rewrite Ec in Hv.
Defined.

(** ** Frequency *)

(** The TCK frequency of a divisor of the 60 MHz clock. *)
Definition tck_of (divisor : Z) : Z := tck_hz (false, divisor).

Lemma tck_of_half d : 0 <= d -> tck_of d = 30000000 / (1 + d).
Proof.
  intros Hd. unfold tck_of, tck_hz. cbn [fst snd]. replace 60000000 with (30000000 * 2) by lia.
  rewrite Z.div_mul_cancel_r by lia. done.
Qed.

Lemma tck_of_anti d d' : 0 <= d <= d' -> tck_of d' <= tck_of d.
Proof. intros Hd. rewrite !tck_of_half by lia. apply Z.div_le_compat_l; lia. Qed.

Lemma frequency_divisor_spec f :
  0 <= f < 2 ^ 32 ->
  0 <= frequency_divisor f <= 65535 /\
  (458 <= f <= 30000000 -> 1 + frequency_divisor f = 30000000 / f).
Proof.
  intros Hf. unfold frequency_divisor, MPSSE_MAX_FREQUENCY.
  set (g := if 30000000 <? f then 30000000 else f).
  set (h := if g <? 1 then 1 else g).
  assert (Hh : 1 <= h <= 30000000 /\ (458 <= f <= 30000000 -> h = f)).
  { subst h g. zcase (30000000 <? f); [change (30000000 <? 1) with false; lia|]. zcase (f <? 1); lia. }
  destruct Hh as [Hh Hfh]. rewrite (u32_id (2 * h)) by lia.
  assert (Hq : 60000000 / (2 * h) = 30000000 / h).
  { replace 60000000 with (2 * 30000000) by lia. apply Z.div_mul_cancel_l; lia. }
  rewrite Hq. assert (H1 : 1 <= 30000000 / h) by (apply Z.div_le_lower_bound; lia).
  rewrite (proj2 (Z.ltb_lt 0 (30000000 / h))) by lia. cbv zeta. split.
  - zcase (65535 <? 30000000 / h - 1); lia.
  - intros Hr. rewrite (Hfh Hr) in *.
    assert (30000000 / f <= 65536) by (apply Z.lt_succ_r, Z.div_lt_upper_bound; lia).
    zcase (65535 <? 30000000 / f - 1); lia.
Qed.

(** The two bytes of a divisor. *)
Lemma divisor_bytes d : 0 <= d <= 65535 -> Z.land d 0xFF + 256 * Z.land (Z.shiftr d 8) 0xFF = d.
Proof.
  intros Hd. change 0xFF with 255. rewrite !land_255, Z.shiftr_div_pow2 by lia. change (2 ^ 8) with 256.
  unfold u8. change (2 ^ 8) with 256. rewrite (Z.mod_small (d / 256)); [pose proof (Z.div_mod d 256); lia|].
  split; [apply Z.div_pos; lia|apply Z.div_lt_upper_bound; lia].
Qed.

Section Frequency.
Context {W E T : Type} `{MpsseDeviceLaws W E T} `{!MpsseEngineLaws E T}.

Lemma set_frequency_ready (s : mstate W) f :
  Ready s -> 0 <= f < 2 ^ 32 ->
  exists s', mpsse_adapter_set_frequency f s = Done (tck_of (frequency_divisor f), s') /\ Ready s' /\
    eng_tap (dev_engine (ms_w s')) = eng_tap (dev_engine (ms_w s)) /\
    state (ms_ctx s') = state (ms_ctx s) /\ last_tdi (ms_ctx s') = last_tdi (ms_ctx s) /\
    mem_frame NULL (ms_mem s) (ms_mem s') /\ eng_clock (dev_engine (ms_w s')) = (false, frequency_divisor f).
Proof.
  intros HR Hf. pose proof (frequency_divisor_spec f Hf) as [Hd _].
  unfold mpsse_adapter_set_frequency, ctx_of, gets. rewrite (bind_done _ _ s (ms_ctx s) s eq_refl).
  rewrite (Rdy_open _ HR). cbn [negb]. cbv zeta.
  set (d := frequency_divisor f) in *. clearbody d.
  set (cmd := [OP_DISABLE_CLK_DIVIDE_BY_5; OP_SET_TCK_DIVISOR; Z.land d 0xFF; Z.land (Z.shiftr d 8) 0xFF]).
  destruct (eng_divisor (dev_engine (ms_w s)) (Z.land d 0xFF) (Z.land (Z.shiftr d 8) 0xFF) (Rdy_idle _ HR))
    as (e & Ef & I & T1 & T2 & T3).
  change (eng_feed (dev_engine (ms_w s)) cmd = (e, [])) in Ef.
  assert (S : Settled NULL s [] (dev_engine (ms_w s)) []).
  { apply Buf_settled; [|done]. by apply Ready_Buf. }
  destruct (append_settled NULL s [] _ [] (Local cmd) 4 cmd S) as (s1 & E1 & S1 & F1 & U1); try done.
  { unfold cmd. change 0xFF with 255. rewrite !land_255. byte_list. }
  { by rewrite Ef. }
  rewrite (bind_done _ _ _ _ _ E1). cbn [Z.ltb Z.compare].
  destruct (flush_settled _ _ _ _ _ S1) as (s2 & E2 & B2 & De & F2 & U2).
  rewrite (bind_done _ _ _ _ _ E2). cbn [Z.ltb Z.compare]. rewrite Ef in De. cbn in De.
  exists s2. split; [|split; [|split_and!]].
  - unfold tck_of, tck_hz. cbn [fst snd]. by rewrite u32_id by lia.
  - eapply Buf_Ready; [exact B2|..].
    + by rewrite (Frame_open _ _ _ F2), (Frame_open _ _ _ F1), (Rdy_open _ HR).
    + by rewrite (Frame_chip _ _ _ F2), (Frame_chip _ _ _ F1), (Rdy_chip _ HR).
    + by rewrite U2, U1, (Rdy_pool _ HR).
    + by rewrite De.
    + rewrite De, T2, (Frame_state _ _ _ F2), (Frame_state _ _ _ F1). apply HR.
  - by rewrite De.
  - by rewrite (Frame_state _ _ _ F2), (Frame_state _ _ _ F1).
  - by rewrite (Frame_tdi _ _ _ F2), (Frame_tdi _ _ _ F1).
  - etrans; [apply F1|apply F2].
  - rewrite De, T3. f_equal. by apply divisor_bytes.
Qed.

(** C19: setting the TCK frequency.  On a ready adapter every 32-bit request
    succeeds, leaves the adapter ready and the target where it was, and leaves
    the engine on its 60 MHz clock with a 16-bit divisor; what is answered is
    the frequency of exactly that setting of the engine.  It is between 457 Hz
    and 30 MHz, and for a request in that range it is the slowest one a 16-bit
    divisor can make that is not slower than the request. *)
Theorem set_frequency_correct (s : mstate W) (f : Z) :
  Ready s -> 0 <= f < 2 ^ 32 ->
  exists actual s', mpsse_adapter_set_frequency f s = Done (actual, s') /\ Ready s' /\
    eng_tap (dev_engine (ms_w s')) = eng_tap (dev_engine (ms_w s)) /\
    state (ms_ctx s') = state (ms_ctx s) /\
    (exists d, 0 <= d <= 65535 /\ eng_clock (dev_engine (ms_w s')) = (false, d)) /\
    actual = tck_hz (eng_clock (dev_engine (ms_w s'))) /\
    457 <= actual <= 30000000 /\
    (458 <= f <= 30000000 -> f <= actual /\
       forall d, 0 <= d <= 65535 -> f <= tck_hz (false, d) -> actual <= tck_hz (false, d)).
Proof.
  intros HR Hf. destruct (set_frequency_ready s f HR Hf) as (s' & E1 & R1 & T1 & S1 & _ & _ & C1).
  destruct (frequency_divisor_spec f Hf) as [Hd Hq].
  exists (tck_of (frequency_divisor f)), s'. rewrite C1. split_and!; try done.
  - by exists (frequency_divisor f).
  - change 457 with (tck_of 65535). apply tck_of_anti. lia.
  - change 30000000 with (tck_of 0). apply tck_of_anti. lia.
  - rename H into HW. intros Hr. specialize (Hq Hr). split.
    + rewrite tck_of_half, Hq by lia.
      assert (0 < 30000000 / f) by (apply Z.div_str_pos; lia).
      apply Z.div_le_lower_bound; [lia|]. rewrite Z.mul_comm. apply Z.mul_div_le. lia.
    + intros d Hd' Hfd. fold (tck_of d) in Hfd |- *. apply tck_of_anti. split; [lia|].
      assert (1 + d <= 30000000 / f); [|lia].
      rewrite tck_of_half in Hfd by lia. apply Z.div_le_lower_bound; [lia|].
      etrans; [apply Z.mul_le_mono_nonneg_r; [lia|exact Hfd]|].
      rewrite Z.mul_comm. apply Z.mul_div_le. lia.
Qed.

End Frequency.

Lemma set_frequency_correct_witness :
  let s := sim_state [] [] [] in
  (Ready s /\ 0 <= 7000000 < 2 ^ 32) /\
  exists actual s', mpsse_adapter_set_frequency 7000000 s = Done (actual, s') /\ Ready s' /\
    eng_tap (dev_engine (ms_w s')) = eng_tap (dev_engine (ms_w s)) /\
    state (ms_ctx s') = state (ms_ctx s) /\
    (exists d, 0 <= d <= 65535 /\ eng_clock (dev_engine (ms_w s')) = (false, d)) /\
    actual = tck_hz (eng_clock (dev_engine (ms_w s'))) /\
    457 <= actual <= 30000000 /\
    (458 <= 7000000 <= 30000000 -> 7000000 <= actual /\
       forall d, 0 <= d <= 65535 -> 7000000 <= tck_hz (false, d) -> actual <= tck_hz (false, d)).
Proof.
  intros s. assert (HR : Ready s) by apply sim_ready. split; [split; [exact HR|lia]|].
  apply (set_frequency_correct s 7000000 HR). lia.
Defined.
