(* ===== verification/MpsseFaults.v ===== *)
(** Whatever the device answers.

    The memory safety of the adapter against a device and a driver that fail
    in any way: errors, short transfers, silence, wrong data.  The invariant
    [Sound] says that the buffer counts are within their arrays and that every
    pending observer has an extra object of its type and a destination that is
    still allocated.  Every operation of the buffer and the scan keeps it and
    comes back, with 0 or -1. *)

From S2P Require Import Prelude Jtag Bits Memory CString D2xx SimDevice MpsseBuffer.
From S2P Require Import MpsseSettled MpsseScan MpsseShift MpsseRefine MpsseAdapter.

(** ** Heaps of the same shape *)

Definition mem_shape (m m' : mem) : Prop :=
  forall b l, m_blocks m !! b = Some l -> exists l', m_blocks m' !! b = Some l' /\ length l' = length l.

#[export] Instance mem_shape_preorder : PreOrder mem_shape.
Proof.
  split; [by intros m b l Hl; exists l|]. intros m1 m2 m3 H1 H2 b l (l1 & Hl1 & E1)%H1.
  apply H2 in Hl1 as (l2 & Hl2 & E2). exists l2. split; [done|congruence].
Qed.

(** [n] bytes from a pointer on are allocated. *)
Definition room (m : mem) (p : ptr) (n : Z) : Prop := exists d, load_from m p = Some d /\ n <= zlen d.







(** ** Outcomes *)








(** ** The invariant *)

(** The extra object is of the function's type, reads at most [w] response
    bytes and writes inside the heap. *)
Definition fits (m : mem) (fn : rx_observer_fn) (e : rx_extra) (w : Z) : Prop :=
  match fn, e with
  | bit_copier_rx_observer_fn, bit_copier_extra from dst to n =>
      0 <= from /\ 0 <= n /\ from + n <= 8 /\ 0 <= to /\ 1 <= w /\ room m dst ((to + n + 7) / 8)
  | byte_copier_rx_observer_fn, byte_copier_extra dst n => 0 <= n /\ n <= w /\ room m dst n
  | bulk_byte_copier_rx_observer_fn, bulk_byte_copier_extra dst total copied =>
      0 <= copied /\ copied <= total /\ total - copied <= w /\ room m dst total
  | _, _ => False
  end.


Section Faults.
Context {W : Type} `{DriverReads W}.
#[local] Abbreviation MP := (M (mstate W)).

Definition extra_ok (s : mstate W) (fn : rx_observer_fn) (a w : Z) : Prop :=
  a < pool_used (observer_pool (ms_ctx s)) /\
  exists e, pool_objs (observer_pool (ms_ctx s)) !! a = Some e /\ fits (ms_mem s) fn e w.



(** What every step keeps: the shape of the heap, the extra objects, the
    TAP state on record. *)
Record evolves (s s' : mstate W) : Prop := {
  Evo_mem : mem_shape (ms_mem s) (ms_mem s');
  Evo_extra fn a w : extra_ok s fn a w -> extra_ok s' fn a w;
  Evo_state : state (ms_ctx s') = state (ms_ctx s);
  Evo_open : is_open (ms_ctx s') = is_open (ms_ctx s)
}.

#[export] Instance evolves_preorder : PreOrder evolves.
Proof.
  split; [by intros s; split|]. intros s1 s2 s3 [M1 X1 S1 O1] [M2 X2 S2 O2].
  split; [by etrans|auto|congruence..].
Qed.









(** ** Flush *)









(** ** Append *)

















(** ** Scan *)








Section Tdi.
Context (tdi tdo : ptr) (from to : Z) (p : tdi_plan).
Hypothesis Hplan : Plan from to p.
Hypothesis Hrange : 0 <= from < to.
Hypothesis Hinner : total_inner_bytes p <= 65536.











End Tdi.









(** ** Sessions *)

(** A caller that scans again and again, whatever the scans answer. *)
Fixpoint scan_all (l : list (ptr * ptr * ptr * Z)) : MP (list Z) :=
  match l with
  | [] => mret []
  | (tms, tdi, tdo, bits) :: l =>
      r ← mpsse_adapter_scan tms tdi tdo bits;
      rs ← scan_all l;
      mret (r :: rs)
  end.


Context `{!DriverHandles W}.



End Faults.

(** ** A device that fails *)

(** The device of SimDevice.v behind a driver whose next polls answer the
    statuses of a list. *)
Definition faulty : Type := list Z * world.

Definition on_world {A} (f : world -> A * world) (w : faulty) : A * faulty :=
  let '(a, w') := f w.2 in (a, (w.1, w')).

Lemma on_world_eq {A} (f : world -> A * world) l w : on_world f (l, w) = ((f w).1, (l, (f w).2)).
Proof. unfold on_world. cbn. by destruct (f w). Qed.

#[export] Instance faulty_d2xx : D2XX faulty := {
  FT_SetVIDPID := fun v p => on_world (FT_SetVIDPID v p);
  FT_CreateDeviceInfoList := on_world FT_CreateDeviceInfoList;
  FT_GetDeviceInfoList := fun n => on_world (FT_GetDeviceInfoList n);
  FT_OpenEx := fun s => on_world (FT_OpenEx s);
  FT_Open := fun i => on_world (FT_Open i);
  FT_ResetDevice := fun h => on_world (FT_ResetDevice h);
  FT_Purge := fun h m => on_world (FT_Purge h m);
  FT_SetUSBParameters := fun h a b => on_world (FT_SetUSBParameters h a b);
  FT_SetChars := fun h a b c d => on_world (FT_SetChars h a b c d);
  FT_SetTimeouts := fun h a b => on_world (FT_SetTimeouts h a b);
  FT_SetBitMode := fun h a b => on_world (FT_SetBitMode h a b);
  FT_GetDeviceInfo := fun h => on_world (FT_GetDeviceInfo h);
  FT_GetQueueStatus := fun h w =>
    match w.1 with
    | st :: l => ((st, 0), (l, w.2))
    | [] => on_world (FT_GetQueueStatus h) w
    end;
  FT_Read := fun h n => on_world (FT_Read h n);
  FT_Write := fun h d => on_world (FT_Write h d);
  FT_Close := fun h => on_world (FT_Close h)
}.

#[export] Instance faulty_reads : DriverReads faulty.
Proof.
  split.
  - intros h [[|st l] w]; [|done]. change (FT_GetQueueStatus h ([], w)) with (on_world (FT_GetQueueStatus h) ([], w)).
    rewrite on_world_eq. apply (poll_range h w).
  - intros h n [l w] Hn. change (FT_Read h n (l, w)) with (on_world (FT_Read h n) (l, w)).
    rewrite on_world_eq. by apply (read_length h n w).
  - intros h n q [[|st l] w] [l1 w1]; [|by intros [= <- <- _ _]].
    change (FT_GetQueueStatus h ([], w)) with (on_world (FT_GetQueueStatus h) ([], w)).
    change (FT_Read h n (l1, w1)) with (on_world (FT_Read h n) (l1, w1)). rewrite !on_world_eq. cbn [fst snd].
    pose proof (read_progress h n q w w1) as Hp. destruct (FT_GetQueueStatus h w) as [[st' n'] w'].
    intros [= -> -> _ ->]. by apply Hp.
Qed.

#[export] Instance faulty_handles : DriverHandles faulty.
Proof.
  refine {| opened := fun w => w_open w.2 |}; try done.
  - intros s [l w] st h [l' w']. change (FT_OpenEx s (l, w)) with (on_world sim_open (l, w)). rewrite on_world_eq.
    destruct (sim_open w) as [[st1 h1] w1] eqn:Eo. intros [= <- <- _ <-]. exact (sim_open_handles _ _ _ _ Eo).
  - intros i [l w] st h [l' w']. change (FT_Open i (l, w)) with (on_world sim_open (l, w)). rewrite on_world_eq.
    destruct (sim_open w) as [[st1 h1] w1] eqn:Eo. intros [= <- <- _ <-]. exact (sim_open_handles _ _ _ _ Eo).
  - intros h [[|st l] w]; [|done]. change (FT_GetQueueStatus h ([], w)) with (on_world (FT_GetQueueStatus h) ([], w)).
    rewrite on_world_eq. exact (opened_poll h w).
  - intros h d [l w]. change (FT_Write h d (l, w)) with (on_world (FT_Write h d) (l, w)).
    rewrite on_world_eq. exact (opened_write h d w).
Defined.

(** The adapter before it is opened, over the vectors of two bytes of a
    caller; the third poll fails, which is the first one of a scan. *)
Definition faulty_start : mstate faulty :=
  mk_mstate mpsse_zero (sim_mem [0x22; 0x80] [0x00; 0x55] [0x00; 0x00]) ([FT_OK; FT_OK; 1], sim_closed_world).
Definition faulty_scans : list (ptr * ptr * ptr * Z) :=
  [(Ptr 0 0, Ptr 1 0, Ptr 2 0, 16); (Ptr 0 0, Ptr 1 0, Ptr 2 0, 16)].

Definition outcome_of {A} (e : exec (A * mstate faulty)) : option A :=
  match e with Done (a, _) => Some a | _ => None end.

(** The first scan fails, the second one does not. *)
Example faulty_session :
  outcome_of ((r ← mpsse_adapter_open (-1) (-1) None 0 0; rs ← scan_all faulty_scans; mret (r, rs)) faulty_start) =
  Some (0, [-1; 0]).
Proof. vm_compute. reflexivity. Qed.




