(* ===== verification/FtdiAdapter.v ===== *)
(** ftdi_adapter.c: the adapter layer above the MPSSE adapter.

    The context holds a pointer to the MPSSE context, which is the state of
    MpsseBuffer.v; every function of mpsse_adapter.c answers its own error
    value for a null pointer, which is what [on_mpsse] takes. *)

From S2P Require Import Prelude Jtag Bits Memory CString D2xx SimDevice MpsseBuffer.
From S2P Require Import MpsseSettled MpsseScan MpsseShift MpsseRefine MpsseAdapter MpsseFaults.

Inductive adapter_mode_t :=
  | ADAPTER_MODE_MPSSE
  | ADAPTER_MODE_BITBANG.

Record ftdi_context := mk_ftdi {
  mpsse : option mpsse_context;
  ftdi_is_open : bool;
  ftdi_verbose : Z;
  ftdi_error : string
}.
#[export] Instance eta_ftdi : Eta ftdi_context := fun c =>
  mk_ftdi (mpsse c) (ftdi_is_open c) (ftdi_verbose c) (ftdi_error c).

Record fstate (W : Type) := mk_fstate {
  fs_ctx : ftdi_context;
  fs_mem : mem;
  fs_w : W
}.
Arguments mk_fstate {W} _ _ _.
Arguments fs_ctx {W} _.
Arguments fs_mem {W} _.
Arguments fs_w {W} _.
#[export] Instance eta_fstate {W} : Eta (fstate W) := fun s => mk_fstate (fs_ctx s) (fs_mem s) (fs_w s).

Definition ftdi_adapter_create (m : mem) : option ftdi_context * mem :=
  let '(ok, m) := alloc_ok m in
  if negb ok then (None, m)
  else
    let '(c, m) := mpsse_adapter_create m in
    match c with
    | None => (None, m)
    | Some c => (Some (mk_ftdi (Some c) false 0 ""), m)
    end.

Section Ftdi.
Context {W : Type} `{D2XX W}.
#[local] Abbreviation FT := (M (fstate W)).

(** Run an operation of the MPSSE adapter; [null] is its answer for NULL. *)
Definition on_mpsse {A} (null : A) (op : M (mstate W) A) : FT A := fun s =>
  match mpsse (fs_ctx s) with
  | None => Done (null, s)
  | Some c =>
      match op (mk_mstate c (fs_mem s) (fs_w s)) with
      | Done (a, s') =>
          Done (a, mk_fstate ((fs_ctx s) <| mpsse := Some (ms_ctx s') |>) (ms_mem s') (ms_w s'))
      | Undef => Undef
      | Stuck => Stuck
      end
  end.

Definition fctx : FT ftdi_context := gets fs_ctx.
Definition set_fctx (f : ftdi_context -> ftdi_context) : FT unit :=
  modify (fun s => s <| fs_ctx := f (fs_ctx s) |>).
Definition set_ferror (e : string) : FT unit := set_fctx (fun c => c <| ftdi_error := truncated 256 e |>).

Definition ftdi_adapter_close : FT unit :=
  c ← fctx;
  if negb (ftdi_is_open c) then mret tt
  else
    on_mpsse tt mpsse_adapter_close ;;
    set_fctx (fun c => c <| ftdi_is_open := false |>).

Definition ftdi_adapter_destroy : FT unit :=
  c ← fctx;
  (if ftdi_is_open c then ftdi_adapter_close else mret tt) ;;
  on_mpsse tt mpsse_adapter_destroy ;;
  set_fctx (fun c => c <| mpsse := None |>).

Definition ftdi_adapter_get_mode : adapter_mode_t := ADAPTER_MODE_MPSSE.

(** [mode] is ignored by the source. *)
Definition ftdi_adapter_open_with_mode (vendor product : Z) (serial : option string)
    (index interface : Z) (mode : adapter_mode_t) : FT Z :=
  c ← fctx;
  match mpsse c with
  | None => set_ferror "MPSSE context not created" ;; mret (-1)
  | Some _ =>
      r ← on_mpsse (-1) (mpsse_adapter_open vendor product serial index interface);
      if negb (r =? 0) then
        e ← on_mpsse "NULL context"%string mpsse_adapter_error;
        set_ferror e ;; mret (-1)
      else
        set_fctx (fun c => c <| ftdi_is_open := true |>) ;;
        mret 0
  end.

Definition ftdi_adapter_open (vendor product : Z) (serial : option string) (index interface : Z) : FT Z :=
  ftdi_adapter_open_with_mode vendor product serial index interface ADAPTER_MODE_MPSSE.

Definition ftdi_adapter_open_bus (bus device interface : Z) : FT Z :=
  set_ferror "Bus-based opening not yet implemented" ;; mret (-1).

Definition ftdi_adapter_is_open : FT bool := c ← fctx; mret (ftdi_is_open c).

(** [period_ns] is unsigned; the divisions are unsigned except the last. *)
Definition ftdi_adapter_set_period (period_ns : Z) : FT Z :=
  c ← fctx;
  if negb (ftdi_is_open c) then mret (-1)
  else
    let period_ns := if period_ns =? 0 then 100 else period_ns in
    let frequency_hz := 1000000000 / period_ns in
    actual_freq ← on_mpsse (-1) (mpsse_adapter_set_frequency frequency_hz);
    if actual_freq <? 0 then mret (-1)
    else if actual_freq =? 0 then undefined
    else mret (Z.quot 1000000000 actual_freq).

Definition ftdi_adapter_set_frequency (frequency_hz : Z) : FT Z :=
  if frequency_hz =? 0 then mret (-1)
  else
    actual ← on_mpsse (-1) (mpsse_adapter_set_frequency frequency_hz);
    mret (if 0 <? actual then 0 else -1).

Definition ftdi_adapter_scan (tms tdi tdo : ptr) (bits : Z) : FT Z :=
  c ← fctx;
  if negb (ftdi_is_open c) || is_null tms || is_null tdi || is_null tdo then mret (-1)
  else on_mpsse (-1) (mpsse_adapter_scan tms tdi tdo bits).

(** ** Chunked scans *)

Definition FTDI_MAX_WRITESIZE : Z := 4096.

(** The heap calls of the loop body. *)
Definition fmalloc (n : Z) : FT ptr := fun s =>
  let '(p, m) := malloc (fs_mem s) n in Done (p, s <| fs_mem := m |>).
Definition fheap (f : mem -> option mem) : FT unit := fun s =>
  match f (fs_mem s) with Some m => Done (tt, s <| fs_mem := m |>) | None => Undef end.
Definition memcpy (dst src : ptr) (n : Z) (m : mem) : option mem :=
  d ← load_bytes m src n; store_bytes m dst d.

(** One round of [while (bits_processed < bits)]; [None] is [return -1]. *)
Definition chunk_round (tms tdi tdo : ptr) (bits chunk_bits bits_processed : Z) : FT (Z + option unit) :=
  if bits_processed <? bits then
    sum ← lift_exec (int_arith (bits_processed + chunk_bits));
    let current_chunk_bits := if bits <? sum then bits - bits_processed else chunk_bits in
    let byte_offset := bits_processed / 8 in
    round_up ← lift_exec (int_arith (current_chunk_bits + 7));
    let current_chunk_bytes := round_up / 8 in
    chunk_tdo ← fmalloc current_chunk_bytes;
    if is_null chunk_tdo then mret (inr None)
    else
      fheap (fun m => memset m chunk_tdo 0 current_chunk_bytes) ;;
      ret ← ftdi_adapter_scan (ptr_add tms byte_offset) (ptr_add tdi byte_offset) chunk_tdo current_chunk_bits;
      if ret <? 0 then
        fheap (fun m => free m chunk_tdo) ;; mret (inr None)
      else
        fheap (memcpy (ptr_add tdo byte_offset) chunk_tdo current_chunk_bytes) ;;
        fheap (fun m => free m chunk_tdo) ;;
        mret (inl (bits_processed + current_chunk_bits))
  else mret (inr (Some tt)).

Definition ftdi_adapter_scan_chunked (tms tdi tdo : ptr) (bits chunk_bytes : Z) : FT Z :=
  c ← fctx;
  if negb (ftdi_is_open c) || is_null tms || is_null tdi || is_null tdo || (bits <=? 0) then mret (-1)
  else
    let chunk_bytes := if chunk_bytes <=? 0 then FTDI_MAX_WRITESIZE else chunk_bytes in
    round_up ← lift_exec (int_arith (bits + 7));
    let total_bytes := round_up / 8 in
    if total_bytes <=? chunk_bytes then ftdi_adapter_scan tms tdi tdo bits
    else
      fheap (fun m => memset m tdo 0 total_bytes) ;;
      chunk_bits ← lift_exec (int_arith (chunk_bytes * 8));
      r ← while_loop (chunk_round tms tdi tdo bits chunk_bits) 0;
      match r with None => mret (-1) | Some _ => mret 0 end.

(** ** The rest of the interface *)

Definition ftdi_adapter_error : FT string :=
  c ← fctx;
  mret (match ftdi_error c with ""%string => "No error"%string | e => e end).

Definition ftdi_adapter_set_verbose (level : Z) : FT unit :=
  set_fctx (fun c => c <| ftdi_verbose := level |>) ;;
  on_mpsse tt (mpsse_adapter_set_verbose level).

Definition ftdi_adapter_set_latency (latency_ms : Z) : Z := 0.

End Ftdi.

(** ** The scan through this layer *)

Section Correct.
Context {W E T : Type} `{MpsseDeviceLaws W E T} `{!MpsseEngineLaws E T}.

Definition mview (c : mpsse_context) (s : fstate W) : mstate W := mk_mstate c (fs_mem s) (fs_w s).

(** Open, and ready for a scan with the MPSSE context [c]. *)
Definition ftdi_ready (s : fstate W) (c : mpsse_context) : Prop :=
  ftdi_is_open (fs_ctx s) = true /\ mpsse (fs_ctx s) = Some c /\ Ready (mview c s).

Lemma on_mpsse_done {A} null (op : M (mstate W) A) (s : fstate W) c a s' :
  mpsse (fs_ctx s) = Some c -> op (mview c s) = Done (a, s') ->
  on_mpsse null op s = Done (a, mk_fstate ((fs_ctx s) <| mpsse := Some (ms_ctx s') |>) (ms_mem s') (ms_w s')).
Proof. intros Hc Hop. unfold on_mpsse. unfold mview in Hop. by rewrite Hc, Hop. Qed.

Lemma ftdi_scan_ok tms tdi bo oo dt di d bits (s : fstate W) c :
  let tdo := Ptr bo oo in
  let r0 := ref_of (mview c s) d in
  let r := ref_run dt di r0 0 bits in
  ftdi_ready s c -> load_from (fs_mem s) tdo = Some d -> Vectors tms tdi bo oo dt di bits (fs_mem s) d ->
  exists s' c', ftdi_adapter_scan tms tdi tdo bits s = Done (0, s') /\ ftdi_ready s' c' /\
    load_from (fs_mem s') tdo = Some (rf_tdo r) /\ mem_frame tdo (fs_mem s) (fs_mem s') /\
    follows (mview c' s') r.
Proof.
  intros tdo r0 r (Ho & Hc & HR) Hd HV. subst tdo.
  destruct (mpsse_scan_ok tms tdi bo oo dt di d bits (mview c s) HR Hd HV) as (s1 & E1 & R1 & L1 & M1 & F1).
  pose proof HV as [V1 V2 _ _ _ _ _ _ _ _].
  unfold ftdi_adapter_scan, fctx, gets. rewrite (bind_done _ _ s (fs_ctx s) s eq_refl).
  rewrite Ho. destruct tms as [|tb to]; [done|]. destruct tdi as [|ib io]; [done|].
  cbn [is_null negb orb].
  rewrite (on_mpsse_done (-1) _ s c 0 s1 Hc E1). destruct s1 as [c1 m1 w1].
  eexists _, c1. split; [reflexivity|]. by split_and!.
Qed.

(** ** Chunks *)

(** Readiness and the target are not in the heap. *)
Lemma ftdi_ready_mem (s : fstate W) c m : ftdi_ready s c -> ftdi_ready (s <| fs_mem := m |>) c.
Proof. intros (Ho & Hc & []). split; [done|]. split; [done|]. by split. Qed.

Lemma follows_mem (s : fstate W) c m r : follows (mview c s) r -> follows (mview c (s <| fs_mem := m |>)) r.
Proof. done. Qed.

(** A temporary block for the TDO bits of a chunk, cleared. *)
Lemma chunk_buffer_ok (s : fstate W) n :
  mem_wf (fs_mem s) -> m_fail (fs_mem s) = [] -> 0 <= n < 2 ^ 64 ->
  exists b m1 m2, malloc (fs_mem s) n = (Ptr b 0, m1) /\ memset m1 (Ptr b 0) 0 n = Some m2 /\
    m_blocks (fs_mem s) !! b = None /\ load_from m2 (Ptr b 0) = Some (replicate (Z.to_nat n) 0) /\
    mem_wf m2 /\ m_fail m2 = [] /\
    (forall b', b' <> b -> m_blocks m2 !! b' = m_blocks (fs_mem s) !! b').
Proof.
  intros Hwf Hf Hn. destruct (malloc_ok (fs_mem s) n Hwf Hf ltac:(lia)) as (b & l & m1 & E1 & W1 & F1 & L1 & _ & B1 & M1).
  assert (Hl : load_from m1 (Ptr b 0) = Some l).
  { apply load_from_Ptr. exists l. rewrite M1, lookup_insert_eq. pose proof (zlen_nonneg l). by split_and!. }
  destruct (memset_ok m1 b 0 l n Hl ltac:(lia) ltac:(lia)) as (m2 & E2 & L2 & Fr2).
  exists b, m1, m2. split_and!; try done.
  - rewrite L2. unfold cleared. rewrite (drop_ge l) by (unfold zlen in L1; lia). by rewrite app_nil_r.
  - by eapply mem_frame_wf.
  - by rewrite (mem_frame_fail _ _ _ Fr2).
  - intros b' Hb. rewrite (mem_frame_other _ _ _ _ _ Fr2 Hb), M1. by rewrite lookup_insert_ne.
Qed.

(** Copy the chunk into place and release it. *)
Lemma chunk_store_ok m b bo oo k C X Y R :
  bo <> b -> load_from m (Ptr b 0) = Some C -> load_from m (Ptr bo oo) = Some (X ++ Y ++ R) ->
  zlen X = k -> zlen Y = zlen C -> mem_wf m -> (exists l, m_blocks m !! b = Some l) ->
  exists m1 m2, memcpy (Ptr bo (oo + k)) (Ptr b 0) (zlen C) m = Some m1 /\ free m1 (Ptr b 0) = Some m2 /\
    load_from m2 (Ptr bo oo) = Some (X ++ C ++ R) /\ mem_wf m2 /\ m_fail m2 = m_fail m /\
    m_blocks m2 !! b = None /\
    (forall b', b' <> b -> b' <> bo -> m_blocks m2 !! b' = m_blocks m !! b').
Proof.
  intros Hb HC Hd HX HY Hwf [l Hl]. pose proof (zlen_nonneg X). pose proof (zlen_nonneg C).
  assert (Hld : load_bytes m (Ptr b 0) (zlen C) = Some C).
  { rewrite <- (ptr_add_0 (Ptr b 0)). rewrite (load_bytes_from m (Ptr b 0) C 0 (zlen C) HC) by lia.
    change (Z.to_nat 0) with 0%nat. rewrite drop_0, take_ge; [done|]. unfold zlen. lia. }
  assert (Hw : write_at k C (X ++ Y ++ R) = Some (X ++ C ++ R)).
  { rewrite write_at_ok; [|lia|rewrite !zlen_app; pose proof (zlen_nonneg R); lia].
    f_equal. unfold zlen in *. replace (Z.to_nat k) with (length X) by lia. rewrite take_app_length.
    do 2 f_equal. rewrite drop_app_ge by lia. rewrite drop_app_ge by lia.
    replace (length X + length C - length X - length Y)%nat with 0%nat by lia. by rewrite drop_0. }
  destruct (store_bytes_from m bo oo k C _ _ Hd ltac:(lia) Hw) as (m1 & E1 & L1 & Fr1).
  assert (Hl1 : m_blocks m1 !! b = Some l).
  { by rewrite (mem_frame_other _ _ _ _ _ Fr1) by done. }
  assert (Hfree : free m1 (Ptr b 0) = Some (m1 <| m_blocks := delete b (m_blocks m1) |>)).
  { unfold free. by rewrite Hl1. }
  exists m1, (m1 <| m_blocks := delete b (m_blocks m1) |>). split_and!.
  - unfold memcpy. by rewrite Hld.
  - exact Hfree.
  - rewrite (load_from_block m1); [done|]. cbn. by rewrite lookup_delete_ne.
  - eapply free_live; [exact Hfree|]. by eapply mem_frame_wf.
  - cbn. apply (mem_frame_fail _ _ _ Fr1).
  - cbn. by rewrite lookup_delete_eq.
  - intros b' Hb' Hbo. cbn. rewrite lookup_delete_ne by done. by apply (mem_frame_other _ _ _ _ _ Fr1).
Qed.

(** ** The chunk loop *)

Context (tb ib bo : nat) (to io oo : Z) (dt di : list Z) (bits chunk_bits : Z).
Context (s0 : fstate W) (r0 : ref T) (R : list Z).
#[local] Abbreviation tms := (Ptr tb to).
#[local] Abbreviation tdi := (Ptr ib io).
#[local] Abbreviation tdo := (Ptr bo oo).
#[local] Abbreviation total := ((bits + 7) / 8).
Definition crun (i : Z) : ref T := ref_run dt di r0 0 i.

Record Chunked : Prop := {
  Chk_tms : load_from (fs_mem s0) tms = Some dt;
  Chk_tdi : load_from (fs_mem s0) tdi = Some di;
  Chk_tms_apart : tb <> bo;
  Chk_tdi_apart : ib <> bo;
  Chk_tdo : exists l, m_blocks (fs_mem s0) !! bo = Some l;
  Chk_di : Forall byte_ok di;
  Chk_dt : bits <= bits_in dt;
  Chk_di_len : bits <= bits_in di;
  Chk_bits : 1 <= bits /\ bits + SCAN_MAX <= INT_MAX;
  Chk_chunk : 1 <= chunk_bits <= SCAN_MAX /\ chunk_bits mod 8 = 0
}.
Hypothesis Hchk : Chunked.

(** Before bit [i]: everything up to [i] is in place, the rest is cleared. *)
Record ChunkInv (i : Z) (s : fstate W) : Prop := {
  CI_range : 0 <= i <= bits;
  CI_ready : exists c, ftdi_ready s c /\ follows (mview c s) (crun i);
  CI_wf : mem_wf (fs_mem s);
  CI_fail : m_fail (fs_mem s) = [];
  CI_tdo : load_from (fs_mem s) tdo = Some (rf_tdo (crun i));
  CI_shape : i < bits -> i mod 8 = 0 /\ exists X, zlen X = i / 8 /\
    rf_tdo (crun i) = X ++ replicate (Z.to_nat (total - i / 8)) 0 ++ R;
  CI_other : forall b, b <> bo -> m_blocks (fs_mem s) !! b = m_blocks (fs_mem s0) !! b
}.

Lemma crun_follows c (s : fstate W) i :
  follows (mview c s) (crun i) -> crun i = ref_of (mview c s) (rf_tdo (crun i)).
Proof. intros (H1' & H2' & H3'). unfold ref_of. rewrite H1', H2', H3'. by destruct (crun i). Qed.

(** The scan of a chunk of [n] bits into its cleared buffer. *)
Lemma chunk_scan_ok (s : fstate W) c b i n X Y :
  let k := i / 8 in
  let cb := (n + 7) / 8 in
  ftdi_ready s c -> follows (mview c s) (crun i) -> 0 <= i -> i mod 8 = 0 -> 1 <= n <= SCAN_MAX ->
  i + n <= bits -> b <> tb -> b <> ib ->
  load_from (fs_mem s) tms = Some dt -> load_from (fs_mem s) tdi = Some di ->
  load_from (fs_mem s) (Ptr b 0) = Some (replicate (Z.to_nat cb) 0) ->
  zlen X = k -> rf_tdo (crun i) = X ++ replicate (Z.to_nat cb) 0 ++ Y ->
  exists s' c' C, ftdi_adapter_scan (ptr_add tms k) (ptr_add tdi k) (Ptr b 0) n s = Done (0, s') /\
    ftdi_ready s' c' /\ load_from (fs_mem s') (Ptr b 0) = Some C /\ zlen C = cb /\
    mem_frame (Ptr b 0) (fs_mem s) (fs_mem s') /\ follows (mview c' s') (crun (i + n)) /\
    rf_tdo (crun (i + n)) = X ++ C ++ Y.
Proof.
  intros k cb HR HF Hi Hi8 Hn Hin Hbt Hbi Ht Hd Hb HX Hshape.
  destruct Hchk as [_ _ _ _ _ K6 K7 K8 K9 K10].
  assert (Hk : i = 8 * k) by (subst k; pose proof (Z.div_mod i 8); lia).
  assert (Hcb : 8 * cb - 7 <= n <= 8 * cb).
  { subst cb. pose proof (Z.div_mod (n + 7) 8). pose proof (Z.mod_pos_bound (n + 7) 8). lia. }
  set (Z0 := replicate (Z.to_nat cb) 0) in *.
  assert (HZ0 : zlen Z0 = cb) by (apply zlen_replicate; lia).
  assert (Hlen : forall l, bits <= bits_in l -> 0 <= k <= zlen l /\ n <= bits_in (drop (Z.to_nat k) l)).
  { intros l Hl. unfold bits_in in *. split; [lia|]. unfold zlen in *. rewrite length_drop. lia. }
  destruct (Hlen dt K7) as [Lt1 Lt2]. destruct (Hlen di K8) as [Li1 Li2].
  destruct (ftdi_scan_ok (ptr_add tms k) (ptr_add tdi k) b 0 (drop (Z.to_nat k) dt) (drop (Z.to_nat k) di) Z0 n s c
              HR Hb) as (s' & c' & E1 & R1 & L1 & F1 & Fo1).
  { split; cbn [apart ptr_add]; try done.
    - by apply (load_from_add _ _ _ _ _ Ht).
    - by apply (load_from_add _ _ _ _ _ Hd).
    - apply Forall_replicate. unfold byte_ok. lia.
    - by apply Forall_drop.
    - cbn. lia. }
  destruct (ref_run_shift dt di (state c) (last_tdi c) (eng_tap (dev_engine (fs_w s))) X Z0 Y k n HX) as [S1 S2].
  { unfold bits_in. lia. }
  set (r' := ref_run (drop (Z.to_nat k) dt) (drop (Z.to_nat k) di) _ 0 n) in *.
  change (ref_run (drop (Z.to_nat k) dt) (drop (Z.to_nat k) di) (ref_of (mview c s) Z0) 0 n) with r' in L1, Fo1.
  assert (Hcr : crun (i + n) = mk_ref (rf_state r') (rf_tdi r') (rf_tap r') (X ++ rf_tdo r' ++ Y)).
  { unfold crun. rewrite ref_run_add by lia. fold (crun i). rewrite (crun_follows c s i HF), Hshape.
    rewrite Z.add_0_l, Hk. exact S1. }
  exists s', c', (rf_tdo r'). rewrite Hcr. split_and!; try done. lia.
Qed.

Lemma fheap_done (f : mem -> option mem) (s : fstate W) m :
  f (fs_mem s) = Some m -> fheap f s = Done (tt, s <| fs_mem := m |>).
Proof. intros E1. unfold fheap. by rewrite E1. Qed.

(** Scan a chunk through a temporary buffer: the heap calls of a round. *)
Lemma chunk_body_ok (s : fstate W) i n Y :
  let k := i / 8 in
  let cb := (n + 7) / 8 in
  ChunkInv i s -> i mod 8 = 0 -> 1 <= n <= SCAN_MAX -> i + n <= bits ->
  (exists X, zlen X = k /\ rf_tdo (crun i) = X ++ replicate (Z.to_nat cb) 0 ++ Y) ->
  exists b m1 m2 s3 m4 m5 c,
    fmalloc cb s = Done (Ptr b 0, s <| fs_mem := m1 |>) /\
    memset m1 (Ptr b 0) 0 cb = Some m2 /\
    ftdi_adapter_scan (ptr_add tms k) (ptr_add tdi k) (Ptr b 0) n (s <| fs_mem := m2 |>) = Done (0, s3) /\
    memcpy (ptr_add tdo k) (Ptr b 0) cb (fs_mem s3) = Some m4 /\ free m4 (Ptr b 0) = Some m5 /\
    let s' := s3 <| fs_mem := m5 |> in
    ftdi_ready s' c /\ follows (mview c s') (crun (i + n)) /\ mem_wf m5 /\ m_fail m5 = [] /\
    load_from m5 tdo = Some (rf_tdo (crun (i + n))) /\
    (forall b, b <> bo -> m_blocks m5 !! b = m_blocks (fs_mem s0) !! b) /\
    exists C, zlen C = cb /\ forall X, zlen X = k -> rf_tdo (crun i) = X ++ replicate (Z.to_nat cb) 0 ++ Y ->
      rf_tdo (crun (i + n)) = X ++ C ++ Y.
Proof.
  intros k cb [(Hi & _) (c & HR & HF) Hwf Hfail Htdo _ Hother] Hi8 Hn Hin (X & HX & Hshape).
  pose proof Hchk as [K1 K2 K3 K4 K5 K6 K7 K8 K9 K10]. unfold SCAN_MAX in Hn.
  assert (Hcb : 0 <= cb < 2 ^ 64).
  { subst cb. pose proof (Z.div_mod (n + 7) 8). pose proof (Z.mod_pos_bound (n + 7) 8). lia. }
  destruct (chunk_buffer_ok s cb Hwf Hfail Hcb) as (b & m1 & m2 & E1 & E2 & B2 & L2 & W2 & F2 & O2).
  assert (Hne : forall b' o d', load_from (fs_mem s) (Ptr b' o) = Some d' -> b <> b').
  { intros b' o d' (l & Hl & _)%load_from_Ptr. intros <-. by rewrite B2 in Hl. }
  assert (Ht : load_from (fs_mem s) tms = Some dt) by (by rewrite (load_from_block (fs_mem s0)) by auto).
  assert (Hd : load_from (fs_mem s) tdi = Some di) by (by rewrite (load_from_block (fs_mem s0)) by auto).
  pose proof (Hne _ _ _ Ht) as Nt. pose proof (Hne _ _ _ Hd) as Nd. pose proof (Hne _ _ _ Htdo) as No.
  destruct (chunk_scan_ok (s <| fs_mem := m2 |>) c b i n X Y) as (s3 & c3 & C & E3 & R3 & L3 & LC & Fr3 & Fo3 & Sh3);
    try done.
  { by apply ftdi_ready_mem. }
  { cbn [fs_mem setter]. by rewrite (load_from_block (fs_mem s)) by auto. }
  { cbn [fs_mem setter]. by rewrite (load_from_block (fs_mem s)) by auto. }
  fold cb in LC. cbn [fs_mem setter] in Fr3.
  assert (Htdo3 : load_from (fs_mem s3) tdo = Some (X ++ replicate (Z.to_nat cb) 0 ++ Y)).
  { rewrite (load_from_block m2) by (by apply (mem_frame_other _ _ _ _ _ Fr3)).
    rewrite (load_from_block (fs_mem s)) by auto. by rewrite Htdo, Hshape. }
  destruct (chunk_store_ok (fs_mem s3) b bo oo k C X (replicate (Z.to_nat cb) 0) Y)
    as (m4 & m5 & E4 & E5 & L5 & W5 & F5 & D5 & O5);
    [congruence|exact L3|exact Htdo3|exact HX|rewrite zlen_replicate by lia; congruence
    |by eapply mem_frame_wf|apply load_from_Ptr in L3 as (l & Hl & _); eauto|].
  rewrite LC in E4. exists b, m1, m2, s3, m4, m5, c3. cbv zeta. split_and!; try done.
  - unfold fmalloc. by rewrite E1.
  - by apply ftdi_ready_mem.
  - by rewrite F5, (mem_frame_fail _ _ _ Fr3).
  - by rewrite L5, Sh3.
  - intros b' Hb'. destruct (decide (b' = b)) as [->|Hb].
    + by rewrite D5, <- Hother, B2 by done.
    + rewrite O5 by done. rewrite (mem_frame_other _ _ _ _ _ Fr3), O2 by done. auto.
  - exists C. split; [done|]. intros X' HX' Hshape'. rewrite Hshape' in Hshape.
    apply app_inj_1 in Hshape as [-> _]; [done|]. unfold zlen in *. lia.
Qed.

Lemma chunk_round_ok (s : fstate W) i :
  ChunkInv i s ->
  exists r s', chunk_round tms tdi tdo bits chunk_bits i s = Done (r, s') /\
    match r with
    | inl i' => ChunkInv i' s' /\ 0 <= bits - i' < bits - i
    | inr r => r = Some tt /\ ChunkInv bits s'
    end.
Proof.
  intros HI. pose proof HI as [Hr _ _ _ _ Hsh _].
  pose proof Hchk as [_ _ _ _ _ _ _ _ [K9 K9'] [K10 K11]]. unfold SCAN_MAX, INT_MAX in *.
  unfold chunk_round. destruct (Z.ltb_spec i bits) as [Hlt|Hge].
  2: { replace i with bits in * by lia. by exists (inr (Some tt)), s. }
  destruct (Hsh Hlt) as (Hi8 & X & HX & Hshape).
  rewrite int_arith_ok by (unfold INT_MIN, INT_MAX; lia). cbn [lift_exec].
  rewrite (bind_done _ _ s (i + chunk_bits) s eq_refl).
  set (n := if bits <? i + chunk_bits then bits - i else chunk_bits).
  assert (Hn : 1 <= n <= 524288 /\ i + n <= bits /\ (i + n < bits -> n = chunk_bits)).
  { subst n. zcase (bits <? i + chunk_bits); lia. }
  rewrite int_arith_ok by (unfold INT_MIN, INT_MAX; lia). cbn [lift_exec].
  rewrite (bind_done _ _ s (n + 7) s eq_refl).
  pose proof (Z.div_mod i 8) as Di. pose proof (Z.div_mod (n + 7) 8). pose proof (Z.mod_pos_bound (n + 7) 8).
  pose proof (Z.div_mod (bits + 7) 8). pose proof (Z.mod_pos_bound (bits + 7) 8).
  assert (Hcbt : 0 <= (n + 7) / 8 <= total - i / 8) by lia.
  assert (Hsplit : replicate (Z.to_nat (total - i / 8)) 0 ++ R =
    replicate (Z.to_nat ((n + 7) / 8)) 0 ++ replicate (Z.to_nat (total - i / 8 - (n + 7) / 8)) 0 ++ R).
  { rewrite app_assoc, <- replicate_add. do 2 f_equal. lia. }
  rewrite Hsplit in Hshape.
  destruct (chunk_body_ok s i n _ HI Hi8 ltac:(unfold SCAN_MAX; lia) ltac:(lia) (ex_intro _ X (conj HX Hshape)))
    as (b & m1 & m2 & s3 & m4 & m5 & c & E1 & E2 & E3 & E4 & E5 & R5 & F5 & W5 & Fl5 & L5 & O5 & C & LC & HC).
  rewrite (bind_done _ _ _ _ _ E1). cbn [is_null].
  erewrite bind_done; [|by apply fheap_done].
  rewrite (bind_done _ _ _ _ _ E3). cbn [Z.ltb Z.compare].
  erewrite bind_done; [|by apply fheap_done].
  erewrite bind_done; [|by apply fheap_done].
  eexists _, _. split; [reflexivity|]. split; [|lia].
  split; try done; [lia|by exists c|]. intros Hlt'.
  assert (Hnc : n = chunk_bits) by (apply Hn; lia). pose proof (Z.div_mod chunk_bits 8) as Dc.
  assert (Hdiv : (i + n) / 8 = i / 8 + (n + 7) / 8).
  { symmetry. apply Z.div_unique with 0; lia. }
  split; [rewrite Hnc, Z.add_mod, Hi8, K11 by lia; done|].
  exists (X ++ C). rewrite zlen_app, LC, HX, Hdiv. split; [done|].
  rewrite (HC X HX Hshape), <- app_assoc. do 4 f_equal. lia.
Qed.

Lemma chunk_loop_ok (s : fstate W) :
  ChunkInv 0 s ->
  exists s', while_loop (chunk_round tms tdi tdo bits chunk_bits) 0 s = Done (Some tt, s') /\ ChunkInv bits s'.
Proof.
  intros HI. pose proof (Chk_bits Hchk) as Hb. unfold INT_MAX, SCAN_MAX in Hb.
  destruct (while_total (chunk_round tms tdi tdo bits chunk_bits) ChunkInv
              (fun r s => r = Some tt /\ ChunkInv bits s) (fun i _ => bits - i) 0 s)
    as (r & s' & Ew & -> & Hs'); [|done|lia|by exists s'].
  intros i s1 HI1. destruct (chunk_round_ok s1 i HI1) as (r & s2 & E2 & H2'). exists r, s2. by split.
Qed.

End Correct.

Section Chunks.
Context {W E T : Type} `{MpsseDeviceLaws W E T} `{!MpsseEngineLaws E T}.

(** C7: chunking is invisible.  A chunked scan of any length, with any chunk
    size up to 64 KiB (or the default), succeeds when memory does not run out
    and has the effect of one bit-serial pass over the whole vector: the same
    target state, TAP state and TDO bits, the TDO bytes of the vector cleared
    first when it is split, and no other block of the heap changed. *)
Theorem scan_chunked_correct (tb ib bo : nat) (to io oo : Z) (dt di d : list Z) (bits chunk_bytes : Z)
    (s : fstate W) (c : mpsse_context) :
  let total := (bits + 7) / 8 in
  let limit := if chunk_bytes <=? 0 then FTDI_MAX_WRITESIZE else chunk_bytes in
  let r := ref_run dt di (ref_of (mview c s) (if total <=? limit then d else cleared total d)) 0 bits in
  ftdi_ready s c -> mem_wf (fs_mem s) -> m_fail (fs_mem s) = [] ->
  load_from (fs_mem s) (Ptr tb to) = Some dt -> load_from (fs_mem s) (Ptr ib io) = Some di ->
  load_from (fs_mem s) (Ptr bo oo) = Some d -> tb <> bo -> ib <> bo ->
  Forall byte_ok d -> Forall byte_ok di ->
  1 <= bits -> bits + SCAN_MAX <= INT_MAX -> bits <= bits_in dt -> bits <= bits_in di -> total <= zlen d ->
  chunk_bytes <= 65536 ->
  exists s' c', ftdi_adapter_scan_chunked (Ptr tb to) (Ptr ib io) (Ptr bo oo) bits chunk_bytes s = Done (0, s') /\
    ftdi_ready s' c' /\ follows (mview c' s') r /\
    load_from (fs_mem s') (Ptr bo oo) = Some (rf_tdo r) /\
    forall b, b <> bo -> m_blocks (fs_mem s') !! b = m_blocks (fs_mem s) !! b.
Proof.
  intros total limit r HR Hwf Hf Ht Hd Ho At Ad Bd Bi Hb1 Hb2 Lt Li Ld Hc.
  assert (Htot : 8 * total - 7 <= bits <= 8 * total).
  { subst total. pose proof (Z.div_mod (bits + 7) 8). pose proof (Z.mod_pos_bound (bits + 7) 8). lia. }
  assert (Hlim : 1 <= limit <= 65536).
  { subst limit. unfold FTDI_MAX_WRITESIZE. zcase (chunk_bytes <=? 0); lia. }
  unfold ftdi_adapter_scan_chunked, fctx, gets. rewrite (bind_done _ _ s (fs_ctx s) s eq_refl).
  pose proof HR as (HRo & HRc & _). rewrite HRo, (proj2 (Z.leb_gt bits 0)) by lia. cbn [is_null negb orb].
  fold limit. unfold SCAN_MAX, INT_MAX in Hb2.
  rewrite (int_arith_ok (bits + 7)) by (unfold INT_MIN, INT_MAX; lia). cbn [lift_exec].
  rewrite (bind_done _ _ s (bits + 7) s eq_refl). fold total.
  destruct (Z.leb_spec total limit) as [Hle|Hgt].
  - destruct (ftdi_scan_ok (Ptr tb to) (Ptr ib io) bo oo dt di d bits s c HR Ho) as (s' & c' & E1 & R1 & L1 & F1 & Fo1).
    { split; try done. unfold SCAN_MAX. lia. cbn. lia. }
    exists s', c'. split_and!; try done. intros b Hb. by apply (mem_frame_other _ _ _ _ _ F1).
  - destruct (memset_ok (fs_mem s) bo oo d total Ho) as (m1 & E1 & L1 & F1); [lia|lia|].
    erewrite bind_done; [|by apply fheap_done].
    rewrite int_arith_ok by (unfold INT_MIN, INT_MAX; lia). cbn [lift_exec].
    set (s1 := s <| fs_mem := m1 |>). rewrite (bind_done _ _ s1 (limit * 8) s1 eq_refl).
    assert (Hchk : Chunked tb ib bo to io dt di bits (limit * 8) s1).
    { split; cbn [fs_mem setter]; try done.
      - rewrite (load_from_block (fs_mem s)); [done|]. by apply (mem_frame_other _ _ _ _ _ F1).
      - rewrite (load_from_block (fs_mem s)); [done|]. by apply (mem_frame_other _ _ _ _ _ F1).
      - apply load_from_Ptr in L1 as (l & Hl & _). eauto.
      - unfold SCAN_MAX. split; [lia|]. apply Z_mod_mult. }
    assert (HI : ChunkInv bo oo dt di bits s1 (ref_of (mview c s) (cleared total d)) (drop (Z.to_nat total) d) 0 s1).
    { split; cbn [fs_mem setter]; try done.
      - lia.
      - exists c. split; [by apply ftdi_ready_mem|]. done.
      - by eapply mem_frame_wf.
      - change (m_fail m1 = []). by rewrite (mem_frame_fail _ _ _ F1).
      - intros _. split; [done|]. exists []. split; [done|]. unfold crun. cbn [app].
        change (0 / 8) with 0. by rewrite Z.sub_0_r. }
    destruct (chunk_loop_ok tb ib bo to io oo dt di bits (limit * 8) s1 _ _ Hchk s1 HI)
      as (s' & E2 & [_ (c' & R2 & F2) _ _ L2 _ O2]).
    rewrite (bind_done _ _ _ _ _ E2). exists s', c'. split_and!; try done.
    intros b Hb. rewrite O2 by done. by apply (mem_frame_other _ _ _ _ _ F1).
Qed.

End Chunks.

(** An open FTDI context on the concrete device. *)
Definition sim_fstate (tms tdi tdo : list Z) : fstate world :=
  mk_fstate (mk_ftdi (Some (ms_ctx (sim_state tms tdi tdo))) true 0 "") (sim_mem tms tdi tdo) sim_world.

Lemma sim_ftdi_ready tms tdi tdo : ftdi_ready (sim_fstate tms tdi tdo) (ms_ctx (sim_state tms tdi tdo)).
Proof. split; [done|]. split; [done|]. apply sim_ready. Qed.

Lemma sim_mem_wf tms tdi tdo : mem_wf (sim_mem tms tdi tdo).
Proof.
  intros b l. cbn. rewrite !lookup_insert_Some, lookup_singleton_Some. lia.
Qed.

(** Five bytes in chunks of two. *)
Lemma scan_chunked_correct_witness :
  let dt := [0x02; 0x00; 0x00; 0x00; 0x10] in
  let di := [0xff; 0xa5; 0x5a; 0xc3; 0x7f] in
  let d := [0xff; 0xff; 0xff; 0xff; 0xff] in
  let s := sim_fstate dt di d in
  let c := ms_ctx (sim_state dt di d) in
  let r := ref_run dt di (ref_of (mview c s) (cleared 5 d)) 0 38 in
  (ftdi_ready s c /\ mem_wf (fs_mem s) /\ m_fail (fs_mem s) = []) /\
  exists s' c', ftdi_adapter_scan_chunked (Ptr 0 0) (Ptr 1 0) (Ptr 2 0) 38 2 s = Done (0, s') /\
    ftdi_ready s' c' /\ follows (mview c' s') r /\
    load_from (fs_mem s') (Ptr 2 0) = Some (rf_tdo r) /\
    forall b, b <> 2%nat -> m_blocks (fs_mem s') !! b = m_blocks (fs_mem s) !! b.
Proof.
  intros dt di d s c r.
  assert (HR : ftdi_ready s c) by apply sim_ftdi_ready.
  assert (Hwf : mem_wf (fs_mem s)) by apply sim_mem_wf.
  assert (Bd : Forall byte_ok d) by byte_list. assert (Bi : Forall byte_ok di) by byte_list.
  split; [by split|].
  refine (scan_chunked_correct 0 1 2 0 0 0 dt di d 38 2 s c HR Hwf eq_refl eq_refl eq_refl eq_refl _ _ Bd Bi _ _ _ _ _ _);
    try done; unfold SCAN_MAX, INT_MAX, bits_in, zlen; cbn; lia.
Defined.

(** ** After a failed chunk *)

(** An adapter on the failing device of MpsseFaults.v: the first poll of a scan
    answers an error, everything else works. *)
Definition ftdi_faulty_start : fstate faulty :=
  mk_fstate (mk_ftdi (Some mpsse_zero) false 0 "") (sim_mem [0x22; 0x80] [0x00; 0x55] [0x00; 0x00])
    ([FT_OK; FT_OK; 1], sim_closed_world).

Definition failed_then (again : M (fstate faulty) Z) : M (fstate faulty) (Z * Z * Z) :=
  o ← ftdi_adapter_open (-1) (-1) None 0 0;
  r ← ftdi_adapter_scan_chunked (Ptr 0 0) (Ptr 1 0) (Ptr 2 0) 16 1;
  r' ← again;
  mret (o, r, r').

(** A failed chunk gives its TDO block back while the observers of its scan are
    still pending.  The next transfer, here the setting of the frequency on a
    device that works again, writes through them into the freed block. *)
Example stale_observer_undefined :
  match failed_then (mret 0) ftdi_faulty_start with Done (r, _) => r | _ => (0, 0, 0) end = (0, -1, 0) /\
  failed_then (ftdi_adapter_set_frequency 1000000) ftdi_faulty_start = Undef.
Proof. split; vm_compute; reflexivity. Qed.
