(* ===== verification/XvcProtocol.v ===== *)
(** xvc_protocol.c: the XVC protocol handler.

    The socket calls of the operating system are the parameter [Sockets]; the
    adapter is reached through the interface [Adapter], two operations on the
    heap and the adapter's own state.  The protocol context keeps [cmd_buf]
    inside and its two heap buffers as pointers. *)

From S2P Require Import Prelude Jtag Bits Memory CString.
From Stdlib Require Import Ascii String.
Open Scope Z_scope.

(** ** The boundary *)

(** [read] and [write]; a read answers its return value and the bytes stored.
    The sockets are blocking and interrupted calls are restarted
    (SA_RESTART, main.c): [read_blocks] and [write_blocks] say that a call does
    not return, because the peer neither sends nor takes anything nor goes away.
    [sock_quickack] is the [setsockopt] of [TCP_QUICKACK], whose result nobody
    looks at. *)
Class Sockets (W : Type) := {
  sock_read : Z -> Z -> W -> (Z * list Z) * W;
  sock_write : Z -> list Z -> W -> Z * W;
  sock_quickack : Z -> W -> W;
  read_blocks : Z -> Z -> W -> bool;
  write_blocks : Z -> list Z -> W -> bool
}.

Class Adapter (AD : Type) := {
  ad_set_period : Z -> M (mem * AD) Z;
  ad_scan : ptr -> ptr -> ptr -> Z -> M (mem * AD) Z
}.

(** ** Data *)

Definition XVC_VERSION : string := "xvcServer_v1.0".
Definition XVC_DEFAULT_MAX_VECTOR_SIZE : Z := 2048.
Definition XVC_MAX_VECTOR_SIZE_LIMIT : Z := 262144.

(** [xvc_ftdi]: whether [ctx->ftdi] points at the adapter. *)
Record xvc_context := mk_xvc {
  socket_fd : Z;
  xvc_jtag_state : jtag_state_t;
  seen_tlr : bool;
  frequency : Z;
  max_vector_size : Z;
  xvc_ftdi : bool;
  cmd_buf : list Z;
  vector_buf : ptr;
  result_buf : ptr;
  bytes_rx : Z;
  bytes_tx : Z;
  commands : Z
}.
#[export] Instance eta_xvc : Eta xvc_context := fun c =>
  mk_xvc (socket_fd c) (xvc_jtag_state c) (seen_tlr c) (frequency c) (max_vector_size c) (xvc_ftdi c)
    (cmd_buf c) (vector_buf c) (result_buf c) (bytes_rx c) (bytes_tx c) (commands c).

(** [memset(ctx, 0, sizeof(xvc_context_t))] *)
Definition xvc_zero : xvc_context :=
  mk_xvc 0 JTAG_TEST_LOGIC_RESET false 0 0 false (replicate 16 0) NULL NULL 0 0 0.

(** The handler runs on its context, the heap, the adapter and the sockets. *)
Record xstate (AD W : Type) := mk_xstate {
  x_ctx : xvc_context;
  x_mem : mem;
  x_ad : AD;
  x_w : W
}.
Arguments mk_xstate {AD W} _ _ _ _.
Arguments x_ctx {AD W} _.
Arguments x_mem {AD W} _.
Arguments x_ad {AD W} _.
Arguments x_w {AD W} _.
#[export] Instance eta_xstate {AD W} : Eta (xstate AD W) := fun s =>
  mk_xstate (x_ctx s) (x_mem s) (x_ad s) (x_w s).

(** ** Integers on the wire *)

Definition byte_at (l : list Z) (i : nat) : Z := nth i l 0.

(** [(int32_t)data[3] << 24] with the usual two's complement result. *)
Definition xvc_get_int32 (data : list Z) : Z :=
  i32 (Z.lor (Z.lor (Z.lor (byte_at data 0) (Z.shiftl (byte_at data 1) 8))
                    (Z.shiftl (byte_at data 2) 16))
             (Z.shiftl (byte_at data 3) 24)).

Definition xvc_put_int32 (value : Z) : list Z :=
  [u8 (Z.land value 0xFF); u8 (Z.land (Z.shiftr value 8) 0xFF);
   u8 (Z.land (Z.shiftr value 16) 0xFF); u8 (Z.land (Z.shiftr value 24) 0xFF)].

(** The bytes of a C string. *)
Fixpoint bytes_of (s : string) : list Z :=
  match s with
  | EmptyString => []
  | String c s => Z.of_N (N_of_ascii c) :: bytes_of s
  end.

(** ** Socket loops *)

Section Socket.
Context {W : Type} `{Sockets W}.

Definition sock {A} (call : W -> A * W) : M W A := fun w => let '(a, w) := call w in Done (a, w).

(** Answers the return value and the bytes that were stored before it. *)
Definition read_step (fd : Z) (v : Z * list Z) : M W ((Z * list Z) + (Z * list Z)) :=
  let '(len, got) := v in
  if 0 <? len then
    '(r, data) ← may_block (read_blocks fd len) (sock_read fd len);
    if r <=? 0 then mret (inr (r, got))
    else mret (inl (len - r, got ++ data))
  else
    _ ← sock (fun w => (tt, sock_quickack fd w));
    mret (inr (1, got)).

Definition xvc_read_exact (fd len : Z) : M W (Z * list Z) := while_loop (read_step fd) (len, []).

(** [buf] is what is left to write. *)
Definition write_step (fd : Z) (v : Z * list Z) : M W ((Z * list Z) + Z) :=
  let '(len, buf) := v in
  if 0 <? len then
    let data := take (Z.to_nat len) buf in
    w ← may_block (write_blocks fd data) (sock_write fd data);
    if w <=? 0 then mret (inr (-1))
    else mret (inl (len - w, drop (Z.to_nat w) buf))
  else mret (inr 0).

Definition xvc_write_exact (fd : Z) (buf : list Z) (len : Z) : M W Z := while_loop (write_step fd) (len, buf).

End Socket.

Section Xvc.
Context {AD W : Type} `{Adapter AD} `{Sockets W}.
#[local] Abbreviation X := (M (xstate AD W)).

Definition xctx : X xvc_context := gets x_ctx.
Definition set_xctx (f : xvc_context -> xvc_context) : X unit := modify (fun s => s <| x_ctx := f (x_ctx s) |>).
Definition on_socket {A} (op : M W A) : X A := zoom x_w (fun w s => s <| x_w := w |>) op.
Definition on_adapter {A} (op : M (mem * AD) A) : X A :=
  zoom (fun s => (x_mem s, x_ad s)) (fun '(m, ad) s => s <| x_mem := m |> <| x_ad := ad |>) op.
Definition xheap (f : mem -> option mem) : X unit := fun s =>
  match f (x_mem s) with Some m => Done (tt, s <| x_mem := m |>) | None => Undef end.
Definition xload (f : mem -> option Z) : X Z := fun s =>
  match f (x_mem s) with Some a => Done (a, s) | None => Undef end.
Definition xmalloc (n : Z) : X ptr := fun s =>
  let '(p, m) := malloc (x_mem s) n in Done (p, s <| x_mem := m |>).
Definition xbytes (p : ptr) (n : Z) : X (list Z) := fun s =>
  match load_bytes (x_mem s) p n with Some d => Done (d, s) | None => Undef end.

(** ** Initialisation *)

Definition xvc_vector_size (max_vector_size : Z) : Z :=
  if max_vector_size <=? 0 then XVC_DEFAULT_MAX_VECTOR_SIZE
  else if XVC_MAX_VECTOR_SIZE_LIMIT <? max_vector_size then XVC_MAX_VECTOR_SIZE_LIMIT
  else max_vector_size.

Definition xvc_init (fd : Z) (ftdi : bool) (max_vector_size : Z) : X Z :=
  set_xctx (fun _ => xvc_zero <| socket_fd := fd |> <| xvc_ftdi := ftdi |>
    <| xvc_jtag_state := JTAG_TEST_LOGIC_RESET |> <| seen_tlr := false |>
    <| XvcProtocol.max_vector_size := xvc_vector_size max_vector_size |>) ;;
  c ← xctx;
  v ← xmalloc (XvcProtocol.max_vector_size c * 2);
  r ← xmalloc (XvcProtocol.max_vector_size c);
  set_xctx (fun c => c <| vector_buf := v |> <| result_buf := r |>) ;;
  if is_null v || is_null r then
    xheap (fun m => free m v) ;;
    xheap (fun m => free m r) ;;
    set_xctx (fun c => c <| vector_buf := NULL |> <| result_buf := NULL |>) ;;
    mret (-1)
  else mret 0.

Definition xvc_free : X unit :=
  c ← xctx;
  xheap (fun m => free m (vector_buf c)) ;;
  xheap (fun m => free m (result_buf c)) ;;
  set_xctx (fun c => c <| vector_buf := NULL |> <| result_buf := NULL |>).

(** Only logs. *)
Definition xvc_close : X unit := mret tt.

(** ** Reading into the buffers of the context *)

(** [xvc_read_exact(ctx->socket_fd, ctx->cmd_buf + off, n) != 1], then the
    statistics; [false] is the early return. *)
Definition read_cmd (off n : Z) : X bool :=
  c ← xctx;
  '(r, got) ← on_socket (xvc_read_exact (socket_fd c) n);
  buf ← lift_exec (of_option (write_at off got (cmd_buf c)));
  set_xctx (fun c => c <| cmd_buf := buf |>) ;;
  if negb (r =? 1) then mret false
  else set_xctx (fun c => c <| bytes_rx := u64 (bytes_rx c + n) |>) ;; mret true.

Definition read_vectors (n : Z) : X bool :=
  c ← xctx;
  '(r, got) ← on_socket (xvc_read_exact (socket_fd c) n);
  xheap (fun m => store_bytes m (vector_buf c) got) ;;
  if negb (r =? 1) then mret false
  else set_xctx (fun c => c <| bytes_rx := u64 (bytes_rx c + n) |>) ;; mret true.

(** Write a reply and count it; [false] is the early return. *)
Definition send_reply (buf : list Z) (n : Z) : X bool :=
  c ← xctx;
  r ← on_socket (xvc_write_exact (socket_fd c) buf n);
  if r <? 0 then mret false
  else
    set_xctx (fun c => c <| bytes_tx := u64 (bytes_tx c + n) |> <| commands := u64 (commands c + 1) |>) ;;
    mret true.

(** ** The commands

    Each answers [inl tt] to go on with the loop condition, [inr r] to return
    [r]; a [break] is [inr 0]. *)

Definition handle_getinfo (xvc_info : string) : X (unit + Z) :=
  ok ← read_cmd 2 6;
  if negb ok then mret (inr 1)
  else
    ok ← send_reply (bytes_of xvc_info) (strlen xvc_info);
    if negb ok then mret (inr (-1)) else mret (inr 0).

Definition handle_settck (frequency : Z) : X (unit + Z) :=
  ok ← read_cmd 2 9;
  if negb ok then mret (inr 1)
  else
    c ← xctx;
    let period := if frequency =? 0 then xvc_get_int32 (drop 7 (cmd_buf c))
                  else i32 (1000000000 / frequency) in
    actual ← (if xvc_ftdi c then on_adapter (ad_set_period (u32 period)) else mret (-1));
    let actual := if actual <? 0 then period else actual in
    xheap (fun m => store_bytes m (result_buf c) (xvc_put_int32 actual)) ;;
    d ← xbytes (result_buf c) 4;
    ok ← send_reply d 4;
    if negb ok then mret (inr (-1)) else mret (inr 0).

(** Eight transitions from one TMS byte, and the rest from the last one. *)
Fixpoint jtag_bits (state : jtag_state_t) (tms_byte : Z) (n : nat) : jtag_state_t :=
  match n with
  | O => state
  | S n => jtag_bits (jtag_index state (Z.land tms_byte 1)) (Z.shiftr tms_byte 1) n
  end.

(** [while (len - bit_idx >= 8)], [n] rounds. *)
Fixpoint jtag_bytes (state : jtag_state_t) (byte_idx : Z) (n : nat) : X (jtag_state_t * Z) :=
  match n with
  | O => mret (state, byte_idx)
  | S n =>
      c ← xctx;
      tms_byte ← xload (fun m => load8 m (ptr_add (vector_buf c) byte_idx));
      jtag_bytes (jtag_bits state tms_byte 8) (byte_idx + 1) n
  end.

Definition track_jtag (len : Z) : X unit :=
  c ← xctx;
  '(state, byte_idx) ← jtag_bytes (xvc_jtag_state c) 0 (Z.to_nat (len / 8));
  tms_byte ← xload (fun m => load8 m (ptr_add (vector_buf c) byte_idx));
  let state := jtag_bits state tms_byte (Z.to_nat (len - 8 * byte_idx)) in
  set_xctx (fun c => c <| xvc_jtag_state := state |>).

(** "Skip bogus state movements (Xilinx impact workaround)" *)
Definition bogus_movement (len : Z) : X bool :=
  c ← xctx;
  match xvc_jtag_state c with
  | JTAG_EXIT1_IR =>
      if len =? 5 then b ← xload (fun m => load8 m (vector_buf c)); mret (b =? 0x17) else mret false
  | JTAG_EXIT1_DR =>
      if len =? 4 then b ← xload (fun m => load8 m (vector_buf c)); mret (b =? 0x0b) else mret false
  | _ => mret false
  end.

(** "Track TLR state for safe client switching" *)
Definition note_tlr : X unit :=
  set_xctx (fun c => c <| seen_tlr :=
    (seen_tlr c || bool_decide (xvc_jtag_state c = JTAG_TEST_LOGIC_RESET))
    && negb (bool_decide (xvc_jtag_state c = JTAG_CAPTURE_DR))
    && negb (bool_decide (xvc_jtag_state c = JTAG_CAPTURE_IR)) |>).

(** The movement of the TAP: skipped, or tracked and scanned; the answer of
    [ftdi_adapter_scan], which is -1 for a null adapter. *)
Definition movement (c : xvc_context) (nr_bytes len : Z) : X Z :=
  skip ← bogus_movement len;
  if (skip : bool) then mret 0
  else
    track_jtag len ;;
    if xvc_ftdi c
    then on_adapter (ad_scan (vector_buf c) (ptr_add (vector_buf c) nr_bytes) (result_buf c) len)
    else mret (-1).

(** "Send TDO result" *)
Definition shift_reply (result_buf : ptr) (nr_bytes : Z) : X (unit + Z) :=
  d ← (if 0 <? nr_bytes then xbytes result_buf nr_bytes else mret []);
  ok ← send_reply d nr_bytes;
  if negb ok then mret (inr (-1)) else mret (inl tt).

(** From the length on: the vectors, the state tracking, the scan, the reply. *)
Definition shift_vectors (len : Z) : X (unit + Z) :=
  round_up ← lift_exec (int_arith (len + 7));
  let nr_bytes := Z.quot round_up 8 in
  c ← xctx;
  if max_vector_size c <? nr_bytes then mret (inr (-1))
  else
    ok ← read_vectors (nr_bytes * 2);
    if negb (ok : bool) then mret (inr 1)
    else
      xheap (fun m => memset m (result_buf c) 0 nr_bytes) ;;
      note_tlr ;;
      r ← movement c nr_bytes len;
      if r <? 0 then mret (inr (-1))
      else shift_reply (result_buf c) nr_bytes.

(** "Read length (4 bytes, little-endian)" *)
Definition shift_length : X (unit + Z) :=
  ok ← read_cmd 6 4;
  if negb (ok : bool) then mret (inr 1)
  else
    c ← xctx;
    shift_vectors (xvc_get_int32 (drop 6 (cmd_buf c))).

Definition handle_shift : X (unit + Z) :=
  ok ← read_cmd 2 4;
  if negb (ok : bool) then mret (inr 1)
  else
    c ← xctx;
    ok ← (if (byte_at (cmd_buf c) 4 =? 0x65) || (byte_at (cmd_buf c) 4 =? 0x45) then
            '(r, _) ← on_socket (xvc_read_exact (socket_fd c) 1);
            if negb (r =? 1) then mret false
            else set_xctx (fun c => c <| bytes_rx := u64 (bytes_rx c + 1) |>) ;; mret true
          else mret true);
    if negb (ok : bool) then mret (inr 1) else shift_length.

Definition is_cmd (a b : Z) (buf : list Z) : bool := (byte_at buf 0 =? a) && (byte_at buf 1 =? b).

(** [while (!(ctx->seen_tlr && ctx->jtag_state == JTAG_RUN_TEST_IDLE))]; a
    command that returned or broke out does not get here. *)
Definition loop_condition (r : unit + Z) : X (unit + Z) :=
  match r with
  | inr r => mret (inr r)
  | inl _ =>
      c ← xctx;
      if seen_tlr c && bool_decide (xvc_jtag_state c = JTAG_RUN_TEST_IDLE)
      then mret (inr 0) else mret (inl tt)
  end.

(** One round of the [do .. while] loop of [xvc_handle]. *)
Definition handle_command (xvc_info : string) (frequency : Z) (_ : unit) : X (unit + Z) :=
  ok ← read_cmd 0 2;
  if negb (ok : bool) then mret (inr 1)
  else
    c ← xctx;
    r ← (if is_cmd 0x67 0x65 (cmd_buf c) then handle_getinfo xvc_info
         else if is_cmd 0x73 0x65 (cmd_buf c) then handle_settck frequency
         else if is_cmd 0x73 0x68 (cmd_buf c) then handle_shift
         else mret (inr (-1)));
    loop_condition r.

Definition xvc_info (max_vector_size : Z) : string :=
  truncated 64 (XVC_VERSION +:+ ":" +:+ fmt_d max_vector_size +:+ String LF "").

Definition xvc_handle (fd : Z) (ftdi : bool) (xvc_buffer_size frequency : Z) : X Z :=
  c ← xctx;
  ok ← (if is_null (vector_buf c) || negb (socket_fd c =? fd) then
          let buffer_size := if 0 <? xvc_buffer_size then xvc_buffer_size else max_vector_size c in
          r ← xvc_init fd ftdi buffer_size;
          mret (0 <=? r)
        else mret true);
  if negb (ok : bool) then mret (-1)
  else
    c ← xctx;
    while_loop (handle_command (xvc_info (max_vector_size c)) frequency) tt.

End Xvc.
