(* ===== verification/XvcRefine.v ===== *)
(** The XVC server as a protocol.

    What [xvc_handle] promises to a client: whatever way the byte stream is
    fragmented, a sequence of commands gets the sequence of replies of the
    specification, whose shift command is the bit-serial reference of
    MpsseRefine.v.  The adapter is used through the interface [JtagCable]
    only. *)

From S2P Require Import Prelude Jtag Bits Memory CString D2xx SimDevice MpsseBuffer.
From S2P Require Import MpsseShift MpsseRefine XvcProtocol.

(** ** Integers on the wire *)

Lemma lor_shiftl_add a b k :
  0 <= k -> 0 <= a < 2 ^ k -> Z.lor a (Z.shiftl b k) = a + b * 2 ^ k.
Proof.
  intros Hk Ha. rewrite Z.shiftl_mul_pow2 by done.
  rewrite <- Z.lxor_lor, <- Z.add_nocarry_lxor; [done|..];
    apply Z.bits_inj'; intros n Hn; rewrite Z.land_spec, Z.bits_0;
    destruct (Z.lt_ge_cases n k); (rewrite Z.mul_pow2_bits_low by lia; apply andb_false_r) ||
    (rewrite (proj1 (Z.bounded_iff_bits_nonneg' k a Hk ltac:(lia)) Ha n) by lia; done).
Qed.

Lemma get_int32_bytes a b c d :
  byte_ok a -> byte_ok b -> byte_ok c -> byte_ok d ->
  xvc_get_int32 [a; b; c; d] = i32 (a + 256 * b + 65536 * c + 16777216 * d).
Proof.
  unfold byte_ok. intros Ha Hb Hc Hd. unfold xvc_get_int32, byte_at. cbn [nth]. f_equal.
  rewrite (lor_shiftl_add a b 8) by lia. rewrite (lor_shiftl_add _ c 16) by lia.
  rewrite (lor_shiftl_add _ d 24) by lia. lia.
Qed.

Lemma get_int32_prefix l k : zlen l = 4 -> xvc_get_int32 (l ++ k) = xvc_get_int32 l.
Proof. intros Hl. destruct l as [|a [|b [|c [|d [|]]]]]; by vm_compute in Hl || done. Qed.

Lemma put_int32_bytes v :
  xvc_put_int32 v = [v mod 256; v / 256 mod 256; v / 65536 mod 256; v / 16777216 mod 256].
Proof.
  unfold xvc_put_int32. change 0xFF with 255. rewrite !land_255, !Z.shiftr_div_pow2 by lia.
  unfold u8. by rewrite !Z.mod_mod by lia.
Qed.

Lemma put_int32_ok v : Forall byte_ok (xvc_put_int32 v).
Proof. unfold xvc_put_int32. byte_list. Qed.

Lemma put_get_int32 v : INT_MIN <= v <= INT_MAX -> xvc_get_int32 (xvc_put_int32 v) = v.
Proof.
  intros Hv. rewrite put_int32_bytes.
  assert (Hb : forall x, byte_ok (x mod 256)) by (intros; apply Z.mod_pos_bound; lia).
  rewrite get_int32_bytes by done. unfold INT_MIN, INT_MAX in Hv.
  set (s := _ + _ + _ + _).
  assert (Hs : s = v mod 2 ^ 32).
  { subst s. change (2 ^ 32) with 4294967296.
    replace (v / 65536) with (v / 256 / 256) by (rewrite Z.div_div; done || lia).
    replace (v / 16777216) with (v / 256 / 256 / 256) by (rewrite !Z.div_div; done || lia).
    pose proof (Z.div_mod v 256). pose proof (Z.div_mod (v / 256) 256). pose proof (Z.div_mod (v / 256 / 256) 256).
    pose proof (Z.div_mod (v / 256 / 256 / 256) 256).
    pose proof (Z.mod_pos_bound v 256). pose proof (Z.mod_pos_bound (v / 256) 256).
    pose proof (Z.mod_pos_bound (v / 256 / 256) 256). pose proof (Z.mod_pos_bound (v / 256 / 256 / 256) 256).
    apply Z.mod_unique with (v / 256 / 256 / 256 / 256); lia. }
  rewrite Hs. unfold i32.
  destruct (Z.lt_ge_cases v 0).
  - replace (v mod 2 ^ 32) with (v + 2 ^ 32) by (apply Z.mod_unique with (-1); lia).
    replace (v + 2 ^ 32 + 2 ^ 31) with (v + 2 ^ 31 + 1 * 2 ^ 32) by lia.
    rewrite Z_mod_plus_full, Z.mod_small by lia. lia.
  - rewrite (Z.mod_small v) by lia. rewrite Z.mod_small by lia. lia.
Qed.

(** C22: the little-endian integers of the protocol.  Every [int32_t] value
    survives being written and read back, and every four bytes are written
    back as they were read: the two functions are inverse bijections. *)
Theorem int32_wire_format :
  (forall v, INT_MIN <= v <= INT_MAX -> xvc_get_int32 (xvc_put_int32 v) = v) /\
  (forall a b c d, Forall byte_ok [a; b; c; d] -> xvc_put_int32 (xvc_get_int32 [a; b; c; d]) = [a; b; c; d]) /\
  (forall l, Forall byte_ok l -> INT_MIN <= xvc_get_int32 l <= INT_MAX).
Proof.
  split; [apply put_get_int32|]. split; [|intros; apply i32_range].
  intros a b c d Hl. repeat (apply Forall_cons in Hl as [? Hl]). unfold byte_ok in *.
  rewrite get_int32_bytes by (unfold byte_ok; lia). rewrite put_int32_bytes.
  set (n := a + _ + _ + _). set (v := i32 n).
  assert (Hv : exists q, v = n + q * 2 ^ 32).
  { unfold v, i32. exists (- ((n + 2 ^ 31) / 2 ^ 32)). pose proof (Z.div_mod (n + 2 ^ 31) (2 ^ 32)). lia. }
  destruct Hv as [q ->]. subst n. change (2 ^ 32) with 4294967296.
  f_equal; [|f_equal; [|f_equal; [|f_equal]]]; symmetry.
  - apply Z.mod_unique with (b + 256 * c + 65536 * d + q * 16777216); lia.
  - apply Z.mod_unique with (c + 256 * d + q * 65536); [lia|]. symmetry. apply Z.div_unique with a; lia.
  - apply Z.mod_unique with (d + q * 256); [lia|]. symmetry. apply Z.div_unique with (a + 256 * b); lia.
  - apply Z.mod_unique with q; [lia|]. symmetry. apply Z.div_unique with (a + 256 * b + 65536 * c); lia.
Qed.

(** ** Sockets as byte streams *)

(** The peer's bytes still to be read and the bytes sent to it.  A read hands
    out a non-empty piece of what is left, a write takes a non-empty piece of
    what is offered; a read at the end answers 0 or an error.  No call blocks
    for ever: the peer sends or takes something, or goes away. *)
Class Streams (W : Type) `{Sockets W} := {
  s_in : Z -> W -> list Z;
  s_out : Z -> W -> list Z;
  read_some : forall fd len w, 0 < len -> s_in fd w <> [] ->
    read_blocks fd len w = false /\
    exists data w', sock_read fd len w = ((zlen data, data), w') /\ 1 <= zlen data <= len /\
      s_in fd w = data ++ s_in fd w' /\ s_out fd w' = s_out fd w;
  read_end : forall fd len w, 0 < len -> s_in fd w = [] ->
    read_blocks fd len w = false /\
    exists r w', sock_read fd len w = ((r, []), w') /\ r <= 0 /\ s_in fd w' = [] /\ s_out fd w' = s_out fd w;
  write_some : forall fd buf w, buf <> [] ->
    write_blocks fd buf w = false /\
    exists n w', sock_write fd buf w = (n, w') /\ 1 <= n <= zlen buf /\
      s_in fd w' = s_in fd w /\ s_out fd w' = s_out fd w ++ take (Z.to_nat n) buf;
  quickack_quiet : forall fd w, s_in fd (sock_quickack fd w) = s_in fd w /\ s_out fd (sock_quickack fd w) = s_out fd w
}.

Section Stream.
Context {W : Type} `{Streams W}.

(** What a read loop has collected so far. *)
Definition collecting (fd total : Z) (w0 : W) (v : Z * list Z) (w : W) : Prop :=
  0 <= v.1 /\ zlen v.2 + v.1 = total /\ s_in fd w0 = v.2 ++ s_in fd w /\ s_out fd w = s_out fd w0.

(** The outcome of a read loop. *)
Definition collected (fd total : Z) (w0 : W) (v : Z * list Z) (w : W) : Prop :=
  s_out fd w = s_out fd w0 /\ s_in fd w0 = v.2 ++ s_in fd w /\
  if total <=? zlen (s_in fd w0) then v.1 = 1 /\ zlen v.2 = total else v.1 <= 0 /\ s_in fd w = [].

Lemma read_exact_ok fd n w :
  0 <= n <= INT_MAX ->
  exists r got w', xvc_read_exact fd n w = Done ((r, got), w') /\ collected fd n w (r, got) w'.
Proof.
  intros Hn. unfold INT_MAX in Hn.
  destruct (while_total (read_step fd) (collecting fd n w) (collected fd n w) (fun v _ => v.1) (n, []) w)
    as ([r got] & w' & E & HP); [|unfold collecting; cbn [fst snd app]; change (zlen (@nil Z)) with 0; split_and!; (done || lia)|cbn; lia|by exists r, got, w'].
  intros [len got] w1 (Hl & Hg & Hin & Ho). cbn [fst snd] in *. unfold read_step.
  assert (Hz : zlen (s_in fd w) = zlen got + zlen (s_in fd w1)) by (by rewrite Hin, zlen_app).
  pose proof (zlen_nonneg (s_in fd w1)).
  destruct (Z.ltb_spec 0 len) as [Hpos|Hpos].
  2: { destruct (quickack_quiet fd w1) as [Qi Qo]. exists (inr (1, got)), (sock_quickack fd w1).
       split; [done|]. split; [congruence|]. split; [cbn; congruence|].
       rewrite (proj2 (Z.leb_le _ _)) by lia. cbn. split; [done|]. lia. }
  destruct (decide (s_in fd w1 = [])) as [He|Hne].
  - destruct (read_end fd len w1 Hpos He) as (Hnb & r & w2 & E2 & Hr & He2 & Ho2).
    erewrite bind_done; [|by apply may_block_done]. cbv beta iota. rewrite (proj2 (Z.leb_le r 0) Hr).
    exists (inr (r, got)), w2. split; [done|]. split; [congruence|]. split; [cbn; by rewrite Hin, He, He2|].
    rewrite He, zlen_nil in Hz. rewrite (proj2 (Z.leb_gt _ _)) by lia. done.
  - destruct (read_some fd len w1 Hpos Hne) as (Hnb & data & w2 & E2 & Hd & He2 & Ho2).
    erewrite bind_done; [|by apply may_block_done]. cbv beta iota. rewrite (proj2 (Z.leb_gt (zlen data) 0)) by lia.
    exists (inl (len - zlen data, got ++ data)), w2. split; [done|]. unfold collecting. cbn [fst snd].
    rewrite zlen_app. split_and!; try lia; [|congruence]. by rewrite Hin, He2, app_assoc.
Qed.

Lemma read_exact_split fd n w :
  0 <= n <= INT_MAX ->
  exists r got w', xvc_read_exact fd n w = Done ((r, got), w') /\ s_out fd w' = s_out fd w /\
    if n <=? zlen (s_in fd w)
    then r = 1 /\ got = take (Z.to_nat n) (s_in fd w) /\ s_in fd w' = drop (Z.to_nat n) (s_in fd w)
    else r <= 0 /\ got = s_in fd w /\ s_in fd w' = [].
Proof.
  intros Hn. destruct (read_exact_ok fd n w Hn) as (r & got & w' & E & Ho & Hin & HR).
  exists r, got, w'. split; [done|]. split; [done|]. cbn [fst snd] in *.
  destruct (n <=? zlen (s_in fd w)).
  - destruct HR as [-> Hl]. split; [done|]. rewrite Hin. unfold zlen in Hl.
    replace (Z.to_nat n) with (length got) by lia. by rewrite take_app_length, drop_app_length.
  - destruct HR as [Hr He]. split; [done|]. by rewrite Hin, He, app_nil_r.
Qed.

Lemma write_exact_ok fd buf w :
  zlen buf <= INT_MAX ->
  exists w', xvc_write_exact fd buf (zlen buf) w = Done (0, w') /\
    s_out fd w' = s_out fd w ++ buf /\ s_in fd w' = s_in fd w.
Proof.
  intros Hn. unfold INT_MAX in Hn. pose proof (zlen_nonneg buf).
  set (Inv := fun (v : Z * list Z) (w1 : W) => v.1 = zlen v.2 /\
    s_out fd w1 ++ v.2 = s_out fd w ++ buf /\ s_in fd w1 = s_in fd w).
  destruct (while_total (write_step fd) Inv (fun r w1 => r = 0 /\ Inv (0, []) w1) (fun v _ => v.1) (zlen buf, buf) w)
    as (r & w' & E & -> & _ & Ho & Hi); [|done|cbn; lia|exists w'; by rewrite app_nil_r in Ho].
  intros [len rest] w1 (Hl & Ho & Hi). cbn [fst snd] in *. subst len. unfold write_step.
  destruct (Z.ltb_spec 0 (zlen rest)) as [Hpos|Hpos].
  2: { exists (inr 0), w1. split; [done|]. split; [done|]. destruct rest; [done|].
       rewrite zlen_cons in Hpos. pose proof (zlen_nonneg rest). lia. }
  assert (Ht : take (Z.to_nat (zlen rest)) rest = rest) by (apply take_ge; unfold zlen; lia).
  rewrite Ht. destruct (write_some fd rest w1) as (Hnb & n & w2 & E2 & Hn2 & Hi2 & Ho2).
  { intros ->. change (zlen (@nil Z)) with 0 in Hpos; lia. }
  cbv zeta. erewrite bind_done; [|by apply may_block_done]. rewrite (proj2 (Z.leb_gt n 0)) by lia.
  exists (inl (zlen rest - n, drop (Z.to_nat n) rest)), w2. split; [done|]. unfold Inv. cbn [fst snd].
  split_and!; try lia; [unfold zlen in *; rewrite length_drop; lia| |congruence].
  by rewrite Ho2, <- app_assoc, take_drop.
Qed.

(** C8: fragmentation is invisible.  However the kernel splits the stream,
    [xvc_read_exact] answers 1 with exactly the next [n] bytes when the peer
    sends that many, and otherwise a value that is not 1 after the peer's last
    byte; [xvc_write_exact] hands over every byte in order.  Both come back. *)
Theorem exact_io_correct (fd n : Z) (buf : list Z) (w : W) :
  0 <= n <= INT_MAX -> zlen buf <= INT_MAX ->
  (exists r got w', xvc_read_exact fd n w = Done ((r, got), w') /\ s_out fd w' = s_out fd w /\
     if n <=? zlen (s_in fd w)
     then r = 1 /\ got = take (Z.to_nat n) (s_in fd w) /\ s_in fd w' = drop (Z.to_nat n) (s_in fd w)
     else r <= 0 /\ got = s_in fd w /\ s_in fd w' = []) /\
  (exists w', xvc_write_exact fd buf (zlen buf) w = Done (0, w') /\
     s_out fd w' = s_out fd w ++ buf /\ s_in fd w' = s_in fd w).
Proof. intros Hn Hb. split; [by apply read_exact_split|by apply write_exact_ok]. Qed.

End Stream.

(** ** Tracking the TAP state *)

(** The TMS bits [from .. from + n - 1] of a vector. *)
Definition tms_bits (l : list Z) (from n : Z) : list bool := map (lbit l) (seqZ from n).

Lemma tms_bits_app l from n m :
  0 <= n -> 0 <= m -> tms_bits l from (n + m) = tms_bits l from n ++ tms_bits l (from + n) m.
Proof. intros. unfold tms_bits. by rewrite seqZ_app, map_app. Qed.

Lemma jtag_index_bit s b : jtag_index s (Z.land b 1) = jtag_step s (Z.b2z (Z.testbit b 0)).
Proof.
  change 1 with (Z.ones 1). rewrite Z.land_ones by lia. change (2 ^ 1) with 2.
  unfold jtag_step, jtag_index. rewrite Z.bit0_mod. by destruct (b mod 2 =? 0).
Qed.

Lemma jtag_bits_run s b n k l :
  (forall i, 0 <= i < Z.of_nat n -> Z.testbit b i = lbit l (k + i)) ->
  jtag_bits s b n = jtag_run s (tms_bits l k (Z.of_nat n)).
Proof.
  revert s b k. induction n as [|n IH]; intros s b k Hb; [done|].
  cbn [jtag_bits]. rewrite jtag_index_bit, (Hb 0), Z.add_0_r by lia.
  replace (Z.of_nat (S n)) with (1 + Z.of_nat n) by lia. rewrite tms_bits_app, jtag_run_app by lia.
  rewrite (IH _ _ (k + 1)); [done|]. intros i Hi. rewrite Z.shiftr_spec, Hb by lia. f_equal. lia.
Qed.

Section Track.
Context {AD W : Type} `{Adapter AD} `{Sockets W}.

Lemma jtag_bytes_ok (s : xstate AD W) l state byte n :
  load_from (x_mem s) (vector_buf (x_ctx s)) = Some l -> 0 <= byte -> byte + Z.of_nat n <= zlen l ->
  jtag_bytes state byte n s =
    Done ((jtag_run state (tms_bits l (8 * byte) (8 * Z.of_nat n)), byte + Z.of_nat n), s).
Proof.
  intros Hl. revert state byte. induction n as [|n IH]; intros state byte Hb Hn.
  - by rewrite Z.add_0_r.
  - cbn [jtag_bytes]. unfold xctx, gets. rewrite (bind_done _ _ s (x_ctx s) s eq_refl).
    assert (E : xload (fun m => load8 m (ptr_add (vector_buf (x_ctx s)) byte)) s =
                Done (nth (Z.to_nat byte) l 0, s)).
    { unfold xload. by rewrite (load8_from _ _ _ _ Hl) by lia. }
    rewrite (bind_done _ _ _ _ _ E).
    rewrite (jtag_bits_run _ _ 8 (8 * byte) l) by (intros; by rewrite lbit_byte by lia).
    rewrite IH by lia. replace (byte + 1 + Z.of_nat n) with (byte + Z.of_nat (S n)) by lia.
    replace (8 * Z.of_nat (S n)) with (Z.of_nat 8 + 8 * Z.of_nat n) by lia.
    rewrite tms_bits_app, jtag_run_app by lia.
    by replace (8 * byte + Z.of_nat 8) with (8 * (byte + 1)) by lia.
Qed.

Lemma track_jtag_ok (s : xstate AD W) l n :
  load_from (x_mem s) (vector_buf (x_ctx s)) = Some l -> 0 <= n -> n < bits_in l ->
  track_jtag n s = Done (tt, s <| x_ctx := (x_ctx s) <| xvc_jtag_state :=
    jtag_run (xvc_jtag_state (x_ctx s)) (tms_bits l 0 n) |> |>).
Proof.
  intros Hl Hn Hlen. unfold bits_in in Hlen. pose proof (Z.div_mod n 8). pose proof (Z.mod_pos_bound n 8).
  assert (Hq : 0 <= n / 8) by (apply Z.div_pos; lia).
  unfold track_jtag, xctx, gets. rewrite (bind_done _ _ s (x_ctx s) s eq_refl).
  rewrite (bind_done _ _ _ _ _ (jtag_bytes_ok s l _ 0 (Z.to_nat (n / 8)) Hl ltac:(lia) ltac:(lia))).
  rewrite Z2Nat.id by lia. cbv beta iota. rewrite Z.add_0_l.
  assert (E : xload (fun m => load8 m (ptr_add (vector_buf (x_ctx s)) (n / 8))) s =
              Done (nth (Z.to_nat (n / 8)) l 0, s)).
  { unfold xload. by rewrite (load8_from _ _ _ _ Hl) by lia. }
  rewrite (bind_done _ _ _ _ _ E). unfold set_xctx, modify.
  rewrite (jtag_bits_run _ _ _ (8 * (n / 8)) l) by (intros; by rewrite lbit_byte by lia).
  rewrite Z2Nat.id, <- jtag_run_app by lia. change (8 * 0) with 0.
  replace (tms_bits l 0 n) with (tms_bits l 0 (8 * (n / 8) + (n - 8 * (n / 8)))) by (f_equal; lia).
  by rewrite tms_bits_app by lia.
Qed.

End Track.

(** ** The adapter as the protocol sees it *)

(** An adapter that is a bit-serial JTAG cable: its scan runs the reference of
    MpsseRefine.v, a scan of no bits is an error that does nothing, its clock
    setting answers a non-negative period and leaves the target alone. *)
Class JtagCable (AD E T : Type) `{MpsseEngine E T} `{Adapter AD} := {
  cable_ready : AD -> Prop;
  cable_state : AD -> jtag_state;
  cable_tdi : AD -> bool;
  cable_tap : AD -> T;
  cable_period : Z -> Z;
  cable_nothing : forall m ad tms tdi tdo bits, bits <= 0 -> ad_scan tms tdi tdo bits (m, ad) = Done (-1, (m, ad));
  cable_period_ok : forall p, 0 <= p < 2 ^ 32 -> 0 <= cable_period p <= INT_MAX;
  cable_set_period : forall m ad p, cable_ready ad -> 0 <= p < 2 ^ 32 ->
    exists m' ad', ad_set_period p (m, ad) = Done (cable_period p, (m', ad')) /\ cable_ready ad' /\
      mem_frame NULL m m' /\ cable_state ad' = cable_state ad /\ cable_tdi ad' = cable_tdi ad /\
      cable_tap ad' = cable_tap ad;
  cable_scan : forall m ad tms tdi bo oo dt di d bits,
    cable_ready ad -> load_from m (Ptr bo oo) = Some d -> Vectors tms tdi bo oo dt di bits m d ->
    let r := ref_run dt di (mk_ref (cable_state ad) (cable_tdi ad) (cable_tap ad) d) 0 bits in
    exists m' ad', ad_scan tms tdi (Ptr bo oo) bits (m, ad) = Done (0, (m', ad')) /\ cable_ready ad' /\
      load_from m' (Ptr bo oo) = Some (rf_tdo r) /\ mem_frame (Ptr bo oo) m m' /\
      cable_state ad' = rf_state r /\ cable_tdi ad' = rf_tdi r /\ cable_tap ad' = rf_tap r
}.

(** ** The session of a client *)

Inductive xcmd :=
  | Getinfo
  | Settck (period : Z)
  | Shift (n : Z) (tms tdi : list Z).

Definition encode (c : xcmd) : list Z :=
  match c with
  | Getinfo => bytes_of "getinfo:"
  | Settck p => bytes_of "settck:" ++ xvc_put_int32 p
  | Shift n tms tdi => bytes_of "shift:" ++ xvc_put_int32 n ++ tms ++ tdi
  end.

Definition vector_bytes (n : Z) : Z := (n + 7) / 8.

Definition wf_cmd (max : Z) (c : xcmd) : Prop :=
  match c with
  | Getinfo => True
  | Settck p => INT_MIN <= p <= INT_MAX
  | Shift n tms tdi =>
      1 <= n <= SCAN_MAX /\ vector_bytes n <= max /\ zlen tms = vector_bytes n /\ zlen tdi = vector_bytes n /\
      Forall byte_ok tms /\ Forall byte_ok tdi
  end.

(** The server's TAP state, its "seen Test-Logic-Reset" flag, and the cable. *)
Record session (T : Type) := mk_session {
  ss_jtag : jtag_state_t;
  ss_seen : bool;
  ss_state : jtag_state;
  ss_tdi : bool;
  ss_tap : T
}.
Arguments mk_session {T} _ _ _ _ _.
Arguments ss_jtag {T} _.
Arguments ss_seen {T} _.
Arguments ss_state {T} _.
Arguments ss_tdi {T} _.
Arguments ss_tap {T} _.

(** The two movements of the "Xilinx impact workaround". *)
Definition bogus (j : jtag_state_t) (n : Z) (tms : list Z) : bool :=
  match j with
  | JTAG_EXIT1_IR => (n =? 5) && (byte_at tms 0 =? 0x17)
  | JTAG_EXIT1_DR => (n =? 4) && (byte_at tms 0 =? 0x0b)
  | _ => false
  end.

Section Session.
Context {AD E T : Type} `{JtagCable AD E T} (max freq : Z).

Definition sees_tlr (ss : session T) : bool :=
  (ss_seen ss || bool_decide (ss_jtag ss = JTAG_TEST_LOGIC_RESET))
  && negb (bool_decide (ss_jtag ss = JTAG_CAPTURE_DR))
  && negb (bool_decide (ss_jtag ss = JTAG_CAPTURE_IR)).

(** The TLR flag is brought up to date before the movement. *)
Definition noted (ss : session T) : session T :=
  mk_session (ss_jtag ss) (sees_tlr ss) (ss_state ss) (ss_tdi ss) (ss_tap ss).

(** The TAP movement of a shift and its TDO bytes. *)
Definition moved (ss : session T) (n : Z) (tms tdi : list Z) : list Z * session T :=
  let zeros := replicate (Z.to_nat (vector_bytes n)) 0 in
  if bogus (ss_jtag ss) n tms then (zeros, ss)
  else
    let r := ref_run tms tdi (mk_ref (ss_state ss) (ss_tdi ss) (ss_tap ss) zeros) 0 n in
    (rf_tdo r, mk_session (jtag_run (ss_jtag ss) (tms_bits tms 0 n)) (ss_seen ss)
                 (rf_state r) (rf_tdi r) (rf_tap r)).

(** The reply to a command, the session after it, and whether the server
    returns to its caller. *)
Definition answer (ss : session T) (c : xcmd) : list Z * session T * bool :=
  match c with
  | Getinfo => (bytes_of (xvc_info max), ss, true)
  | Settck p =>
      (xvc_put_int32 (cable_period (u32 (if freq =? 0 then p else i32 (1000000000 / freq)))), ss, true)
  | Shift n tms tdi =>
      let '(tdo, ss) := moved (noted ss) n tms tdi in
      (tdo, ss, ss_seen ss && bool_decide (ss_jtag ss = JTAG_RUN_TEST_IDLE))
  end.

(** The replies to a sequence of commands up to the one after which the server
    returns, the session then, and the commands left for the next call. *)
Fixpoint converse (ss : session T) (cmds : list xcmd) : list Z * session T * option (list xcmd) :=
  match cmds with
  | [] => ([], ss, None)
  | c :: cmds =>
      let '(reply, ss, stop) := answer ss c in
      if stop then (reply, ss, Some cmds)
      else
        let '(replies, ss, rest) := converse ss cmds in
        (reply ++ replies, ss, rest)
  end.

End Session.

(** ** The reference on equal vectors *)

Section RefRun.
Context {E T : Type} `{MpsseEngine E T}.

Lemma ref_run_ext dt di dt' di' (r : ref T) from n :
  (forall j, from <= j < from + n -> lbit dt j = lbit dt' j /\ lbit di j = lbit di' j) ->
  ref_run dt di r from n = ref_run dt' di' r from n.
Proof.
  intros Hext. unfold ref_run.
  assert (Hin : Forall (fun j => lbit dt j = lbit dt' j /\ lbit di j = lbit di' j) (seqZ from n)).
  { apply Forall_forall. intros j Hj. apply elem_of_seqZ in Hj. by apply Hext. }
  clear Hext. revert r. induction Hin as [|j js [Ht Hd] _ IH]; intros r; [done|].
  cbn [fold_left]. rewrite IH. f_equal. unfold ref_step. by rewrite Ht, Hd.
Qed.

Lemma ref_run_tdo dt di (r : ref T) from n :
  Forall byte_ok (rf_tdo r) ->
  Forall byte_ok (rf_tdo (ref_run dt di r from n)) /\ zlen (rf_tdo (ref_run dt di r from n)) = zlen (rf_tdo r).
Proof.
  unfold ref_run. generalize (seqZ from n). intros js. revert r.
  induction js as [|j js IH]; intros r Hb; [done|]. cbn [fold_left].
  assert (Hs : Forall byte_ok (rf_tdo (ref_step dt di r j)) /\ zlen (rf_tdo (ref_step dt di r j)) = zlen (rf_tdo r)).
  { unfold ref_step. destruct (tap_clock _ _ _) as [t o]. cbn. destruct (is_shift _); [|done].
    split; [by apply lset_byte_ok|by apply zlen_lset]. }
  destruct Hs as [Hs1 Hs2]. destruct (IH _ Hs1) as [IH1 IH2]. split; [done|]. by rewrite IH2.
Qed.

End RefRun.

Lemma tms_bits_ext l l' from n :
  (forall j, from <= j < from + n -> lbit l j = lbit l' j) -> tms_bits l from n = tms_bits l' from n.
Proof.
  intros Hext. unfold tms_bits. apply map_ext_in. intros j Hj%list_elem_of_In%elem_of_seqZ. by apply Hext.
Qed.

(** ** Serving a client *)

(** The bytes [a] stored at [off]. *)
Definition splice (off : Z) (a l : list Z) : list Z :=
  take (Z.to_nat off) l ++ a ++ drop (Z.to_nat off + length a) l.

Lemma splice_write off a l : 0 <= off -> off + zlen a <= zlen l -> write_at off a l = Some (splice off a l).
Proof. apply write_at_ok. Qed.

Lemma zlen_splice off a l : 0 <= off -> off + zlen a <= zlen l -> zlen (splice off a l) = zlen l.
Proof.
  intros Ho Hl. unfold splice, zlen in *. rewrite !length_app, length_take, length_drop. lia.
Qed.

Lemma drop_splice off k a b l :
  0 <= off -> zlen a = k -> off + k <= zlen l ->
  drop (Z.to_nat (off + k)) (splice off (a ++ b) l) = b ++ drop (Z.to_nat off + length (a ++ b)) l.
Proof.
  intros Ho Ha Hl. unfold splice, zlen in *. rewrite <- app_assoc, app_assoc.
  rewrite drop_app_length'; [done|]. rewrite length_app, length_take. lia.
Qed.

Lemma byte_at_splice off a l i :
  0 <= off -> off + zlen a <= zlen l ->
  byte_at (splice off a l) i =
    if (off <=? Z.of_nat i) && (Z.of_nat i <? off + zlen a) then byte_at a (i - Z.to_nat off) else byte_at l i.
Proof.
  intros Ho Hl. unfold splice, byte_at, zlen in *.
  assert (Ht : length (take (Z.to_nat off) l) = Z.to_nat off) by (rewrite length_take; lia).
  zcase ((off <=? Z.of_nat i) && (Z.of_nat i <? off + Z.of_nat (length a))).
  - rewrite app_nth2, app_nth1 by lia. by rewrite Ht.
  - destruct (Z.lt_ge_cases (Z.of_nat i) off).
    + rewrite app_nth1 by lia. rewrite !nth_lookup, lookup_take_lt by lia. done.
    + rewrite !app_nth2 by lia. rewrite Ht, !nth_lookup, lookup_drop. do 2 f_equal. lia.
Qed.

Section Serve.
Context {AD E T W : Type} `{JtagCable AD E T} `{Streams W}.
Context (fd max freq : Z) (bv br : nat).
#[local] Abbreviation X := (M (xstate AD W)).

(** The protocol context of a served client and its two buffers. *)
Record Serving (s : xstate AD W) : Prop := {
  Sv_fd : socket_fd (x_ctx s) = fd;
  Sv_ftdi : xvc_ftdi (x_ctx s) = true;
  Sv_max : max_vector_size (x_ctx s) = max;
  Sv_range : 4 <= max <= XVC_MAX_VECTOR_SIZE_LIMIT;
  Sv_cmd : zlen (cmd_buf (x_ctx s)) = 16;
  Sv_vector_buf : vector_buf (x_ctx s) = Ptr bv 0;
  Sv_result_buf : result_buf (x_ctx s) = Ptr br 0;
  Sv_apart : bv <> br;
  Sv_vector : exists l, m_blocks (x_mem s) !! bv = Some l /\ zlen l = max * 2 /\ Forall byte_ok l;
  Sv_result : exists l, m_blocks (x_mem s) !! br = Some l /\ zlen l = max /\ Forall byte_ok l;
  Sv_ready : cable_ready (x_ad s)
}.

(** The session that a state is in. *)
Definition in_session (s : xstate AD W) (ss : session T) : Prop :=
  xvc_jtag_state (x_ctx s) = ss_jtag ss /\ seen_tlr (x_ctx s) = ss_seen ss /\
  cable_state (x_ad s) = ss_state ss /\ cable_tdi (x_ad s) = ss_tdi ss /\ cable_tap (x_ad s) = ss_tap ss.

Definition with_ctx (s : xstate AD W) (c : xvc_context) (w : W) : xstate AD W :=
  mk_xstate c (x_mem s) (x_ad s) w.

Lemma on_socket_done {A} (op : M W A) (s : xstate AD W) a w :
  op (x_w s) = Done (a, w) -> on_socket op s = Done (a, with_ctx s (x_ctx s) w).
Proof. intros E0. unfold on_socket, zoom. by rewrite E0. Qed.

(** A read of [a] into the command buffer. *)
Lemma read_cmd_ok (s : xstate AD W) off n a rest :
  s_in (socket_fd (x_ctx s)) (x_w s) = a ++ rest -> zlen a = n -> 0 <= off ->
  off + n <= zlen (cmd_buf (x_ctx s)) -> n <= INT_MAX ->
  exists w', read_cmd off n s =
      Done (true, with_ctx s ((x_ctx s) <| cmd_buf := splice off a (cmd_buf (x_ctx s)) |>
                                        <| bytes_rx := u64 (bytes_rx (x_ctx s) + n) |>) w') /\
    s_in (socket_fd (x_ctx s)) w' = rest /\ s_out (socket_fd (x_ctx s)) w' = s_out (socket_fd (x_ctx s)) (x_w s).
Proof.
  intros Hin Ha Ho Hoff Hn. pose proof (zlen_nonneg a).
  destruct (read_exact_split (socket_fd (x_ctx s)) n (x_w s) ltac:(lia)) as (r & got & w' & E1 & Ho1 & H1').
  rewrite Hin, (proj2 (Z.leb_le _ _)) in H1' by (rewrite zlen_app; pose proof (zlen_nonneg rest); lia).
  destruct H1' as (-> & Hg & Hr). unfold zlen in Ha. replace (Z.to_nat n) with (length a) in Hg, Hr by lia.
  rewrite take_app_length in Hg. rewrite drop_app_length in Hr. subst got.
  unfold read_cmd, xctx, gets. rewrite (bind_done _ _ s (x_ctx s) s eq_refl).
  rewrite (bind_done _ _ _ _ _ (on_socket_done _ _ _ _ E1)). cbv beta iota.
  rewrite splice_write by (unfold zlen in *; lia). cbn [of_option lift_exec].
  exists w'. split; [|done]. reflexivity.
Qed.

(** A stream that ends within the read: the client is gone. *)
Lemma read_cmd_short (s : xstate AD W) off n a :
  s_in (socket_fd (x_ctx s)) (x_w s) = a -> zlen a < n <= INT_MAX -> 0 <= off -> off + n <= zlen (cmd_buf (x_ctx s)) ->
  exists w', read_cmd off n s = Done (false, with_ctx s ((x_ctx s) <| cmd_buf := splice off a (cmd_buf (x_ctx s)) |>) w') /\
    s_in (socket_fd (x_ctx s)) w' = [] /\ s_out (socket_fd (x_ctx s)) w' = s_out (socket_fd (x_ctx s)) (x_w s).
Proof.
  intros Hin Hn Hoff Hlen. pose proof (zlen_nonneg a).
  destruct (read_exact_split (socket_fd (x_ctx s)) n (x_w s) ltac:(lia)) as (r & got & w' & E1 & Ho1 & H1').
  rewrite Hin in H1'. rewrite (proj2 (Z.leb_gt n (zlen a))) in H1' by lia.
  destruct H1' as (Hr & -> & Hi). unfold read_cmd, xctx, gets. rewrite (bind_done _ _ s (x_ctx s) s eq_refl).
  rewrite (bind_done _ _ _ _ _ (on_socket_done _ _ _ _ E1)). cbv beta iota.
  rewrite splice_write by lia. cbn [of_option lift_exec].
  exists w'. split; [|done]. unfold mbind, M_bind, set_xctx, modify. rewrite (proj2 (Z.eqb_neq r 1)) by lia. reflexivity.
Qed.

(** A reply reaches the client whole. *)
Lemma send_reply_ok (s : xstate AD W) buf n :
  zlen buf = n -> n <= INT_MAX ->
  exists w', send_reply buf n s =
      Done (true, with_ctx s ((x_ctx s) <| bytes_tx := u64 (bytes_tx (x_ctx s) + n) |>
                                        <| commands := u64 (commands (x_ctx s) + 1) |>) w') /\
    s_in (socket_fd (x_ctx s)) w' = s_in (socket_fd (x_ctx s)) (x_w s) /\
    s_out (socket_fd (x_ctx s)) w' = s_out (socket_fd (x_ctx s)) (x_w s) ++ buf.
Proof.
  intros <- Hn. destruct (write_exact_ok (socket_fd (x_ctx s)) buf (x_w s) Hn) as (w' & E1 & Ho & Hi).
  unfold send_reply, xctx, gets. rewrite (bind_done _ _ s (x_ctx s) s eq_refl).
  rewrite (bind_done _ _ _ _ _ (on_socket_done _ _ _ _ E1)). cbn [Z.ltb Z.compare].
  exists w'. split; [reflexivity|done].
Qed.

Lemma Serving_ctx (s : xstate AD W) c w :
  Serving s -> socket_fd c = socket_fd (x_ctx s) -> xvc_ftdi c = xvc_ftdi (x_ctx s) ->
  max_vector_size c = max_vector_size (x_ctx s) -> zlen (cmd_buf c) = zlen (cmd_buf (x_ctx s)) ->
  vector_buf c = vector_buf (x_ctx s) -> result_buf c = result_buf (x_ctx s) -> Serving (with_ctx s c w).
Proof. intros [] H1' H2' H3' H4' H5' H6'. split; cbn; congruence || done. Qed.

(** What a command does: the reply, the session after it, how the loop goes on. *)
Definition answered (s : xstate AD W) (o : list Z * session T * bool) (rest : list Z)
    (r : unit + Z) (s' : xstate AD W) : Prop :=
  let '(reply, ss', stop) := o in
  r = (if (stop : bool) then inr 0 else inl tt) /\ Serving s' /\ in_session s' ss' /\
  s_in fd (x_w s') = rest /\ s_out fd (x_w s') = s_out fd (x_w s) ++ reply.

Lemma zlen_bytes_of str : zlen (bytes_of str) = strlen str.
Proof.
  unfold strlen. induction str as [|c str IH]; [done|]. cbn [bytes_of String.length].
  rewrite zlen_cons, IH. lia.
Qed.

Lemma str_take_length n str : (String.length (str_take n str) <= n)%nat.
Proof.
  revert str. induction n as [|n IH]; intros [|c str]; cbn; try lia. specialize (IH str). lia.
Qed.

Lemma xvc_info_short n : zlen (bytes_of (xvc_info n)) <= 63.
Proof.
  rewrite zlen_bytes_of. unfold xvc_info, truncated, strlen.
  pose proof (str_take_length (Z.to_nat (64 - 1)) (XVC_VERSION +:+ ":" +:+ fmt_d n +:+ String LF "")%string). lia.
Qed.

(** The six bytes after "ge" are not looked at. *)
Lemma getinfo_ok (s : xstate AD W) ss a rest :
  Serving s -> in_session s ss -> zlen a = 6 -> s_in fd (x_w s) = a ++ rest ->
  exists r s', handle_getinfo (xvc_info max) s = Done (r, s') /\
    answered s (answer max freq ss Getinfo) rest r s'.
Proof.
  intros HS HI Ha Hin. pose proof HS as [F1 F2 F3 F4 F5 F6 F7 F8 F9 F10 F11]. rewrite <- F1 in Hin.
  destruct (read_cmd_ok s 2 6 a rest Hin Ha) as (w1 & E1 & I1 & O1);
    [done|lia|done|].
  unfold handle_getinfo. rewrite (bind_done _ _ _ _ _ E1). cbn [negb].
  set (s1 := with_ctx s _ w1) in *.
  assert (HS1 : Serving s1).
  { apply Serving_ctx; try done. apply zlen_splice; lia. }
  rewrite <- zlen_bytes_of.
  destruct (send_reply_ok s1 (bytes_of (xvc_info max)) _ eq_refl) as (w2 & E2 & I2 & O2).
  { pose proof (xvc_info_short max). unfold INT_MAX. lia. }
  rewrite (bind_done _ _ _ _ _ E2). cbn [negb].
  eexists _, _. split; [reflexivity|]. split; [done|]. rewrite <- F1. split; [by apply Serving_ctx|].
  split; [done|]. cbn in *. by rewrite I2, O2, I1, O1.
Qed.

(** *** Settck *)

Lemma xheap_done (f : mem -> option mem) (s : xstate AD W) m :
  f (x_mem s) = Some m -> xheap f s = Done (tt, s <| x_mem := m |>).
Proof. intros E1. unfold xheap. by rewrite E1. Qed.

Lemma xbytes_done (s : xstate AD W) p n d :
  load_bytes (x_mem s) p n = Some d -> xbytes p n s = Done (d, s).
Proof. intros E1. unfold xbytes. by rewrite E1. Qed.

Lemma on_adapter_done {A} (op : M (mem * AD) A) (s : xstate AD W) a m ad :
  op (x_mem s, x_ad s) = Done (a, (m, ad)) -> on_adapter op s = Done (a, s <| x_mem := m |> <| x_ad := ad |>).
Proof. intros E1. unfold on_adapter, zoom. by rewrite E1. Qed.

(** Serving survives any change of the heap and the adapter that keeps the two
    buffers in shape. *)
Lemma Serving_heap (s : xstate AD W) m ad :
  Serving s ->
  (exists l, m_blocks m !! bv = Some l /\ zlen l = max * 2 /\ Forall byte_ok l) ->
  (exists l, m_blocks m !! br = Some l /\ zlen l = max /\ Forall byte_ok l) ->
  cable_ready ad -> Serving (s <| x_mem := m |> <| x_ad := ad |>).
Proof. by intros [] HV HR Had. Qed.

Lemma block_load m b l : m_blocks m !! b = Some l -> load_from m (Ptr b 0) = Some l.
Proof. intros Hl. apply load_from_Ptr. exists l. pose proof (zlen_nonneg l). by split_and!. Qed.

Lemma load_block m b l : load_from m (Ptr b 0) = Some l -> m_blocks m !! b = Some l.
Proof. intros (l' & Hl & _ & ->)%load_from_Ptr. exact Hl. Qed.

(** A write to the beginning of a block. *)
Lemma store_block m b l a :
  m_blocks m !! b = Some l -> zlen a <= zlen l ->
  exists m', store_bytes m (Ptr b 0) a = Some m' /\
    m_blocks m' !! b = Some (a ++ drop (length a) l) /\ mem_frame (Ptr b 0) m m'.
Proof.
  intros Hl Ha.
  assert (Hw : write_at 0 a l = Some (a ++ drop (length a) l)) by (rewrite write_at_ok by lia; done).
  destruct (store_bytes_from m b 0 0 a l _ (block_load _ _ _ Hl) ltac:(lia) Hw) as (m' & E1 & L1 & F1).
  exists m'. split; [exact E1|]. split; [by apply load_block|done].
Qed.

Lemma drop_byte_ok n l : Forall byte_ok l -> Forall byte_ok (drop n l).
Proof. apply Forall_drop. Qed.

(** An integer stored in the result buffer and read back from it. *)
Lemma reply_stored (s : xstate AD W) v : Serving s ->
  exists m, xheap (fun m => store_bytes m (result_buf (x_ctx s)) (xvc_put_int32 v)) s = Done (tt, s <| x_mem := m |>) /\
    xbytes (result_buf (x_ctx s)) 4 (s <| x_mem := m |>) = Done (xvc_put_int32 v, s <| x_mem := m |>) /\
    Serving (s <| x_mem := m |>).
Proof.
  intros HS. pose proof HS as [_ _ _ F4 _ _ F7 F8 F9 (lr & Hlr & Zlr & Blr) F11]. rewrite F7.
  destruct (store_block (x_mem s) br lr (xvc_put_int32 v)) as (m & E3 & L3 & Fr3);
    [done|change (zlen (xvc_put_int32 v)) with 4; lia|].
  exists m. split; [by apply xheap_done|]. split.
  - apply xbytes_done. cbn [x_mem setter]. rewrite <- (ptr_add_0 (Ptr br 0)).
    apply (load_bytes_from m (Ptr br 0) _ 0 4 (block_load _ _ _ L3)); [lia|lia|].
    rewrite zlen_app. pose proof (zlen_nonneg (drop (length (xvc_put_int32 v)) lr)).
    change (zlen (xvc_put_int32 v)) with 4. lia.
  - apply (Serving_heap s m (x_ad s)); try done.
    + by rewrite (mem_frame_other _ _ _ _ _ Fr3 F8).
    + eexists. split; [exact L3|]. split.
      * rewrite zlen_app. unfold zlen in *. rewrite length_drop. cbn [length xvc_put_int32]. lia.
      * apply Forall_app. split; [apply put_int32_ok|by apply drop_byte_ok].
Qed.

(** The five bytes after "se" are not looked at. *)
Lemma settck_ok (s : xstate AD W) ss a b rest :
  let p := xvc_get_int32 b in
  Serving s -> in_session s ss -> zlen a = 5 -> zlen b = 4 -> s_in fd (x_w s) = a ++ b ++ rest ->
  exists r s', handle_settck freq s = Done (r, s') /\
    answered s (answer max freq ss (Settck p)) rest r s'.
Proof.
  intros p HS HI Ha Hb Hin. pose proof HS as [F1 F2 F3 F4 F5 F6 F7 F8 F9 F10 F11]. rewrite <- F1 in Hin.
  rewrite app_assoc in Hin. assert (Hlen : zlen (a ++ b) = 9) by (rewrite zlen_app; lia).
  destruct (read_cmd_ok s 2 9 (a ++ b) rest Hin) as (w1 & E1 & I1 & O1);
    [done|lia|lia|done|].
  unfold handle_settck. rewrite (bind_done _ _ _ _ _ E1). cbn [negb].
  set (buf := splice 2 (a ++ b) (cmd_buf (x_ctx s))) in *.
  assert (Hbuf : xvc_get_int32 (drop 7 buf) = p).
  { subst buf. change 7%nat with (Z.to_nat (2 + 5)). rewrite (drop_splice 2 5) by (done || lia).
    by rewrite get_int32_prefix. }
  set (s1 := with_ctx s _ w1) in *.
  assert (HS1 : Serving s1).
  { apply Serving_ctx; try done. apply zlen_splice; rewrite ?Hlen; lia. }
  unfold xctx, gets. rewrite (bind_done _ _ s1 (x_ctx s1) s1 eq_refl).
  change (xvc_ftdi (x_ctx s1)) with (xvc_ftdi (x_ctx s)). rewrite F2.
  change (cmd_buf (x_ctx s1)) with buf. rewrite Hbuf. cbv zeta.
  set (period := if freq =? 0 then p else i32 (1000000000 / freq)).
  destruct (cable_set_period (x_mem s1) (x_ad s1) (u32 period) F11 (u32_range _)) as (m' & ad' & E2 & R2 & M2 & C1 & C2 & C3).
  rewrite (bind_done _ _ _ _ _ (on_adapter_done _ _ _ _ _ E2)).
  pose proof (cable_period_ok (u32 period) (u32_range _)) as Hcp. rewrite (proj2 (Z.ltb_ge _ _)) by lia.
  set (actual := cable_period (u32 period)) in *.
  destruct M2 as (_ & _ & _ & Hblk). change (x_mem s1) with (x_mem s) in Hblk.
  assert (HS' : Serving (s1 <| x_mem := m' |> <| x_ad := ad' |>)) by (by apply Serving_heap; rewrite ?Hblk).
  destruct (reply_stored _ actual HS') as (m2 & E3 & E4 & HS2). change (x_ctx (setter x_ad _ _)) with (x_ctx s1) in E3, E4.
  rewrite (bind_done _ _ _ _ _ E3), (bind_done _ _ _ _ _ E4).
  match type of HS2 with Serving ?s => set (s2 := s) in * end.
  destruct (send_reply_ok s2 (xvc_put_int32 actual) 4 eq_refl) as (w2 & E5 & I4 & O4); [done|].
  rewrite (bind_done _ _ _ _ _ E5). cbn [negb].
  eexists _, _. split; [reflexivity|]. split; [done|]. rewrite <- F1. split; [by apply Serving_ctx|].
  destruct HI as (J1 & J2 & J3 & J4 & J5). split.
  - split_and!; [exact J1|exact J2|exact (eq_trans C1 J3)|exact (eq_trans C2 J4)|exact (eq_trans C3 J5)].
  - cbn in *. by rewrite I4, O4, I1, O1.
Qed.

(** *** Shift *)

Lemma vector_bytes_range n : 0 <= n -> 8 * vector_bytes n - 7 <= n <= 8 * vector_bytes n.
Proof.
  intros. unfold vector_bytes. pose proof (Z.div_mod (n + 7) 8). pose proof (Z.mod_pos_bound (n + 7) 8). lia.
Qed.

Lemma lbit_prefix a b j : 0 <= j < bits_in a -> lbit (a ++ b) j = lbit a j.
Proof. apply lbit_app_l. Qed.

(** The vectors of a shift, one after the other in the vector buffer, and the
    cleared result buffer. *)
Lemma cable_vectors_ok m ad tms tdi tl R n :
  let nr := vector_bytes n in
  let zeros := replicate (Z.to_nat nr) 0 in
  let r := ref_run tms tdi (mk_ref (cable_state ad) (cable_tdi ad) (cable_tap ad) zeros) 0 n in
  cable_ready ad -> 1 <= n <= SCAN_MAX -> zlen tms = nr -> zlen tdi = nr -> Forall byte_ok (tms ++ tdi ++ tl) ->
  m_blocks m !! bv = Some (tms ++ tdi ++ tl) -> bv <> br ->
  m_blocks m !! br = Some (zeros ++ R) -> Forall byte_ok R ->
  exists m' ad', ad_scan (Ptr bv 0) (Ptr bv nr) (Ptr br 0) n (m, ad) = Done (0, (m', ad')) /\ cable_ready ad' /\
    m_blocks m' !! br = Some (rf_tdo r ++ R) /\ m_blocks m' !! bv = Some (tms ++ tdi ++ tl) /\
    Forall byte_ok (rf_tdo r) /\ zlen (rf_tdo r) = nr /\
    cable_state ad' = rf_state r /\ cable_tdi ad' = rf_tdi r /\ cable_tap ad' = rf_tap r /\
    mem_frame (Ptr br 0) m m'.
Proof.
  intros nr zeros r Had Hn Ht Hd Hb Hv Hne Hr HR.
  pose proof (vector_bytes_range n ltac:(lia)) as Hnr. fold nr in Hnr.
  assert (Hz : zlen zeros = nr) by (apply zlen_replicate; lia).
  assert (Hzb : Forall byte_ok zeros) by (apply Forall_replicate; unfold byte_ok; lia).
  pose proof (zlen_nonneg tl). pose proof (zlen_nonneg R).
  apply Forall_app in Hb as [Hbt [Hbd Hbl]%Forall_app].
  assert (Hdi : load_from m (Ptr bv nr) = Some (tdi ++ tl)).
  { apply load_from_Ptr. eexists. split; [exact Hv|]. rewrite !zlen_app. split; [lia|].
    unfold zlen in Ht. replace (Z.to_nat nr) with (length tms) by lia. by rewrite drop_app_length. }
  destruct (cable_scan m ad (Ptr bv 0) (Ptr bv nr) br 0 (tms ++ tdi ++ tl) (tdi ++ tl) (zeros ++ R) n Had
              (block_load _ _ _ Hr)) as (m' & ad' & E1 & R1 & L1 & F1 & C1 & C2 & C3).
  { split; cbn [apart]; try done.
    - by apply block_load.
    - by apply Forall_app.
    - by apply Forall_app.
    - unfold bits_in. rewrite !zlen_app. lia.
    - unfold bits_in. rewrite !zlen_app. lia.
    - rewrite zlen_app. lia. }
  rewrite (ref_run_ext _ _ tms tdi) in L1, C1, C2, C3.
  2-5: intros j Hj; by rewrite !lbit_prefix by (unfold bits_in; lia).
  pose proof (ref_run_shift tms tdi (cable_state ad) (cable_tdi ad) (cable_tap ad) [] zeros R 0 n eq_refl) as Hs.
  destruct Hs as [Hs1 Hs2]; [unfold bits_in; lia|]. cbn [app] in Hs1. change (8 * 0) with 0 in Hs1.
  change (ref_run (drop (Z.to_nat 0) tms) (drop (Z.to_nat 0) tdi)) with (ref_run tms tdi) in Hs1, Hs2.
  fold r in Hs1, Hs2. rewrite Hs1 in L1, C1, C2, C3. cbn [rf_tdo rf_state rf_tdi rf_tap] in *.
  exists m', ad'. split_and!; try done.
  - by apply load_block.
  - by rewrite (mem_frame_other _ _ _ _ _ F1).
  - apply (ref_run_tdo tms tdi (mk_ref _ _ _ zeros) 0 n Hzb).
  - by rewrite Hs2.
Qed.

(** Reading the vectors. *)
Lemma read_vectors_ok (s : xstate AD W) n a rest :
  Serving s -> s_in fd (x_w s) = a ++ rest -> zlen a = n -> n <= max * 2 ->
  exists l m' w', read_vectors n s =
      Done (true, mk_xstate ((x_ctx s) <| bytes_rx := u64 (bytes_rx (x_ctx s) + n) |>) m' (x_ad s) w') /\
    m_blocks m' !! bv = Some (a ++ l) /\ Forall byte_ok l /\ zlen (a ++ l) = max * 2 /\
    mem_frame (Ptr bv 0) (x_mem s) m' /\
    s_in fd w' = rest /\ s_out fd w' = s_out fd (x_w s).
Proof.
  intros HS Hin Ha Hn. pose proof HS as [F1 F2 F3 F4 F5 F6 F7 F8 (lv & F9 & Zlv & Blv) F10 F11].
  unfold XVC_MAX_VECTOR_SIZE_LIMIT in F4. pose proof (zlen_nonneg a).
  destruct (read_exact_split fd n (x_w s)) as (r & got & w' & E1 & Ho1 & H1'); [unfold INT_MAX; lia|].
  rewrite Hin, (proj2 (Z.leb_le _ _)) in H1' by (rewrite zlen_app; pose proof (zlen_nonneg rest); lia).
  destruct H1' as (-> & Hg & Hr). unfold zlen in Ha. replace (Z.to_nat n) with (length a) in Hg, Hr by lia.
  rewrite take_app_length in Hg. rewrite drop_app_length in Hr. subst got.
  destruct (store_block (x_mem s) bv lv a F9) as (m' & E2 & L2 & Fr2); [unfold zlen in *; lia|].
  exists (drop (length a) lv), m', w'. split_and!; try done.
  - unfold read_vectors, xctx, gets. rewrite (bind_done _ _ s (x_ctx s) s eq_refl). rewrite F1.
    rewrite (bind_done _ _ _ _ _ (on_socket_done _ _ _ _ E1)). cbv beta iota.
    erewrite bind_done; [|apply xheap_done; cbn [x_mem with_ctx]; rewrite F6; exact E2]. reflexivity.
  - by apply drop_byte_ok.
  - rewrite zlen_app. unfold zlen in *. rewrite length_drop. lia.
Qed.

(** The test for the movements to skip. *)
Lemma bogus_movement_ok (s : xstate AD W) n tms l :
  vector_buf (x_ctx s) = Ptr bv 0 -> m_blocks (x_mem s) !! bv = Some (tms ++ l) -> 1 <= zlen tms ->
  bogus_movement n s = Done (bogus (xvc_jtag_state (x_ctx s)) n tms, s).
Proof.
  intros Hv Hl Hn.
  assert (E1 : xload (fun m => load8 m (vector_buf (x_ctx s))) s = Done (byte_at tms 0, s)).
  { unfold xload. rewrite Hv, <- (ptr_add_0 (Ptr bv 0)).
    rewrite (load8_from _ _ _ _ (block_load _ _ _ Hl)) by (rewrite zlen_app; pose proof (zlen_nonneg l); lia).
    change (Z.to_nat 0) with 0%nat. rewrite app_nth1 by (unfold zlen in Hn; lia). done. }
  unfold bogus_movement, bogus, xctx, gets. rewrite (bind_done _ _ s (x_ctx s) s eq_refl).
  destruct (xvc_jtag_state (x_ctx s)); try done.
  - destruct (n =? 4); [|done]. by rewrite (bind_done _ _ _ _ _ E1).
  - destruct (n =? 5); [|done]. by rewrite (bind_done _ _ _ _ _ E1).
Qed.

Lemma shift_reply_ok (s : xstate AD W) p d R n :
  p = Ptr br 0 -> m_blocks (x_mem s) !! br = Some (d ++ R) -> zlen d = n -> 1 <= n <= INT_MAX ->
  exists w', shift_reply p n s =
      Done (inl tt, with_ctx s ((x_ctx s) <| bytes_tx := u64 (bytes_tx (x_ctx s) + n) |>
                                          <| commands := u64 (commands (x_ctx s) + 1) |>) w') /\
    s_in (socket_fd (x_ctx s)) w' = s_in (socket_fd (x_ctx s)) (x_w s) /\
    s_out (socket_fd (x_ctx s)) w' = s_out (socket_fd (x_ctx s)) (x_w s) ++ d.
Proof.
  intros -> Hl Hd Hn. unfold shift_reply. rewrite (proj2 (Z.ltb_lt 0 n)) by lia.
  assert (E1 : xbytes (Ptr br 0) n s = Done (d, s)).
  { apply xbytes_done. rewrite <- (ptr_add_0 (Ptr br 0)).
    rewrite (load_bytes_from _ _ _ 0 n (block_load _ _ _ Hl));
      [|lia|lia|rewrite zlen_app; pose proof (zlen_nonneg R); lia].
    change (Z.to_nat 0) with 0%nat. rewrite drop_0. unfold zlen in Hd.
    replace (Z.to_nat n) with (length d) by lia. by rewrite take_app_length. }
  rewrite (bind_done _ _ _ _ _ E1).
  destruct (send_reply_ok s d n Hd ltac:(lia)) as (w' & E2 & I2 & O2).
  rewrite (bind_done _ _ _ _ _ E2). cbn [negb]. by exists w'.
Qed.

Lemma movement_ok (s : xstate AD W) c ss n tms tdi tl R :
  let nr := vector_bytes n in
  let o := moved ss n tms tdi in
  Serving s -> xvc_ftdi c = true -> vector_buf c = Ptr bv 0 -> result_buf c = Ptr br 0 ->
  in_session s ss -> 1 <= n <= SCAN_MAX -> zlen tms = nr -> zlen tdi = nr -> Forall byte_ok (tms ++ tdi ++ tl) ->
  m_blocks (x_mem s) !! bv = Some (tms ++ tdi ++ tl) ->
  m_blocks (x_mem s) !! br = Some (replicate (Z.to_nat nr) 0 ++ R) ->
  exists s', movement c nr n s = Done (0, s') /\ Serving s' /\ in_session s' o.2 /\ x_w s' = x_w s /\
    m_blocks (x_mem s') !! br = Some (o.1 ++ R) /\ zlen o.1 = nr /\ (mem_wf (x_mem s) -> mem_wf (x_mem s')).
Proof.
  intros nr o HS Hf Hvb Hrb HI Hn Ht Hd Hb Hv Hr.
  pose proof HS as [F1 F2 F3 F4 F5 F6 F7 F8 (lv & F9 & Zlv & Blv) (lr & F10 & Zlr & Blr) F11].
  pose proof (vector_bytes_range n ltac:(lia)) as Hnr. fold nr in Hnr.
  assert (HR : Forall byte_ok R) by (rewrite F10 in Hr; injection Hr as ->; by apply Forall_app in Blr as [_ ?]).
  destruct HI as (J1 & J2 & J3 & J4 & J5).
  unfold movement. rewrite (bind_done _ _ _ _ _ (bogus_movement_ok s n tms _ F6 Hv ltac:(lia))). rewrite J1.
  unfold o, moved. destruct (bogus (ss_jtag ss) n tms) eqn:Eb; cbn [fst snd].
  - exists s. split_and!; try done. apply zlen_replicate. lia.
  - assert (Hn8 : n < bits_in (tms ++ tdi ++ tl)).
    { unfold bits_in. rewrite !zlen_app. pose proof (zlen_nonneg tl). lia. }
    rewrite (bind_done _ _ _ _ _ (track_jtag_ok s _ n (eq_trans (f_equal _ F6) (block_load _ _ _ Hv)) ltac:(lia) Hn8)).
    set (s1 := setter x_ctx _ _). rewrite Hf, Hvb, Hrb.
    destruct (cable_vectors_ok (x_mem s) (x_ad s) tms tdi tl R n F11 Hn Ht Hd Hb Hv F8 Hr HR)
      as (m' & ad' & E2 & R2 & B1 & B2 & B3 & B4 & C1 & C2 & C3 & Fr).
    cbv zeta in *. rewrite J3, J4, J5 in B1, B3, B4, C1, C2, C3.
    set (r := ref_run _ _ _ _ _) in *.
    exists (s1 <| x_mem := m' |> <| x_ad := ad' |>).
    split_and!; try done.
    + change (ptr_add (Ptr bv 0) nr) with (Ptr bv nr). by apply on_adapter_done.
    + apply (Serving_heap s1 m' ad'); [by apply (Serving_ctx s)| | |done].
      * eexists. split; [exact B2|]. split; [|done]. rewrite F9 in Hv. by injection Hv as <-.
      * eexists. split; [exact B1|]. split; [|by apply Forall_app].
        rewrite F10 in Hr. injection Hr as ->. rewrite zlen_app, zlen_replicate in Zlr by lia.
        rewrite zlen_app, B4. done.
    + split_and!; try done. cbn. rewrite J1. f_equal. apply tms_bits_ext. intros j Hj.
      rewrite lbit_prefix; [done|]. unfold bits_in. lia.
    + by apply (mem_frame_wf _ _ _ Fr).
Qed.

(** How a shift leaves the state: it always goes on with the loop condition. *)
Definition shifted (s : xstate AD W) (o : list Z * session T) (rest : list Z) (r : unit + Z) (s' : xstate AD W) : Prop :=
  r = inl tt /\ Serving s' /\ in_session s' o.2 /\ s_in fd (x_w s') = rest /\ s_out fd (x_w s') = s_out fd (x_w s) ++ o.1.

(** The clearing of the result and the note of the TLR flag. *)
Lemma note_ok (s : xstate AD W) ss lr nr :
  Serving s -> in_session s ss -> m_blocks (x_mem s) !! br = Some lr -> 0 <= nr <= max -> 
  exists m', memset (x_mem s) (Ptr br 0) 0 nr = Some m' /\ m_blocks m' !! br = Some (cleared nr lr) /\
    m_blocks m' !! bv = m_blocks (x_mem s) !! bv /\ mem_frame (Ptr br 0) (x_mem s) m' /\
    exists s', note_tlr (s <| x_mem := m' |>) = Done (tt, s') /\
      x_mem s' = m' /\ x_w s' = x_w s /\ Serving s' /\ in_session s' (noted ss).
Proof.
  intros HS HI Hl Hn. pose proof HS as [F1 F2 F3 F4 F5 F6 F7 F8 F9 (lr' & F10 & Zlr & Blr) F11].
  rewrite F10 in Hl. injection Hl as ->. unfold XVC_MAX_VECTOR_SIZE_LIMIT in F4.
  destruct (memset_ok (x_mem s) br 0 lr nr (block_load _ _ _ F10)) as (m' & E1 & L1 & Fr1); [lia|lia|].
  pose proof (mem_frame_other _ _ _ _ _ Fr1 F8) as Hbv.
  exists m'. split; [done|]. split; [by apply load_block|]. split; [done|]. split; [done|].
  eexists. split; [reflexivity|]. split; [done|]. split; [done|]. split.
  - assert (HSm : Serving (mk_xstate (x_ctx s) m' (x_ad s) (x_w s))).
    2: { by apply (Serving_ctx _ _ (x_w s) HSm). }
    apply (Serving_heap s m' (x_ad s)); try done.
    + by rewrite Hbv.
    + eexists. split; [by apply load_block|]. unfold cleared. split.
      * rewrite zlen_app, zlen_replicate by lia. unfold zlen in *. rewrite length_drop. lia.
      * apply Forall_app. split; [apply Forall_replicate; unfold byte_ok; lia|by apply drop_byte_ok].
  - destruct HI as (J1 & J2 & J3 & J4 & J5). split_and!; cbn; try done. by rewrite J1, J2.
Qed.

Lemma shift_vectors_ok (s : xstate AD W) ss n tms tdi rest :
  Serving s -> in_session s ss -> wf_cmd max (Shift n tms tdi) -> s_in fd (x_w s) = tms ++ tdi ++ rest ->
  exists r s', shift_vectors n s = Done (r, s') /\ shifted s (moved (noted ss) n tms tdi) rest r s'.
Proof.
  intros HS HI (Hn & Hmax & Ht & Hd & Bt & Bd) Hin. pose proof HS as [F1 F2 F3 F4 F5 F6 F7 F8 F9 F10 F11].
  pose proof (vector_bytes_range n ltac:(lia)) as Hnr. unfold SCAN_MAX in Hn. unfold XVC_MAX_VECTOR_SIZE_LIMIT in F4.
  unfold shift_vectors. rewrite (int_arith_ok (n + 7)) by (unfold INT_MIN, INT_MAX; lia). cbn [lift_exec].
  rewrite (bind_done _ _ s (n + 7) s eq_refl). cbv zeta. rewrite Z.quot_div_nonneg by lia. fold (vector_bytes n).
  set (nr := vector_bytes n) in *.
  unfold xctx, gets. rewrite (bind_done _ _ s (x_ctx s) s eq_refl). rewrite F3, (proj2 (Z.ltb_ge max nr)) by lia.
  rewrite app_assoc in Hin.
  destruct (read_vectors_ok s (nr * 2) (tms ++ tdi) rest HS Hin) as (tl & m1 & w1 & E1 & B1 & Btl & Z1 & Fr1 & I1 & O1);
    [rewrite zlen_app; lia|lia|].
  rewrite (bind_done _ _ _ _ _ E1). cbn [negb]. set (s1 := mk_xstate _ m1 _ w1) in *.
  rewrite <- app_assoc in B1, Z1.
  assert (Hb : Forall byte_ok (tms ++ tdi ++ tl)) by (apply Forall_app; split; [|apply Forall_app]; done).
  destruct F10 as (lr & F10 & Zlr & Blr).
  assert (B1r : m_blocks m1 !! br = Some lr) by (by rewrite (mem_frame_other _ _ _ _ _ Fr1)).
  assert (HS1 : Serving s1).
  { assert (HSm : Serving (mk_xstate (x_ctx s) m1 (x_ad s) (x_w s))).
    { apply (Serving_heap s m1 (x_ad s)); try done; eauto. }
    by apply (Serving_ctx _ _ w1 HSm). }
  destruct (note_ok s1 ss lr nr HS1 HI B1r ltac:(lia)) as (m2 & E2 & L2 & V2 & _ & s2 & N2 & M2 & W2 & HS2 & HI2).
  rewrite F7. erewrite bind_done; [|by apply xheap_done].
  rewrite (bind_done _ _ _ _ _ N2).
  destruct (movement_ok s2 (x_ctx s) (noted ss) n tms tdi tl (drop (Z.to_nat nr) lr) HS2 F2 F6 F7 HI2)
    as (s3 & E3 & HS3 & HI3 & W3 & B3 & Z3 & _);
    [unfold SCAN_MAX; lia|done|done|done|by rewrite M2, V2|by rewrite M2|].
  rewrite (bind_done _ _ _ _ _ E3). cbn [Z.ltb Z.compare].
  destruct (shift_reply_ok s3 (Ptr br 0) _ _ nr eq_refl B3 Z3) as (w4 & E4 & I4 & O4); [unfold INT_MAX; lia|].
  rewrite (Sv_fd _ HS3) in I4, O4.
  eexists _, _. split; [exact E4|]. split; [done|]. split; [by apply Serving_ctx|]. split; [exact HI3|].
  cbn [x_w with_ctx]. rewrite I4, O4, W3, W2. by rewrite <- I1, <- O1.
Qed.

(** The same up to what the cable and the client have seen. *)
Definition unheard (s s' : xstate AD W) : Prop :=
  Serving s' /\ s_out fd (x_w s') = s_out fd (x_w s) /\ x_ad s' = x_ad s /\
  (forall ss, in_session s ss -> in_session s' ss).

Lemma cmd_buf_unheard (s : xstate AD W) c w :
  Serving s -> s_out fd w = s_out fd (x_w s) -> socket_fd c = socket_fd (x_ctx s) -> xvc_ftdi c = xvc_ftdi (x_ctx s) ->
  max_vector_size c = max_vector_size (x_ctx s) -> zlen (cmd_buf c) = zlen (cmd_buf (x_ctx s)) ->
  vector_buf c = vector_buf (x_ctx s) -> result_buf c = result_buf (x_ctx s) ->
  xvc_jtag_state c = xvc_jtag_state (x_ctx s) -> seen_tlr c = seen_tlr (x_ctx s) -> unheard s (with_ctx s c w).
Proof.
  intros HS Ho C1 C2 C3 C4 C5 C6 C7 C8. split; [by apply Serving_ctx|]. split; [done|]. split; [done|].
  intros ss (J1 & J2 & J3). split; [exact (eq_trans C7 J1)|]. split; [exact (eq_trans C8 J2)|done].
Qed.

(** A read into the command buffer, in terms of the served client. *)
Lemma read_cmd_served (s : xstate AD W) off n a rest :
  Serving s -> s_in fd (x_w s) = a ++ rest -> zlen a = n -> 0 <= off -> off + n <= 16 ->
  exists s', read_cmd off n s = Done (true, s') /\ unheard s s' /\ s_in fd (x_w s') = rest /\
    cmd_buf (x_ctx s') = splice off a (cmd_buf (x_ctx s)).
Proof.
  intros HS Hin Ha Hoff Hn. pose proof (Sv_cmd _ HS) as F5. pose proof (Sv_fd _ HS) as F1. rewrite <- F1 in Hin.
  pose proof (zlen_nonneg a).
  destruct (read_cmd_ok s off n a rest Hin Ha) as (w1 & E1 & I1 & O1); [done|lia|unfold INT_MAX; lia|].
  eexists. split; [exact E1|]. rewrite F1 in *. split; [|done].
  apply cmd_buf_unheard; try done. apply zlen_splice; lia.
Qed.

Lemma read_cmd_gone (s : xstate AD W) off n a :
  Serving s -> s_in fd (x_w s) = a -> zlen a < n -> 0 <= off -> off + n <= 16 ->
  exists s', read_cmd off n s = Done (false, s') /\ unheard s s' /\ s_in fd (x_w s') = [].
Proof.
  intros HS Hin Ha Hoff Hn. pose proof (Sv_cmd _ HS) as F5. pose proof (Sv_fd _ HS) as F1. rewrite <- F1 in Hin.
  pose proof (zlen_nonneg a).
  destruct (read_cmd_short s off n a Hin) as (w1 & E1 & I1 & O1); [unfold INT_MAX; lia|done|lia|].
  eexists. split; [exact E1|]. rewrite F1 in *. split; [|done].
  apply cmd_buf_unheard; try done. apply zlen_splice; lia.
Qed.

(** The four bytes after "sh" are not looked at, apart from the third. *)
Lemma handle_shift_tag (s : xstate AD W) a rest :
  Serving s -> s_in fd (x_w s) = a ++ rest -> zlen a = 4 -> byte_at a 2 <> 0x65 -> byte_at a 2 <> 0x45 ->
  exists s', handle_shift s = shift_length s' /\ unheard s s' /\ s_in fd (x_w s') = rest.
Proof.
  intros HS Hin Ha N1 N2. destruct (read_cmd_served s 2 4 a rest HS Hin Ha) as (s1 & E1 & U1 & I1 & B1); [done|done|].
  unfold handle_shift. rewrite (bind_done _ _ _ _ _ E1). cbn [negb].
  unfold xctx, gets. rewrite (bind_done _ _ s1 (x_ctx s1) s1 eq_refl).
  assert (B4 : byte_at (cmd_buf (x_ctx s1)) 4 = byte_at a 2).
  { rewrite B1, byte_at_splice by (rewrite ?(Sv_cmd _ HS); lia). by rewrite Ha. }
  rewrite B4, (proj2 (Z.eqb_neq _ _) N1), (proj2 (Z.eqb_neq _ _) N2). cbn [orb].
  rewrite (bind_done _ _ s1 true s1 eq_refl). by exists s1.
Qed.

Lemma shift_length_ok (s : xstate AD W) b rest :
  Serving s -> s_in fd (x_w s) = b ++ rest -> zlen b = 4 ->
  exists s', shift_length s = shift_vectors (xvc_get_int32 b) s' /\ unheard s s' /\ s_in fd (x_w s') = rest.
Proof.
  intros HS Hin Hb. destruct (read_cmd_served s 6 4 b rest HS Hin Hb) as (s1 & E1 & U1 & I1 & B1); [done|done|].
  unfold shift_length. rewrite (bind_done _ _ _ _ _ E1). cbn [negb].
  unfold xctx, gets. rewrite (bind_done _ _ s1 (x_ctx s1) s1 eq_refl). pose proof (Sv_cmd _ HS) as F5.
  rewrite B1. change b with ([] ++ b) at 1. change 6%nat with (Z.to_nat (6 + 0)).
  rewrite (drop_splice 6 0) by (done || lia). rewrite (get_int32_prefix b) by done. by exists s1.
Qed.

Lemma unheard_trans s1 s2 s3 : unheard s1 s2 -> unheard s2 s3 -> unheard s1 s3.
Proof. intros (A1 & B1 & C1 & D1) (A2 & B2 & C2 & D2). split_and!; [done|congruence..|auto]. Qed.

Lemma handle_shift_header (s : xstate AD W) a b rest :
  Serving s -> s_in fd (x_w s) = a ++ b ++ rest -> zlen a = 4 -> zlen b = 4 ->
  byte_at a 2 <> 0x65 -> byte_at a 2 <> 0x45 ->
  exists s', handle_shift s = shift_vectors (xvc_get_int32 b) s' /\ unheard s s' /\ s_in fd (x_w s') = rest.
Proof.
  intros HS Hin Ha Hb N1 N2. destruct (handle_shift_tag s a _ HS Hin Ha N1 N2) as (s1 & E1 & U1 & I1).
  destruct (shift_length_ok s1 b rest (proj1 U1) I1 Hb) as (s2 & E2 & U2 & I2).
  exists s2. split; [congruence|]. split; [by eapply unheard_trans|done].
Qed.

Lemma handle_shift_ok (s : xstate AD W) ss n tms tdi rest :
  Serving s -> in_session s ss -> wf_cmd max (Shift n tms tdi) ->
  s_in fd (x_w s) = drop 2 (encode (Shift n tms tdi)) ++ rest ->
  exists r s', handle_shift s = Done (r, s') /\ shifted s (moved (noted ss) n tms tdi) rest r s'.
Proof.
  intros HS HI Hwf Hin.
  change (drop 2 (encode (Shift n tms tdi))) with (bytes_of "ift:" ++ xvc_put_int32 n ++ tms ++ tdi) in Hin.
  rewrite <- !app_assoc in Hin.
  destruct (handle_shift_header s _ _ _ HS Hin) as (s2 & E1 & (HS2 & O2 & _ & HI2) & I2); [done..|].
  rewrite put_get_int32 in E1.
  2: { destruct Hwf as [[Hn1 Hn2] _]. unfold SCAN_MAX in Hn2. unfold INT_MIN, INT_MAX. lia. }
  destruct (shift_vectors_ok s2 ss n tms tdi rest HS2 (HI2 _ HI) Hwf I2) as (r & s' & E3 & R1 & R2 & R3 & R4 & R5).
  exists r, s'. split; [by rewrite E1|]. split_and!; try done. by rewrite R5, O2.
Qed.

Lemma handle_command_ok (s : xstate AD W) ss c rest :
  Serving s -> in_session s ss -> wf_cmd max c -> s_in fd (x_w s) = encode c ++ rest ->
  exists r s', handle_command (xvc_info max) freq tt s = Done (r, s') /\
    answered s (answer max freq ss c) rest r s'.
Proof.
  intros HS HI Hwf Hin. pose proof HS as [F1 F2 F3 F4 F5 F6 F7 F8 F9 F10 F11].
  assert (Hsplit : encode c = take 2 (encode c) ++ drop 2 (encode c)) by (by rewrite take_drop).
  rewrite Hsplit, <- app_assoc, <- F1 in Hin. assert (Hz : zlen (take 2 (encode c)) = 2) by (by destruct c).
  destruct (read_cmd_ok s 0 2 (take 2 (encode c)) _ Hin Hz) as (w1 & E1 & I1 & O1); [done|lia|done|].
  unfold handle_command. rewrite (bind_done _ _ _ _ _ E1). cbn [negb].
  set (buf := splice 0 (take 2 (encode c)) (cmd_buf (x_ctx s))) in *.
  set (s1 := with_ctx s _ w1) in *.
  assert (Z1 : zlen buf = 16) by (subst buf; rewrite zlen_splice; [done|done|rewrite F5, Hz; done]).
  assert (HS1 : Serving s1) by (apply Serving_ctx; try done; rewrite F5; exact Z1).
  assert (Hb : forall i, (i < 2)%nat -> byte_at buf i = byte_at (take 2 (encode c)) i).
  { intros i Hi. subst buf. rewrite byte_at_splice, Hz by (done || rewrite F5, Hz; done).
    rewrite (proj2 (Z.leb_le _ _)), (proj2 (Z.ltb_lt _ _)) by lia. cbn [andb]. f_equal. lia. }
  unfold xctx, gets. rewrite (bind_done _ _ s1 (x_ctx s1) s1 eq_refl).
  change (cmd_buf (x_ctx s1)) with buf. unfold is_cmd. rewrite !Hb by lia.
  rewrite F1 in I1, O1.
  assert (HI1 : in_session s1 ss) by exact HI.
  assert (Hans : forall h o, (exists r s', h s1 = Done (r, s') /\ answered s1 o rest r s') ->
            o.2 = true ->
            exists r s', (r ← h; loop_condition r) s1 = Done (r, s') /\ answered s o rest r s').
  { intros h [[reply ss'] stop] (r & s' & E2 & A) Hstop. cbn in Hstop. subst stop. destruct A as (-> & A2 & A3 & A4 & A5).
    rewrite (bind_done _ _ _ _ _ E2). eexists _, _. split; [reflexivity|]. split_and!; try done.
    cbn [x_w with_ctx s1] in A5. by rewrite A5, O1. }
  destruct c as [|p|n tms tdi].
  - refine (Hans _ _ (getinfo_ok s1 ss _ rest HS1 HI1 _ I1) eq_refl). done.
  - rewrite <- (put_get_int32 p Hwf).
    refine (Hans _ _ (settck_ok s1 ss (bytes_of "ttck:") (xvc_put_int32 p) rest HS1 HI1 _ _ I1) eq_refl); done.
  - clear Hans. destruct (handle_shift_ok s1 ss n tms tdi rest HS1 HI1 Hwf I1) as (r & s' & E2 & R1 & R2 & R3 & R4 & R5).
    subst r. cbn. rewrite (bind_done _ _ _ _ _ E2). unfold loop_condition, xctx, gets. rewrite (bind_done _ _ s' (x_ctx s') s' eq_refl).
    unfold answer. destruct (moved (noted ss) n tms tdi) as [tdo ss'] eqn:Em. cbn [fst snd] in *.
    pose proof R3 as (J1 & J2 & _). rewrite J1, J2.
    destruct (ss_seen ss' && bool_decide (ss_jtag ss' = JTAG_RUN_TEST_IDLE)) eqn:Estop;
      (eexists _, _; split; [reflexivity|]; split_and!; try done; cbn [x_w with_ctx s1] in R5; by rewrite R5, O1).
Qed.

(** The client is gone between two commands. *)
Lemma handle_command_end (s : xstate AD W) ss :
  Serving s -> in_session s ss -> s_in fd (x_w s) = [] ->
  exists s', handle_command (xvc_info max) freq tt s = Done (inr 1, s') /\
    Serving s' /\ in_session s' ss /\ s_in fd (x_w s') = [] /\ s_out fd (x_w s') = s_out fd (x_w s).
Proof.
  intros HS HI Hin. pose proof HS as [F1 F2 F3 F4 F5 F6 F7 F8 F9 F10 F11]. rewrite <- F1 in Hin.
  destruct (read_cmd_short s 0 2 [] Hin) as (w1 & E1 & I1 & O1); [done|done|lia|].
  unfold handle_command. rewrite (bind_done _ _ _ _ _ E1). cbn [negb].
  eexists. split; [reflexivity|]. rewrite F1 in *. split; [|by split_and!].
  by apply Serving_ctx.
Qed.

(** The loop on a stream of commands: where it stands. *)
Definition conversing (s0 : xstate AD W) (o : list Z * session T * option (list xcmd)) (_ : unit) (s : xstate AD W) : Prop :=
  exists ss cmds sent replies ss' rest, Serving s /\ in_session s ss /\ Forall (wf_cmd max) cmds /\
    s_in fd (x_w s) = flat_map encode cmds /\ s_out fd (x_w s) = s_out fd (x_w s0) ++ sent /\
    converse max freq ss cmds = (replies, ss', rest) /\ o = (sent ++ replies, ss', rest).

(** How it ends. *)
Definition conversed (s0 : xstate AD W) (o : list Z * session T * option (list xcmd)) (r : Z) (s : xstate AD W) : Prop :=
  let '(replies, ss, rest) := o in
  r = (match rest with Some _ => 0 | None => 1 end) /\ Serving s /\ in_session s ss /\
  s_out fd (x_w s) = s_out fd (x_w s0) ++ replies /\
  s_in fd (x_w s) = flat_map encode (default [] rest).

Lemma encode_nonempty c : 1 <= zlen (encode c).
Proof.
  assert (H' : exists x l, encode c = x :: l) by (destruct c; by eexists _, _).
  destruct H' as (x & l & ->). rewrite zlen_cons. pose proof (zlen_nonneg l). lia.
Qed.

Lemma converse_round s0 o s :
  conversing s0 o tt s ->
  exists r s', handle_command (xvc_info max) freq tt s = Done (r, s') /\
    match r with
    | inl u => conversing s0 o u s' /\ 0 <= zlen (s_in fd (x_w s')) < zlen (s_in fd (x_w s))
    | inr r => conversed s0 o r s'
    end.
Proof.
  intros (ss & cmds & sent & replies & ss' & rest & HS & HI & Hwf & Hin & Hout & Hc & ->).
  destruct cmds as [|c cmds].
  - injection Hc as <- <- <-. destruct (handle_command_end s ss HS HI Hin) as (s' & E1 & HS' & HI' & I' & O').
    exists (inr 1), s'. split; [done|]. unfold conversed. cbn. rewrite app_nil_r. split_and!; try done. by rewrite O'.
  - apply Forall_cons in Hwf as [Hc1 Hwf]. cbn [flat_map] in Hin. cbn [converse] in Hc.
    destruct (handle_command_ok s ss c _ HS HI Hc1 Hin) as (r & s' & E1 & A).
    exists r, s'. split; [done|]. destruct (answer max freq ss c) as [[reply ss1] stop].
    destruct A as (-> & A2 & A3 & A4 & A5). destruct stop.
    + injection Hc as <- <- <-. unfold conversed. split_and!; try done. by rewrite A5, Hout, app_assoc.
    + destruct (converse max freq ss1 cmds) as [[replies1 ss2] rest1] eqn:Ec. injection Hc as <- <- <-.
      split.
      * exists ss1, cmds, (sent ++ reply), replies1, ss2, rest1. split_and!; try done.
        -- by rewrite A5, Hout, app_assoc.
        -- by rewrite app_assoc.
      * rewrite A4, Hin, zlen_app. pose proof (encode_nonempty c). pose proof (zlen_nonneg (flat_map encode cmds)). lia.
Qed.

Lemma serve_ok (s : xstate AD W) ss cmds :
  Serving s -> in_session s ss -> Forall (wf_cmd max) cmds -> s_in fd (x_w s) = flat_map encode cmds ->
  zlen (flat_map encode cmds) < 2 ^ 64 ->
  exists r s', while_loop (handle_command (xvc_info max) freq) tt s = Done (r, s') /\
    conversed s (converse max freq ss cmds) r s'.
Proof.
  intros HS HI Hwf Hin Hlen. destruct (converse max freq ss cmds) as [[replies ss'] rest] eqn:Ec.
  apply (while_total _ (conversing s (replies, ss', rest)) (conversed s (replies, ss', rest))
           (fun _ s => zlen (s_in fd (x_w s)))).
  - intros [] s1. apply converse_round.
  - exists ss, cmds, [], replies, ss', rest. by rewrite app_nil_r.
  - by rewrite Hin.
Qed.

Lemma xvc_handle_serving (s : xstate AD W) size :
  Serving s -> xvc_handle fd true size freq s = while_loop (handle_command (xvc_info max) freq) tt s.
Proof.
  intros [F1 F2 F3 F4 F5 F6 F7 F8 F9 F10 F11].
  unfold xvc_handle, xctx, gets. rewrite (bind_done _ _ s (x_ctx s) s eq_refl).
  rewrite F6, F1, Z.eqb_refl. cbn [is_null negb orb]. rewrite (bind_done _ _ s true s eq_refl). cbn [negb].
  rewrite (bind_done _ _ s (x_ctx s) s eq_refl). by rewrite F3.
Qed.

(** C1: a session with a client is the protocol.  However the byte stream is
    fragmented, a sequence of well-formed commands (vectors within the
    advertised size) is answered by exactly the replies of the specification:
    the version line for getinfo, the resulting period for settck, the TDO
    bits of the bit-serial reference for shift, with the movements of the
    workaround skipped.  The call returns 0 after the command that the
    specification stops at, with the rest of the stream unread, and 1 after
    the last byte of the peer; the target, the server's TAP state and its TLR
    flag are those of the specification. *)
Theorem xvc_session_correct (s : xstate AD W) (ss : session T) (cmds : list xcmd) (size : Z) :
  Serving s -> in_session s ss -> Forall (wf_cmd max) cmds -> s_in fd (x_w s) = flat_map encode cmds ->
  zlen (flat_map encode cmds) < 2 ^ 64 ->
  exists r s', xvc_handle fd true size freq s = Done (r, s') /\ conversed s (converse max freq ss cmds) r s'.
Proof. intros HS. rewrite xvc_handle_serving by done. by apply serve_ok. Qed.

(** ** The commands that are refused *)

(** A shift whose vectors do not fit. *)
Lemma shift_oversized (s : xstate AD W) n :
  Serving s -> 0 <= n -> n + 7 <= INT_MAX -> max < vector_bytes n -> shift_vectors n s = Done (inr (-1), s).
Proof.
  intros HS Hn Hi Hmax. unfold shift_vectors. rewrite int_arith_ok by (unfold INT_MIN; lia). cbn [lift_exec].
  rewrite (bind_done _ _ s (n + 7) s eq_refl). cbv zeta. rewrite Z.quot_div_nonneg by lia. fold (vector_bytes n).
  unfold xctx, gets. rewrite (bind_done _ _ s (x_ctx s) s eq_refl). rewrite (Sv_max _ HS).
  by rewrite (proj2 (Z.ltb_lt max (vector_bytes n))).
Qed.


(** ** Clients that go away *)

Lemma read_vectors_gone (s : xstate AD W) n a :
  Serving s -> s_in fd (x_w s) = a -> Forall byte_ok a -> zlen a < n -> n <= max * 2 ->
  exists s', read_vectors n s = Done (false, s') /\ unheard s s' /\ s_in fd (x_w s') = [].
Proof.
  intros HS Hin Hb Ha Hn. pose proof HS as [F1 F2 F3 F4 F5 F6 F7 F8 (lv & F9 & Zlv & Blv) F10 F11].
  unfold XVC_MAX_VECTOR_SIZE_LIMIT in F4. pose proof (zlen_nonneg a).
  destruct (read_exact_split fd n (x_w s)) as (r & got & w' & E1 & Ho1 & H1'); [unfold INT_MAX; lia|].
  rewrite Hin, (proj2 (Z.leb_gt _ _)) in H1' by lia. destruct H1' as (Hr & -> & Hi).
  destruct (store_block (x_mem s) bv lv a F9) as (m' & E2 & L2 & Fr2); [unfold zlen in *; lia|].
  exists (mk_xstate (x_ctx s) m' (x_ad s) w'). split; [|split; [|done]].
  - unfold read_vectors, xctx, gets. rewrite (bind_done _ _ s (x_ctx s) s eq_refl). rewrite F1.
    rewrite (bind_done _ _ _ _ _ (on_socket_done _ _ _ _ E1)). cbv beta iota.
    erewrite bind_done; [|apply xheap_done; cbn [x_mem with_ctx]; rewrite F6; exact E2].
    by rewrite (proj2 (Z.eqb_neq r 1)) by lia.
  - split; [|by split_and!]. assert (HSm : Serving (mk_xstate (x_ctx s) m' (x_ad s) (x_w s))).
    2: { by apply (Serving_ctx _ _ w' HSm). }
    apply (Serving_heap s m' (x_ad s)); [done| | |done].
    + eexists. split; [exact L2|]. split.
      * rewrite zlen_app. unfold zlen in *. rewrite length_drop. lia.
      * apply Forall_app. split; [done|by apply drop_byte_ok].
    + by rewrite (mem_frame_other _ _ _ _ _ Fr2).
Qed.

Lemma bytes_of_ok str : Forall byte_ok (bytes_of str).
Proof.
  induction str as [|[[] [] [] [] [] [] [] []] str IH]; [constructor|..];
    (apply Forall_cons; split; [by split; vm_compute|done]).
Qed.

Lemma encode_bytes c : wf_cmd max c -> Forall byte_ok (encode c).
Proof.
  destruct c as [|p|n tms tdi]; cbn [wf_cmd encode].
  - intros _. apply bytes_of_ok.
  - intros _. apply Forall_app. split; [apply bytes_of_ok|apply put_int32_ok].
  - intros (_ & _ & _ & _ & Bt & Bd). repeat (apply Forall_app; split); try done;
      [apply bytes_of_ok|apply put_int32_ok].
Qed.

(** The client went away: the call returns 1, nothing was sent and the target
    was not touched. *)
Definition gone (s : xstate AD W) (r : unit + Z) (s' : xstate AD W) : Prop :=
  r = inr 1 /\ unheard s s' /\ s_in fd (x_w s') = [].

Lemma cut_prefix {A} k (a b : list A) :
  (k < length (a ++ b))%nat ->
  (k < length a)%nat /\ take k (a ++ b) = take k a \/
  (k >= length a)%nat /\ take k (a ++ b) = a ++ take (k - length a) b /\ (k - length a < length b)%nat.
Proof.
  intros Hk. rewrite length_app in Hk. destruct (Nat.lt_ge_cases k (length a)).
  - left. split; [done|]. rewrite take_app_le by lia. done.
  - right. split; [done|]. split; [by rewrite take_app_ge by lia|lia].
Qed.

Lemma zlen_take {A} k (a : list A) : (k < length a)%nat -> zlen (take k a) < zlen a.
Proof. intros. unfold zlen. rewrite length_take. lia. Qed.

Lemma shift_vectors_gone (s : xstate AD W) n tms tdi k :
  Serving s -> wf_cmd max (Shift n tms tdi) -> (k < length (tms ++ tdi))%nat ->
  s_in fd (x_w s) = take k (tms ++ tdi) ->
  exists r s', shift_vectors n s = Done (r, s') /\ gone s r s'.
Proof.
  intros HS (Hn & Hmax & Ht & Hd & Bt & Bd) Hk Hin. unfold SCAN_MAX in Hn.
  unfold shift_vectors. rewrite (int_arith_ok (n + 7)) by (unfold INT_MIN, INT_MAX; lia). cbn [lift_exec].
  rewrite (bind_done _ _ s (n + 7) s eq_refl). cbv zeta. rewrite Z.quot_div_nonneg by lia. fold (vector_bytes n).
  unfold xctx, gets. rewrite (bind_done _ _ s (x_ctx s) s eq_refl).
  rewrite (Sv_max _ HS), (proj2 (Z.ltb_ge max (vector_bytes n))) by lia.
  pose proof (zlen_take k _ Hk) as Hz. rewrite zlen_app in Hz.
  destruct (read_vectors_gone s (vector_bytes n * 2) _ HS Hin) as (s1 & E1 & U1 & I1);
    [apply Forall_take, Forall_app; by split|lia|lia|].
  rewrite (bind_done _ _ _ _ _ E1). by exists (inr 1), s1.
Qed.

Lemma handle_shift_gone (s : xstate AD W) n tms tdi k :
  Serving s -> wf_cmd max (Shift n tms tdi) ->
  let tail := bytes_of "ift:" ++ xvc_put_int32 n ++ tms ++ tdi in
  (k < length tail)%nat -> s_in fd (x_w s) = take k tail ->
  exists r s', handle_shift s = Done (r, s') /\ gone s r s'.
Proof.
  intros HS Hwf tail Hk Hin.
  destruct (cut_prefix k _ _ Hk) as [[H1' H2']|(H1' & H2' & H3')]; unfold tail in Hin; rewrite H2' in Hin; clear H2'.
  { destruct (read_cmd_gone s 2 4 _ HS Hin) as (s1 & E1 & U1 & I1); [by apply (zlen_take k (bytes_of "ift:"))|done|done|].
    unfold handle_shift. rewrite (bind_done _ _ _ _ _ E1). by exists (inr 1), s1. }
  destruct (handle_shift_tag s _ _ HS Hin) as (s1 & E1 & U1 & I1); [done|done|done|]. rewrite E1.
  assert (HS1 := proj1 U1). clear Hin H1' Hk. set (k1 := (k - _)%nat) in *. clearbody k1.
  destruct (cut_prefix k1 _ _ H3') as [[H1' H2']|(H1' & H2' & H4')]; rewrite H2' in I1; clear H2'.
  { destruct (read_cmd_gone s1 6 4 _ HS1 I1) as (s2 & E2 & U2 & I2); [by apply (zlen_take k1 (xvc_put_int32 n))|done|done|].
    unfold shift_length. rewrite (bind_done _ _ _ _ _ E2). exists (inr 1), s2.
    split; [done|]. split; [done|]. split; [by eapply unheard_trans|done]. }
  destruct (shift_length_ok s1 _ _ HS1 I1) as (s2 & E2 & U2 & I2); [done|]. rewrite E2.
  destruct Hwf as [Hn Hwf]. rewrite put_get_int32 by (unfold SCAN_MAX in Hn; unfold INT_MIN, INT_MAX; lia).
  destruct (shift_vectors_gone s2 n tms tdi _ (proj1 U2) (conj Hn Hwf) H4' I2) as (r & s3 & E3 & -> & U3 & I3).
  exists (inr 1), s3. split; [done|]. split; [done|]. split; [|done].
  eapply unheard_trans; [exact U1|]. by eapply unheard_trans.
Qed.

Lemma read_prefix_ok (s : xstate AD W) a b rest :
  Serving s -> s_in fd (x_w s) = a :: b :: rest ->
  exists s', unheard s s' /\ s_in fd (x_w s') = rest /\
    handle_command (xvc_info max) freq tt s =
      (r ← (if (a =? 0x67) && (b =? 0x65) then handle_getinfo (xvc_info max)
            else if (a =? 0x73) && (b =? 0x65) then handle_settck freq
            else if (a =? 0x73) && (b =? 0x68) then handle_shift
            else mret (inr (-1))); loop_condition r) s'.
Proof.
  intros HS Hin. change (a :: b :: rest) with ([a; b] ++ rest) in Hin.
  destruct (read_cmd_served s 0 2 [a; b] rest HS Hin) as (s1 & E1 & U1 & I1 & B1); [done|done|done|].
  exists s1. split; [done|]. split; [done|]. unfold handle_command. rewrite (bind_done _ _ _ _ _ E1). cbn [negb].
  unfold xctx, gets. rewrite (bind_done _ _ s1 (x_ctx s1) s1 eq_refl). unfold is_cmd. rewrite B1. done.
Qed.

(** C10: a client that goes away in the middle of a command.  If the stream
    ends anywhere within a well-formed command, the call returns 1, nothing
    was sent, and neither the target nor the session has changed; the buffers
    are intact for the clean-up. *)
Theorem xvc_disconnect (s : xstate AD W) (c : xcmd) (k : nat) :
  Serving s -> wf_cmd max c -> (k < length (encode c))%nat -> s_in fd (x_w s) = take k (encode c) ->
  exists s', handle_command (xvc_info max) freq tt s = Done (inr 1, s') /\ unheard s s' /\ s_in fd (x_w s') = [].
Proof.
  intros HS Hwf Hk Hin. destruct (Nat.lt_ge_cases k 2) as [H2'|H2'].
  - destruct (read_cmd_gone s 0 2 _ HS Hin) as (s1 & E1 & U1 & I1); [|done|done|].
    { unfold zlen. rewrite length_take. lia. }
    unfold handle_command. rewrite (bind_done _ _ _ _ _ E1). by exists s1.
  - assert (He : exists a b tail, encode c = a :: b :: tail) by (destruct c; by eexists _, _, _).
    destruct He as (a & b & tail & He). destruct k as [|[|k]]; [lia..|]. rewrite He in Hin, Hk. cbn [take length] in Hin, Hk.
    destruct (read_prefix_ok s a b _ HS Hin) as (s1 & U1 & I1 & E1). rewrite E1. clear Hin E1.
    assert (Hg : forall h : M (xstate AD W) (unit + Z), (exists r s2, h s1 = Done (r, s2) /\ gone s1 r s2) ->
      exists s', (r ← h; loop_condition r) s1 = Done (inr 1, s') /\ unheard s s' /\ s_in fd (x_w s') = []).
    { intros h (r & s2 & E2 & -> & U2 & I2). exists s2. rewrite (bind_done _ _ _ _ _ E2).
      split; [done|]. split; [by eapply unheard_trans|done]. }
    destruct c as [|p|n tms tdi]; injection He as <- <- Ht.
    + apply (Hg (handle_getinfo (xvc_info max))). destruct (read_cmd_gone s1 2 6 _ (proj1 U1) I1) as (s2 & E2 & U2 & I2); [|done|done|].
      { subst tail. by apply (zlen_take k (drop 2 (encode Getinfo))); cbn in *; lia. }
      unfold handle_getinfo. rewrite (bind_done _ _ _ _ _ E2). by exists (inr 1), s2.
    + apply (Hg (handle_settck freq)). destruct (read_cmd_gone s1 2 9 _ (proj1 U1) I1) as (s2 & E2 & U2 & I2); [|done|done|].
      { subst tail. apply (zlen_take k (drop 2 (encode (Settck p)))). cbn in *. lia. }
      unfold handle_settck. rewrite (bind_done _ _ _ _ _ E2). by exists (inr 1), s2.
    + apply (Hg handle_shift). apply (handle_shift_gone s1 n tms tdi k (proj1 U1) Hwf); [|by rewrite I1, <- Ht].
      rewrite <- Ht in Hk. cbn in *. lia.
Qed.

(** C11: what the server refuses.  Two bytes that begin no command, and a
    shift whose vectors exceed the advertised size, make the call return -1;
    the vectors stay unread, nothing is sent and the target is not touched. *)
Theorem xvc_refuses (s : xstate AD W) :
  Serving s ->
  (forall a b rest, s_in fd (x_w s) = a :: b :: rest -> [a; b] ∉ [bytes_of "ge"; bytes_of "se"; bytes_of "sh"] ->
     exists s', handle_command (xvc_info max) freq tt s = Done (inr (-1), s') /\ unheard s s' /\
       s_in fd (x_w s') = rest) /\
  (forall n rest, 0 <= n -> n + 7 <= INT_MAX -> max < vector_bytes n ->
     s_in fd (x_w s) = bytes_of "shift:" ++ xvc_put_int32 n ++ rest ->
     exists s', handle_command (xvc_info max) freq tt s = Done (inr (-1), s') /\ unheard s s' /\
       s_in fd (x_w s') = rest).
Proof.
  intros HS. split.
  - intros a b rest Hin Hno. destruct (read_prefix_ok s a b rest HS Hin) as (s1 & U1 & I1 & ->).
    exists s1. split; [|done]. rewrite !list_elem_of_In in Hno. cbn in Hno.
    zcase ((a =? 103) && (b =? 101)); [subst; exfalso; tauto|].
    zcase ((a =? 115) && (b =? 101)); [subst; exfalso; tauto|].
    zcase ((a =? 115) && (b =? 104)); [subst; exfalso; tauto|]. done.
  - intros n rest Hn Hi Hmax Hin.
    destruct (read_prefix_ok s _ _ _ HS Hin) as (s1 & U1 & I1 & E1).
    change (handle_command (xvc_info max) freq tt s = (r ← handle_shift; loop_condition r) s1) in E1. rewrite E1.
    destruct (handle_shift_header s1 (bytes_of "ift:") (xvc_put_int32 n) rest (proj1 U1) I1) as (s2 & E2 & U2 & I2);
      [done..|].
    rewrite put_get_int32, (shift_oversized s2 n (proj1 U2) Hn Hi Hmax) in E2 by (unfold INT_MIN, INT_MAX in *; lia).
    rewrite (bind_done _ _ _ _ _ E2). exists s2. split; [done|]. split; [by eapply unheard_trans|done].
Qed.

(** The older "shifte:" command is never recognised.  The handler looks
    for the 'e' at offset 4 of the command, where both forms have a 't', so the
    ':' of "shifte:" is read as the lowest byte of the length: a shift of [n]
    bits is taken for one of [256 * n + 58] bits, and refused when that does
    not fit. *)
Theorem old_shift_misread (s : xstate AD W) (n : Z) (rest : list Z) :
  Serving s -> 0 <= n < 2 ^ 22 -> max < vector_bytes (256 * n + 58) ->
  s_in fd (x_w s) = bytes_of "shifte:" ++ xvc_put_int32 n ++ rest ->
  exists s', handle_command (xvc_info max) freq tt s = Done (inr (-1), s') /\ unheard s s'.
Proof.
  intros HS Hn Hmax Hin.
  destruct (read_prefix_ok s _ _ _ HS Hin) as (s1 & U1 & I1 & E1).
  change (handle_command (xvc_info max) freq tt s = (r ← handle_shift; loop_condition r) s1) in E1. rewrite E1.
  destruct (handle_shift_header s1 (bytes_of "ifte")
             (58 :: take 3 (xvc_put_int32 n)) (drop 3 (xvc_put_int32 n) ++ rest) (proj1 U1) I1)
    as (s2 & E2 & U2 & I2); [done..|].
  assert (Hv : xvc_get_int32 (58 :: take 3 (xvc_put_int32 n)) = 256 * n + 58).
  { rewrite put_int32_bytes. cbn [take]. assert (Hb : forall x, byte_ok (x mod 256)) by (intros; apply Z.mod_pos_bound; lia).
    rewrite get_int32_bytes by (done || (unfold byte_ok; lia)).
    pose proof (Z.div_mod n 256). pose proof (Z.div_mod (n / 256) 256).
    replace (n / 65536) with (n / 256 / 256) by (rewrite Z.div_div; done || lia).
    rewrite (Z.mod_small (n / 256 / 256)); [rewrite i32_id by (unfold INT_MIN, INT_MAX; lia); lia|].
    split; [repeat apply Z.div_pos; lia|]. apply Z.div_lt_upper_bound; [lia|]. apply Z.div_lt_upper_bound; lia. }
  rewrite Hv, (shift_oversized s2 _ (proj1 U2)) in E2 by (unfold INT_MAX; lia).
  rewrite (bind_done _ _ _ _ _ E2). exists s2. split; [done|]. by eapply unheard_trans.
Qed.

End Serve.
