(* ===== verification/XvcServer.v ===== *)
(** The XVC server on the FTDI adapter.

    The life of a protocol context ([xvc_init], [xvc_free], the first call on
    a new connection), the adapter of FtdiAdapter.v as an instance of the
    interface [JtagCable], and a concrete socket link on which the session
    theorems are applied. *)

From S2P Require Import Prelude Jtag Bits Memory CString D2xx SimDevice MpsseBuffer.
From S2P Require Import MpsseSettled MpsseScan MpsseShift MpsseRefine MpsseAdapter FtdiAdapter XvcProtocol XvcRefine.

(** ** The life of a context *)

Section Init.
Context {AD W : Type} `{Adapter AD} `{Sockets W}.

Lemma vector_size_range n : 1 <= xvc_vector_size n <= XVC_MAX_VECTOR_SIZE_LIMIT.
Proof.
  unfold xvc_vector_size, XVC_DEFAULT_MAX_VECTOR_SIZE, XVC_MAX_VECTOR_SIZE_LIMIT.
  zcase (n <=? 0); [lia|]. zcase (262144 <? n); lia.
Qed.

(** The context that [xvc_init] builds around two buffers. *)
Definition initial_context (fd : Z) (ftdi : bool) (size : Z) (v r : ptr) : xvc_context :=
  xvc_zero <| socket_fd := fd |> <| xvc_ftdi := ftdi |> <| max_vector_size := xvc_vector_size size |>
           <| vector_buf := v |> <| result_buf := r |>.

Lemma free_ok m b l :
  m_blocks m !! b = Some l -> exists m', free m (Ptr b 0) = Some m' /\ m_blocks m' = delete b (m_blocks m).
Proof. intros Hb. unfold free. rewrite Hb. by eexists. Qed.

Lemma free_fresh m b l m' : m_blocks m !! b = None -> m_blocks m' = <[b := l]> (m_blocks m) ->
  exists m2, free m' (Ptr b 0) = Some m2 /\ m_blocks m2 = m_blocks m.
Proof.
  intros Hb Hm. destruct (free_ok m' b l) as (m2 & E1 & M2); [by rewrite Hm, lookup_insert_eq|].
  exists m2. split; [done|]. rewrite M2, Hm. by apply delete_insert_id.
Qed.

Lemma malloc_null m n m' : malloc m n = (NULL, m') -> m_fail m <> [].
Proof. unfold malloc. by destruct (m_fail m) as [|[] ?]. Qed.

Lemma malloc_fail m n p m' : malloc m n = (p, m') -> m_fail m = [] -> m_fail m' = [].
Proof. unfold malloc. intros E1 Hf. rewrite Hf in E1. by injection E1 as _ <-. Qed.

(** The two allocations, and the release after a failure of either. *)
Lemma init_cases (s : xstate AD W) fd ftdi size :
  mem_wf (x_mem s) ->
  let n := xvc_vector_size size in
  exists r m v rb, xvc_init fd ftdi size s = Done (r, mk_xstate (initial_context fd ftdi size v rb) m (x_ad s) (x_w s)) /\
    mem_wf m /\
    ((r = -1 /\ m_fail (x_mem s) <> [] /\ v = NULL /\ rb = NULL /\ m_blocks m = m_blocks (x_mem s)) \/
     (r = 0 /\ exists b1 b2 l1 l2, v = Ptr b1 0 /\ rb = Ptr b2 0 /\ b1 <> b2 /\
        m_blocks (x_mem s) !! b1 = None /\ m_blocks (x_mem s) !! b2 = None /\
        zlen l1 = n * 2 /\ zlen l2 = n /\ Forall byte_ok l1 /\ Forall byte_ok l2 /\
        m_blocks m = <[b2 := l2]> (<[b1 := l1]> (m_blocks (x_mem s))))).
Proof.
  intros Hwf n. pose proof (vector_size_range size) as Hn. fold n in Hn.
  destruct (malloc (x_mem s) (n * 2)) as [v m1] eqn:E1. destruct (malloc m1 n) as [rb m2] eqn:E2.
  pose proof (malloc_fresh _ _ _ _ Hwf E1) as [Hwf1 H1'].
  pose proof (malloc_fresh _ _ _ _ Hwf1 E2) as [Hwf2 H2'].
  unfold xvc_init, set_xctx, modify, xctx, gets, xmalloc, xheap, mbind, M_bind. cbn -[malloc free xvc_vector_size Z.mul].
  fold n. rewrite E1. cbn -[malloc free xvc_vector_size Z.mul]. rewrite E2.
  destruct v as [|b1 o1], rb as [|b2 o2]; cbn -[free xvc_vector_size Z.mul].
  - exists (-1), m2, NULL, NULL. split; [reflexivity|]. split; [done|]. left. apply malloc_null in E1. split_and!; try done. congruence.
  - change (free m2 NULL) with (Some m2). cbn -[free xvc_vector_size Z.mul].
    destruct H2' as (-> & Hb & l & _ & _ & Hm). destruct (free_fresh m1 b2 l m2 Hb Hm) as (m3 & E3 & B3).
    rewrite E3. exists (-1), m3, NULL, NULL. split; [reflexivity|]. split; [by eapply free_live|].
    left. apply malloc_null in E1. split_and!; try done. congruence.
  - destruct H1' as (-> & Hb & l & _ & _ & Hm). destruct (free_fresh (x_mem s) b1 l m2 Hb) as (m3 & E3 & B3); [congruence|].
    rewrite E3. exists (-1), m3, NULL, NULL. split; [reflexivity|]. split; [by eapply free_live|].
    left. split_and!; try done. intros Hf. by apply (malloc_null _ _ _ E2), (malloc_fail _ _ _ _ E1).
  - destruct H1' as (-> & Hb1 & l1 & Z1 & B1 & M1). destruct H2' as (-> & Hb2 & l2 & Z2 & B2 & M2).
    rewrite M1, lookup_insert_None in Hb2. destruct Hb2 as [Hb2 Hne].
    exists 0, m2, (Ptr b1 0), (Ptr b2 0). split; [reflexivity|]. split; [done|]. right. split; [done|].
    exists b1, b2, l1, l2. split_and!; try done; [lia|lia|congruence].
Qed.
(** C12: a context is built and torn down safely.  Whatever size is asked for
    and whichever allocation fails, [xvc_init] comes back with 0 or -1 and a
    vector size between 1 and 256 KiB; after a failure no block is left
    behind; [xvc_free] then releases exactly what was allocated, and calling
    it again is harmless. *)
Theorem xvc_init_free (s : xstate AD W) (fd : Z) (ftdi : bool) (size : Z) :
  mem_wf (x_mem s) ->
  exists r s1 s2, xvc_init fd ftdi size s = Done (r, s1) /\ (r = 0 \/ r = -1) /\
    1 <= XvcProtocol.max_vector_size (x_ctx s1) <= XVC_MAX_VECTOR_SIZE_LIMIT /\
    (r = -1 -> m_blocks (x_mem s1) = m_blocks (x_mem s)) /\
    (r = 0 -> exists l, load_from (x_mem s1) (vector_buf (x_ctx s1)) = Some l /\
       zlen l = XvcProtocol.max_vector_size (x_ctx s1) * 2) /\
    xvc_free s1 = Done (tt, s2) /\ m_blocks (x_mem s2) = m_blocks (x_mem s) /\ xvc_free s2 = Done (tt, s2).
Proof.
  intros Hwf. destruct (init_cases s fd ftdi size Hwf) as (r & m & v & rb & E1 & Wm & C).
  exists r. destruct C as [(-> & _ & -> & -> & Hm)|(-> & b1 & b2 & l1 & l2 & -> & -> & Hne & N1 & N2 & Z1 & Z2 & B1 & B2 & Hm)].
  - eexists _, _. split; [exact E1|]. split; [by right|]. split; [apply vector_size_range|]. split; [by cbn|].
    split; [done|]. by split; [reflexivity|].
  - destruct (free_ok m b1 l1) as (m1 & F1 & M1); [by rewrite Hm, lookup_insert_ne, lookup_insert_eq by done|].
    destruct (free_ok m1 b2 l2) as (m2 & F2 & M2); [by rewrite M1, lookup_delete_ne, Hm, lookup_insert_eq by done|].
    eexists _, (mk_xstate (initial_context fd ftdi size NULL NULL) m2 (x_ad s) (x_w s)).
    split; [exact E1|]. split; [by left|]. split; [apply vector_size_range|]. split; [done|].
    split.
    { intros _. exists l1. split; [|done]. apply block_load. cbn [x_mem]. by rewrite Hm, lookup_insert_ne, lookup_insert_eq by done. }
    split; [|split].
    + unfold xvc_free, xctx, gets, xheap, set_xctx, modify, mbind, M_bind. cbn -[free]. rewrite F1. cbn -[free].
      rewrite F2. reflexivity.
    + cbn. rewrite M2, M1, Hm. rewrite delete_insert_ne by done. rewrite delete_insert_id by (by rewrite lookup_delete_ne, lookup_insert_ne).
      by rewrite delete_insert_id.
    + reflexivity.
Qed.

End Init.


(** ** A new connection *)

Section First.
Context {AD E T W : Type} `{JtagCable AD E T} `{Streams W}.

(** The session of a server that has just been initialised. *)
Definition new_session (ad : AD) : session T :=
  mk_session JTAG_TEST_LOGIC_RESET false (cable_state ad) (cable_tdi ad) (cable_tap ad).

Lemma init_serving (s : xstate AD W) fd size :
  mem_wf (x_mem s) -> m_fail (x_mem s) = [] -> cable_ready (x_ad s) -> 4 <= xvc_vector_size size ->
  exists bv br s', xvc_init fd true size s = Done (0, s') /\
    Serving fd (xvc_vector_size size) bv br s' /\ in_session s' (new_session (x_ad s)) /\ x_w s' = x_w s.
Proof.
  intros Hwf Hf Had Hn. pose proof (vector_size_range size) as Hr.
  destruct (init_cases s fd true size Hwf) as (r & m & v & rb & E1 & Wm & [(_ & Hnf & _)|(-> & b1 & b2 & l1 & l2 & -> & -> & Hne & N1 & N2 & Z1 & Z2 & B1 & B2 & Hm)]);
    [done|].
  exists b1, b2. eexists. split; [exact E1|]. split; [|by split_and!]. split; try done; cbn; try lia.
  - exists l1. by rewrite Hm, lookup_insert_ne, lookup_insert_eq by done.
  - exists l2. by rewrite Hm, lookup_insert_eq by done.
Qed.

(** C9: a new connection gets its own session.  The first call for a socket,
    whatever the context held before, initialises it with the configured
    buffer size and then serves the commands of the client as the
    specification says, from the power-on state of the server's TAP and with
    the target where the previous client left it. *)
Theorem xvc_first_call (s : xstate AD W) (fd size freq : Z) (cmds : list xcmd) :
  (vector_buf (x_ctx s) = NULL \/ socket_fd (x_ctx s) <> fd) -> 0 < size -> 4 <= xvc_vector_size size ->
  mem_wf (x_mem s) -> m_fail (x_mem s) = [] -> cable_ready (x_ad s) ->
  Forall (wf_cmd (xvc_vector_size size)) cmds -> s_in fd (x_w s) = flat_map encode cmds ->
  zlen (flat_map encode cmds) < 2 ^ 64 ->
  exists bv br r s', xvc_handle fd true size freq s = Done (r, s') /\
    conversed fd (xvc_vector_size size) bv br s (converse (xvc_vector_size size) freq (new_session (x_ad s)) cmds) r s'.
Proof.
  intros Hnew Hsz Hn Hwf Hf Had Hc Hin Hlen.
  destruct (init_serving s fd size Hwf Hf Had Hn) as (bv & br & s1 & E1 & S1 & I1 & W1). exists bv, br.
  destruct (serve_ok fd (xvc_vector_size size) freq bv br s1 (new_session (x_ad s)) cmds S1 I1 Hc) as (r & s2 & E2 & R2);
    [by rewrite W1|done|].
  exists r, s2. split.
  - unfold xvc_handle, xctx, gets. rewrite (bind_done _ _ s (x_ctx s) s eq_refl).
    assert (Hcond : is_null (vector_buf (x_ctx s)) || negb (socket_fd (x_ctx s) =? fd) = true).
    { destruct Hnew as [->|Hne]; [done|]. rewrite (proj2 (Z.eqb_neq _ _) Hne). apply orb_true_r. }
    rewrite Hcond, (proj2 (Z.ltb_lt 0 size)) by done.
    assert (E1' : (r ← xvc_init fd true size; mret (0 <=? r)) s = Done (true, s1)).
    { by rewrite (bind_done _ _ _ _ _ E1). }
    rewrite (bind_done _ _ _ _ _ E1'). cbn [negb]. rewrite (bind_done _ _ s1 (x_ctx s1) s1 eq_refl).
    by rewrite (Sv_max _ _ _ _ _ S1).
  - unfold conversed in *. destruct (converse _ _ _ _) as [[replies ss'] rest]. by rewrite <- W1.
Qed.

End First.

(** ** The FTDI adapter is a JTAG cable *)

Section Ftdi.
Context {W : Type} `{D2XX W}.

(** [ctx->ftdi] is a [ftdi_context_t] and the world of the driver. *)
#[export] Instance ftdi_adapter : Adapter (ftdi_context * W) := {
  ad_set_period := fun p s =>
    let '(m, (c, w)) := s in
    match ftdi_adapter_set_period p (mk_fstate c m w) with
    | Done (r, s') => Done (r, (fs_mem s', (fs_ctx s', fs_w s')))
    | Undef => Undef
    | Stuck => Stuck
    end;
  ad_scan := fun tms tdi tdo bits s =>
    let '(m, (c, w)) := s in
    match ftdi_adapter_scan tms tdi tdo bits (mk_fstate c m w) with
    | Done (r, s') => Done (r, (fs_mem s', (fs_ctx s', fs_w s')))
    | Undef => Undef
    | Stuck => Stuck
    end
}.

End Ftdi.

Section Cable.
Context {W E T : Type} `{MpsseDeviceLaws W E T} `{!MpsseEngineLaws E T}.

Definition ftdi_state (ad : ftdi_context * W) : jtag_state :=
  match mpsse ad.1 with Some c => state c | None => TEST_LOGIC_RESET end.
Definition ftdi_tdi (ad : ftdi_context * W) : bool :=
  match mpsse ad.1 with Some c => last_tdi c | None => false end.

(** The period that [ftdi_adapter_set_period] answers. *)
Definition ftdi_period (p : Z) : Z :=
  Z.quot 1000000000 (tck_of (frequency_divisor (1000000000 / (if p =? 0 then 100 else p)))).

Lemma ftdi_frequency_range p : 0 <= p < 2 ^ 32 -> 0 <= 1000000000 / (if p =? 0 then 100 else p) < 2 ^ 32.
Proof.
  intros Hp. set (q := if p =? 0 then 100 else p). assert (Hq : 1 <= q) by (subst q; zcase (p =? 0); lia).
  split; [apply Z.div_pos; lia|]. apply Z.div_lt_upper_bound; lia.
Qed.

Lemma ftdi_tck_range p : 0 <= p < 2 ^ 32 ->
  1 <= tck_of (frequency_divisor (1000000000 / (if p =? 0 then 100 else p))) <= 30000000.
Proof.
  intros Hp. destruct (frequency_divisor_spec _ (ftdi_frequency_range p Hp)) as [Hd _].
  split.
  - etrans; [|apply tck_of_anti; split; [exact (proj1 Hd)|exact (proj2 Hd)]]. done.
  - change 30000000 with (tck_of 0). apply tck_of_anti. lia.
Qed.

Lemma ftdi_set_period_ok (s : fstate W) c p :
  ftdi_ready s c -> 0 <= p < 2 ^ 32 ->
  exists s' c', ftdi_adapter_set_period p s = Done (ftdi_period p, s') /\ ftdi_ready s' c' /\
    mem_frame NULL (fs_mem s) (fs_mem s') /\ state c' = state c /\ last_tdi c' = last_tdi c /\
    eng_tap (dev_engine (fs_w s')) = eng_tap (dev_engine (fs_w s)).
Proof.
  intros (Ho & Hc & HR) Hp. pose proof (ftdi_tck_range p Hp) as Ht.
  unfold ftdi_adapter_set_period, fctx, gets. rewrite (bind_done _ _ s (fs_ctx s) s eq_refl). rewrite Ho. cbn [negb].
  cbv zeta. unfold ftdi_period. pose proof (ftdi_frequency_range p Hp) as Hf.
  set (f := 1000000000 / _) in *. clearbody f.
  destruct (set_frequency_ready (mview c s) f HR Hf) as (s1 & E1 & R1 & T1 & S1 & L1 & M1 & _).
  rewrite (bind_done _ _ _ _ _ (on_mpsse_done (-1) _ s c _ s1 Hc E1)).
  rewrite (proj2 (Z.ltb_ge _ _)), (proj2 (Z.eqb_neq _ _)) by lia.
  destruct s1 as [c1 m1 w1]. eexists _, c1. split; [reflexivity|]. by split_and!.
Qed.

#[export] Program Instance ftdi_cable : JtagCable (ftdi_context * W) E T := {
  cable_ready := fun ad => exists c, ftdi_ready (mk_fstate ad.1 (mk_mem ∅ 0 [] (fun _ _ => 0)) ad.2) c;
  cable_state := ftdi_state;
  cable_tdi := ftdi_tdi;
  cable_tap := fun ad => eng_tap (dev_engine ad.2);
  cable_period := ftdi_period
}.
Next Obligation.
  intros m [[[mc|] op v e] w] tms tdi tdo bits Hb; cbn -[Z.leb];
    unfold ftdi_adapter_scan, fctx, gets, mbind, M_bind; cbn [ftdi_is_open fs_ctx fs_mem fs_w];
    destruct (_ || _); try done.
  unfold on_mpsse, mpsse_adapter_scan, ctx_of, gets, mbind, M_bind. cbn [mpsse fs_ctx fs_mem fs_w ms_ctx].
  rewrite (proj2 (Z.leb_le bits 0) Hb), orb_true_r. done.
Qed.
Next Obligation.
  intros p Hp. pose proof (ftdi_tck_range p Hp) as Ht. unfold ftdi_period, INT_MAX.
  rewrite Z.quot_div_nonneg by lia. split; [apply Z.div_pos; lia|].
  etrans; [apply (Z.div_le_compat_l 1000000000 1); lia|]. by rewrite Z.div_1_r.
Qed.
Next Obligation.
  intros m [c w] p [mc HR] Hp. apply (ftdi_ready_mem _ mc m) in HR. pose proof HR as (_ & Hc & _).
  destruct (ftdi_set_period_ok (mk_fstate c m w) mc p HR Hp) as (s' & mc' & E1 & R1 & M1 & S1 & L1 & T1).
  exists (fs_mem s'), (fs_ctx s', fs_w s'). cbn -[ftdi_adapter_set_period]. rewrite E1. split; [done|].
  pose proof R1 as (_ & Hc' & _). split; [exists mc'; by apply (ftdi_ready_mem s' mc')|]. split; [done|].
  cbn in Hc, Hc'. unfold ftdi_state, ftdi_tdi. cbn [fst snd]. rewrite Hc, Hc'. by split_and!.
Qed.
Next Obligation.
  intros m [c w] tms tdi bo oo dt di d bits [mc HR] Hd HV r. apply (ftdi_ready_mem _ mc m) in HR.
  pose proof HR as (_ & Hc & _).
  destruct (ftdi_scan_ok tms tdi bo oo dt di d bits (mk_fstate c m w) mc HR Hd HV) as (s' & mc' & E1 & R1 & L1 & M1 & F1).
  exists (fs_mem s'), (fs_ctx s', fs_w s'). cbn -[ftdi_adapter_scan ref_run]. rewrite E1. split; [done|].
  pose proof R1 as (_ & Hc' & _). split; [exists mc'; by apply (ftdi_ready_mem s' mc')|].
  cbn in Hc, Hc'. subst r. unfold ftdi_state, ftdi_tdi. cbn [fst snd]. rewrite Hc, Hc'.
  destruct F1 as (F1 & F2 & F3). split_and!; done.
Qed.

End Cable.

(** ** A concrete link

    The bytes still to come and the bytes sent; at most three are read and at
    most two written at a time. *)

Record link := mk_link { l_in : list Z; l_out : list Z }.

#[export] Instance sim_sockets : Sockets link := {
  sock_read := fun _ len w =>
    let d := take (Z.to_nat (Z.min len 3)) (l_in w) in
    ((zlen d, d), mk_link (drop (Z.to_nat (Z.min len 3)) (l_in w)) (l_out w));
  sock_write := fun _ buf w =>
    let n := Z.min (zlen buf) 2 in (n, mk_link (l_in w) (l_out w ++ take (Z.to_nat n) buf));
  sock_quickack := fun _ w => w;
  read_blocks := fun _ _ _ => false;
  write_blocks := fun _ _ _ => false
}.

#[export] Program Instance sim_streams : Streams link := {
  s_in := fun _ => l_in;
  s_out := fun _ => l_out
}.
Next Obligation.
  intros fd len w Hlen Hne. split; [done|]. eexists _, _. split; [reflexivity|].
  assert (Hl : (0 < length (l_in w))%nat) by (destruct (l_in w); [done|cbn; lia]).
  unfold zlen. rewrite length_take. split_and!; [lia|lia|by cbn; rewrite take_drop|done].
Qed.
Next Obligation.
  intros fd len w Hlen He. split; [done|]. cbn. rewrite He, take_nil, drop_nil. eexists _, _. by split_and!.
Qed.
Next Obligation.
  intros fd buf w Hne. split; [done|]. eexists _, _. split; [reflexivity|].
  assert (Hl : (0 < length buf)%nat) by (destruct buf; [done|cbn; lia]).
  unfold zlen. split_and!; [lia|lia|done|done].
Qed.
Next Obligation. done. Qed.

Lemma exact_io_correct_witness :
  let w := mk_link [1; 2; 3; 4; 5; 6; 7] [9] in
  (0 <= 5 <= INT_MAX /\ zlen [10; 11; 12] <= INT_MAX) /\
  (exists r got w', xvc_read_exact 4 5 w = Done ((r, got), w') /\ s_out 4 w' = s_out 4 w /\
     if 5 <=? zlen (s_in 4 w)
     then r = 1 /\ got = take (Z.to_nat 5) (s_in 4 w) /\ s_in 4 w' = drop (Z.to_nat 5) (s_in 4 w)
     else r <= 0 /\ got = s_in 4 w /\ s_in 4 w' = []) /\
  (exists w', xvc_write_exact 4 [10; 11; 12] (zlen [10; 11; 12]) w = Done (0, w') /\
     s_out 4 w' = s_out 4 w ++ [10; 11; 12] /\ s_in 4 w' = s_in 4 w).
Proof.
  intros w. assert (H5 : 0 <= 5 <= INT_MAX) by (unfold INT_MAX; lia).
  assert (H3 : zlen [10; 11; 12] <= INT_MAX) by (by vm_compute).
  split; [by split|]. exact (exact_io_correct 4 5 [10; 11; 12] w H5 H3).
Defined.

(** An established connection with eight-byte vectors. *)
Definition sim_xctx : xvc_context :=
  xvc_zero <| socket_fd := 4 |> <| xvc_ftdi := true |> <| max_vector_size := 8 |>
           <| vector_buf := Ptr 0 0 |> <| result_buf := Ptr 1 0 |>.
Definition sim_xmem : mem := mk_mem (<[0%nat := replicate 16 0]> {[1%nat := replicate 8 0]}) 2 [] (fun _ _ => 0).
Definition sim_cable : ftdi_context * world := (fs_ctx (sim_fstate [] [] []), sim_world).
Definition sim_xstate (input : list Z) : xstate (ftdi_context * world) link :=
  mk_xstate sim_xctx sim_xmem sim_cable (mk_link input []).

Lemma sim_cable_ready : cable_ready sim_cable.
Proof.
  exists (ms_ctx (sim_state [] [] [])). apply (ftdi_ready_mem (sim_fstate [] [] [])). apply sim_ftdi_ready.
Qed.

Lemma sim_serving input : Serving 4 8 0 1 (sim_xstate input).
Proof.
  split; try done; [exists (replicate 16 0)|exists (replicate 8 0)|apply sim_cable_ready].
  - split; [done|]. split; [done|]. apply Forall_replicate. unfold byte_ok. lia.
  - split; [done|]. split; [done|]. apply Forall_replicate. unfold byte_ok. lia.
Qed.

Lemma sim_in_session input : in_session (sim_xstate input) (new_session sim_cable).
Proof. by split_and!. Qed.

Lemma sim_in input : s_in 4 (x_w (sim_xstate input)) = input.
Proof. reflexivity. Qed.

(** Reset, a move to Run-Test/Idle, which the server stops at, and a query. *)
Definition sim_cmds : list xcmd :=
  [Shift 5 [0x1f] [0x00]; Shift 9 [0x01; 0x00] [0xff; 0x01]; Getinfo].

Lemma sim_cmds_wf max : 8 <= max -> Forall (wf_cmd max) sim_cmds.
Proof.
  intros Hm. unfold sim_cmds. repeat apply Forall_cons_2; [| |done|apply Forall_nil_2];
    cbn [wf_cmd]; change (vector_bytes 5) with 1; change (vector_bytes 9) with 2; unfold SCAN_MAX;
    split_and!; (done || lia || byte_list).
Qed.

Lemma xvc_session_correct_witness :
  let s := sim_xstate (flat_map encode sim_cmds) in
  let ss := new_session sim_cable in
  (Serving 4 8 0 1 s /\ in_session s ss /\ Forall (wf_cmd 8) sim_cmds) /\
  exists r s', xvc_handle 4 true 8 0 s = Done (r, s') /\
    conversed 4 8 0 1 s (converse 8 0 ss sim_cmds) r s'.
Proof.
  intros s ss. assert (HS : Serving 4 8 0 1 s) by apply sim_serving.
  assert (HI : in_session s ss) by apply sim_in_session.
  assert (HC : Forall (wf_cmd 8) sim_cmds) by (by apply sim_cmds_wf).
  split; [done|]. apply (xvc_session_correct 4 8 0 0 1 s ss sim_cmds 8 HS HI HC (sim_in _)). by vm_compute.
Defined.

Example converse_example :
  converse 8 0 (new_session sim_cable) sim_cmds =
    ([0x00; 0x00; 0x00], mk_session JTAG_RUN_TEST_IDLE true RUN_TEST_IDLE false (mk_target RUN_TEST_IDLE false), Some [Getinfo]).
Proof. vm_compute. reflexivity. Qed.

(** The same commands on a context that has not been initialised. *)
Definition sim_fresh (input : list Z) : xstate (ftdi_context * world) link :=
  mk_xstate xvc_zero (mk_mem ∅ 0 [] (fun _ _ => 0)) sim_cable (mk_link input []).

Lemma xvc_first_call_witness :
  let s := sim_fresh (flat_map encode sim_cmds) in
  (mem_wf (x_mem s) /\ cable_ready (x_ad s) /\ Forall (wf_cmd (xvc_vector_size 2048)) sim_cmds) /\
  exists bv br r s', xvc_handle 4 true 2048 100000 s = Done (r, s') /\
    conversed 4 (xvc_vector_size 2048) bv br s
      (converse (xvc_vector_size 2048) 100000 (new_session (x_ad s)) sim_cmds) r s'.
Proof.
  intros s. assert (Hwf : mem_wf (x_mem s)) by (by intros b l).
  assert (HC : Forall (wf_cmd (xvc_vector_size 2048)) sim_cmds) by (by apply sim_cmds_wf; vm_compute).
  assert (Hin : s_in 4 (x_w s) = flat_map encode sim_cmds) by (subst s; by cbn [sim_fresh x_w]).
  split; [split_and!; [exact Hwf|exact sim_cable_ready|exact HC]|].
  apply (xvc_first_call s 4 2048 100000 sim_cmds (or_introl eq_refl)); try done. exact sim_cable_ready.
Defined.

Definition sim_shift : xcmd := Shift 9 [0x01; 0x00] [0xff; 0x01].

Lemma xvc_disconnect_witness :
  let s := sim_xstate (take 12 (encode sim_shift)) in
  Serving 4 8 0 1 s /\
  exists s', handle_command (xvc_info 8) 0 tt s = Done (inr 1, s') /\ unheard 4 8 0 1 s s' /\ s_in 4 (x_w s') = [].
Proof.
  intros s. assert (HS : Serving 4 8 0 1 s) by apply sim_serving. split; [done|].
  assert (HC : wf_cmd 8 sim_shift).
  { pose proof (sim_cmds_wf 8 ltac:(lia)) as Hf. unfold sim_cmds in Hf.
    by apply Forall_cons in Hf as [_ [Hf _]%Forall_cons]. }
  assert (Hk : (12 < length (encode sim_shift))%nat) by (cbn; lia).
  exact (xvc_disconnect 4 8 0 0 1 s sim_shift 12 HS HC Hk (sim_in _)).
Defined.

Lemma xvc_refuses_witness :
  let s := sim_xstate (bytes_of "shift:" ++ xvc_put_int32 65 ++ [1; 2; 3]) in
  Serving 4 8 0 1 s /\
  exists s', handle_command (xvc_info 8) 0 tt s = Done (inr (-1), s') /\ unheard 4 8 0 1 s s' /\
    s_in 4 (x_w s') = [1; 2; 3].
Proof.
  intros s. assert (HS : Serving 4 8 0 1 s) by apply sim_serving. split; [done|].
  destruct (xvc_refuses 4 8 0 0 1 s HS) as [_ Hr].
  refine (Hr 65 [1; 2; 3] _ _ _ (sim_in _)); unfold INT_MAX; [lia|lia|by vm_compute].
Defined.

Lemma old_shift_misread_witness :
  let s := sim_xstate (bytes_of "shifte:" ++ xvc_put_int32 5 ++ [0x1f; 0x00]) in
  Serving 4 8 0 1 s /\
  exists s', handle_command (xvc_info 8) 0 tt s = Done (inr (-1), s') /\ unheard 4 8 0 1 s s'.
Proof.
  intros s. assert (HS : Serving 4 8 0 1 s) by apply sim_serving. split; [done|].
  refine (old_shift_misread 4 8 0 0 1 s 5 [0x1f; 0x00] HS _ _ (sim_in _)); [lia|by vm_compute].
Defined.

Lemma xvc_init_free_witness :
  let s := mk_xstate xvc_zero (mk_mem ∅ 0 [false; true] (fun _ _ => 0)) sim_cable (mk_link [] []) in
  mem_wf (x_mem s) /\
  exists r s1 s2, xvc_init 4 true 4096 s = Done (r, s1) /\ (r = 0 \/ r = -1) /\
    1 <= XvcProtocol.max_vector_size (x_ctx s1) <= XVC_MAX_VECTOR_SIZE_LIMIT /\
    (r = -1 -> m_blocks (x_mem s1) = m_blocks (x_mem s)) /\
    (r = 0 -> exists l, load_from (x_mem s1) (vector_buf (x_ctx s1)) = Some l /\
       zlen l = XvcProtocol.max_vector_size (x_ctx s1) * 2) /\
    xvc_free s1 = Done (tt, s2) /\ m_blocks (x_mem s2) = m_blocks (x_mem s) /\ xvc_free s2 = Done (tt, s2).
Proof.
  intros s. assert (Hwf : mem_wf (x_mem s)) by (by intros b l). split; [exact Hwf|].
  exact (xvc_init_free s 4 true 4096 Hwf).
Defined.
