(* ===== verification/XvcStream.v ===== *)
(** Every byte stream.

    What [xvc_handle] does with whatever a client sends: the stream is cut
    into requests ([next_request]), and the call serves them up to the one
    that it returns at ([serve]).  The theorem covers commands that are cut
    off, unknown or too long, and says which streams leave defined
    behaviour. *)

From S2P Require Import Prelude Jtag Bits Memory CString D2xx SimDevice MpsseBuffer.
From S2P Require Import MpsseSettled MpsseScan MpsseShift MpsseRefine MpsseAdapter FtdiAdapter XvcProtocol XvcRefine XvcServer.

(** ** Requests *)

(** What the first bytes of a stream are to the server: a command and the
    rest, the end of the stream within a command, something that it refuses
    (an unknown command, vectors that do not fit), a shift of no bits, a
    length that it cannot compute with. *)
Inductive request :=
  | Asks (c : xcmd) (rest : list Z)
  | Gone
  | Refused (rest : list Z)
  | Nothing (rest : list Z)
  | Breaks.

(** [n] bytes and the rest. *)
Definition cut (n : Z) (l : list Z) : option (list Z * list Z) :=
  if zlen l <? n then None else Some (take (Z.to_nat n) l, drop (Z.to_nat n) l).

Definition vectors_request (n : Z) (l : list Z) : request :=
  match cut (vector_bytes n * 2) l with
  | None => Gone
  | Some (v, rest) =>
      Asks (Shift n (take (Z.to_nat (vector_bytes n)) v) (drop (Z.to_nat (vector_bytes n)) v)) rest
  end.

(** From the length on. *)
Definition length_request (max : Z) (l : list Z) : request :=
  match cut 4 l with
  | None => Gone
  | Some (b, rest) =>
      let n := xvc_get_int32 b in
      if (n <=? -15) || (INT_MAX - 7 <? n) then Breaks
      else if n <=? 0 then Nothing rest
      else if max <? vector_bytes n then Refused rest
      else vectors_request n rest
  end.

(** After "sh": four bytes, of which the third decides whether a fifth is
    dropped. *)
Definition shift_request (max : Z) (l : list Z) : request :=
  match cut 4 l with
  | None => Gone
  | Some (a, rest) =>
      if (byte_at a 2 =? 0x65) || (byte_at a 2 =? 0x45) then
        match cut 1 rest with
        | None => Gone
        | Some (_, rest) => length_request max rest
        end
      else length_request max rest
  end.

Definition next_request (max : Z) (l : list Z) : request :=
  match l with
  | a :: b :: l =>
      if (a =? 0x67) && (b =? 0x65) then
        match cut 6 l with None => Gone | Some (_, rest) => Asks Getinfo rest end
      else if (a =? 0x73) && (b =? 0x65) then
        match cut 9 l with
        | None => Gone
        | Some (d, rest) => Asks (Settck (xvc_get_int32 (drop 5 d))) rest
        end
      else if (a =? 0x73) && (b =? 0x68) then shift_request max l
      else Refused l
  | _ => Gone
  end.

Section Stream.
Context {AD E T : Type} `{JtagCable AD E T} (max freq : Z).

(** The replies, the session at the end, and what the call returns with what
    is left of the stream; [None] is undefined behaviour.  A request takes at
    least two bytes, so the length of the stream is enough fuel. *)
Fixpoint serve_for (fuel : nat) (ss : session T) (l : list Z) : list Z * session T * option (Z * list Z) :=
  match fuel with
  | O => ([], ss, Some (1, []))
  | S fuel =>
      match next_request max l with
      | Gone => ([], ss, Some (1, []))
      | Refused rest => ([], ss, Some (-1, rest))
      | Nothing rest => ([], noted ss, Some (-1, rest))
      | Breaks => ([], ss, None)
      | Asks c rest =>
          let '(reply, ss, stop) := answer max freq ss c in
          if stop then (reply, ss, Some (0, rest))
          else
            let '(replies, ss, e) := serve_for fuel ss rest in
            (reply ++ replies, ss, e)
      end
  end.

Definition serve (ss : session T) (l : list Z) := serve_for (S (length l)) ss l.

End Stream.

(** ** Requests are cut off the stream *)

Lemma cut_some n l a rest : 0 <= n -> cut n l = Some (a, rest) -> l = a ++ rest /\ zlen a = n.
Proof.
  intros Hn. unfold cut. destruct (Z.ltb_spec (zlen l) n) as [|Hl]; [done|]. intros [= <- <-].
  rewrite take_drop. split; [done|]. unfold zlen in *. rewrite length_take. lia.
Qed.

Lemma cut_none n l : cut n l = None -> zlen l < n.
Proof. unfold cut. by destruct (Z.ltb_spec (zlen l) n). Qed.

(** Case analysis on a cut of the stream. *)
Ltac cut_cases E Z a rest :=
  match goal with |- context [cut ?n ?l] => destruct (cut n l) as [[a rest]|] eqn:E end;
  [apply cut_some in E as [E Z]; [|lia]|apply cut_none in E].

(** What follows a request is an end of the stream. *)
Definition rest_of (r : request) : list Z :=
  match r with Asks _ l | Refused l | Nothing l => l | _ => [] end.

Lemma vectors_rest n l : 0 <= n -> rest_of (vectors_request n l) `suffix_of` l.
Proof.
  intros Hn. pose proof (vector_bytes_range n Hn). unfold vectors_request.
  cut_cases Ec Zc a rest; cbn; [by exists a|apply suffix_nil].
Qed.

Lemma length_rest max l : rest_of (length_request max l) `suffix_of` l.
Proof.
  unfold length_request. cut_cases Ec Zc a rest; cbn; [|apply suffix_nil]. subst l. apply suffix_app_r.
  destruct (_ || _); [apply suffix_nil|]. destruct (Z.leb_spec (xvc_get_int32 a) 0); [done|].
  destruct (_ <? _); [done|]. apply vectors_rest. lia.
Qed.

Lemma request_rest max a l : rest_of (next_request max (a :: l)) `suffix_of` l.
Proof.
  destruct l as [|b l]; [done|]. apply suffix_cons_r. cbn [next_request].
  destruct (_ && _); [cut_cases Ec Zc c rest; cbn; [by exists c|apply suffix_nil]|].
  destruct (_ && _); [cut_cases Ec Zc c rest; cbn; [by exists c|apply suffix_nil]|].
  destruct (_ && _); [|done]. unfold shift_request. cut_cases Ec Zc c rest; [|apply suffix_nil].
  subst l. apply suffix_app_r. destruct (_ || _); [|apply length_rest].
  cut_cases Ec1 Zd d rest1; [|apply suffix_nil]. subst rest. apply suffix_app_r, length_rest.
Qed.

(** ** The handler serves them *)

Section Any.
Context {AD E T W : Type} `{JtagCable AD E T} `{Streams W}.
Context (fd max freq : Z) (bv br : nat).
#[local] Abbreviation X := (M (xstate AD W)).
#[local] Abbreviation serving := (Serving fd max bv br).
#[local] Abbreviation silent := (unheard fd max bv br).

(** The session is at [ss], [rest] is unread and nothing was sent. *)
Definition stays (s : xstate AD W) (ss : session T) (rest : list Z) (s' : xstate AD W) : Prop :=
  serving s' /\ in_session s' ss /\ s_in fd (x_w s') = rest /\ s_out fd (x_w s') = s_out fd (x_w s).

Lemma silent_stays s s' ss rest : silent s s' -> in_session s ss -> s_in fd (x_w s') = rest -> stays s ss rest s'.
Proof. intros (H1' & H2' & _ & H4') HI Hr. split_and!; auto. Qed.

(** What the handler of a command does with a request. *)
Definition meets (s : xstate AD W) (ss : session T) (req : request) (e : exec ((unit + Z) * xstate AD W)) : Prop :=
  match req with
  | Asks c rest => exists r s', e = Done (r, s') /\
      match c with
      | Shift n tms tdi => shifted fd max bv br s (moved (noted ss) n tms tdi) rest r s'
      | _ => answered fd max bv br s (answer max freq ss c) rest r s'
      end
  | Gone => exists s', e = Done (inr 1, s') /\ stays s ss [] s'
  | Refused rest => exists s', e = Done (inr (-1), s') /\ stays s ss rest s'
  | Nothing rest => exists s', e = Done (inr (-1), s') /\ stays s (noted ss) rest s'
  | Breaks => e = Undef
  end.

(** A step that the client does not notice. *)
Lemma meets_silent s s1 ss req e : silent s s1 -> meets s1 ss req e -> meets s ss req e.
Proof.
  intros (_ & H2' & _ & _). unfold meets, stays, shifted, answered. rewrite H2'.
  destruct req as [[]|rest|rest|rest|]; done.
Qed.

Lemma meets_gone s ss s' : silent s s' -> in_session s ss -> s_in fd (x_w s') = [] -> meets s ss Gone (Done (inr 1, s')).
Proof. intros HU HI Hr. exists s'. split; [done|]. by apply silent_stays. Qed.

(** *** Shifts *)

(** A movement of no bits is an error of the adapter. *)
Lemma no_movement_ok (s : xstate AD W) c ss n l :
  serving s -> in_session s ss -> -15 < n <= 0 -> xvc_ftdi c = true -> m_blocks (x_mem s) !! bv = Some l -> 1 <= zlen l ->
  exists s', movement c 0 n s = Done (-1, s') /\ serving s' /\ in_session s' ss /\ x_w s' = x_w s /\
    x_mem s' = x_mem s.
Proof.
  intros HS HI Hn Hf Hl Hz. pose proof (Sv_vector_buf _ _ _ _ _ HS) as F6. unfold movement.
  rewrite <- (app_nil_r l) in Hl. rewrite (bind_done _ _ _ _ _ (bogus_movement_ok bv s n l [] F6 Hl Hz)).
  assert (Hb : bogus (xvc_jtag_state (x_ctx s)) n l = false).
  { unfold bogus. destruct (xvc_jtag_state (x_ctx s)); try done; rewrite (proj2 (Z.eqb_neq n _)) by lia; done. }
  rewrite Hb. rewrite app_nil_r in Hl.
  assert (Ht : track_jtag n s = Done (tt, s <| x_ctx := (x_ctx s) <| xvc_jtag_state := xvc_jtag_state (x_ctx s) |> |>)).
  { assert (H8 : n / 8 <= 0) by (apply Z.div_le_upper_bound; lia).
    unfold track_jtag, xctx, gets. rewrite (bind_done _ _ s (x_ctx s) s eq_refl).
    replace (Z.to_nat (n / 8)) with 0%nat by lia. cbn [jtag_bytes].
    rewrite (bind_done (mret (xvc_jtag_state (x_ctx s), 0)) _ s _ s eq_refl).
    assert (E1 : xload (fun m => load8 m (ptr_add (vector_buf (x_ctx s)) 0)) s = Done (nth 0 l 0, s)).
    { unfold xload. rewrite F6. by rewrite (load8_from _ _ _ _ (block_load _ _ _ Hl)) by lia. }
    rewrite (bind_done _ _ _ _ _ E1). by replace (Z.to_nat (n - 8 * 0)) with 0%nat by lia. }
  rewrite (bind_done _ _ _ _ _ Ht), Hf. set (s1 := setter x_ctx _ s).
  eexists. split; [apply on_adapter_done, cable_nothing; lia|].
  split; [|by split]. exact (Serving_ctx fd max bv br s (x_ctx s1) (x_w s) HS eq_refl eq_refl eq_refl eq_refl eq_refl eq_refl).
Qed.

(** A length that is refused only after the TLR flag has been noted. *)
Lemma no_bits_ok (s : xstate AD W) ss n rest :
  serving s -> in_session s ss -> -15 < n <= 0 -> s_in fd (x_w s) = rest ->
  meets s ss (Nothing rest) (shift_vectors n s).
Proof.
  intros HS HI Hn Hin. pose proof HS as [F1 F2 F3 F4 F5 F6 F7 F8 F9 (lr & F10 & Zlr & Blr) F11].
  assert (Hq : Z.quot (n + 7) 8 = 0).
  { destruct (Z.le_gt_cases 0 (n + 7)); [by apply Z.quot_small; lia|].
    replace (n + 7) with (- - (n + 7)) by lia. rewrite Z.quot_opp_l by lia. rewrite Z.quot_small; lia. }
  unfold shift_vectors. rewrite (int_arith_ok (n + 7)) by (unfold INT_MIN, INT_MAX; lia). cbn [lift_exec].
  rewrite (bind_done _ _ s (n + 7) s eq_refl). cbv zeta. rewrite Hq.
  unfold xctx, gets. rewrite (bind_done _ _ s (x_ctx s) s eq_refl). rewrite F3, (proj2 (Z.ltb_ge max 0)) by lia.
  destruct (read_vectors_ok fd max bv br s (0 * 2) [] rest HS Hin) as (tl & m1 & w1 & E1 & B1 & Btl & Z1 & Fr1 & I1 & O1);
    [done|lia|].
  rewrite (bind_done _ _ _ _ _ E1). cbn [negb]. set (s1 := mk_xstate _ m1 _ w1) in *. cbn [app] in B1, Z1.
  assert (B1r : m_blocks m1 !! br = Some lr) by (by rewrite (mem_frame_other _ _ _ _ _ Fr1)).
  assert (HS1 : serving s1).
  { assert (HSm : serving (mk_xstate (x_ctx s) m1 (x_ad s) (x_w s))).
    { apply (Serving_heap fd max bv br s m1 (x_ad s)); try done; eauto. }
    by apply (Serving_ctx _ _ _ _ _ _ w1 HSm). }
  destruct (note_ok fd max bv br s1 ss lr 0 HS1 HI B1r ltac:(lia)) as (m2 & E2 & L2 & V2 & _ & s2 & N2 & M2 & W2 & HS2 & HI2).
  rewrite F7. erewrite bind_done; [|by apply xheap_done]. rewrite (bind_done _ _ _ _ _ N2).
  destruct (no_movement_ok s2 (x_ctx s) (noted ss) n tl HS2 HI2 Hn F2) as (s3 & E3 & HS3 & HI3 & W3 & _); [by rewrite M2, V2|lia|].
  rewrite (bind_done _ _ _ _ _ E3). exists s3. split; [done|]. split; [done|]. split; [done|].
  rewrite W3, W2. done.
Qed.

Lemma read_none n (w : W) : n <= 0 -> xvc_read_exact fd n w = Done ((1, []), sock_quickack fd w).
Proof.
  intros Hn. destruct (while_total (read_step fd) (fun v w' => v = (n, []) /\ w' = w) (fun v w' => v = (1, []) /\ w' = sock_quickack fd w)
    (fun _ _ => 0) (n, []) w) as (r & w' & E1 & -> & ->); [|done|done|done].
  intros l w1 [-> ->]. unfold read_step. rewrite (proj2 (Z.ltb_ge 0 n)) by done. by eexists (inr _), _.
Qed.

(** A length out of the range of the computation. *)
Lemma breaks_ok (s : xstate AD W) ss n :
  serving s -> INT_MIN <= n <= INT_MAX -> n <= -15 \/ INT_MAX - 7 < n -> meets s ss Breaks (shift_vectors n s).
Proof.
  intros HS Hr Hn. pose proof HS as [F1 F2 F3 F4 F5 F6 F7 F8 (lv & F9 & Zlv & Blv) (lr & F10 & Zlr & Blr) F11].
  unfold XVC_MAX_VECTOR_SIZE_LIMIT in F4. unfold INT_MIN, INT_MAX in *. unfold shift_vectors. destruct Hn as [Hn|Hn].
  2: { unfold int_arith, int_ok. zcase ((INT_MIN <=? n + 7) && (n + 7 <=? INT_MAX)); [unfold INT_MAX in *; lia|done]. }
  rewrite (int_arith_ok (n + 7)) by (unfold INT_MIN, INT_MAX; lia). cbn [lift_exec].
  rewrite (bind_done _ _ s (n + 7) s eq_refl). cbv zeta. set (nr := Z.quot (n + 7) 8).
  assert (Hq : - 2 ^ 28 <= nr < 0).
  { subst nr. replace (n + 7) with (- - (n + 7)) by lia. rewrite Z.quot_opp_l, Z.quot_div_nonneg by lia.
    assert (1 <= - (n + 7) / 8) by (apply Z.div_le_lower_bound; lia).
    assert (- (n + 7) / 8 <= 2 ^ 28) by (apply Z.div_le_upper_bound; lia). lia. }
  unfold xctx, gets. rewrite (bind_done _ _ s (x_ctx s) s eq_refl). rewrite F3, (proj2 (Z.ltb_ge max nr)) by lia.
  destruct (store_block (x_mem s) bv lv [] F9) as (m1 & E1 & L1 & Fr1); [apply zlen_nonneg|].
  set (c := (x_ctx s) <| bytes_rx := u64 (bytes_rx (x_ctx s) + nr * 2) |>).
  assert (E2 : read_vectors (nr * 2) s = Done (true, mk_xstate c m1 (x_ad s) (sock_quickack fd (x_w s)))).
  { unfold read_vectors, xctx, gets. rewrite (bind_done _ _ s (x_ctx s) s eq_refl). rewrite F1.
    rewrite (bind_done _ _ _ _ _ (on_socket_done _ _ _ _ (read_none (nr * 2) (x_w s) ltac:(lia)))). cbv beta iota.
    erewrite bind_done; [|apply xheap_done; cbn [x_mem with_ctx]; rewrite F6; exact E1]. reflexivity. }
  rewrite (bind_done _ _ _ _ _ E2). cbn [negb].
  assert (E3 : memset m1 (Ptr br 0) 0 nr = None).
  { unfold memset. rewrite (mem_frame_other _ _ _ _ _ Fr1), F10 by done. cbn [mbind option_bind].
    rewrite (proj2 (Z.leb_gt _ _)); [done|]. unfold u64. rewrite <- (Z.mod_unique nr (2 ^ 64) (-1) (2 ^ 64 + nr)); lia. }
  unfold meets, mbind, M_bind, xheap. cbn [x_mem]. by rewrite F7, E3.
Qed.

Context (Hmax : max * 8 <= SCAN_MAX).

(** The vectors of a length that fits. *)
Lemma vectors_ok (s : xstate AD W) ss n :
  serving s -> in_session s ss -> Forall byte_ok (s_in fd (x_w s)) -> 1 <= n -> vector_bytes n <= max ->
  meets s ss (vectors_request n (s_in fd (x_w s))) (shift_vectors n s).
Proof.
  intros HS HI Hb Hn Hv. pose proof (vector_bytes_range n ltac:(lia)) as Hnr. unfold vectors_request.
  set (nr := vector_bytes n) in *. destruct (Sv_range _ _ _ _ _ HS) as [_ Hlim]. unfold SCAN_MAX, XVC_MAX_VECTOR_SIZE_LIMIT in *.
  cut_cases Ec Zv v rest.
  - rewrite Ec in Hb. apply Forall_app in Hb as [Hb _]. set (k := Z.to_nat nr).
    assert (Hz : zlen (take k v) = nr /\ zlen (drop k v) = nr).
    { unfold zlen in *. rewrite length_take, length_drop. lia. }
    apply (shift_vectors_ok fd max bv br s ss n (take k v) (drop k v) rest HS HI).
    + unfold wf_cmd, SCAN_MAX. split_and!; try done; try lia; [by apply Forall_take|by apply Forall_drop].
    + by rewrite app_assoc, take_drop.
  - unfold shift_vectors. rewrite (int_arith_ok (n + 7)) by (unfold INT_MIN, INT_MAX; lia). cbn [lift_exec].
    rewrite (bind_done _ _ s (n + 7) s eq_refl). cbv zeta. rewrite Z.quot_div_nonneg by lia. fold (vector_bytes n). fold nr.
    unfold xctx, gets. rewrite (bind_done _ _ s (x_ctx s) s eq_refl).
    rewrite (Sv_max _ _ _ _ _ HS), (proj2 (Z.ltb_ge max nr)) by lia.
    destruct (read_vectors_gone fd max bv br s (nr * 2) _ HS eq_refl Hb) as (s1 & E1 & U1 & I1); [lia|lia|].
    rewrite (bind_done _ _ _ _ _ E1). by apply meets_gone.
Qed.

Lemma length_ok (s : xstate AD W) ss :
  serving s -> in_session s ss -> Forall byte_ok (s_in fd (x_w s)) ->
  meets s ss (length_request max (s_in fd (x_w s))) (shift_length s).
Proof.
  intros HS HI Hb. unfold length_request. cut_cases Ec Zb b rest.
  2: { destruct (read_cmd_gone fd max bv br s 6 4 _ HS eq_refl Ec) as (s1 & E1 & U1 & I1); [done|done|].
       unfold shift_length. rewrite (bind_done _ _ _ _ _ E1). by apply meets_gone. }
  destruct (shift_length_ok fd max bv br s b rest HS Ec Zb) as (s1 & -> & U1 & I1).
  rewrite Ec in Hb. apply Forall_app in Hb as [Hb4 Hb]. pose proof U1 as (HS1 & _ & _ & HI1). specialize (HI1 _ HI).
  apply (meets_silent s s1 ss); [done|]. set (n := xvc_get_int32 b).
  assert (Hr : INT_MIN <= n <= INT_MAX) by apply i32_range.
  destruct ((n <=? -15) || (INT_MAX - 7 <? n)) eqn:Eb; zb.
  { apply breaks_ok; [done|done|lia]. }
  zcase (n <=? 0); [by apply no_bits_ok; [..|lia|]|].
  zcase (max <? vector_bytes n).
  - exists s1. rewrite (shift_oversized fd max bv br s1 n) by (done || lia). split; [done|]. by apply (silent_stays s1); [split_and!; auto|..].
  - rewrite <- I1 in *. apply vectors_ok; [done|done|done|lia|lia].
Qed.

(** The five bytes that begin a shift of the older clients. *)
Lemma handle_shift_extra (s : xstate AD W) a rest :
  serving s -> s_in fd (x_w s) = a ++ rest -> zlen a = 4 -> (byte_at a 2 =? 0x65) || (byte_at a 2 =? 0x45) = true ->
  match rest with
  | [] => exists s', handle_shift s = Done (inr 1, s') /\ silent s s' /\ s_in fd (x_w s') = []
  | _ :: rest => exists s', handle_shift s = shift_length s' /\ silent s s' /\ s_in fd (x_w s') = rest
  end.
Proof.
  intros HS Hin Ha He. destruct (read_cmd_served fd max bv br s 2 4 a rest HS Hin Ha) as (s1 & E1 & U1 & I1 & B1); [done|done|].
  pose proof (proj1 U1) as HS1. pose proof (Sv_fd _ _ _ _ _ HS1) as F1.
  unfold handle_shift. rewrite (bind_done _ _ _ _ _ E1). cbn [negb].
  unfold xctx, gets. rewrite (bind_done _ _ s1 (x_ctx s1) s1 eq_refl).
  assert (B4 : byte_at (cmd_buf (x_ctx s1)) 4 = byte_at a 2).
  { rewrite B1, byte_at_splice by (rewrite ?(Sv_cmd _ _ _ _ _ HS); lia). by rewrite Ha. }
  rewrite B4, He, F1.
  destruct (read_exact_split fd 1 (x_w s1)) as (r & got & w' & E2 & O2 & H2'); [unfold INT_MAX; lia|].
  rewrite I1 in H2'.
  assert (HU : forall c, c = x_ctx s1 \/ c = (x_ctx s1) <| bytes_rx := u64 (bytes_rx (x_ctx s1) + 1) |> ->
    silent s (with_ctx s1 c w')).
  { intros c Hc. eapply unheard_trans; [exact U1|]. apply cmd_buf_unheard; try done; by destruct Hc as [-> | ->]. }
  destruct rest as [|x rest].
  - rewrite (proj2 (Z.leb_gt 1 (zlen []))) in H2' by done. destruct H2' as (Hr & _ & Hi).
    exists (with_ctx s1 (x_ctx s1) w'). split; [|split; [by apply HU; left|done]].
    rewrite <- bind_assoc_at. rewrite (bind_done _ _ _ _ _ (on_socket_done _ _ _ _ E2)). cbv beta iota.
    rewrite (proj2 (Z.eqb_neq r 1)) by lia. done.
  - rewrite (proj2 (Z.leb_le 1 (zlen (x :: rest)))) in H2' by (rewrite zlen_cons; pose proof (zlen_nonneg rest); lia).
    destruct H2' as (-> & _ & Hi). eexists. split; [|split; [apply HU; by right|done]].
    rewrite <- bind_assoc_at. by rewrite (bind_done _ _ _ _ _ (on_socket_done _ _ _ _ E2)).
Qed.

Lemma shift_ok (s : xstate AD W) ss :
  serving s -> in_session s ss -> Forall byte_ok (s_in fd (x_w s)) ->
  meets s ss (shift_request max (s_in fd (x_w s))) (handle_shift s).
Proof.
  intros HS HI Hb. unfold shift_request. cut_cases Ec Za a rest.
  2: { destruct (read_cmd_gone fd max bv br s 2 4 _ HS eq_refl Ec) as (s1 & E1 & U1 & I1); [done|done|].
       unfold handle_shift. rewrite (bind_done _ _ _ _ _ E1). by apply meets_gone. }
  rewrite Ec in Hb. apply Forall_app in Hb as [_ Hb].
  destruct ((byte_at a 2 =? 0x65) || (byte_at a 2 =? 0x45)) eqn:Ee.
  - pose proof (handle_shift_extra s a rest HS Ec Za Ee) as Hx. destruct rest as [|x rest].
    + destruct Hx as (s1 & -> & U1 & I1). by apply meets_gone.
    + destruct Hx as (s1 & -> & U1 & I1). apply Forall_cons in Hb as [_ Hb]. unfold cut.
      rewrite (proj2 (Z.ltb_ge _ 1)) by (rewrite zlen_cons; pose proof (zlen_nonneg rest); lia).
      change (drop (Z.to_nat 1) (x :: rest)) with rest. pose proof U1 as (HS1 & _ & _ & HI1).
      apply (meets_silent s s1 ss); [done|]. rewrite <- I1 in *. apply length_ok; auto.
  - zb. destruct (handle_shift_tag fd max bv br s a rest HS Ec Za) as (s1 & -> & U1 & I1); [done|done|].
    pose proof U1 as (HS1 & _ & _ & HI1). apply (meets_silent s s1 ss); [done|]. rewrite <- I1 in *. apply length_ok; auto.
Qed.

(** What one round of the loop does with a request. *)
Definition served (s : xstate AD W) (ss : session T) (req : request) (e : exec ((unit + Z) * xstate AD W)) : Prop :=
  match req with
  | Asks c rest => exists r s', e = Done (r, s') /\ answered fd max bv br s (answer max freq ss c) rest r s'
  | _ => meets s ss req e
  end.

Lemma served_silent s s1 ss req e : silent s s1 -> served s1 ss req e -> served s ss req e.
Proof.
  intros HU. destruct req; [|by apply meets_silent..]. destruct HU as (_ & H2' & _ & _).
  unfold served, answered. by rewrite H2'.
Qed.

Lemma loop_served (h : X (unit + Z)) (s : xstate AD W) ss req :
  meets s ss req (h s) -> served s ss req ((r ← h; loop_condition r) s).
Proof.
  destruct req as [c rest| |rest|rest|]; cbn [meets served].
  2-4: intros (s' & E1 & Hs); exists s'; by rewrite (bind_done _ _ _ _ _ E1).
  2: { intros E1. unfold mbind, M_bind. by rewrite E1. }
  intros (r & s' & E1 & A). rewrite (bind_done _ _ _ _ _ E1). destruct c as [|p|n tms tdi].
  1, 2: cbn [answer] in A |- *; destruct A as (-> & A2); by eexists (inr 0), s'.
  destruct A as (-> & R2 & R3 & R4 & R5). cbn [loop_condition]. unfold xctx, gets.
  rewrite (bind_done _ _ s' (x_ctx s') s' eq_refl). unfold answer.
  destruct (moved (noted ss) n tms tdi) as [tdo ss'] eqn:Em. cbn [fst snd] in *.
  pose proof R3 as (J1 & J2 & _). rewrite J1, J2.
  destruct (ss_seen ss' && bool_decide (ss_jtag ss' = JTAG_RUN_TEST_IDLE));
    (eexists _, _; split; [reflexivity|]; by split_and!).
Qed.

Lemma request_ok (s : xstate AD W) ss :
  serving s -> in_session s ss -> Forall byte_ok (s_in fd (x_w s)) ->
  served s ss (next_request max (s_in fd (x_w s))) (handle_command (xvc_info max) freq tt s).
Proof.
  intros HS HI Hb. destruct (s_in fd (x_w s)) as [|a [|b l]] eqn:Hin.
  1, 2: destruct (read_cmd_gone fd max bv br s 0 2 _ HS Hin) as (s1 & E1 & U1 & I1); [done..|];
    unfold handle_command; rewrite (bind_done _ _ _ _ _ E1); by apply (meets_gone s ss s1).
  destruct (read_prefix_ok fd max freq bv br s a b l HS Hin) as (s1 & U1 & I1 & ->).
  pose proof U1 as (HS1 & O1 & _ & HI1). specialize (HI1 _ HI).
  apply Forall_cons in Hb as [_ [_ Hb]%Forall_cons].
  assert (Hs : forall req h, meets s1 ss req (h s1) -> served s ss req ((r ← h; loop_condition r) s1)).
  { intros req h Hm. apply (served_silent s s1); [done|]. by apply loop_served. }
  cbn [next_request]. destruct ((a =? 0x67) && (b =? 0x65)); [|destruct ((a =? 0x73) && (b =? 0x65));
    [|destruct ((a =? 0x73) && (b =? 0x68))]]; apply Hs; rewrite <- ?I1.
  - cut_cases Ec Zd d rest.
    + by apply (getinfo_ok fd max freq bv br s1 ss d rest).
    + destruct (read_cmd_gone fd max bv br s1 2 6 _ HS1 eq_refl Ec) as (s2 & E2 & U2 & I2); [done|done|].
      unfold handle_getinfo. rewrite (bind_done _ _ _ _ _ E2). by apply meets_gone.
  - cut_cases Ec Zd d rest.
    + apply (settck_ok fd max freq bv br s1 ss (take 5 d) (drop 5 d) rest HS1 HI1).
      * unfold zlen in *. rewrite length_take. lia.
      * unfold zlen in *. rewrite length_drop. lia.
      * by rewrite app_assoc, take_drop.
    + destruct (read_cmd_gone fd max bv br s1 2 9 _ HS1 eq_refl Ec) as (s2 & E2 & U2 & I2); [done|done|].
      unfold handle_settck. rewrite (bind_done _ _ _ _ _ E2). by apply meets_gone.
  - rewrite <- I1 in Hb. by apply shift_ok.
  - exists s1. split; [done|]. by split_and!.
Qed.

(** *** The loop *)

(** How a call ends. *)
Definition call_ends (s : xstate AD W) (o : list Z * session T * option (Z * list Z)) (e : exec (Z * xstate AD W)) : Prop :=
  match o with
  | (replies, ss, Some (r, rest)) =>
      exists s', e = Done (r, s') /\ serving s' /\ in_session s' ss /\ s_in fd (x_w s') = rest /\
        s_out fd (x_w s') = s_out fd (x_w s) ++ replies
  | (_, _, None) => e = Undef
  end.

(** In the middle of a call: what has been sent, and what is still to do. *)
Definition midway (s0 : xstate AD W) (o : list Z * session T * option (Z * list Z)) (_ : unit) (s : xstate AD W) : Prop :=
  exists ss fuel sent replies ss' e, serving s /\ in_session s ss /\ Forall byte_ok (s_in fd (x_w s)) /\
    (length (s_in fd (x_w s)) < fuel)%nat /\ s_out fd (x_w s) = s_out fd (x_w s0) ++ sent /\
    serve_for max freq fuel ss (s_in fd (x_w s)) = (replies, ss', e) /\ o = (sent ++ replies, ss', e).

Lemma round_ok s0 o s :
  midway s0 o tt s ->
  match handle_command (xvc_info max) freq tt s with
  | Done (inl u, s') => midway s0 o u s' /\ 0 <= zlen (s_in fd (x_w s')) < zlen (s_in fd (x_w s))
  | Done (inr r, s') => call_ends s0 o (Done (r, s'))
  | Undef => call_ends s0 o Undef
  | Stuck => call_ends s0 o Stuck
  end.
Proof.
  intros (ss & fuel & sent & replies & ss' & e & HS & HI & Hb & Hf & Hout & Hc & ->).
  pose proof (request_ok s ss HS HI Hb) as Hr.
  destruct fuel as [|fuel]; [lia|]. cbn [serve_for] in Hc.
  destruct (next_request max (s_in fd (x_w s))) as [c rest| |rest|rest|] eqn:Hreq; cbn [served meets] in Hr.
  2-4: injection Hc as <- <- <-; destruct Hr as (s' & -> & A1 & A2 & A3 & A4);
    exists s'; rewrite app_nil_r; (split_and!; [done..|congruence]).
  2: { injection Hc as <- <- <-. by rewrite Hr. }
  destruct Hr as (r & s' & -> & A). destruct (answer max freq ss c) as [[reply ss1] stop].
  destruct A as (-> & A2 & A3 & A4 & A5). destruct stop.
  { injection Hc as <- <- <-. exists s'. split_and!; try done. by rewrite A5, Hout, app_assoc. }
  destruct (serve_for max freq fuel ss1 rest) as [[replies1 ss2] e1] eqn:Ec. injection Hc as <- <- <-.
  destruct (s_in fd (x_w s)) as [|x l] eqn:Hin; [done|].
  pose proof (request_rest max x l) as Hs. rewrite Hreq in Hs. cbn [rest_of] in Hs.
  pose proof (suffix_length _ _ Hs) as Hlen. cbn [length] in Hf. destruct Hs as [p ->].
  rewrite A4. split.
  - exists ss1, fuel, (sent ++ reply), replies1, ss2, e1. rewrite A4. split_and!; try done; [|lia|..].
    + apply Forall_cons in Hb as [_ [_ Hb]%Forall_app]. done.
    + by rewrite A5, Hout, app_assoc.
    + by rewrite app_assoc.
  - unfold zlen. cbn [length]. lia.
Qed.

(** C2: every byte stream.  Whatever bytes a client sends and however they
    are fragmented, a call of the handler is the specification [serve]: it
    answers the requests up to the one it returns at, returns 0 after a query
    or a move to Run-Test/Idle, 1 at the end of the stream, also within a
    command, and -1 at an unknown command, at vectors that do not fit and at
    a shift of no bits; what follows is unread, and the target, the TAP state
    and the TLR flag are those of the specification.  Defined behaviour is
    left exactly when a request has a length of -15 bits or less or above
    [INT_MAX - 7].  The vector size is at most 64 KiB, above which a shift
    may be longer than what a scan handles. *)
Theorem xvc_any_stream (s : xstate AD W) (ss : session T) (size : Z) :
  serving s -> in_session s ss -> Forall byte_ok (s_in fd (x_w s)) -> zlen (s_in fd (x_w s)) < 2 ^ 64 ->
  call_ends s (serve max freq ss (s_in fd (x_w s))) (xvc_handle fd true size freq s).
Proof.
  intros HS HI Hb Hlen. rewrite (xvc_handle_serving fd max freq bv br) by done.
  destruct (serve max freq ss (s_in fd (x_w s))) as [[replies ss'] e] eqn:Ec.
  apply (while_outcome _ (midway s (replies, ss', e)) (fun _ s => zlen (s_in fd (x_w s))) (call_ends s (replies, ss', e)));
    [intros []; apply round_ok| |done].
  exists ss, (S (length (s_in fd (x_w s)))), [], replies, ss', e. rewrite app_nil_r. split_and!; try done. lia.
Qed.
End Any.

(** ** Streams of all kinds on the concrete link *)

(** A shift in the form that the handler takes for the older one, a settck cut
    off by the end of the stream. *)
Definition odd_stream : list Z := bytes_of "shifet:" ++ xvc_put_int32 5 ++ [0x0f; 0x00] ++ bytes_of "settck:" ++ [1].

Example odd_streams :
  serve 8 0 (new_session sim_cable) odd_stream =
    ([0x00], mk_session JTAG_RUN_TEST_IDLE true RUN_TEST_IDLE false (mk_target RUN_TEST_IDLE false), Some (0, bytes_of "settck:" ++ [1])) /\
  (serve 8 0 (new_session sim_cable) (bytes_of "settck:" ++ [1])).2 = Some (1, []) /\
  (serve 8 0 (new_session sim_cable) (bytes_of "shift:" ++ xvc_put_int32 0 ++ [7])).2 = Some (-1, [7]) /\
  (serve 8 0 (new_session sim_cable) (bytes_of "shift:" ++ xvc_put_int32 (-15) ++ [7])).2 = None.
Proof. by vm_compute. Qed.

Lemma xvc_any_stream_witness :
  let s := sim_xstate odd_stream in
  let ss := new_session sim_cable in
  (Serving 4 8 0 1 s /\ in_session s ss /\ Forall byte_ok odd_stream) /\
  call_ends 4 8 0 1 s (serve 8 0 ss odd_stream) (xvc_handle 4 true 8 0 s).
Proof.
  intros s ss. assert (HS : Serving 4 8 0 1 s) by apply sim_serving.
  assert (HI : in_session s ss) by apply sim_in_session.
  assert (Hb : Forall byte_ok odd_stream) by (unfold odd_stream; cbn -[xvc_put_int32]; byte_list).
  split; [done|]. assert (H8 : 8 * 8 <= SCAN_MAX) by (by vm_compute).
  assert (Hin : s_in 4 (x_w s) = odd_stream) by apply sim_in.
  rewrite <- Hin in Hb |- *. apply (xvc_any_stream 4 8 0 0 1 H8 s ss 8 HS HI Hb). rewrite Hin. by vm_compute.
Defined.
