(* ===== verification/XvcSafe.v ===== *)
(** Clients that may go away at any moment.

    XvcStream.v says what a call of the handler does while the connection
    works.  Here reads and writes may fail whenever they like.  As long as the
    client never sends a length out of the range of the computation, the
    handler stays within defined behaviour, leaves a context that can be used
    or freed, and asks for the next call exactly when it stands between two
    requests. *)

From S2P Require Import Prelude Outcome Jtag Bits Memory CString D2xx MpsseBuffer.
From S2P Require Import MpsseScan MpsseShift MpsseRefine FtdiAdapter XvcProtocol XvcRefine XvcServer XvcStream.

(** ** Clients *)

(** [client_in fd w]: the bytes that the peer of [fd] will get through before
    its connection ends or fails. *)
Class ClientStreams (W : Type) `{Sockets W} := {
  client_in : Z -> W -> list Z;
  client_read : forall fd n w r d w', 0 < n -> sock_read fd n w = ((r, d), w') -> 0 < r ->
    zlen d = r /\ r <= n /\ client_in fd w = d ++ client_in fd w';
  client_read_other : forall fd fd' n w, fd' <> fd -> client_in fd' (sock_read fd n w).2 = client_in fd' w;
  client_write : forall fd fd' d w, client_in fd' (sock_write fd d w).2 = client_in fd' w;
  client_quickack : forall fd fd' w, client_in fd' (sock_quickack fd w) = client_in fd' w
}.

(** A property of the world that the sockets keep. *)
Record kept_by_sockets {W} `{Sockets W} (P : W -> Prop) : Prop := {
  sockets_read : forall fd n w, P w -> P (sock_read fd n w).2;
  sockets_write : forall fd d w, P w -> P (sock_write fd d w).2;
  sockets_quickack : forall fd w, P w -> P (sock_quickack fd w)
}.

(** ** Streams without a length that breaks the server *)

Fixpoint polite_for (fuel : nat) (max : Z) (l : list Z) : bool :=
  match fuel with
  | O => true
  | S fuel =>
      match next_request max l with
      | Asks _ rest => polite_for fuel max rest
      | Breaks => false
      | _ => true
      end
  end.

(** A request takes at least two bytes, so this looks at all of them. *)
Definition polite (max : Z) (l : list Z) : Prop := Forall byte_ok l /\ polite_for (S (length l)) max l = true.

Lemma polite_less max n m l : (n <= m)%nat -> polite_for m max l = true -> polite_for n max l = true.
Proof.
  revert m l. induction n as [|n IH]; intros m l Hn; [done|]. destruct m as [|m]; [lia|]. cbn [polite_for].
  destruct (next_request max l); try done. apply IH. lia.
Qed.

Lemma polite_next max l : polite max l ->
  next_request max l <> Breaks /\ forall c rest, next_request max l = Asks c rest -> polite max rest.
Proof.
  intros [Hb Hp]. cbn [polite_for] in Hp. split; [by intros E1; rewrite E1 in Hp|]. intros c rest E1. rewrite E1 in Hp.
  destruct l as [|a l]; [done|]. pose proof (request_rest max a l) as Hs. rewrite E1 in Hs. cbn [rest_of] in Hs.
  pose proof (suffix_length _ _ Hs). split.
  - destruct Hs as [p ->]. apply Forall_cons in Hb as [_ [_ Hb]%Forall_app]. done.
  - eapply polite_less; [|exact Hp]. cbn [length]. lia.
Qed.

Lemma cut_app a l : cut (zlen a) (a ++ l) = Some (a, l).
Proof.
  unfold cut. rewrite zlen_app, (proj2 (Z.ltb_ge _ _)) by (pose proof (zlen_nonneg l); lia).
  unfold zlen. by rewrite Nat2Z.id, take_app_length, drop_app_length.
Qed.

#[local] Abbreviation out := (outcome False True).

(** ** The socket loops *)

Section Loops.
Context {W : Type} `{ClientStreams W} (P : W -> Prop) (HP : kept_by_sockets P) (fd : Z).

(** The other clients notice nothing. *)
Definition near (w w' : W) : Prop := (forall fd', fd' <> fd -> client_in fd' w' = client_in fd' w) /\ (P w -> P w').

Lemma near_refl w : near w w.
Proof. by split. Qed.

Lemma near_trans a b c : near a b -> near b c -> near a c.
Proof. intros [A1 A2] [B1 B2]. split; [|by auto]. intros fd' Hfd. by rewrite B1, A1. Qed.

Lemma near_read n w : near w (sock_read fd n w).2.
Proof. split; [intros fd' Hfd; by apply client_read_other|apply (sockets_read _ HP)]. Qed.

Lemma near_write d w : near w (sock_write fd d w).2.
Proof. split; [intros fd' _; apply client_write|apply (sockets_write _ HP)]. Qed.

Lemma near_quickack w : near w (sock_quickack fd w).
Proof. split; [intros fd' _; apply client_quickack|apply (sockets_quickack _ HP)]. Qed.

Lemma read_exact_safe n w : 0 <= n ->
  out (xvc_read_exact fd n w) (fun v w' => near w w' /\ zlen v.2 <= n /\ v.2 `prefix_of` client_in fd w /\
    (v.1 = 1 -> zlen v.2 = n /\ client_in fd w = v.2 ++ client_in fd w')).
Proof.
  intros Hn. apply (outcome_while (read_step fd) (fun v w1 => near w w1 /\ 0 <= v.1 /\ zlen v.2 + v.1 = n /\
    client_in fd w = v.2 ++ client_in fd w1)); [|done|cbn; split_and!; [apply near_refl|lia|done|done]].
  intros [len got] w1 (Hw & Hl & Hg & Hc). cbn [fst snd] in *. unfold read_step. destruct (Z.ltb_spec 0 len) as [Hpos|Hneg].
  - unfold may_block, mbind, M_bind. pose proof (near_read len w1) as Hr. destruct (read_blocks fd len w1); [done|].
    destruct (sock_read fd len w1) as [[r d] w'] eqn:E1. cbn [snd] in Hr. pose proof (near_trans _ _ _ Hw Hr) as Hw'.
    destruct (Z.leb_spec r 0) as [Hr0|Hr0]; cbn [outcome mret M_ret].
    + cbn [fst snd]. split_and!; [done|lia|by eexists|lia].
    + destruct (client_read fd len w1 r d w' Hpos E1 Hr0) as (Hz & Hrl & Hin). cbn [fst snd].
      rewrite zlen_app. split_and!; [done|lia|lia|]. by rewrite Hc, Hin, app_assoc.
  - unfold sock, mbind, M_bind. cbn [outcome mret M_ret fst snd]. pose proof (near_quickack w1) as Hq. split_and!; [by eapply near_trans|lia|by eexists|]. intros _. split; [lia|].
    by rewrite client_quickack.
Qed.

Lemma write_exact_safe buf n w :
  out (xvc_write_exact fd buf n w) (fun _ w' => near w w' /\ client_in fd w' = client_in fd w).
Proof.
  apply (outcome_while (write_step fd) (fun _ w1 => near w w1 /\ client_in fd w1 = client_in fd w)); [|done|by split; [apply near_refl|]].
  intros [len b] w1 [Hw Hc]. unfold write_step. destruct (0 <? len); [|done].
  cbv zeta. unfold may_block, mbind, M_bind. pose proof (near_write (take (Z.to_nat len) b) w1) as Hr.
  destruct (write_blocks fd (take (Z.to_nat len) b) w1); [done|].
  pose proof (client_write fd fd (take (Z.to_nat len) b) w1) as Hi.
  destruct (sock_write fd (take (Z.to_nat len) b) w1) as [r w']. cbn [snd] in Hr, Hi.
  assert (near w w' /\ client_in fd w' = client_in fd w) by (split; [by eapply near_trans|congruence]).
  by destruct (r <=? 0).
Qed.
End Loops.

(** ** The handler *)

Section Handler.
Context {AD E T W : Type} `{JtagCable AD E T} `{ClientStreams W} (P : W -> Prop) (HP : kept_by_sockets P).
Context (fd max freq : Z) (bv br : nat) (w0 : W).
#[local] Abbreviation X := (M (xstate AD W)).
#[local] Abbreviation serving := (Serving fd max bv br).

(** Within a call that began in the world [w0]. *)
Record upright (s : xstate AD W) : Prop := {
  up_serving : serving s;
  up_heap : mem_wf (x_mem s);
  up_near : near P fd w0 (x_w s)
}.

Definition unread (s : xstate AD W) : list Z := client_in fd (x_w s).

(** A step that comes back upright, and if it answers true with [Q]. *)
Definition told (e : exec (bool * xstate AD W)) (Q : xstate AD W -> Prop) : Prop :=
  out e (fun ok s' => upright s' /\ (ok = true -> Q s')).

Lemma upright_ctx (s : xstate AD W) c w :
  upright s -> near P fd (x_w s) w -> socket_fd c = socket_fd (x_ctx s) -> xvc_ftdi c = xvc_ftdi (x_ctx s) ->
  max_vector_size c = max_vector_size (x_ctx s) -> zlen (cmd_buf c) = zlen (cmd_buf (x_ctx s)) ->
  vector_buf c = vector_buf (x_ctx s) -> result_buf c = result_buf (x_ctx s) -> upright (with_ctx s c w).
Proof.
  intros [HS Hm Hn] Hw C1 C2 C3 C4 C5 C6. split; [by apply Serving_ctx|done|]. by eapply near_trans.
Qed.

Lemma upright_heap (s : xstate AD W) p m : upright s ->
  (forall l, m_blocks (x_mem s) !! bv = Some l -> Forall byte_ok l ->
     exists l', m_blocks m !! bv = Some l' /\ zlen l' = zlen l /\ Forall byte_ok l') ->
  (forall l, m_blocks (x_mem s) !! br = Some l -> Forall byte_ok l ->
     exists l', m_blocks m !! br = Some l' /\ zlen l' = zlen l /\ Forall byte_ok l') ->
  mem_frame p (x_mem s) m -> upright (s <| x_mem := m |>).
Proof.
  intros [HS Hm Hn] Hv Hr Hf. split; [|by eapply mem_frame_wf|done]. pose proof HS as [F1 F2 F3 F4 F5 F6 F7 F8 (lv & F9 & Zv & Bv) (lr & F10 & Zr & Br) F11].
  apply (Serving_heap fd max bv br s m (x_ad s)) in HS; try done.
  - destruct (Hv lv F9 Bv) as (l & ? & ? & ?). exists l. split_and!; [done|congruence|done].
  - destruct (Hr lr F10 Br) as (l & ? & ? & ?). exists l. split_and!; [done|congruence|done].
Qed.

(** What the session is does not matter here. *)
Definition session_of (s : xstate AD W) : session T :=
  mk_session (xvc_jtag_state (x_ctx s)) (seen_tlr (x_ctx s)) (cable_state (x_ad s)) (cable_tdi (x_ad s)) (cable_tap (x_ad s)).

Lemma session_of_ok s : in_session s (session_of s).
Proof. by split_and!. Qed.

(** *** Input and output *)

Lemma socket_then {A B} (op : M W A) (k : A -> X B) (s : xstate AD W) Q R :
  out (op (x_w s)) Q -> (forall a w, Q a w -> out (k a (with_ctx s (x_ctx s) w)) R) -> out ((on_socket op ≫= k) s) R.
Proof.
  intros Ho Hk. unfold on_socket, zoom, mbind, M_bind. destruct (op (x_w s)) as [[a w]| |]; [|done..]. by apply Hk.
Qed.

Lemma read_cmd_safe s off n : upright s -> 0 <= off -> 0 <= n -> off + n <= 16 ->
  told (read_cmd off n s) (fun s' => exists a, unread s = a ++ unread s' /\ zlen a = n /\
    cmd_buf (x_ctx s') = splice off a (cmd_buf (x_ctx s))).
Proof.
  intros Hu Ho Hn Hl. pose proof (up_serving _ Hu) as HS. pose proof (Sv_cmd _ _ _ _ _ HS) as Hc.
  unfold read_cmd, xctx. apply outcome_gets. rewrite (Sv_fd _ _ _ _ _ HS).
  eapply socket_then; [by apply (read_exact_safe P HP)|]. intros [r got] w (Hw & Hg & _ & H1'). cbn [fst snd] in *.
  rewrite splice_write by lia. cbn [of_option lift_exec].
  assert (Hup : forall k, upright (with_ctx s ((x_ctx s) <| cmd_buf := splice off got (cmd_buf (x_ctx s)) |> <| bytes_rx := k |>) w)).
  { intros k. apply upright_ctx; try done. apply zlen_splice; lia. }
  unfold set_xctx, modify, mbind, M_bind. cbn [lift_exec]. destruct (Z.eqb_spec r 1) as [->|Hr]; cbn [negb].
  - destruct (H1' eq_refl) as [Hz Hin]. split; [apply Hup|]. intros _. by exists got.
  - split; [|done]. apply (Hup (bytes_rx (x_ctx s))).
Qed.

Lemma read_vectors_safe s n : upright s -> Forall byte_ok (unread s) -> 0 <= n <= max * 2 ->
  told (read_vectors n s) (fun s' => exists a tl, unread s = a ++ unread s' /\ zlen a = n /\
    m_blocks (x_mem s') !! bv = Some (a ++ tl)).
Proof.
  intros Hu Hb Hn. pose proof (up_serving _ Hu) as HS. pose proof HS as [F1 F2 F3 F4 F5 F6 F7 F8 (lv & F9 & Zlv & Blv) F10 F11].
  unfold read_vectors, xctx. apply outcome_gets. rewrite F1.
  eapply socket_then; [by apply (read_exact_safe P HP); lia|]. intros [r got] w (Hw & Hg & [rest Hp] & H1'). cbn [fst snd] in *.
  destruct (store_block (x_mem s) bv lv got F9) as (m & E1 & L1 & Fr1); [lia|].
  erewrite bind_done; [|apply xheap_done; cbn [x_mem with_ctx]; rewrite F6; exact E1].
  set (s1 := setter x_mem _ _).
  assert (Hu1 : upright s1).
  { apply (upright_heap (with_ctx s (x_ctx s) w) (Ptr bv 0)); [by apply upright_ctx|..|done].
    - cbn [x_mem with_ctx]. intros l Hl Bl. rewrite F9 in Hl. injection Hl as <-. exists (got ++ drop (length got) lv).
      split; [done|]. split; [rewrite zlen_app; unfold zlen in *; rewrite length_drop; lia|].
      apply Forall_app. split; [|by apply drop_byte_ok]. unfold unread in Hb. rewrite Hp in Hb. by apply Forall_app in Hb as [? _].
    - cbn [x_mem with_ctx]. intros l Hl Bl. exists l. by rewrite (mem_frame_other _ _ _ _ _ Fr1). }
  destruct (Z.eqb_spec r 1) as [->|Hr]; cbn [negb]; [|by split].
  destruct (H1' eq_refl) as [Hz Hin]. unfold set_xctx, modify, mbind, M_bind. split.
  - by apply (upright_ctx s1 _ (x_w s1) Hu1 (near_refl P fd _)).
  - intros _. by exists got, (drop (length got) lv).
Qed.

Lemma send_reply_safe s buf n : upright s ->
  told (send_reply buf n s) (fun s' => unread s' = unread s).
Proof.
  intros Hu. pose proof (up_serving _ Hu) as HS. unfold send_reply, xctx. apply outcome_gets. rewrite (Sv_fd _ _ _ _ _ HS).
  eapply socket_then; [by apply (write_exact_safe P HP)|]. intros r w [Hw Hin]. cbn beta in *.
  assert (Hu1 : upright (with_ctx s (x_ctx s) w)) by (by apply upright_ctx).
  destruct (r <? 0); [by split|]. unfold set_xctx, modify, mbind, M_bind. split; [|done].
  by apply (upright_ctx (with_ctx s (x_ctx s) w) _ w Hu1 (near_refl P fd _)).
Qed.

(** *** Commands *)

(** What the handler of a command does with a request that does not break it:
    it goes on or returns 0 only when it has taken the whole request. *)
Definition takes (req : request) (e : exec ((unit + Z) * xstate AD W)) : Prop :=
  req <> Breaks -> out e (fun r s' => upright s' /\ (r = inl tt \/ r = inr 0 -> exists c, req = Asks c (unread s'))).

Lemma takes_back req s r : upright s -> r <> 0 -> takes req ((mret (inr r) : X (unit + Z)) s).
Proof. intros Hu Hr _. split; [done|]. intros [?|[= ?]]; done. Qed.

(** An early return. *)
Lemma takes_after req (m : X bool) (k : X (unit + Z)) (e : Z) s Q :
  told (m s) Q -> e <> 0 -> (forall s', upright s' -> Q s' -> takes req (k s')) ->
  takes req ((ok ← m; if negb (ok : bool) then mret (inr e) else k) s).
Proof.
  intros Hm He Hk Hreq. eapply outcome_bind; [exact Hm|]. intros [] s' [Hu HQ]; cbn [negb]; [by apply Hk; [|apply HQ|]|].
  by apply (takes_back req s' e).
Qed.

Lemma reply_takes c s buf n : upright s ->
  takes (Asks c (unread s)) ((ok ← send_reply buf n; if negb (ok : bool) then mret (inr (-1)) else mret (inr 0)) s).
Proof.
  intros Hu. eapply takes_after; [by apply send_reply_safe|done|]. intros s' Hu' <- _. split; [done|]. intros _. by exists c.
Qed.

Lemma getinfo_takes s info : upright s ->
  takes (match cut 6 (unread s) with None => Gone | Some (_, rest) => Asks Getinfo rest end) (handle_getinfo info s).
Proof.
  intros Hu. eapply takes_after; [by apply read_cmd_safe|done|]. intros s' Hu' (a & -> & Ha & _).
  rewrite <- Ha, cut_app. by apply reply_takes.
Qed.

(** A new period: the adapter keeps the heap, the answer goes to the result buffer. *)
Lemma settck_takes s : upright s ->
  takes (match cut 9 (unread s) with None => Gone | Some (d, rest) => Asks (Settck (xvc_get_int32 (drop 5 d))) rest end)
    (handle_settck freq s).
Proof.
  intros Hu. eapply takes_after; [by apply read_cmd_safe|done|]. intros s1 Hu1 (a & -> & Ha & _). rewrite <- Ha, cut_app.
  pose proof (up_serving _ Hu1) as HS. pose proof HS as [F1 F2 F3 F4 F5 F6 F7 F8 F9 (lr & F10 & Zlr & Blr) F11].
  intros Hreq. unfold xctx. apply outcome_gets. rewrite F2, F7. cbv zeta.
  set (period := if freq =? 0 then _ else _).
  destruct (cable_set_period (x_mem s1) (x_ad s1) (u32 period) F11 (u32_range _)) as (m1 & ad1 & E1 & R1 & M1 & _).
  rewrite (bind_done _ _ _ _ _ (on_adapter_done _ _ _ _ _ E1)). set (actual := if _ <? 0 then _ else _).
  assert (Hbl : m_blocks m1 = m_blocks (x_mem s1)) by (by destruct M1 as (_ & _ & _ & ?)).
  destruct (store_block m1 br lr (xvc_put_int32 actual)) as (m2 & E2 & L2 & Fr2); [by rewrite Hbl|change (4 <= zlen lr); lia|].
  erewrite bind_done; [|apply xheap_done; cbn [x_mem setter]; exact E2].
  erewrite bind_done; [|apply xbytes_done].
  2: { cbn [x_mem setter]. rewrite <- (ptr_add_0 (Ptr br 0)).
       apply (load_bytes_from m2 (Ptr br 0) _ 0 4 (block_load _ _ _ L2)); [lia|lia|].
       rewrite zlen_app. pose proof (zlen_nonneg (drop (length (xvc_put_int32 actual)) lr)).
       change (zlen (xvc_put_int32 actual)) with 4. lia. }
  match goal with |- out ((send_reply ?d 4 ≫= ?k) ?s2) _ => set (s' := s2) end.
  refine (reply_takes (Settck (xvc_get_int32 (drop 5 a))) s' _ 4 _ Hreq).
  apply (upright_heap (mk_xstate (x_ctx s1) m1 ad1 (x_w s1)) (Ptr br 0)); [| | |exact Fr2].
  - destruct Hu1 as [_ Hm Hn]. split; [|by apply (mem_frame_wf _ _ _ M1)|exact Hn].
    apply (Serving_heap fd max bv br s1 m1 ad1); [done|by rewrite Hbl|rewrite Hbl; eauto|done].
  - cbn [x_mem]. intros l Hl Bl. exists l. by rewrite (mem_frame_other _ _ _ _ _ Fr2 F8).
  - cbn [x_mem]. rewrite Hbl, F10. intros l [= <-] Bl. eexists. split; [exact L2|]. split.
    + rewrite zlen_app. unfold zlen in *. rewrite length_drop. cbn [length xvc_put_int32]. lia.
    + apply Forall_app. split; [apply put_int32_ok|by apply drop_byte_ok].
Qed.

(** From the clearing of the result buffer to the movement, of the context
    that [shift_vectors] has read before. *)
Lemma moves_safe s c n tms tdi tl : upright s -> xvc_ftdi c = true -> vector_buf c = Ptr bv 0 -> result_buf c = Ptr br 0 ->
  1 <= n <= SCAN_MAX -> vector_bytes n <= max -> zlen tms = vector_bytes n -> zlen tdi = vector_bytes n ->
  m_blocks (x_mem s) !! bv = Some (tms ++ tdi ++ tl) ->
  exists m s2 s3, memset (x_mem s) (Ptr br 0) 0 (vector_bytes n) = Some m /\
    note_tlr (s <| x_mem := m |>) = Done (tt, s2) /\ movement c (vector_bytes n) n s2 = Done (0, s3) /\
    upright s3 /\ x_w s3 = x_w s /\ exists d R, m_blocks (x_mem s3) !! br = Some (d ++ R) /\ zlen d = vector_bytes n.
Proof.
  intros Hu Hf Hvb Hrb Hn Hmax Ht Hd Hv. pose proof Hu as [HS Hm Hnear]. pose proof (vector_bytes_range n ltac:(lia)) as Hr.
  set (nr := vector_bytes n) in *.
  pose proof HS as [F1 F2 F3 F4 F5 F6 F7 F8 (lv & F9 & Zlv & Blv) (lr & F10 & Zlr & Blr) F11].
  rewrite F9 in Hv. injection Hv as ->.
  destruct (note_ok fd max bv br s (session_of s) lr nr HS (session_of_ok s) F10 ltac:(lia)) as (m & E1 & L1 & V1 & Fr1 & s2 & E2 & M2 & W2 & HS2 & HI2).
  destruct (movement_ok fd max bv br s2 c (noted (session_of s)) n tms tdi tl (drop (Z.to_nat nr) lr) HS2 Hf Hvb Hrb HI2 Hn Ht Hd Blv)
    as (s3 & E3 & HS3 & _ & W3 & B3 & Z3 & Hwf); [by rewrite M2, V1|by rewrite M2|].
  exists m, s2, s3. split_and!; try done; [|congruence|by eexists _, _].
  split; [done|apply Hwf; rewrite M2; by apply (mem_frame_wf _ _ _ Fr1)|by rewrite W3, W2].
Qed.

Lemma shift_reply_takes c s d R n : upright s -> m_blocks (x_mem s) !! br = Some (d ++ R) -> zlen d = n -> 1 <= n ->
  takes (Asks c (unread s)) (shift_reply (Ptr br 0) n s).
Proof.
  intros Hu Hl Hd Hn. unfold shift_reply. rewrite (proj2 (Z.ltb_lt 0 n)) by lia.
  assert (E1 : xbytes (Ptr br 0) n s = Done (d, s)).
  { apply xbytes_done. rewrite <- (ptr_add_0 (Ptr br 0)).
    rewrite (load_bytes_from _ _ _ 0 n (block_load _ _ _ Hl));
      [|lia|lia|rewrite zlen_app; pose proof (zlen_nonneg R); lia].
    change (Z.to_nat 0) with 0%nat. rewrite drop_0. unfold zlen in Hd.
    replace (Z.to_nat n) with (length d) by lia. by rewrite take_app_length. }
  intros Hreq. rewrite (bind_done _ _ _ _ _ E1). eapply outcome_bind; [by apply send_reply_safe|].
  intros [] s' [Hu' Hin]; cbn [negb].
  - split; [done|]. intros _. exists c. by rewrite (Hin eq_refl).
  - split; [done|]. by intros [?|?].
Qed.

Context (Hmax : max * 8 <= SCAN_MAX).

Lemma max_range s : upright s -> 4 <= max <= 65536.
Proof. intros [HS _ _]. pose proof (Sv_range _ _ _ _ _ HS). unfold SCAN_MAX in Hmax. lia. Qed.

Lemma vectors_takes s n : upright s -> Forall byte_ok (unread s) -> 1 <= n -> vector_bytes n <= max ->
  takes (vectors_request n (unread s)) (shift_vectors n s).
Proof.
  intros Hu Hb Hn Hv. pose proof (vector_bytes_range n ltac:(lia)) as Hr. pose proof (max_range s Hu) as Hm.
  pose proof (up_serving _ Hu) as HS. pose proof HS as [F1 F2 F3 F4 F5 F6 F7 F8 F9 F10 F11].
  unfold vectors_request, shift_vectors. rewrite (int_arith_ok (n + 7)) by (unfold INT_MIN, INT_MAX; lia). cbn [lift_exec].
  rewrite (bind_done _ _ s (n + 7) s eq_refl). cbv zeta. rewrite Z.quot_div_nonneg by lia. fold (vector_bytes n).
  set (nr := vector_bytes n) in *. unfold xctx, gets. rewrite (bind_done _ _ s (x_ctx s) s eq_refl).
  rewrite F3, (proj2 (Z.ltb_ge max nr)) by lia.
  eapply takes_after; [by apply read_vectors_safe; [..|lia]|done|]. intros s1 Hu1 (a & tl & -> & Ha & B1). rewrite <- Ha, cut_app.
  assert (Hz : zlen (take (Z.to_nat nr) a) = nr /\ zlen (drop (Z.to_nat nr) a) = nr).
  { unfold zlen in *. rewrite length_take, length_drop. lia. }
  rewrite <- (take_drop (Z.to_nat nr) a), <- app_assoc in B1.
  destruct (moves_safe s1 (x_ctx s) n (take (Z.to_nat nr) a) (drop (Z.to_nat nr) a) tl Hu1 F2 F6 F7) as (m & s2 & s3 & E1 & E2 & E3 & Hu3 & W3 & d & R & B3 & Z3);
    [lia|done|apply Hz|apply Hz|exact B1|].
  intros Hreq. rewrite F7. erewrite bind_done; [|apply xheap_done; exact E1]. rewrite (bind_done _ _ _ _ _ E2), (bind_done _ _ _ _ _ E3).
  cbn [Z.ltb Z.compare]. unfold unread. rewrite <- W3. apply (shift_reply_takes _ s3 d R nr); [done..|lia|done].
Qed.

Lemma nothing_takes s n rest : upright s -> Forall byte_ok (unread s) -> -15 < n <= 0 -> takes (Nothing rest) (shift_vectors n s).
Proof.
  intros Hu Hb Hn. pose proof (max_range s Hu) as Hm.
  pose proof (up_serving _ Hu) as HS. pose proof HS as [F1 F2 F3 F4 F5 F6 F7 F8 F9 F10 F11].
  assert (Hq : Z.quot (n + 7) 8 = 0).
  { destruct (Z.le_gt_cases 0 (n + 7)); [by apply Z.quot_small; lia|].
    replace (n + 7) with (- - (n + 7)) by lia. rewrite Z.quot_opp_l by lia. rewrite Z.quot_small; lia. }
  unfold shift_vectors. rewrite (int_arith_ok (n + 7)) by (unfold INT_MIN, INT_MAX; lia). cbn [lift_exec].
  rewrite (bind_done _ _ s (n + 7) s eq_refl). cbv zeta. rewrite Hq.
  unfold xctx, gets. rewrite (bind_done _ _ s (x_ctx s) s eq_refl). rewrite F3, (proj2 (Z.ltb_ge max 0)) by lia.
  eapply takes_after; [by apply read_vectors_safe; [..|lia]|done|]. intros s1 Hu1 _ Hreq.
  pose proof Hu1 as [HS1 Hm1 Hn1]. destruct (Sv_vector _ _ _ _ _ HS1) as (lv & G9 & Zlv & Blv). destruct (Sv_result _ _ _ _ _ HS1) as (lr & G10 & Zlr & Blr).
  destruct (note_ok fd max bv br s1 (session_of s1) lr 0 HS1 (session_of_ok s1) G10 ltac:(lia)) as (m & E1 & L1 & V1 & Fr1 & s2 & E2 & M2 & W2 & HS2 & HI2).
  rewrite F7. erewrite bind_done; [|apply xheap_done; exact E1]. rewrite (bind_done _ _ _ _ _ E2).
  destruct (no_movement_ok fd max bv br s2 (x_ctx s) (noted (session_of s1)) n lv HS2 HI2 Hn F2) as (s3 & E3 & HS3 & _ & W3 & M3);
    [by rewrite M2, V1|lia|].
  rewrite (bind_done _ _ _ _ _ E3). split; [|by intros [?|?]].
  split; [done|rewrite M3, M2; by apply (mem_frame_wf _ _ _ Fr1)|by rewrite W3, W2].
Qed.

Lemma byte_ok_tail a l : Forall byte_ok (a ++ l) -> Forall byte_ok l.
Proof. by intros [_ ?]%Forall_app. Qed.

Lemma length_takes s : upright s -> Forall byte_ok (unread s) -> takes (length_request max (unread s)) (shift_length s).
Proof.
  intros Hu Hb. eapply takes_after; [by apply read_cmd_safe|done|]. intros s1 Hu1 (b & Hin & Ha & B1).
  rewrite Hin in *. apply byte_ok_tail in Hb. unfold length_request. rewrite <- Ha, cut_app.
  unfold xctx, gets. rewrite (bind_done _ _ s1 (x_ctx s1) s1 eq_refl).
  pose proof (Sv_cmd _ _ _ _ _ (up_serving _ Hu)) as F5.
  rewrite B1. change (splice 6 b) with (splice 6 ([] ++ b)). change 6%nat with (Z.to_nat (6 + 0)).
  rewrite (drop_splice 6 0) by (done || lia). rewrite (get_int32_prefix b) by done.
  set (n := xvc_get_int32 b). assert (Hr : INT_MIN <= n <= INT_MAX) by apply i32_range.
  destruct ((n <=? -15) || (INT_MAX - 7 <? n)) eqn:Eb; zb; [by intros ?|].
  zcase (n <=? 0); [by apply nothing_takes; [..|lia]|].
  zcase (max <? vector_bytes n); [|by apply vectors_takes; [..|lia|lia]].
  rewrite (shift_oversized fd max bv br s1 n) by (apply Hu1 || lia). by apply takes_back.
Qed.

Lemma shift_takes s : upright s -> Forall byte_ok (unread s) -> takes (shift_request max (unread s)) (handle_shift s).
Proof.
  intros Hu Hb. eapply takes_after; [by apply read_cmd_safe|done|]. intros s1 Hu1 (a & Hin & Ha & B1).
  rewrite Hin in *. apply byte_ok_tail in Hb. unfold shift_request. rewrite <- Ha, cut_app.
  unfold xctx, gets. rewrite (bind_done _ _ s1 (x_ctx s1) s1 eq_refl).
  assert (B4 : byte_at (cmd_buf (x_ctx s1)) 4 = byte_at a 2).
  { rewrite B1, byte_at_splice by (rewrite ?(Sv_cmd _ _ _ _ _ (up_serving _ Hu)); lia). by rewrite Ha. }
  rewrite B4, (Sv_fd _ _ _ _ _ (up_serving _ Hu1)). destruct ((byte_at a 2 =? 0x65) || (byte_at a 2 =? 0x45)).
  2: { rewrite (bind_done _ _ s1 true s1 eq_refl). by apply length_takes. }
  intros Hreq. rewrite <- bind_assoc_at. eapply socket_then; [by apply (read_exact_safe P HP)|].
  intros [r got] w (Hw & _ & _ & Hg). cbn [fst snd] in *. destruct (Z.eqb_spec r 1) as [->|]; cbn [negb].
  2: { split; [by apply upright_ctx|]. by intros [?|?]. }
  destruct (Hg eq_refl) as [Hz Hi]. unfold unread in Hreq, Hb. rewrite Hi in Hreq, Hb. rewrite <- Hz, cut_app in Hreq. apply byte_ok_tail in Hb.
  unfold set_xctx, modify, mbind, M_bind. cbn [mret M_ret negb].
  set (s2 := setter x_ctx _ _). assert (Hu2 : upright s2).
  { by apply (upright_ctx (with_ctx s1 (x_ctx s1) w) _ w (upright_ctx s1 (x_ctx s1) w Hu1 Hw eq_refl eq_refl eq_refl eq_refl eq_refl eq_refl) (near_refl P fd _)). }
  unfold unread. rewrite Hi, <- Hz, cut_app. by apply (length_takes s2 Hu2).
Qed.

(** *** The loop *)

Lemma loop_takes req (h : X (unit + Z)) s : takes req (h s) -> takes req ((r ← h; loop_condition r) s).
Proof.
  intros Hh Hreq. eapply outcome_bind; [by apply Hh|]. intros [[]|r] s' [Hu Hr]; cbn [loop_condition].
  - unfold xctx. apply outcome_gets. destruct (_ && _); (split; [done|]); intros _; apply Hr; by left.
  - by split.
Qed.

Lemma command_takes s : upright s -> Forall byte_ok (unread s) ->
  takes (next_request max (unread s)) (handle_command (xvc_info max) freq tt s).
Proof.
  intros Hu Hb. eapply takes_after; [by apply read_cmd_safe|done|]. intros s1 Hu1 (a & Hin & Ha & B1).
  rewrite Hin in *. apply byte_ok_tail in Hb. destruct a as [|x [|y [|z a]]]; try done.
  2: { exfalso. rewrite !zlen_cons in Ha. pose proof (zlen_nonneg a). lia. }
  unfold xctx. intros Hreq. apply outcome_gets. revert Hreq.
  assert (Hxy : byte_at (cmd_buf (x_ctx s1)) 0 = x /\ byte_at (cmd_buf (x_ctx s1)) 1 = y).
  { pose proof (Sv_cmd _ _ _ _ _ (up_serving _ Hu)) as F5. rewrite B1, !byte_at_splice by (rewrite ?F5; done). done. }
  unfold is_cmd. destruct Hxy as [-> ->]. cbn [app next_request].
  destruct ((x =? 0x67) && (y =? 0x65)); [apply loop_takes; by apply getinfo_takes|].
  destruct ((x =? 0x73) && (y =? 0x65)); [apply loop_takes; by apply settck_takes|].
  destruct ((x =? 0x73) && (y =? 0x68)); [apply loop_takes; by apply shift_takes|].
  apply loop_takes. by apply takes_back.
Qed.

(** Between two requests. *)
Definition attentive (s : xstate AD W) : Prop := upright s /\ polite max (unread s).

Lemma serve_safe s : attentive s ->
  out (while_loop (handle_command (xvc_info max) freq) tt s) (fun r s' => upright s' /\ (r = 0 -> polite max (unread s'))).
Proof.
  intros Hs. apply (outcome_while _ (fun _ => attentive)); [|done|done]. clear s Hs. intros [] s [Hu Hp].
  destruct (polite_next _ _ Hp) as [Hreq Hnext]. eapply outcome_mono; [apply command_takes; [done|apply Hp|done]|].
  intros [[]|r] s' [Hu' Hr]; [|split; [done|intros ->]].
  - split; [done|]. destruct (Hr (or_introl eq_refl)) as [c Hc]. by eapply Hnext.
  - destruct (Hr (or_intror eq_refl)) as [c Hc]. by eapply Hnext.
Qed.
End Handler.

(** ** The life of a context *)

Section Life.
Context {AD E T W : Type} `{JtagCable AD E T} `{ClientStreams W} (P : W -> Prop) (HP : kept_by_sockets P).
Context (size freq : Z).
#[local] Abbreviation X := (M (xstate AD W)).
#[local] Abbreviation max := (xvc_vector_size size).

(** A context between two calls: without buffers, or serving the client that
    was last called for. *)
Record live (s : xstate AD W) : Prop := {
  live_heap : mem_wf (x_mem s);
  live_ready : cable_ready (x_ad s);
  live_size : max_vector_size (x_ctx s) = 0 \/ max_vector_size (x_ctx s) = max;
  live_buffers : vector_buf (x_ctx s) = NULL /\ result_buf (x_ctx s) = NULL \/
    exists bv br, Serving (socket_fd (x_ctx s)) max bv br s
}.

Lemma size_again c : c = 0 \/ c = max -> xvc_vector_size (if 0 <? size then size else c) = max.
Proof.
  intros Hc. destruct (Z.ltb_spec 0 size) as [|Hs]; [done|]. assert (Hm : max = 2048) by (unfold xvc_vector_size; by rewrite (proj2 (Z.leb_le _ _))).
  destruct Hc as [->| ->]; by rewrite Hm.
Qed.

Context (Hsize : 4 <= max) (Hmax : max * 8 <= SCAN_MAX).

Lemma upright_live fd bv br w0 s : upright P fd max bv br w0 s -> live s.
Proof.
  intros [HS Hm Hn]. pose proof HS as [F1 F2 F3 F4 F5 F6 F7 F8 F9 F10 F11]. split; [done|done|by right|right].
  exists bv, br. by rewrite F1.
Qed.

Lemma serve_call fd bv br (w0 : W) s : upright P fd max bv br w0 s -> polite max (client_in fd (x_w s)) ->
  out (while_loop (handle_command (xvc_info max) freq) tt s)
    (fun r s' => live s' /\ near P fd w0 (x_w s') /\ (r = 0 -> polite max (client_in fd (x_w s')))).
Proof.
  intros Hu Hp. eapply outcome_mono; [by apply (serve_safe P HP fd max freq bv br w0 Hmax s)|].
  intros r s' [Hu' Hr]. split; [by eapply upright_live|]. split; [by destruct Hu'|done].
Qed.

Lemma xvc_handle_safe fd s : live s -> polite max (client_in fd (x_w s)) ->
  out (xvc_handle fd true size freq s)
    (fun r s' => live s' /\ near P fd (x_w s) (x_w s') /\ (r = 0 -> polite max (client_in fd (x_w s')))).
Proof.
  intros [Hm Hc Hs Hb] Hp. unfold xvc_handle, xctx. apply outcome_gets.
  destruct (is_null (vector_buf (x_ctx s)) || negb (socket_fd (x_ctx s) =? fd)) eqn:Enew.
  - destruct (init_cases s fd true (if 0 <? size then size else max_vector_size (x_ctx s)) Hm) as (r & m & v & rb & E1 & Wm & Hr).
    rewrite size_again in Hr by done. unfold initial_context in E1. rewrite size_again in E1 by done.
    rewrite <- bind_assoc_at. rewrite (bind_done _ _ _ _ _ E1).
    destruct Hr as [(-> & _ & -> & -> & _)|(-> & b1 & b2 & l1 & l2 & -> & -> & Hne & _ & _ & Z1 & Z2 & B1 & B2 & Hbl)];
      cbn [Z.leb Z.compare].
    + rewrite (bind_done (mret false) _ _ false _ eq_refl). cbn [negb]. split; [|by split]. split; [done|done|by right|by left].
    + rewrite (bind_done (mret true) _ _ true _ eq_refl). cbn [negb]. apply outcome_gets. cbn [x_ctx max_vector_size].
      pose proof (vector_size_range size) as Hrg.
      apply (serve_call fd b1 b2 (x_w s)); [|done]. split; [|done|apply near_refl]. split; try done; cbn; try lia.
      * exists l1. by rewrite Hbl, lookup_insert_ne, lookup_insert_eq by done.
      * exists l2. by rewrite Hbl, lookup_insert_eq by done.
  - rewrite (bind_done (mret true) _ _ true s eq_refl). cbn [negb]. apply outcome_gets.
    apply orb_false_iff in Enew as [En Ef]. apply negb_false_iff, Z.eqb_eq in Ef.
    destruct Hb as [[Hv _]|(bv & br & HS)]; [by rewrite Hv in En|]. rewrite Ef in HS. rewrite (Sv_max _ _ _ _ _ HS).
    apply (serve_call fd bv br (x_w s)); [|done]. split; [done|done|apply near_refl].
Qed.

Lemma xvc_free_safe s : live s -> out (xvc_free s) (fun _ s' => live s' /\ x_w s' = x_w s).
Proof.
  intros [Hm Hc Hs Hb]. unfold xvc_free, xctx. apply outcome_gets.
  destruct Hb as [[Hv Hr]|(bv & br & HS)].
  - rewrite Hv, Hr. split; [|done]. split; [done|done|done|by left].
  - pose proof HS as [F1 F2 F3 F4 F5 F6 F7 F8 (lv & F9 & _) (lr & F10 & _) F11]. rewrite F6, F7.
    destruct (free_ok (x_mem s) bv lv F9) as (m1 & E1 & M1).
    destruct (free_ok m1 br lr) as (m2 & E2 & M2); [by rewrite M1, lookup_delete_ne|].
    erewrite bind_done; [|apply xheap_done; exact E1]. erewrite bind_done; [|apply xheap_done; exact E2].
    split; [|done]. split; [|done|done|by left].
    eapply free_live; [exact E2|]. by eapply free_live.
Qed.
End Life.
