(* ===== verification/Config.v ===== *)
(** config.c: the configuration and its INI file.

    A character array of a structure is the C string it holds.  The text of
    the file is a parameter of [config_load] ([None] when it cannot be
    opened); [config_save] answers the text it writes. *)

From S2P Require Import Prelude CString.
From Stdlib Require Import Ascii String.
Open Scope Z_scope.

(** ** Limits and defaults *)

Definition MAX_INSTANCES : Z := 32.
Definition MAX_SERIAL_LEN : Z := 64.
Definition MAX_ALIAS_LEN : Z := 64.
Definition MAX_WHITELIST_ENTRIES : Z := 64.
Definition MAX_IP_LEN : Z := 46.

Definition DEFAULT_BASE_PORT : Z := 2542.
Definition DEFAULT_FREQUENCY : Z := 30000000.
Definition DEFAULT_LATENCY : Z := 2.
Definition DEFAULT_XVC_BUFFER_SIZE : Z := 2048.
Definition MIN_XVC_BUFFER_SIZE : Z := 64.
Definition MAX_XVC_BUFFER_SIZE : Z := 536870912.
Definition DEFAULT_CLIENT_LOCK_TIMEOUT : Z := 10.
(** [XVC_LOG_INFO] of logging.h. *)
Definition DEFAULT_LOG_LEVEL : Z := 2.

(** ** Data *)

Inductive device_id_type_t :=
  | DEVICE_ID_NONE
  | DEVICE_ID_SERIAL
  | DEVICE_ID_BUS
  | DEVICE_ID_CUSTOM
  | DEVICE_ID_AUTO.

Inductive whitelist_mode_t :=
  | WHITELIST_OFF
  | WHITELIST_PERMISSIVE
  | WHITELIST_STRICT.

Inductive jtag_mode_t := JTAG_MODE_MPSSE.

Inductive section_t :=
  | SECTION_NONE
  | SECTION_INSTANCE_MANAGEMENT
  | SECTION_INSTANCE_MAPPINGS
  | SECTION_INSTANCE_SETTINGS
  | SECTION_INSTANCE_ALIASES
  | SECTION_IP_WHITELIST.

#[export] Instance device_id_type_eq_dec : EqDecision device_id_type_t.
Proof. solve_decision. Defined.
#[export] Instance whitelist_mode_eq_dec : EqDecision whitelist_mode_t.
Proof. solve_decision. Defined.

Record device_id_t := mk_device_id { id_type : device_id_type_t; id_value : string }.
#[export] Instance eta_device_id : Eta device_id_t := fun d => mk_device_id (id_type d) (id_value d).

Record whitelist_entry_t := mk_wl_entry { wl_ip : string; wl_prefix_len : Z; is_block : bool }.

(** [whitelist[0 .. whitelist_count - 1]] is the list [whitelist]. *)
Record xvc_instance_config_t := mk_instance {
  instance_id : Z;
  port : Z;
  device_id : device_id_t;
  alias : string;
  inst_frequency : Z;
  latency_timer : Z;
  async_mode : bool;
  jtag_mode : jtag_mode_t;
  xvc_buffer_size : Z;
  whitelist_mode : whitelist_mode_t;
  whitelist : list whitelist_entry_t;
  client_lock_timeout : Z;
  enabled : bool;
  pid : Z
}.
#[export] Instance eta_instance : Eta xvc_instance_config_t := fun i =>
  mk_instance (instance_id i) (port i) (device_id i) (alias i) (inst_frequency i) (latency_timer i)
    (async_mode i) (jtag_mode i) (xvc_buffer_size i) (whitelist_mode i) (whitelist i)
    (client_lock_timeout i) (enabled i) (pid i).

Record xvc_global_config_t := mk_config {
  instance_mgmt_enabled : bool;
  base_port : Z;
  max_instances : Z;
  instances : list xvc_instance_config_t;
  instance_count : Z;
  log_file : string;
  log_level : Z;
  daemonize : bool
}.
#[export] Instance eta_config : Eta xvc_global_config_t := fun c =>
  mk_config (instance_mgmt_enabled c) (base_port c) (max_instances c) (instances c) (instance_count c)
    (log_file c) (log_level c) (daemonize c).

(** ** Initialisation *)

(** [instances[i]] of a fresh configuration. *)
Definition default_instance (i : nat) : xvc_instance_config_t :=
  mk_instance (Z.of_nat i + 1) (DEFAULT_BASE_PORT + Z.of_nat i) (mk_device_id DEVICE_ID_NONE "") ""
    DEFAULT_FREQUENCY DEFAULT_LATENCY false JTAG_MODE_MPSSE DEFAULT_XVC_BUFFER_SIZE WHITELIST_OFF []
    DEFAULT_CLIENT_LOCK_TIMEOUT false 0.

Definition config_init : xvc_global_config_t :=
  mk_config true DEFAULT_BASE_PORT MAX_INSTANCES (map default_instance (seq 0 (Z.to_nat MAX_INSTANCES))) 0
    "" DEFAULT_LOG_LEVEL false.

Definition config_free (c : xvc_global_config_t) : unit := tt.

Definition config_get_instance (c : xvc_global_config_t) (instance_id : Z) : option xvc_instance_config_t :=
  if (instance_id <? 1) || (MAX_INSTANCES <? instance_id) then None
  else instances c !! Z.to_nat (instance_id - 1).

(** ** Device identifiers *)

(** The return value and the identifier; [None] is a null pointer. *)
Definition config_parse_device_id (str : string) : Z * device_id_t :=
  if has_prefix "SN:" str then (0, mk_device_id DEVICE_ID_SERIAL (truncated MAX_SERIAL_LEN (str_drop 3 str)))
  else if has_prefix "BUS:" str then (0, mk_device_id DEVICE_ID_BUS (truncated MAX_SERIAL_LEN (str_drop 4 str)))
  else if has_prefix "CUSTOM:" str then (0, mk_device_id DEVICE_ID_CUSTOM (truncated MAX_SERIAL_LEN (str_drop 7 str)))
  else if String.eqb str "auto" then (0, mk_device_id DEVICE_ID_AUTO "")
  else (-1, mk_device_id DEVICE_ID_NONE "").

Definition device_id_text (id : device_id_t) : string :=
  match id_type id with
  | DEVICE_ID_SERIAL => "SN:" +:+ id_value id
  | DEVICE_ID_BUS => "BUS:" +:+ id_value id
  | DEVICE_ID_CUSTOM => "CUSTOM:" +:+ id_value id
  | DEVICE_ID_AUTO => "auto"
  | DEVICE_ID_NONE => "none"
  end%string.

(** [snprintf] into [len] bytes answers the length of the whole text. *)
Definition config_format_device_id (id : device_id_t) (len : Z) : Z * string :=
  if len =? 0 then (-1, ""%string)
  else (strlen (device_id_text id), truncated len (device_id_text id)).

(** ** Lines *)

(** The C string in a buffer: what is before the first NUL. *)
Fixpoint c_str (s : string) : string :=
  match s with
  | String c s' => if code c =? 0 then EmptyString else String c (c_str s')
  | EmptyString => EmptyString
  end.

Fixpoint all_space (s : string) : bool :=
  match s with
  | String c s' => isspace c && all_space s'
  | EmptyString => true
  end.

(** The string without its trailing white space. *)
Fixpoint trim_end (s : string) : string :=
  match s with
  | String c s' => if all_space s then EmptyString else String c (trim_end s')
  | EmptyString => EmptyString
  end.

Definition trim (s : string) : string := trim_end (skip_space s).

Definition parse_section (name : string) : section_t :=
  if String.eqb name "instance_management" then SECTION_INSTANCE_MANAGEMENT
  else if String.eqb name "instance_mappings" then SECTION_INSTANCE_MAPPINGS
  else if String.eqb name "instance_settings" then SECTION_INSTANCE_SETTINGS
  else if String.eqb name "instance_aliases" then SECTION_INSTANCE_ALIASES
  else if String.eqb name "ip_whitelist_per_instance" then SECTION_IP_WHITELIST
  else SECTION_NONE.

(** [while (fgets(line, 512, fp))]: a line ends after its newline, after 511
    characters or with the file; [n] characters of the line are left. *)
Fixpoint fgets_lines (n : nat) (s : string) : list string :=
  match s with
  | EmptyString => []
  | String c s' =>
      if Ascii.eqb c LF || (n <=? 1)%nat then String c "" :: fgets_lines 511 s'
      else match fgets_lines (n - 1) s' with
           | [] => [String c ""]
           | l :: ls => String c l :: ls
           end
  end.

(** [char *p = strchr(s, c); if (p) *p = '\0';] *)
Definition cut_at (c : ascii) (s : string) : string :=
  match str_chr c s with Some (l, _) => l | None => s end.

Definition is_true (value : string) : bool := String.eqb value "true" || String.eqb value "1".

(** [config->instances[id - 1]] for an [id] of the file, if it is one. *)
Definition update_instance (id : Z) (f : xvc_instance_config_t -> xvc_instance_config_t)
    (c : xvc_global_config_t) : xvc_global_config_t :=
  if (1 <=? id) && (id <=? MAX_INSTANCES)
  then c <| instances := alter f (Z.to_nat (id - 1)) (instances c) |>
  else c.

(** ** Entries *)

Definition management_entry (key value : string) (c : xvc_global_config_t) : xvc_global_config_t :=
  if String.eqb key "enabled" then c <| instance_mgmt_enabled := is_true value |>
  else if String.eqb key "base_port" then c <| base_port := atoi value |>
  else if String.eqb key "max_instances" then c <| max_instances := atoi value |>
  else c.

(** [config->base_port + id - 1] is computed in [int]. *)
Definition mapping_entry (key value : string) (c : xvc_global_config_t) : exec xvc_global_config_t :=
  let id := atoi key in
  if (1 <=? id) && (id <=? MAX_INSTANCES) then
    sum ← int_arith (base_port c + id);
    p ← int_arith (sum - 1);
    let c := update_instance id (fun i =>
      i <| enabled := true |> <| port := p |> <| device_id := (config_parse_device_id value).2 |>) c in
    Done (if instance_count c <? id then c <| instance_count := id |> else c)
  else Done c.

(** [long size = strtol(value, NULL, 0)] clamped to the limits. *)
Definition buffer_size_of (value : string) : Z :=
  let size := strtol0 value in
  if size <? MIN_XVC_BUFFER_SIZE then MIN_XVC_BUFFER_SIZE
  else if MAX_XVC_BUFFER_SIZE <? size then MAX_XVC_BUFFER_SIZE
  else size.

Definition set_setting (setting value : string) (i : xvc_instance_config_t) : xvc_instance_config_t :=
  if String.eqb setting "frequency" then i <| inst_frequency := u32 (strtoul0 value) |>
  else if String.eqb setting "latency_timer" then i <| latency_timer := atoi value |>
  else if String.eqb setting "async" then i <| async_mode := is_true value |>
  else if String.eqb setting "jtag_mode" then i <| jtag_mode := JTAG_MODE_MPSSE |>
  else if String.eqb setting "xvc_buffer_size" then i <| xvc_buffer_size := i32 (buffer_size_of value) |>
  else if String.eqb setting "client_lock_timeout" then
    i <| client_lock_timeout := if atoi value <? 0 then 0 else atoi value |>
  else i.

(** "id:setting" *)
Definition setting_entry (key value : string) (c : xvc_global_config_t) : xvc_global_config_t :=
  match str_chr ":" key with
  | Some (key, setting) => update_instance (atoi key) (set_setting setting value) c
  | None => c
  end.

Definition alias_entry (key value : string) (c : xvc_global_config_t) : xvc_global_config_t :=
  update_instance (atoi key) (fun i => i <| alias := truncated MAX_ALIAS_LEN value |>) c.

Definition set_whitelist (setting value : string) (i : xvc_instance_config_t) : xvc_instance_config_t :=
  if String.eqb setting "mode" then
    i <| whitelist_mode := if String.eqb value "strict" then WHITELIST_STRICT
                           else if String.eqb value "permissive" then WHITELIST_PERMISSIVE
                           else WHITELIST_OFF |>
  else if has_prefix "allow_" setting || has_prefix "block_" setting then
    if zlen (whitelist i) <? MAX_WHITELIST_ENTRIES
    then i <| whitelist := whitelist i ++
                [mk_wl_entry (truncated MAX_IP_LEN value) 0 (has_prefix "b" setting)] |>
    else i
  else i.

Definition whitelist_entry (key value : string) (c : xvc_global_config_t) : xvc_global_config_t :=
  match str_chr ":" key with
  | Some (key, setting) => update_instance (atoi key) (set_whitelist setting value) c
  | None => c
  end.

(** The [switch] on the section. *)
Definition config_entry (section : section_t) (key value : string) (c : xvc_global_config_t)
  : exec xvc_global_config_t :=
  match section with
  | SECTION_INSTANCE_MANAGEMENT => Done (management_entry key value c)
  | SECTION_INSTANCE_MAPPINGS => mapping_entry key value c
  | SECTION_INSTANCE_SETTINGS => Done (setting_entry key value c)
  | SECTION_INSTANCE_ALIASES => Done (alias_entry key value c)
  | SECTION_IP_WHITELIST => Done (whitelist_entry key value c)
  | SECTION_NONE => Done c
  end.

(** The line after both trims; a line that is empty, a comment or malformed
    leaves everything as it is. *)
Definition config_line (st : section_t * xvc_global_config_t) (line : string)
  : exec (section_t * xvc_global_config_t) :=
  let '(section, c) := st in
  match trim (c_str line) with
  | EmptyString => Done st
  | String ch _ as ptr =>
      if Ascii.eqb ch "#" || Ascii.eqb ch ";" then Done st
      else
        let ptr := trim (cut_at ";" (cut_at "#" ptr)) in
        match ptr with
        | EmptyString => Done st
        | String ch rest =>
            if Ascii.eqb ch "[" then
              match str_chr "]" ptr with
              | None => Done st
              | Some (name, _) => Done (parse_section (str_drop 1 name), c)
              end
            else
              match str_chr "=" ptr with
              | None => Done st
              | Some (key, value) =>
                  c ← config_entry section (trim key) (trim value) c;
                  Done (section, c)
              end
        end
  end.

Fixpoint config_lines (st : section_t * xvc_global_config_t) (lines : list string)
  : exec (section_t * xvc_global_config_t) :=
  match lines with
  | [] => Done st
  | l :: lines => st ← config_line st l; config_lines st lines
  end.

(** [config] is the caller's structure, left alone when the file is missing. *)
Definition config_load (config : xvc_global_config_t) (file : option string)
  : exec (Z * xvc_global_config_t) :=
  match file with
  | None => Done (-1, config)
  | Some text =>
      '(_, c) ← config_lines (SECTION_NONE, config_init) (fgets_lines 511 text);
      Done (0, c)
  end.

(** ** Saving *)

Definition ln (s : string) : string := (s +:+ String LF "")%string.

Fixpoint concat_str (l : list string) : string :=
  match l with
  | [] => ""
  | s :: l => s +:+ concat_str l
  end%string.

Definition save_mapping (i : xvc_instance_config_t) : string :=
  if enabled i
  then ln (fmt_d (instance_id i) +:+ " = " +:+ (config_format_device_id (device_id i) 128).2)
  else ""%string.

Definition save_settings (i : xvc_instance_config_t) : string :=
  if enabled i then
    ln (fmt_d (instance_id i) +:+ ":frequency = " +:+ fmt_u (inst_frequency i)) +:+
    (if negb (latency_timer i =? DEFAULT_LATENCY)
     then ln (fmt_d (instance_id i) +:+ ":latency_timer = " +:+ fmt_d (latency_timer i)) else "") +:+
    (if negb (xvc_buffer_size i =? DEFAULT_XVC_BUFFER_SIZE)
     then ln (fmt_d (instance_id i) +:+ ":xvc_buffer_size = " +:+ fmt_d (xvc_buffer_size i)) else "")
  else ""%string.

Definition save_alias (i : xvc_instance_config_t) : string :=
  if enabled i && negb (String.eqb (alias i) "")
  then ln (fmt_d (instance_id i) +:+ " = " +:+ alias i)
  else ""%string.

(** [instances[0 .. instance_count - 1]] *)
Definition saved_instances (c : xvc_global_config_t) : list xvc_instance_config_t :=
  take (Z.to_nat (instance_count c)) (instances c).

Definition config_text (c : xvc_global_config_t) : string :=
  ln "# XVC Server Configuration" +:+
  ln "# Generated automatically" +:+ ln "" +:+
  ln "[instance_management]" +:+
  ln ("enabled = " +:+ if instance_mgmt_enabled c then "true" else "false") +:+
  ln ("base_port = " +:+ fmt_d (base_port c)) +:+
  ln ("max_instances = " +:+ fmt_d (max_instances c)) +:+ ln "" +:+
  ln "[instance_mappings]" +:+
  ln "# Format: instance_id = device_id" +:+
  ln "# device_id: SN:serial, BUS:bus-dev, CUSTOM:name, or auto" +:+
  concat_str (map save_mapping (saved_instances c)) +:+ ln "" +:+
  ln "[instance_settings]" +:+
  ln "# Format: instance_id:setting = value" +:+
  concat_str (map save_settings (saved_instances c)) +:+ ln "" +:+
  ln "[instance_aliases]" +:+
  concat_str (map save_alias (saved_instances c)) +:+ ln "".

(** [opened]: whether the file can be created; the return value and its text. *)
Definition config_save (c : xvc_global_config_t) (opened : bool) : Z * option string :=
  if negb opened then (-1, None) else (0, Some (config_text c)).

Example config_load_example :
  (c ← config_load config_init (Some (ln "[instance_management]" +:+ ln " base_port = 3000 ; first port" +:+
      ln "[instance_mappings]" +:+ ln "2=SN:210249A" +:+ ln "[instance_settings]" +:+ ln "2:frequency = 0x100"))%string;
   mret (base_port c.2, instance_count c.2, (fun i => (port i, device_id i, inst_frequency i)) <$> instances c.2 !! 1%nat)) =
  Done (3000, 2, Some (3001, mk_device_id DEVICE_ID_SERIAL "210249A", 256)).
Proof. vm_compute. reflexivity. Qed.
