(* ===== verification/ConfigRefine.v ===== *)
(** The configuration's promises: identifiers survive printing, a loaded
    configuration is within its limits, and a saved one is read back. *)

From S2P Require Import Prelude CString Config.
From Stdlib Require Import Ascii String.
Open Scope Z_scope.

(** ** Device identifiers *)

(** An identifier that fits its field. *)
Definition wf_id (d : device_id_t) : Prop :=
  strlen (id_value d) < MAX_SERIAL_LEN /\
  (id_type d = DEVICE_ID_NONE \/ id_type d = DEVICE_ID_AUTO -> id_value d = ""%string).

Lemma has_prefix_split p s : has_prefix p s = true -> s = (p +:+ str_drop (String.length p) s)%string.
Proof.
  revert s. induction p as [|c p IH]; intros s; [intros; by destruct s|]. unfold has_prefix. cbn [String.prefix].
  destruct s as [|d s]; [done|]. cbn [String.prefix]. destruct (ascii_dec c d) as [->|]; [|done]. intros Hp.
  rewrite app_string_cons. cbn [String.length str_drop]. f_equal. by apply IH.
Qed.

(** What [strncpy] keeps, and what is lost. *)
Lemma truncated_split size s : 1 <= size ->
  exists rest, s = (truncated size s +:+ rest)%string /\ strlen (truncated size s) < size /\
    (rest = ""%string \/ strlen (truncated size s) = size - 1).
Proof.
  intros Hs. unfold truncated. exists (str_drop (Z.to_nat (size - 1)) s). split; [by rewrite str_take_drop|].
  split; [pose proof (strlen_take (Z.to_nat (size - 1)) s); lia|].
  remember (Z.to_nat (size - 1)) as n eqn:En. replace (size - 1) with (Z.of_nat n) by lia. clear En Hs size.
  revert s. induction n as [|n IH]; intros [|c s]; cbn [str_take str_drop]; [by left..|by right|by left|].
  destruct (IH s) as [->|H]; [by left|]. right. unfold strlen in *. cbn [String.length]. lia.
Qed.

Lemma parse_id_text d : wf_id d ->
  config_parse_device_id (device_id_text d) = (if decide (id_type d = DEVICE_ID_NONE) then -1 else 0, d).
Proof.
  destruct d as [t v]. intros [Hl Hv]. cbn [id_value id_type] in *.
  destruct t; cbn [decide decide_rel device_id_type_eq_dec].
  - rewrite Hv by (by left). reflexivity.
  - assert (E1 : config_parse_device_id (device_id_text (mk_device_id DEVICE_ID_SERIAL v)) =
      (0, mk_device_id DEVICE_ID_SERIAL (truncated MAX_SERIAL_LEN v))) by (destruct v; reflexivity).
    rewrite E1. by rewrite truncated_id.
  - assert (E1 : config_parse_device_id (device_id_text (mk_device_id DEVICE_ID_BUS v)) =
      (0, mk_device_id DEVICE_ID_BUS (truncated MAX_SERIAL_LEN v))) by (destruct v; reflexivity).
    rewrite E1. by rewrite truncated_id.
  - assert (E1 : config_parse_device_id (device_id_text (mk_device_id DEVICE_ID_CUSTOM v)) =
      (0, mk_device_id DEVICE_ID_CUSTOM (truncated MAX_SERIAL_LEN v))) by (destruct v; reflexivity).
    rewrite E1. by rewrite truncated_id.
  - rewrite Hv by (by right). reflexivity.
Qed.

Lemma parse_id_ok str r d : config_parse_device_id str = (r, d) ->
  wf_id d /\
  (r = 0 /\ id_type d <> DEVICE_ID_NONE /\
     (exists rest, str = (device_id_text d +:+ rest)%string /\
        (rest = ""%string \/ strlen (id_value d) = MAX_SERIAL_LEN - 1)) \/
   r = -1 /\ d = mk_device_id DEVICE_ID_NONE "").
Proof.
  assert (Hwf : forall t v, t <> DEVICE_ID_NONE -> t <> DEVICE_ID_AUTO -> wf_id (mk_device_id t (truncated MAX_SERIAL_LEN v))).
  { intros t v Hn Ha. split; cbn [id_value id_type]; [|by intros [|]].
    destruct (truncated_split MAX_SERIAL_LEN v) as (rest & _ & H & _); [done|exact H]. }
  assert (Hs : forall p t v s, s = (p +:+ v)%string ->
    (forall w, device_id_text (mk_device_id t w) = (p +:+ w)%string) ->
    exists rest, s = (device_id_text (mk_device_id t (truncated MAX_SERIAL_LEN v)) +:+ rest)%string /\
      (rest = ""%string \/ strlen (truncated MAX_SERIAL_LEN v) = MAX_SERIAL_LEN - 1)).
  { intros p t v s -> Ht. destruct (truncated_split MAX_SERIAL_LEN v) as (rest & Hv & _ & Hr); [done|].
    exists rest. split; [|done]. rewrite Ht, app_string_assoc. by rewrite <- Hv. }
  unfold config_parse_device_id.
  destruct (has_prefix "SN:" str) eqn:E1; [|destruct (has_prefix "BUS:" str) eqn:E2; [|destruct (has_prefix "CUSTOM:" str) eqn:E3;
    [|destruct (String.eqb_spec str "auto") as [->|]]]]; intros [= <- <-].
  - split; [by apply Hwf|left]. split; [done|]. split; [done|].
    apply Hs with "SN:"%string; [by apply has_prefix_split in E1|done].
  - split; [by apply Hwf|left]. split; [done|]. split; [done|].
    apply Hs with "BUS:"%string; [by apply has_prefix_split in E2|done].
  - split; [by apply Hwf|left]. split; [done|]. split; [done|].
    apply Hs with "CUSTOM:"%string; [by apply has_prefix_split in E3|done].
  - split; [by split|]. left. split; [done|]. split; [done|]. exists ""%string. split; [done|by left].
  - split; [by split|]. by right.
Qed.

Lemma id_text_length d : wf_id d -> strlen (device_id_text d) <= 70.
Proof.
  intros [Hl Hv]. destruct d as [t v]. cbn [id_value id_type] in *.
  unfold MAX_SERIAL_LEN, strlen in *. unfold device_id_text. cbn [id_type id_value].
  destruct t; rewrite ?length_app_string; cbn [String.length]; lia.
Qed.

Lemma id_text_fits d : wf_id d -> config_format_device_id d 128 = (strlen (device_id_text d), device_id_text d).
Proof.
  intros Hd. pose proof (id_text_length d Hd). unfold config_format_device_id. cbn [Z.eqb]. f_equal.
  apply truncated_id. lia.
Qed.

(** C28: device identifiers.  Every identifier that fits its field is printed
    without loss into the buffers the program uses and parsed back to itself,
    with the result 0 (-1 for the absent identifier, which is printed as
    "none"); and whatever text is parsed successfully is the printed form of
    the identifier, up to what exceeds the 63 characters of its value. *)
Theorem device_id_roundtrip (d : device_id_t) (str : string) :
  (wf_id d ->
    config_format_device_id d 128 = (strlen (device_id_text d), device_id_text d) /\
    config_parse_device_id (device_id_text d) = (if decide (id_type d = DEVICE_ID_NONE) then -1 else 0, d)) /\
  (let '(r, p) := config_parse_device_id str in
   wf_id p /\
   (r = 0 /\ id_type p <> DEVICE_ID_NONE /\
      (exists rest, str = (device_id_text p +:+ rest)%string /\
         (rest = ""%string \/ strlen (id_value p) = MAX_SERIAL_LEN - 1)) \/
    r = -1 /\ p = mk_device_id DEVICE_ID_NONE "")).
Proof.
  split.
  - intros Hd. split; [by apply id_text_fits|by apply parse_id_text].
  - destruct (config_parse_device_id str) as [r p] eqn:E1. by apply parse_id_ok.
Qed.

(** ** Limits *)

Record wf_instance (i : nat) (inst : xvc_instance_config_t) : Prop := {
  wfi_id : instance_id inst = Z.of_nat i + 1;
  wfi_port : INT_MIN <= port inst <= INT_MAX;
  wfi_device : wf_id (device_id inst);
  wfi_alias : strlen (alias inst) < MAX_ALIAS_LEN;
  wfi_frequency : 0 <= inst_frequency inst < 2 ^ 32;
  wfi_latency : INT_MIN <= latency_timer inst <= INT_MAX;
  wfi_buffer : MIN_XVC_BUFFER_SIZE <= xvc_buffer_size inst <= MAX_XVC_BUFFER_SIZE;
  wfi_whitelist : zlen (whitelist inst) <= MAX_WHITELIST_ENTRIES;
  wfi_entries : Forall (fun e => strlen (wl_ip e) < MAX_IP_LEN /\ wl_prefix_len e = 0) (whitelist inst);
  wfi_lock : 0 <= client_lock_timeout inst <= INT_MAX;
  wfi_pid : pid inst = 0
}.

(** [instance_count] is the highest enabled identifier. *)
Record wf_config (c : xvc_global_config_t) : Prop := {
  wfc_length : zlen (instances c) = MAX_INSTANCES;
  wfc_instance : forall i inst, instances c !! i = Some inst -> wf_instance i inst;
  wfc_base : INT_MIN <= base_port c <= INT_MAX;
  wfc_max : INT_MIN <= max_instances c <= INT_MAX;
  wfc_count : 0 <= instance_count c <= MAX_INSTANCES;
  wfc_enabled : forall i inst, instances c !! i = Some inst -> enabled inst = true -> Z.of_nat i < instance_count c;
  wfc_last : instance_count c = 0 \/
    exists inst, instances c !! Z.to_nat (instance_count c - 1) = Some inst /\ enabled inst = true
}.

Lemma default_instances_lookup i inst :
  instances config_init !! i = Some inst -> inst = default_instance i /\ (i < 32)%nat.
Proof.
  unfold config_init. cbn [instances]. change (Z.to_nat MAX_INSTANCES) with 32%nat.
  rewrite list_lookup_fmap. intros (k & Hk & ->)%fmap_Some_1. apply lookup_seq in Hk as [-> Hk]. done.
Qed.

Lemma default_instance_wf i : (i < 32)%nat -> wf_instance i (default_instance i).
Proof.
  intros Hi. split; cbn; unfold DEFAULT_BASE_PORT, INT_MIN, INT_MAX, DEFAULT_LATENCY, DEFAULT_FREQUENCY,
    DEFAULT_XVC_BUFFER_SIZE, MIN_XVC_BUFFER_SIZE, MAX_XVC_BUFFER_SIZE, DEFAULT_CLIENT_LOCK_TIMEOUT; try lia; try done.
Qed.

Lemma config_init_wf : wf_config config_init.
Proof.
  split; cbn [base_port max_instances instance_count config_init]; try done.
  - intros i inst [-> Hi]%default_instances_lookup. by apply default_instance_wf.
  - intros i inst [-> _]%default_instances_lookup. done.
  - by left.
Qed.

(** ** Every entry keeps the limits *)

(** An update of one instance that leaves its identity and its state alone. *)
Definition keeps_wf (f : xvc_instance_config_t -> xvc_instance_config_t) : Prop :=
  forall i inst, wf_instance i inst -> wf_instance i (f inst) /\ enabled (f inst) = enabled inst.

Lemma update_instance_wf id f c : keeps_wf f -> wf_config c -> wf_config (update_instance id f c).
Proof.
  intros Hf Hc. unfold update_instance. destruct ((1 <=? id) && (id <=? MAX_INSTANCES)); [|done].
  set (k := Z.to_nat (id - 1)).
  assert (Hl : forall i inst, alter f k (instances c) !! i = Some inst ->
    exists inst0, instances c !! i = Some inst0 /\ wf_instance i inst /\ enabled inst = enabled inst0).
  { intros i inst Hi. destruct (decide (k = i)) as [->|Hne].
    - rewrite list_lookup_alter_eq in Hi. apply fmap_Some_1 in Hi as (x & Hx & ->).
      pose proof (Hf i x (wfc_instance c Hc i x Hx)) as [H1 H2]. by exists x.
    - rewrite list_lookup_alter_ne in Hi by done. exists inst. split; [done|].
      split; [by apply (wfc_instance c Hc)|done]. }
  split; cbn [instances base_port max_instances instance_count setter].
  - unfold zlen. rewrite length_alter. apply (wfc_length c Hc).
  - intros i inst Hi. by destruct (Hl i inst Hi) as (x & _ & H & _).
  - apply (wfc_base c Hc).
  - apply (wfc_max c Hc).
  - apply (wfc_count c Hc).
  - intros i inst Hi He. destruct (Hl i inst Hi) as (x & Hx & _ & Heq). apply (wfc_enabled c Hc i x Hx). by rewrite <- Heq.
  - destruct (wfc_last c Hc) as [H|(x & Hx & He)]; [by left|right].
    destruct (decide (k = Z.to_nat (instance_count c - 1))) as [Heq|Hne].
    + exists (f x). rewrite <- Heq in *. rewrite list_lookup_alter_eq, Hx. split; [done|].
      rewrite (proj2 (Hf _ x (wfc_instance c Hc _ x Hx))). done.
    + exists x. by rewrite list_lookup_alter_ne.
Qed.

Lemma buffer_size_range v : MIN_XVC_BUFFER_SIZE <= i32 (buffer_size_of v) <= MAX_XVC_BUFFER_SIZE.
Proof.
  assert (H : MIN_XVC_BUFFER_SIZE <= buffer_size_of v <= MAX_XVC_BUFFER_SIZE).
  { unfold buffer_size_of. zcase (strtol0 v <? MIN_XVC_BUFFER_SIZE); [done|].
    zcase (MAX_XVC_BUFFER_SIZE <? strtol0 v); [done|lia]. }
  rewrite i32_id; [done|]. unfold MIN_XVC_BUFFER_SIZE, MAX_XVC_BUFFER_SIZE, INT_MIN, INT_MAX in *. lia.
Qed.

Lemma atoi_range s : INT_MIN <= atoi s <= INT_MAX.
Proof. apply i32_range. Qed.

Lemma set_setting_wf setting value : keeps_wf (set_setting setting value).
Proof.
  intros i inst H. unfold set_setting. pose proof (atoi_range value) as Ha.
  repeat case_match; (split; [|done]); destruct H; split; cbn; try done.
  - apply u32_range.
  - apply buffer_size_range.
  - zb. lia.
Qed.

Lemma alias_wf value : keeps_wf (fun i => i <| alias := truncated MAX_ALIAS_LEN value |>).
Proof.
  intros i inst H. split; [|done]. destruct H; split; cbn; try done.
  by destruct (truncated_split MAX_ALIAS_LEN value) as (? & _ & ? & _).
Qed.

Lemma set_whitelist_wf setting value : keeps_wf (set_whitelist setting value).
Proof.
  intros i inst H. unfold set_whitelist.
  repeat case_match; (split; [|done]); destruct H; split; cbn; try done; zb.
  1: rewrite zlen_app; change (zlen [_]) with 1; lia.
  all: apply Forall_app; split; [done|]; apply Forall_cons; split; [|done]; cbn; split; [|done];
    by destruct (truncated_split MAX_IP_LEN value) as (? & _ & ? & _).
Qed.

Lemma management_wf key value c : wf_config c -> wf_config (management_entry key value c).
Proof.
  intros H. unfold management_entry. pose proof (atoi_range value).
  repeat case_match; try done; destruct H; split; done.
Qed.

(** Enabling instance [id] raises the count to it. *)
Lemma enable_wf id g c :
  wf_config c -> 1 <= id <= MAX_INSTANCES ->
  (forall i inst, wf_instance i inst -> wf_instance i (g inst) /\ enabled (g inst) = true) ->
  wf_config (c <| instances := alter g (Z.to_nat (id - 1)) (instances c) |> <| instance_count := Z.max (instance_count c) id |>).
Proof.
  unfold MAX_INSTANCES. intros Hc Hid Hg. set (k := Z.to_nat (id - 1)).
  assert (Hlen : (k < Datatypes.length (instances c))%nat).
  { pose proof (wfc_length c Hc) as Hl. unfold zlen, MAX_INSTANCES in Hl. lia. }
  destruct (lookup_lt_is_Some_2 _ _ Hlen) as [x Hx]. pose proof (wfc_count c Hc) as Hn. unfold MAX_INSTANCES in Hn.
  split; cbn [instances base_port max_instances instance_count setter].
  - unfold zlen. rewrite length_alter. apply (wfc_length c Hc).
  - intros i inst. rewrite list_lookup_alter. case_decide as Hi; [|apply (wfc_instance c Hc)].
    rewrite <- Hi. intros (y & Hy & ->)%fmap_Some_1. apply Hg. by apply (wfc_instance c Hc).
  - apply (wfc_base c Hc).
  - apply (wfc_max c Hc).
  - unfold MAX_INSTANCES. lia.
  - intros i inst. rewrite list_lookup_alter. case_decide as Hi; [lia|].
    intros Hy He. pose proof (wfc_enabled c Hc i inst Hy He). lia.
  - right. rewrite list_lookup_alter. case_decide as Hi.
    + rewrite Hx. exists (g x). split; [done|]. apply (Hg k). by apply (wfc_instance c Hc).
    + replace (Z.max (instance_count c) id) with (instance_count c) by lia.
      destruct (wfc_last c Hc) as [H0|H0]; [|exact H0]. lia.
Qed.

(** The port of a mapped instance overflows only above the largest base port
    that leaves room for every instance. *)
Lemma mapping_wf key value c : wf_config c ->
  match mapping_entry key value c with
  | Done c' => wf_config c'
  | Undef => INT_MAX - MAX_INSTANCES < base_port c
  | Stuck => False
  end.
Proof.
  intros Hc. unfold mapping_entry. pose proof (wfc_base c Hc) as Hb. generalize (atoi key). intros id.
  zcase ((1 <=? id) && (id <=? MAX_INSTANCES)); [|done].
  destruct (int_arith (base_port c + id)) as [sum| |] eqn:E1; cbn [mbind exec_bind].
  2, 3: unfold int_arith in E1; destruct (int_ok (base_port c + id)) eqn:E2; try done;
    unfold int_ok, MAX_INSTANCES in *; apply andb_false_iff in E2 as [E2|E2]; zb; lia.
  unfold int_arith in E1. destruct (int_ok (base_port c + id)) eqn:E2; [|done]. injection E1 as <-.
  unfold int_ok in E2. zb. rewrite int_arith_ok by lia. cbn [mbind exec_bind].
  unfold update_instance. rewrite (proj2 (Z.leb_le 1 id)), (proj2 (Z.leb_le id MAX_INSTANCES)) by done.
  cbn [andb instance_count setter].
  pose proof (enable_wf id (fun i => i <| enabled := true |> <| port := base_port c + id - 1 |>
      <| device_id := (config_parse_device_id value).2 |>) c Hc ltac:(done)) as Hw.
  assert (Hn : Z.max (instance_count c) id = if instance_count c <? id then id else instance_count c)
    by (destruct (Z.ltb_spec (instance_count c) id); lia).
  assert (Heta : forall l, c <| instances := l |> <| instance_count := instance_count c |> = c <| instances := l |>)
    by (intros; by destruct c).
  rewrite Hn in Hw. clear Hn. destruct (instance_count c <? id); [|rewrite Heta in Hw]; apply Hw;
    (intros i inst Hwi; split; [|done]; destruct Hwi; split; cbn; try done; try lia;
     pose proof (parse_id_ok value _ _ (surjective_pairing _)) as [Hd _]; exact Hd).
Qed.

Lemma config_entry_wf section key value c : wf_config c ->
  match config_entry section key value c with
  | Done c' => wf_config c'
  | Undef => INT_MAX - MAX_INSTANCES < base_port c
  | Stuck => False
  end.
Proof.
  intros Hc. destruct section; cbn [config_entry]; try done.
  - by apply management_wf.
  - by apply mapping_wf.
  - unfold setting_entry. destruct (str_chr ":" key) as [[k s]|]; [|done].
    apply update_instance_wf; [apply set_setting_wf|done].
  - apply update_instance_wf; [apply alias_wf|done].
  - unfold Config.whitelist_entry. destruct (str_chr ":" key) as [[k s]|]; [|done].
    apply update_instance_wf; [apply set_whitelist_wf|done].
Qed.

Lemma config_line_wf st line : wf_config st.2 ->
  match config_line st line with
  | Done st' => wf_config st'.2
  | Undef => INT_MAX - MAX_INSTANCES < base_port st.2
  | Stuck => False
  end.
Proof.
  destruct st as [section c]. cbn [snd]. intros Hc. unfold config_line.
  destruct (trim (c_str line)) as [|ch r]; [done|]. destruct (Ascii.eqb ch "#" || Ascii.eqb ch ";"); [done|].
  destruct (trim (cut_at ";" (cut_at "#" (String ch r)))) as [|ch' r']; [done|].
  destruct (Ascii.eqb ch' "["); [by destruct (str_chr "]" _) as [[? ?]|]|].
  destruct (str_chr "=" _) as [[key value]|]; [|done].
  pose proof (config_entry_wf section (trim key) (trim value) c Hc) as H.
  destruct (config_entry section (trim key) (trim value) c); exact H.
Qed.

Lemma config_lines_wf lines st : wf_config st.2 ->
  match config_lines st lines with
  | Done st' => wf_config st'.2
  | Undef => exists k st', config_lines st (take k lines) = Done st' /\ wf_config st'.2 /\ INT_MAX - MAX_INSTANCES < base_port st'.2
  | Stuck => False
  end.
Proof.
  revert st. induction lines as [|l lines IH]; intros st Hst; cbn [config_lines]; [done|].
  pose proof (config_line_wf st l Hst) as Hl. destruct (config_line st l) as [st1| |] eqn:E1; cbn [mbind exec_bind]; [|by exists 0%nat, st|done].
  specialize (IH st1 Hl). destruct (config_lines st1 lines); [done| |done].
  destruct IH as (k & st' & Hk & H). exists (S k), st'. split; [|done]. cbn [firstn config_lines]. by rewrite E1.
Qed.

(** C26: loading a configuration.  A missing file answers -1 and leaves the
    configuration alone.  Otherwise the result is 0 and, whatever the file
    holds, the configuration is within its limits: 32 instances with their
    identifiers, every string within its field, the buffer size between its
    bounds, the lock time not negative, the white lists within 64 entries,
    and [instance_count] is the highest enabled instance.  The only way to
    leave defined behaviour is to map an instance after a base port less than
    32 below [INT_MAX], and no file makes the loader run on. *)
Theorem config_load_wf (config : xvc_global_config_t) (file : option string) :
  match config_load config file with
  | Done (r, c) => file = None /\ r = -1 /\ c = config \/ file <> None /\ r = 0 /\ wf_config c
  | Undef => exists text k st, file = Some text /\
      config_lines (SECTION_NONE, config_init) (take k (fgets_lines 511 text)) = Done st /\
      wf_config st.2 /\ INT_MAX - MAX_INSTANCES < base_port st.2
  | Stuck => False
  end.
Proof.
  destruct file as [text|]; cbn [config_load]; [|by left].
  pose proof (config_lines_wf (fgets_lines 511 text) (SECTION_NONE, config_init) config_init_wf) as H.
  destruct (config_lines _ (fgets_lines 511 text)) as [[section c]| |]; cbn [mbind exec_bind] in *.
  - by right.
  - destruct H as (k & st & H). by exists text, k, st.
  - done.
Qed.

(** ** Reading the lines of a text *)

Lemma fgets_line n l rest :
  all_chars (fun c => negb (Ascii.eqb c LF)) l = true -> (String.length l < n)%nat ->
  fgets_lines n (ln l +:+ rest)%string = ln l :: fgets_lines 511 rest.
Proof.
  unfold ln. revert n. induction l as [|c l IH]; intros n Hl Hn; cbn [all_chars String.length] in *.
  - done.
  - apply andb_true_iff in Hl as [Hc Hl]. apply negb_true_iff in Hc.
    rewrite !app_string_cons. cbn [fgets_lines]. rewrite Hc, (proj2 (Nat.leb_gt n 1)) by lia. cbn [orb].
    by rewrite (IH (n - 1)%nat Hl ltac:(lia)).
Qed.

(** A line that [fgets] takes whole. *)
Definition short_line (l : string) : bool :=
  all_chars (fun c => negb (Ascii.eqb c LF)) l && (strlen l <? 511).

Lemma fgets_lines_text ls :
  forallb short_line ls = true -> fgets_lines 511 (concat_str (map ln ls)) = map ln ls.
Proof.
  induction ls as [|l ls IH]; cbn [map concat_str forallb]; [done|]. unfold short_line at 1.
  intros [[H1 H2]%andb_true_iff H3]%andb_true_iff. zb. unfold strlen in *.
  rewrite fgets_line by (done || lia). by rewrite IH.
Qed.

Lemma concat_str_app a b : concat_str (a ++ b) = (concat_str a +:+ concat_str b)%string.
Proof. induction a as [|x a IH]; [done|]. cbn [app concat_str]. by rewrite IH, app_string_assoc. Qed.

Lemma config_lines_app st a b : config_lines st (a ++ b) = st' ← config_lines st a; config_lines st' b.
Proof.
  revert st. induction a as [|l a IH]; intros st; [done|]. cbn [app config_lines].
  destruct (config_line st l); [apply IH|done..].
Qed.

(** ** Trimming *)

Lemma all_space_app a b : all_space (a +:+ b)%string = all_space a && all_space b.
Proof.
  induction a as [|c a IH]; [done|]. rewrite app_string_cons. cbn [all_space]. by rewrite IH, andb_assoc.
Qed.

Lemma trim_end_space a w : all_space w = true -> trim_end (a +:+ w)%string = trim_end a.
Proof.
  intros Hw. induction a as [|c a IH].
  - rewrite app_string_empty. destruct w; [done|]. cbn [trim_end]. by rewrite Hw.
  - rewrite app_string_cons. cbn [trim_end]. rewrite IH, <- app_string_cons, all_space_app, Hw, andb_true_r. done.
Qed.

Lemma trim_end_nil a : all_space a = true -> trim_end a = ""%string.
Proof. destruct a; [done|]. cbn [trim_end]. by intros ->. Qed.

Lemma trim_end_app a b : trim_end b <> ""%string -> trim_end (a +:+ b)%string = (a +:+ trim_end b)%string.
Proof.
  intros Hb. induction a as [|c a IH]; [done|]. rewrite !app_string_cons. cbn [trim_end].
  destruct (all_space (String c (a +:+ b)%string)) eqn:E1; [|by rewrite IH].
  rewrite <- app_string_cons, all_space_app in E1. apply andb_true_iff in E1 as [_ E1]. by rewrite trim_end_nil in Hb.
Qed.

(** A text that begins and ends with something other than white space. *)
Definition solid (s : string) : bool :=
  match s with String c _ => negb (isspace c) | EmptyString => false end && String.eqb (trim_end s) s.

Lemma solid_nonempty s : solid s = true -> s <> ""%string.
Proof. by destruct s. Qed.

Lemma solid_end s : solid s = true -> trim_end s = s.
Proof. unfold solid. intros [_ H%String.eqb_eq]%andb_true_iff. done. Qed.

Lemma solid_skip s r : solid s = true -> skip_space (s +:+ r)%string = (s +:+ r)%string.
Proof.
  destruct s as [|c s]; [done|]. intros [H%negb_true_iff _]%andb_true_iff. rewrite app_string_cons. cbn [skip_space].
  by rewrite H.
Qed.

Lemma trim_solid s w : solid s = true -> all_space w = true -> trim (s +:+ w)%string = s.
Proof. intros Hs Hw. unfold trim. by rewrite solid_skip, trim_end_space, solid_end. Qed.

Lemma trim_solid_id s : solid s = true -> trim s = s.
Proof. intros Hs. rewrite <- (app_string_nil s) at 1. by apply trim_solid. Qed.

Lemma solid_app a b : solid a = true -> solid b = true -> forall m, solid (a +:+ (m +:+ b))%string = true.
Proof.
  intros Ha Hb m. unfold solid. destruct a as [|c a]; [done|]. apply andb_true_iff in Ha as [Ha _].
  rewrite app_string_cons, Ha. cbn [andb]. rewrite <- app_string_cons.
  apply String.eqb_eq. pose proof (solid_nonempty _ Hb). apply solid_end in Hb.
  rewrite trim_end_app; rewrite trim_end_app; rewrite ?Hb; try done.
  intros E1. apply (f_equal String.length) in E1. rewrite length_app_string in E1. destruct b; [done|]. cbn in E1. lia.
Qed.

Lemma nonspace_solid s : s <> ""%string -> all_chars (fun c => negb (isspace c)) s = true -> solid s = true.
Proof.
  intros Hn Hs. destruct s as [|c s]; [done|]. unfold solid. apply andb_true_iff. split.
  - cbn in Hs. by apply andb_true_iff in Hs as [? _].
  - apply String.eqb_eq. clear Hn. revert c Hs. induction s as [|d s IH]; intros c Hs; cbn [all_chars] in Hs;
      apply andb_true_iff in Hs as [H1 H2]; apply negb_true_iff in H1.
    + cbn. by rewrite H1.
    + cbn [trim_end all_space]. rewrite H1. cbn [andb]. f_equal. apply IH. done.
Qed.

(** ** A line "key = value" *)

Definition line_char (c : ascii) : bool :=
  negb (code c =? 0) && negb (Ascii.eqb c "#") && negb (Ascii.eqb c ";") && negb (Ascii.eqb c LF).

Definition key_char (c : ascii) : bool := line_char c && negb (Ascii.eqb c "=") && negb (Ascii.eqb c "[").

Definition key_ok (k : string) : bool := solid k && all_chars key_char k.
Definition value_ok (v : string) : bool := solid v && all_chars line_char v.

Lemma c_str_id s : all_chars line_char s = true -> c_str (ln s) = ln s.
Proof.
  unfold ln. induction s as [|c s IH]; [done|]. cbn [all_chars]. intros [H1 H2]%andb_true_iff.
  rewrite app_string_cons. cbn [c_str]. unfold line_char in H1.
  destruct (code c =? 0); [done|]. by rewrite IH.
Qed.

Lemma cut_at_id c s : all_chars (fun d => negb (Ascii.eqb d c)) s = true -> cut_at c s = s.
Proof. intros H. unfold cut_at. by rewrite str_chr_none. Qed.

(** A solid text without comment characters reaches the parser as it is. *)
Lemma config_line_plain st s : value_ok s = true ->
  config_line st (ln s) =
    let '(section, c) := st in
    match s with
    | EmptyString => Done st
    | String ch _ =>
        if Ascii.eqb ch "[" then
          match str_chr "]" s with
          | None => Done st
          | Some (name, _) => Done (parse_section (str_drop 1 name), c)
          end
        else
          match str_chr "=" s with
          | None => Done st
          | Some (key, value) => c ← config_entry section (trim key) (trim value) c; Done (section, c)
          end
    end.
Proof.
  destruct st as [section c]. intros [Hs Hc]%andb_true_iff. unfold config_line. rewrite c_str_id by done.
  unfold ln. rewrite (trim_solid s (String LF "") Hs) by done. destruct s as [|ch r]; [done|].
  pose proof Hc as [H1 _]%andb_true_iff. unfold line_char in H1.
  apply andb_true_iff in H1 as [[[_ H1%negb_true_iff]%andb_true_iff H2%negb_true_iff]%andb_true_iff _].
  rewrite H1, H2. cbn [orb].
  rewrite (cut_at_id "#"), (cut_at_id ";"); [|apply (all_chars_impl line_char); [|exact Hc]..].
  2, 3: unfold line_char; intros d; rewrite !andb_true_iff; tauto.
  by rewrite (trim_solid_id _ Hs).
Qed.

Lemma entry_value_ok k v : key_ok k = true -> value_ok v = true -> value_ok (k +:+ (" = " +:+ v))%string = true.
Proof.
  intros [Hk Hkc]%andb_true_iff [Hv Hvc]%andb_true_iff. apply andb_true_iff. split; [by apply solid_app|].
  rewrite !all_chars_app, Hvc. rewrite (all_chars_impl key_char line_char k); [done| |done].
  intros d. unfold key_char. rewrite !andb_true_iff. tauto.
Qed.

Lemma config_line_entry section c k v : key_ok k = true -> value_ok v = true ->
  config_line (section, c) (ln (k +:+ (" = " +:+ v))%string) = c' ← config_entry section k v c; Done (section, c').
Proof.
  intros Hk0 Hv0. pose proof (entry_value_ok k v Hk0 Hv0) as Ht. revert Hk0 Hv0.
  intros [Hk Hkc]%andb_true_iff [Hv Hvc]%andb_true_iff.
  rewrite config_line_plain by done.
  assert (Hchr : str_chr "=" (k +:+ (" = " +:+ v))%string = Some (k +:+ " ", " " +:+ v)%string).
  { replace (k +:+ (" = " +:+ v))%string with ((k +:+ " ") +:+ String "=" (" " +:+ v))%string by (rewrite app_string_assoc; done).
    apply str_chr_app. rewrite all_chars_app. cbn [all_chars]. rewrite andb_true_r.
    apply (all_chars_impl key_char); [|done].
    intros d. unfold key_char. rewrite !andb_true_iff. tauto. }
  rewrite Hchr, trim_solid by done.
  assert (Htr : trim (" " +:+ v)%string = v) by exact (trim_solid_id v Hv). rewrite Htr.
  destruct k as [|ch k]; [done|]. rewrite app_string_cons.
  apply andb_true_iff in Hkc as [Hch _]. unfold key_char in Hch. apply andb_true_iff in Hch as [_ Hch%negb_true_iff].
  by rewrite Hch.
Qed.

(** *** Numbers as keys and values *)

Definition number_char (c : ascii) : bool := isdigit c || Ascii.eqb c "-".

Lemma number_char_key c : number_char c = true -> key_char c && negb (isspace c) && negb (Ascii.eqb c ":") = true.
Proof.
  destruct c as [b0 b1 b2 b3 b4 b5 b6 b7]. destruct b0, b1, b2, b3, b4, b5, b6, b7; by vm_compute.
Qed.

Lemma fmt_u_number n : 0 <= n < 2 ^ 64 -> all_chars number_char (fmt_u n) = true /\ fmt_u n <> ""%string.
Proof.
  intros Hn. destruct (fmt_u_ok n Hn) as [Hd _]. split.
  - apply (all_chars_impl isdigit); [|done]. intros c Hc. unfold number_char. by rewrite Hc.
  - by destruct (fmt_u_head n Hn) as (c & s & -> & _).
Qed.

Lemma fmt_d_number n : INT_MIN <= n <= INT_MAX -> all_chars number_char (fmt_d n) = true /\ fmt_d n <> ""%string.
Proof.
  intros Hn. pose proof Hn as Hr. unfold INT_MIN, INT_MAX in Hr. destruct (fmt_d_cases n Hn) as [[H0 ->]|[H0 ->]].
  - apply fmt_u_number. lia.
  - split; [|done]. destruct (fmt_u_number (- n)) as [H _]; [lia|]. cbn [all_chars]. by rewrite H.
Qed.

Lemma number_ok s : all_chars number_char s = true -> s <> ""%string -> key_ok s = true /\ value_ok s = true.
Proof.
  intros Hs Hn. assert (Hsol : solid s = true).
  { apply nonspace_solid; [done|]. apply (all_chars_impl number_char); [|done].
    intros c Hc%number_char_key. apply andb_true_iff in Hc as [[_ Hc]%andb_true_iff _]. done. }
  unfold key_ok, value_ok. rewrite Hsol. split; apply (all_chars_impl number_char); try done;
    intros c Hc%number_char_key; apply andb_true_iff in Hc as [[Hc _]%andb_true_iff _]; [done|].
  unfold key_char in Hc. by apply andb_true_iff in Hc as [[Hc _]%andb_true_iff _].
Qed.

Lemma id_key_ok n : INT_MIN <= n <= INT_MAX -> key_ok (fmt_d n) = true.
Proof. intros Hn. destruct (fmt_d_number n Hn). by apply number_ok. Qed.

Lemma setting_key_ok n s : INT_MIN <= n <= INT_MAX ->
  all_chars (fun c => key_char c && negb (isspace c)) s = true -> key_ok (fmt_d n +:+ s)%string = true.
Proof.
  intros Hn Hs. destruct (fmt_d_number n Hn) as [Hc Hne].
  assert (Ha : all_chars (fun c => key_char c && negb (isspace c)) (fmt_d n +:+ s)%string = true).
  { rewrite all_chars_app, Hs, andb_true_r. apply (all_chars_impl number_char); [|done].
    intros c H%number_char_key. by apply andb_true_iff in H as [H _]. }
  unfold key_ok. apply andb_true_iff. split.
  - apply nonspace_solid; [by destruct (fmt_d n)|]. eapply all_chars_impl; [|exact Ha]. intros c. rewrite andb_true_iff. tauto.
  - eapply all_chars_impl; [|exact Ha]. intros c. rewrite andb_true_iff. tauto.
Qed.

(** "id:setting" is split at its colon. *)
Lemma setting_split n s : INT_MIN <= n <= INT_MAX ->
  str_chr ":" (fmt_d n +:+ String ":" s)%string = Some (fmt_d n, s).
Proof.
  intros Hn. destruct (fmt_d_number n Hn) as [Hc _]. apply str_chr_app. apply (all_chars_impl number_char); [|done].
  intros c H%number_char_key. by apply andb_true_iff in H as [_ H].
Qed.

(** ** What a saved file says *)

(** The instance that the file describes: its port follows the base port, and
    what is not saved is back at its default. *)
Definition saved_instance (base : Z) (i : nat) (inst : xvc_instance_config_t) : xvc_instance_config_t :=
  if enabled inst then
    mk_instance (Z.of_nat i + 1) (base + instance_id inst - 1) (device_id inst) (alias inst)
      (inst_frequency inst) (latency_timer inst) false JTAG_MODE_MPSSE (xvc_buffer_size inst) WHITELIST_OFF []
      DEFAULT_CLIENT_LOCK_TIMEOUT true 0
  else default_instance i.

Definition saved_config (c : xvc_global_config_t) : xvc_global_config_t :=
  config_init <| instance_mgmt_enabled := instance_mgmt_enabled c |> <| base_port := base_port c |>
    <| max_instances := max_instances c |> <| instances := imap (saved_instance (base_port c)) (instances c) |>
    <| instance_count := instance_count c |>.

(** Texts that survive the syntax of the file: no comment character, no line
    break, no white space at the ends; a base port that leaves room. *)
Record savable (c : xvc_global_config_t) : Prop := {
  sav_wf : wf_config c;
  sav_base : base_port c + MAX_INSTANCES <= INT_MAX;
  sav_device : forall i inst, instances c !! i = Some inst -> enabled inst = true ->
    value_ok (device_id_text (device_id inst)) = true;
  sav_alias : forall i inst, instances c !! i = Some inst -> enabled inst = true ->
    alias inst = ""%string \/ value_ok (alias inst) = true
}.

(** *** The lines *)

Definition mapping_lines (i : xvc_instance_config_t) : list string :=
  if enabled i then [fmt_d (instance_id i) +:+ (" = " +:+ device_id_text (device_id i))]%string else [].

Definition setting_line (i : xvc_instance_config_t) (setting value : string) : string :=
  ((fmt_d (instance_id i) +:+ String ":" setting) +:+ (" = " +:+ value))%string.

(** The settings that are written. *)
Definition written_settings (i : xvc_instance_config_t) : list (string * string) :=
  if enabled i then
    [("frequency", fmt_u (inst_frequency i))] ++
    (if negb (latency_timer i =? DEFAULT_LATENCY) then [("latency_timer", fmt_d (latency_timer i))] else []) ++
    (if negb (xvc_buffer_size i =? DEFAULT_XVC_BUFFER_SIZE) then [("xvc_buffer_size", fmt_d (xvc_buffer_size i))] else [])
  else [].

Definition settings_lines (i : xvc_instance_config_t) : list string :=
  map (fun '(s, v) => setting_line i s v) (written_settings i).

Definition alias_lines (i : xvc_instance_config_t) : list string :=
  if enabled i && negb (String.eqb (alias i) "") then [fmt_d (instance_id i) +:+ (" = " +:+ alias i)]%string else [].

Definition head_lines (c : xvc_global_config_t) : list string :=
  ["# XVC Server Configuration"; "# Generated automatically"; ""; "[instance_management]";
   "enabled" +:+ (" = " +:+ if instance_mgmt_enabled c then "true" else "false");
   "base_port" +:+ (" = " +:+ fmt_d (base_port c)); "max_instances" +:+ (" = " +:+ fmt_d (max_instances c)); "";
   "[instance_mappings]"; "# Format: instance_id = device_id";
   "# device_id: SN:serial, BUS:bus-dev, CUSTOM:name, or auto"]%string.

Definition text_lines (c : xvc_global_config_t) : list string :=
  head_lines c ++ flat_map mapping_lines (saved_instances c) ++
  [""; "[instance_settings]"; "# Format: instance_id:setting = value"]%string ++
  flat_map settings_lines (saved_instances c) ++ [""; "[instance_aliases]"]%string ++
  flat_map alias_lines (saved_instances c) ++ [""%string].

Lemma concat_flat_map (f : xvc_instance_config_t -> list string) (g : xvc_instance_config_t -> string) l :
  (forall i, i ∈ l -> concat_str (map ln (f i)) = g i) -> concat_str (map ln (flat_map f l)) = concat_str (map g l).
Proof.
  induction l as [|i l IH]; intros Hl; [done|]. cbn [flat_map map concat_str].
  rewrite map_app, concat_str_app, Hl, IH by set_solver. done.
Qed.

Lemma config_text_lines c : wf_config c -> config_text c = concat_str (map ln (text_lines c)).
Proof.
  intros Hc. unfold text_lines, config_text. rewrite !map_app, !concat_str_app.
  rewrite (concat_flat_map mapping_lines save_mapping), (concat_flat_map settings_lines save_settings),
    (concat_flat_map alias_lines save_alias).
  - unfold head_lines. cbn [map concat_str]. unfold ln. rewrite !app_string_assoc, !app_string_nil. done.
  - intros i _. unfold alias_lines, save_alias. destruct (enabled i && _); [|done]. cbn. by rewrite app_string_nil.
  - intros i _. unfold settings_lines, written_settings, save_settings. destruct (enabled i); [|done].
    destruct (negb (latency_timer i =? DEFAULT_LATENCY)), (negb (xvc_buffer_size i =? DEFAULT_XVC_BUFFER_SIZE));
      cbn [app map concat_str]; unfold setting_line, ln; rewrite !app_string_assoc, ?app_string_nil; done.
  - intros i Hi. unfold mapping_lines, save_mapping. destruct (enabled i); [|done]. cbn [map concat_str].
    rewrite app_string_nil, id_text_fits; [done|].
    unfold saved_instances in Hi. apply list_elem_of_lookup in Hi as [k Hk]. apply lookup_take_Some in Hk as [Hk _].
    apply (wfi_device k i). by apply (wfc_instance c Hc).
Qed.

(** *** A section of saved lines, instance by instance *)

Lemma alter_twice {A} (f g : A -> A) (k : nat) (l : list A) : alter f k (alter g k l) = alter (fun x => f (g x)) k l.
Proof.
  apply list_eq. intros j. destruct (decide (k = j)) as [->|Hne].
  - rewrite !list_lookup_alter_eq. by destruct (l !! j).
  - by rewrite !list_lookup_alter_ne.
Qed.

(** Update the elements from index [k] on, one by one. *)
Fixpoint apply_at {A} (k : nat) (fs : list (A -> A)) (l : list A) : list A :=
  match fs with
  | [] => l
  | f :: fs => apply_at (S k) fs (alter f k l)
  end.

Lemma lookup_apply_at {A} k (fs : list (A -> A)) (l : list A) j :
  apply_at k fs l !! j =
    match (if decide (k <= j)%nat then fs !! (j - k)%nat else None) with
    | Some f => f <$> l !! j
    | None => l !! j
    end.
Proof.
  revert k l. induction fs as [|f fs IH]; intros k l; cbn [apply_at].
  - by case_decide.
  - rewrite IH. destruct (decide (k = j)) as [->|Hne].
    + rewrite decide_False by lia. rewrite decide_True by lia. rewrite Nat.sub_diag. cbn [lookup list_lookup].
      by rewrite list_lookup_alter_eq.
    + rewrite list_lookup_alter_ne by done. destruct (decide (S k <= j)%nat).
      * rewrite decide_True by lia. replace (j - k)%nat with (S (j - S k)) by lia. done.
      * by rewrite decide_False by lia.
Qed.

Section Lines.
Context (sec : section_t) (lines : xvc_instance_config_t -> list string).
Context (upd : xvc_instance_config_t -> xvc_instance_config_t -> xvc_instance_config_t).
Context (count : Z -> xvc_instance_config_t -> Z) (P : nat -> xvc_instance_config_t -> Prop) (base : Z).

Hypothesis each : forall k inst c, P k inst -> base_port c = base ->
  config_lines (sec, c) (map ln (lines inst)) =
    Done (sec, c <| instances := alter (upd inst) k (instances c) |> <| instance_count := count (instance_count c) inst |>).

Lemma section_lines_ok l k c :
  (forall i inst, l !! i = Some inst -> P (k + i)%nat inst) -> base_port c = base ->
  config_lines (sec, c) (map ln (flat_map lines l)) =
    Done (sec, c <| instances := apply_at k (map upd l) (instances c) |> <| instance_count := foldl count (instance_count c) l |>).
Proof.
  revert k c. induction l as [|inst l IH]; intros k c Hl Hb; cbn [flat_map map apply_at foldl].
  - by destruct c.
  - rewrite map_app, config_lines_app. rewrite (each k) by (done || by (rewrite <- (Nat.add_0_r k); apply Hl)).
    cbn [mbind exec_bind]. rewrite (IH (S k)); [done| |done].
    intros i x Hx. replace (S k + i)%nat with (k + S i)%nat by lia. by apply Hl.
Qed.
End Lines.

(** What the sections need to know of an instance. *)
Record saved_at (k : nat) (inst : xvc_instance_config_t) : Prop := {
  sat_range : (k < 32)%nat;
  sat_wf : wf_instance k inst;
  sat_device : enabled inst = true -> value_ok (device_id_text (device_id inst)) = true;
  sat_alias : enabled inst = true -> alias inst = ""%string \/ value_ok (alias inst) = true
}.

Lemma saved_id k inst : saved_at k inst -> INT_MIN <= instance_id inst <= INT_MAX /\
  1 <= instance_id inst <= MAX_INSTANCES /\ Z.to_nat (instance_id inst - 1) = k.
Proof.
  intros [Hk Hwf _ _]. rewrite (wfi_id _ _ Hwf). unfold INT_MIN, INT_MAX, MAX_INSTANCES. lia.
Qed.

Lemma update_saved k inst f c : saved_at k inst ->
  update_instance (instance_id inst) f c = c <| instances := alter f k (instances c) |>.
Proof.
  intros (_ & Hid & Hk)%saved_id. unfold update_instance.
  by rewrite (proj2 (Z.leb_le _ _)), (proj2 (Z.leb_le _ MAX_INSTANCES)), Hk by lia.
Qed.

Lemma config_same_instances c f k : (forall x, f x = x) ->
  c <| instances := alter f k (instances c) |> <| instance_count := instance_count c |> = c.
Proof. intros Hf. rewrite list_alter_id by done. by destruct c. Qed.

Lemma config_same_count c l : c <| instances := l |> <| instance_count := instance_count c |> = c <| instances := l |>.
Proof. by destruct c. Qed.

Definition mapped (base : Z) (inst d : xvc_instance_config_t) : xvc_instance_config_t :=
  if enabled inst then
    d <| enabled := true |> <| port := base + instance_id inst - 1 |> <| device_id := device_id inst |>
  else d.

Definition count_up (n : Z) (inst : xvc_instance_config_t) : Z :=
  if enabled inst && (n <? instance_id inst) then instance_id inst else n.

Lemma mapping_each base k inst c :
  INT_MIN <= base -> base + MAX_INSTANCES <= INT_MAX -> saved_at k inst -> base_port c = base ->
  config_lines (SECTION_INSTANCE_MAPPINGS, c) (map ln (mapping_lines inst)) =
    Done (SECTION_INSTANCE_MAPPINGS,
          c <| instances := alter (mapped base inst) k (instances c) |> <| instance_count := count_up (instance_count c) inst |>).
Proof.
  intros Hlo Hhi Hs Hb. pose proof (saved_id k inst Hs) as (Hid & Hr & Hk). unfold mapping_lines, mapped, count_up.
  destruct (enabled inst) eqn:He; [|by cbn [map config_lines andb]; rewrite config_same_instances by done].
  cbn [map config_lines andb]. rewrite config_line_entry by (by apply id_key_ok || by apply (sat_device k)).
  cbn [config_entry]. unfold mapping_entry. rewrite atoi_fmt_d by done.
  rewrite (proj2 (Z.leb_le 1 _)), (proj2 (Z.leb_le _ MAX_INSTANCES)) by lia. cbn [andb].
  rewrite Hb, !int_arith_ok by lia. cbn [mbind exec_bind]. rewrite int_arith_ok by lia. cbn [mbind exec_bind].
  rewrite (update_saved k) by done. rewrite parse_id_text by apply (wfi_device _ _ (sat_wf _ _ Hs)).
  cbn [snd instance_count setter]. by destruct (instance_count c <? instance_id inst); destruct c.
Qed.

Definition settings_set (inst d : xvc_instance_config_t) : xvc_instance_config_t :=
  foldl (fun d '(s, v) => set_setting s v d) d (written_settings inst).

Lemma setting_line_ok k inst c s v : saved_at k inst ->
  all_chars (fun c => key_char c && negb (isspace c)) s = true -> value_ok v = true ->
  config_line (SECTION_INSTANCE_SETTINGS, c) (ln (setting_line inst s v)) =
    Done (SECTION_INSTANCE_SETTINGS, c <| instances := alter (set_setting s v) k (instances c) |>).
Proof.
  intros Hi Hs Hv. pose proof (saved_id k inst Hi) as (Hid & Hr & Hk). unfold setting_line.
  rewrite config_line_entry; [|apply setting_key_ok; [done|by cbn [all_chars]; rewrite Hs]|done].
  cbn [config_entry mbind exec_bind]. unfold setting_entry. rewrite setting_split, atoi_fmt_d by done.
  by rewrite (update_saved k).
Qed.

Lemma setting_lines_ok k inst ss c : saved_at k inst ->
  Forall (fun '(s, v) => all_chars (fun c => key_char c && negb (isspace c)) s = true /\ value_ok v = true) ss ->
  config_lines (SECTION_INSTANCE_SETTINGS, c) (map ln (map (fun '(s, v) => setting_line inst s v) ss)) =
    Done (SECTION_INSTANCE_SETTINGS,
          c <| instances := alter (fun d => foldl (fun d '(s, v) => set_setting s v d) d ss) k (instances c) |>).
Proof.
  intros Hi Hss. revert c. induction Hss as [|[s v] ss [Hs Hv] _ IH]; intros c; cbn [map config_lines foldl].
  - rewrite list_alter_id by done. by destruct c.
  - rewrite (setting_line_ok k) by done. cbn [mbind exec_bind]. rewrite IH. cbn [instances setter].
    by rewrite alter_twice.
Qed.

Lemma written_settings_ok k inst : saved_at k inst ->
  Forall (fun '(s, v) => all_chars (fun c => key_char c && negb (isspace c)) s = true /\ value_ok v = true) (written_settings inst).
Proof.
  intros Hs. destruct (sat_wf _ _ Hs). unfold written_settings. destruct (enabled inst); [|done].
  assert (Hnum : forall s, all_chars number_char s = true /\ s <> ""%string -> value_ok s = true)
    by (intros s [H1 H2]; by apply number_ok).
  apply Forall_app. split; [|apply Forall_app; split].
  - apply Forall_cons. split; [|done]. split; [done|]. apply Hnum, fmt_u_number. lia.
  - destruct (negb _); [|done]. apply Forall_cons. split; [|done]. split; [done|]. by apply Hnum, fmt_d_number.
  - destruct (negb _); [|done]. apply Forall_cons. split; [|done]. split; [done|]. apply Hnum, fmt_d_number.
    unfold MIN_XVC_BUFFER_SIZE, MAX_XVC_BUFFER_SIZE, INT_MIN, INT_MAX in *. lia.
Qed.

Definition alias_set (inst d : xvc_instance_config_t) : xvc_instance_config_t :=
  if enabled inst && negb (String.eqb (alias inst) "") then d <| alias := truncated MAX_ALIAS_LEN (alias inst) |> else d.

Lemma alias_each k inst c : saved_at k inst ->
  config_lines (SECTION_INSTANCE_ALIASES, c) (map ln (alias_lines inst)) =
    Done (SECTION_INSTANCE_ALIASES, c <| instances := alter (alias_set inst) k (instances c) |>).
Proof.
  intros Hs. pose proof (saved_id k inst Hs) as (Hid & Hr & Hk). unfold alias_lines, alias_set.
  destruct (enabled inst && negb (alias inst =? "")%string) eqn:He.
  2: { cbn [map config_lines]. rewrite list_alter_id by done. by destruct c. }
  apply andb_true_iff in He as [He Ha%negb_true_iff%String.eqb_neq]. cbn [map config_lines].
  destruct (sat_alias _ _ Hs He) as [|Hv]; [done|]. rewrite config_line_entry by (done || by apply id_key_ok).
  cbn [config_entry mbind exec_bind]. unfold alias_entry. rewrite atoi_fmt_d by done. by rewrite (update_saved k).
Qed.

(** *** No saved line is too long *)

Lemma short_entry k v :
  all_chars line_char k = true -> all_chars line_char v = true -> strlen k <= 60 -> strlen v <= 100 ->
  short_line (k +:+ (" = " +:+ v))%string = true.
Proof.
  intros Hk Hv Lk Lv. unfold short_line. apply andb_true_iff. split.
  - rewrite !all_chars_app. rewrite (all_chars_impl line_char _ k), (all_chars_impl line_char _ v); try done;
      intros c; unfold line_char; rewrite !andb_true_iff; tauto.
  - apply Z.ltb_lt. unfold strlen in *. rewrite !length_app_string. cbn [String.length]. lia.
Qed.

Lemma number_line_chars s : all_chars number_char s = true -> all_chars line_char s = true.
Proof.
  apply all_chars_impl. intros c Hc%number_char_key. unfold key_char in Hc.
  by apply andb_true_iff in Hc as [[[[Hc _]%andb_true_iff _]%andb_true_iff _]%andb_true_iff _].
Qed.

Lemma fmt_d_chars n : INT_MIN <= n <= INT_MAX -> all_chars line_char (fmt_d n) = true.
Proof. intros Hn. by apply number_line_chars, fmt_d_number. Qed.

Lemma fmt_u_chars n : 0 <= n < 2 ^ 64 -> all_chars line_char (fmt_u n) = true.
Proof. intros Hn. by apply number_line_chars, fmt_u_number. Qed.

Lemma mapping_short k inst : saved_at k inst -> Forall (fun l => short_line l = true) (mapping_lines inst).
Proof.
  intros Hs. pose proof (saved_id k inst Hs) as (Hid & _). unfold mapping_lines. destruct (enabled inst) eqn:He; [|done].
  apply Forall_cons. split; [|done]. pose proof (fmt_d_length (instance_id inst)).
  pose proof (id_text_length _ (wfi_device _ _ (sat_wf _ _ Hs))).
  pose proof (sat_device _ _ Hs He) as [_ Hc]%andb_true_iff.
  apply short_entry; [by apply fmt_d_chars|done|lia|lia].
Qed.

Lemma settings_short k inst : saved_at k inst -> Forall (fun l => short_line l = true) (settings_lines inst).
Proof.
  intros Hs. pose proof (saved_id k inst Hs) as (Hid & _). destruct (sat_wf _ _ Hs).
  unfold settings_lines. apply Forall_map. pose proof (fmt_d_length (instance_id inst)) as Hl.
  assert (Hone : forall s v, all_chars line_char s = true -> strlen s <= 30 -> all_chars line_char v = true -> strlen v <= 100 ->
    short_line (setting_line inst s v) = true).
  { intros s v Hs1 Hs2 Hv1 Hv2. apply short_entry; try done.
    - rewrite all_chars_app, fmt_d_chars by done. cbn [all_chars andb]. by rewrite Hs1.
    - unfold strlen in *. rewrite length_app_string. cbn [String.length]. lia. }
  unfold written_settings. destruct (enabled inst); [|done].
  pose proof (fmt_u_length (inst_frequency inst)). pose proof (fmt_d_length (latency_timer inst)).
  pose proof (fmt_d_length (xvc_buffer_size inst)).
  apply Forall_app. split; [|apply Forall_app; split].
  - apply Forall_cons. split; [|done]. apply Hone; [done|done| |lia]. apply fmt_u_chars. lia.
  - destruct (negb _); [|done]. apply Forall_cons. split; [|done]. apply Hone; [done|done| |lia]. by apply fmt_d_chars.
  - destruct (negb _); [|done]. apply Forall_cons. split; [|done]. apply Hone; [done|done| |lia]. apply fmt_d_chars.
    unfold MIN_XVC_BUFFER_SIZE, MAX_XVC_BUFFER_SIZE, INT_MIN, INT_MAX in *. lia.
Qed.

Lemma alias_short k inst : saved_at k inst -> Forall (fun l => short_line l = true) (alias_lines inst).
Proof.
  intros Hs. pose proof (saved_id k inst Hs) as (Hid & _). unfold alias_lines.
  destruct (enabled inst && negb (alias inst =? "")%string) eqn:He; [|done].
  apply andb_true_iff in He as [He Ha%negb_true_iff%String.eqb_neq]. apply Forall_cons. split; [|done].
  destruct (sat_alias _ _ Hs He) as [|Hv]; [done|]. apply andb_true_iff in Hv as [_ Hv].
  pose proof (fmt_d_length (instance_id inst)). pose proof (wfi_alias _ _ (sat_wf _ _ Hs)) as Hl. unfold MAX_ALIAS_LEN in Hl.
  apply short_entry; [by apply fmt_d_chars|done|lia|lia].
Qed.

(** *** The whole file *)

Lemma savable_at c k inst : savable c -> saved_instances c !! k = Some inst -> saved_at k inst.
Proof.
  intros [Hc _ Hd Ha] [Hk Hlt]%lookup_take_Some. pose proof (wfc_count c Hc) as Hn. unfold MAX_INSTANCES in Hn.
  split; [lia|by apply (wfc_instance c Hc)|by apply (Hd k)|by apply (Ha k)].
Qed.

Lemma flat_map_short (f : xvc_instance_config_t -> list string) c : savable c ->
  (forall k inst, saved_at k inst -> Forall (fun l => short_line l = true) (f inst)) ->
  Forall (fun l => short_line l = true) (flat_map f (saved_instances c)).
Proof.
  intros Hc Hf. apply Forall_flat_map, Forall_lookup. intros k inst Hk. apply (Hf k). by apply savable_at in Hk.
Qed.

Lemma text_lines_short c : savable c -> forallb short_line (text_lines c) = true.
Proof.
  intros Hc. apply Is_true_true, forallb_True.
  assert (H : Forall (fun l => short_line l = true) (text_lines c)).
  { unfold text_lines, head_lines. pose proof (wfc_base c (sav_wf c Hc)). pose proof (wfc_max c (sav_wf c Hc)).
    pose proof (fmt_d_length (base_port c)). pose proof (fmt_d_length (max_instances c)).
    repeat (apply Forall_app; split); try (apply flat_map_short; [done|]);
      eauto using mapping_short, settings_short, alias_short;
      repeat (apply Forall_cons; split); try done.
    - by destruct (instance_mgmt_enabled c).
    - apply short_entry; [done|by apply fmt_d_chars|done|lia].
    - apply short_entry; [done|by apply fmt_d_chars|done|lia]. }
  eapply Forall_impl; [exact H|]. intros l Hl. by rewrite Hl.
Qed.

Lemma set_buffer n d : MIN_XVC_BUFFER_SIZE <= n <= MAX_XVC_BUFFER_SIZE ->
  set_setting "xvc_buffer_size" (fmt_d n) d = d <| xvc_buffer_size := n |>.
Proof.
  unfold MIN_XVC_BUFFER_SIZE, MAX_XVC_BUFFER_SIZE. intros Hn.
  assert (Hi : INT_MIN <= n <= INT_MAX) by (unfold INT_MIN, INT_MAX; lia).
  cbn [set_setting String.eqb Ascii.eqb Bool.eqb]. unfold set_setting. cbn [String.eqb Ascii.eqb Bool.eqb].
  unfold buffer_size_of. rewrite strtol0_fmt_d by done. unfold MIN_XVC_BUFFER_SIZE, MAX_XVC_BUFFER_SIZE.
  rewrite (proj2 (Z.ltb_ge n 64)), (proj2 (Z.ltb_ge 536870912 n)) by lia. by rewrite i32_id.
Qed.

Lemma set_frequency n d : 0 <= n < 2 ^ 32 ->
  set_setting "frequency" (fmt_u n) d = d <| inst_frequency := n |>.
Proof.
  intros Hn. change (set_setting "frequency" (fmt_u n) d) with (d <| inst_frequency := u32 (strtoul0 (fmt_u n)) |>).
  rewrite strtoul0_fmt_u, u32_id by lia. done.
Qed.

Lemma set_latency n d : INT_MIN <= n <= INT_MAX ->
  set_setting "latency_timer" (fmt_d n) d = d <| latency_timer := n |>.
Proof.
  intros Hn. change (set_setting "latency_timer" (fmt_d n) d) with (d <| latency_timer := atoi (fmt_d n) |>).
  by rewrite atoi_fmt_d.
Qed.

(** The three sections together rebuild the instance. *)
Lemma sections_rebuild base k inst : saved_at k inst ->
  alias_set inst (settings_set inst (mapped base inst (default_instance k))) = saved_instance base k inst.
Proof.
  intros Hs. destruct (sat_wf _ _ Hs). unfold alias_set, settings_set, written_settings, mapped, saved_instance.
  destruct (enabled inst); [|done]. cbn [andb app foldl].
  rewrite !foldl_app. cbn [foldl]. rewrite set_frequency by done.
  destruct (Z.eqb_spec (latency_timer inst) DEFAULT_LATENCY) as [Hlat|], (Z.eqb_spec (xvc_buffer_size inst) DEFAULT_XVC_BUFFER_SIZE) as [Hbuf|],
    (String.eqb_spec (alias inst) "") as [Hal|]; cbn [negb foldl];
    rewrite ?set_latency, ?set_buffer, ?truncated_id, ?Hlat, ?Hbuf, ?Hal by done; reflexivity.
Qed.

Lemma counted l n k : (forall i inst, l !! i = Some inst -> instance_id inst = Z.of_nat (k + i) + 1) ->
  n <= Z.of_nat k -> foldl count_up n l <= Z.of_nat (k + Datatypes.length l).
Proof.
  revert n k. induction l as [|x l IH]; intros n k Hl Hn; cbn [foldl Datatypes.length]; [lia|].
  pose proof (Hl 0%nat x eq_refl) as Hx. replace (k + S (Datatypes.length l))%nat with (S k + Datatypes.length l)%nat by lia.
  apply IH.
  - intros i inst Hi. rewrite (Hl (S i) inst Hi). lia.
  - unfold count_up. destruct (enabled x && (n <? instance_id x)); lia.
Qed.

Lemma saved_count c : savable c -> foldl count_up 0 (saved_instances c) = instance_count c.
Proof.
  intros Hc. pose proof (sav_wf c Hc) as Hwf. destruct (wfc_last c Hwf) as [H0|(inst & Hi & He)].
  - unfold saved_instances. by rewrite H0.
  - pose proof (wfc_count c Hwf) as Hn. pose proof (wfc_instance c Hwf _ _ Hi) as Hw. pose proof (lookup_lt_Some _ _ _ Hi) as Hlt.
    assert (Hpos : instance_count c <> 0).
    { intros H0. pose proof (wfc_enabled c Hwf _ _ Hi He). lia. }
    unfold saved_instances. replace (Z.to_nat (instance_count c)) with (S (Z.to_nat (instance_count c - 1))) by lia.
    rewrite (take_S_r _ _ _ Hi), foldl_app. cbn [foldl]. set (l := take _ (instances c)).
    assert (Hb : foldl count_up 0 l <= Z.of_nat (0 + Datatypes.length l)).
    { apply counted; [|done]. intros i x Hx. subst l. apply lookup_take_Some in Hx as [Hx _].
      apply (wfi_id _ _ (wfc_instance c Hwf _ _ Hx)). }
    subst l. rewrite length_take in Hb. unfold count_up at 1. rewrite He, (wfi_id _ _ Hw). cbn [andb].
    rewrite (proj2 (Z.ltb_lt _ _)) by lia. lia.
Qed.

Lemma sections_instances c : savable c ->
  apply_at 0 (map alias_set (saved_instances c)) (apply_at 0 (map settings_set (saved_instances c))
    (apply_at 0 (map (mapped (base_port c)) (saved_instances c)) (instances config_init))) =
  imap (saved_instance (base_port c)) (instances c).
Proof.
  intros Hc. pose proof (sav_wf c Hc) as Hwf. apply list_eq. intros j.
  rewrite !lookup_apply_at, !decide_True, !Nat.sub_0_r, !list_lookup_fmap, list_lookup_imap by lia.
  unfold config_init. cbn [instances]. rewrite list_lookup_fmap. change (Z.to_nat MAX_INSTANCES) with 32%nat.
  pose proof (wfc_length c Hwf) as Hlen. unfold zlen, MAX_INSTANCES in Hlen.
  destruct (decide (j < 32)%nat) as [Hj|Hj].
  - rewrite lookup_seq_lt by done. cbn [fmap option_fmap option_map Nat.add].
    destruct (lookup_lt_is_Some_2 (instances c) j ltac:(lia)) as [inst Hi]. rewrite Hi. cbn [fmap option_fmap option_map].
    destruct (saved_instances c !! j) as [x|] eqn:Hx; cbn [fmap option_fmap option_map].
    + pose proof (savable_at c j x Hc Hx) as Hs. unfold saved_instances in Hx. apply lookup_take_Some in Hx as [Hx _].
      rewrite Hi in Hx. injection Hx as <-. by rewrite <- sections_rebuild.
    + unfold saved_instances in Hx. apply lookup_take_None in Hx as [Hx|Hx]; [by rewrite Hi in Hx|].
      unfold saved_instance. destruct (enabled inst) eqn:He; [|done]. pose proof (wfc_enabled c Hwf j inst Hi He). lia.
  - rewrite (lookup_ge_None_2 (seq 0 32)), (lookup_ge_None_2 (instances c)) by (rewrite ?length_seq; lia).
    cbn [fmap option_fmap option_map]. by repeat case_match.
Qed.

Lemma skipped_line st l :
  match trim (c_str l) with EmptyString => true | String ch _ => Ascii.eqb ch "#" end = true -> config_line st l = Done st.
Proof.
  destruct st as [s c]. unfold config_line. destruct (trim (c_str l)) as [|ch r]; [done|]. by intros ->.
Qed.

Lemma header_line s c ch r name rest sec :
  value_ok (String ch r) = true -> Ascii.eqb ch "[" = true -> str_chr "]" (String ch r) = Some (name, rest) ->
  parse_section (str_drop 1 name) = sec -> config_line (s, c) (ln (String ch r)) = Done (sec, c).
Proof. intros Hv Hch Hr <-. rewrite config_line_plain by done. by rewrite Hch, Hr. Qed.

Lemma run_line st l st' ls : config_line st (ln l) = Done st' ->
  config_lines st (map ln (l :: ls)) = config_lines st' (map ln ls).
Proof. intros Hl. cbn [map config_lines]. by rewrite Hl. Qed.

(** Run the first line with a tactic for its effect. *)
Ltac next_line tac :=
  match goal with
  | |- config_lines ?st (map ln (?l :: ?ls)) = _ => erewrite (run_line st l _ ls); [|tac]
  end.
Ltac skip_line := next_line ltac:(apply skipped_line; vm_compute; reflexivity).
Ltac header_line := next_line ltac:(eapply header_line; vm_compute; reflexivity).

Lemma management_enabled (b : bool) (c : xvc_global_config_t) :
  management_entry "enabled" (if b then "true" else "false")%string c = c <| instance_mgmt_enabled := b |>.
Proof. by destruct b. Qed.

Lemma management_base n (c : xvc_global_config_t) : INT_MIN <= n <= INT_MAX ->
  management_entry "base_port" (fmt_d n) c = c <| base_port := n |>.
Proof.
  intros Hn. change (management_entry "base_port" (fmt_d n) c) with (c <| base_port := atoi (fmt_d n) |>).
  by rewrite atoi_fmt_d.
Qed.

Lemma management_max n (c : xvc_global_config_t) : INT_MIN <= n <= INT_MAX ->
  management_entry "max_instances" (fmt_d n) c = c <| max_instances := n |>.
Proof.
  intros Hn. change (management_entry "max_instances" (fmt_d n) c) with (c <| max_instances := atoi (fmt_d n) |>).
  by rewrite atoi_fmt_d.
Qed.

(** A numeric or fixed setting of the first section. *)
Lemma management_line c k v : key_ok k = true -> value_ok v = true ->
  config_line (SECTION_INSTANCE_MANAGEMENT, c) (ln (k +:+ (" = " +:+ v))%string) =
    Done (SECTION_INSTANCE_MANAGEMENT, management_entry k v c).
Proof. intros Hk Hv. by rewrite config_line_entry. Qed.

Lemma head_ok c x : savable c ->
  config_lines (SECTION_NONE, x) (map ln (head_lines c)) =
    Done (SECTION_INSTANCE_MAPPINGS, x <| instance_mgmt_enabled := instance_mgmt_enabled c |> <| base_port := base_port c |>
      <| max_instances := max_instances c |>).
Proof.
  intros Hc. pose proof (wfc_base c (sav_wf c Hc)) as Hb. pose proof (wfc_max c (sav_wf c Hc)) as Hm.
  unfold head_lines. do 3 skip_line.
  header_line.
  next_line ltac:(apply management_line; [by vm_compute|destruct (instance_mgmt_enabled c); by vm_compute]).
  next_line ltac:(apply management_line; [by vm_compute|apply number_ok; by apply fmt_d_number]).
  next_line ltac:(apply management_line; [by vm_compute|apply number_ok; by apply fmt_d_number]).
  skip_line.
  header_line.
  do 2 skip_line.
  rewrite management_enabled, management_base, management_max by done. reflexivity.
Qed.

Lemma settings_head_ok x :
  config_lines (SECTION_INSTANCE_MAPPINGS, x) (map ln [""; "[instance_settings]"; "# Format: instance_id:setting = value"]%string) =
    Done (SECTION_INSTANCE_SETTINGS, x).
Proof. skip_line. header_line. skip_line. reflexivity. Qed.

Lemma alias_head_ok x :
  config_lines (SECTION_INSTANCE_SETTINGS, x) (map ln [""; "[instance_aliases]"]%string) = Done (SECTION_INSTANCE_ALIASES, x).
Proof. skip_line. header_line. reflexivity. Qed.

Lemma tail_ok x : config_lines (SECTION_INSTANCE_ALIASES, x) (map ln [""%string]) = Done (SECTION_INSTANCE_ALIASES, x).
Proof. skip_line. reflexivity. Qed.

Lemma foldl_const {A B} (n : A) (l : list B) : foldl (fun n _ => n) n l = n.
Proof. by induction l. Qed.

Lemma mappings_ok c x : savable c -> base_port x = base_port c ->
  config_lines (SECTION_INSTANCE_MAPPINGS, x) (map ln (flat_map mapping_lines (saved_instances c))) =
    Done (SECTION_INSTANCE_MAPPINGS,
      x <| instances := apply_at 0 (map (mapped (base_port c)) (saved_instances c)) (instances x) |>
        <| instance_count := foldl count_up (instance_count x) (saved_instances c) |>).
Proof.
  intros Hc Hx. apply section_lines_ok with (P := saved_at) (base := base_port c); [|intros; by apply (savable_at c)|done].
  intros. apply mapping_each; try done; [apply (wfc_base c (sav_wf c Hc))|apply (sav_base c Hc)].
Qed.

Lemma settings_ok c x : savable c ->
  config_lines (SECTION_INSTANCE_SETTINGS, x) (map ln (flat_map settings_lines (saved_instances c))) =
    Done (SECTION_INSTANCE_SETTINGS, x <| instances := apply_at 0 (map settings_set (saved_instances c)) (instances x) |>).
Proof.
  intros Hc. rewrite (section_lines_ok _ settings_lines settings_set (fun n _ => n) saved_at (base_port x)) with (k := 0%nat).
  - rewrite foldl_const. by rewrite config_same_count.
  - intros k inst y Hs _. unfold settings_lines. rewrite (setting_lines_ok k) by (done || by apply (written_settings_ok k)).
    by rewrite config_same_count.
  - intros. by apply (savable_at c).
  - done.
Qed.

Lemma aliases_ok c x : savable c ->
  config_lines (SECTION_INSTANCE_ALIASES, x) (map ln (flat_map alias_lines (saved_instances c))) =
    Done (SECTION_INSTANCE_ALIASES, x <| instances := apply_at 0 (map alias_set (saved_instances c)) (instances x) |>).
Proof.
  intros Hc. rewrite (section_lines_ok _ alias_lines alias_set (fun n _ => n) saved_at (base_port x)) with (k := 0%nat).
  - rewrite foldl_const. by rewrite config_same_count.
  - intros k inst y Hs _. rewrite (alias_each k) by done. by rewrite config_same_count.
  - intros. by apply (savable_at c).
  - done.
Qed.

Lemma run_lines st a b st' : config_lines st (map ln a) = Done st' ->
  config_lines st (map ln (a ++ b)) = config_lines st' (map ln b).
Proof. intros Ha. rewrite map_app, config_lines_app, Ha. reflexivity. Qed.

Lemma load_saved c old : savable c -> config_load old (config_save c true).2 = Done (0, saved_config c).
Proof.
  intros Hc. pose proof (sav_wf c Hc) as Hwf. cbn [config_save negb snd config_load].
  rewrite config_text_lines, fgets_lines_text by (done || by apply text_lines_short). unfold text_lines.
  rewrite (run_lines _ _ _ _ (head_ok c config_init Hc)).
  set (x0 := setter max_instances _ _). rewrite (run_lines _ _ _ _ (mappings_ok c x0 Hc eq_refl)).
  set (x1 := setter instance_count _ _). rewrite (run_lines _ _ _ _ (settings_head_ok x1)).
  rewrite (run_lines _ _ _ _ (settings_ok c x1 Hc)).
  set (x2 := setter instances _ x1). rewrite (run_lines _ _ _ _ (alias_head_ok x2)).
  rewrite (run_lines _ _ _ _ (aliases_ok c x2 Hc)), tail_ok.
  cbn [mbind exec_bind]. do 2 f_equal. subst x2 x1 x0. cbn [instances instance_count setter].
  rewrite sections_instances by done. unfold saved_config. rewrite <- (saved_count c Hc). reflexivity.
Qed.

(** Saving again changes nothing. *)
Lemma saved_instance_again base k inst : wf_instance k inst ->
  saved_instance base k (saved_instance base k inst) = saved_instance base k inst.
Proof.
  intros Hw. unfold saved_instance. destruct (enabled inst) eqn:He; [|reflexivity].
  cbn [enabled setter instance_id default_instance device_id alias inst_frequency latency_timer xvc_buffer_size].
  by rewrite (wfi_id _ _ Hw).
Qed.

Lemma saved_config_again c : wf_config c -> saved_config (saved_config c) = saved_config c.
Proof.
  intros Hc. unfold saved_config at 1. cbn [instances base_port saved_config setter].
  assert (Hi : imap (saved_instance (base_port c)) (imap (saved_instance (base_port c)) (instances c)) =
    imap (saved_instance (base_port c)) (instances c)).
  { apply list_eq. intros j. rewrite !list_lookup_imap. destruct (instances c !! j) as [inst|] eqn:Hj; [|done].
    cbn [fmap option_fmap option_map]. f_equal. apply saved_instance_again. by apply (wfc_instance c Hc). }
  rewrite Hi. reflexivity.
Qed.

Lemma map_saved {B} (f : xvc_instance_config_t -> B) c : wf_config c ->
  (forall k inst, wf_instance k inst -> f (saved_instance (base_port c) k inst) = f inst) ->
  map f (saved_instances (saved_config c)) = map f (saved_instances c).
Proof.
  intros Hc Hf. apply list_eq. intros j. rewrite !list_lookup_fmap. unfold saved_instances, saved_config.
  cbn [instances instance_count setter]. rewrite !lookup_take. case_decide; [|done]. rewrite list_lookup_imap.
  destruct (instances c !! j) as [inst|] eqn:Hj; [|done]. cbn [fmap option_fmap option_map]. f_equal. apply Hf.
  by apply (wfc_instance c Hc).
Qed.

Lemma saved_text c : wf_config c -> config_text (saved_config c) = config_text c.
Proof.
  intros Hc. unfold config_text. rewrite !map_saved; try done; intros k inst Hw;
    unfold save_alias, save_settings, save_mapping, saved_instance;
    destruct (enabled inst) eqn:He; try done;
    cbn [enabled setter instance_id default_instance device_id alias inst_frequency latency_timer xvc_buffer_size];
    by rewrite (wfi_id _ _ Hw).
Qed.

(** C27: saving and loading.  Reading back what was saved gives the saved
    configuration whatever the target held: the management settings, the count
    and, of every enabled instance, its identity, device, alias, frequency,
    latency and buffer size; its port is derived from the base port again, and
    white lists, lock times and the asynchronous mode are back at their
    defaults, since the file does not hold them.  A configuration that was
    once saved is a fixed point, text included. *)
Theorem config_roundtrip (c old : xvc_global_config_t) :
  savable c ->
  config_load old (config_save c true).2 = Done (0, saved_config c) /\
  saved_config (saved_config c) = saved_config c /\
  config_save (saved_config c) true = config_save c true.
Proof.
  intros Hc. pose proof (sav_wf c Hc). split; [by apply load_saved|]. split; [by apply saved_config_again|].
  unfold config_save. cbn [negb]. by rewrite saved_text.
Qed.

(** A configuration with one mapped, named and tuned instance. *)
Definition example_instance : xvc_instance_config_t :=
  mk_instance 2 2543 (mk_device_id DEVICE_ID_SERIAL "210249A") "bench left" DEFAULT_FREQUENCY 16 false JTAG_MODE_MPSSE
    DEFAULT_XVC_BUFFER_SIZE WHITELIST_OFF [] 30 true 0.

Definition example_config : xvc_global_config_t :=
  mk_config true 4000 MAX_INSTANCES (<[1%nat := example_instance]> (instances config_init)) 2 "" DEFAULT_LOG_LEVEL false.

Lemma example_lookup i inst : instances example_config !! i = Some inst ->
  i = 1%nat /\ inst = example_instance \/ inst = default_instance i /\ (i < 32)%nat.
Proof.
  change (instances example_config) with (<[1%nat := example_instance]> (instances config_init)).
  intros [(<- & <- & _)|[_ H]]%list_lookup_insert_Some; [by left|right]. by apply default_instances_lookup.
Qed.

Lemma example_savable : savable example_config.
Proof.
  split.
  - split; try done.
    + intros i inst [[-> ->]|[-> Hi]]%example_lookup; [|by apply default_instance_wf].
      split; vm_compute; try done. split; [done|]. by intros [|].
    + intros i inst [[-> ->]|[-> Hi]]%example_lookup; [|done]. intros _. by vm_compute.
    + right. eexists. split; [reflexivity|done].
  - done.
  - intros i inst [[-> ->]|[-> Hi]]%example_lookup; [|done]. intros _. by vm_compute.
  - intros i inst [[-> ->]|[-> Hi]]%example_lookup; [|done]. intros _. right. by vm_compute.
Qed.

Lemma config_roundtrip_witness :
  config_load config_init (config_save example_config true).2 = Done (0, saved_config example_config) /\
  saved_config (saved_config example_config) = saved_config example_config /\
  config_save (saved_config example_config) true = config_save example_config true.
Proof. exact (config_roundtrip example_config config_init example_savable). Defined.

Lemma device_id_roundtrip_witness :
  let d := mk_device_id DEVICE_ID_CUSTOM "lab-3" in
  config_format_device_id d 128 = (12, "CUSTOM:lab-3"%string) /\ config_parse_device_id "CUSTOM:lab-3" = (0, d).
Proof.
  intros d. apply (device_id_roundtrip d "auto"). split; [by vm_compute|]. by intros [|].
Defined.
