(* ===== verification/Whitelist.v ===== *)
(** whitelist.c: the IP white list.

    Addresses are [uint32_t] in network byte order on a little-endian host, so
    [htonl] swaps the bytes.  [inet_pton] is the one of the C library. *)

From S2P Require Import Prelude CString Config.
From Stdlib Require Import Ascii String.
Open Scope Z_scope.

(** ** Data *)

Inductive whitelist_result_t :=
  | WHITELIST_ALLOWED
  | WHITELIST_BLOCKED
  | WHITELIST_LOGGED.

#[export] Instance whitelist_result_eq_dec : EqDecision whitelist_result_t.
Proof. solve_decision. Defined.

(** [entries[0 .. entry_count - 1]] is the list [wl_entries]. *)
Record whitelist_t := mk_whitelist { wl_mode : whitelist_mode_t; wl_entries : list whitelist_entry_t }.
#[export] Instance eta_whitelist : Eta whitelist_t := fun w => mk_whitelist (wl_mode w) (wl_entries w).

(** ** Addresses *)

(** [htonl] and [ntohl]. *)
Definition htonl (x : Z) : Z :=
  Z.lor (Z.lor (Z.shiftl (Z.land x 255) 24) (Z.shiftl (Z.land (Z.shiftr x 8) 255) 16))
        (Z.lor (Z.shiftl (Z.land (Z.shiftr x 16) 255) 8) (Z.land (Z.shiftr x 24) 255)).

(** One decimal octet of [inet_pton]: the digits already seen, if any, give
    [val]; a digit after a leading zero and a value above 255 are errors. *)
Fixpoint pton_octet (seen : bool) (val : Z) (s : string) : option (Z * string) :=
  match s with
  | String c s' =>
      if isdigit c then
        if seen && (val =? 0) then None
        else
          let v := val * 10 + (code c - 48) in
          if 255 <? v then None else pton_octet true v s'
      else if seen then Some (val, s) else None
  | EmptyString => if seen then Some (val, s) else None
  end.

(** [n] more octets, each after a dot. *)
Fixpoint pton_rest (n : nat) (s : string) : option (list Z) :=
  match n, s with
  | O, EmptyString => Some []
  | S n, String c s' =>
      if Ascii.eqb c "." then
        '(v, s') ← pton_octet false 0 s';
        vs ← pton_rest n s';
        Some (v :: vs)
      else None
  | _, _ => None
  end.

(** [inet_pton(AF_INET, ..)]: the octets in memory order are the address in
    network byte order. *)
Definition inet_pton (s : string) : option Z :=
  '(a, s) ← pton_octet false 0 s;
  vs ← pton_rest 3 s;
  match vs with
  | [b; c; d] => Some (a + 2 ^ 8 * b + 2 ^ 16 * c + 2 ^ 24 * d)
  | _ => None
  end.

(** [None] is the return value -1. *)
Definition whitelist_parse_cidr (cidr : string) : option (Z * Z) :=
  let buf := truncated 64 cidr in
  match str_chr "/" buf with
  | Some (ip, prefix) =>
      let prefix_len := atoi prefix in
      if (prefix_len <? 0) || (32 <? prefix_len) then None
      else ip ← inet_pton ip; Some (ip, prefix_len)
  | None => ip ← inet_pton buf; Some (ip, 32)
  end.

(** ** The list *)

Definition whitelist_init (mode : whitelist_mode_t) : whitelist_t := mk_whitelist mode [].

Definition whitelist_add (wl : whitelist_t) (ip : string) (block : bool) : Z * whitelist_t :=
  if MAX_WHITELIST_ENTRIES <=? zlen (wl_entries wl) then (-1, wl)
  else
    match whitelist_parse_cidr ip with
    | None => (-1, wl)
    | Some (_, prefix_len) =>
        (0, wl <| wl_entries := wl_entries wl ++ [mk_wl_entry (truncated MAX_IP_LEN ip) prefix_len block] |>)
    end.

Fixpoint load_entries (wl : whitelist_t) (l : list whitelist_entry_t) : Z * whitelist_t :=
  match l with
  | [] => (0, wl)
  | src :: l =>
      let '(r, wl) := whitelist_add wl (wl_ip src) (is_block src) in
      if r <? 0 then (-1, wl) else load_entries wl l
  end.

Definition whitelist_load (instance : xvc_instance_config_t) : Z * whitelist_t :=
  load_entries (whitelist_init (whitelist_mode instance)) (whitelist instance).

(** ** Checking *)

(** [0xFFFFFFFF << (32 - prefix_len)] is undefined for a prefix of length 0. *)
Definition ip_matches_entry (client_ip : Z) (entry : whitelist_entry_t) : exec bool :=
  match whitelist_parse_cidr (wl_ip entry) with
  | None => Done false
  | Some (entry_ip, prefix_len) =>
      if prefix_len =? 32 then Done (client_ip =? entry_ip)
      else if prefix_len =? 0 then Undef
      else
        let mask := htonl (u32 (Z.shiftl 0xFFFFFFFF (32 - prefix_len))) in
        Done (Z.land client_ip mask =? Z.land entry_ip mask)
  end.

(** Whether an entry of the block list ([block]) or of the allow list matches;
    the loop stops at the first one that does. *)
Fixpoint any_match (block : bool) (ip : Z) (l : list whitelist_entry_t) : exec bool :=
  match l with
  | [] => Done false
  | e :: l =>
      if Bool.eqb (is_block e) block then
        m ← ip_matches_entry ip e;
        if (m : bool) then Done true else any_match block ip l
      else any_match block ip l
  end.

Definition whitelist_check_ipv4 (wl : whitelist_t) (ip : Z) : exec whitelist_result_t :=
  match wl_mode wl with
  | WHITELIST_OFF => Done WHITELIST_ALLOWED
  | mode =>
      blocked ← any_match true ip (wl_entries wl);
      if (blocked : bool) then Done WHITELIST_BLOCKED
      else
        in_allowlist ← any_match false ip (wl_entries wl);
        if (in_allowlist : bool) then Done WHITELIST_ALLOWED
        else match mode with
             | WHITELIST_STRICT => Done WHITELIST_BLOCKED
             | _ => Done WHITELIST_LOGGED
             end
  end.

(** A socket address: IPv4, or another family, which is not looked at. *)
Inductive sockaddr := AF_INET (s_addr : Z) | AF_OTHER.

Definition whitelist_check (wl : whitelist_t) (addr : sockaddr) : exec whitelist_result_t :=
  match addr with
  | AF_INET ip => whitelist_check_ipv4 wl ip
  | AF_OTHER => Done WHITELIST_ALLOWED
  end.

Definition whitelist_result_name (r : whitelist_result_t) : string :=
  match r with
  | WHITELIST_ALLOWED => "ALLOWED"
  | WHITELIST_BLOCKED => "BLOCKED"
  | WHITELIST_LOGGED => "LOGGED"
  end.

Example parse_cidr_example :
  whitelist_parse_cidr "192.168.1.0/24" = Some (192 + 2 ^ 8 * 168 + 2 ^ 16 * 1, 24) /\
  whitelist_parse_cidr "10.0.0.256" = None /\ whitelist_parse_cidr "10.0.0.1/33" = None /\
  whitelist_parse_cidr "10.0.0.1/x" = Some (10 + 2 ^ 24, 0).
Proof. by vm_compute. Qed.

(** ** Byte order and prefixes *)

Lemma htonl_bit x i : 0 <= i < 32 -> Z.testbit (htonl x) i = Z.testbit x (24 - 8 * (i / 8) + i mod 8).
Proof.
  intros Hi. pose proof (Z.div_mod i 8). pose proof (Z.mod_pos_bound i 8).
  assert (Hq : i / 8 = 0 \/ i / 8 = 1 \/ i / 8 = 2 \/ i / 8 = 3) by lia.
  set (r := i mod 8) in *. set (q := i / 8) in *. clearbody q r. subst.
  unfold htonl. rewrite !Z.lor_spec, !Z.shiftl_spec by lia. rewrite !Z.land_spec.
  change 255 with (Z.ones 8).
  assert (Hones : forall m, Z.testbit (Z.ones 8) m = (0 <=? m) && (m <? 8)).
  { intros m. destruct (Z.lt_ge_cases m 0); [rewrite Z.testbit_neg_r by done; by rewrite (proj2 (Z.leb_gt 0 m))|].
    rewrite Z.testbit_ones by lia. done. }
  rewrite !Hones.
  assert (Hs : forall k m, 0 <= k -> Z.testbit (Z.shiftr x k) m && ((0 <=? m) && (m <? 8)) =
             (Z.testbit x (m + k) && ((0 <=? m) && (m <? 8)))).
  { intros k m Hk. destruct (Z.lt_ge_cases m 0).
    - by rewrite (proj2 (Z.leb_gt 0 m)), !andb_false_r by done.
    - by rewrite Z.shiftr_spec by done. }
  rewrite !Hs by lia.
  destruct Hq as [-> | [-> | [-> | ->]]]; cbn [Z.mul Z.add Z.sub];
    repeat match goal with
    | |- context [?a <=? ?b] => first [rewrite (proj2 (Z.leb_le a b)) by lia | rewrite (proj2 (Z.leb_gt a b)) by lia]
    | |- context [?a <? ?b] => first [rewrite (proj2 (Z.ltb_lt a b)) by lia | rewrite (proj2 (Z.ltb_ge a b)) by lia]
    end; cbn [andb]; rewrite ?andb_false_r, ?andb_true_r, ?orb_false_r, ?orb_false_l; f_equal; lia.
Qed.

(** Position of bit [i] after a swap of the bytes. *)
Definition swap_bit (i : Z) : Z := 24 - 8 * (i / 8) + i mod 8.

Lemma swap_bit_range i : 0 <= i < 32 -> 0 <= swap_bit i < 32.
Proof. unfold swap_bit. intros. pose proof (Z.div_mod i 8). pose proof (Z.mod_pos_bound i 8). lia. Qed.

Lemma swap_bit_involutive i : 0 <= i < 32 -> swap_bit (swap_bit i) = i.
Proof.
  unfold swap_bit. intros. pose proof (Z.div_mod i 8). pose proof (Z.mod_pos_bound i 8).
  set (q := i / 8) in *. set (r := i mod 8) in *.
  assert (E1 : (24 - 8 * q + r) / 8 = 3 - q) by (symmetry; apply Z.div_unique with r; lia).
  assert (E2 : (24 - 8 * q + r) mod 8 = r) by (symmetry; apply Z.mod_unique with (3 - q); lia).
  rewrite E1, E2. lia.
Qed.

Lemma testbit_high x i : 0 <= x < 2 ^ 32 -> 32 <= i -> Z.testbit x i = false.
Proof.
  intros Hx Hi. rewrite <- (Z.mod_small x (2 ^ 32)) by done. apply Z.mod_pow2_bits_high. lia.
Qed.

Lemma htonl_range x : 0 <= htonl x < 2 ^ 32.
Proof.
  assert (Hb : forall y, byte_ok (Z.land y 255)) by (intros; rewrite land_255; apply u8_byte_ok).
  unfold byte_ok in Hb. unfold htonl.
  pose proof (Hb x). pose proof (Hb (Z.shiftr x 8)). pose proof (Hb (Z.shiftr x 16)). pose proof (Hb (Z.shiftr x 24)).
  rewrite !Z.shiftl_mul_pow2 by lia.
  assert (Hl : forall a b, 0 <= a < 2 ^ 32 -> 0 <= b < 2 ^ 32 -> 0 <= Z.lor a b < 2 ^ 32).
  { intros a b Ha Hb'. split; [apply Z.lor_nonneg; lia|].
    destruct (Z.eq_dec (Z.lor a b) 0) as [->|Hne]; [done|].
    apply Z.log2_lt_pow2; [pose proof (proj2 (Z.lor_nonneg a b)); lia|]. rewrite Z.log2_lor by lia.
    assert (Hl2 : forall c, 0 <= c < 2 ^ 32 -> Z.log2 c < 32).
    { intros c Hc. destruct (Z.eq_dec c 0) as [->|]; [done|]. apply Z.log2_lt_pow2; lia. }
    pose proof (Hl2 a Ha). pose proof (Hl2 b Hb'). lia. }
  repeat apply Hl; lia.
Qed.

(** The bits that a mask of [p] bits keeps. *)
Lemma mask_bit p i :
  1 <= p < 32 -> 0 <= i < 32 ->
  Z.testbit (htonl (u32 (Z.shiftl 0xFFFFFFFF (32 - p)))) i = (32 - p <=? swap_bit i).
Proof.
  intros Hp Hi. rewrite htonl_bit by done. fold (swap_bit i). pose proof (swap_bit_range i Hi) as Hs.
  unfold u32. rewrite Z.mod_pow2_bits_low by lia. rewrite Z.shiftl_spec by lia. change 0xFFFFFFFF with (Z.ones 32).
  destruct (Z.leb_spec (32 - p) (swap_bit i)).
  - rewrite Z.testbit_ones by lia. rewrite (proj2 (Z.leb_le _ _)), (proj2 (Z.ltb_lt _ _)) by lia. done.
  - by rewrite Z.testbit_neg_r by lia.
Qed.

(** Masked addresses agree when the first [p] bits of the addresses do. *)
Lemma masked_eq a b p :
  1 <= p < 32 -> 0 <= a < 2 ^ 32 -> 0 <= b < 2 ^ 32 ->
  let mask := htonl (u32 (Z.shiftl 0xFFFFFFFF (32 - p))) in
  Z.land a mask = Z.land b mask <-> Z.shiftr (htonl a) (32 - p) = Z.shiftr (htonl b) (32 - p).
Proof.
  intros Hp Ha Hb mask. split; intros Heq; apply Z.bits_inj'; intros n Hn.
  - rewrite !Z.shiftr_spec by lia. destruct (Z.lt_ge_cases (n + (32 - p)) 32) as [Hlt|Hge].
    + rewrite !htonl_bit by lia. fold (swap_bit (n + (32 - p))). set (i := swap_bit (n + (32 - p))).
      assert (Hi : 0 <= i < 32) by (apply swap_bit_range; lia).
      apply (f_equal (fun z => Z.testbit z i)) in Heq. rewrite !Z.land_spec in Heq. subst mask.
      rewrite !mask_bit in Heq by done. subst i. rewrite !swap_bit_involutive in Heq by lia.
      rewrite (proj2 (Z.leb_le (32 - p) (n + (32 - p)))), !andb_true_r in Heq by lia. exact Heq.
    + by rewrite !testbit_high by (lia || apply htonl_range).
  - rewrite !Z.land_spec. destruct (Z.lt_ge_cases n 32) as [Hlt|Hge].
    + subst mask. rewrite mask_bit by lia. destruct (Z.leb_spec (32 - p) (swap_bit n)) as [Hle|]; [|by rewrite !andb_false_r].
      rewrite !andb_true_r. pose proof (swap_bit_range n ltac:(lia)) as Hs.
      apply (f_equal (fun z => Z.testbit z (swap_bit n - (32 - p)))) in Heq. rewrite !Z.shiftr_spec in Heq by lia.
      replace (swap_bit n - (32 - p) + (32 - p)) with (swap_bit n) in Heq by lia.
      rewrite !htonl_bit in Heq by lia. fold (swap_bit (swap_bit n)) in Heq. by rewrite swap_bit_involutive in Heq by lia.
    + by rewrite !(testbit_high mask) by (lia || apply htonl_range); rewrite !andb_false_r.
Qed.

Lemma htonl_inj a b : 0 <= a < 2 ^ 32 -> 0 <= b < 2 ^ 32 -> htonl a = htonl b -> a = b.
Proof.
  intros Ha Hb Heq. apply Z.bits_inj'. intros n Hn. destruct (Z.lt_ge_cases n 32) as [Hlt|Hge].
  - apply (f_equal (fun z => Z.testbit z (swap_bit n))) in Heq. pose proof (swap_bit_range n ltac:(lia)).
    rewrite !htonl_bit in Heq by lia. fold (swap_bit (swap_bit n)) in Heq. by rewrite swap_bit_involutive in Heq by lia.
  - by rewrite !testbit_high by (lia || done).
Qed.

(** ** Parsing *)

Lemma pton_octet_range seen v s w s' :
  0 <= v <= 255 -> pton_octet seen v s = Some (w, s') -> 0 <= w <= 255.
Proof.
  revert seen v. induction s as [|c s IH]; intros seen v Hv; cbn [pton_octet].
  - destruct seen; [by intros [= <- <-]|done].
  - unfold isdigit. zcase ((48 <=? code c) && (code c <=? 57)); [|destruct seen; [by intros [= <- <-]|done]].
    destruct (seen && (v =? 0)); [done|]. zcase (255 <? v * 10 + (code c - 48)); [done|]. apply IH. lia.
Qed.

Lemma pton_rest_range n s vs : pton_rest n s = Some vs -> Forall (fun v => 0 <= v <= 255) vs.
Proof.
  revert s vs. induction n as [|n IH]; intros [|c s] vs; cbn [pton_rest]; try done; [by intros [= <-]|].
  destruct (Ascii.eqb c "."); [|done]. intros E1.
  apply bind_Some in E1 as ([v s'] & E1 & E2). apply bind_Some in E2 as (vs' & E2 & [= <-]).
  apply pton_octet_range in E1; [|lia]. apply Forall_cons. eauto.
Qed.

Lemma inet_pton_range s ip : inet_pton s = Some ip -> 0 <= ip < 2 ^ 32.
Proof.
  unfold inet_pton. intros E1. apply bind_Some in E1 as ([a s'] & E1 & E2). apply bind_Some in E2 as (vs & E2 & E3).
  apply pton_octet_range in E1; [|lia]. apply pton_rest_range in E2.
  destruct vs as [|b [|c [|d [|]]]]; try done. injection E3 as <-.
  repeat (apply Forall_cons in E2 as [? E2]). lia.
Qed.

Lemma parse_cidr_range s ip p : whitelist_parse_cidr s = Some (ip, p) -> 0 <= ip < 2 ^ 32 /\ 0 <= p <= 32.
Proof.
  unfold whitelist_parse_cidr. destruct (str_chr "/" _) as [[l r]|].
  - zcase ((atoi r <? 0) || (32 <? atoi r)); [done|]. intros E1. apply bind_Some in E1 as (ip' & E1 & [= <- <-]).
    split; [by eapply inet_pton_range|]. lia.
  - intros E1. apply bind_Some in E1 as (ip' & E1 & [= <- <-]). split; [by eapply inet_pton_range|lia].
Qed.

(** ** The policy *)

(** The client's address begins with the entry's network, most significant
    bit first. *)
Definition in_network (ip : Z) (e : whitelist_entry_t) : Prop :=
  exists net p, whitelist_parse_cidr (wl_ip e) = Some (net, p) /\
    Z.shiftr (htonl ip) (32 - p) = Z.shiftr (htonl net) (32 - p).

(** The prefix is not that of the whole address space. *)
Definition proper_entry (e : whitelist_entry_t) : Prop :=
  forall net, whitelist_parse_cidr (wl_ip e) <> Some (net, 0).

Definition proper_entry_b (e : whitelist_entry_t) : bool :=
  match whitelist_parse_cidr (wl_ip e) with Some (_, p) => negb (p =? 0) | None => true end.

Lemma proper_entry_b_ok e : proper_entry_b e = true <-> proper_entry e.
Proof.
  unfold proper_entry_b, proper_entry. destruct (whitelist_parse_cidr (wl_ip e)) as [[net p]|]; [|done].
  destruct (Z.eqb_spec p 0) as [->|Hp]; cbn; [split; [done|]; intros H; by destruct (H net)|].
  split; [|done]. by intros _ net' [= _ ?].
Qed.

Lemma ip_matches_ok ip e :
  0 <= ip < 2 ^ 32 -> proper_entry e -> exists b, ip_matches_entry ip e = Done b /\ (b = true <-> in_network ip e).
Proof.
  intros Hip He. unfold ip_matches_entry, in_network.
  destruct (whitelist_parse_cidr (wl_ip e)) as [[net p]|] eqn:E1.
  2: { exists false. split; [done|]. split; [done|]. by intros (net & p & ? & _). }
  pose proof (parse_cidr_range _ _ _ E1) as [Hn Hp].
  assert (Hp0 : p <> 0) by (intros ->; by apply (He net)).
  destruct (Z.eqb_spec p 32) as [->|Hp32].
  - eexists. split; [done|]. rewrite Z.eqb_eq. split.
    + intros ->. by exists net, 32.
    + intros (net' & p' & [= <- <-] & Heq). change (32 - 32) with 0 in Heq. rewrite !Z.shiftr_0_r in Heq.
      by apply htonl_inj.
  - rewrite (proj2 (Z.eqb_neq p 0)) by done. eexists. split; [done|]. rewrite Z.eqb_eq.
    rewrite masked_eq by lia. split.
    + intros Heq. by exists net, p.
    + by intros (net' & p' & [= <- <-] & Heq).
Qed.

Lemma any_match_ok block ip l :
  0 <= ip < 2 ^ 32 -> Forall proper_entry l ->
  exists b, any_match block ip l = Done b /\
    (b = true <-> Exists (fun e => is_block e = block /\ in_network ip e) l).
Proof.
  intros Hip Hl. induction Hl as [|e l He Hl (b & IH & Hb)]; cbn [any_match].
  - exists false. split; [done|]. by rewrite Exists_nil.
  - setoid_rewrite Exists_cons. destruct (Bool.eqb (is_block e) block) eqn:Eb.
    + apply Bool.eqb_prop in Eb. destruct (ip_matches_ok ip e Hip He) as (m & -> & Hm). cbn.
      destruct m; [exists true; split; [done|]; split; [|done]; intros _; left; split; [done|by apply Hm]|].
      exists b. split; [done|]. rewrite Hb. split; [by right|]. intros [[_ Hin]|]; [|done]. by apply Hm in Hin.
    + exists b. split; [done|]. rewrite Hb. apply Bool.eqb_false_iff in Eb. split; [by right|]. by intros [[? _]|].
Qed.

(** With proper entries every check returns. *)
Lemma whitelist_check_total wl ip : 0 <= ip < 2 ^ 32 -> Forall proper_entry (wl_entries wl) ->
  exists r, whitelist_check wl (AF_INET ip) = Done r.
Proof.
  intros Hip Hl. cbn [whitelist_check]. unfold whitelist_check_ipv4.
  destruct (any_match_ok true ip _ Hip Hl) as (b1 & -> & _). destruct (any_match_ok false ip _ Hip Hl) as (b2 & -> & _).
  destruct (wl_mode wl), b1, b2; by eexists.
Qed.

(** C29: the access policy.  With well-formed entries (or entries that do not
    parse, which match nothing) an address is let through unconditionally when
    the list is off; otherwise a match in the block list blocks it, then a
    match in the allow list allows it, and what is left is blocked in strict
    mode and let through with a log line in permissive mode.  A match is
    agreement on the first bits of the address that the prefix names. *)
Theorem whitelist_policy (wl : whitelist_t) (ip : Z) :
  0 <= ip < 2 ^ 32 -> Forall proper_entry (wl_entries wl) ->
  let listed block := Exists (fun e => is_block e = block /\ in_network ip e) (wl_entries wl) in
  exists r, whitelist_check_ipv4 wl ip = Done r /\
    (r = WHITELIST_ALLOWED <-> wl_mode wl = WHITELIST_OFF \/ ~ listed true /\ listed false) /\
    (r = WHITELIST_LOGGED <-> wl_mode wl = WHITELIST_PERMISSIVE /\ ~ listed true /\ ~ listed false) /\
    (r = WHITELIST_BLOCKED <-> wl_mode wl <> WHITELIST_OFF /\
       (listed true \/ wl_mode wl = WHITELIST_STRICT /\ ~ listed false)).
Proof.
  intros Hip Hl listed. unfold whitelist_check_ipv4.
  destruct (any_match_ok true ip _ Hip Hl) as (b1 & -> & H1'). destruct (any_match_ok false ip _ Hip Hl) as (b2 & -> & H2').
  fold (listed true) in H1'. fold (listed false) in H2'. clearbody listed.
  assert (N1 : b1 = false <-> ~ listed true) by (rewrite <- H1'; by destruct b1).
  assert (N2 : b2 = false <-> ~ listed false) by (rewrite <- H2'; by destruct b2).
  destruct (wl_mode wl), b1, b2; cbn; eexists; (split; [reflexivity|]); intuition congruence.
Qed.

Lemma whitelist_policy_witness :
  let wl := mk_whitelist WHITELIST_STRICT [mk_wl_entry "10.1.0.0/16" 16 false; mk_wl_entry "10.1.2.3" 32 true] in
  let ip := 10 + 2 ^ 8 * 1 + 2 ^ 16 * 200 + 2 ^ 24 * 7 in
  let listed block := Exists (fun e => is_block e = block /\ in_network ip e) (wl_entries wl) in
  (0 <= ip < 2 ^ 32 /\ Forall proper_entry (wl_entries wl)) /\
  exists r, whitelist_check_ipv4 wl ip = Done r /\
    (r = WHITELIST_ALLOWED <-> wl_mode wl = WHITELIST_OFF \/ ~ listed true /\ listed false) /\
    (r = WHITELIST_LOGGED <-> wl_mode wl = WHITELIST_PERMISSIVE /\ ~ listed true /\ ~ listed false) /\
    (r = WHITELIST_BLOCKED <-> wl_mode wl <> WHITELIST_OFF /\
       (listed true \/ wl_mode wl = WHITELIST_STRICT /\ ~ listed false)).
Proof.
  intros wl ip listed. assert (Hip : 0 <= ip < 2 ^ 32) by (subst ip; lia).
  assert (Hl : Forall proper_entry (wl_entries wl)).
  { apply Forall_cons; split; [|apply Forall_cons; split; [|apply Forall_nil_2]]; intros net Hn; vm_compute in Hn; done. }
  split; [by split|]. exact (whitelist_policy wl ip Hip Hl).
Defined.

(** ** Loading *)

(** The text and the kind of an entry: what a configuration says. *)
Definition entry_rule (e : whitelist_entry_t) : string * bool := (wl_ip e, is_block e).

(** An entry whose text parses, kept with the length of its prefix.  A length
    of 0 is among them. *)
Definition parsed_entry (e : whitelist_entry_t) : Prop :=
  exists net, whitelist_parse_cidr (wl_ip e) = Some (net, wl_prefix_len e).

Lemma load_entries_ok wl l :
  Forall (fun e => strlen (wl_ip e) < MAX_IP_LEN) l -> Forall parsed_entry (wl_entries wl) ->
  zlen (wl_entries wl) <= MAX_WHITELIST_ENTRIES ->
  let '(r, wl') := load_entries wl l in
  wl_mode wl' = wl_mode wl /\ Forall parsed_entry (wl_entries wl') /\ zlen (wl_entries wl') <= MAX_WHITELIST_ENTRIES /\
  exists k, map entry_rule (wl_entries wl') = map entry_rule (wl_entries wl) ++ take k (map entry_rule l) /\
    (r = 0 /\ k = Datatypes.length l \/
     r = -1 /\ exists e, l !! k = Some e /\
       (whitelist_parse_cidr (wl_ip e) = None \/ zlen (wl_entries wl') = MAX_WHITELIST_ENTRIES)).
Proof.
  intros Hl. revert wl. induction Hl as [|e l He Hl IH]; intros wl Hu Hz; cbn [load_entries].
  - split_and!; try done. exists 0%nat. rewrite app_nil_r. split; [done|]. by left.
  - unfold whitelist_add. zcase (MAX_WHITELIST_ENTRIES <=? zlen (wl_entries wl)).
    { cbn. split_and!; try done. exists 0%nat. rewrite app_nil_r. split; [done|]. right. split; [done|].
      exists e. split; [done|]. right. lia. }
    destruct (whitelist_parse_cidr (wl_ip e)) as [[net p]|] eqn:Ep.
    2: { cbn. split_and!; try done. exists 0%nat. rewrite app_nil_r. split; [done|]. right. split; [done|].
         exists e. split; [done|]. by left. }
    rewrite truncated_id by done. cbn [Z.ltb Z.compare].
    specialize (IH (wl <| wl_entries := wl_entries wl ++ [mk_wl_entry (wl_ip e) p (is_block e)] |>)).
    cbn [wl_entries setter wl_mode] in IH.
    assert (U1 : Forall parsed_entry (wl_entries wl ++ [mk_wl_entry (wl_ip e) p (is_block e)])).
    { apply Forall_app. split; [done|]. apply Forall_cons. split; [by exists net|done]. }
    assert (Z1 : zlen (wl_entries wl ++ [mk_wl_entry (wl_ip e) p (is_block e)]) <= MAX_WHITELIST_ENTRIES).
    { rewrite zlen_app. change (zlen [_]) with 1. lia. }
    specialize (IH U1 Z1). destruct (load_entries _ l) as [r wl'] eqn:El.
    destruct IH as (M1 & U2 & Z2 & k & K1 & K2). split_and!; try done. exists (S k). split.
    + rewrite K1, map_app, <- app_assoc. done.
    + destruct K2 as [[-> ->]|(-> & e' & He' & K2)]; [by left|]. right. split; [done|]. by exists e'.
Qed.

(** C30: loading a white list.  Whatever the configuration holds, the list
    never exceeds 64 entries, and every entry in it is an address with a prefix
    of 0 to 32 bits, kept with the length that its text parses to (a prefix of
    0 bits is let in, although the check cannot use it); the entries are the
    configured ones in their order, all of them when the result is 0, and
    otherwise those before the first that does not parse (or the 64 that
    fit). *)
Theorem whitelist_load_correct (inst : xvc_instance_config_t) :
  Forall (fun e => strlen (wl_ip e) < MAX_IP_LEN) (whitelist inst) ->
  let '(r, wl) := whitelist_load inst in
  wl_mode wl = whitelist_mode inst /\ Forall parsed_entry (wl_entries wl) /\
  Forall (fun e => 0 <= wl_prefix_len e <= 32) (wl_entries wl) /\ zlen (wl_entries wl) <= MAX_WHITELIST_ENTRIES /\
  exists k, map entry_rule (wl_entries wl) = take k (map entry_rule (whitelist inst)) /\
    (r = 0 /\ k = Datatypes.length (whitelist inst) \/
     r = -1 /\ exists e, whitelist inst !! k = Some e /\
       (whitelist_parse_cidr (wl_ip e) = None \/ zlen (wl_entries wl) = MAX_WHITELIST_ENTRIES)).
Proof.
  intros Hl. pose proof (load_entries_ok (whitelist_init (whitelist_mode inst)) (whitelist inst) Hl (Forall_nil_2 _) ltac:(by vm_compute)) as H.
  unfold whitelist_load. destruct (load_entries _ _) as [r wl]. destruct H as (M & U & R).
  split; [exact M|]. split; [exact U|]. split; [|exact R]. eapply Forall_impl; [exact U|]. intros e [net Hp].
  by apply parse_cidr_range in Hp as [_ Hp].
Qed.

Lemma whitelist_load_correct_witness :
  let inst := (default_instance 0) <| whitelist_mode := WHITELIST_STRICT |>
    <| whitelist := [mk_wl_entry "10.0.0.0/8" 0 false; mk_wl_entry "fe80::1" 0 true; mk_wl_entry "10.0.0.9" 0 true] |> in
  Forall (fun e => strlen (wl_ip e) < MAX_IP_LEN) (whitelist inst) /\
  let '(r, wl) := whitelist_load inst in
  wl_mode wl = whitelist_mode inst /\ Forall parsed_entry (wl_entries wl) /\
  Forall (fun e => 0 <= wl_prefix_len e <= 32) (wl_entries wl) /\ zlen (wl_entries wl) <= MAX_WHITELIST_ENTRIES /\
  exists k, map entry_rule (wl_entries wl) = take k (map entry_rule (whitelist inst)) /\
    (r = 0 /\ k = Datatypes.length (whitelist inst) \/
     r = -1 /\ exists e, whitelist inst !! k = Some e /\
       (whitelist_parse_cidr (wl_ip e) = None \/ zlen (wl_entries wl) = MAX_WHITELIST_ENTRIES)).
Proof.
  intros inst. assert (Hl : Forall (fun e => strlen (wl_ip e) < MAX_IP_LEN) (whitelist inst)).
  { repeat (apply Forall_cons; split; [by vm_compute|]). apply Forall_nil_2. }
  split; [exact Hl|]. exact (whitelist_load_correct inst Hl).
Defined.

(** ** The whole address space *)

(** The first entry of the kind that the address is in, is one with a prefix of
    length 0. *)
Definition zero_first (block : bool) (ip : Z) (l : list whitelist_entry_t) : Prop :=
  exists a e b net, l = a ++ e :: b /\ is_block e = block /\ whitelist_parse_cidr (wl_ip e) = Some (net, 0) /\
    Forall (fun x => is_block x = block -> ~ in_network ip x) a.

(** Every address is in the network of a prefix of length 0. *)
Lemma in_zero ip e net : 0 <= ip < 2 ^ 32 -> whitelist_parse_cidr (wl_ip e) = Some (net, 0) -> in_network ip e.
Proof.
  intros Hip Hp. exists net, 0. split; [done|]. apply parse_cidr_range in Hp as [Hn _].
  change (32 - 0) with 32. rewrite !Z.shiftr_div_pow2, !Z.div_small by (lia || apply htonl_range). done.
Qed.

Lemma zero_first_cons block ip e l : zero_first block ip (e :: l) <->
  is_block e = block /\ (exists net, whitelist_parse_cidr (wl_ip e) = Some (net, 0)) \/
  (is_block e = block -> ~ in_network ip e) /\ zero_first block ip l.
Proof.
  split.
  - intros ([|x a] & e' & b & net & [= -> ->] & Hb & Hp & Ha); [left; by eauto|right].
    apply Forall_cons in Ha as [Hx Ha]. split; [done|]. by exists a, e', b, net.
  - intros [[Hb [net Hp]]|[He (a & e' & b & net & -> & Hb & Hp & Ha)]]; [by exists [], e, l, net|].
    exists (e :: a), e', b, net. split_and!; try done. by apply Forall_cons.
Qed.

(** The three outcomes of the search, for any list. *)
Lemma any_match_cases block ip l : 0 <= ip < 2 ^ 32 ->
  let listed := Exists (fun e => is_block e = block /\ in_network ip e) l in
  match any_match block ip l with
  | Done b => ~ zero_first block ip l /\ (b = true <-> listed)
  | Undef => zero_first block ip l
  | Stuck => False
  end.
Proof.
  intros Hip. cbv zeta. induction l as [|e l IH]; cbn [any_match].
  - split; [by intros ([|x a] & e & b & net & ? & _)|]. by rewrite Exists_nil.
  - pose proof (Exists_cons (fun e => is_block e = block /\ in_network ip e) e l) as HE.
    pose proof (zero_first_cons block ip e l) as HZ. destruct (Bool.eqb (is_block e) block) eqn:Eb.
    2: { apply Bool.eqb_false_iff in Eb. destruct (any_match block ip l) as [b| |]; [|tauto|done].
         destruct IH as [Hz Hb]. split; [tauto|]. rewrite HE, Hb. tauto. }
    apply Bool.eqb_prop in Eb. destruct (proper_entry_b e) eqn:Hp.
    + apply proper_entry_b_ok in Hp. destruct (ip_matches_ok ip e Hip Hp) as (m & -> & Hm). cbn.
      assert (Hnz : ~ exists net, whitelist_parse_cidr (wl_ip e) = Some (net, 0)) by (intros [net ?]; by apply (Hp net)).
      destruct m; [|assert (Hn : ~ in_network ip e) by (intros ?%Hm; done)].
      { assert (Hi : in_network ip e) by (by apply Hm). split; [tauto|]. rewrite HE. tauto. }
      destruct (any_match block ip l) as [b| |]; [|tauto|done]. destruct IH as [Hz Hb]. rewrite HE, Hb. tauto.
    + assert (Hz : exists net, whitelist_parse_cidr (wl_ip e) = Some (net, 0)).
      { unfold proper_entry_b in Hp. destruct (whitelist_parse_cidr (wl_ip e)) as [[net p]|]; [|done].
        exists net. destruct (Z.eqb_spec p 0) as [->|]; done. }
      pose proof Hz as [net Hz']. unfold ip_matches_entry. rewrite Hz'. cbn. tauto.
Qed.

(** A check always comes to an end. *)
Lemma whitelist_check_not_stuck wl ip : 0 <= ip < 2 ^ 32 -> whitelist_check wl (AF_INET ip) <> Stuck.
Proof.
  intros Hip. pose proof (any_match_cases true ip (wl_entries wl) Hip) as Hb.
  pose proof (any_match_cases false ip (wl_entries wl) Hip) as Ha. cbn [whitelist_check]. unfold whitelist_check_ipv4.
  destruct (any_match true ip (wl_entries wl)) as [[]| |], (any_match false ip (wl_entries wl)) as [[]| |]; try done; by destruct (wl_mode wl).
Qed.

(** C31: a prefix of length 0, which a garbled prefix also parses to, is not
    the whole address space: the mask is a shift by the width of the type.  A
    check of an address is undefined exactly when the list is on and the search
    comes to such an entry: when it is the first of the block entries that the
    address is in, or when no block entry matches and it is the first of the
    allow entries that the address is in. *)
Theorem slash_zero_undefined (wl : whitelist_t) (ip : Z) :
  0 <= ip < 2 ^ 32 ->
  whitelist_check_ipv4 wl ip = Undef <->
  wl_mode wl <> WHITELIST_OFF /\
    (zero_first true ip (wl_entries wl) \/
     ~ Exists (fun e => is_block e = true /\ in_network ip e) (wl_entries wl) /\ zero_first false ip (wl_entries wl)).
Proof.
  intros Hip. pose proof (any_match_cases true ip (wl_entries wl) Hip) as Hb.
  pose proof (any_match_cases false ip (wl_entries wl) Hip) as Ha. cbv zeta in Hb, Ha. unfold whitelist_check_ipv4.
  destruct (any_match true ip (wl_entries wl)) as [b| |]; [|destruct (wl_mode wl); naive_solver|done].
  destruct (any_match false ip (wl_entries wl)) as [a| |]; [| |done].
  - destruct (wl_mode wl), b, a; cbn; naive_solver.
  - destruct Hb as [Hz Hb]. assert (N : b = false <-> ~ Exists (fun e => is_block e = true /\ in_network ip e) (wl_entries wl)).
    { rewrite <- Hb. by destruct b. }
    destruct (wl_mode wl), b; cbn; naive_solver.
Qed.

(** An allow entry behind another one. *)
Definition zero_list : whitelist_t :=
  mk_whitelist WHITELIST_PERMISSIVE [mk_wl_entry "10.1.0.0/16" 16 false; mk_wl_entry "0.0.0.0/0" 0 false].

Lemma slash_zero_undefined_witness :
  0 <= 42 < 2 ^ 32 /\
  (whitelist_check_ipv4 zero_list 42 = Undef <->
   wl_mode zero_list <> WHITELIST_OFF /\
    (zero_first true 42 (wl_entries zero_list) \/
     ~ Exists (fun e => is_block e = true /\ in_network 42 e) (wl_entries zero_list) /\ zero_first false 42 (wl_entries zero_list))) /\
  zero_first false 42 (wl_entries zero_list) /\
  whitelist_check_ipv4 zero_list 42 = Undef /\ whitelist_check_ipv4 zero_list (10 + 2 ^ 8) = Done WHITELIST_ALLOWED.
Proof.
  assert (Hip : 0 <= 42 < 2 ^ 32) by lia. pose proof (slash_zero_undefined zero_list 42 Hip) as Hiff.
  assert (E1 : whitelist_check_ipv4 zero_list 42 = Undef) by (vm_compute; reflexivity).
  split; [exact Hip|]. split; [exact Hiff|]. split; [|split; [exact E1|vm_compute; reflexivity]].
  destruct (proj1 Hiff E1) as [_ [Hz|[_ Hz]]]; [exfalso|exact Hz].
  destruct Hz as (a & e & b & net & Hl & Hb & _). assert (Hin : e ∈ wl_entries zero_list) by (rewrite Hl; set_solver).
  cbn in Hin. rewrite !elem_of_cons in Hin. destruct Hin as [->|[->|Hin]]; [done|done|by apply elem_of_nil in Hin].
Defined.
