(* ===== verification/TcpServer.v ===== *)
(** tcp_server.c: the server of an instance.

    The socket calls of the operating system are the parameter [TcpOs], over
    the rest of the process, which the callbacks share.  A connection is known
    to the callbacks by its slot, the identity of the pointer they are handed.
    The white list is never changed after the server was given it. *)

From S2P Require Import Prelude CString Config Whitelist.
From Stdlib Require Import Ascii String.
Open Scope Z_scope.

(** ** The boundary *)

Inductive sockopt := SO_REUSEADDR | TCP_FASTOPEN | TCP_NODELAY | TCP_QUICKACK | SO_RCVBUF | SO_SNDBUF.

(** What [select] answers: its return value, whether [errno] is [EINTR], and
    the two sets it leaves. *)
Record select_answer := mk_select {
  sel_ret : Z;
  sel_eintr : bool;
  sel_read : list Z;
  sel_except : list Z
}.

(** [os_bind] is given the port that [htons] encodes; [os_select] is given
    [nfds], the sets and the [timeval], [None] to wait; [os_accept] answers a
    descriptor or -1 and the peer's address. *)
Class TcpOs (C : Type) := {
  os_socket : C -> Z * C;
  os_setsockopt : Z -> sockopt -> Z -> C -> Z * C;
  os_bind : Z -> Z -> C -> Z * C;
  os_listen : Z -> Z -> C -> Z * C;
  os_select : Z -> list Z -> list Z -> option (Z * Z) -> C -> select_answer * C;
  os_accept : Z -> C -> (Z * Z) * C;
  os_close : Z -> C -> Z * C;
  os_time : C -> Z * C
}.

(** [FD_SET] and [FD_ISSET] index a bit array of 1024 bits. *)
Definition FD_SETSIZE : Z := 1024.
Definition fd_ok (fd : Z) : bool := (0 <=? fd) && (fd <? FD_SETSIZE).
Definition in_set (fd : Z) (l : list Z) : bool := existsb (Z.eqb fd) l.

(** ** Data *)

Definition MAX_CONNECTIONS : Z := 16.
Definition TCP_RECV_BUFFER_SIZE : Z := 256 * 1024.
Definition TCP_SEND_BUFFER_SIZE : Z := 256 * 1024.
Definition TCP_FASTOPEN_QUEUE_LEN : Z := 5.

Inductive conn_state_t :=
  | CONN_STATE_CLOSED
  | CONN_STATE_CONNECTED
  | CONN_STATE_ACTIVE.

#[export] Instance conn_state_eq_dec : EqDecision conn_state_t.
Proof. solve_decision. Defined.

Record tcp_connection_t := mk_conn {
  conn_fd : Z;
  conn_state : conn_state_t;
  conn_addr : Z;
  connected_at : Z;
  conn_bytes_rx : Z;
  conn_bytes_tx : Z
}.
#[export] Instance eta_conn : Eta tcp_connection_t := fun c =>
  mk_conn (conn_fd c) (conn_state c) (conn_addr c) (connected_at c) (conn_bytes_rx c) (conn_bytes_tx c).

(** [memset(conn, 0, sizeof(tcp_connection_t))] *)
Definition conn_zero : tcp_connection_t := mk_conn 0 CONN_STATE_CLOSED 0 0 0 0.

(** The callbacks and their user data act on the rest of the process. *)
Record tcp_server_t (C : Type) := mk_server {
  listen_fd : Z;
  srv_port : Z;
  running : bool;
  connections : list tcp_connection_t;
  connection_count : Z;
  max_fd : Z;
  srv_whitelist : option whitelist_t;
  on_connect : option (nat -> tcp_connection_t -> M C Z);
  on_data : option (nat -> tcp_connection_t -> M C Z);
  on_disconnect : option (nat -> tcp_connection_t -> M C unit)
}.
Arguments mk_server {C}.
Arguments listen_fd {C} _.
Arguments srv_port {C} _.
Arguments running {C} _.
Arguments connections {C} _.
Arguments connection_count {C} _.
Arguments max_fd {C} _.
Arguments srv_whitelist {C} _.
Arguments on_connect {C} _.
Arguments on_data {C} _.
Arguments on_disconnect {C} _.
#[export] Instance eta_server {C} : Eta (tcp_server_t C) := fun s =>
  mk_server (listen_fd s) (srv_port s) (running s) (connections s) (connection_count s) (max_fd s)
    (srv_whitelist s) (on_connect s) (on_data s) (on_disconnect s).

Record sstate (C : Type) := mk_sstate { s_srv : tcp_server_t C; s_env : C }.
Arguments mk_sstate {C} _ _.
Arguments s_srv {C} _.
Arguments s_env {C} _.
#[export] Instance eta_sstate {C} : Eta (sstate C) := fun s => mk_sstate (s_srv s) (s_env s).

Definition is_open (c : tcp_connection_t) : bool :=
  match conn_state c with CONN_STATE_CLOSED => false | _ => true end.

(** ** Addresses as text *)

(** [inet_ntop(AF_INET, ..)]: the octets in memory order. *)
Definition inet_ntop (ip : Z) : string :=
  (fmt_u (ip mod 256) +:+ "." +:+ fmt_u (ip / 256 mod 256) +:+ "." +:+
   fmt_u (ip / 65536 mod 256) +:+ "." +:+ fmt_u (ip / 16777216 mod 256))%string.

(** [None] is a null result: no buffer, or one that is too small. *)
Definition tcp_connection_ip (conn : tcp_connection_t) (len : Z) : option string :=
  if len =? 0 then None
  else if strlen (inet_ntop (conn_addr conn)) <? len then Some (inet_ntop (conn_addr conn)) else None.

(** ** Operations *)

(** [for (int i = 0; i < n; i++) body(i)] *)
Fixpoint for_from {S} (i n : nat) (body : nat -> M S unit) : M S unit :=
  match n with
  | O => mret tt
  | Datatypes.S n => _ ← body i; for_from (Datatypes.S i) n body
  end.

Section Server.
Context {C : Type} `{TcpOs C}.
#[local] Abbreviation S := (M (sstate C)).

Definition srv : S (tcp_server_t C) := gets s_srv.
Definition set_srv (f : tcp_server_t C -> tcp_server_t C) : S unit := modify (fun s => s <| s_srv := f (s_srv s) |>).

Definition os {A} (call : C -> A * C) : S A := fun s =>
  let '(a, env) := call (s_env s) in Done (a, s <| s_env := env |>).

Definition callback {A} (call : M C A) : S A := zoom s_env (fun env s => s <| s_env := env |>) call.

Definition conn_at (i : nat) : S tcp_connection_t :=
  s ← srv; lift_exec (of_option (connections s !! i)).
Definition set_conn (i : nat) (f : tcp_connection_t -> tcp_connection_t) : S unit :=
  set_srv (fun s => s <| connections := alter f i (connections s) |>).

Definition tcp_server_init (port : Z) (whitelist : option whitelist_t) : tcp_server_t C :=
  mk_server (-1) port false (replicate (Z.to_nat MAX_CONNECTIONS) conn_zero) 0 0 whitelist None None None.

Definition tcp_server_set_callbacks (connect data : option (nat -> tcp_connection_t -> M C Z))
    (disconnect : option (nat -> tcp_connection_t -> M C unit)) (s : tcp_server_t C) : tcp_server_t C :=
  s <| on_connect := connect |> <| on_data := data |> <| on_disconnect := disconnect |>.

Definition close_listen (fd : Z) : S Z :=
  _ ← os (os_close fd);
  _ ← set_srv (fun s => s <| listen_fd := -1 |>);
  mret (-1).

Definition tcp_server_start : S Z :=
  fd ← os os_socket;
  _ ← set_srv (fun s => s <| listen_fd := fd |>);
  if fd <? 0 then mret (-1)
  else
    _ ← os (os_setsockopt fd SO_REUSEADDR 1);
    s ← srv;
    r ← os (os_bind fd (u16 (srv_port s)));
    if r <? 0 then close_listen fd
    else
      _ ← os (os_setsockopt fd TCP_FASTOPEN TCP_FASTOPEN_QUEUE_LEN);
      r ← os (os_listen fd 5);
      if r <? 0 then close_listen fd
      else
        _ ← set_srv (fun s => s <| running := true |> <| max_fd := fd |>);
        mret 0.

(** The null test of a callback. *)
Definition disconnect_callback (i : nat) (conn : tcp_connection_t) : S unit :=
  s ← srv;
  match on_disconnect s with
  | Some f => callback (f i conn)
  | None => mret tt
  end.

Definition stop_slot (i : nat) : S unit :=
  conn ← conn_at i;
  if is_open conn then
    _ ← disconnect_callback i conn;
    _ ← os (os_close (conn_fd conn));
    set_conn i (fun c => c <| conn_state := CONN_STATE_CLOSED |>)
  else mret tt.

Definition tcp_server_stop : S unit :=
  _ ← set_srv (fun s => s <| running := false |>);
  _ ← for_from 0 (Z.to_nat MAX_CONNECTIONS) stop_slot;
  _ ← set_srv (fun s => s <| connection_count := 0 |>);
  s ← srv;
  if 0 <=? listen_fd s then
    _ ← os (os_close (listen_fd s));
    set_srv (fun s => s <| listen_fd := -1 |>)
  else mret tt.

(** The first closed slot, from index [i] on. *)
Fixpoint free_from (i : nat) (l : list tcp_connection_t) : option nat :=
  match l with
  | [] => None
  | c :: l => if is_open c then free_from (Datatypes.S i) l else Some i
  end.

Definition find_free_slot (s : tcp_server_t C) : option nat := free_from 0 (connections s).

Definition update_max_fd (s : tcp_server_t C) : tcp_server_t C :=
  s <| max_fd := foldl (fun m c => if is_open c && (m <? conn_fd c) then conn_fd c else m)
                   (listen_fd s) (connections s) |>.

Definition tcp_server_close_connection (i : nat) : S unit :=
  conn ← conn_at i;
  if negb (is_open conn) then mret tt
  else
    _ ← disconnect_callback i conn;
    _ ← os (os_close (conn_fd conn));
    _ ← set_conn i (fun c => c <| conn_state := CONN_STATE_CLOSED |> <| conn_fd := -1 |>);
    _ ← set_srv (fun s => s <| connection_count := connection_count s - 1 |>);
    set_srv update_max_fd.

(** The socket options of a new connection; their failures are only logged. *)
Definition tune_socket (fd : Z) : S unit :=
  _ ← os (os_setsockopt fd TCP_NODELAY 1);
  _ ← os (os_setsockopt fd TCP_QUICKACK 1);
  _ ← os (os_setsockopt fd SO_RCVBUF TCP_RECV_BUFFER_SIZE);
  _ ← os (os_setsockopt fd SO_SNDBUF TCP_SEND_BUFFER_SIZE);
  mret tt.

(** A connection that the white list let through; answers the events. *)
Definition admit_client (client_fd client_addr : Z) : S Z :=
  s ← srv;
  match find_free_slot s with
  | None => _ ← os (os_close client_fd); mret 0
  | Some i =>
      now ← os os_time;
      let conn := mk_conn client_fd CONN_STATE_CONNECTED client_addr now 0 0 in
      _ ← set_conn i (fun _ => conn);
      _ ← tune_socket client_fd;
      _ ← set_srv (fun s => s <| connection_count := connection_count s + 1 |>);
      _ ← set_srv update_max_fd;
      s ← srv;
      _ ← match on_connect s with
          | Some f => callback (f i conn)
          | None => mret 0
          end;
      mret 1
  end.

Definition accept_client : S Z :=
  s ← srv;
  '(client_fd, client_addr) ← os (os_accept (listen_fd s));
  if client_fd <? 0 then mret 0
  else
    blocked ← match srv_whitelist s with
              | Some wl => r ← lift_exec (whitelist_check wl (AF_INET client_addr)); mret (bool_decide (r = WHITELIST_BLOCKED))
              | None => mret false
              end;
    if (blocked : bool) then _ ← os (os_close client_fd); mret 0
    else admit_client client_fd client_addr.

(** [FD_ISSET] *)
Definition fd_isset (fd : Z) (set : list Z) : S bool :=
  if fd_ok fd then mret (in_set fd set) else undefined.

(** Slot [i] after [select]; answers the events. *)
Definition check_client (sel : select_answer) (i : nat) : S Z :=
  conn ← conn_at i;
  if negb (is_open conn) then mret 0
  else
    exc ← fd_isset (conn_fd conn) (sel_except sel);
    if (exc : bool) then _ ← tcp_server_close_connection i; mret 1
    else
      rd ← fd_isset (conn_fd conn) (sel_read sel);
      if (rd : bool) then
        _ ← set_conn i (fun c => c <| conn_state := CONN_STATE_ACTIVE |>);
        s ← srv;
        _ ← match on_data s with
            | Some f =>
                conn ← conn_at i;
                result ← callback (f i conn);
                if negb (result =? 0) then tcp_server_close_connection i else mret tt
            | None => mret tt
            end;
        conn ← conn_at i;
        _ ← os (os_setsockopt (conn_fd conn) TCP_QUICKACK 1);
        mret 1
      else mret 0.

Fixpoint check_clients (sel : select_answer) (i n : nat) (events : Z) : S Z :=
  match n with
  | O => mret events
  | Datatypes.S n => e ← check_client sel i; check_clients sel (Datatypes.S i) n (events + e)
  end.

(** The descriptors of the two sets; [FD_SET] of any outside the array is
    undefined. *)
Definition watched (s : tcp_server_t C) : list Z :=
  listen_fd s :: map conn_fd (base.filter (fun c => is_open c = true) (connections s)).

Definition timeval_of (timeout_ms : Z) : option (Z * Z) :=
  if 0 <=? timeout_ms then Some (timeout_ms / 1000, timeout_ms mod 1000 * 1000) else None.

Definition tcp_server_poll (timeout_ms : Z) : S Z :=
  s ← srv;
  if negb (running s) then mret (-1)
  else if negb (forallb fd_ok (watched s)) then undefined
  else
    sel ← os (os_select (max_fd s + 1) (watched s) (watched s) (timeval_of timeout_ms));
    if sel_ret sel <? 0 then mret (if sel_eintr sel then 0 else -1)
    else if sel_ret sel =? 0 then mret 0
    else
      new ← fd_isset (listen_fd s) (sel_read sel);
      events ← (if (new : bool) then accept_client else mret 0);
      check_clients sel 0 (Z.to_nat MAX_CONNECTIONS) events.

Definition run_step (_ : unit) : S (unit + Z) :=
  s ← srv;
  if running s then
    ret ← tcp_server_poll 1000;
    mret (if ret <? 0 then inr (-1) else inl tt)
  else mret (inr 0).

Definition tcp_server_run : S Z := while_loop run_step tt.

End Server.
