(* ===== verification/TcpInvariant.v ===== *)
(** The server's invariant: descriptors, slots, the count and the white list
    agree in every state between two events. *)

From S2P Require Import Prelude Outcome CString Config Whitelist TcpServer.
From stdpp Require Import gmap.
Open Scope Z_scope.

(** ** What the server relies on of the operating system

    The descriptors of the process; an address is 32 bits.  [fd_limit] is the
    default limit on open files, below which [select] can be used. *)

Class TcpOsLaws (C : Type) `{TcpOs C} := {
  open_fds : C -> gset Z;
  socket_fds : forall c r c', os_socket c = (r, c') ->
    if 0 <=? r then (r ∉ open_fds c) /\ open_fds c' = {[ r ]} ∪ open_fds c else open_fds c' = open_fds c;
  accept_fds : forall fd c r a c', os_accept fd c = ((r, a), c') ->
    if 0 <=? r then (r ∉ open_fds c) /\ open_fds c' = {[ r ]} ∪ open_fds c /\ 0 <= a < 2 ^ 32 else open_fds c' = open_fds c;
  fd_limit : forall c fd, fd ∈ open_fds c -> 0 <= fd < FD_SETSIZE;
  close_fds : forall fd c, open_fds (os_close fd c).2 = open_fds c ∖ {[ fd ]};
  sockopt_fds : forall fd o v c, open_fds (os_setsockopt fd o v c).2 = open_fds c;
  bind_fds : forall fd p c, open_fds (os_bind fd p c).2 = open_fds c;
  listen_fds : forall fd n c, open_fds (os_listen fd n c).2 = open_fds c;
  select_fds : forall n r e t c, open_fds (os_select n r e t c).2 = open_fds c;
  time_fds : forall c, open_fds (os_time c).2 = open_fds c
}.

(** ** Slots *)

Definition open_slots (l : list tcp_connection_t) : list tcp_connection_t := base.filter (fun c => is_open c = true) l.
Definition fds (l : list tcp_connection_t) : list Z := map conn_fd (open_slots l).

(** Changing one slot changes its part of the open slots. *)
Lemma open_slots_split f i l c : l !! i = Some c ->
  exists a b, open_slots l = a ++ open_slots [c] ++ b /\ open_slots (alter f i l) = a ++ open_slots [f c] ++ b.
Proof.
  unfold open_slots. revert i. induction l as [|d l IH]; intros [|i] Hi; cbn in Hi; [done..| |].
  - injection Hi as ->. exists [], (base.filter (fun c => is_open c = true) l).
    cbn [alter list_alter]. rewrite !filter_cons, !filter_nil. cbn [app]. split; by case_decide.
  - destruct (IH i Hi) as (a & b & E1 & E2). change (alter f (S i) (d :: l)) with (d :: alter f i l).
    rewrite !(filter_cons _ d), E1, E2. case_decide; [by exists (d :: a), b|by exists a, b].
Qed.

Lemma open_slots_one c : open_slots [c] = if is_open c then [c] else [].
Proof. unfold open_slots. rewrite filter_cons, filter_nil. destruct (is_open c); by case_decide. Qed.

(** A slot is closed, a slot is taken, a slot keeps its descriptor. *)
Lemma slot_closed f i l c : l !! i = Some c -> is_open c = true -> is_open (f c) = false ->
  open_slots l ≡ₚ c :: open_slots (alter f i l).
Proof.
  intros Hi Ho Hc. destruct (open_slots_split f i l c Hi) as (a & b & -> & ->).
  rewrite !open_slots_one, Ho, Hc. cbn [app]. by rewrite Permutation_middle.
Qed.

Lemma slot_taken f i l c : l !! i = Some c -> is_open c = false -> is_open (f c) = true ->
  open_slots (alter f i l) ≡ₚ f c :: open_slots l.
Proof.
  intros Hi Hc Ho. destruct (open_slots_split f i l c Hi) as (a & b & -> & ->).
  rewrite !open_slots_one, Ho, Hc. cbn [app]. by rewrite Permutation_middle.
Qed.

Lemma slot_kept f i l c : l !! i = Some c -> is_open c = true -> is_open (f c) = true ->
  exists a b, open_slots l = a ++ c :: b /\ open_slots (alter f i l) = a ++ f c :: b.
Proof.
  intros Hi Hc Ho. destruct (open_slots_split f i l c Hi) as (a & b & -> & ->).
  rewrite !open_slots_one, Ho, Hc. by exists a, b.
Qed.

Lemma open_slot_in i l c : l !! i = Some c -> is_open c = true -> c ∈ open_slots l.
Proof. intros Hi Ho. apply list_elem_of_filter. split; [done|]. by apply list_elem_of_lookup_2 in Hi. Qed.

(** *** The highest descriptor *)

(** [m] bounds the descriptors and is one of them. *)
Definition is_max (m : Z) (l : list Z) : Prop := m ∈ l /\ Forall (fun x => x <= m) l.

Lemma max_fd_ok l : forall m k, is_max m k ->
  is_max (foldl (fun m c => if is_open c && (m <? conn_fd c) then conn_fd c else m) m l) (k ++ fds l).
Proof.
  induction l as [|c l IH]; intros m k [Hm Hk]; cbn [foldl].
  - unfold fds, open_slots. rewrite filter_nil, app_nil_r. done.
  - assert (Hf : fds (c :: l) = (if is_open c then [conn_fd c] else []) ++ fds l).
    { unfold fds, open_slots. rewrite filter_cons. destruct (is_open c); by case_decide. }
    rewrite Hf, app_assoc. apply IH. destruct (is_open c); cbn [andb]; [|by rewrite app_nil_r].
    destruct (Z.ltb_spec m (conn_fd c)); split.
    + set_solver.
    + apply Forall_app. split; [|by apply Forall_singleton]. eapply Forall_impl; [exact Hk|]. cbn. lia.
    + set_solver.
    + apply Forall_app. split; [done|]. by apply Forall_singleton.
Qed.

#[export] Instance is_max_proper m : Proper (Permutation ==> iff) (is_max m).
Proof. intros a b Hab. unfold is_max. by rewrite Hab. Qed.

(** ** The invariant *)

Section Invariant.
Context {C : Type} `{TcpOsLaws C}.
Context (wl : option whitelist_t) (cb_connect cb_data : option (nat -> tcp_connection_t -> M C Z)).
Context (cb_disconnect : option (nat -> tcp_connection_t -> M C unit)).
(** The descriptors that are none of the server's. *)
Context (others : gset Z).

(** What is promised to whom the white list lets through. *)
Definition allowed (ip : Z) : Prop :=
  0 <= ip < 2 ^ 32 /\
  match wl with
  | Some w => exists r, whitelist_check w (AF_INET ip) = Done r /\ r <> WHITELIST_BLOCKED
  | None => True
  end.

Record configured (s : tcp_server_t C) : Prop := {
  cfg_whitelist : srv_whitelist s = wl;
  cfg_connect : on_connect s = cb_connect;
  cfg_data : on_data s = cb_data;
  cfg_disconnect : on_disconnect s = cb_disconnect
}.

(** Between two events: sixteen slots, as many open as counted; the listening
    descriptor and those of the open slots are different, are all that the
    server has open, and [max_fd] is the highest; every open slot belongs to a
    client that the white list lets through. *)
Record Listening (s : sstate C) : Prop := {
  lis_configured : configured (s_srv s);
  lis_running : running (s_srv s) = true;
  lis_slots : length (connections (s_srv s)) = 16%nat;
  lis_count : connection_count (s_srv s) = zlen (open_slots (connections (s_srv s)));
  lis_distinct : NoDup (listen_fd (s_srv s) :: fds (connections (s_srv s)));
  lis_open : open_fds (s_env s) = others ∪ list_to_set (listen_fd (s_srv s) :: fds (connections (s_srv s)));
  lis_others : others ## list_to_set (listen_fd (s_srv s) :: fds (connections (s_srv s)));
  lis_max : is_max (max_fd (s_srv s)) (listen_fd (s_srv s) :: fds (connections (s_srv s)));
  lis_allowed : Forall (fun c => allowed (conn_addr c)) (open_slots (connections (s_srv s)))
}.

(** ** What the callbacks and the system calls keep

    [fit fds env]: the process is in order and so are the clients behind the
    descriptors [fds].  The server never looks at it, but hands it on from one
    call of a callback to the next; [Bad] and [Hang] are what is known when a
    callback leaves defined behaviour or does not come back. *)
Context (fit : gset Z -> C -> Prop) (Bad Hang : Prop).

#[local] Abbreviation outcome := (Outcome.outcome Bad Hang).

(** The same descriptors, and nobody is worse off. *)
Definition no_worse (env env' : C) : Prop := open_fds env' = open_fds env /\ forall A, fit A env -> fit A env'.

(** The callbacks leave the descriptors as they are; the data callback may
    upset the client it is called for, unless it answers 0. *)
Record callbacks_keep : Prop := {
  keep_connect : forall f i c env, cb_connect = Some f -> fit ∅ env -> outcome (f i c env) (fun _ => no_worse env);
  keep_data : forall f i c env, cb_data = Some f -> fit {[ conn_fd c ]} env ->
    outcome (f i c env) (fun r env' => open_fds env' = open_fds env /\
      (forall A, fit A env -> fit (A ∖ {[ conn_fd c ]}) env') /\ (r = 0 -> forall A, fit A env -> fit A env'));
  keep_disconnect : forall f i c env, cb_disconnect = Some f -> fit ∅ env -> outcome (f i c env) (fun _ => no_worse env)
}.

(** A new client is in order. *)
Record os_keeps : Prop := {
  keep_fewer : forall A B env, B ⊆ A -> fit A env -> fit B env;
  keep_socket : forall A env, fit A env -> fit A (os_socket env).2;
  keep_accept : forall A fd env r a env', os_accept fd env = ((r, a), env') -> fit A env ->
    if 0 <=? r then (r ∉ A) -> fit ({[ r ]} ∪ A) env' else fit A env';
  keep_close : forall A fd env, (fd ∉ A) -> fit A env -> fit A (os_close fd env).2;
  keep_sockopt : forall A fd o v env, fit A env -> fit A (os_setsockopt fd o v env).2;
  keep_bind : forall A fd p env, fit A env -> fit A (os_bind fd p env).2;
  keep_listen : forall A fd n env, fit A env -> fit A (os_listen fd n env).2;
  keep_select : forall A n r e t env, fit A env -> fit A (os_select n r e t env).2;
  keep_time : forall A env, fit A env -> fit A (os_time env).2
}.

(** Only the environment changed, and for nobody to the worse. *)
Definition same_server (s s' : sstate C) : Prop := s_srv s' = s_srv s /\ no_worse (s_env s) (s_env s').

Lemma listening_env s s' : Listening s -> s_srv s' = s_srv s -> open_fds (s_env s') = open_fds (s_env s) -> Listening s'.
Proof. intros [] E1 E2. split; rewrite ?E1, ?E2; done. Qed.

Lemma listening_same s s' : Listening s -> same_server s s' -> Listening s'.
Proof. intros Hs (E1 & E2 & _). by apply (listening_env s). Qed.

Lemma no_worse_refl env : no_worse env env.
Proof. by split. Qed.

Lemma no_worse_trans a b c : no_worse a b -> no_worse b c -> no_worse a c.
Proof. intros [A1 A2] [B1 B2]. split; [congruence|auto]. Qed.

Lemma same_server_refl (s : sstate C) : same_server s s.
Proof. done. Qed.

Lemma same_server_trans a b c : same_server a b -> same_server b c -> same_server a c.
Proof. intros [A1 A2] [B1 B2]. split; [congruence|by eapply no_worse_trans]. Qed.

(** The server listens, and the clients behind its open slots are in order,
    but for the descriptors [x]. *)
Definition works (x : gset Z) (s : sstate C) : Prop :=
  Listening s /\ fit (list_to_set (fds (connections (s_srv s))) ∖ x) (s_env s).

Lemma works_same x s s' : works x s -> same_server s s' -> works x s'.
Proof.
  intros [Hl Hf] Hs. split; [by apply (listening_same s)|]. destruct Hs as (E1 & _ & Hk). rewrite E1. by apply Hk.
Qed.

Context (Hos : os_keeps).

Lemma works_none x s : works x s -> fit ∅ (s_env s).
Proof. intros [_ Hf]. eapply (keep_fewer Hos); [|exact Hf]. set_solver. Qed.

Lemma close_none fd env : fit ∅ env -> fit ∅ (os_close fd env).2.
Proof. apply (keep_close Hos). set_solver. Qed.

(** A system call that keeps all that. *)
Definition mild {A} (call : C -> A * C) : Prop := forall env, no_worse env (call env).2.

Lemma mild_sockopt fd o v : mild (os_setsockopt fd o v).
Proof. intros env. split; [apply sockopt_fds|intros A; apply (keep_sockopt Hos)]. Qed.

Lemma mild_bind fd p : mild (os_bind fd p).
Proof. intros env. split; [apply bind_fds|intros A; apply (keep_bind Hos)]. Qed.

Lemma mild_listen fd n : mild (os_listen fd n).
Proof. intros env. split; [apply listen_fds|intros A; apply (keep_listen Hos)]. Qed.

Lemma mild_select n r e t : mild (os_select n r e t).
Proof. intros env. split; [apply select_fds|intros A; apply (keep_select Hos)]. Qed.

Lemma mild_time : mild os_time.
Proof. intros env. split; [apply time_fds|intros A; apply (keep_time Hos)]. Qed.

Lemma os_same {A} (call : C -> A * C) s : mild call -> exists a s', os call s = Done (a, s') /\ same_server s s'.
Proof.
  intros Hm. specialize (Hm (s_env s)). unfold os. destruct (call (s_env s)) as [a env]. cbn in Hm.
  by eexists a, (mk_sstate (s_srv s) env).
Qed.

Context (Hcb : callbacks_keep).

Lemma disconnect_ok i c s : configured (s_srv s) -> fit ∅ (s_env s) ->
  outcome (disconnect_callback i c s) (fun _ s' => same_server s s').
Proof.
  intros Hc Hf. unfold disconnect_callback, srv, gets, mbind, M_bind. rewrite (cfg_disconnect _ Hc).
  destruct cb_disconnect as [f|] eqn:Ef; [|done]. unfold callback, zoom.
  pose proof (keep_disconnect Hcb f i c (s_env s) Ef Hf) as Hr. by destruct (f i c (s_env s)) as [[r env]| |].
Qed.

Lemma conn_at_ok i (s : sstate C) c : connections (s_srv s) !! i = Some c -> conn_at i s = Done (c, s).
Proof. intros Hi. unfold conn_at, srv, gets, mbind, M_bind. by rewrite Hi. Qed.

(** New slots, with the count and [max_fd] brought up to date. *)
Definition with_slots (l : list tcp_connection_t) (s : tcp_server_t C) : tcp_server_t C :=
  update_max_fd (s <| connections := l |> <| connection_count := zlen (open_slots l) |>).

Lemma with_slots_ok s l env : Listening s -> length l = 16%nat ->
  NoDup (listen_fd (s_srv s) :: fds l) ->
  open_fds env = others ∪ list_to_set (listen_fd (s_srv s) :: fds l) ->
  others ## list_to_set (listen_fd (s_srv s) :: fds l) ->
  Forall (fun c => allowed (conn_addr c)) (open_slots l) ->
  Listening (mk_sstate (with_slots l (s_srv s)) env).
Proof.
  intros [[] Lr _ _ _ _ _ _ _] Hn Hd Ho Hb Ha. split; try done.
  apply (max_fd_ok _ _ [listen_fd (s_srv s)]). split; [apply list_elem_of_here|]. by apply Forall_singleton.
Qed.

(** ** Closing a connection *)

Definition closed_conn (c : tcp_connection_t) : tcp_connection_t :=
  c <| conn_state := CONN_STATE_CLOSED |> <| conn_fd := -1 |>.

Lemma close_works i s c x : works x s -> x ⊆ {[ conn_fd c ]} -> connections (s_srv s) !! i = Some c -> is_open c = true ->
  outcome (tcp_server_close_connection i s) (fun _ s' => works ∅ s' /\
    connections (s_srv s') = alter closed_conn i (connections (s_srv s))).
Proof.
  intros Hsx Hx Hi Ho. pose proof (works_none _ _ Hsx) as H0'. destruct Hsx as [Hs Hfit].
  unfold tcp_server_close_connection. rewrite (bind_done _ _ _ _ _ (conn_at_ok i s c Hi)). rewrite Ho. cbn [negb].
  eapply outcome_bind; [apply (disconnect_ok i c s (lis_configured s Hs) H0')|]. intros [] s1 Hs1.
  pose proof (listening_same _ _ Hs Hs1) as Hl. destruct s1 as [sv env]. destruct Hs1 as (E1 & E2 & Hk). cbn [s_srv s_env] in E1, E2, Hk. subst sv.
  apply Hk in Hfit.
  unfold os, set_conn, set_srv, modify, mbind, M_bind. cbn [s_env s_srv].
  pose proof (close_fds (conn_fd c) env) as Hcl.
  pose proof (fun A Hn => keep_close Hos A (conn_fd c) env Hn) as Hcf.
  destruct (os_close (conn_fd c) env) as [r env1]. cbn [snd] in Hcl, Hcf.
  pose proof (slot_closed closed_conn i _ c Hi Ho eq_refl) as Hperm. cbn [outcome].
  set (l := alter closed_conn i (connections (s_srv s))) in *.
  change (works ∅ (mk_sstate (update_max_fd ((s_srv s) <| connections := l |>
    <| connection_count := connection_count (s_srv s) - 1 |>)) env1) /\ l = l).
  split; [|done]. assert (Hn : connection_count (s_srv s) - 1 = zlen (open_slots l)).
  { rewrite (lis_count s Hs). unfold zlen. rewrite Hperm. cbn [length]. lia. }
  rewrite Hn. change (works ∅ (mk_sstate (with_slots l (s_srv s)) env1)).
  assert (Hf : fds (connections (s_srv s)) ≡ₚ conn_fd c :: fds l) by (unfold fds; by rewrite Hperm).
  pose proof (lis_distinct s Hs) as Hd. rewrite Hf in Hd.
  apply NoDup_cons in Hd as [Hd1 Hd2]. apply NoDup_cons in Hd2 as [Hd2 Hd3].
  pose proof (lis_others s Hs) as Hb. rewrite Hf in Hb. split.
  2: { cbn [s_srv s_env with_slots update_max_fd setter connections]. apply Hcf.
       - rewrite difference_empty_L, elem_of_list_to_set. set_solver.
       - eapply (keep_fewer Hos); [|exact Hfit]. rewrite Hf. clear -Hx Hd2. set_solver. }
  apply with_slots_ok; try done.
  - subst l. rewrite length_alter. apply (lis_slots s Hs).
  - apply NoDup_cons. split; [set_solver|done].
  - rewrite Hcl, E2, (lis_open s Hs), Hf. set_solver.
  - set_solver.
  - pose proof (lis_allowed s Hs) as La. rewrite Hperm in La. by apply Forall_cons in La as [_ La].
Qed.

(** ** Accepting a connection *)

Context (Hwl : forall w addr, wl = Some w -> 0 <= addr < 2 ^ 32 -> whitelist_check w (AF_INET addr) = Undef -> Bad).

(** A system call that keeps everything, then the rest. *)
Lemma outcome_os {A B} (call : C -> A * C) (k : A -> M (sstate C) B) s Q : mild call ->
  (forall a s', same_server s s' -> outcome (k a s') Q) -> outcome ((os call ≫= k) s) Q.
Proof.
  intros Hm Hk. destruct (os_same call s Hm) as (a & s' & E1 & Hs). rewrite (bind_done _ _ _ _ _ E1). by apply Hk.
Qed.

(** Reading and setting the server. *)
Lemma outcome_srv {B} (k : tcp_server_t C -> M (sstate C) B) s Q :
  outcome (k (s_srv s) s) Q -> outcome ((srv ≫= k) s) Q.
Proof. done. Qed.

Lemma outcome_set {B} f (k : unit -> M (sstate C) B) sv env Q :
  outcome (k tt (mk_sstate (f sv) env)) Q -> outcome ((set_srv f ≫= k) (mk_sstate sv env)) Q.
Proof. done. Qed.

Lemma tune_ok fd s : outcome (tune_socket fd s) (fun _ s' => same_server s s').
Proof.
  unfold tune_socket.
  apply outcome_os; [apply mild_sockopt|intros _ s1 H1]. apply outcome_os; [apply mild_sockopt|intros _ s2 H2].
  apply outcome_os; [apply mild_sockopt|intros _ s3 H3]. apply outcome_os; [apply mild_sockopt|intros _ s4 H4].
  cbn. by repeat (eapply same_server_trans; [eassumption|]).
Qed.

Lemma free_from_ok l : forall k i, free_from k l = Some i ->
  exists j c, i = (k + j)%nat /\ l !! j = Some c /\ is_open c = false.
Proof.
  induction l as [|c l IH]; intros k i; cbn [free_from]; [done|].
  destruct (is_open c) eqn:Ho; [|intros [= <-]; exists 0%nat, c; split; [lia|done]].
  intros (j & c' & -> & Hj)%IH. exists (S j), c'. split; [lia|done].
Qed.

(** The callbacks of a running server. *)
Lemma connect_ok i c s : configured (s_srv s) -> fit ∅ (s_env s) ->
  outcome (match on_connect (s_srv s) with Some f => callback (f i c) | None => mret 0 end s) (fun _ s' => same_server s s').
Proof.
  intros Hc Hf. rewrite (cfg_connect _ Hc).
  destruct cb_connect as [f|] eqn:Ef; [|done]. unfold callback, zoom.
  pose proof (keep_connect Hcb f i c (s_env s) Ef Hf) as Hr. by destruct (f i c (s_env s)) as [[r env]| |].
Qed.

(** What a new descriptor adds to a server that listens. *)
Record Accepted (s : sstate C) (fd : Z) (env : C) : Prop := {
  acc_listening : Listening s;
  acc_fresh : fd ∉ open_fds (s_env s);
  acc_open : open_fds env = {[ fd ]} ∪ open_fds (s_env s);
  acc_fit : fit ({[ fd ]} ∪ list_to_set (fds (connections (s_srv s)))) env
}.

Lemma slots_open s fd : Listening s -> (fd ∉ open_fds (s_env s)) -> fd ∉ listen_fd (s_srv s) :: fds (connections (s_srv s)).
Proof. intros Hs. rewrite (lis_open s Hs). set_solver. Qed.

Lemma reject_ok s fd env : Accepted s fd env ->
  outcome ((_ ← os (os_close fd); mret 0) (mk_sstate (s_srv s) env)) (fun r s' => works ∅ s' /\ 0 <= r <= 1).
Proof.
  intros [Hs Hf Ho Hfit]. pose proof (slots_open s fd Hs Hf) as Hnew. unfold os, mbind, M_bind. cbn [s_env s_srv].
  pose proof (close_fds fd env) as Hc.
  assert (Hcf : fit (list_to_set (fds (connections (s_srv s))) ∖ ∅) (os_close fd env).2).
  { apply (keep_close Hos); [set_solver|]. eapply (keep_fewer Hos); [|exact Hfit]. set_solver. }
  destruct (os_close fd env) as [r env']. cbn in *. split; [|done]. split; [|done].
  destruct Hs. split; try done. cbn. rewrite Hc, Ho, lis_open0. set_solver.
Qed.

Lemma take_slot_ok s fd env i c conn : Accepted s fd env ->
  connections (s_srv s) !! i = Some c -> is_open c = false ->
  is_open conn = true -> conn_fd conn = fd -> allowed (conn_addr conn) ->
  works ∅ (mk_sstate (with_slots (alter (fun _ => conn) i (connections (s_srv s))) (s_srv s)) env).
Proof.
  intros [Hs Hf Ho Hfit] Hi Hc Hopen Hfd Ha. pose proof (slot_taken (fun _ => conn) i _ c Hi Hc Hopen) as Hperm.
  set (l := alter _ i _) in *.
  assert (Hl : fds l ≡ₚ fd :: fds (connections (s_srv s))) by (unfold fds; rewrite Hperm; cbn; by rewrite Hfd).
  pose proof (lis_open s Hs) as Hopened. pose proof (lis_others s Hs) as Hb.
  pose proof (slots_open s fd Hs Hf) as Hnew. split.
  2: { eapply (keep_fewer Hos); [|exact Hfit]. cbn [s_srv with_slots update_max_fd setter connections]. rewrite Hl. set_solver. }
  apply with_slots_ok; try done.
  - subst l. rewrite length_alter. apply (lis_slots s Hs).
  - rewrite Hl. pose proof (lis_distinct s Hs) as [Hd1 Hd2]%NoDup_cons. repeat (apply NoDup_cons; split); set_solver.
  - rewrite Ho, Hopened, Hl. set_solver.
  - rewrite Hl. rewrite Hopened in Hf. set_solver.
  - rewrite Hperm. apply Forall_cons. split; [done|]. apply (lis_allowed s Hs).
Qed.

Lemma admit_ok s fd addr env : Accepted s fd env -> allowed addr ->
  outcome (admit_client fd addr (mk_sstate (s_srv s) env)) (fun r s' => works ∅ s' /\ 0 <= r <= 1).
Proof.
  intros Hacc Ha. unfold admit_client. apply outcome_srv. cbn [s_srv]. unfold find_free_slot.
  destruct (free_from 0 (connections (s_srv s))) as [i|] eqn:Ei; [|by apply reject_ok].
  apply free_from_ok in Ei as (j & c & -> & Hi & Hc). cbn [Nat.add].
  apply outcome_os; [apply mild_time|intros now s1 H1]. set (conn := mk_conn fd CONN_STATE_CONNECTED addr now 0 0).
  destruct s1 as [sv1 env1]. destruct H1 as (E1 & E2 & K1). cbn [s_srv s_env] in E1, E2, K1. subst sv1.
  set (l := alter (fun _ => conn) j (connections (s_srv s))). set (sv := (s_srv s) <| connections := l |>).
  apply outcome_set. change (setter connections _ (s_srv s)) with sv.
  eapply outcome_bind; [apply tune_ok|]. intros [] s2 H2.
  destruct s2 as [sv2 env2]. destruct H2 as (E3 & E4 & K2). cbn [s_srv s_env] in E3, E4, K2. subst sv2.
  apply outcome_set, outcome_set, outcome_srv.
  assert (Hn : connection_count (s_srv s) + 1 = zlen (open_slots l)).
  { rewrite (lis_count s (acc_listening s fd env Hacc)). unfold zlen, l.
    rewrite (slot_taken (fun _ => conn) j _ c Hi Hc eq_refl). cbn [length]. lia. }
  change (update_max_fd _) with (update_max_fd (sv <| connection_count := connection_count (s_srv s) + 1 |>)).
  rewrite Hn. change (update_max_fd _) with (with_slots l (s_srv s)). cbn [s_srv].
  assert (Hl : works ∅ (mk_sstate (with_slots l (s_srv s)) env2)).
  { apply (take_slot_ok s fd env2 j c conn); try done. destruct Hacc. split; [done..|congruence|auto]. }
  eapply outcome_bind; [exact (connect_ok j conn _ (lis_configured _ (proj1 Hl)) (works_none _ _ Hl))|].
  intros r s3 H3. cbn. split; [|done]. by eapply works_same.
Qed.

(** The white list's verdict on a new client. *)
Lemma verdict_ok addr (s : sstate C) : 0 <= addr < 2 ^ 32 ->
  outcome (match wl with
           | Some w => r ← lift_exec (whitelist_check w (AF_INET addr)); mret (bool_decide (r = WHITELIST_BLOCKED))
           | None => mret false
           end s) (fun b s' => s' = s /\ (b = false -> allowed addr)).
Proof.
  intros Hip. unfold allowed. pose proof Hwl as Hck. destruct wl as [w|]; [|done].
  pose proof (whitelist_check_not_stuck w addr Hip) as Hns. specialize (Hck w addr eq_refl Hip).
  unfold lift_exec, mbind, M_bind. destruct (whitelist_check w (AF_INET addr)) as [r| |] eqn:Hr; [|by apply Hck|done].
  cbn. split; [done|]. intros Hne%bool_decide_eq_false. split; [done|]. by exists r.
Qed.

Lemma accept_works s : works ∅ s -> outcome (accept_client s) (fun r s' => works ∅ s' /\ 0 <= r <= 1).
Proof.
  intros [Hs Hfit]. unfold accept_client. apply outcome_srv.
  destruct (os_accept (listen_fd (s_srv s)) (s_env s)) as [[fd addr] env] eqn:Ea.
  pose proof (accept_fds _ _ _ _ _ Ea) as Hf. pose proof (fun A => keep_accept Hos A _ _ _ _ _ Ea) as Hk.
  assert (E1 : os (os_accept (listen_fd (s_srv s))) s = Done ((fd, addr), mk_sstate (s_srv s) env)) by (unfold os; by rewrite Ea).
  rewrite (bind_done _ _ _ _ _ E1). destruct (Z.ltb_spec fd 0) as [Hneg|Hpos].
  - rewrite (proj2 (Z.leb_gt 0 fd)) in Hf, Hk by done. cbn. split; [|done]. by apply (works_same ∅ s).
  - rewrite (proj2 (Z.leb_le 0 fd)) in Hf, Hk by done. destruct Hf as (Hnew & Ho & Hip).
    assert (Hacc : Accepted s fd env).
    { split; [done..|]. pose proof (slots_open s fd Hs Hnew). eapply (keep_fewer Hos); [|apply (Hk _ Hfit)]; set_solver. }
    rewrite (cfg_whitelist _ (lis_configured s Hs)).
    eapply outcome_bind; [by apply verdict_ok|]. intros b s1 [-> Hb]. destruct b; [by apply reject_ok|]. apply admit_ok; [done|by apply Hb].
Qed.

(** ** The connections after [select] *)

Lemma watched_eq (s : tcp_server_t C) : watched s = listen_fd s :: fds (connections s).
Proof. done. Qed.

Lemma watched_ok s : Listening s -> Forall (fun fd => fd_ok fd = true) (watched (s_srv s)).
Proof.
  intros Hs. rewrite watched_eq. apply Forall_forall. intros fd Hfd. unfold fd_ok.
  pose proof (fd_limit (s_env s) fd) as Hr. rewrite (lis_open s Hs) in Hr. specialize (Hr ltac:(set_solver)).
  apply andb_true_iff. split; [apply Z.leb_le|apply Z.ltb_lt]; lia.
Qed.

Lemma slot_fd_ok s i c : Listening s -> connections (s_srv s) !! i = Some c -> is_open c = true -> fd_ok (conn_fd c) = true.
Proof.
  intros Hs Hi Ho. pose proof (watched_ok s Hs) as Hw. rewrite watched_eq in Hw. apply Forall_cons in Hw as [_ Hw].
  rewrite Forall_forall in Hw. apply Hw. unfold fds. apply list_elem_of_fmap. exists c. split; [done|]. by apply (open_slot_in i).
Qed.

(** Marking a connection active. *)
Lemma activate_ok s i c : works ∅ s -> connections (s_srv s) !! i = Some c -> is_open c = true ->
  let f := fun c => c <| conn_state := CONN_STATE_ACTIVE |> in
  works ∅ (mk_sstate ((s_srv s) <| connections := alter f i (connections (s_srv s)) |>) (s_env s)).
Proof.
  intros [Hs Hfit] Hi Ho f. destruct (slot_kept f i _ c Hi Ho eq_refl) as (a & b & E1 & E2).
  assert (Hf : fds (alter f i (connections (s_srv s))) = fds (connections (s_srv s))).
  { unfold fds. by rewrite E1, E2, !map_app. }
  destruct Hs as [Lc Lr Ls Ln Ld Lo Lb Lm La]. split; [|cbn [s_srv s_env setter connections]; by rewrite Hf].
  split; cbn [s_srv s_env setter connections listen_fd running connection_count max_fd]; rewrite ?Hf; try done.
  - by destruct Lc.
  - by rewrite length_alter.
  - rewrite Ln, E1, E2. unfold zlen. by rewrite !length_app.
  - rewrite E1 in La. rewrite E2. apply Forall_app in La as [La1 La2]. apply Forall_cons in La2 as [La2 La3].
    apply Forall_app. split; [done|]. by apply Forall_cons.
Qed.

Lemma listening_slot s i : Listening s -> (i < 16)%nat -> exists c, connections (s_srv s) !! i = Some c.
Proof. intros Hs Hi. apply lookup_lt_is_Some_2. by rewrite (lis_slots s Hs). Qed.

Lemma data_ok i f j c s : works ∅ s -> cb_data = Some f -> connections (s_srv s) !! i = Some c -> is_open c = true ->
  outcome (callback (f j c) s) (fun r s' => s_srv s' = s_srv s /\
    works (if r =? 0 then ∅ else {[ conn_fd c ]}) s').
Proof.
  intros [Hs Hfit] Ef Hi Ho. unfold callback, zoom.
  assert (Hin : conn_fd c ∈ fds (connections (s_srv s))).
  { unfold fds. apply list_elem_of_fmap. exists c. split; [done|]. by apply (open_slot_in i). }
  assert (Hone : fit {[ conn_fd c ]} (s_env s)) by (eapply (keep_fewer Hos); [|exact Hfit]; set_solver).
  pose proof (keep_data Hcb f j c (s_env s) Ef Hone) as Hr.
  destruct (f j c (s_env s)) as [[r env]| |]; [|done..]. destruct Hr as (Hfds & Hk & Hk0). cbn. split; [done|].
  split; [by apply (listening_env s)|]. cbn [s_srv s_env setter].
  rewrite difference_empty_L in Hfit. destruct (Z.eqb_spec r 0); [|by apply Hk].
  rewrite difference_empty_L. by apply Hk0.
Qed.

(** The data callback and what its result asks for. *)
Lemma serve_client_ok i s c : works ∅ s -> connections (s_srv s) !! i = Some c -> is_open c = true ->
  outcome ((match on_data (s_srv s) with
            | Some f => conn ← conn_at i; result ← callback (f i conn);
                        if negb (result =? 0) then tcp_server_close_connection i else mret tt
            | None => mret tt
            end) s)
    (fun _ s' => works ∅ s').
Proof.
  intros Hs Hi Ho. rewrite (cfg_data _ (lis_configured s (proj1 Hs))). destruct cb_data as [f|] eqn:Ef; [|done].
  rewrite (bind_done _ _ _ _ _ (conn_at_ok i s c Hi)).
  eapply outcome_bind; [by eapply data_ok|]. intros r s1 [E1 Hl]. destruct (r =? 0); cbn [negb]; [done|].
  eapply outcome_mono; [apply (close_works i s1 c _ Hl); [done|by rewrite E1|done]|]. by intros _ s2 [? _].
Qed.

Lemma check_client_ok sel i s : works ∅ s -> (i < 16)%nat ->
  outcome (check_client sel i s) (fun r s' => works ∅ s' /\ 0 <= r <= 1).
Proof.
  intros Hw Hi16. pose proof Hw as [Hs _]. destruct (listening_slot s i Hs Hi16) as [c Hi]. unfold check_client.
  rewrite (bind_done _ _ _ _ _ (conn_at_ok i s c Hi)). destruct (is_open c) eqn:Ho; cbn [negb]; [|done].
  pose proof (slot_fd_ok s i c Hs Hi Ho) as Hfd. unfold fd_isset. rewrite Hfd.
  rewrite (bind_done (mret _) _ s _ s eq_refl). destruct (in_set (conn_fd c) (sel_except sel)).
  - eapply outcome_bind; [by apply (close_works i s c ∅)|]. by intros [] s1 [H1 _].
  - rewrite (bind_done (mret _) _ s _ s eq_refl). destruct (in_set (conn_fd c) (sel_read sel)); [|done].
    destruct s as [sv env]. apply outcome_set, outcome_srv.
    pose proof (activate_ok _ i c Hw Hi Ho) as Ha. cbn [s_srv s_env] in Ha, Hi.
    eapply outcome_bind.
    + apply (serve_client_ok i _ (c <| conn_state := CONN_STATE_ACTIVE |>) Ha); [|done].
      cbn [s_srv setter connections]. by rewrite list_lookup_alter_eq, Hi.
    + intros [] s1 H1. destruct (listening_slot s1 i (proj1 H1) Hi16) as [c1 Hc1].
      rewrite (bind_done _ _ _ _ _ (conn_at_ok i s1 c1 Hc1)). apply outcome_os; [apply mild_sockopt|].
      intros r s2 H2. cbn. split; [|done]. by eapply works_same.
Qed.

Lemma check_clients_ok sel n i s e : works ∅ s -> (i + n <= 16)%nat ->
  outcome (check_clients sel i n e s) (fun r s' => works ∅ s' /\ e <= r <= e + Z.of_nat n).
Proof.
  revert i s e. induction n as [|n IH]; intros i s e Hs Hn; cbn [check_clients]; [cbn; split; [done|lia]|].
  eapply outcome_bind; [apply check_client_ok; [done|lia]|]. intros r s1 [H1 Hr].
  eapply outcome_mono; [apply IH; [done|lia]|]. cbn. intros r' s2 [H2 Hr2]. split; [done|lia].
Qed.

Lemma poll_works timeout_ms s : works ∅ s ->
  outcome (tcp_server_poll timeout_ms s) (fun r s' => works ∅ s' /\ -1 <= r <= 17).
Proof.
  intros Hx. pose proof Hx as [Hs _]. unfold tcp_server_poll. apply outcome_srv. rewrite (lis_running s Hs). cbn [negb].
  pose proof (watched_ok s Hs) as Hw. assert (Hb : forallb fd_ok (watched (s_srv s)) = true).
  { apply Is_true_true, forallb_True. eapply Forall_impl; [exact Hw|]. intros fd Hfd. by rewrite Hfd. }
  rewrite Hb. cbn [negb]. apply outcome_os; [apply mild_select|]. intros sel s1 H1.
  pose proof (works_same _ _ _ Hx H1) as Hl.
  destruct (sel_ret sel <? 0); [by cbn; split; [|destruct (sel_eintr sel)]|].
  destruct (sel_ret sel =? 0); [by cbn|].
  rewrite watched_eq in Hw. apply Forall_cons in Hw as [Hw _]. unfold fd_isset. rewrite Hw.
  rewrite (bind_done (mret _) _ s1 _ s1 eq_refl).
  eapply outcome_bind with (Q := fun r s' => works ∅ s' /\ 0 <= r <= 1); [destruct (in_set _ _); [by apply accept_works|done]|].
  intros r s2 [H2 Hr]. eapply outcome_mono; [apply check_clients_ok; [done|]|].
  - change (Z.to_nat MAX_CONNECTIONS) with 16%nat. lia.
  - change (Z.to_nat MAX_CONNECTIONS) with 16%nat. cbn. intros r' s3 [H3 Hr3]. split; [done|lia].
Qed.

(** ** Starting *)

(** The server that [tcp_server_init] and [tcp_server_set_callbacks] make. *)
Definition fresh_server (port : Z) : tcp_server_t C :=
  tcp_server_set_callbacks cb_connect cb_data cb_disconnect (tcp_server_init port wl).

Lemma fresh_slots : open_slots (replicate (Z.to_nat MAX_CONNECTIONS) conn_zero) = [].
Proof. clear Hwl. reflexivity. Qed.

Lemma set_then {B} f (k : unit -> M (sstate C) B) sv env : (set_srv f ≫= k) (mk_sstate sv env) = k tt (mk_sstate (f sv) env).
Proof. clear Hwl. done. Qed.

(** A failure gives the descriptor back. *)
Lemma close_listen_ok fd sv env : fd ∉ others -> open_fds env = {[ fd ]} ∪ others -> fit ∅ env ->
  exists s', close_listen fd (mk_sstate sv env) = Done (-1, s') /\ open_fds (s_env s') = others /\
    s_srv s' = sv <| listen_fd := -1 |> /\ fit ∅ (s_env s').
Proof. clear Hwl.
  intros Hf Ho Hfit. unfold close_listen, os, set_srv, modify, mbind, M_bind. cbn [s_env s_srv].
  pose proof (close_fds fd env) as Hc. pose proof (close_none fd env Hfit) as Hk.
  destruct (os_close fd env) as [r env']. cbn in Hc, Hk. eexists. split; [reflexivity|].
  split; [|done]. cbn. rewrite Hc, Ho. set_solver.
Qed.

Lemma start_works port env : open_fds env = others -> fit ∅ env ->
  exists r s', tcp_server_start (mk_sstate (fresh_server port) env) = Done (r, s') /\
    (r = 0 /\ works ∅ s' /\ connection_count (s_srv s') = 0 \/
     r = -1 /\ running (s_srv s') = false /\ listen_fd (s_srv s') < 0 /\ open_fds (s_env s') = others /\ fit ∅ (s_env s')).
Proof. clear Hwl.
  intros Henv Hfit. apply (keep_socket Hos) in Hfit. unfold tcp_server_start. destruct (os_socket env) as [fd env1] eqn:Es.
  pose proof (socket_fds _ _ _ Es) as Hf. cbn [snd] in Hfit.
  assert (E1 : os os_socket (mk_sstate (fresh_server port) env) = Done (fd, mk_sstate (fresh_server port) env1)).
  { unfold os. cbn [s_env]. by rewrite Es. }
  rewrite (bind_done _ _ _ _ _ E1). set (sv := (fresh_server port) <| listen_fd := fd |>).
  rewrite set_then. change (setter listen_fd _ (fresh_server port)) with sv.
  destruct (Z.ltb_spec fd 0) as [Hneg|Hpos].
  { rewrite (proj2 (Z.leb_gt 0 fd)) in Hf by done. eexists _, _. split; [reflexivity|]. right. cbn. split_and!; try done. congruence. }
  rewrite (proj2 (Z.leb_le 0 fd)) in Hf by done. destruct Hf as [Hnew Ho]. rewrite Henv in Hnew, Ho.
  destruct (os_same (os_setsockopt fd SO_REUSEADDR 1) (mk_sstate sv env1) (mild_sockopt _ _ _)) as (r1 & [sv1 env2] & E2 & H1 & H1' & K1).
  cbn [s_srv s_env] in H1, H1', K1. subst sv1. apply K1 in Hfit. rewrite (bind_done _ _ _ _ _ E2). rewrite (bind_done srv _ _ _ _ eq_refl).
  destruct (os_same (os_bind fd (u16 (srv_port sv))) (mk_sstate sv env2) (mild_bind _ _)) as (r2 & [sv2 env3] & E3 & H2 & H2' & K2).
  cbn [s_srv s_env] in H2, H2', K2, E3 |- *. subst sv2. apply K2 in Hfit. rewrite (bind_done _ _ _ _ _ E3).
  destruct (r2 <? 0).
  { destruct (close_listen_ok fd sv env3) as (s' & Ec & Hc & Hsv & Hk); [done|congruence|done|]. exists (-1), s'. split; [done|]. right.
    rewrite Hsv. done. }
  destruct (os_same (os_setsockopt fd TCP_FASTOPEN TCP_FASTOPEN_QUEUE_LEN) (mk_sstate sv env3) (mild_sockopt _ _ _)) as (r3 & [sv3 env4] & E4 & H3 & H3' & K3).
  cbn [s_srv s_env] in H3, H3', K3. subst sv3. apply K3 in Hfit. rewrite (bind_done _ _ _ _ _ E4).
  destruct (os_same (os_listen fd 5) (mk_sstate sv env4) (mild_listen _ _)) as (r4 & [sv4 env5] & E5 & H4 & H4' & K4).
  cbn [s_srv s_env] in H4, H4', K4. subst sv4. apply K4 in Hfit. rewrite (bind_done _ _ _ _ _ E5).
  assert (Ho5 : open_fds env5 = {[ fd ]} ∪ others) by congruence.
  destruct (r4 <? 0).
  { destruct (close_listen_ok fd sv env5) as (s' & Ec & Hc & Hsv & Hk); [done..|]. exists (-1), s'. split; [done|]. right.
    rewrite Hsv. done. }
  rewrite set_then.
  eexists _, _. split; [reflexivity|]. left. split; [done|]. split; [|done]. split; [|done].
  split; cbn [s_srv s_env running connections connection_count listen_fd max_fd setter sv]; rewrite ?fresh_slots; try done;
    change (fds (connections _)) with (@nil Z).
  - apply NoDup_singleton.
  - rewrite Ho5. set_solver.
  - set_solver.
  - split; [apply list_elem_of_here|by apply Forall_singleton].
Qed.

(** ** Stopping *)

(** What [tcp_server_stop] relies on and keeps, slot by slot. *)
Record Stopping (i : nat) (s : sstate C) : Prop := {
  stp_configured : configured (s_srv s);
  stp_slots : length (connections (s_srv s)) = 16%nat;
  stp_distinct : NoDup (listen_fd (s_srv s) :: fds (connections (s_srv s)));
  stp_open : open_fds (s_env s) = others ∪ list_to_set (listen_fd (s_srv s) :: fds (connections (s_srv s)));
  stp_others : others ## list_to_set (listen_fd (s_srv s) :: fds (connections (s_srv s)));
  stp_closed : forall j c, (j < i)%nat -> connections (s_srv s) !! j = Some c -> is_open c = false;
  stp_fit : fit ∅ (s_env s)
}.

Lemma stop_slot_ok i s : Stopping i s -> (i < 16)%nat ->
  outcome (stop_slot i s) (fun _ s' => Stopping (S i) s' /\ listen_fd (s_srv s') = listen_fd (s_srv s) /\ running (s_srv s') = running (s_srv s)).
Proof. clear Hwl.
  intros Hs Hi16. destruct (lookup_lt_is_Some_2 (connections (s_srv s)) i) as [c Hi]; [by rewrite (stp_slots i s Hs)|].
  unfold stop_slot. rewrite (bind_done _ _ _ _ _ (conn_at_ok i s c Hi)). destruct (is_open c) eqn:Ho.
  2: { cbn. split; [|done]. destruct Hs. split; try done. intros j c' Hj Hc'. destruct (decide (j = i)) as [->|]; [congruence|].
       apply (stp_closed0 j c'); [lia|done]. }
  eapply outcome_bind; [apply (disconnect_ok i c s (stp_configured i s Hs) (stp_fit i s Hs))|]. intros [] [sv env] (E1 & E2 & Hk).
  cbn [s_srv s_env] in E1, E2, Hk. subst sv. pose proof (Hk _ (stp_fit i s Hs)) as Hfit.
  unfold os, set_conn, set_srv, modify, mbind, M_bind. cbn [s_env s_srv].
  pose proof (close_fds (conn_fd c) env) as Hcl. pose proof (close_none (conn_fd c) env Hfit) as Hcf.
  destruct (os_close (conn_fd c) env) as [r env1]. cbn [snd] in Hcl, Hcf.
  set (f := fun c => c <| conn_state := CONN_STATE_CLOSED |>).
  pose proof (slot_closed f i _ c Hi Ho eq_refl) as Hperm. cbn [outcome s_srv s_env setter listen_fd running]. split; [|done].
  destruct Hs as [Hc Hsl Hd Hop Hoth Hclosed _]. set (l := alter f i (connections (s_srv s))) in *.
  assert (Hf : fds (connections (s_srv s)) ≡ₚ conn_fd c :: fds l) by (unfold fds; by rewrite Hperm).
  rewrite Hf in Hd, Hoth. apply NoDup_cons in Hd as [Hd1 Hd2]. apply NoDup_cons in Hd2 as [Hd2 Hd3].
  split; cbn [s_srv s_env connections listen_fd].
  - by destruct Hc.
  - subst l. by rewrite length_alter.
  - apply NoDup_cons. split; [set_solver|done].
  - rewrite Hcl, E2, Hop, Hf. set_solver.
  - set_solver.
  - intros j c' Hj. subst l. rewrite list_lookup_alter. case_decide as Hij.
    + rewrite Hi. by intros [= <-].
    + intros Hc'. apply (Hclosed j c'); [lia|done].
  - done.
Qed.

Lemma stop_slots_ok n i s : Stopping i s -> (i + n = 16)%nat ->
  outcome (for_from i n stop_slot s) (fun _ s' => Stopping 16 s' /\ listen_fd (s_srv s') = listen_fd (s_srv s) /\ running (s_srv s') = running (s_srv s)).
Proof. clear Hwl.
  revert i s. induction n as [|n IH]; intros i s Hs Hn; cbn [for_from].
  - replace 16%nat with i by lia. done.
  - eapply outcome_bind; [apply stop_slot_ok; [done|lia]|]. intros [] s1 (H1 & H2 & H3).
    eapply outcome_mono; [apply IH; [done|lia]|]. cbn. intros [] s2 (H4 & H5 & H6). split; [done|]. split; congruence.
Qed.

Lemma all_closed_open l : (forall j c, l !! j = Some c -> is_open c = false) -> open_slots l = [].
Proof.
  unfold open_slots. induction l as [|c l IH]; intros Hl; [done|]. rewrite filter_cons.
  rewrite (Hl 0%nat c eq_refl). case_decide; [done|]. apply IH. intros j. apply (Hl (S j)).
Qed.

Lemma stop_works s : works ∅ s ->
  outcome (tcp_server_stop s) (fun _ s' => fit ∅ (s_env s') /\ open_fds (s_env s') = others /\ open_slots (connections (s_srv s')) = [] /\
    connection_count (s_srv s') = 0 /\ listen_fd (s_srv s') = -1 /\ running (s_srv s') = false).
Proof. clear Hwl.
  intros Hx. pose proof (works_none _ _ Hx) as Hfit. destruct Hx as [Hs _]. unfold tcp_server_stop.
  pose proof (fd_limit (s_env s) (listen_fd (s_srv s))) as Hlim. rewrite (lis_open s Hs) in Hlim. specialize (Hlim ltac:(set_solver)).
  destruct s as [sv env]. apply outcome_set. change (Z.to_nat MAX_CONNECTIONS) with 16%nat.
  assert (Hst : Stopping 0 (mk_sstate (sv <| running := false |>) env)).
  { destruct Hs as [[] ? ? ? ? ? ? ? ?]. split; try done. intros. lia. }
  eapply outcome_bind; [apply (stop_slots_ok 16 0 _ Hst eq_refl)|]. intros [] [sv1 env1] (H1 & H2 & H3). cbn [s_srv s_env] in *.
  apply outcome_set, outcome_srv. cbn [s_srv setter listen_fd] in *. rewrite H2, (proj2 (Z.leb_le _ _)) by lia.
  destruct H1 as [_ Hsl _ Hop Hoth Hcl Hfit1]. cbn [s_srv s_env] in *.
  assert (Hnil : open_slots (connections sv1) = []).
  { apply all_closed_open. intros j c Hj. apply (Hcl j c); [|done]. apply lookup_lt_Some in Hj. lia. }
  assert (Hfds : fds (connections sv1) = []) by (unfold fds; by rewrite Hnil).
  unfold os, set_srv, modify, mbind, M_bind. cbn [s_env s_srv listen_fd setter].
  pose proof (close_fds (listen_fd sv) env1) as Hc.
  pose proof (close_none (listen_fd sv) env1 Hfit1) as Hcf.
  destruct (os_close (listen_fd sv) env1) as [r env2]. cbn in Hc, Hcf |- *. split; [done|].
  split; [|done]. rewrite Hc, Hop, Hfds, H2. rewrite Hfds, H2 in Hoth. set_solver.
Qed.

End Invariant.

(** ** Callbacks that do what they like

    They leave the descriptors of the process as they are, and nothing else is
    known of them.  Then a run of the server goes wrong only inside a callback. *)

Section Quiet.
Context {C : Type} `{TcpOsLaws C}.
Context (wl : option whitelist_t) (cb_connect cb_data : option (nat -> tcp_connection_t -> M C Z)).
Context (cb_disconnect : option (nat -> tcp_connection_t -> M C unit)) (others : gset Z).
#[local] Abbreviation listening := (Listening wl cb_connect cb_data cb_disconnect others).

Record quiet : Prop := {
  quiet_connect : forall f i c env r env', cb_connect = Some f -> f i c env = Done (r, env') -> open_fds env' = open_fds env;
  quiet_data : forall f i c env r env', cb_data = Some f -> f i c env = Done (r, env') -> open_fds env' = open_fds env;
  quiet_disconnect : forall f i c env r env', cb_disconnect = Some f -> f i c env = Done (r, env') -> open_fds env' = open_fds env
}.

Definition wrong {A} (e : exec A) : Prop := match e with Done _ => False | _ => True end.

Definition callback_fails : Prop :=
  exists i c env,
    (exists f, cb_connect = Some f /\ wrong (f i c env)) \/ (exists f, cb_data = Some f /\ wrong (f i c env)) \/
    (exists f, cb_disconnect = Some f /\ wrong (f i c env)).
#[local] Abbreviation fails := callback_fails.

(** Nobody has to be in order. *)
Definition anyhow (_ : gset Z) (_ : C) : Prop := True.

(** Some address has a check that is undefined. *)
Definition check_fails : Prop :=
  exists w addr, wl = Some w /\ 0 <= addr < 2 ^ 32 /\ whitelist_check w (AF_INET addr) = Undef.

Context (Hquiet : quiet).

Lemma quiet_keeps (Bad : Prop) : (fails -> Bad) -> callbacks_keep cb_connect cb_data cb_disconnect anyhow Bad fails.
Proof.
  intros HB. split; intros f i c env Hf _.
  - pose proof (quiet_connect Hquiet f i c env) as Hq. destruct (f i c env) as [[r env']| |] eqn:E1; [split; eauto|apply HB|];
      exists i, c, env; left; exists f; by rewrite E1.
  - pose proof (quiet_data Hquiet f i c env) as Hq. destruct (f i c env) as [[r env']| |] eqn:E1; [split; eauto; done|apply HB|];
      exists i, c, env; right; left; exists f; by rewrite E1.
  - pose proof (quiet_disconnect Hquiet f i c env) as Hq. destruct (f i c env) as [[r env']| |] eqn:E1; [split; eauto|apply HB|];
      exists i, c, env; right; right; exists f; by rewrite E1.
Qed.

Lemma check_undefined w addr : wl = Some w -> 0 <= addr < 2 ^ 32 -> whitelist_check w (AF_INET addr) = Undef -> fails \/ check_fails.
Proof. intros Hw Ha Hu. right. by exists w, addr. Qed.

Lemma anyhow_os : os_keeps anyhow.
Proof. split; try done. intros A fd env r a env' _ _. by destruct (0 <=? r). Qed.

Lemma listening_works s : listening s -> works wl cb_connect cb_data cb_disconnect others anyhow ∅ s.
Proof. done. Qed.

Lemma close_ok i s c : listening s -> connections (s_srv s) !! i = Some c -> is_open c = true ->
  outcome fails fails (tcp_server_close_connection i s) (fun _ s' => listening s' /\
    connections (s_srv s') = alter closed_conn i (connections (s_srv s))).
Proof.
  intros Hs Hi Ho. eapply outcome_mono; [apply (close_works wl cb_connect cb_data cb_disconnect others anyhow fails fails anyhow_os (quiet_keeps fails id) i s c ∅); [done|set_solver|done..]|].
  by intros _ s' [[? _] ?].
Qed.

Lemma poll_ok timeout_ms s : listening s ->
  outcome (fails \/ check_fails) fails (tcp_server_poll timeout_ms s) (fun r s' => listening s' /\ -1 <= r <= 17).
Proof.
  intros Hs. eapply outcome_mono; [by apply (poll_works wl cb_connect cb_data cb_disconnect others anyhow (fails \/ check_fails) fails anyhow_os (quiet_keeps _ (@or_introl _ _)) check_undefined)|]. by intros r s' [[? _] ?].
Qed.

Lemma start_ok port env : open_fds env = others ->
  exists r s', tcp_server_start (mk_sstate (fresh_server wl cb_connect cb_data cb_disconnect port) env) = Done (r, s') /\
    (r = 0 /\ listening s' /\ connection_count (s_srv s') = 0 \/
     r = -1 /\ running (s_srv s') = false /\ listen_fd (s_srv s') < 0 /\ open_fds (s_env s') = others).
Proof.
  intros Henv. destruct (start_works wl cb_connect cb_data cb_disconnect others anyhow fails fails anyhow_os (quiet_keeps fails id) port env Henv) as (r & s' & E1 & Hr); [done|].
  exists r, s'. split; [done|]. destruct Hr as [(? & [? _] & ?)|(? & ? & ? & ? & _)]; [by left|by right].
Qed.

Lemma stop_ok s : listening s ->
  outcome fails fails (tcp_server_stop s) (fun _ s' => open_fds (s_env s') = others /\ open_slots (connections (s_srv s')) = [] /\
    connection_count (s_srv s') = 0 /\ listen_fd (s_srv s') = -1 /\ running (s_srv s') = false).
Proof.
  intros Hs. eapply outcome_mono; [by apply (stop_works wl cb_connect cb_data cb_disconnect others anyhow fails fails anyhow_os (quiet_keeps fails id))|]. by intros r s' [_ ?].
Qed.
End Quiet.

(** ** The life of a server *)

Section Life.
Context {C : Type} `{TcpOsLaws C}.
Context (port : Z) (wl : option whitelist_t) (cb_connect cb_data : option (nat -> tcp_connection_t -> M C Z)).
Context (cb_disconnect : option (nat -> tcp_connection_t -> M C unit)) (env : C).
#[local] Abbreviation listening := (Listening wl cb_connect cb_data cb_disconnect (open_fds env)).
#[local] Abbreviation fails := (callback_fails cb_connect cb_data cb_disconnect).

(** The states of a started server between two calls of its interface. *)
Inductive serving : sstate C -> Prop :=
  | serving_start s :
      tcp_server_start (mk_sstate (fresh_server wl cb_connect cb_data cb_disconnect port) env) = Done (0, s) -> serving s
  | serving_poll s timeout_ms r s' :
      serving s -> tcp_server_poll timeout_ms s = Done (r, s') -> serving s'
  | serving_close s i c s' :
      serving s -> connections (s_srv s) !! i = Some c ->
      tcp_server_close_connection i s = Done (tt, s') -> serving s'.

Context (Hquiet : quiet cb_connect cb_data cb_disconnect).

Lemma serving_listening s : serving s -> listening s.
Proof.
  induction 1 as [s Hs|s t r s' _ IH Hs|s i c s' _ IH Hi Hs].
  - destruct (start_ok wl cb_connect cb_data cb_disconnect (open_fds env) Hquiet port env eq_refl) as (r & s' & E1 & Hr).
    rewrite Hs in E1. injection E1 as <- <-. by destruct Hr as [(_ & ? & _)|(? & _)].
  - pose proof (poll_ok wl cb_connect cb_data cb_disconnect (open_fds env) Hquiet t s IH) as Hp.
    rewrite Hs in Hp. by destruct Hp.
  - destruct (is_open c) eqn:Ho.
    + pose proof (close_ok wl cb_connect cb_data cb_disconnect (open_fds env) Hquiet i s c IH Hi Ho) as Hp.
      rewrite Hs in Hp. by destruct Hp.
    + unfold tcp_server_close_connection in Hs. rewrite (bind_done _ _ _ _ _ (conn_at_ok i s c Hi)), Ho in Hs. by injection Hs as <-.
Qed.

(** C13: the server's invariant.  In every state of a started server, between
    polls and closures, whatever the clients do and the white list holds: the
    sixteen slots, their count, the descriptors and [max_fd] agree, no
    descriptor of the process is lost or shared, every open slot belongs to an
    address that the white list does not block.  A poll answers between -1 and
    17.  It leaves defined behaviour only where a callback does or where the
    white list has an address whose check is undefined (an entry with a prefix
    of length 0), and is held up only inside a callback. *)
Theorem tcp_server_invariant (s : sstate C) (timeout_ms : Z) :
  serving s ->
  listening s /\ 0 <= connection_count (s_srv s) <= MAX_CONNECTIONS /\
  match tcp_server_poll timeout_ms s with
  | Done (r, s') => -1 <= r <= 1 + MAX_CONNECTIONS /\ listening s'
  | Undef => fails \/ check_fails wl
  | Stuck => fails
  end.
Proof.
  intros Hs. apply serving_listening in Hs. split; [done|]. split.
  - rewrite (lis_count _ _ _ _ _ s Hs). pose proof (lis_slots _ _ _ _ _ s Hs) as Hn.
    pose proof (length_filter (fun c => is_open c = true) (connections (s_srv s))) as Hle.
    unfold zlen, open_slots, MAX_CONNECTIONS in *. lia.
  - pose proof (poll_ok wl cb_connect cb_data cb_disconnect (open_fds env) Hquiet timeout_ms s Hs) as Hp.
    unfold outcome in Hp. destruct (tcp_server_poll timeout_ms s) as [[r s']| |]; [|done..]. destruct Hp as [? ?].
    split; [unfold MAX_CONNECTIONS; lia|done].
Qed.

(** C15: starting and stopping.  Starting answers 0 with a server that listens
    and has no client, or -1 with nothing left open; stopping a server in any
    state it can be in closes every descriptor it opened and no other, and
    leaves every slot closed. *)
Theorem tcp_start_stop (s : sstate C) :
  (exists r s', tcp_server_start (mk_sstate (fresh_server wl cb_connect cb_data cb_disconnect port) env) = Done (r, s') /\
    (r = 0 /\ serving s' /\ connection_count (s_srv s') = 0 \/
     r = -1 /\ running (s_srv s') = false /\ listen_fd (s_srv s') < 0 /\ open_fds (s_env s') = open_fds env)) /\
  (serving s ->
   match tcp_server_stop s with
   | Done (_, s') =>
       open_fds (s_env s') = open_fds env /\ Forall (fun c => is_open c = false) (connections (s_srv s')) /\
       connection_count (s_srv s') = 0 /\ listen_fd (s_srv s') = -1 /\ running (s_srv s') = false
   | _ => fails
   end).
Proof.
  split.
  - destruct (start_ok wl cb_connect cb_data cb_disconnect (open_fds env) Hquiet port env eq_refl) as (r & s' & E1 & Hr).
    exists r, s'. split; [done|]. destruct Hr as [(-> & _ & Hc)|?]; [left|by right]. split; [done|]. split; [|done].
    by apply serving_start.
  - intros Hs%serving_listening. pose proof (stop_ok wl cb_connect cb_data cb_disconnect (open_fds env) Hquiet s Hs) as Hp.
    unfold outcome in Hp. destruct (tcp_server_stop s) as [[[] s']| |]; [|done..].
    destruct Hp as (H1 & H2 & H3). split; [done|]. split; [|done].
    apply Forall_forall. intros c Hc. apply not_true_iff_false. intros Ho.
    assert (Hin : c ∈ open_slots (connections (s_srv s'))) by (by apply list_elem_of_filter). rewrite H2 in Hin. set_solver.
Qed.
End Life.

(** ** A rejection that is not heard *)

Section Rejected.
Context {C : Type} `{TcpOs C}.

Lemma os_runs {A} (call : C -> A * C) (s : sstate C) :
  exists a env, os call s = Done (a, mk_sstate (s_srv s) env).
Proof. unfold os. destruct (call (s_env s)) as [a env]. by exists a, env. Qed.

Lemma tune_runs fd (s : sstate C) : exists env, tune_socket fd s = Done (tt, mk_sstate (s_srv s) env).
Proof.
  unfold tune_socket.
  destruct (os_runs (os_setsockopt fd TCP_NODELAY 1) s) as (a1 & e1 & E1). rewrite (bind_done _ _ _ _ _ E1).
  destruct (os_runs (os_setsockopt fd TCP_QUICKACK 1) (mk_sstate (s_srv s) e1)) as (a2 & e2 & E2). rewrite (bind_done _ _ _ _ _ E2).
  destruct (os_runs (os_setsockopt fd SO_RCVBUF TCP_RECV_BUFFER_SIZE) (mk_sstate (s_srv s) e2)) as (a3 & e3 & E3).
  cbn [s_srv] in E3 |- *. rewrite (bind_done _ _ _ _ _ E3).
  destruct (os_runs (os_setsockopt fd SO_SNDBUF TCP_SEND_BUFFER_SIZE) (mk_sstate (s_srv s) e3)) as (a4 & e4 & E4).
  cbn [s_srv] in E4 |- *. rewrite (bind_done _ _ _ _ _ E4). by exists e4.
Qed.

Lemma free_slot_lookup (sv : tcp_server_t C) j : find_free_slot sv = Some j ->
  exists c, connections sv !! j = Some c /\ is_open c = false.
Proof. intros (k & c & -> & Hk)%free_from_ok. by exists c. Qed.

(** C32: the answer of the connection callback is not looked at.  A client
    that the white list lets through while a slot is free gets the slot, is
    counted and stays connected, although the callback asks for its rejection
    by answering 1. *)
Theorem rejected_client_stays (s : sstate C) (j : nat) (fd addr : Z) (env : C) (f : nat -> tcp_connection_t -> M C Z) :
  os_accept (listen_fd (s_srv s)) (s_env s) = ((fd, addr), env) -> 0 <= fd ->
  match srv_whitelist (s_srv s) with
  | Some wl => exists r, whitelist_check wl (AF_INET addr) = Done r /\ r <> WHITELIST_BLOCKED
  | None => True
  end ->
  find_free_slot (s_srv s) = Some j -> on_connect (s_srv s) = Some f ->
  (forall i c env, exists env', f i c env = Done (1, env')) ->
  exists s' now, accept_client s = Done (1, s') /\
    connections (s_srv s') !! j = Some (mk_conn fd CONN_STATE_CONNECTED addr now 0 0) /\
    connection_count (s_srv s') = connection_count (s_srv s) + 1.
Proof.
  intros Ha Hfd Hwl Hj Hf Hr. unfold accept_client. rewrite (bind_done srv _ _ _ _ eq_refl).
  assert (E1 : os (os_accept (listen_fd (s_srv s))) s = Done ((fd, addr), mk_sstate (s_srv s) env)) by (unfold os; by rewrite Ha).
  rewrite (bind_done _ _ _ _ _ E1), (proj2 (Z.ltb_ge fd 0)) by done.
  match goal with |- context [(?m ≫= ?k) ?x] => assert (E2 : m x = Done (false, x)) end.
  { destruct (srv_whitelist (s_srv s)) as [wl|]; [|done]. destruct Hwl as (r & Hck & Hne).
    rewrite Hck. unfold lift_exec, mbind, M_bind, mret, M_ret. by rewrite bool_decide_eq_false_2. }
  rewrite (bind_done _ _ _ _ _ E2). unfold admit_client. rewrite (bind_done srv _ _ _ _ eq_refl). cbn [s_srv]. rewrite Hj.
  destruct (free_slot_lookup _ _ Hj) as (c & Hc & _).
  destruct (os_runs os_time (mk_sstate (s_srv s) env)) as (now & e1 & E3). rewrite (bind_done _ _ _ _ _ E3). cbn [s_srv].
  set (conn := mk_conn fd CONN_STATE_CONNECTED addr now 0 0).
  set (sv := (s_srv s) <| connections := alter (fun _ => conn) j (connections (s_srv s)) |>).
  unfold set_conn. rewrite set_then. change (setter connections _ (s_srv s)) with sv.
  destruct (tune_runs fd (mk_sstate sv e1)) as (e2 & E4). rewrite (bind_done _ _ _ _ _ E4). cbn [s_srv].
  rewrite !set_then. set (sv' := update_max_fd _). rewrite (bind_done srv _ _ _ _ eq_refl). cbn [s_srv].
  change (on_connect sv') with (on_connect (s_srv s)). rewrite Hf.
  destruct (Hr j conn e2) as (e3 & E5).
  assert (E6 : callback (f j conn) (mk_sstate sv' e2) = Done (1, mk_sstate sv' e3)) by (unfold callback, zoom; cbn [s_env]; by rewrite E5).
  rewrite (bind_done _ _ _ _ _ E6). exists (mk_sstate sv' e3), now. split; [done|]. split; [|done].
  change (connections (s_srv (mk_sstate sv' e3))) with (alter (fun _ => conn) j (connections (s_srv s))).
  by rewrite list_lookup_alter_eq, Hc.
Qed.
End Rejected.

(** ** Addresses as text *)

From Stdlib Require Import Ascii String.

Lemma pton_octet_app seen v s w rest :
  pton_octet seen v s = Some (w, ""%string) ->
  match rest with String c _ => isdigit c = false | EmptyString => True end ->
  pton_octet seen v (s +:+ rest)%string = Some (w, rest).
Proof.
  intros Hs Hr. revert seen v Hs. induction s as [|c s IH]; intros seen v Hs.
  - rewrite app_string_empty. cbn in Hs. destruct seen; [|done]. injection Hs as ->.
    destruct rest as [|c r]; cbn; [done|]. by rewrite Hr.
  - rewrite app_string_cons. cbn [pton_octet] in Hs |- *. destruct (isdigit c).
    + destruct (seen && (v =? 0)); [done|]. destruct (255 <? v * 10 + (code c - 48)); [done|]. by apply IH.
    + by destruct seen.
Qed.

Lemma octet_text : forallb (fun v => bool_decide (pton_octet false 0 (fmt_u v) = Some (v, ""%string)) && (strlen (fmt_u v) <=? 3)) (seqZ 0 256) = true.
Proof. vm_compute. reflexivity. Qed.

Lemma octet_ok v : 0 <= v < 256 -> pton_octet false 0 (fmt_u v) = Some (v, ""%string) /\ strlen (fmt_u v) <= 3.
Proof.
  intros Hv. pose proof octet_text as H. rewrite forallb_forall in H.
  assert (Hin : In v (seqZ 0 256)) by (apply list_elem_of_In, elem_of_seqZ; lia).
  apply H in Hin. apply andb_true_iff in Hin as [H1%bool_decide_eq_true H2%Z.leb_le]. done.
Qed.

Lemma pton_rest_octet n v rest vs : 0 <= v < 256 ->
  match rest with String c _ => isdigit c = false | EmptyString => True end ->
  pton_rest n rest = Some vs ->
  pton_rest (S n) ("." +:+ (fmt_u v +:+ rest))%string = Some (v :: vs).
Proof.
  intros Hv Hr Hn. rewrite app_string_cons, app_string_empty. cbn [pton_rest]. rewrite Ascii.eqb_refl.
  rewrite (pton_octet_app _ _ _ v) by (done || by apply octet_ok). cbn [mbind option_bind]. by rewrite Hn.
Qed.

Lemma inet_ntop_short ip : strlen (inet_ntop ip) < 16.
Proof.
  unfold inet_ntop.
  destruct (octet_ok _ (Z.mod_pos_bound ip 256 eq_refl)) as [_ L0]. destruct (octet_ok _ (Z.mod_pos_bound (ip / 256) 256 eq_refl)) as [_ L1].
  destruct (octet_ok _ (Z.mod_pos_bound (ip / 65536) 256 eq_refl)) as [_ L2]. destruct (octet_ok _ (Z.mod_pos_bound (ip / 16777216) 256 eq_refl)) as [_ L3].
  unfold strlen in *. rewrite !length_app_string. cbn [String.length]. lia.
Qed.

Lemma inet_ntop_ok ip : 0 <= ip < 2 ^ 32 -> strlen (inet_ntop ip) < 16 /\ inet_pton (inet_ntop ip) = Some ip.
Proof.
  intros Hip. split; [apply inet_ntop_short|]. unfold inet_ntop.
  pose proof (Z.mod_pos_bound ip 256 eq_refl) as B0. pose proof (Z.mod_pos_bound (ip / 256) 256 eq_refl) as B1.
  pose proof (Z.mod_pos_bound (ip / 65536) 256 eq_refl) as B2. pose proof (Z.mod_pos_bound (ip / 16777216) 256 eq_refl) as B3.
  destruct (octet_ok _ B0) as [P0 _].
  unfold inet_pton. rewrite (pton_octet_app _ _ _ (ip mod 256) _ P0) by done. cbn [mbind option_bind].
  rewrite <- (app_string_nil (fmt_u (ip / 16777216 mod 256))).
  rewrite (pton_rest_octet 2 _ _ [ip / 65536 mod 256; ip / 16777216 mod 256]); [|done|done|].
  - cbn [mbind option_bind]. f_equal. pose proof (Z.div_mod ip 256). pose proof (Z.div_mod (ip / 256) 256).
    pose proof (Z.div_mod (ip / 65536) 256). rewrite !Z.div_div in * by lia. change (256 * 256) with 65536 in *.
    change (65536 * 256) with 16777216 in *.
    assert (ip / 16777216 < 256) by (apply Z.div_lt_upper_bound; lia).
    assert (0 <= ip / 16777216) by (apply Z.div_pos; lia).
    rewrite (Z.mod_small (ip / 16777216)) by lia. lia.
  - apply pton_rest_octet; [done|done|]. by apply pton_rest_octet.
Qed.

(** Different addresses have different texts. *)
Lemma inet_ntop_inj a b : 0 <= a < 2 ^ 32 -> 0 <= b < 2 ^ 32 -> inet_ntop a = inet_ntop b -> a = b.
Proof.
  intros Ha Hb Heq. destruct (inet_ntop_ok a Ha) as [_ E1]. destruct (inet_ntop_ok b Hb) as [_ E2]. congruence.
Qed.

Lemma connection_ip_ok conn : 0 <= conn_addr conn < 2 ^ 32 -> tcp_connection_ip conn 16 = Some (inet_ntop (conn_addr conn)).
Proof.
  intros Hip. unfold tcp_connection_ip. cbn [Z.eqb]. by rewrite (proj2 (Z.ltb_lt _ _)) by (by apply inet_ntop_ok).
Qed.

(** The textual address that the client lock keeps and compares is
    faithful: it fits the 16 bytes of its buffer, and reading it back gives
    the address. *)
Theorem inet_roundtrip (conn : tcp_connection_t) :
  0 <= conn_addr conn < 2 ^ 32 ->
  exists s, tcp_connection_ip conn 16 = Some s /\ inet_pton s = Some (conn_addr conn).
Proof.
  intros Hip. exists (inet_ntop (conn_addr conn)). split; [by apply connection_ip_ok|by apply inet_ntop_ok].
Qed.

(** ** A process to run the server in

    Descriptors from 3 up, a script of [select] answers and a list of peers. *)

Record sim_os := mk_os { so_open : list Z; so_script : list select_answer; so_peers : list Z }.

Definition so_fresh (c : sim_os) : option Z := List.find (fun fd => negb (in_set fd (so_open c))) (seqZ 3 1021).

Definition so_allocate (c : sim_os) : Z * sim_os :=
  match so_fresh c with
  | Some fd => (fd, mk_os (fd :: so_open c) (so_script c) (so_peers c))
  | None => (-1, c)
  end.

#[export] Instance sim_tcp_os : TcpOs sim_os := {
  os_socket := so_allocate;
  os_setsockopt _ _ _ c := (0, c);
  os_bind _ _ c := (0, c);
  os_listen _ _ c := (0, c);
  os_select _ _ _ _ c :=
    match so_script c with
    | a :: l => (a, mk_os (so_open c) l (so_peers c))
    | [] => (mk_select 0 false [] [], c)
    end;
  os_accept _ c :=
    let '(fd, c') := so_allocate c in ((fd, u32 (hd 0 (so_peers c))), mk_os (so_open c') (so_script c') (tl (so_peers c')));
  os_close fd c := (0, mk_os (List.filter (fun x => negb (x =? fd)) (so_open c)) (so_script c) (so_peers c));
  os_time c := (1000, c)
}.

Definition so_fds (c : sim_os) : gset Z := list_to_set (List.filter fd_ok (so_open c)).

Lemma so_fds_spec c fd : fd ∈ so_fds c <-> In fd (so_open c) /\ fd_ok fd = true.
Proof. unfold so_fds. by rewrite elem_of_list_to_set, list_elem_of_In, filter_In. Qed.

Lemma in_set_spec fd l : in_set fd l = true <-> In fd l.
Proof.
  unfold in_set. rewrite existsb_exists. split; [|by exists fd; rewrite Z.eqb_refl].
  intros (x & Hx & Heq). apply Z.eqb_eq in Heq as ->. done.
Qed.

Lemma so_allocate_fds c r c' : so_allocate c = (r, c') ->
  if 0 <=? r then (r ∉ so_fds c) /\ so_fds c' = {[ r ]} ∪ so_fds c else so_fds c' = so_fds c.
Proof.
  unfold so_allocate. destruct (so_fresh c) as [fd|] eqn:Ef; intros [= <- <-]; [|done].
  apply find_some in Ef as [Hin Hnew%negb_true_iff].
  apply list_elem_of_In, elem_of_seqZ in Hin. rewrite (proj2 (Z.leb_le 0 fd)) by lia. split.
  - rewrite so_fds_spec. intros [Hin' _]. apply in_set_spec in Hin'. by rewrite Hin' in Hnew.
  - apply set_eq. intros x. rewrite elem_of_union, elem_of_singleton, !so_fds_spec. cbn [so_open In].
    assert (fd_ok fd = true) by (unfold fd_ok, FD_SETSIZE; apply andb_true_iff; split; [apply Z.leb_le|apply Z.ltb_lt]; lia).
    naive_solver.
Qed.

#[export] Program Instance sim_os_laws : TcpOsLaws sim_os := { open_fds := so_fds }.
Next Obligation. intros c r c' Hc. by apply so_allocate_fds. Qed.
Next Obligation.
  intros fd c r a c'. cbn. destruct (so_allocate c) as [r' c1] eqn:Ea. intros [= <- <- <-].
  apply so_allocate_fds in Ea. change (so_fds (mk_os (so_open c1) (so_script c1) (tl (so_peers c1)))) with (so_fds c1).
  destruct (0 <=? r'); [|done]. destruct Ea. split; [done|]. split; [done|]. apply u32_range.
Qed.
Next Obligation. intros c fd [_ Hok]%so_fds_spec. unfold fd_ok in Hok. zb. done. Qed.
Next Obligation.
  intros fd c. apply set_eq. intros x. rewrite elem_of_difference, elem_of_singleton, !so_fds_spec. cbn.
  rewrite filter_In, negb_true_iff, Z.eqb_neq. naive_solver.
Qed.
Next Obligation. done. Qed.
Next Obligation. done. Qed.
Next Obligation. done. Qed.
Next Obligation. intros n r e t c. cbn. by destruct (so_script c). Qed.
Next Obligation. done. Qed.

(** A server with a strict white list and callbacks that would reject every
    client; one client of the listed network connects and sends, one is
    outside of it. *)
Definition sim_wl : whitelist_t := mk_whitelist WHITELIST_STRICT [mk_wl_entry "10.1.0.0/16" 16 false].
Definition sim_peers : list Z := [10 + 2 ^ 8 * 1 + 2 ^ 16 * 9 + 2 ^ 24 * 7; 11].
Definition sim_env : sim_os :=
  mk_os [0; 1; 2] [mk_select 1 false [3] []; mk_select 2 false [3; 4] []; mk_select (-1) true [] []] sim_peers.
Definition sim_connect : option (nat -> tcp_connection_t -> M sim_os Z) := Some (fun _ _ => mret 1).
Definition sim_data : option (nat -> tcp_connection_t -> M sim_os Z) := Some (fun _ _ => mret 1).
Definition sim_disconnect : option (nat -> tcp_connection_t -> M sim_os unit) := Some (fun _ _ => mret tt).

Definition sim_server : sstate sim_os :=
  mk_sstate (fresh_server (Some sim_wl) sim_connect sim_data sim_disconnect 2542) sim_env.

Definition after {A} (m : M (sstate sim_os) A) (s : sstate sim_os) : sstate sim_os :=
  match m s with Done (_, s') => s' | _ => s end.

Definition sim_started : sstate sim_os := after tcp_server_start sim_server.
Definition sim_polled : sstate sim_os := after (tcp_server_poll 1000) sim_started.

Example sim_polls :
  (connection_count (s_srv sim_polled), so_open (s_env sim_polled)) = (1, [4; 3; 0; 1; 2]) /\
  so_open (s_env (after (tcp_server_poll 1000) sim_polled)) = [3; 0; 1; 2].
Proof. by vm_compute. Qed.

Lemma sim_tcp_serving : serving 2542 (Some sim_wl) sim_connect sim_data sim_disconnect sim_env sim_polled.
Proof.
  apply (serving_poll _ _ _ _ _ _ sim_started 1000 1); [|by vm_compute].
  apply serving_start. by vm_compute.
Qed.

Lemma sim_quiet : quiet sim_connect sim_data sim_disconnect.
Proof. split; intros f i c env r env' [= <-] [= <- <-]; done. Qed.

Lemma tcp_server_invariant_witness :
  Listening (Some sim_wl) sim_connect sim_data sim_disconnect (open_fds sim_env) sim_polled /\
  0 <= connection_count (s_srv sim_polled) <= MAX_CONNECTIONS /\
  match tcp_server_poll 1000 sim_polled with
  | Done (r, s') => -1 <= r <= 1 + MAX_CONNECTIONS /\ Listening (Some sim_wl) sim_connect sim_data sim_disconnect (open_fds sim_env) s'
  | Undef => callback_fails sim_connect sim_data sim_disconnect \/ check_fails (Some sim_wl)
  | Stuck => callback_fails sim_connect sim_data sim_disconnect
  end.
Proof. exact (tcp_server_invariant 2542 (Some sim_wl) _ _ _ _ sim_quiet sim_polled 1000 sim_tcp_serving). Defined.

Lemma tcp_start_stop_witness :
  match tcp_server_stop sim_polled with
  | Done (_, s') =>
      open_fds (s_env s') = open_fds sim_env /\ Forall (fun c => is_open c = false) (connections (s_srv s')) /\
      connection_count (s_srv s') = 0 /\ listen_fd (s_srv s') = -1 /\ running (s_srv s') = false
  | _ => callback_fails sim_connect sim_data sim_disconnect
  end.
Proof. exact (proj2 (tcp_start_stop 2542 (Some sim_wl) _ _ _ _ sim_quiet sim_polled) sim_tcp_serving). Defined.

Lemma rejected_client_stays_witness :
  exists s' now, accept_client sim_started = Done (1, s') /\
    connections (s_srv s') !! 0%nat = Some (mk_conn 4 CONN_STATE_CONNECTED (hd 0 sim_peers) now 0 0) /\
    connection_count (s_srv s') = connection_count (s_srv sim_started) + 1.
Proof.
  apply (rejected_client_stays sim_started 0 4 (hd 0 sim_peers)
    (mk_os [4; 3; 0; 1; 2] [mk_select 1 false [3] []; mk_select 2 false [3; 4] []; mk_select (-1) true [] []] [11])
    (fun _ _ => mret 1)); try by vm_compute.
  - exists WHITELIST_ALLOWED. by vm_compute.
  - intros i c env. by exists env.
Defined.

Lemma inet_roundtrip_witness :
  let conn := mk_conn 4 CONN_STATE_CONNECTED (192 + 2 ^ 8 * 168 + 2 ^ 24 * 7) 0 0 0 in
  0 <= conn_addr conn < 2 ^ 32 /\ exists s, tcp_connection_ip conn 16 = Some s /\ inet_pton s = Some (conn_addr conn).
Proof. intros conn. assert (H : 0 <= conn_addr conn < 2 ^ 32) by (cbn; lia). split; [done|]. by apply inet_roundtrip. Defined.
