(* ===== verification/Instance.v ===== *)
(** main.c, the instance process: signals, the client lock, the callbacks of
    the server and [run_instance].

    An instance owns a white list, a server, a protocol context and an FTDI
    adapter.  The server is the state that TcpServer.v threads; the rest of
    the process is [istate], on which the callbacks act.  A connection pointer
    is the slot it points to. *)

From S2P Require Import Prelude CString Memory D2xx Config Whitelist.
From S2P Require Import FtdiAdapter XvcProtocol XvcServer TcpServer.
From stdpp Require Import strings.
Open Scope Z_scope.

(** ** Signals *)

Inductive signal := SIGTERM | SIGINT | SIGHUP | SIGCHLD.

(** The flags that the handler sets. *)
Record globals := mk_globals { g_running : bool; g_reload : bool }.
#[export] Instance eta_globals : Eta globals := fun g => mk_globals (g_running g) (g_reload g).

Definition signal_handler (g : globals) (sig : signal) : globals :=
  match sig with
  | SIGTERM | SIGINT => g <| g_running := false |>
  | SIGHUP => g <| g_reload := true |>
  | SIGCHLD => g
  end.

(** Whether a signal asks the process to stop. *)
Definition stops (sigs : list signal) : bool := existsb (fun sig => match sig with SIGTERM | SIGINT => true | _ => false end) sigs.

Lemma stopped_stays g sigs : g_running g = false -> g_running (foldl signal_handler g sigs) = false.
Proof. revert g. induction sigs as [|sig sigs IH]; intros g Hg; [done|]. cbn. apply IH. by destruct sig. Qed.

Lemma stop_stops g sigs : stops sigs = true -> g_running (foldl signal_handler g sigs) = false.
Proof.
  revert g. induction sigs as [|sig sigs IH]; intros g; [done|]. cbn. destruct sig; cbn; try apply IH; intros _; by apply stopped_stays.
Qed.

(** The signals that have arrived since the flags were last looked at. *)
Class Signals (W : Type) := { arrived : W -> list signal * W }.

(** ** State *)

Definition INET_ADDRSTRLEN : Z := 16.

(** [instance_ctx_t] without its server and white list, the heap, the adapter
    with the driver's world [WD], and the operating system's world [WS]. *)
Record istate (WD WS : Type) := mk_istate {
  i_globals : globals;
  locked_client_ip : string;
  lock_until : Z;
  is_locked : bool;
  active_xvc_conn : option nat;
  i_x : xstate (ftdi_context * WD) WS
}.
Arguments mk_istate {WD WS}.
Arguments i_globals {WD WS} _.
Arguments locked_client_ip {WD WS} _.
Arguments lock_until {WD WS} _.
Arguments is_locked {WD WS} _.
Arguments active_xvc_conn {WD WS} _.
Arguments i_x {WD WS} _.
#[export] Instance eta_istate {WD WS} : Eta (istate WD WS) := fun s =>
  mk_istate (i_globals s) (locked_client_ip s) (lock_until s) (is_locked s) (active_xvc_conn s) (i_x s).

Section Instance.
Context {WD WS : Type} `{D2XX WD} `{TcpOs WS} `{Sockets WS} `{Signals WS}.
#[local] Abbreviation I := (M (istate WD WS)).

(** The server's system calls reach the operating system of the process. *)
Definition lift_os {A} (call : WS -> A * WS) (s : istate WD WS) : A * istate WD WS :=
  let '(a, w) := call (x_w (i_x s)) in (a, s <| i_x := (i_x s) <| x_w := w |> |>).

#[export] Instance process_os : TcpOs (istate WD WS) := {
  os_socket := lift_os os_socket;
  os_setsockopt fd o v := lift_os (os_setsockopt fd o v);
  os_bind fd p := lift_os (os_bind fd p);
  os_listen fd n := lift_os (os_listen fd n);
  os_select n r e t := lift_os (os_select n r e t);
  os_accept fd := lift_os (os_accept fd);
  os_close fd := lift_os (os_close fd);
  os_time := lift_os os_time
}.

Definition ictx : I (istate WD WS) := get_state.
Definition set_ictx (f : istate WD WS -> istate WD WS) : I unit := modify f.
Definition iget {A} (f : istate WD WS -> A) : I A := gets f.

(** [time(NULL)] *)
Definition time_null : I Z := fun s => Done (os_time s).

Definition on_xvc {A} (op : M (xstate (ftdi_context * WD) WS) A) : I A :=
  zoom i_x (fun x s => s <| i_x := x |>) op.

(** An operation of the adapter. *)
Definition ftdi_op {A} (op : M (fstate WD) A) : I A := fun s =>
  match op (mk_fstate (x_ad (i_x s)).1 (x_mem (i_x s)) (x_ad (i_x s)).2) with
  | Done (a, f) => Done (a, s <| i_x := (i_x s) <| x_mem := fs_mem f |> <| x_ad := (fs_ctx f, fs_w f) |> |>)
  | Undef => Undef
  | Stuck => Stuck
  end.

(** ** The client lock *)

Section Callbacks.
Context (config : xvc_instance_config_t).

(** [tcp_connection_ip] into a buffer of the program; a null result would
    leave it uninitialised. *)
Definition client_ip (conn : tcp_connection_t) : I string :=
  lift_exec (of_option (tcp_connection_ip conn INET_ADDRSTRLEN)).

Definition client_ip_matches (conn : tcp_connection_t) : I bool :=
  c ← ictx;
  if negb (is_locked c) then mret true
  else ip ← client_ip conn; mret (String.eqb ip (locked_client_ip c)).

Definition is_lock_expired : I bool :=
  c ← ictx;
  if negb (is_locked c) then mret true
  else now ← time_null; mret (lock_until c <=? now).

Definition release_client_lock : I unit :=
  c ← ictx;
  if is_locked c then
    set_ictx (fun c => c <| is_locked := false |> <| locked_client_ip := ""%string |> <| lock_until := 0 |>)
  else mret tt.

Definition set_client_lock (ip : string) : I unit :=
  if 0 <? client_lock_timeout config then
    now ← time_null;
    set_ictx (fun c => c <| locked_client_ip := truncated INET_ADDRSTRLEN ip |>
                         <| lock_until := now + client_lock_timeout config |> <| is_locked := true |>)
  else mret tt.

(** ** The callbacks *)

Definition on_client_connect (i : nat) (conn : tcp_connection_t) : I Z :=
  ip ← client_ip conn;
  c ← ictx;
  expired ← (if is_locked c then is_lock_expired else mret false);
  _ ← (if (expired : bool) then release_client_lock else mret tt);
  c ← ictx;
  if negb (bool_decide (active_xvc_conn c = None \/ active_xvc_conn c = Some i)) then mret 1
  else
    matches ← (if is_locked c then client_ip_matches conn else mret true);
    if negb (matches : bool) then
      _ ← time_null;
      mret 1
    else
      _ ← (if negb (is_locked c) && (0 <? client_lock_timeout config) then set_client_lock ip else mret tt);
      mret 0.

Definition on_client_data (i : nat) (conn : tcp_connection_t) : I Z :=
  c ← ictx;
  _ ← (match active_xvc_conn c with
       | None => set_ictx (fun c => c <| active_xvc_conn := Some i |>)
       | Some _ => mret tt
       end);
  ret ← on_xvc (xvc_handle (conn_fd conn) true (Config.xvc_buffer_size config) (inst_frequency config));
  if negb (ret =? 0) then
    _ ← on_xvc xvc_close;
    _ ← on_xvc xvc_free;
    _ ← set_ictx (fun c => c <| active_xvc_conn := None |>);
    mret 1
  else mret 0.

Definition on_client_disconnect (i : nat) (conn : tcp_connection_t) : I unit :=
  c ← ictx;
  if bool_decide (active_xvc_conn c = Some i) then
    ip ← client_ip conn;
    _ ← set_ictx (fun c => c <| active_xvc_conn := None |>);
    if 0 <? client_lock_timeout config then set_client_lock ip else mret tt
  else mret tt.

(** ** The process *)

(** The handler runs for what has arrived. *)
Definition deliver : I unit := fun s =>
  let '(sigs, s') := lift_os arrived s in
  Done (tt, s' <| i_globals := foldl signal_handler (i_globals s') sigs |>).

(** [while (g_running)] around the poll. *)
Definition instance_round (_ : unit) : M (sstate (istate WD WS)) (unit + unit) :=
  _ ← callback deliver;
  g ← callback (iget i_globals);
  if g_running g then
    ret ← tcp_server_poll 1000;
    mret (if ret <? 0 then inr tt else inl tt)
  else mret (inr tt).

Definition instance_loop : M (sstate (istate WD WS)) unit := while_loop instance_round tt.

(** An operation of the server that [run_instance] keeps on its stack. *)
Definition with_server {A} (srv : tcp_server_t (istate WD WS)) (op : M (sstate (istate WD WS)) A)
  : I (A * tcp_server_t (istate WD WS)) := fun s =>
  match op (mk_sstate srv s) with
  | Done (a, s') => Done ((a, s_srv s'), s_env s')
  | Undef => Undef
  | Stuck => Stuck
  end.

(** [memset(&ctx, 0, sizeof(ctx))] and the adapter: [false] when it cannot be
    allocated. *)
Definition new_context : I bool := fun s =>
  let '(c, m) := ftdi_adapter_create (x_mem (i_x s)) in
  let x := (i_x s) <| x_ctx := xvc_zero |> <| x_mem := m |> in
  let s := s <| locked_client_ip := ""%string |> <| lock_until := 0 |> <| is_locked := false |> <| active_xvc_conn := None |> in
  match c with
  | None => Done (false, s <| i_x := x |>)
  | Some c => Done (true, s <| i_x := x <| x_ad := (c, (x_ad x).2) |> |>)
  end.

Definition close_adapter : I unit :=
  _ ← ftdi_op ftdi_adapter_close;
  ftdi_op ftdi_adapter_destroy.

Definition run_instance : I Z :=
  created ← new_context;
  if negb (created : bool) then mret 1
  else
    ret ← ftdi_op (ftdi_adapter_open (-1) (-1) (Some (id_value (device_id config))) 0 0);
    if ret <? 0 then
      _ ← ftdi_op ftdi_adapter_error;
      _ ← ftdi_op ftdi_adapter_destroy;
      mret 1
    else
      _ ← (if 0 <? inst_frequency config then ftdi_op (ftdi_adapter_set_frequency (inst_frequency config)) else mret 0);
      let _ := if 0 <? latency_timer config then ftdi_adapter_set_latency (latency_timer config) else 0 in
      let '(_, wl) := whitelist_load config in
      let srv := tcp_server_set_callbacks (Some on_client_connect) (Some on_client_data) (Some on_client_disconnect)
                   (tcp_server_init (port config) (Some wl)) in
      '(started, srv) ← with_server srv tcp_server_start;
      if started <? 0 then
        _ ← close_adapter;
        mret 1
      else
        '(_, srv) ← with_server srv instance_loop;
        _ ← with_server srv tcp_server_stop;
        _ ← close_adapter;
        mret 0.

End Callbacks.
End Instance.
