(* ===== verification/InstanceLock.v ===== *)
(** The client lock: who may connect, and when the lock is taken. *)

From S2P Require Import Prelude CString Memory D2xx Config Whitelist.
From S2P Require Import SimDevice FtdiAdapter XvcProtocol XvcServer TcpServer TcpInvariant Instance.
From stdpp Require Import strings.
Open Scope Z_scope.

Section Lock.
Context {WD WS : Type} `{D2XX WD} `{TcpOs WS} `{Sockets WS} `{Signals WS}.
Context (config : xvc_instance_config_t).

(** What the process has besides its lock: everything but the clock and the
    session is left alone. *)
Definition same_process (s s' : istate WD WS) : Prop :=
  i_globals s' = i_globals s /\ x_ctx (i_x s') = x_ctx (i_x s) /\ x_mem (i_x s') = x_mem (i_x s) /\ x_ad (i_x s') = x_ad (i_x s).

Definition same_lock (s s' : istate WD WS) : Prop :=
  is_locked s' = is_locked s /\ locked_client_ip s' = locked_client_ip s /\ lock_until s' = lock_until s.

Lemma client_ip_ok conn (s : istate WD WS) : 0 <= conn_addr conn < 2 ^ 32 ->
  client_ip conn s = Done (inet_ntop (conn_addr conn), s).
Proof. intros Hip. unfold client_ip. change INET_ADDRSTRLEN with 16. by rewrite connection_ip_ok. Qed.

Lemma time_ok (s : istate WD WS) : exists w, time_null s = Done ((os_time (x_w (i_x s))).1, s <| i_x := (i_x s) <| x_w := w |> |>).
Proof.
  unfold time_null. cbn [os_time process_os]. unfold lift_os. destruct (os_time (x_w (i_x s))) as [t w]. by exists w.
Qed.

(** The lock of an address, taken now. *)
Lemma set_lock_ok ip (s : istate WD WS) : 0 <= ip < 2 ^ 32 -> 0 < client_lock_timeout config ->
  exists s', set_client_lock config (inet_ntop ip) s = Done (tt, s') /\ same_process s s' /\
    is_locked s' = true /\ locked_client_ip s' = inet_ntop ip /\
    lock_until s' = (os_time (x_w (i_x s))).1 + client_lock_timeout config /\ active_xvc_conn s' = active_xvc_conn s.
Proof.
  intros Hip Ht. unfold set_client_lock. rewrite (proj2 (Z.ltb_lt _ _)) by done.
  destruct (time_ok s) as [w Hw]. rewrite (bind_done _ _ _ _ _ Hw). eexists. split; [reflexivity|].
  split; [done|]. cbn. split; [done|]. split; [|done].
  unfold INET_ADDRSTRLEN. apply truncated_id. by apply inet_ntop_ok.
Qed.

(** The lock is held at the time of the first look at the clock. *)
Definition held (s : istate WD WS) : Prop := is_locked s = true /\ (os_time (x_w (i_x s))).1 < lock_until s.

(** Another connection has the session. *)
Definition busy (i : nat) (s : istate WD WS) : Prop := exists j, active_xvc_conn s = Some j /\ j <> i.

(** Dropping a lock that has run out. *)
Lemma expire_ok (s : istate WD WS) :
  exists s', (expired ← (if is_locked s then is_lock_expired else mret false);
              (if (expired : bool) then release_client_lock else mret tt)) s = Done (tt, s') /\
    same_process s s' /\ active_xvc_conn s' = active_xvc_conn s /\
    (held s /\ same_lock s s' \/ ~ held s /\ is_locked s' = false).
Proof.
  unfold held. destruct (is_locked s) eqn:Hl.
  2: { exists s. split; [done|]. split; [done|]. split; [done|]. right. split; [by intros [? _]|done]. }
  destruct (time_ok s) as [w Hw].
  assert (E1 : is_lock_expired s = Done (lock_until s <=? (os_time (x_w (i_x s))).1, s <| i_x := (i_x s) <| x_w := w |> |>)).
  { unfold is_lock_expired, ictx. rewrite (bind_done get_state _ s s s eq_refl), Hl. cbn [negb].
    by rewrite (bind_done _ _ _ _ _ Hw). }
  rewrite (bind_done _ _ _ _ _ E1). destruct (Z.leb_spec (lock_until s) (os_time (x_w (i_x s))).1) as [Hle|Hlt].
  - unfold release_client_lock, ictx, get_state, mbind, M_bind. cbn [is_locked setter]. rewrite Hl.
    eexists. split; [reflexivity|]. split; [done|]. split; [done|]. right. split; [intros [_ ?]; lia|done].
  - eexists. split; [reflexivity|]. split; [done|]. split; [done|]. by left.
Qed.

Lemma same_process_trans (a b c : istate WD WS) : same_process a b -> same_process b c -> same_process a c.
Proof. unfold same_process. intros (? & ? & ? & ?) (? & ? & ? & ?). split_and!; congruence. Qed.

(** Whether the client is the owner of the lock, if there is one. *)
Lemma matches_ok conn owner (s : istate WD WS) :
  0 <= conn_addr conn < 2 ^ 32 -> 0 <= owner < 2 ^ 32 -> (is_locked s = true -> locked_client_ip s = inet_ntop owner) ->
  (if is_locked s then client_ip_matches conn else mret true) s = Done (negb (is_locked s) || (conn_addr conn =? owner), s).
Proof.
  intros Hip Hown Hl. destruct (is_locked s) eqn:El; [|done]. unfold client_ip_matches, ictx.
  rewrite (bind_done get_state _ s s s eq_refl), El. cbn [negb orb].
  rewrite (bind_done _ _ _ _ _ (client_ip_ok conn s Hip)), (Hl eq_refl).
  unfold mret, M_ret. do 2 f_equal. destruct (Z.eqb_spec (conn_addr conn) owner) as [->|Hne]; [by apply String.eqb_refl|].
  apply String.eqb_neq. intros Heq. by apply Hne, inet_ntop_inj.
Qed.

(** C33: who may connect.  The connection callback answers 1, reject, exactly
    when another connection has the session or the lock is held by another
    address; a lock that has run out is dropped.  It changes nothing but the
    lock: one that is held stays as it is, and when there is none and the
    client is let in, the client's address is locked for the configured time
    (not at all when that is 0). *)
Theorem connect_policy (s : istate WD WS) (i : nat) (conn : tcp_connection_t) (owner : Z) :
  0 <= conn_addr conn < 2 ^ 32 -> 0 <= owner < 2 ^ 32 ->
  (is_locked s = true -> locked_client_ip s = inet_ntop owner) ->
  exists r s', on_client_connect config i conn s = Done (r, s') /\
    (r = 0 \/ r = 1) /\ (r = 1 <-> busy i s \/ held s /\ conn_addr conn <> owner) /\
    same_process s s' /\ active_xvc_conn s' = active_xvc_conn s /\
    (held s -> same_lock s s') /\
    (~ held s -> if decide (r = 0 /\ 0 < client_lock_timeout config)
       then is_locked s' = true /\ locked_client_ip s' = inet_ntop (conn_addr conn) /\
            exists now, lock_until s' = now + client_lock_timeout config
       else is_locked s' = false).
Proof.
  intros Hip Hown Hl. unfold on_client_connect, ictx. rewrite (bind_done _ _ _ _ _ (client_ip_ok conn s Hip)).
  rewrite (bind_done get_state _ s s s eq_refl), bind_assoc_at.
  destruct (expire_ok s) as (s1 & E1 & P1 & A1 & L1). rewrite (bind_done _ _ _ _ _ E1).
  rewrite (bind_done get_state _ s1 s1 s1 eq_refl), A1.
  assert (Hbusy : bool_decide (active_xvc_conn s = None \/ active_xvc_conn s = Some i) = false <-> busy i s).
  { rewrite bool_decide_eq_false. unfold busy. destruct (active_xvc_conn s) as [j|]; naive_solver. }
  destruct (bool_decide (active_xvc_conn s = None \/ active_xvc_conn s = Some i)) eqn:Eb; cbn [negb].
  2: { exists 1, s1. split; [done|]. split; [by right|]. split; [split; [intros _; left; by apply Hbusy|done]|].
       split; [done|]. split; [done|]. split; [by destruct L1 as [[_ ?]|[? _]]|].
       intros Hn. rewrite decide_False by (by intros [? _]). by destruct L1 as [[? _]|[_ ?]]. }
  assert (Hnb : ~ busy i s) by (intros Hb%Hbusy; done).
  assert (Hl1 : is_locked s1 = true -> locked_client_ip s1 = inet_ntop owner).
  { intros Ht. destruct L1 as [[[Hlk _] (E2 & E3 & _)]|[_ Hf]]; [rewrite E3; by apply Hl|congruence]. }
  rewrite (bind_done _ _ _ _ _ (matches_ok conn owner s1 Hip Hown Hl1)).
  destruct L1 as [[Hh (E2 & E3 & E4)]|[Hh Hf]].
  - rewrite E2, (proj1 Hh). cbn [negb orb andb]. destruct (Z.eqb_spec (conn_addr conn) owner) as [Heq|Hne]; cbn [negb].
    + exists 0, s1. split; [done|]. split; [by left|]. split; [split; [done|intros [?|[_ ?]]; done]|].
      split; [done|]. split; [done|]. split; [by intros _|done].
    + destruct (time_ok s1) as [w Hw]. rewrite (bind_done _ _ _ _ _ Hw). eexists 1, _. split; [reflexivity|].
      split; [by right|]. split; [split; [intros _; by right|done]|]. split; [done|]. split; [done|]. split; [by intros _|done].
  - rewrite Hf. cbn [negb orb andb]. destruct (Z.ltb_spec 0 (client_lock_timeout config)) as [Ht|Ht].
    + destruct (set_lock_ok (conn_addr conn) s1 Hip Ht) as (s2 & E2 & P2 & L2 & I2 & U2 & A2). rewrite (bind_done _ _ _ _ _ E2).
      exists 0, s2. split; [done|]. split; [by left|]. split; [split; [done|intros [?|[? _]]; done]|].
      split; [by eapply same_process_trans|]. split; [congruence|]. split; [done|].
      intros _. rewrite decide_True by done. split; [done|]. split; [done|]. by eexists.
    + exists 0, s1. split; [done|]. split; [by left|]. split; [split; [done|intros [?|[? _]]; done]|].
      split; [done|]. split; [done|]. split; [done|]. intros _. by rewrite decide_False by lia.
Qed.

(** C34: the end of a session.  The disconnection of the connection that has
    the session frees the session and, when locking is configured, locks the
    instance to the client for the configured time from now on; the
    disconnection of any other connection changes nothing. *)
Theorem disconnect_policy (s : istate WD WS) (i : nat) (conn : tcp_connection_t) :
  0 <= conn_addr conn < 2 ^ 32 ->
  exists s', on_client_disconnect config i conn s = Done (tt, s') /\
    (active_xvc_conn s <> Some i -> s' = s) /\
    (active_xvc_conn s = Some i ->
       active_xvc_conn s' = None /\ same_process s s' /\
       if decide (0 < client_lock_timeout config)
       then is_locked s' = true /\ locked_client_ip s' = inet_ntop (conn_addr conn) /\
            lock_until s' = (os_time (x_w (i_x s))).1 + client_lock_timeout config
       else same_lock s s').
Proof.
  intros Hip. unfold on_client_disconnect, ictx. rewrite (bind_done get_state _ s s s eq_refl).
  destruct (decide (active_xvc_conn s = Some i)) as [Ha|Ha].
  2: { rewrite bool_decide_eq_false_2 by done. by exists s. }
  rewrite bool_decide_eq_true_2 by done. rewrite (bind_done _ _ _ _ _ (client_ip_ok conn s Hip)).
  set (s1 := s <| active_xvc_conn := None |>). erewrite (bind_done (set_ictx _)); [|reflexivity]. fold s1.
  destruct (Z.ltb_spec 0 (client_lock_timeout config)) as [Ht|Ht].
  - destruct (set_lock_ok (conn_addr conn) s1 Hip Ht) as (s2 & E2 & P2 & L2 & I2 & U2 & A2). rewrite E2.
    exists s2. split; [done|]. split; [done|]. intros _. rewrite decide_True by done.
    split; [by rewrite A2|]. split; [exact P2|]. split; [done|]. split; [done|]. exact U2.
  - exists s1. split; [done|]. split; [done|]. intros _. by rewrite decide_False by lia.
Qed.

(** The heap without the block of a pointer. *)
Definition without (p : ptr) (blocks : gmap nat (list Z)) : gmap nat (list Z) :=
  match p with NULL => blocks | Ptr b _ => delete b blocks end.

Lemma free_without m p m' : free m p = Some m' -> m_blocks m' = without p (m_blocks m).
Proof. destruct p as [|b o]; cbn; [by intros [= <-]|]. destruct (m_blocks m !! b); [|done]. cbn. destruct (o =? 0); [|done]. by intros [= <-]. Qed.

(** [xvc_free] on any context. *)
Lemma free_session_ok (s s1 : istate WD WS) : on_xvc xvc_free s = Done (tt, s1) ->
  vector_buf (x_ctx (i_x s1)) = NULL /\ result_buf (x_ctx (i_x s1)) = NULL /\ same_lock s s1 /\
  m_blocks (x_mem (i_x s1)) =
    without (result_buf (x_ctx (i_x s))) (without (vector_buf (x_ctx (i_x s))) (m_blocks (x_mem (i_x s)))).
Proof.
  unfold on_xvc, zoom, xvc_free, xctx, xheap, set_xctx, gets, modify, mbind, M_bind.
  destruct (free (x_mem (i_x s)) (vector_buf (x_ctx (i_x s)))) as [m1|] eqn:F1; [|done]. cbn [x_mem x_ctx setter].
  destruct (free m1 (result_buf (x_ctx (i_x s)))) as [m2|] eqn:F2; [|done]. intros [= <-].
  apply free_without in F1, F2. cbn. by rewrite F2, F1.
Qed.

(** C35: a session that the protocol handler ends leaves nothing of it behind
    and does not refresh the lock.  When the data callback answers 1, the
    handler has returned something else than 0; the blocks of both its
    buffers have been taken off the heap it left, and no other, the pointers
    to them are null and there is no session.  So the disconnection callback
    that the server then calls does not find the session and leaves the lock
    as it was taken at the connection. *)
Theorem ended_session_lock (s s1 : istate WD WS) (i : nat) (conn : tcp_connection_t) :
  on_client_data config i conn s = Done (1, s1) ->
  active_xvc_conn s1 = None /\ same_lock s s1 /\
  vector_buf (x_ctx (i_x s1)) = NULL /\ result_buf (x_ctx (i_x s1)) = NULL /\
  (exists ret x,
     xvc_handle (conn_fd conn) true (Config.xvc_buffer_size config) (inst_frequency config) (i_x s) = Done (ret, x) /\ ret <> 0 /\
     m_blocks (x_mem (i_x s1)) = without (result_buf (x_ctx x)) (without (vector_buf (x_ctx x)) (m_blocks (x_mem x)))) /\
  on_client_disconnect config i conn s1 = Done (tt, s1).
Proof.
  unfold on_client_data, ictx. rewrite (bind_done get_state _ s s s eq_refl). intros E0.
  apply bind_done_inv in E0 as ([] & s2 & E1 & E2).
  assert (L2 : same_lock s s2 /\ i_x s2 = i_x s) by (destruct (active_xvc_conn s); injection E1 as <-; done). clear E1.
  destruct L2 as [L2 X2]. apply bind_done_inv in E2 as (ret & s3 & E3 & E4).
  unfold on_xvc, zoom in E3. rewrite X2 in E3. destruct (xvc_handle _ _ _ _ (i_x s)) as [[r x]| |]; [|done..].
  injection E3 as -> <-. destruct (Z.eqb_spec ret 0) as [|Hret]; cbn [negb] in E4; [done|].
  apply bind_done_inv in E4 as ([] & s4 & E5 & E6). injection E5 as <-.
  apply bind_done_inv in E6 as ([] & s5 & E7%free_session_ok & E8). injection E8 as <-.
  destruct E7 as (V & R & L3 & B). unfold same_lock in *. cbn in *. destruct L2 as (A1 & A2 & A3), L3 as (B1 & B2 & B3).
  split; [done|]. split; [split_and!; congruence|]. split; [done|]. split; [done|]. split; [by exists ret, x|].
  unfold on_client_disconnect, ictx, get_state, mbind, M_bind. cbn [active_xvc_conn setter]. by rewrite bool_decide_eq_false_2.
Qed.

End Lock.

(** ** A process to run the callbacks in *)

Record sim_ws := mk_ws { ws_os : sim_os; ws_link : link; ws_signals : list (list signal) }.

Definition lift_ws {A} (call : sim_os -> A * sim_os) (w : sim_ws) : A * sim_ws :=
  let '(a, o) := call (ws_os w) in (a, mk_ws o (ws_link w) (ws_signals w)).

#[export] Instance sim_ws_os : TcpOs sim_ws := {
  os_socket := lift_ws os_socket;
  os_setsockopt fd o v := lift_ws (os_setsockopt fd o v);
  os_bind fd p := lift_ws (os_bind fd p);
  os_listen fd n := lift_ws (os_listen fd n);
  os_select n r e t := lift_ws (os_select n r e t);
  os_accept fd := lift_ws (os_accept fd);
  os_close fd := lift_ws (os_close fd);
  os_time := lift_ws os_time
}.

#[export] Instance sim_ws_sockets : Sockets sim_ws := {
  sock_read fd n w := let '(r, l) := sock_read fd n (ws_link w) in (r, mk_ws (ws_os w) l (ws_signals w));
  sock_write fd d w := let '(r, l) := sock_write fd d (ws_link w) in (r, mk_ws (ws_os w) l (ws_signals w));
  sock_quickack fd w := mk_ws (ws_os w) (sock_quickack fd (ws_link w)) (ws_signals w);
  read_blocks fd n w := read_blocks fd n (ws_link w);
  write_blocks fd d w := write_blocks fd d (ws_link w)
}.

#[export] Instance sim_ws_arrived : Signals sim_ws := {
  arrived w := (hd [] (ws_signals w), mk_ws (ws_os w) (ws_link w) (tl (ws_signals w)))
}.

(** An instance locked to 10.1.9.7 until second 1005, with nobody connected,
    whose next client sends an unknown command. *)
Definition sim_client : Z := hd 0 sim_peers.
Definition sim_inst : xvc_instance_config_t := default_instance 0.
Definition sim_istate (until : Z) (active : option nat) : istate world sim_ws :=
  mk_istate (mk_globals true false) (inet_ntop sim_client) until true active
    (mk_xstate xvc_zero (mk_mem ∅ 0 [] (fun _ _ => 0)) sim_cable (mk_ws sim_env (mk_link [0x7a; 0x7a] []) [])).

Lemma connect_policy_witness :
  let s := sim_istate 1005 None in
  let conn := mk_conn 5 CONN_STATE_CONNECTED 11 0 0 0 in
  exists r s', on_client_connect sim_inst 1 conn s = Done (r, s') /\
    (r = 0 \/ r = 1) /\ (r = 1 <-> busy 1 s \/ held s /\ conn_addr conn <> sim_client) /\
    same_process s s' /\ active_xvc_conn s' = active_xvc_conn s /\
    (held s -> same_lock s s') /\
    (~ held s -> if decide (r = 0 /\ 0 < client_lock_timeout sim_inst)
       then is_locked s' = true /\ locked_client_ip s' = inet_ntop (conn_addr conn) /\
            exists now, lock_until s' = now + client_lock_timeout sim_inst
       else is_locked s' = false).
Proof.
  intros s conn. apply (connect_policy sim_inst s 1 conn sim_client); [by vm_compute|by vm_compute|done].
Defined.

Lemma disconnect_policy_witness :
  let s := sim_istate 1005 (Some 1%nat) in
  let conn := mk_conn 5 CONN_STATE_ACTIVE 11 0 0 0 in
  exists s', on_client_disconnect sim_inst 1 conn s = Done (tt, s') /\
    (active_xvc_conn s <> Some 1%nat -> s' = s) /\
    (active_xvc_conn s = Some 1%nat ->
       active_xvc_conn s' = None /\ same_process s s' /\
       if decide (0 < client_lock_timeout sim_inst)
       then is_locked s' = true /\ locked_client_ip s' = inet_ntop (conn_addr conn) /\
            lock_until s' = (os_time (x_w (i_x s))).1 + client_lock_timeout sim_inst
       else same_lock s s').
Proof. intros s conn. apply (disconnect_policy sim_inst s 1 conn). by vm_compute. Defined.

Lemma ended_session_lock_witness :
  let conn := mk_conn 5 CONN_STATE_ACTIVE 11 0 0 0 in
  exists s1, on_client_data sim_inst 1 conn (sim_istate 1005 None) = Done (1, s1) /\
    active_xvc_conn s1 = None /\ same_lock (sim_istate 1005 None) s1 /\
    vector_buf (x_ctx (i_x s1)) = NULL /\ result_buf (x_ctx (i_x s1)) = NULL /\
    (exists ret x,
       xvc_handle (conn_fd conn) true (Config.xvc_buffer_size sim_inst) (inst_frequency sim_inst) (i_x (sim_istate 1005 None)) = Done (ret, x) /\
       ret <> 0 /\
       m_blocks (x_mem (i_x s1)) = without (result_buf (x_ctx x)) (without (vector_buf (x_ctx x)) (m_blocks (x_mem x)))) /\
    on_client_disconnect sim_inst 1 conn s1 = Done (tt, s1).
Proof.
  intros conn.
  assert (E2 : match on_client_data sim_inst 1 conn (sim_istate 1005 None) with Done (r, _) => r | _ => 0 end = 1) by (by vm_compute).
  destruct (on_client_data sim_inst 1 conn (sim_istate 1005 None)) as [[r s1]| |] eqn:E1; [|discriminate E2..].
  subst r. exists s1. split; [done|]. exact (ended_session_lock sim_inst _ s1 1 conn E1).
Defined.
