(* ===== verification/Frame.v ===== *)
(** What a computation leaves alone.

    [preserves P m]: whenever [m] comes back from a state with [P], the state
    it leaves has [P].  The lemmas follow the structure of a program, so that
    the tactic [frame] proves such a fact by walking over its text; what it
    cannot see, the calls of the boundary and the recursive functions, are
    hints of the database [frame]. *)

From S2P Require Import Prelude.

Create HintDb frame.

Definition preserves {S A} (P : S -> Prop) (m : M S A) : Prop :=
  forall s a s', P s -> m s = Done (a, s') -> P s'.

Section Preserves.
Context {S : Type} (P : S -> Prop).

Lemma preserves_ret {A} (a : A) : preserves P (mret a : M S A).
Proof. intros s a' s' Hs [= <- <-]. done. Qed.

Lemma preserves_bind {A B} (m : M S A) (k : A -> M S B) :
  preserves P m -> (forall a, preserves P (k a)) -> preserves P (m ≫= k).
Proof. intros Hm Hk s b s' Hs (a & s1 & E1 & E2)%bind_done_inv. eapply Hk; [|exact E2]. by eapply Hm. Qed.

Lemma preserves_gets {A} (f : S -> A) : preserves P (gets f).
Proof. intros s a s' Hs [= <- <-]. done. Qed.

Lemma preserves_get : preserves P get_state.
Proof. intros s a s' Hs [= <- <-]. done. Qed.

Lemma preserves_modify f : (forall s, P s -> P (f s)) -> preserves P (modify f).
Proof. intros Hf s a s' Hs [= <- <-]. by apply Hf. Qed.

Lemma preserves_lift {A} (e : exec A) : preserves P (lift_exec e).
Proof. intros s a s' Hs. unfold lift_exec. by destruct e; intros [= <- <-]. Qed.

Lemma preserves_undefined {A} : preserves P (undefined : M S A).
Proof. by intros s a s' Hs. Qed.

Lemma preserves_while {L R} (body : L -> M S (L + R)) l :
  (forall l, preserves P (body l)) -> preserves P (while_loop body l).
Proof.
  intros Hb s r s' Hs E1. eapply (while_partial body (fun _ => P) (fun _ => P)); [|exact Hs|exact E1].
  intros l1 s1 r1 s2 H1 E2. specialize (Hb l1 s1 r1 s2 H1 E2). by destruct r1.
Qed.
End Preserves.

(** A part of the state, and what the rest does not depend on. *)
Lemma preserves_zoom {S T A} (P : T -> Prop) (g : T -> S) (p : S -> T -> T) (m : M S A) :
  (forall t a s', P t -> m (g t) = Done (a, s') -> P (p s' t)) -> preserves P (zoom g p m).
Proof.
  intros Hm t a t' Ht. unfold zoom. destruct (m (g t)) as [[a' s']| |] eqn:E1; [|done..]. intros [= <- <-].
  by eapply Hm.
Qed.

Ltac frame_step :=
  match goal with
  | |- preserves _ (_ ≫= _) => apply preserves_bind
  | |- preserves _ (mret _) => apply preserves_ret
  | |- preserves _ (gets _) => apply preserves_gets
  | |- preserves _ get_state => apply preserves_get
  | |- preserves _ (lift_exec _) => apply preserves_lift
  | |- preserves _ undefined => apply preserves_undefined
  | |- preserves _ (while_loop _ _) => apply preserves_while
  | |- forall _, _ => intro
  | |- preserves _ (match ?x with _ => _ end) => destruct x eqn:?
  | |- preserves _ (match ?x with _ => _ end _) => destruct x
  | |- preserves _ (let '(_, _) := ?x in _) => destruct x
  | |- preserves _ _ => solve [eauto with frame nocore]
  end.

Ltac frame := repeat frame_step.
