(* ===== verification/HandleFrame.v ===== *)
(** Scans and settings keep the driver handle.

    Between opening and closing, no operation of the adapter touches the
    handle of its context or the handles that the driver has open, however it
    ends. *)

From S2P Require Import Prelude Frame Memory CString D2xx MpsseBuffer MpsseScan MpsseAdapter.
From S2P Require Import FtdiAdapter XvcProtocol XvcServer.

Section Handle.
Context {W : Type} `{DriverHandles W}.

(** The open handles, and the adapter's own. *)
Definition holds (l : list Z) (h : Z) (b : bool) (s : mstate W) : Prop :=
  opened (ms_w s) = l /\ ft_handle (ms_ctx s) = h /\ is_open (ms_ctx s) = b.

Context (l : list Z) (h : Z) (b : bool).
#[local] Abbreviation kept := (preserves (holds l h b)).

Lemma set_ctx_kept f : (forall c, ft_handle (f c) = ft_handle c /\ is_open (f c) = is_open c) -> kept (set_ctx f).
Proof.
  intros Hf. apply preserves_modify. intros s (H1 & H2 & H3). destruct (Hf (ms_ctx s)) as [F1 F2].
  unfold holds. cbn. split_and!; congruence.
Qed.

Lemma set_buf_kept f : kept (set_buf f).
Proof. by apply set_ctx_kept. Qed.

Lemma set_error_kept e : kept (set_error e).
Proof. by apply set_ctx_kept. Qed.

(** A driver call that leaves the handles alone. *)
Lemma ft_kept {A} (call : W -> A * W) : (forall w, opened (call w).2 = opened w) -> kept (ft call).
Proof.
  intros Hc s a s' (H1 & H2 & H3). unfold ft. specialize (Hc (ms_w s)). destruct (call (ms_w s)) as [x w]. intros [= <- <-].
  unfold holds. cbn in *. split_and!; congruence.
Qed.

Lemma heap_kept {A} (f : mem -> A * mem) : kept (MpsseAdapter.heap f).
Proof. intros s a s' Hs. unfold MpsseAdapter.heap. destruct (f (ms_mem s)). by intros [= <- <-]. Qed.

(** An operation that only reads the context and the heap. *)
Lemma reads_kept {A} (m : M (mstate W) A) : (forall s a s', m s = Done (a, s') -> s' = s) -> kept m.
Proof. intros Hm s a s' Hs E1. by rewrite (Hm _ _ _ E1). Qed.
End Handle.

#[export] Hint Resolve set_buf_kept set_error_kept heap_kept : frame.
#[export] Hint Extern 2 (preserves _ (set_ctx _)) => apply set_ctx_kept; intros; split; reflexivity : frame.
#[export] Hint Extern 2 (preserves _ (ft _)) =>
  apply ft_kept; intros;
  first [apply opened_write | apply opened_read | apply opened_poll | apply opened_bitmode | apply opened_info] : frame.

Section Operations.
Context {W : Type} `{DriverHandles W} (l : list Z) (h : Z) (b : bool).
#[local] Abbreviation kept := (preserves (holds l h b)).

Lemma format_kept o n z : kept (format_tms_tdi_hex o n z).
Proof. apply reads_kept. intros s a s'. unfold format_tms_tdi_hex. repeat case_match; by intros [= <- <-]. Qed.
#[local] Hint Resolve format_kept : frame.

Lemma flush_dump_kept tx n : kept (flush_dump tx n).
Proof. unfold flush_dump, ctx_of. frame. Qed.
#[local] Hint Resolve flush_dump_kept : frame.

Lemma run_observer_kept rx o : kept (run_observer rx o).
Proof.
  intros s a s' Hs. unfold run_observer. repeat case_match; intros [= <- <-]; done.
Qed.
#[local] Hint Resolve run_observer_kept : frame.

Lemma run_observers_kept rx os : kept (run_observers rx os).
Proof. induction os as [|o os IH]; cbn [run_observers]; frame. Qed.
#[local] Hint Resolve run_observers_kept : frame.

Lemma flush_kept : kept mpsse_buffer_flush.
Proof. unfold mpsse_buffer_flush, flush_tx, flush_rx, read_round, buf_of, ctx_of. frame. Qed.
#[local] Hint Resolve flush_kept : frame.

Lemma fetch_kept src n : kept (fetch src n).
Proof. apply reads_kept. intros s a s'. unfold fetch. repeat case_match; by intros [= <- <-]. Qed.
#[local] Hint Resolve fetch_kept : frame.

Lemma pool_alloc_kept n : kept (pool_alloc n).
Proof. intros s a s' Hs. unfold pool_alloc. destruct (_ <? _); by intros [= <- <-]. Qed.
#[local] Hint Resolve pool_alloc_kept : frame.

Lemma append_kept src n o m : kept (mpsse_buffer_append src n o m).
Proof. unfold mpsse_buffer_append, append_tx, append_rx, buf_of. frame. Qed.
#[local] Hint Resolve append_kept : frame.

Lemma readback_kept src n f e m : kept (mpsse_buffer_add_write_with_readback src n f e m).
Proof. unfold mpsse_buffer_add_write_with_readback, mpsse_buffer_ensure_can_append, buf_of. frame. Qed.
#[local] Hint Resolve readback_kept : frame.

Lemma alloc_extra_kept e : kept (alloc_extra e).
Proof. unfold alloc_extra, pool_put. frame. Qed.
#[local] Hint Resolve alloc_extra_kept : frame.

Lemma simple_kept src n p m : kept (mpsse_buffer_add_write_simple src n p m).
Proof. unfold mpsse_buffer_add_write_simple. frame. Qed.
#[local] Hint Resolve simple_kept : frame.

(** *** The scan *)

Lemma deref_kept p i : kept (deref p i).
Proof. apply reads_kept. intros s a s'. unfold deref, lift_exec. case_match; by intros [= <- <-]. Qed.
#[local] Hint Resolve deref_kept : frame.

Lemma get_bit_at_kept p i : kept (get_bit_at p i).
Proof. apply reads_kept. intros s a s'. unfold get_bit_at, lift_exec. case_match; by intros [= <- <-]. Qed.
#[local] Hint Resolve get_bit_at_kept : frame.

Lemma build_tms_byte_kept p f i t n : kept (build_tms_byte p f i t n).
Proof. revert i t. induction n as [|n IH]; intros i t; cbn [build_tms_byte]; frame. Qed.
#[local] Hint Resolve build_tms_byte_kept : frame.

Lemma append_tms_kept p f t : kept (append_tms_shift p f t).
Proof. unfold append_tms_shift, tms_round, ctx_of. frame. Qed.
#[local] Hint Resolve append_tms_kept : frame.

Lemma append_tdi_kept p q f t x : kept (append_tdi_shift p q f t x).
Proof.
  unfold append_tdi_shift, tdi_round, shift_leading, shift_inner, shift_trailing, shift_last, then_stage, ctx_of. frame.
Qed.
#[local] Hint Resolve append_tdi_kept : frame.

Lemma scan_octet_kept p q r n b0 i f j k : kept (scan_octet p q r n b0 i f j k).
Proof. revert b0 i f j. induction k as [|k IH]; intros b0 i f j; cbn [scan_octet]; frame. Qed.
#[local] Hint Resolve scan_octet_kept : frame.

Lemma scan_kept p q r n : kept (mpsse_adapter_scan p q r n).
Proof. unfold mpsse_adapter_scan, scan_round, pool_reset, ctx_of. frame. Qed.

Lemma set_frequency_kept f : kept (mpsse_adapter_set_frequency f).
Proof. unfold mpsse_adapter_set_frequency, ctx_of. frame. Qed.

Lemma error_kept : kept mpsse_adapter_error.
Proof. unfold mpsse_adapter_error, ctx_of. frame. Qed.

End Operations.

(** ** The layers above *)

(** The adapter is open with the handle [h], and the driver has [l] open. *)
Definition ad_holds {W} `{DriverHandles W} (l : list Z) (h : Z) (ad : ftdi_context * W) : Prop :=
  exists c, mpsse ad.1 = Some c /\ ft_handle c = h /\ is_open c = true /\ ftdi_is_open ad.1 = true /\ opened ad.2 = l.

Section Layers.
Context {W : Type} `{DriverHandles W} (l : list Z) (h : Z).
Definition fholds (s : fstate W) : Prop := ad_holds l h (fs_ctx s, fs_w s).
#[local] Abbreviation kept := (preserves fholds).

Lemma on_mpsse_kept {A} (null : A) (op : M (mstate W) A) : preserves (holds l h true) op -> kept (on_mpsse null op).
Proof.
  intros Hop s a s' (c & Hc & Hh & Ho & Hf & Hl). cbn [fst snd] in *. unfold on_mpsse. rewrite Hc.
  destruct (op (mk_mstate c (fs_mem s) (fs_w s))) as [[a1 s1]| |] eqn:E1; [|done..]. intros [= <- <-].
  apply Hop in E1 as (P1 & P2 & P3); [|done]. exists (ms_ctx s1). cbn. by split_and!.
Qed.

Lemma set_frequency_held f : kept (on_mpsse (-1) (mpsse_adapter_set_frequency f)).
Proof. apply on_mpsse_kept, set_frequency_kept. Qed.

Lemma scan_held p q r n : kept (on_mpsse (-1) (mpsse_adapter_scan p q r n)).
Proof. apply on_mpsse_kept, scan_kept. Qed.
#[local] Hint Resolve set_frequency_held scan_held : frame.

Lemma ftdi_set_period_kept p : kept (ftdi_adapter_set_period p).
Proof. unfold ftdi_adapter_set_period, fctx. frame. Qed.

Lemma ftdi_set_frequency_kept f : kept (ftdi_adapter_set_frequency f).
Proof. unfold ftdi_adapter_set_frequency. frame. Qed.

Lemma ftdi_scan_kept p q r n : kept (ftdi_adapter_scan p q r n).
Proof. unfold ftdi_adapter_scan, fctx. frame. Qed.

(** The adapter as the protocol uses it. *)
Lemma ad_set_period_kept p : preserves (fun s : mem * (ftdi_context * W) => ad_holds l h s.2) (ad_set_period p).
Proof.
  intros [m [c w]] a s' Hs. cbn -[ftdi_adapter_set_period].
  destruct (ftdi_adapter_set_period p (mk_fstate c m w)) as [[r s1]| |] eqn:E1; [|done..]. intros [= <- <-].
  exact (ftdi_set_period_kept p (mk_fstate c m w) r s1 Hs E1).
Qed.

Lemma ad_scan_kept tms tdi tdo bits : preserves (fun s : mem * (ftdi_context * W) => ad_holds l h s.2) (ad_scan tms tdi tdo bits).
Proof.
  intros [m [c w]] a s' Hs. cbn -[ftdi_adapter_scan].
  destruct (ftdi_adapter_scan tms tdi tdo bits (mk_fstate c m w)) as [[r s1]| |] eqn:E1; [|done..]. intros [= <- <-].
  exact (ftdi_scan_kept tms tdi tdo bits (mk_fstate c m w) r s1 Hs E1).
Qed.
End Layers.

(** *** Opening and closing *)

Section Closing.
Context {W : Type} `{DriverHandles W}.

(** Closing gives the handle back, however the flush goes. *)
Lemma mpsse_close_released (l : list Z) (h : Z) (s s' : mstate W) a :
  h ∉ l -> h <> 0 -> holds (h :: l) h true s -> mpsse_adapter_close s = Done (a, s') -> holds l 0 false s'.
Proof.
  intros Hl H0' Hs E1. pose proof Hs as (_ & _ & Ho). unfold mpsse_adapter_close, ctx_of in E1.
  rewrite (bind_done (gets ms_ctx) _ s (ms_ctx s) s eq_refl), Ho in E1. cbn [negb] in E1.
  apply bind_done_inv in E1 as (r & s1 & E2 & E1). apply flush_kept with (l := h :: l) (h := h) (b := true) in E2; [|done].
  destruct E2 as (P1 & P2 & P3). rewrite (bind_done (gets ms_ctx) _ s1 (ms_ctx s1) s1 eq_refl), P2 in E1.
  rewrite (proj2 (Z.eqb_neq h 0)) in E1 by done. cbn [negb] in E1.
  apply bind_done_inv in E1 as ([] & s2 & E3 & E1). injection E1 as <- <-.
  apply bind_done_inv in E3 as (st & s3 & E4 & E3). apply (ft_kept (h :: l) h true) in E4; [|intros; apply opened_bitmode|done].
  destruct E4 as (Q1 & Q2 & Q3). apply bind_done_inv in E3 as (st2 & s4 & E5 & E3). injection E3 as <-.
  unfold ft in E5. pose proof (opened_close h (ms_w s3)) as Hc. destruct (FT_Close h (ms_w s3)) as [x w]. injection E5 as <- <-.
  cbn in Hc. unfold holds. cbn. split_and!; [|done..]. rewrite Hc, Q1. by apply filter_fresh.
Qed.

(** The adapter is closed, and the driver has [l] open. *)
Definition ad_closed (l : list Z) (ad : ftdi_context * W) : Prop :=
  opened ad.2 = l /\ ftdi_is_open ad.1 = false /\ (forall c, mpsse ad.1 = Some c -> is_open c = false).
Definition fclosed (l : list Z) (s : fstate W) : Prop := ad_closed l (fs_ctx s, fs_w s).

Lemma ftdi_close_released l h : h ∉ l -> h <> 0 ->
  forall s a s', fholds (h :: l) h s -> ftdi_adapter_close s = Done (a, s') -> fclosed l s'.
Proof.
  intros Hl H0' s a s' (c & Hc & Hh & Ho & Hf & Hop) E1. cbn [fst snd] in *. unfold ftdi_adapter_close, fctx in E1.
  rewrite (bind_done (gets fs_ctx) _ s (fs_ctx s) s eq_refl), Hf in E1. cbn [negb] in E1.
  apply bind_done_inv in E1 as (r & s1 & E2 & E1). injection E1 as <- <-. unfold on_mpsse in E2. rewrite Hc in E2.
  destruct (mpsse_adapter_close (mk_mstate c (fs_mem s) (fs_w s))) as [[r1 s2]| |] eqn:E3; [|done..]. injection E2 as <- <-.
  apply (mpsse_close_released l h) in E3 as (P1 & P2 & P3); [|done|done|done].
  unfold fclosed, ad_closed. cbn. split_and!; [done..|]. by intros c' [= <-].
Qed.

Lemma ftdi_close_closed l : preserves (fclosed l) ftdi_adapter_close.
Proof.
  intros s a s' (P1 & P2 & P3) E1. cbn [fst] in P2. unfold ftdi_adapter_close, fctx in E1.
  rewrite (bind_done (gets fs_ctx) _ s (fs_ctx s) s eq_refl), P2 in E1. by injection E1 as <- <-.
Qed.

Lemma ftdi_destroy_closed l : preserves (fclosed l) ftdi_adapter_destroy.
Proof.
  intros s a s' (P1 & P2 & P3) E1. cbn [fst snd] in *. unfold ftdi_adapter_destroy, fctx in E1.
  rewrite (bind_done (gets fs_ctx) _ s (fs_ctx s) s eq_refl), P2 in E1.
  rewrite (bind_done (mret tt) _ s tt s eq_refl) in E1. apply bind_done_inv in E1 as (r & s1 & E2 & E1). injection E1 as <- <-.
  unfold on_mpsse in E2. unfold fclosed, ad_closed. cbn. destruct (mpsse (fs_ctx s)) as [c|] eqn:Hc.
  2: { injection E2 as <- <-. by split_and!. }
  unfold mpsse_adapter_destroy, ctx_of in E2.
  rewrite (bind_done (gets ms_ctx) _ (mk_mstate c (fs_mem s) (fs_w s)) c _ eq_refl), (P3 c eq_refl) in E2.
  injection E2 as <- <-. cbn. by split_and!.
Qed.

Context `{!DriverReads W}.

Lemma ftdi_open_ok l vendor product serial index interface (s s' : fstate W) r :
  fclosed l s -> ftdi_adapter_open vendor product serial index interface s = Done (r, s') ->
  r = 0 /\ (exists h, h <> 0 /\ (h ∉ l) /\ fholds (h :: l) h s') \/ r = -1 /\ fclosed l s'.
Proof.
  intros (P1 & P2 & P3) E1. cbn [fst snd] in *. unfold ftdi_adapter_open, ftdi_adapter_open_with_mode, fctx in E1.
  rewrite (bind_done (gets fs_ctx) _ s (fs_ctx s) s eq_refl) in E1. destruct (mpsse (fs_ctx s)) as [c|] eqn:Hc.
  2: { injection E1 as <- <-. right. split; [done|]. unfold fclosed, ad_closed. cbn. rewrite Hc. by split_and!. }
  specialize (P3 c eq_refl). apply bind_done_inv in E1 as (r1 & s1 & E2 & E1). unfold on_mpsse in E2. rewrite Hc in E2.
  destruct (mpsse_open_ok vendor product serial index interface (mk_mstate c (fs_mem s) (fs_w s))) as (r2 & s2 & E3 & Hr).
  rewrite E3 in E2. injection E2 as <- <-. cbn [ms_ctx ms_w] in Hr.
  destruct Hr as [(-> & H1' & H2' & H3' & H4')|(-> & H1' & H2')].
  - injection E1 as <- <-. left. split; [done|]. exists (ft_handle (ms_ctx s2)). rewrite P1 in H2', H3'. split_and!; try done.
    exists (ms_ctx s2). cbn. split_and!; try done. by destruct H4'.
  - cbn [Z.eqb negb] in E1. apply bind_done_inv in E1 as (e & s3 & E4 & E1). injection E1 as <- <-.
    injection E4 as <- <-. right. split; [done|]. unfold fclosed, ad_closed. cbn. rewrite H1', P1. split_and!; [done..|].
    intros c' [= <-]. by rewrite H2'.
Qed.
End Closing.
