(* ===== verification/ServerFrame.v ===== *)
(** What the server's callbacks keep, the server keeps.

    A property of the rest of the process that the callbacks and the system
    calls leave alone survives every operation of the server. *)

From S2P Require Import Prelude Frame CString Config Whitelist TcpServer.

Section ServerFrame.
Context {C : Type} `{TcpOs C} (Q : C -> Prop).

(** The system calls keep [Q]. *)
Record kept_by_os : Prop := {
  kept_socket : forall c, Q c -> Q (os_socket c).2;
  kept_setsockopt : forall fd o v c, Q c -> Q (os_setsockopt fd o v c).2;
  kept_bind : forall fd p c, Q c -> Q (os_bind fd p c).2;
  kept_listen : forall fd n c, Q c -> Q (os_listen fd n c).2;
  kept_select : forall n r e t c, Q c -> Q (os_select n r e t c).2;
  kept_accept : forall fd c, Q c -> Q (os_accept fd c).2;
  kept_close : forall fd c, Q c -> Q (os_close fd c).2;
  kept_time : forall c, Q c -> Q (os_time c).2
}.

(** The callbacks of a server keep [Q]. *)
Record kept_by_callbacks (sv : tcp_server_t C) : Prop := {
  kept_connect : forall f i c, on_connect sv = Some f -> preserves Q (f i c);
  kept_data : forall f i c, on_data sv = Some f -> preserves Q (f i c);
  kept_disconnect : forall f i c, on_disconnect sv = Some f -> preserves Q (f i c)
}.

Definition server_keeps (s : sstate C) : Prop := kept_by_callbacks (s_srv s) /\ Q (s_env s).
#[local] Abbreviation kept := (preserves server_keeps).

Context (Hos : kept_by_os).

Lemma os_kept {A} (call : C -> A * C) : (forall c, Q c -> Q (call c).2) -> kept (os call).
Proof.
  intros Hc s a s' [H1' H2']. unfold os. specialize (Hc _ H2'). destruct (call (s_env s)) as [x env]. by intros [= <- <-].
Qed.

Lemma set_srv_kept f :
  (forall sv, on_connect (f sv) = on_connect sv /\ on_data (f sv) = on_data sv /\ on_disconnect (f sv) = on_disconnect sv) ->
  kept (set_srv f).
Proof.
  intros Hf. apply preserves_modify. intros [sv env] [[K1 K2 K3] H2']. destruct (Hf sv) as (F1 & F2 & F3).
  split; [|done]. split; cbn; by rewrite ?F1, ?F2, ?F3.
Qed.

Lemma set_conn_kept i f : kept (set_conn i f).
Proof. by apply set_srv_kept. Qed.

Lemma callback_kept {A} (m : M C A) : preserves Q m -> kept (callback m).
Proof. intros Hm. apply preserves_zoom. intros s a env [H1' H2'] E1. split; [done|]. by eapply Hm. Qed.

(** A look at the server: its callbacks are known to keep [Q]. *)
Lemma srv_kept {B} (k : tcp_server_t C -> M (sstate C) B) :
  (forall sv, kept_by_callbacks sv -> kept (k sv)) -> kept (srv ≫= k).
Proof. intros Hk s b s' Hs E1. by apply (Hk (s_srv s) (proj1 Hs) s b s' Hs). Qed.

#[local] Hint Resolve set_conn_kept : frame.
#[local] Hint Extern 2 (preserves _ (set_srv _)) => apply set_srv_kept; intros; split_and!; reflexivity : frame.
#[local] Hint Extern 2 (preserves _ (os _)) =>
  apply os_kept; intros; first [apply kept_socket | apply kept_setsockopt | apply kept_bind | apply kept_listen
    | apply kept_select | apply kept_accept | apply kept_close | apply kept_time]; assumption : frame.
#[local] Hint Extern 2 (preserves _ (callback _)) =>
  apply callback_kept; first [eapply kept_connect; eassumption | eapply kept_data; eassumption | eapply kept_disconnect; eassumption] : frame.
#[local] Ltac server_frame :=
  repeat first [match goal with |- preserves _ (srv ≫= _) => apply srv_kept; intros ? ? end | progress cbv zeta | frame_step].

Lemma conn_at_kept i : kept (conn_at i).
Proof. unfold conn_at. server_frame. Qed.
#[local] Hint Resolve conn_at_kept : frame.

Lemma disconnect_callback_kept i c : kept (disconnect_callback i c).
Proof. unfold disconnect_callback. server_frame. Qed.
#[local] Hint Resolve disconnect_callback_kept : frame.

Lemma close_connection_kept i : kept (tcp_server_close_connection i).
Proof. unfold tcp_server_close_connection. server_frame. Qed.
#[local] Hint Resolve close_connection_kept : frame.

Lemma accept_client_kept : kept accept_client.
Proof. unfold accept_client, admit_client, tune_socket. server_frame. Qed.
#[local] Hint Resolve accept_client_kept : frame.

Lemma check_client_kept sel i : kept (check_client sel i).
Proof. unfold check_client, fd_isset. server_frame. Qed.
#[local] Hint Resolve check_client_kept : frame.

Lemma check_clients_kept sel i n e : kept (check_clients sel i n e).
Proof. revert i e. induction n as [|n IH]; intros i e; cbn [check_clients]; server_frame. Qed.
#[local] Hint Resolve check_clients_kept : frame.

Lemma poll_kept t : kept (tcp_server_poll t).
Proof. unfold tcp_server_poll, fd_isset. server_frame. Qed.

Lemma start_kept : kept tcp_server_start.
Proof. unfold tcp_server_start, close_listen. server_frame. Qed.

Lemma stop_slots_kept i n : kept (for_from i n stop_slot).
Proof. revert i. induction n as [|n IH]; intros i; cbn [for_from]; unfold stop_slot; server_frame. Qed.
#[local] Hint Resolve stop_slots_kept : frame.

Lemma stop_kept : kept tcp_server_stop.
Proof. unfold tcp_server_stop. server_frame. Qed.
End ServerFrame.
