(* ===== verification/InstanceFrame.v ===== *)
(** An instance gives back what it takes.

    The descriptors of the process and the handles of the driver over a whole
    run of an instance: the protocol handler and the callbacks leave both
    alone (by the frame rules), the server closes what it opened, and the
    adapter returns its handle. *)

From S2P Require Import Prelude Outcome Frame Memory CString D2xx MpsseBuffer MpsseScan MpsseAdapter.
From S2P Require Import SimDevice HandleFrame ServerFrame Config Whitelist FtdiAdapter XvcProtocol XvcServer TcpServer TcpInvariant Instance InstanceLock.
From stdpp Require Import strings gmap.
Open Scope Z_scope.

(** ** The protocol handler *)

(** A property of the handler's state that depends on neither the context nor
    the heap, and that the sockets and the adapter keep. *)
Record kept_outside {AD W} `{Adapter AD} `{Sockets W} (P : xstate AD W -> Prop) : Prop := {
  kept_inside : forall s c m, P s -> P (s <| x_ctx := c |> <| x_mem := m |>);
  kept_read : forall fd n s, P s -> P (s <| x_w := (sock_read fd n (x_w s)).2 |>);
  kept_write : forall fd d s, P s -> P (s <| x_w := (sock_write fd d (x_w s)).2 |>);
  kept_quickack : forall fd s, P s -> P (s <| x_w := sock_quickack fd (x_w s) |>);
  kept_period : forall p, preserves P (on_adapter (ad_set_period p));
  kept_scan : forall tms tdi tdo n, preserves P (on_adapter (ad_scan tms tdi tdo n))
}.

Section Handler.
Context {AD W : Type} `{Adapter AD} `{Sockets W} (P : xstate AD W -> Prop) (HP : kept_outside P).
#[local] Abbreviation kept := (preserves P).

Lemma set_xctx_kept f : kept (set_xctx f).
Proof. apply preserves_modify. intros s Hs. destruct s as [c m ad w]. exact (kept_inside P HP _ (f c) m Hs). Qed.

Lemma xheap_kept f : kept (xheap f).
Proof.
  intros s a s' Hs. unfold xheap. destruct (f (x_mem s)) as [m|]; [|done]. intros [= <- <-].
  destruct s as [c m0 ad w]. exact (kept_inside P HP _ c m Hs).
Qed.

Lemma xmalloc_kept n : kept (xmalloc n).
Proof.
  intros s a s' Hs. unfold xmalloc. destruct (malloc (x_mem s) n) as [p m]. intros [= <- <-].
  destruct s as [c m0 ad w]. exact (kept_inside P HP _ c m Hs).
Qed.

Lemma xload_kept f : kept (xload f).
Proof. intros s a s' Hs. unfold xload. destruct (f (x_mem s)); [|done]. by intros [= <- <-]. Qed.

Lemma xbytes_kept p n : kept (xbytes p n).
Proof. intros s a s' Hs. unfold xbytes. destruct (load_bytes (x_mem s) p n); [|done]. by intros [= <- <-]. Qed.

(** The socket loops run on the sockets alone. *)
Lemma on_socket_kept {A} (op : M W A) :
  (forall s : xstate AD W, preserves (fun w => P (s <| x_w := w |>)) op) -> kept (on_socket op).
Proof.
  intros Hop. apply preserves_zoom. intros s a w Hs Hw. specialize (Hop s (x_w s) a w). apply Hop; [|done].
  by destruct s.
Qed.

Lemma read_exact_kept fd n : kept (on_socket (xvc_read_exact fd n)).
Proof.
  apply on_socket_kept. intros s. unfold xvc_read_exact, read_step. frame; intros w a w' Hw; unfold sock, may_block.
  2: { intros [= <- <-]. exact (kept_quickack P HP fd _ Hw). }
  destruct (read_blocks _ _ w); [done|].
  match goal with |- context [sock_read fd ?k w] => pose proof (kept_read P HP fd k _ Hw) as Hr end. cbn in Hr.
  destruct (sock_read fd _ w) as [d w1]. by intros [= <- <-].
Qed.

Lemma write_exact_kept fd buf n : kept (on_socket (xvc_write_exact fd buf n)).
Proof.
  apply on_socket_kept. intros s. unfold xvc_write_exact, write_step. frame. intros w a w' Hw. unfold may_block.
  destruct (write_blocks _ _ w); [done|].
  match goal with |- context [sock_write fd ?d w] => pose proof (kept_write P HP fd d _ Hw) as Hr end. cbn in Hr.
  destruct (sock_write fd _ w) as [d w1]. by intros [= <- <-].
Qed.

#[local] Hint Resolve set_xctx_kept xheap_kept xmalloc_kept xload_kept xbytes_kept read_exact_kept write_exact_kept : frame.
#[local] Hint Resolve kept_period kept_scan : frame.

Lemma jtag_bytes_kept j i n : kept (jtag_bytes j i n).
Proof. revert j i. induction n as [|n IH]; intros j i; cbn [jtag_bytes]; unfold xctx; frame. Qed.
#[local] Hint Resolve jtag_bytes_kept : frame.

Lemma handle_command_kept info freq u : kept (handle_command info freq u).
Proof.
  unfold handle_command, handle_getinfo, handle_settck, handle_shift, shift_length, shift_vectors, movement, shift_reply,
    bogus_movement, track_jtag, note_tlr, read_cmd, read_vectors, send_reply, loop_condition, xctx. frame.
Qed.
#[local] Hint Resolve handle_command_kept : frame.

Lemma xvc_free_kept : kept xvc_free.
Proof. unfold xvc_free, xctx. frame. Qed.

Lemma xvc_handle_kept fd ftdi size freq : kept (xvc_handle fd ftdi size freq).
Proof. unfold xvc_handle, xvc_init, xctx. frame. Qed.
End Handler.

(** ** The callbacks *)

(** What the process relies on besides TcpInvariant.v: reading, writing and
    signals touch no descriptor. *)
Class QuietIo (W : Type) `{TcpOsLaws W} `{Sockets W} `{Signals W} : Prop := {
  read_fds : forall fd n w, open_fds (sock_read fd n w).2 = open_fds w;
  write_fds : forall fd d w, open_fds (sock_write fd d w).2 = open_fds w;
  quickack_fds : forall fd w, open_fds (sock_quickack fd w) = open_fds w;
  arrived_fds : forall w, open_fds (arrived w).2 = open_fds w
}.

Section Callbacks.
Context {WD WS : Type} `{D2XX WD} `{TcpOs WS} `{Sockets WS} `{Signals WS}.
Context (config : xvc_instance_config_t) (R : ftdi_context * WD -> WS -> Prop).

(** A property of the adapter and the operating system. *)
Definition xvc_keeps (x : xstate (ftdi_context * WD) WS) : Prop := R (x_ad x) (x_w x).
Definition process_keeps (s : istate WD WS) : Prop := xvc_keeps (i_x s).
#[local] Abbreviation kept := (preserves process_keeps).

Context (Hx : kept_outside xvc_keeps) (Htime : forall ad w, R ad w -> R ad (os_time w).2).

Lemma set_ictx_kept f : (forall s, i_x (f s) = i_x s) -> kept (set_ictx f).
Proof. intros Hf. apply preserves_modify. intros s Hs. unfold process_keeps. by rewrite Hf. Qed.

Lemma time_null_kept : kept time_null.
Proof.
  intros s a s' Hs. unfold time_null. cbn [os_time process_os]. unfold lift_os.
  pose proof (Htime _ _ Hs) as Ht. destruct (os_time (x_w (i_x s))) as [t w]. by intros [= <- <-].
Qed.

Lemma on_xvc_kept {A} (op : M (xstate (ftdi_context * WD) WS) A) : preserves xvc_keeps op -> kept (on_xvc op).
Proof. intros Hop. apply preserves_zoom. intros s a x Hs E1. by apply (Hop (i_x s) a x Hs). Qed.

#[local] Hint Resolve time_null_kept : frame.
#[local] Hint Extern 2 (preserves _ (set_ictx _)) => apply set_ictx_kept; intros; reflexivity : frame.
#[local] Hint Extern 2 (preserves _ (on_xvc (xvc_handle _ _ _ _))) => apply on_xvc_kept, xvc_handle_kept; assumption : frame.
#[local] Hint Extern 2 (preserves _ (on_xvc xvc_close)) => apply on_xvc_kept, preserves_ret : frame.
#[local] Hint Extern 2 (preserves _ (on_xvc xvc_free)) => apply on_xvc_kept, xvc_free_kept; assumption : frame.

Lemma on_client_connect_kept i c : kept (on_client_connect config i c).
Proof.
  unfold on_client_connect, is_lock_expired, client_ip_matches, set_client_lock, release_client_lock, client_ip, ictx. frame.
Qed.

Lemma on_client_data_kept i c : kept (on_client_data config i c).
Proof. unfold on_client_data, ictx. frame. Qed.

Lemma on_client_disconnect_kept i c : kept (on_client_disconnect config i c).
Proof. unfold on_client_disconnect, set_client_lock, client_ip, ictx. frame. Qed.
End Callbacks.

(** ** A run *)

Section Run.
Context {WD WS : Type} `{DriverHandles WD} `{!DriverReads WD} `{QuietIo WS}.
Context (config : xvc_instance_config_t).

(** The system calls of the process are those of the operating system. *)
#[export] Program Instance process_os_laws : TcpOsLaws (istate WD WS) := { open_fds s := open_fds (x_w (i_x s)) }.
Next Obligation.
  intros s r s'. cbn [os_socket process_os]. unfold lift_os. pose proof (socket_fds (x_w (i_x s))) as Hl.
  destruct (os_socket (x_w (i_x s))) as [r1 w1]. intros [= <- <-]. by apply (Hl r1 w1).
Qed.
Next Obligation.
  intros fd s r a s'. cbn [os_accept process_os]. unfold lift_os. pose proof (accept_fds fd (x_w (i_x s))) as Hl.
  destruct (os_accept fd (x_w (i_x s))) as [[r1 a1] w1]. intros [= <- <- <-]. by apply (Hl r1 a1 w1).
Qed.
Next Obligation. intros s fd. apply fd_limit. Qed.
Next Obligation.
  intros fd s. cbn [os_close process_os]. unfold lift_os. rewrite <- (close_fds fd (x_w (i_x s))). by destruct (os_close fd (x_w (i_x s))).
Qed.
Next Obligation.
  intros fd o v s. cbn [os_setsockopt process_os]. unfold lift_os. rewrite <- (sockopt_fds fd o v (x_w (i_x s))).
  by destruct (os_setsockopt fd o v (x_w (i_x s))).
Qed.
Next Obligation.
  intros fd p s. cbn [os_bind process_os]. unfold lift_os. rewrite <- (bind_fds fd p (x_w (i_x s))). by destruct (os_bind fd p (x_w (i_x s))).
Qed.
Next Obligation.
  intros fd n s. cbn [os_listen process_os]. unfold lift_os. rewrite <- (listen_fds fd n (x_w (i_x s))).
  by destruct (os_listen fd n (x_w (i_x s))).
Qed.
Next Obligation.
  intros n r e t s. cbn [os_select process_os]. unfold lift_os. rewrite <- (select_fds n r e t (x_w (i_x s))).
  by destruct (os_select n r e t (x_w (i_x s))).
Qed.
Next Obligation.
  intros s. cbn [os_time process_os]. unfold lift_os. rewrite <- (time_fds (x_w (i_x s))). by destruct (os_time (x_w (i_x s))).
Qed.

(** The callbacks leave the descriptors alone. *)
Definition fds_are (F : gset Z) (ad : ftdi_context * WD) (w : WS) : Prop := open_fds w = F.

Lemma fds_outside F : kept_outside (xvc_keeps (fds_are F)).
Proof.
  split; unfold xvc_keeps, fds_are; cbn.
  - done.
  - intros fd n s Hs. by rewrite read_fds.
  - intros fd d s Hs. by rewrite write_fds.
  - intros fd s Hs. by rewrite quickack_fds.
  - intros p. apply preserves_zoom. by intros s a [m ad].
  - intros tms tdi tdo n. apply preserves_zoom. by intros s a [m ad].
Qed.

#[local] Abbreviation connect := (Some (on_client_connect config)).
#[local] Abbreviation data := (Some (on_client_data config)).
#[local] Abbreviation disconnect := (Some (on_client_disconnect config)).

Lemma callbacks_quiet : quiet (C := istate WD WS) connect data disconnect.
Proof.
  assert (Ht : forall F ad w, fds_are F ad w -> fds_are F ad (os_time w).2) by (intros F ad w Hw; unfold fds_are; by rewrite time_fds).
  split; intros f i c env r env' [= <-] E1; set (F := open_fds env);
    change (process_keeps (fds_are F) env'); assert (Henv : process_keeps (fds_are F) env) by done.
  - by apply (on_client_connect_kept config (fds_are F) (Ht F) i c env r env').
  - by apply (on_client_data_kept config (fds_are F) (fds_outside F) i c env r env').
  - by apply (on_client_disconnect_kept config (fds_are F) (Ht F) i c env r env').
Qed.

(** The callbacks and the server leave the open adapter alone. *)
Definition adapter_is (l : list Z) (h : Z) (ad : ftdi_context * WD) (w : WS) : Prop := ad_holds l h ad.

Lemma adapter_outside l h : kept_outside (xvc_keeps (adapter_is l h)).
Proof.
  split; unfold xvc_keeps, adapter_is; cbn; try done.
  - intros p. apply preserves_zoom. intros s a [m ad] Hs E1. by apply (ad_set_period_kept l h p (x_mem s, x_ad s) a (m, ad)).
  - intros tms tdi tdo n. apply preserves_zoom. intros s a [m ad] Hs E1.
    by apply (ad_scan_kept l h tms tdi tdo n (x_mem s, x_ad s) a (m, ad)).
Qed.

#[local] Abbreviation adapter_kept l h := (process_keeps (adapter_is l h)).

Lemma adapter_os l h : kept_by_os (adapter_kept l h).
Proof.
  split; intros; cbn; unfold lift_os.
  all: match goal with |- context [let '(_, _) := ?x in _] => by destruct x as [? ?] end.
Qed.

Lemma adapter_callbacks l h sv :
  on_connect sv = connect -> on_data sv = data -> on_disconnect sv = disconnect ->
  kept_by_callbacks (adapter_kept l h) sv.
Proof.
  intros H1' H2' H3'. split; intros f i c Hf.
  - rewrite H1' in Hf. injection Hf as <-. by apply on_client_connect_kept.
  - rewrite H2' in Hf. injection Hf as <-. apply on_client_data_kept, adapter_outside.
  - rewrite H3' in Hf. injection Hf as <-. by apply on_client_disconnect_kept.
Qed.

(** *** The loop *)

Context (others : gset Z) (wl : whitelist_t) (l : list Z) (h : Z).
#[local] Abbreviation listening := (Listening (C := istate WD WS) (Some wl) connect data disconnect others).

(** A server that listens in a process whose adapter is open. *)
Definition at_work (s : sstate (istate WD WS)) : Prop := listening s /\ server_keeps (adapter_kept (h :: l) h) s.

Lemma keeps_callbacks sv : configured (Some wl) connect data disconnect sv -> kept_by_callbacks (adapter_kept (h :: l) h) sv.
Proof. intros [_ H1' H2' H3']. by apply adapter_callbacks. Qed.

Lemma deliver_at_work s a s' : at_work s -> callback deliver s = Done (a, s') -> at_work s'.
Proof.
  intros [HL [HK HQ]] E1. unfold callback, zoom, deliver, lift_os in E1.
  pose proof (arrived_fds (x_w (i_x (s_env s)))) as Hf. destruct (arrived (x_w (i_x (s_env s)))) as [sigs w].
  injection E1 as <- <-. split; [|by split]. by apply (listening_env _ _ _ _ _ s).
Qed.

Lemma poll_at_work s t a s' : at_work s -> tcp_server_poll t s = Done (a, s') -> at_work s'.
Proof.
  intros [HL HK] E1. split; [|by apply (poll_kept (adapter_kept (h :: l) h) (adapter_os _ _) t s a s')].
  pose proof (poll_ok (Some wl) connect data disconnect others callbacks_quiet t s HL) as Hp.
  unfold outcome in Hp. rewrite E1 in Hp. by destruct Hp.
Qed.

Lemma loop_at_work s a s' : at_work s -> instance_loop s = Done (a, s') -> at_work s'.
Proof.
  intros Hs E1. apply (preserves_while at_work instance_round tt) with (s := s) (a := a); [|done|exact E1].
  clear s a s' Hs E1. intros u s r s' Hs E1. unfold instance_round in E1.
  apply bind_done_inv in E1 as ([] & s1 & E2 & E1). apply deliver_at_work in E2; [|done].
  apply bind_done_inv in E1 as (g & s2 & E3 & E1). injection E3 as <- <-.
  assert (Hs2 : at_work (s1 <| s_env := s_env s1 |>)) by (by destruct s1).
  destruct (g_running _); [|by injection E1 as <- <-].
  apply bind_done_inv in E1 as (ret & s3 & E4 & E1). apply poll_at_work in E4; [|done].
  by destruct (ret <? 0); injection E1 as <- <-.
Qed.

(** Stopping closes the descriptors and leaves the adapter open. *)
Lemma stop_at_work s a s' : at_work s -> tcp_server_stop s = Done (a, s') ->
  open_fds (s_env s') = others /\ ad_holds (h :: l) h (x_ad (i_x (s_env s'))).
Proof.
  intros [HL HK] E1. split.
  - pose proof (stop_ok (Some wl) connect data disconnect others callbacks_quiet s HL) as Hp.
    unfold outcome in Hp. rewrite E1 in Hp. by destruct Hp.
  - by apply (stop_kept (adapter_kept (h :: l) h) (adapter_os _ _) s a s') in E1 as [_ ?].
Qed.
End Run.

(** ** From the start to the end *)

Section Whole.
Context {WD WS : Type} `{DriverHandles WD} `{!DriverReads WD} `{QuietIo WS}.
Context (config : xvc_instance_config_t).

(** An operation of the adapter touches the adapter and the heap. *)
Lemma ftdi_op_inv {A} (op : M (fstate WD) A) (s s' : istate WD WS) a :
  ftdi_op op s = Done (a, s') ->
  exists f, op (mk_fstate (x_ad (i_x s)).1 (x_mem (i_x s)) (x_ad (i_x s)).2) = Done (a, f) /\
    x_ad (i_x s') = (fs_ctx f, fs_w f) /\ x_w (i_x s') = x_w (i_x s).
Proof.
  unfold ftdi_op. destruct (op _) as [[a1 f]| |]; [|done..]. intros [= <- <-]. by exists f.
Qed.

(** The adapter is closed, and [s0]'s descriptors and handles are open. *)
Definition released (s0 s : istate WD WS) : Prop :=
  open_fds (x_w (i_x s)) = open_fds (x_w (i_x s0)) /\ opened (x_ad (i_x s)).2 = opened (x_ad (i_x s0)).2.
Definition shut (s0 s : istate WD WS) : Prop :=
  open_fds (x_w (i_x s)) = open_fds (x_w (i_x s0)) /\ ad_closed (opened (x_ad (i_x s0)).2) (x_ad (i_x s)).

Lemma shut_released s0 s : shut s0 s -> released s0 s.
Proof. intros [H1' [H2' _]]. by split. Qed.

Lemma shut_kept {A} (op : M (fstate WD) A) s0 :
  preserves (fclosed (opened (x_ad (i_x s0)).2)) op -> preserves (shut s0) (ftdi_op op).
Proof.
  intros Hop s a s' [H1' H2'] (f & E1 & E2 & E3)%ftdi_op_inv. split; [by rewrite E3|]. rewrite E2.
  apply (Hop _ _ _) in E1; [done|]. by destruct (x_ad (i_x s)).
Qed.

Lemma new_context_ok (s s' : istate WD WS) b : new_context s = Done (b, s') -> if b then shut s s' else released s s'.
Proof.
  unfold new_context. destruct (ftdi_adapter_create (x_mem (i_x s))) as [[c|] m] eqn:Ec; intros [= <- <-]; [|done].
  split; [done|]. cbn. unfold ftdi_adapter_create in Ec. destruct (alloc_ok (x_mem (i_x s))) as [[] m1]; [|done]. cbn [negb] in Ec.
  destruct (mpsse_adapter_create m1) as [[mc|] m2] eqn:Em; [|done]. injection Ec as <- <-.
  split; [done|]. split; [done|]. cbn. intros c' [= <-]. unfold mpsse_adapter_create in Em.
  destruct (alloc_ok m1) as [[] m3]; [|done]. cbn [negb] in Em.
  destruct (malloc_array m3 _) as [[tx|] m4]; destruct (malloc_array m4 _) as [[rx|] m5]; try done.
  by injection Em as <- <-.
Qed.

(** Closing and destroying, after the server has been stopped or never ran. *)
Lemma close_adapter_ok s0 (s s' : istate WD WS) h a :
  h ∉ opened (x_ad (i_x s0)).2 -> h <> 0 -> open_fds (x_w (i_x s)) = open_fds (x_w (i_x s0)) ->
  ad_holds (h :: opened (x_ad (i_x s0)).2) h (x_ad (i_x s)) -> close_adapter s = Done (a, s') -> shut s0 s'.
Proof.
  intros Hh Hn Hf Ha E1. unfold close_adapter in E1. apply bind_done_inv in E1 as (r & s1 & E2 & E1).
  apply (shut_kept ftdi_adapter_destroy s0 (ftdi_destroy_closed _) s1 a s'); [|done].
  apply ftdi_op_inv in E2 as (f & E2 & F1 & F2). split; [by rewrite F2|]. rewrite F1.
  apply (ftdi_close_released _ h Hh Hn) in E2; [done|]. unfold fholds. cbn. by destruct (x_ad (i_x s)).
Qed.

Lemma set_frequency_open l h f : preserves (fun s : istate WD WS => ad_holds l h (x_ad (i_x s))) (ftdi_op (ftdi_adapter_set_frequency f)).
Proof.
  intros s a s' Hs (g & E1 & E2 & E3)%ftdi_op_inv. rewrite E2. apply (ftdi_set_frequency_kept l h f _ _ _) in E1; [done|].
  unfold fholds. cbn. by destruct (x_ad (i_x s)).
Qed.


(** The part of [run_instance] with an open adapter. *)
Lemma serve_instance_ok s0 (s s' : istate WD WS) h wl ret :
  h ∉ opened (x_ad (i_x s0)).2 -> h <> 0 -> open_fds (x_w (i_x s)) = open_fds (x_w (i_x s0)) ->
  ad_holds (h :: opened (x_ad (i_x s0)).2) h (x_ad (i_x s)) ->
  ('(started, srv) ← with_server (fresh_server (Some wl) (Some (on_client_connect config)) (Some (on_client_data config))
       (Some (on_client_disconnect config)) (port config)) tcp_server_start;
   if started <? 0 then _ ← close_adapter; mret 1
   else
     '(_, srv) ← with_server srv instance_loop;
     _ ← with_server srv tcp_server_stop;
     _ ← close_adapter;
     mret 0) s = Done (ret, s') ->
  shut s0 s' /\ (ret = 0 \/ ret = 1).
Proof.
  intros Hh Hn Hf Ha E1. set (l := opened (x_ad (i_x s0)).2) in *.
  set (sv := fresh_server _ _ _ _ _) in E1. apply bind_done_inv in E1 as ([started srv1] & s1 & E2 & E1).
  unfold with_server in E2. destruct (tcp_server_start (mk_sstate sv s)) as [[r st]| |] eqn:E3; [|done..]. injection E2 as <- <- <-.
  assert (HK : server_keeps (process_keeps (adapter_is (h :: l) h)) st).
  { apply (start_kept _ (adapter_os _ _) (mk_sstate sv s) r st); [|done]. split; [by apply (adapter_callbacks config)|done]. }
  destruct (start_ok (Some wl) _ _ _ (open_fds (x_w (i_x s))) (callbacks_quiet config) (port config) s eq_refl)
    as (r1 & st1 & E4 & Hr). unfold sv in E3. rewrite E3 in E4. injection E4 as <- <-.
  destruct Hr as [(-> & HL & _)|(-> & _ & _ & Hr)]; cbn [Z.ltb Z.compare] in E1.
  2: { apply bind_done_inv in E1 as (u & s2 & E5 & E1). injection E1 as <- <-. split; [|by right].
       apply (close_adapter_ok s0 (s_env st) s2 h u); try done; [by rewrite <- Hf, <- Hr|apply HK]. }
  apply bind_done_inv in E1 as ([u srv2] & s2 & E5 & E1). unfold with_server in E5.
  assert (Est : mk_sstate (s_srv st) (s_env st) = st) by (by destruct st). rewrite Est in E5.
  destruct (instance_loop st) as [[u1 st2]| |] eqn:E6; [|done..]. injection E5 as <- <- <-.
  apply (loop_at_work config (open_fds (x_w (i_x s))) wl l h st u1 st2 (conj HL HK)) in E6.
  apply bind_done_inv in E1 as ([u4 srv3] & s3 & E7 & E1). unfold with_server in E7.
  assert (Est2 : mk_sstate (s_srv st2) (s_env st2) = st2) by (by destruct st2). rewrite Est2 in E7.
  destruct (tcp_server_stop st2) as [[u2 st3]| |] eqn:E8; [|done..]. injection E7 as <- <- <-.
  apply (stop_at_work config (open_fds (x_w (i_x s))) wl l h st2 u2 st3 E6) in E8 as [H1' H2'].
  apply bind_done_inv in E1 as (u3 & s4 & E9 & E1). injection E1 as <- <-. split; [|by left].
  apply (close_adapter_ok s0 (s_env st3) s4 h u3); try done. by rewrite <- Hf.
Qed.

(** However a run ends, the descriptors and the handles are those from before. *)
Lemma run_instance_released (s s' : istate WD WS) (ret : Z) :
  run_instance config s = Done (ret, s') -> released s s' /\ (ret = 0 \/ ret = 1).
Proof.
  unfold run_instance. intros E1. apply bind_done_inv in E1 as (created & s1 & E2 & E1).
  apply new_context_ok in E2. destruct created; cbn [negb] in E1; [|injection E1 as <- <-; split; [done|by right]].
  apply bind_done_inv in E1 as (r & s2 & E3 & E1). pose proof E2 as [F1 C1].
  apply ftdi_op_inv in E3 as (f & E3 & A2 & F2).
  apply (ftdi_open_ok (opened (x_ad (i_x s)).2)) in E3; [|unfold fclosed; cbn; by destruct (x_ad (i_x s1))].
  destruct E3 as [(-> & h & Hn & Hh & Ho)|(-> & Hc)]; cbn [Z.ltb Z.compare] in E1.
  2: { apply bind_done_inv in E1 as (e & s3 & E4 & E1). apply bind_done_inv in E1 as (u & s4 & E5 & E1). injection E1 as <- <-.
       split; [|by right]. apply shut_released. apply (shut_kept _ s (ftdi_destroy_closed _)) in E5; [done|].
       assert (Hr : preserves (fclosed (W := WD) (opened (x_ad (i_x s)).2)) ftdi_adapter_error).
       { unfold ftdi_adapter_error, fctx. frame. }
       apply (shut_kept _ s Hr) in E4; [done|]. split; [congruence|]. by rewrite A2. }
  unfold fholds in Ho. rewrite <- A2 in Ho.
  apply bind_done_inv in E1 as (u & s3 & E4 & E1).
  assert (H3' : open_fds (x_w (i_x s3)) = open_fds (x_w (i_x s)) /\ ad_holds (h :: opened (x_ad (i_x s)).2) h (x_ad (i_x s3))).
  { destruct (0 <? inst_frequency config); [|injection E4 as <- <-; split; [congruence|done]].
    pose proof (set_frequency_open _ _ _ s2 u s3 Ho E4) as Hk. apply ftdi_op_inv in E4 as (g & _ & _ & F3). split; [congruence|done]. }
  destruct H3' as [F3 A3]. cbv zeta in E1. destruct (whitelist_load config) as [rw wl] eqn:Ew.
  destruct (serve_instance_ok s s3 s' h wl ret Hh Hn F3 A3 E1) as [Hs Hret]. split; [by apply shut_released|done].
Qed.
End Whole.

(** ** A run on the concrete process *)

#[export] Program Instance sim_ws_laws : TcpOsLaws sim_ws := { open_fds w := open_fds (ws_os w) }.
Next Obligation.
  intros c r c'. cbn [os_socket sim_ws_os]. unfold lift_ws. pose proof (socket_fds (ws_os c)) as Hl.
  destruct (os_socket (ws_os c)) as [r1 w1]. intros [= <- <-]. by apply (Hl r1 w1).
Qed.
Next Obligation.
  intros fd c r a c'. cbn [os_accept sim_ws_os]. unfold lift_ws. pose proof (accept_fds fd (ws_os c)) as Hl.
  destruct (os_accept fd (ws_os c)) as [[r1 a1] w1]. intros [= <- <- <-]. by apply (Hl r1 a1 w1).
Qed.
Next Obligation. intros c fd. apply fd_limit. Qed.
Next Obligation. intros fd c. exact (close_fds fd (ws_os c)). Qed.
Next Obligation. intros fd o v c. exact (sockopt_fds fd o v (ws_os c)). Qed.
Next Obligation. intros fd p c. exact (bind_fds fd p (ws_os c)). Qed.
Next Obligation. intros fd n c. exact (listen_fds fd n (ws_os c)). Qed.
Next Obligation.
  intros n r e t c. cbn [os_select sim_ws_os]. unfold lift_ws. rewrite <- (select_fds n r e t (ws_os c)).
  by destruct (os_select n r e t (ws_os c)).
Qed.
Next Obligation. intros c. exact (time_fds (ws_os c)). Qed.

#[export] Instance sim_ws_quiet : QuietIo sim_ws.
Proof.
  split; [| |done|done].
  - intros fd n w. cbn [sock_read sim_ws_sockets]. by destruct (sock_read fd n (ws_link w)).
  - intros fd d w. cbn [sock_write sim_ws_sockets]. by destruct (sock_write fd d (ws_link w)).
Qed.

(** A process whose first client sends an unknown command, and that is told to
    stop at its third look at the signals. *)
Definition sim_process : istate world sim_ws :=
  mk_istate (mk_globals true false) "" 0 false None
    (mk_xstate xvc_zero (mk_mem ∅ 0 [] (fun _ _ => 0)) (mk_ftdi None false 0 "", sim_closed_world)
       (mk_ws sim_env (mk_link [0x7a; 0x7a] []) [[]; []; [SIGTERM]])).

Definition run_result (e : exec (Z * istate world sim_ws)) : option (Z * list Z * list Z * option nat) :=
  match e with
  | Done (r, s) => Some (r, so_open (ws_os (x_w (i_x s))), opened (x_ad (i_x s)).2, active_xvc_conn s)
  | _ => None
  end.
Example process_runs : run_result (run_instance sim_inst sim_process) = Some (0, [0; 1; 2], [], None).
Proof. by vm_compute. Qed.
