(* ===== verification/InstanceSession.v ===== *)
(** The session of an instance belongs to a connection.

    main.c keeps a pointer into the server's slots, [active_xvc_conn], across
    events, and reads the connection through it.  Nothing in the server knows
    of that pointer: what keeps it from dangling is the order in which the
    server closes a slot and calls the disconnection callback.  The first part
    is about any process that remembers a slot under the rules of the three
    callbacks, the second shows that an instance follows them. *)

From S2P Require Import Prelude Frame Memory CString D2xx MpsseBuffer MpsseScan MpsseAdapter.
From S2P Require Import SimDevice ServerFrame Config Whitelist FtdiAdapter XvcProtocol XvcServer TcpServer TcpInvariant Instance InstanceLock InstanceFrame.
From stdpp Require Import strings gmap.
Open Scope Z_scope.

(** ** A server whose process remembers a slot *)

Section Remembered.
Context {C : Type} `{TcpOs C} (session : C -> option nat).
Context (connect data : nat -> tcp_connection_t -> M C Z) (disconnect : nat -> tcp_connection_t -> M C unit).

(** The rules of the callbacks.  The connection callback leaves the session
    alone; the data callback of a slot may give it to that slot or free it;
    the disconnection callback of a slot takes it from the slot. *)
Record session_rules : Prop := {
  rule_connect : forall i c env r env', connect i c env = Done (r, env') -> session env' = session env;
  rule_data : forall i c env r env', data i c env = Done (r, env') ->
    session env' = session env \/ session env' = Some i \/ session env' = None;
  rule_disconnect : forall i c env r env', disconnect i c env = Done (r, env') ->
    session env' = if decide (session env = Some i) then None else session env;
  rule_os : forall a, kept_by_os (fun env => session env = a)
}.

Definition slot_open (sv : tcp_server_t C) (i : nat) : Prop :=
  exists c, connections sv !! i = Some c /\ is_open c = true.

(** The session is that of an open slot. *)
Record live (s : sstate C) : Prop := {
  live_connect : on_connect (s_srv s) = Some connect;
  live_data : on_data (s_srv s) = Some data;
  live_disconnect : on_disconnect (s_srv s) = Some disconnect;
  live_slots : length (connections (s_srv s)) = 16%nat;
  live_session : forall i, session (s_env s) = Some i -> slot_open (s_srv s) i
}.

(** Slot [i] has been taken leave of, and may be closed. *)
Definition parted (i : nat) (s : sstate C) : Prop := live s /\ session (s_env s) <> Some i.
(** Slot [i] is open, and may be given the session. *)
Definition served (i : nat) (s : sstate C) : Prop := live s /\ slot_open (s_srv s) i.

Context (HR : session_rules).

(** A change of the environment that the session does not notice. *)
Lemma live_env s env : live s -> session env = session (s_env s) -> live (s <| s_env := env |>).
Proof. intros [] He. split; try done. intros i. cbn. rewrite He. auto. Qed.

Lemma os_session {A} (call : C -> A * C) (s : sstate C) a s' :
  (forall env, session (call env).2 = session env) -> os call s = Done (a, s') ->
  s_srv s' = s_srv s /\ session (s_env s') = session (s_env s).
Proof.
  unfold os. intros Hc. specialize (Hc (s_env s)). destruct (call (s_env s)) as [x env]. intros [= <- <-]. done.
Qed.

(** What depends on the server and the session only survives a system call. *)
Definition of_session (P : sstate C -> Prop) : Prop :=
  forall s s', s_srv s' = s_srv s -> session (s_env s') = session (s_env s) -> P s -> P s'.

Lemma live_of_session : of_session live.
Proof. intros s s' E1 E2 []. split; rewrite ?E1, ?E2; done. Qed.
Lemma parted_of_session i : of_session (parted i).
Proof. intros s s' E1 E2 [Hl Hs]. split; [by eapply live_of_session|by rewrite E2]. Qed.
Lemma served_of_session i : of_session (served i).
Proof. intros s s' E1 E2 [Hl Hs]. split; [by eapply live_of_session|by rewrite E1]. Qed.
#[local] Hint Resolve live_of_session parted_of_session served_of_session : frame.

Lemma os_keeps P {A} (call : C -> A * C) : of_session P -> (forall env, session (call env).2 = session env) -> preserves P (os call).
Proof. intros HP Hc s a s' Hs E1. destruct (os_session call s a s' Hc E1) as [E2 E3]. by apply (HP s). Qed.

(** A change of the server that keeps the callbacks and the open slots. *)
Definition keeps_slots (f : tcp_server_t C -> tcp_server_t C) : Prop :=
  forall sv, on_connect (f sv) = on_connect sv /\ on_data (f sv) = on_data sv /\ on_disconnect (f sv) = on_disconnect sv /\
    length (connections (f sv)) = length (connections sv) /\ (forall i, slot_open sv i -> slot_open (f sv) i).

Lemma live_set f s : keeps_slots f -> live s -> live (s <| s_srv := f (s_srv s) |>).
Proof.
  intros Hf []. destruct (Hf (s_srv s)) as (F1 & F2 & F3 & F4 & F5).
  split; cbn [s_srv s_env setter]; rewrite ?F1, ?F2, ?F3, ?F4; auto.
Qed.

Lemma set_live f : keeps_slots f -> preserves live (set_srv f).
Proof. intros Hf. apply preserves_modify. intros s. by apply live_set. Qed.
Lemma set_parted i f : keeps_slots f -> preserves (parted i) (set_srv f).
Proof. intros Hf. apply preserves_modify. intros s [Hl Hs]. split; [by apply live_set|done]. Qed.
Lemma set_served i f : keeps_slots f -> preserves (served i) (set_srv f).
Proof.
  intros Hf. apply preserves_modify. intros s [Hl Hs]. split; [by apply live_set|]. by apply (Hf (s_srv s)).
Qed.

Lemma same_slots f : (forall sv, on_connect (f sv) = on_connect sv /\ on_data (f sv) = on_data sv /\
  on_disconnect (f sv) = on_disconnect sv /\ connections (f sv) = connections sv) -> keeps_slots f.
Proof. intros Hf sv. destruct (Hf sv) as (F1 & F2 & F3 & F4). unfold slot_open. by rewrite F4. Qed.

Lemma open_slot_kept i g : (forall c, is_open c = true -> is_open (g c) = true) ->
  keeps_slots (fun sv => sv <| connections := alter g i (connections sv) |>).
Proof.
  intros Hg sv. cbn [on_connect on_data on_disconnect connections setter]. rewrite length_alter.
  do 4 (split; [done|]). intros j (c & Hj & Hc). unfold slot_open. cbn [connections setter]. destruct (decide (i = j)) as [->|Hij].
  - exists (g c). rewrite list_lookup_alter_eq, Hj. split; [done|by apply Hg].
  - exists c. by rewrite list_lookup_alter_ne.
Qed.

(** Closing a slot that was taken leave of. *)
Lemma close_parted i g : preserves (parted i) (set_conn i g).
Proof.
  apply preserves_modify. intros s [[] Hs]. split; [|done]. split; cbn [s_srv s_env setter]; try done.
  - cbn [connections setter]. by rewrite length_alter.
  - intros j Hj. destruct (live_session0 j Hj) as (c & Hc & Ho). exists c. split; [|done]. cbn [connections setter].
    rewrite list_lookup_alter_ne; [done|]. intros ->. by apply Hs.
Qed.

Lemma conn_at_keeps (P : sstate C -> Prop) i : preserves P (conn_at i).
Proof. unfold conn_at, srv. frame. Qed.

Lemma connect_live i c : preserves live (callback (connect i c)).
Proof.
  apply preserves_zoom. intros s r env Hs E1. apply live_env; [done|]. by eapply (rule_connect HR).
Qed.

Lemma data_served i c : preserves (served i) (callback (data i c)).
Proof.
  apply preserves_zoom. intros s r env [Hs Hi] E1. split; [|done]. destruct Hs. split; try done.
  intros j. cbn [s_env s_srv setter]. destruct (rule_data HR i c _ _ _ E1) as [->|[->| ->]]; [auto| |done]. by intros [= <-].
Qed.

(** A slot that is taken leave of. *)
Lemma disconnect_leaves i c s a s' : live s -> disconnect_callback i c s = Done (a, s') ->
  parted i s' /\ s_srv s' = s_srv s /\ (session (s_env s') = session (s_env s) \/ session (s_env s') = None).
Proof.
  intros Hs E1. unfold disconnect_callback in E1. apply bind_done_inv in E1 as (sv & s1 & E2 & E1). injection E2 as <- <-.
  rewrite (live_disconnect s Hs) in E1. unfold callback, zoom in E1.
  destruct (disconnect i c (s_env s)) as [[r env]| |] eqn:E2; [|done..]. injection E1 as <- <-.
  pose proof (rule_disconnect HR i c _ _ _ E2) as Hd. unfold parted. cbn [s_env s_srv setter].
  case_decide as Hi; (split; [|split; [done|tauto]]); (split; [|congruence]).
  - destruct Hs. split; try done. intros j. cbn. by rewrite Hd.
  - by apply live_env.
Qed.

#[local] Hint Resolve conn_at_keeps connect_live data_served close_parted : frame.
#[local] Hint Extern 2 (preserves live (set_srv _)) => apply set_live, same_slots; intros; split_and!; reflexivity : frame.
#[local] Hint Extern 2 (preserves (parted _) (set_srv _)) => apply set_parted, same_slots; intros; split_and!; reflexivity : frame.
#[local] Hint Extern 2 (preserves live (set_conn _ _)) => apply set_live, open_slot_kept; by intros : frame.
#[local] Hint Extern 2 (preserves _ (os _)) =>
  apply os_keeps; [solve [eauto with frame nocore]|];
  intros env; destruct (rule_os HR (session env)) as [? ? ? ? ? ? ? ?]; eauto : frame.

(** ** The operations of the server *)

Lemma close_connection_live i : preserves live (tcp_server_close_connection i).
Proof.
  intros s a s' Hs E1. unfold tcp_server_close_connection in E1. apply bind_done_inv in E1 as (c & s1 & E2 & E1).
  apply (conn_at_keeps live) in E2; [|done]. destruct (negb (is_open c)); [by injection E1 as <- <-|].
  apply bind_done_inv in E1 as (u & s2 & E3 & E1). apply disconnect_leaves in E3 as (Hl & _ & _); [|done].
  match type of E1 with ?m s2 = _ => assert (Hm : preserves (parted i) m) by frame end.
  by apply (Hm s2 a s' Hl) in E1 as [? _].
Qed.
#[local] Hint Resolve close_connection_live : frame.

(** A look at the server: its callbacks are known. *)
Lemma srv_live {B} (k : tcp_server_t C -> M (sstate C) B) :
  (forall sv, on_connect sv = Some connect -> on_data sv = Some data -> on_disconnect sv = Some disconnect -> preserves live (k sv)) ->
  preserves live (srv ≫= k).
Proof. intros Hk s b s' Hs E1. destruct Hs eqn:Hs'. by apply (Hk (s_srv s)) with (s := s) (a := b). Qed.

#[local] Ltac live_frame :=
  repeat first [match goal with
                | |- preserves live (srv ≫= _) => apply srv_live; intros ? ? ? ?
                | E : ?x = Some _ |- preserves live (match ?x with _ => _ end) => rewrite E
                end | progress cbv zeta | frame_step].

Lemma accept_live : preserves live accept_client.
Proof. unfold accept_client, admit_client, tune_socket. live_frame. Qed.
#[local] Hint Resolve accept_live : frame.

Lemma conn_at_inv i (s : sstate C) c s' : conn_at i s = Done (c, s') -> s' = s /\ connections (s_srv s) !! i = Some c.
Proof.
  unfold conn_at, srv, gets, lift_exec, mbind, M_bind. destruct (connections (s_srv s) !! i); cbn [of_option]; [|done].
  by intros [= <- <-].
Qed.

Lemma fd_isset_keeps (P : sstate C -> Prop) fd set : preserves P (fd_isset fd set).
Proof. unfold fd_isset. frame. Qed.
#[local] Hint Resolve fd_isset_keeps : frame.

(** The data callback runs for an open slot, which is closed only after it. *)
Lemma check_client_live sel i : preserves live (check_client sel i).
Proof.
  intros s a s' Hs E1. unfold check_client in E1. apply bind_done_inv in E1 as (c & s1 & E2 & E1).
  apply conn_at_inv in E2 as [-> Hi]. destruct (is_open c) eqn:Ho; cbn [negb] in E1; [|by injection E1 as <- <-].
  assert (Hv : served i s) by (split; [done|by exists c]).
  apply bind_done_inv in E1 as (exc & s1 & E3 & E1). apply (fd_isset_keeps (served i)) in E3; [|done]. destruct exc.
  { match type of E1 with ?m s1 = _ => assert (Hm : preserves live m) by frame end. by apply (Hm s1 a s' (proj1 E3)). }
  apply bind_done_inv in E1 as (rd & s2 & E4 & E1). apply (fd_isset_keeps (served i)) in E4; [|done].
  destruct rd; [|injection E1 as <- <-; apply E4].
  apply bind_done_inv in E1 as (u & s3 & E5 & E1).
  assert (H3 : served i s3).
  { refine (set_served i _ _ s2 u s3 E4 E5). by apply open_slot_kept. }
  apply bind_done_inv in E1 as (sv & s4 & E6 & E1). injection E6 as <- <-.
  apply bind_done_inv in E1 as (u1 & s4 & E6 & E1). rewrite (live_data s3 (proj1 H3)) in E6.
  match type of E1 with ?m s4 = _ => assert (Hm : preserves live m) by frame end. apply (Hm s4 a s'); [|done].
  apply bind_done_inv in E6 as (c1 & s5 & E7 & E6). apply (conn_at_keeps (served i)) in E7; [|done].
  apply bind_done_inv in E6 as (r & s6 & E8 & E6). apply data_served in E8 as [H6 _]; [|done].
  destruct (negb (r =? 0)); [by apply close_connection_live in E6|by injection E6 as <- <-].
Qed.
#[local] Hint Resolve check_client_live : frame.

Lemma check_clients_live sel i n e : preserves live (check_clients sel i n e).
Proof. revert i e. induction n as [|n IH]; intros i e; cbn [check_clients]; live_frame. Qed.
#[local] Hint Resolve check_clients_live : frame.

Lemma poll_live t : preserves live (tcp_server_poll t).
Proof. unfold tcp_server_poll. live_frame. Qed.

Lemma start_live : preserves live tcp_server_start.
Proof. unfold tcp_server_start, close_listen. live_frame. Qed.

(** Stopping takes leave of every slot. *)
Definition parted_below (i : nat) (s : sstate C) : Prop := live s /\ forall j, session (s_env s) = Some j -> (i <= j)%nat.

Lemma stop_slot_parted i s a s' : parted_below i s -> stop_slot i s = Done (a, s') -> parted_below (S i) s'.
Proof.
  intros [Hs Hb] E1. unfold stop_slot in E1. apply bind_done_inv in E1 as (c & s1 & E2 & E1).
  apply conn_at_inv in E2 as [-> Hi]. destruct (is_open c) eqn:Ho.
  - apply bind_done_inv in E1 as (u & s1 & E2 & E1). apply disconnect_leaves in E2 as (Hl & _ & Hses); [|done].
    apply bind_done_inv in E1 as (r & s2 & E3 & E1). pose proof E3 as E4.
    apply os_session in E4 as [_ F1]; [|intros env; apply (kept_close _ (rule_os HR _)); reflexivity].
    match type of E3 with ?m s1 = _ => assert (Hm : preserves (parted i) m) by frame end. apply (Hm _ _ _ Hl) in E3.
    pose proof E1 as E5. injection E5 as _ <-. apply (close_parted i _ _ _ _ E3) in E1. destruct E1 as [H4 H5]. split; [done|].
    intros j Hj. cbn [s_env setter] in Hj, H5. rewrite F1 in Hj, H5. destruct Hses as [Hses|Hses]; rewrite Hses in *; [|done].
    specialize (Hb j Hj). assert (j <> i) by congruence. lia.
  - injection E1 as <- <-. split; [done|]. intros j Hj. specialize (Hb j Hj). assert (j <> i); [|lia].
    intros ->. destruct (live_session s Hs i Hj) as (c' & Hc' & Ho'). congruence.
Qed.

Lemma stop_slots_parted n i s a s' : parted_below i s -> for_from i n stop_slot s = Done (a, s') -> parted_below (i + n) s'.
Proof.
  revert i s a s'. induction n as [|n IH]; intros i s a s' Hs; cbn [for_from].
  - intros [= <- <-]. by rewrite Nat.add_0_r.
  - intros (u & s1 & E1 & E2)%bind_done_inv. apply stop_slot_parted in E1; [|done].
    rewrite <- Nat.add_succ_comm. by eapply IH.
Qed.

Lemma stop_frees s a s' : live s -> tcp_server_stop s = Done (a, s') -> session (s_env s') = None.
Proof.
  intros Hs E1. unfold tcp_server_stop in E1. apply bind_done_inv in E1 as (u & s1 & E2 & E1).
  match type of E2 with ?m s = _ => assert (Hm : preserves live m) by frame end. apply (Hm _ _ _ Hs) in E2.
  apply bind_done_inv in E1 as (u1 & s2 & E3 & E1). apply stop_slots_parted in E3 as [H2 Hb]; [|by split; [|intros; lia]].
  assert (Hn : session (s_env s2) = None).
  { destruct (session (s_env s2)) as [j|] eqn:Hj; [|done]. specialize (Hb j eq_refl).
    destruct (live_session s2 H2 j Hj) as (c & Hc & _). apply lookup_lt_Some in Hc. rewrite (live_slots s2 H2) in Hc.
    change (Z.to_nat MAX_CONNECTIONS) with 16%nat in Hb. lia. }
  assert (Hk : forall f, preserves (fun s : sstate C => session (s_env s) = None) (set_srv f)) by (intros f; by apply preserves_modify).
  match type of E1 with ?m s2 = _ => assert (Hm2 : preserves (fun s => session (s_env s) = None) m) end.
  { unfold srv. frame. apply os_keeps; [by intros x y _ ->|]. intros env.
    apply (kept_close _ (rule_os HR _)). reflexivity. }
  by apply (Hm2 s2 a s' Hn).
Qed.
End Remembered.

(** ** The process of an instance *)

Section Process.
Context {WD WS : Type} `{D2XX WD} `{TcpOs WS} `{Sockets WS} `{Signals WS}.
Context (config : xvc_instance_config_t).
#[local] Abbreviation I := (istate WD WS).
#[local] Abbreviation kept a := (preserves (fun s : I => active_xvc_conn s = a)).

Lemma set_ictx_session a f : (forall s, active_xvc_conn (f s) = active_xvc_conn s) -> kept a (set_ictx f).
Proof. intros Hf. apply preserves_modify. intros s. by rewrite Hf. Qed.

Lemma lift_os_session {A} (call : WS -> A * WS) (s : I) : active_xvc_conn (lift_os call s).2 = active_xvc_conn s.
Proof. unfold lift_os. by destruct (call (x_w (i_x s))). Qed.

Lemma time_null_session a : kept a time_null.
Proof.
  intros s t s' Hs. unfold time_null. pose proof (lift_os_session os_time s) as Ht. cbn [os_time process_os].
  destruct (lift_os os_time s) as [x s1]. intros [= <- <-]. cbn in Ht. by rewrite Ht.
Qed.

Lemma on_xvc_session {A} a (op : M (xstate (ftdi_context * WD) WS) A) : kept a (on_xvc op).
Proof. by apply preserves_zoom. Qed.

#[local] Hint Resolve time_null_session on_xvc_session : frame.
#[local] Hint Extern 2 (preserves _ (set_ictx _)) => apply set_ictx_session; intros; reflexivity : frame.

Lemma connect_session a i c : kept a (on_client_connect config i c).
Proof.
  unfold on_client_connect, is_lock_expired, client_ip_matches, set_client_lock, release_client_lock, client_ip, ictx. frame.
Qed.

Lemma data_session i c (env env' : I) r : on_client_data config i c env = Done (r, env') ->
  active_xvc_conn env' = active_xvc_conn env \/ active_xvc_conn env' = Some i \/ active_xvc_conn env' = None.
Proof.
  intros E1. unfold on_client_data, ictx in E1. apply bind_done_inv in E1 as (c0 & s1 & E2 & E1). injection E2 as <- <-.
  apply bind_done_inv in E1 as (u & s1 & E2 & E1).
  assert (H1' : active_xvc_conn s1 = active_xvc_conn env \/ active_xvc_conn s1 = Some i).
  { destruct (active_xvc_conn env) eqn:Ha; injection E2 as <- <-; [by left|by right]. }
  apply bind_done_inv in E1 as (ret & s2 & E3 & E1). apply (on_xvc_session _ _ s1 ret s2 eq_refl) in E3.
  destruct (negb (ret =? 0)); [|injection E1 as <- <-; rewrite E3; tauto].
  apply bind_done_inv in E1 as (u1 & s3 & _ & E1). apply bind_done_inv in E1 as (u2 & s4 & _ & E1).
  injection E1 as <- <-. by right; right.
Qed.

Lemma disconnect_session i c (env env' : I) r : on_client_disconnect config i c env = Done (r, env') ->
  active_xvc_conn env' = if decide (active_xvc_conn env = Some i) then None else active_xvc_conn env.
Proof.
  intros E1. unfold on_client_disconnect, ictx in E1. apply bind_done_inv in E1 as (c0 & s1 & E2 & E1). injection E2 as <- <-.
  case_decide as Ha; [rewrite bool_decide_eq_true_2 in E1 by done|rewrite bool_decide_eq_false_2 in E1 by done; by injection E1 as <- <-].
  apply bind_done_inv in E1 as (ip & s1 & _ & E1). apply bind_done_inv in E1 as (u & s2 & E2 & E1). injection E2 as _ <-.
  match type of E1 with ?m _ = _ => assert (Hm : kept None m) by (unfold set_client_lock; frame) end. by apply Hm in E1.
Qed.

#[local] Abbreviation connect := (on_client_connect (WD := WD) (WS := WS) config).
#[local] Abbreviation data := (on_client_data (WD := WD) (WS := WS) config).
#[local] Abbreviation disconnect := (on_client_disconnect (WD := WD) (WS := WS) config).

Lemma instance_rules : session_rules active_xvc_conn connect data disconnect.
Proof.
  split.
  - intros i c env r env' E1. by apply (connect_session _ i c env r env' eq_refl).
  - intros i c env r env'. apply data_session.
  - intros i c env r env'. apply disconnect_session.
  - intros a. split; intros; (etrans; [apply lift_os_session|done]).
Qed.

#[local] Abbreviation live := (live active_xvc_conn connect data disconnect).

Lemma fresh_live wl p (env : I) : active_xvc_conn env = None ->
  live (mk_sstate (fresh_server wl (Some connect) (Some data) (Some disconnect) p) env).
Proof. intros Ha. split; try done. intros i. cbn [s_env]. by rewrite Ha. Qed.

Lemma deliver_live : preserves live (callback deliver).
Proof.
  apply preserves_zoom. intros s a env Hs E1. apply live_env; [done|]. unfold deliver in E1.
  pose proof (lift_os_session arrived (s_env s)) as Ha. destruct (lift_os arrived (s_env s)) as [sigs s1].
  injection E1 as _ <-. exact Ha.
Qed.

Lemma round_live u : preserves live (instance_round u).
Proof.
  unfold instance_round. pose proof (poll_live _ _ _ _ instance_rules) as Hp. pose proof deliver_live.
  assert (preserves live (callback (iget i_globals))) by (apply preserves_zoom; by intros s a env [] [= <- <-]).
  frame.
Qed.

(** The states of a running instance between two rounds of its loop, and the
    one in which it leaves the loop. *)
Inductive serves (wl : whitelist_t) (s0 : I) : sstate I -> Prop :=
  | serves_start s :
      tcp_server_start (mk_sstate (fresh_server (Some wl) (Some connect) (Some data) (Some disconnect) (port config)) s0) = Done (0, s) ->
      serves wl s0 s
  | serves_round s r s' :
      serves wl s0 s -> instance_round tt s = Done (r, s') -> serves wl s0 s'.

(** C14: the session belongs to a connection.  In every state of a running
    instance the pointer to the connection with the session is null or points
    to an open slot of the server, whatever the clients, the device and the
    signals do and in whatever order the slots are taken, closed and taken
    again; and once the server has been stopped there is no session. *)
Theorem session_is_connected (wl : whitelist_t) (s0 : I) (s : sstate I) :
  active_xvc_conn s0 = None -> serves wl s0 s ->
  (forall i, active_xvc_conn (s_env s) = Some i -> slot_open (s_srv s) i) /\
  (forall s', tcp_server_stop s = Done (tt, s') -> active_xvc_conn (s_env s') = None).
Proof.
  intros Ha Hs. assert (Hl : live s).
  { induction Hs as [s E1|s r s' _ IH E1]; [|by apply (round_live tt s r s')].
    eapply (start_live _ _ _ _ instance_rules); [|exact E1]. by apply fresh_live. }
  split; [apply Hl|]. intros s'. by apply (stop_frees _ _ _ _ instance_rules).
Qed.
End Process.

(** ** A session on the concrete process *)

(** The client asks for the server's information and stays. *)
Definition asking_process : istate world sim_ws :=
  mk_istate (mk_globals true false) "" 0 false None
    (mk_xstate xvc_zero (mk_mem ∅ 0 [] (fun _ _ => 0)) (mk_ftdi None false 0 "", sim_closed_world)
       (mk_ws sim_env (mk_link (bytes_of "getinfo:") []) [[]; []; [SIGTERM]])).

Definition leads_to {A S} (m : M S A) (s : S) : S := match m s with Done (_, s') => s' | _ => s end.

Lemma leads_to_done {A S} (m : M S A) s : match m s with Done _ => true | _ => false end = true -> exists a, m s = Done (a, leads_to m s).
Proof. unfold leads_to. destruct (m s) as [[a s']| |]; [by exists a|done..]. Qed.

Definition asking_fresh : sstate (istate world sim_ws) :=
  mk_sstate (fresh_server (Some (whitelist_load sim_inst).2) (Some (on_client_connect sim_inst))
    (Some (on_client_data sim_inst)) (Some (on_client_disconnect sim_inst)) (port sim_inst)) asking_process.
Definition asking_started : sstate (istate world sim_ws) := leads_to tcp_server_start asking_fresh.
Definition asking : sstate (istate world sim_ws) := leads_to (instance_round tt) (leads_to (instance_round tt) asking_started).

Lemma asking_serves : serves sim_inst (whitelist_load sim_inst).2 asking_process asking.
Proof.
  destruct (leads_to_done (instance_round tt) asking_started) as [r1 E1]; [vm_compute; reflexivity|].
  destruct (leads_to_done (instance_round tt) (leads_to (instance_round tt) asking_started)) as [r2 E2]; [vm_compute; reflexivity|].
  eapply serves_round; [|exact E2]. eapply serves_round; [|exact E1]. apply serves_start.
  assert (E0 : match tcp_server_start asking_fresh with Done (r, _) => r | _ => 1 end = 0) by (vm_compute; reflexivity).
  change (tcp_server_start asking_fresh = Done (0, asking_started)). unfold asking_started, leads_to.
  destruct (tcp_server_start asking_fresh) as [[r s]| |]; [by subst r|discriminate E0..].
Qed.

Lemma session_is_connected_witness :
  active_xvc_conn (s_env asking) = Some 0%nat /\ slot_open (s_srv asking) 0 /\
  exists s', tcp_server_stop asking = Done (tt, s') /\ active_xvc_conn (s_env s') = None.
Proof.
  destruct (session_is_connected sim_inst (whitelist_load sim_inst).2 asking_process asking eq_refl asking_serves) as [Hl Hs].
  assert (Ha : active_xvc_conn (s_env asking) = Some 0%nat) by (vm_compute; reflexivity).
  split; [exact Ha|]. split; [exact (Hl 0%nat Ha)|].
  destruct (leads_to_done tcp_server_stop asking) as [[] E1]; [vm_compute; reflexivity|].
  eexists. split; [exact E1|exact (Hs _ E1)].
Defined.
