(* ===== verification/Ends.v ===== *)
(** What comes to an end.

    [ends P m Q]: from a state with [P], [m] is not caught in a loop: it comes
    back with a result that has [Q] in a state with [P], or leaves defined
    behaviour.  [tame P m] says nothing of the result.  As in Frame.v the
    tactic [tame] walks over the text of a program; the loops and the calls
    of the boundary are hints of the database [tame]. *)

From S2P Require Import Prelude.

Create HintDb tame.

Definition ends {S A} (P : S -> Prop) (m : M S A) (Q : A -> Prop) : Prop :=
  forall s, P s -> match m s with Done (a, s') => Q a /\ P s' | Undef => True | Stuck => False end.

Definition tame {S A} (P : S -> Prop) (m : M S A) : Prop := ends P m (fun _ => True).

Section Ends.
Context {S : Type} (P : S -> Prop).

Lemma ends_ret {A} (a : A) (Q : A -> Prop) : Q a -> ends P (mret a : M S A) Q.
Proof. by intros HQ s Hs. Qed.

Lemma ends_bind {A B} (m : M S A) (k : A -> M S B) Q R :
  ends P m Q -> (forall a, Q a -> ends P (k a) R) -> ends P (m ≫= k) R.
Proof.
  intros Hm Hk s Hs. specialize (Hm s Hs). unfold mbind, M_bind.
  destruct (m s) as [[a s']| |]; [|done..]. destruct Hm as [Ha Hs']. by apply Hk.
Qed.

Lemma ends_seq {A B} (m : M S A) (k : A -> M S B) R :
  tame P m -> (forall a, ends P (k a) R) -> ends P (m ≫= k) R.
Proof. intros Hm Hk. apply (ends_bind m k (fun _ => True)); auto. Qed.

Lemma ends_mono {A} (m : M S A) (Q R : A -> Prop) : ends P m Q -> (forall a, Q a -> R a) -> ends P m R.
Proof.
  intros Hm HR s Hs. specialize (Hm s Hs). destruct (m s) as [[a s']| |]; [|done..]. destruct Hm. auto.
Qed.

Lemma ends_tame {A} (m : M S A) (Q : A -> Prop) : ends P m Q -> tame P m.
Proof. intros Hm. by apply (ends_mono m Q). Qed.

(** A step that reads the state, with what [P] says of it. *)
Lemma ends_at {A B} (f : S -> A) (k : A -> M S B) R :
  (forall s, P s -> match k (f s) s with Done (a, s') => R a /\ P s' | Undef => True | Stuck => False end) ->
  ends P (gets f ≫= k) R.
Proof. done. Qed.

Lemma ends_gets {A B} (f : S -> A) (k : A -> M S B) (Q : A -> Prop) R :
  (forall s, P s -> Q (f s)) -> (forall a, Q a -> ends P (k a) R) -> ends P (gets f ≫= k) R.
Proof. intros Hf. apply ends_bind. intros s Hs. split; [by apply Hf|done]. Qed.

Lemma tame_gets {A} (f : S -> A) : tame P (gets f).
Proof. by intros s Hs. Qed.

Lemma tame_get : tame P get_state.
Proof. by intros s Hs. Qed.

Lemma tame_modify f : (forall s, P s -> P (f s)) -> tame P (modify f).
Proof. intros Hf s Hs. split; [done|by apply Hf]. Qed.

Lemma ends_lift {A} (e : exec A) : e <> Stuck -> ends P (lift_exec e) (fun a => e = Done a).
Proof. intros He s Hs. unfold lift_exec. by destruct e. Qed.

Lemma tame_lift {A} (e : exec A) : e <> Stuck -> tame P (lift_exec e).
Proof. intros He. by eapply ends_tame, ends_lift. Qed.

Lemma tame_undefined {A} : tame P (undefined : M S A).
Proof. by intros s Hs. Qed.

(** Steps that leave the state as it is. *)
Lemma tame_reads {A} (m : M S A) :
  (forall s, match m s with Done (_, s') => s' = s | Undef => True | Stuck => False end) -> tame P m.
Proof. intros Hm s Hs. specialize (Hm s). destruct (m s) as [[a s']| |]; [by subst|done..]. Qed.

(** A loop with a bound on its rounds. *)
Lemma ends_while {L R} (J : Z -> L -> S -> Prop) (body : L -> M S (L + R)) l (Q : R -> Prop) :
  (forall i l s, J i l s -> P s ->
     match body l s with
     | Done (inl l', s') => P s' /\ exists j, 0 <= j < i /\ J j l' s'
     | Done (inr r, s') => Q r /\ P s'
     | Undef => True
     | Stuck => False
     end) ->
  (forall s, P s -> exists i, i < 2 ^ 64 /\ J i l s) -> ends P (while_loop body l) Q.
Proof.
  intros Hb Hi s Hs. destruct (Hi s Hs) as (i & Hlt & HJ).
  apply (while_indexed body (fun i l s => J i l s /\ P s)
    (fun e => match e with Done (a, s') => Q a /\ P s' | Undef => True | Stuck => False end) i l s); [|done..].
  intros i1 l1 s1 [H1 H2]. specialize (Hb i1 l1 s1 H1 H2). destruct (body l1 s1) as [[[l'|r] s']| |]; [|done..].
  destruct Hb as (Hp & j & Hj & HJ'). by exists j.
Qed.

(** The same for a loop whose bound is in its variables. *)
Lemma tame_while {L R} (I : L -> Prop) (mu : L -> Z) (body : L -> M S (L + R)) l :
  (forall l, I l -> ends P (body l) (fun r => match r with inl l' => I l' /\ 0 <= mu l' < mu l | inr _ => True end)) ->
  I l -> mu l < 2 ^ 64 -> tame P (while_loop body l).
Proof.
  intros Hb HI Hmu. apply (ends_while (fun i l _ => I l /\ mu l = i)).
  - intros i l1 s [H1 <-] Hs. specialize (Hb l1 H1 s Hs). destruct (body l1 s) as [[[l'|r] s']| |]; [|done..].
    destruct Hb as [[H2 H3] H4]. split; [done|]. by exists (mu l').
  - intros s Hs. by exists (mu l).
Qed.
End Ends.

Lemma tame_zoom {S T A} (P : T -> Prop) (P' : S -> Prop) (g : T -> S) (p : S -> T -> T) (m : M S A) :
  tame P' m -> (forall t, P t -> P' (g t)) -> (forall t s', P t -> P' s' -> P (p s' t)) -> tame P (zoom g p m).
Proof.
  intros Hm Hg Hp t Ht. unfold zoom. specialize (Hm (g t) (Hg t Ht)). destruct (m (g t)) as [[a s']| |]; [|done..].
  destruct Hm. split; [done|]. by apply Hp.
Qed.

Lemma not_stuck_option {A} (o : option A) : of_option o <> Stuck.
Proof. by destruct o. Qed.

Lemma not_stuck_int x : int_arith x <> Stuck.
Proof. unfold int_arith. by destruct (int_ok x). Qed.

#[export] Hint Extern 1 (tame _ (lift_exec (of_option _))) => apply tame_lift, not_stuck_option : tame.
#[export] Hint Extern 1 (tame _ (lift_exec (int_arith _))) => apply tame_lift, not_stuck_int : tame.

Ltac tame_step :=
  match goal with
  | |- tame ?P ?m => change (ends P m (fun _ => True))
  | |- ends _ (_ ≫= _) _ => apply ends_seq
  | |- ends _ (mret _) _ => apply ends_ret; exact I
  | |- forall _, _ => intro
  | |- ends _ (match ?x with _ => _ end) _ => destruct x eqn:?
  | |- ends _ (match ?x with _ => _ end _) _ => destruct x
  | |- ends _ (gets _) _ => apply tame_gets
  | |- ends _ get_state _ => apply tame_get
  | |- ends _ undefined _ => apply tame_undefined
  | |- ends ?P ?m _ => change (tame P m); solve [eauto with tame nocore]
  end.

Ltac tame := repeat (cbv zeta; tame_step).
