(* ===== verification/AdapterEnds.v ===== *)
(** The adapter comes back.

    On every driver that keeps the promise of [DriverReads], and whatever else
    it answers, no operation of the adapter is caught in a loop: the read loop
    by its counters, the loops over a vector because every
    round moves on.  The one thing that the loops need of the context is that
    the response that is waited for fits its array. *)

From S2P Require Import Prelude Jtag Ends Memory CString D2xx MpsseBuffer MpsseSettled MpsseScan MpsseShift MpsseRefine.
From S2P Require Import MpsseAdapter FtdiAdapter.

Definition fine (c : mpsse_context) : Prop :=
  max_rx_buffer_bytes (buffer c) = RX_MAX /\ 0 <= rx_num_bytes (buffer c) <= RX_MAX /\ chip_buffer_size c = 65536.

Definition fine_state {W} (s : mstate W) : Prop := fine (ms_ctx s).

Section Steps.
Context {W : Type} `{D2XX W}.
#[local] Abbreviation tames := (tame (fine_state (W := W))).

Lemma set_ctx_tame f : (forall c, fine c -> fine (f c)) -> tames (set_ctx f).
Proof. intros Hf. apply tame_modify. intros s. apply Hf. Qed.

Lemma set_error_tame e : tames (set_error e).
Proof. by apply set_ctx_tame. Qed.

Lemma ft_tame {A} (call : W -> A * W) : tames (ft call).
Proof. intros s Hs. unfold ft. by destruct (call (ms_w s)) as [a w]. Qed.

Lemma heap_tame {A} (f : mem -> A * mem) : tames (MpsseAdapter.heap f).
Proof. intros s Hs. unfold MpsseAdapter.heap. by destruct (f (ms_mem s)) as [a m]. Qed.
End Steps.

#[export] Hint Resolve set_error_tame ft_tame heap_tame : tame.
#[export] Hint Extern 2 (tame fine_state (set_ctx _)) =>
  apply set_ctx_tame; intros ? (? & ? & ?); unfold fine, RX_MAX in *; cbn; lia : tame.
#[export] Hint Extern 2 (tame fine_state (set_buf _)) =>
  apply set_ctx_tame; intros ? (? & ? & ?); unfold fine, RX_MAX in *; cbn; lia : tame.

Section Operations.
Context {W : Type} `{DriverReads W}.
#[local] Abbreviation tames := (tame (fine_state (W := W))).

Lemma flush_dump_tame tx n : tames (flush_dump tx n).
Proof.
  assert (Hf : forall o b z, tames (format_tms_tdi_hex o b z)).
  { intros o b z. apply tame_reads. intros s. unfold format_tms_tdi_hex. cbv zeta.
    destruct (_ || _); [done|]. by destruct (format_loop _ _ _ _ _ _ _ _). }
  unfold flush_dump, ctx_of. tame.
Qed.
#[local] Hint Resolve flush_dump_tame : tame.

Lemma flush_tx_tame : tames flush_tx.
Proof. unfold flush_tx, buf_of, ctx_of. tame. Qed.
#[local] Hint Resolve flush_tx_tame : tame.

Lemma run_observer_tame rx o : tames (run_observer rx o).
Proof.
  intros s Hs. unfold run_observer. destruct (node_fn o), (pool_objs (observer_pool (ms_ctx s)) !! node_extra o) as [[]|]; try done.
  - by destruct (update_from _ _ _).
  - by destruct (read_at _ _ _ ≫= _).
  - by destruct (read_at _ _ _ ≫= _).
Qed.
#[local] Hint Resolve run_observer_tame : tame.

Lemma run_observers_tame rx l : tames (run_observers rx l).
Proof. induction l as [|o l IH]; cbn [run_observers]; tame. Qed.
#[local] Hint Resolve run_observers_tame : tame.

Lemma read_round_tame v : tames (read_round v).
Proof. unfold read_round, ctx_of. tame. Qed.

Lemma read_loop_tame : tames (while_loop read_round (0, 500000, 0)).
Proof.
  apply (ends_while _ (fun i v s => reading_state (rx_num_bytes (buffer (ms_ctx s))) v s /\ read_measure v s = i)).
  - intros i v s [H1' <-] Hs. pose proof (read_round_step _ v s H1') as Hr. pose proof (read_round_tame v s Hs) as Ht.
    destruct (read_round v s) as [[[v'|r] s']| |]; [|done..]. destruct Hr as [H2' H3'], Ht as [_ Ht].
    split; [done|]. exists (read_measure v' s'). split; [done|]. split; [|done].
    assert (E : rx_num_bytes (buffer (ms_ctx s')) = rx_num_bytes (buffer (ms_ctx s))) by apply H2'. by rewrite E.
  - intros s (_ & Hr & _). unfold RX_MAX in Hr. eexists. split; [|split; [|reflexivity]].
    + unfold read_measure. cbn. lia.
    + unfold reading_state. cbn. unfold INT_MAX. lia.
Qed.
#[local] Hint Resolve read_loop_tame : tame.

Lemma flush_tame : tames mpsse_buffer_flush.
Proof. unfold mpsse_buffer_flush, flush_rx, buf_of. tame. Qed.
#[local] Hint Resolve flush_tame : tame.

(** *** Appends *)

Lemma fetch_tame src n : tames (fetch src n).
Proof. apply tame_reads. intros s. unfold fetch. by destruct (match src with Local _ => _ | Heap _ => _ end). Qed.
#[local] Hint Resolve fetch_tame : tame.

Lemma pool_alloc_tame n : tames (pool_alloc n).
Proof. intros s Hs. unfold pool_alloc. cbv zeta. by destruct (_ <? _). Qed.
#[local] Hint Resolve pool_alloc_tame : tame.

Lemma append_tx_tame src n : tames (append_tx src n).
Proof. unfold append_tx, buf_of. tame. Qed.
#[local] Hint Resolve append_tx_tame : tame.

(** The guard keeps the response within the array. *)
Lemma append_rx_tame o n : tames (append_rx o n).
Proof.
  unfold append_rx, buf_of. intros s Hs. pose proof Hs as (F1 & F2 & F3).
  rewrite (bind_done (gets (fun s => buffer (ms_ctx s))) _ s (buffer (ms_ctx s)) s eq_refl).
  destruct (Z.ltb_spec 0 n); [|done]. destruct (Z.ltb_spec (max_rx_buffer_bytes (buffer (ms_ctx s))) (rx_num_bytes (buffer (ms_ctx s)) + n)); [done|].
  assert (Hf : fine ((ms_ctx s) <| buffer := (buffer (ms_ctx s)) <| rx_num_bytes := rx_num_bytes (buffer (ms_ctx s)) + n |> |>)).
  { unfold fine. cbn. lia. }
  destruct o as [[fn a]|]; [|exact (conj I Hf)].
  unfold pool_alloc, mbind, M_bind. cbv zeta. by destruct (_ <? _).
Qed.
#[local] Hint Resolve append_rx_tame : tame.

Lemma append_tame src n o m : tames (mpsse_buffer_append src n o m).
Proof. unfold mpsse_buffer_append, buf_of. tame. Qed.
#[local] Hint Resolve append_tame : tame.

Lemma readback_tame src n f e m : tames (mpsse_buffer_add_write_with_readback src n f e m).
Proof. unfold mpsse_buffer_add_write_with_readback, mpsse_buffer_ensure_can_append, buf_of. tame. Qed.
#[local] Hint Resolve readback_tame : tame.

Lemma alloc_extra_tame e : tames (alloc_extra e).
Proof. unfold alloc_extra, pool_put. tame. Qed.
#[local] Hint Resolve alloc_extra_tame : tame.

Lemma simple_tame src n p m : tames (mpsse_buffer_add_write_simple src n p m).
Proof. unfold mpsse_buffer_add_write_simple. tame. Qed.
#[local] Hint Resolve simple_tame : tame.

(** *** The scan *)

Lemma deref_tame p i : tames (deref p i).
Proof. apply tame_reads. intros s. unfold deref, lift_exec. by destruct (load8 _ _). Qed.
#[local] Hint Resolve deref_tame : tame.

Lemma get_bit_at_tame p i : tames (get_bit_at p i).
Proof. apply tame_reads. intros s. unfold get_bit_at, lift_exec. by destruct (load_from _ _ ≫= _). Qed.
#[local] Hint Resolve get_bit_at_tame : tame.

Lemma build_tms_byte_tame p f i t n : tames (build_tms_byte p f i t n).
Proof. revert i t. induction n as [|n IH]; intros i t; cbn [build_tms_byte]; tame. Qed.
#[local] Hint Resolve build_tms_byte_tame : tame.

Lemma append_tms_tame p from to : to - from < 2 ^ 64 -> tames (append_tms_shift p from to).
Proof.
  intros Hlen. unfold append_tms_shift. apply ends_seq; [|tame].
  apply (tame_while _ (fun _ => True) (fun i => Z.max 0 (to - i))); [|done|lia]. intros i _. unfold tms_round, ctx_of.
  destruct (Z.ltb_spec i to) as [Hlt|]; [|by apply ends_ret]. cbv zeta. unfold max_tms_bits_per_command.
  do 3 (apply ends_seq; [tame|intros]). destruct (_ <? _); apply ends_ret; [done|lia].
Qed.

(** A round of the TDI shift moves on. *)
Definition moving (p : tdi_plan) (from cur : Z) : Prop :=
  cur = from \/ from + num_leading_bits p <= cur /\
    (num_trailing_bits p = 0 -> (cur - (from + num_leading_bits p)) mod 8 = 0 \/ last_bit_idx p < cur).

(** The stages answer an index that they determine. *)
Definition reaches (Q : Z -> Prop) (r : option Z) : Prop := match r with Some cur => Q cur | None => True end.

Lemma then_stage_ends r (k : Z -> M (mstate W) (option Z)) Q Q' :
  reaches Q r -> (forall cur, Q cur -> ends fine_state (k cur) (reaches Q')) -> ends fine_state (then_stage r k) (reaches Q').
Proof. intros Hr Hk. destruct r as [cur|]; [by apply Hk|by apply ends_ret]. Qed.

#[local] Ltac stage := repeat first
  [ match goal with
    | |- ends _ (mret None) _ => apply ends_ret; exact I
    | |- ends _ (mret (Some _)) _ => apply ends_ret; hnf
    | |- ends _ (_ ≫= _) _ => apply ends_seq; [tame|intros ?]
    | |- ends _ (match ?x with _ => _ end) _ => destruct x eqn:?
    end | progress cbv zeta ].

Lemma shift_leading_ends p tdi tdo cur :
  ends (fine_state (W := W)) (shift_leading p tdi tdo cur) (reaches (fun cur' =>
    cur' = if (cur =? from_bit_idx p) && (0 <? num_leading_bits p) then cur + num_leading_bits p else cur)).
Proof. unfold shift_leading. destruct (_ && _); stage; done. Qed.

Lemma shift_inner_ends p tdi tdo bulk cur :
  ends (fine_state (W := W)) (shift_inner p tdi tdo bulk cur) (reaches (fun cur' =>
    cur' = if (cur <? last_bit_idx p) && (cur <? inner_end_idx p)
           then cur + Z.min ((inner_end_idx p - cur) / 8) 65536 * 8 else cur)).
Proof.
  unfold shift_inner. destruct (_ && _); [|by apply ends_ret]. unfold ctx_of.
  apply (ends_gets _ _ _ (fun c => chip_buffer_size c = 65536)); [by intros s (_ & _ & Hc)|]. intros c ->. stage; done.
Qed.

Lemma shift_trailing_ends p tdi tdo cur :
  ends (fine_state (W := W)) (shift_trailing p tdi tdo cur) (reaches (fun cur' =>
    cur' = if (0 <? num_trailing_bits p) && (cur <? last_bit_idx p) then cur + num_trailing_bits p else cur)).
Proof. unfold shift_trailing. destruct (_ && _); stage; done. Qed.

Lemma shift_last_ends p tdi tdo high cur :
  ends (fine_state (W := W)) (shift_last p tdi tdo high cur) (reaches (fun cur' =>
    cur' = if cur =? last_bit_idx p then cur + 1 else cur)).
Proof. unfold shift_last. destruct (_ =? _); stage; done. Qed.

Lemma tdi_progress from to p cur c1 c2 c3 c4 :
  Plan from to p -> 0 <= from < to -> moving p from cur -> from <= cur < to ->
  c1 = (if (cur =? from_bit_idx p) && (0 <? num_leading_bits p) then cur + num_leading_bits p else cur) ->
  c2 = (if (c1 <? last_bit_idx p) && (c1 <? inner_end_idx p)
        then c1 + Z.min ((inner_end_idx p - c1) / 8) 65536 * 8 else c1) ->
  c3 = (if (0 <? num_trailing_bits p) && (c2 <? last_bit_idx p) then c2 + num_trailing_bits p else c2) ->
  c4 = (if c3 =? last_bit_idx p then c3 + 1 else c3) ->
  moving p from c4 /\ cur < c4.
Proof.
  intros [P1 P2 P3 P4 P5 P6 P7 P8 P9] Hft Hm Hc E1 E2 E3 E4. rewrite P1 in E1. rewrite P3 in E2, E3, E4. unfold moving in *. rewrite P3 in *.
  set (lead := num_leading_bits p) in *. set (tr := num_trailing_bits p) in *. set (tot := total_inner_bytes p) in *.
  set (ie := inner_end_idx p) in *. clearbody lead tr tot ie.
  assert (H1 : cur <= c1 /\ from + lead <= c1 /\ (cur = c1 -> cur = from -> lead = 0) /\
    (tr = 0 -> (c1 - (from + lead)) mod 8 = 0 \/ to - 1 < c1)).
  { destruct (Z.eqb_spec cur from) as [->|Hne]; cbn [andb] in E1.
    - assert (c1 = from + lead) by (destruct (Z.ltb_spec 0 lead); lia). clear E1.
      split_and!; [lia..|]. intros _. left. replace (c1 - (from + lead)) with 0 by lia. done.
    - subst c1. destruct Hm as [Hm|[Hm1 Hm2]]; [done|]. by split_and!. }
  clear P4 P1. destruct H1 as (A1 & A2 & A3 & A4).
  (* inner bytes *)
  assert (H2 : c1 <= c2 /\ (tr = 0 -> (c2 - (from + lead)) mod 8 = 0 \/ to - 1 < c2) /\
    (c1 = c2 -> tr = 0 -> c1 < to - 1 -> False)).
  { assert (Hq : c1 < ie -> 0 <= (ie - c1) / 8) by (intros; apply Z.div_pos; lia).
    set (k := Z.min ((ie - c1) / 8) 65536) in *.
    assert (Hi : tr = 0 -> c1 < to - 1 -> c1 < ie /\ 1 <= (ie - c1) / 8).
    { intros Ht Hl. destruct (Z.eq_dec tot 0) as [Hz|Hz]; [lia|]. destruct (P8 ltac:(lia)) as [Hie _].
      destruct (A4 Ht) as [A5|]; [|lia]. split; [lia|]. apply Z.div_le_lower_bound; [lia|].
      pose proof (Z.div_mod (c1 - (from + lead)) 8). lia. }
    destruct (Z.ltb_spec c1 (to - 1)) as [B1|B1], (Z.ltb_spec c1 ie) as [B2|B2]; cbn [andb] in E2; subst c2.
    - split_and!; [lia| |intros; lia]. intros Ht. destruct (A4 Ht) as [A5|]; [|lia]. left.
      replace (c1 + k * 8 - (from + lead)) with (c1 - (from + lead) + k * 8) by lia. by rewrite Z_mod_plus_full.
    - split_and!; [lia|done|lia].
    - split_and!; [lia|done|lia].
    - split_and!; [lia|done|lia]. }
  clear E2 P8 P9. destruct H2 as (B1 & B2 & B3).
  destruct (Z.ltb_spec 0 tr) as [C1|C1], (Z.ltb_spec c2 (to - 1)) as [C2|C2]; cbn [andb] in E3; subst c3;
    destruct (Z.eqb_spec c2 (to - 1)) as [C3|C3]; destruct (Z.eqb_spec (c2 + tr) (to - 1)) as [C4|C4]; subst c4;
    (split; [right; split; [lia|intros Ht; specialize (B2 Ht); try lia]|]); try lia.
Qed.

Lemma tdi_round_ends from to tdi tdo bulk high cur :
  let p := plan_tdi_shift from to in
  0 <= from < to -> moving p from cur -> from <= cur ->
  ends (fine_state (W := W)) (tdi_round p tdi tdo bulk high cur) (fun r => match r with
    | inl cur' => moving p from cur' /\ cur < cur' /\ cur < to
    | inr _ => True
    end).
Proof.
  intros p Hft Hm Hc. pose proof (plan_ok from to Hft) as Hp. fold p in Hp. clearbody p. unfold tdi_round.
  rewrite (Plan_to _ _ _ Hp). destruct (Z.ltb_spec cur to) as [Hlt|]; [|by apply ends_ret].
  eapply ends_bind; [apply shift_leading_ends|]. intros r1 G1.
  eapply ends_bind; [eapply (then_stage_ends r1 _ _ _ G1); intros c1 E1; clear G1; subst c1; apply shift_inner_ends|].
  intros r2 G2.
  eapply ends_bind; [eapply (then_stage_ends r2 _ _ _ G2); intros c2 E2; clear G2; subst c2; apply shift_trailing_ends|].
  intros r3 G3.
  eapply ends_bind; [eapply (then_stage_ends r3 _ _ _ G3); intros c3 E3; clear G3; subst c3; apply shift_last_ends|].
  intros [c4|] G4; [|by apply ends_ret]. apply ends_ret.
  destruct (tdi_progress from to p cur _ _ _ c4 Hp Hft Hm ltac:(lia) eq_refl eq_refl eq_refl G4). split_and!; done.
Qed.

Lemma append_tdi_tame tdi tdo from to high :
  0 <= from < to -> to < 2 ^ 60 -> tames (append_tdi_shift tdi tdo from to high).
Proof.
  intros Hft Hto. unfold append_tdi_shift. cbv zeta. apply ends_seq.
  { destruct (0 <? _); [|by apply ends_ret]. tame. }
  intros [bulk|]; [|by apply ends_ret]. apply ends_seq; [|tame].
  apply (tame_while _ (fun cur => moving (plan_tdi_shift from to) from cur /\ from <= cur) (fun cur => Z.max 0 (to - cur))).
  - intros cur [Hm Hc]. eapply ends_mono; [by apply tdi_round_ends|].
    intros [cur'|r]; [|done]. intros (M1 & M2 & M3). split; [split; [done|lia]|lia].
  - split; [by left|lia].
  - lia.
Qed.
#[local] Hint Resolve append_tdi_tame : tame.

Lemma scan_octet_ends tms tdi tdo bits byte i fp jtag n :
  0 <= fp <= i -> i + Z.of_nat n < 2 ^ 60 ->
  ends (fine_state (W := W)) (scan_octet tms tdi tdo bits byte i fp jtag n) (fun r =>
    match r with Some (fp', _) => 0 <= fp' <= i + Z.of_nat n | None => True end).
Proof.
  revert byte i fp jtag. induction n as [|n IH]; intros byte i fp jtag Hfp Hn; cbn [scan_octet].
  { apply ends_ret. lia. }
  cbv zeta. apply (ends_bind _ _ _ (fun r => match r with Some fp' => 0 <= fp' <= i + 1 | None => True end)).
  - destruct (_ || _ || _); [|apply ends_ret; lia]. apply ends_seq.
    + destruct (is_shift jtag); [apply append_tdi_tame|apply append_tms_tame]; lia.
    + intros r. destruct (r <? 0); apply ends_ret; [done|lia].
  - intros [fp'|] Hf; [|by apply ends_ret]. eapply ends_mono; [apply IH; lia|].
    intros [[fp2 j]|]; [lia|done].
Qed.

Lemma scan_tame tms tdi tdo bits : bits < 2 ^ 59 -> tames (mpsse_adapter_scan tms tdi tdo bits).
Proof.
  intros Hb. unfold mpsse_adapter_scan, pool_reset, ctx_of. apply ends_seq; [apply tame_gets|]. intros c.
  destruct (_ || _); [by apply ends_ret|]. apply ends_seq; [tame|]. intros _. apply ends_seq; [|intros [jtag|]; tame].
  apply (tame_while _ (fun '(i, fp, _) => 0 <= fp <= i) (fun '(i, _, _) => Z.max 0 (bits - i))); [|lia|lia].
  intros [[i fp] jtag] Hi. unfold scan_round. destruct (Z.ltb_spec i bits) as [Hlt|]; [|by apply ends_ret].
  apply ends_seq; [tame|]. intros byte. apply (ends_bind _ _ _ (fun next => next = i + 8)).
  { eapply ends_mono; [apply ends_lift, not_stuck_int|]. intros next. unfold int_arith. destruct (int_ok _); [|done]. by intros [= <-]. }
  intros next ->. cbv zeta. set (e := if bits <? i + 8 then bits else i + 8).
  assert (He : i < e <= bits) by (subst e; destruct (Z.ltb_spec bits (i + 8)); lia).
  eapply ends_bind; [apply scan_octet_ends; lia|]. intros [[fp' j]|] Hr; apply ends_ret; [lia|done].
Qed.

(** *** The life cycle *)

Lemma close_handle_tame : tames close_handle.
Proof. unfold close_handle, ctx_of. tame. Qed.
#[local] Hint Resolve close_handle_tame : tame.

Lemma drain_junk_tame : tames drain_junk.
Proof. unfold drain_junk, ctx_of. tame. Qed.
#[local] Hint Resolve drain_junk_tame : tame.

Lemma open_tame vendor product serial index interface : tames (mpsse_adapter_open vendor product serial index interface).
Proof. unfold mpsse_adapter_open, open_device, configure_device, enter_mpsse, setup_buffers, ctx_of, buf_of. tame. Qed.

Lemma close_tame : tames mpsse_adapter_close.
Proof. unfold mpsse_adapter_close, ctx_of. tame. Qed.
#[local] Hint Resolve close_tame : tame.

Lemma destroy_tame : tames mpsse_adapter_destroy.
Proof. unfold mpsse_adapter_destroy, ctx_of. tame. Qed.

Lemma set_frequency_tame f : tames (mpsse_adapter_set_frequency f).
Proof. unfold mpsse_adapter_set_frequency, ctx_of. tame. Qed.

Lemma error_tame : tames mpsse_adapter_error.
Proof. unfold mpsse_adapter_error, ctx_of. tame. Qed.
End Operations.

(** ** The layer above *)

Section Ftdi.
Context {W : Type} `{DriverReads W}.

(** The context behind the pointer, when there is one. *)
Definition fine_ftdi (c : ftdi_context) : Prop := forall m, mpsse c = Some m -> fine m.
Definition ftdi_fine (s : fstate W) : Prop := fine_ftdi (fs_ctx s).
#[local] Abbreviation tames := (tame ftdi_fine).

Lemma set_fctx_tame f : (forall c, mpsse (f c) = mpsse c \/ mpsse (f c) = None) -> tames (set_fctx f).
Proof.
  intros Hf. apply tame_modify. intros s Hs m Hm. cbn in Hm. destruct (Hf (fs_ctx s)) as [E|E]; rewrite E in Hm; [by apply Hs|done].
Qed.

Lemma on_mpsse_tame {A} (null : A) op : tame (fine_state (W := W)) op -> tames (on_mpsse null op).
Proof.
  intros Hop s Hs. unfold on_mpsse. destruct (mpsse (fs_ctx s)) as [c|] eqn:Hc; [|done].
  specialize (Hop (mk_mstate c (fs_mem s) (fs_w s)) (Hs c Hc)). destruct (op _) as [[a s']| |]; [|done..].
  split; [done|]. destruct Hop as [_ Hop]. by intros m [= <-].
Qed.
End Ftdi.

#[export] Hint Extern 2 (tame ftdi_fine (set_fctx _)) => apply set_fctx_tame; intros; first [left; reflexivity | right; reflexivity] : tame.
#[export] Hint Extern 2 (tame ftdi_fine (set_ferror _)) => apply set_fctx_tame; intros; left; reflexivity : tame.

Section FtdiOperations.
Context {W : Type} `{DriverReads W}.
#[local] Abbreviation tames := (tame (ftdi_fine (W := W))).
#[local] Hint Resolve on_mpsse_tame open_tame close_tame destroy_tame set_frequency_tame error_tame : tame.

Lemma ftdi_close_tame : tames ftdi_adapter_close.
Proof. unfold ftdi_adapter_close, fctx. tame. Qed.
#[local] Hint Resolve ftdi_close_tame : tame.

Lemma ftdi_destroy_tame : tames ftdi_adapter_destroy.
Proof. unfold ftdi_adapter_destroy, fctx. tame. Qed.

Lemma ftdi_open_tame vendor product serial index interface : tames (ftdi_adapter_open vendor product serial index interface).
Proof. unfold ftdi_adapter_open, ftdi_adapter_open_with_mode, fctx. tame. Qed.

Lemma ftdi_set_frequency_tame f : tames (ftdi_adapter_set_frequency f).
Proof. unfold ftdi_adapter_set_frequency. tame. Qed.

Lemma ftdi_set_period_tame n : tames (ftdi_adapter_set_period n).
Proof. unfold ftdi_adapter_set_period, fctx. tame. Qed.

Lemma ftdi_error_tame : tames ftdi_adapter_error.
Proof. unfold ftdi_adapter_error, fctx. tame. Qed.

Lemma ftdi_scan_tame tms tdi tdo bits : bits < 2 ^ 59 -> tames (ftdi_adapter_scan tms tdi tdo bits).
Proof.
  intros Hb. unfold ftdi_adapter_scan, fctx. tame. apply on_mpsse_tame. by apply scan_tame.
Qed.
End FtdiOperations.
