(* ===== verification/InstanceEnds.v ===== *)
(** An instance comes to its end.

    No part of an instance is held for ever, on a driver that keeps the
    promise of [DriverReads] and with clients that do not stall: the adapter by
    AdapterEnds.v, the protocol handler because every command takes bytes that a
    client has sent, of which there are finitely many, the main loop because
    somebody stops the process. *)

From S2P Require Import Prelude Ends Memory CString D2xx MpsseBuffer MpsseAdapter MpsseFaults AdapterEnds.
From S2P Require Import SimDevice Frame HandleFrame ServerFrame Config Whitelist FtdiAdapter XvcProtocol XvcServer TcpServer TcpInvariant Instance InstanceLock InstanceFrame.
From stdpp Require Import strings gmap.
Open Scope Z_scope.

(** ** The protocol handler *)

(** A world in which at most [n] bytes are still to come: a read that brings
    some leaves less, and the other calls do not add to them. *)
Record runs_dry {W} `{Sockets W} (R : Z -> W -> Prop) : Prop := {
  dry_reads : forall n fd k w, R n w -> read_blocks fd k w = false;
  dry_writes : forall n fd d w, R n w -> write_blocks fd d w = false;
  dry_range : forall n w, R n w -> 0 <= n;
  dry_more : forall n m w, R n w -> n <= m -> R m w;
  dry_read : forall n fd k w, R n w -> R n (sock_read fd k w).2;
  dry_some : forall n fd k w r d w', R n w -> sock_read fd k w = ((r, d), w') -> 0 < r -> R (n - 1) w';
  dry_write : forall n fd d w, R n w -> R n (sock_write fd d w).2;
  dry_quickack : forall n fd w, R n w -> R n (sock_quickack fd w)
}.

Section Sockets.
Context {W : Type} `{Sockets W} (R : Z -> W -> Prop) (HR : runs_dry R).

Lemma read_exact_tame n fd k : k < 2 ^ 64 -> tame (R n) (xvc_read_exact fd k).
Proof.
  intros Hk. apply (tame_while _ (fun _ => True) (fun '(len, _) => Z.max 0 len)); [|done|lia].
  intros [len got] _. unfold read_step. destruct (Z.ltb_spec 0 len) as [Hl|].
  2: { intros w Hw. split; [done|exact (dry_quickack R HR n fd w Hw)]. }
  intros w Hw. unfold may_block, mbind, M_bind. rewrite (dry_reads R HR n fd len w Hw). pose proof (dry_read R HR n fd len w Hw) as Hr.
  destruct (sock_read fd len w) as [[r d] w']. destruct (Z.leb_spec r 0); (split; [|done]); [done|]. split; [done|lia].
Qed.

Lemma write_exact_tame n fd buf k : k < 2 ^ 64 -> tame (R n) (xvc_write_exact fd buf k).
Proof.
  intros Hk. apply (tame_while _ (fun _ => True) (fun '(len, _) => Z.max 0 len)); [|done|lia].
  intros [len b] _. unfold write_step. destruct (Z.ltb_spec 0 len) as [Hl|]; [|by apply ends_ret].
  intros w Hw. cbv zeta. unfold may_block, mbind, M_bind. rewrite (dry_writes R HR n fd _ w Hw).
  pose proof (dry_write R HR n fd (take (Z.to_nat len) b) w Hw) as Hr.
  destruct (sock_write fd (take (Z.to_nat len) b) w) as [r w']. destruct (Z.leb_spec r 0); (split; [|done]); [done|]. split; [done|lia].
Qed.

(** The two bytes of a command are taken from what is still to come. *)
Lemma read_two n fd w : R n w ->
  match xvc_read_exact fd 2 w with
  | Done ((r, _), w') => R n w' /\ (r = 1 -> R (n - 1) w')
  | Undef => True
  | Stuck => False
  end.
Proof.
  intros Hw. set (J := fun i (v : Z * list Z) w => Z.max 0 v.1 = i /\ R n w /\ (v.1 < 2 -> R (n - 1) w)).
  apply (while_indexed (read_step fd) J (fun e => match e with
    | Done ((r, _), w') => R n w' /\ (r = 1 -> R (n - 1) w') | Undef => True | Stuck => False end) 2); [|by split|done].
  intros i [len got] w1 (<- & H1 & H2). cbn [fst] in *. unfold read_step.
  destruct (Z.ltb_spec 0 len) as [Hl|]; [|split; [|intros _; specialize (H2 ltac:(lia))]; exact (dry_quickack R HR _ _ _ ltac:(eassumption))].
  unfold may_block, mbind, M_bind. rewrite (dry_reads R HR n fd len w1 H1). pose proof (dry_read R HR n fd len w1 H1) as Hr.
  destruct (sock_read fd len w1) as [[r d] w'] eqn:E1. destruct (Z.leb_spec r 0) as [Hr0|Hr0].
  - split; [done|]. intros ->. lia.
  - exists (Z.max 0 (len - r)). split; [lia|]. split; [done|]. split; [done|]. intros _.
    exact (dry_some R HR n fd len w1 r d w' H1 E1 Hr0).
Qed.
End Sockets.

Section Handler.
Context {AD W : Type} `{Adapter AD} `{Sockets W} (A : AD -> Prop) (R : Z -> W -> Prop) (HR : runs_dry R).
Context (Hperiod : forall p, tame (fun s : mem * AD => A s.2) (ad_set_period p)).
Context (Hscan : forall tms tdi tdo n, n < 2 ^ 59 -> tame (fun s : mem * AD => A s.2) (ad_scan tms tdi tdo n)).

Definition talks (n : Z) (s : xstate AD W) : Prop := A (x_ad s) /\ R n (x_w s).
#[local] Abbreviation tames n := (tame (talks n)).

Lemma set_xctx_tame n f : tames n (set_xctx f).
Proof. by apply tame_modify. Qed.

Lemma xheap_tame n f : tames n (xheap f).
Proof. intros s Hs. unfold xheap. by destruct (f (x_mem s)). Qed.

Lemma xmalloc_tame n k : tames n (xmalloc k).
Proof. intros s Hs. unfold xmalloc. by destruct (malloc (x_mem s) k). Qed.

Lemma xload_tame n f : tames n (xload f).
Proof. intros s Hs. unfold xload. by destruct (f (x_mem s)). Qed.

Lemma xbytes_tame n p k : tames n (xbytes p k).
Proof. intros s Hs. unfold xbytes. by destruct (load_bytes (x_mem s) p k). Qed.

Lemma on_socket_tame {B} n (op : M W B) : tame (R n) op -> tames n (on_socket op).
Proof. intros Hop. apply (tame_zoom _ (R n)); [done|by intros s []|by intros s w [] Hw]. Qed.

Lemma on_adapter_tame {B} n (op : M (mem * AD) B) : tame (fun s => A s.2) op -> tames n (on_adapter op).
Proof. intros Hop. apply (tame_zoom _ (fun s => A s.2)); [done|by intros s []|by intros s [m ad] [] Ha]. Qed.

#[local] Hint Resolve set_xctx_tame xheap_tame xmalloc_tame xload_tame xbytes_tame : tame.
#[local] Hint Extern 2 (tame _ (on_socket (xvc_read_exact _ _))) => apply on_socket_tame, read_exact_tame; [assumption|lia] : tame.
#[local] Hint Extern 2 (tame _ (on_socket (xvc_write_exact _ _ _))) => apply on_socket_tame, write_exact_tame; [assumption|lia] : tame.
#[local] Hint Extern 2 (tame _ (on_adapter (ad_set_period _))) => apply on_adapter_tame, Hperiod : tame.
#[local] Hint Extern 2 (tame _ (on_adapter (ad_scan _ _ _ _))) => apply on_adapter_tame, Hscan; lia : tame.

Lemma jtag_bytes_tame n j i k : tames n (jtag_bytes j i k).
Proof. revert j i. induction k as [|k IH]; intros j i; cbn [jtag_bytes]; unfold xctx; tame. Qed.
#[local] Hint Resolve jtag_bytes_tame : tame.

Lemma read_cmd_tame n off k : k < 2 ^ 64 -> tames n (read_cmd off k).
Proof. intros Hk. unfold read_cmd, xctx. tame. Qed.
#[local] Hint Extern 2 (tame _ (read_cmd _ _)) => apply read_cmd_tame; lia : tame.

Lemma send_reply_tame n b k : k < 2 ^ 64 -> tames n (send_reply b k).
Proof. intros Hk. unfold send_reply, xctx. tame. Qed.
#[local] Hint Extern 2 (tame _ (send_reply _ _)) => apply send_reply_tame; lia : tame.

Lemma shift_vectors_tame n len : tames n (shift_vectors len).
Proof.
  unfold shift_vectors. eapply ends_bind; [apply ends_lift, not_stuck_int|]. intros up Hup.
  assert (Hr : len + 7 <= INT_MAX /\ Z.quot up 8 <= INT_MAX).
  { unfold int_arith, int_ok in Hup. destruct ((INT_MIN <=? len + 7) && (len + 7 <=? INT_MAX)) eqn:E1; [|done].
    injection Hup as <-. zb. split; [done|]. unfold INT_MAX in *. apply Z.quot_le_upper_bound; lia. }
  cbv zeta. generalize dependent (Z.quot up 8). intros nr Hr. unfold INT_MAX in Hr. clear up Hup.
  unfold read_vectors, movement, shift_reply, note_tlr, track_jtag, bogus_movement, xctx. tame.
Qed.
#[local] Hint Resolve shift_vectors_tame : tame.

Lemma handle_getinfo_tame n info : strlen info < 2 ^ 64 -> tames n (handle_getinfo info).
Proof. intros Hi. unfold handle_getinfo. tame. Qed.
#[local] Hint Extern 2 (tame _ (handle_getinfo _)) => apply handle_getinfo_tame; assumption : tame.

Lemma handle_settck_tame n freq : tames n (handle_settck freq).
Proof. unfold handle_settck, xctx. tame. Qed.
#[local] Hint Resolve handle_settck_tame : tame.

Lemma handle_shift_tame n : tames n handle_shift.
Proof. unfold handle_shift, shift_length, xctx. tame. Qed.
#[local] Hint Resolve handle_shift_tame : tame.

Lemma read_command n (s : xstate AD W) : talks n s ->
  match read_cmd 0 2 s with
  | Done (ok, s') => talks n s' /\ (ok = true -> talks (n - 1) s')
  | Undef => True
  | Stuck => False
  end.
Proof.
  intros [Ha Hw]. unfold read_cmd, xctx. rewrite (bind_done (gets x_ctx) _ s (x_ctx s) s eq_refl).
  pose proof (read_two R HR n (socket_fd (x_ctx s)) (x_w s) Hw) as Hr.
  unfold on_socket, zoom, mbind at 1, M_bind at 1. destruct (xvc_read_exact (socket_fd (x_ctx s)) 2 (x_w s)) as [[[r got] w']| |]; [|done..].
  destruct Hr as [H1 H2]. unfold lift_exec. destruct (write_at 0 got (cmd_buf (x_ctx s))) as [b|]; [|done].
  unfold mbind, M_bind. cbn [of_option]. unfold set_xctx, modify.
  destruct (Z.eqb_spec r 1) as [->|Hr1]; cbn [negb]; (split; [done|]); [|done]. intros _. split; [done|]. by apply H2.
Qed.

(** A command that does not end the call has taken bytes. *)
Lemma handle_command_ends n info freq s : strlen info < 2 ^ 64 -> talks n s ->
  match handle_command info freq tt s with
  | Done (inl _, s') => talks (n - 1) s'
  | Done (inr _, s') => talks n s'
  | Undef => True
  | Stuck => False
  end.
Proof.
  intros Hi Hs. unfold handle_command, mbind at 1, M_bind at 1. pose proof (read_command n s Hs) as Hc.
  destruct (read_cmd 0 2 s) as [[[] s1]| |]; [| |done..]; cbn [negb]; [|exact (proj1 Hc)].
  destruct Hc as [_ Hc]. specialize (Hc eq_refl).
  match goal with |- context [?m s1] => assert (Hm : tames (n - 1) m) by (unfold loop_condition, xctx; tame) end.
  specialize (Hm s1 Hc). match type of Hm with match ?e with _ => _ end => destruct e as [[[u|r] s2]| |] end;
    [by destruct Hm| |done..]. destruct Hm as (_ & Ha & Hw).
  split; [done|]. eapply (dry_more R HR); [exact Hw|lia].
Qed.

Lemma xvc_handle_tame n fd ftdi size freq : n < 2 ^ 64 -> tames n (xvc_handle fd ftdi size freq).
Proof.
  intros Hn. unfold xvc_handle, xvc_init, xctx. apply ends_seq; [tame|]. intros c. apply ends_seq; [tame|].
  intros [|]; cbn [negb]; [|by apply ends_ret]. apply ends_seq; [tame|]. intros c1.
  assert (Hi : strlen (xvc_info (max_vector_size c1)) < 2 ^ 64).
  { unfold xvc_info. match goal with |- context [truncated 64 ?t] => pose proof (strlen_truncated 64 t ltac:(lia)) end. lia. }
  set (info := xvc_info _) in *. clearbody info. clear c1.
  apply (ends_while _ (fun i _ s => talks i s /\ i <= n)).
  - intros i [] s [Hs Hin] _. pose proof (handle_command_ends i info freq s Hi Hs) as Hc.
    assert (Hmore : forall j s', talks j s' -> j <= n -> talks n s').
    { intros j s' [Ha Hw] Hj. split; [done|]. by eapply (dry_more R HR). }
    destruct (handle_command info freq tt s) as [[[u|r] s']| |]; [| |done..].
    + split; [apply (Hmore (i - 1)); [done|lia]|]. exists (i - 1). pose proof (dry_range R HR _ _ (proj2 Hc)).
      split; [lia|]. split; [done|lia].
    + split; [done|]. by eapply Hmore.
  - intros s Hs. by exists n.
Qed.

Lemma xvc_free_tame n : tames n xvc_free.
Proof. unfold xvc_free, xctx. tame. Qed.
End Handler.

(** ** The server *)

Lemma any_match_not_stuck b ip l : any_match b ip l <> Stuck.
Proof.
  induction l as [|e l IH]; cbn [any_match]; [done|]. destruct (Bool.eqb _ _); [|done].
  unfold ip_matches_entry. destruct (whitelist_parse_cidr (wl_ip e)) as [[ip1 len]|]; [|done].
  destruct (len =? 32); [by destruct (ip =? ip1)|]. destruct (len =? 0); [done|]. cbv zeta. cbn [mbind exec_bind].
  by destruct (_ =? _).
Qed.

Lemma whitelist_not_stuck wl ip : whitelist_check wl (AF_INET ip) <> Stuck.
Proof.
  cbn [whitelist_check]. unfold whitelist_check_ipv4. pose proof (any_match_not_stuck true ip (wl_entries wl)) as H1.
  pose proof (any_match_not_stuck false ip (wl_entries wl)) as H2.
  destruct (wl_mode wl); [done|..]; destruct (any_match true ip (wl_entries wl)) as [[]| |]; try done; cbn;
    by destruct (any_match false ip (wl_entries wl)) as [[]| |].
Qed.

Section Server.
Context {C : Type} `{TcpOs C} (Q : C -> Prop) (Hos : kept_by_os Q).

(** The callbacks of the server. *)
Context (connect data : option (nat -> tcp_connection_t -> M C Z)) (disconnect : option (nat -> tcp_connection_t -> M C unit)).
Context (Hconnect : forall f i c, connect = Some f -> tame Q (f i c)).
Context (Hdata : forall f i c, data = Some f -> tame Q (f i c)).
Context (Hdisconnect : forall f i c, disconnect = Some f -> tame Q (f i c)).

Record calls_back (sv : tcp_server_t C) : Prop := {
  calls_connect : on_connect sv = connect;
  calls_data : on_data sv = data;
  calls_disconnect : on_disconnect sv = disconnect
}.

Lemma tame_connect sv f i c : calls_back sv -> on_connect sv = Some f -> tame Q (f i c).
Proof. intros [-> _ _]. apply Hconnect. Qed.
Lemma tame_data sv f i c : calls_back sv -> on_data sv = Some f -> tame Q (f i c).
Proof. intros [_ -> _]. apply Hdata. Qed.
Lemma tame_disconnect sv f i c : calls_back sv -> on_disconnect sv = Some f -> tame Q (f i c).
Proof. intros [_ _ ->]. apply Hdisconnect. Qed.

Definition server_fine (s : sstate C) : Prop := calls_back (s_srv s) /\ Q (s_env s).
#[local] Abbreviation tames := (tame server_fine).

Lemma os_tame {A} (call : C -> A * C) : (forall c, Q c -> Q (call c).2) -> tames (os call).
Proof. intros Hc s [H1 H2]. unfold os. specialize (Hc _ H2). by destruct (call (s_env s)) as [x env]. Qed.

Lemma set_srv_tame f :
  (forall sv, on_connect (f sv) = on_connect sv /\ on_data (f sv) = on_data sv /\ on_disconnect (f sv) = on_disconnect sv) ->
  tames (set_srv f).
Proof.
  intros Hf. apply tame_modify. intros [sv env] [[K1 K2 K3] H2]. destruct (Hf sv) as (F1 & F2 & F3).
  split; [|done]. split; cbn in *; congruence.
Qed.

Lemma set_conn_tame i f : tames (set_conn i f).
Proof. by apply set_srv_tame. Qed.

Lemma callback_tame {A} (m : M C A) : tame Q m -> tames (callback m).
Proof. intros Hm. apply (tame_zoom _ Q); [done|by intros s []|by intros s env [] He]. Qed.

(** A look at the server: its callbacks are known to be tame. *)
Lemma srv_tame {B} (k : tcp_server_t C -> M (sstate C) B) R :
  (forall sv, calls_back sv -> ends server_fine (k sv) R) -> ends server_fine (srv ≫= k) R.
Proof. intros Hk s Hs. exact (Hk (s_srv s) (proj1 Hs) s Hs). Qed.

#[local] Hint Resolve set_conn_tame : tame.
#[local] Hint Extern 2 (tame _ (set_srv _)) => apply set_srv_tame; intros; split_and!; reflexivity : tame.
#[local] Hint Extern 2 (tame _ (os _)) =>
  apply os_tame; intros; first [apply kept_socket | apply kept_setsockopt | apply kept_bind | apply kept_listen
    | apply kept_select | apply kept_accept | apply kept_close | apply kept_time]; assumption : tame.
#[local] Hint Extern 2 (tame _ (callback _)) =>
  apply callback_tame; first [eapply tame_connect; eassumption | eapply tame_data; eassumption | eapply tame_disconnect; eassumption] : tame.
#[local] Hint Extern 2 (tame _ (lift_exec _)) => apply tame_lift, whitelist_not_stuck : tame.
#[local] Ltac server_tame :=
  repeat first [match goal with |- ends _ (srv ≫= _) _ => apply srv_tame; intros ? ? end | progress cbv zeta | tame_step].

Lemma conn_at_tame i : tames (conn_at i).
Proof. unfold conn_at. server_tame. Qed.
#[local] Hint Resolve conn_at_tame : tame.

Lemma disconnect_callback_tame i c : tames (disconnect_callback i c).
Proof. unfold disconnect_callback. server_tame. Qed.
#[local] Hint Resolve disconnect_callback_tame : tame.

Lemma close_connection_tame i : tames (tcp_server_close_connection i).
Proof. unfold tcp_server_close_connection. server_tame. Qed.
#[local] Hint Resolve close_connection_tame : tame.

Lemma accept_client_tame : tames accept_client.
Proof. unfold accept_client, admit_client, tune_socket. server_tame. Qed.
#[local] Hint Resolve accept_client_tame : tame.

Lemma check_client_tame sel i : tames (check_client sel i).
Proof. unfold check_client, fd_isset. server_tame. Qed.
#[local] Hint Resolve check_client_tame : tame.

Lemma check_clients_tame sel i n e : tames (check_clients sel i n e).
Proof. revert i e. induction n as [|n IH]; intros i e; cbn [check_clients]; server_tame. Qed.
#[local] Hint Resolve check_clients_tame : tame.

Lemma poll_tame t : tames (tcp_server_poll t).
Proof. unfold tcp_server_poll, fd_isset. server_tame. Qed.

Lemma start_tame : tames tcp_server_start.
Proof. unfold tcp_server_start, close_listen. server_tame. Qed.

Lemma stop_slots_tame i n : tames (for_from i n stop_slot).
Proof. revert i. induction n as [|n IH]; intros i; cbn [for_from]; unfold stop_slot; server_tame. Qed.
#[local] Hint Resolve stop_slots_tame : tame.

Lemma stop_tame : tames tcp_server_stop.
Proof. unfold tcp_server_stop. server_tame. Qed.
End Server.

(** ** The process *)

(** A property of the world that no call of the process changes. *)
Record kept_by_io {W} `{TcpOs W} `{Sockets W} (D : W -> Prop) : Prop := {
  io_os : kept_by_os D;
  io_read : forall fd k w, D w -> D (sock_read fd k w).2;
  io_write : forall fd d w, D w -> D (sock_write fd d w).2;
  io_quickack : forall fd w, D w -> D (sock_quickack fd w)
}.

(** What the surroundings of an instance have to give for it to end: a signal
    to stop comes at one of the next looks, and the clients together send a
    bounded number of bytes.  The other calls do not take part in that. *)
Class InstanceStops (W : Type) `{TcpOs W} `{Sockets W} `{Signals W} := {
  due : Z -> W -> Prop;
  due_look : forall k w sigs w', due k w -> arrived w = (sigs, w') -> stops sigs = true \/ 0 < k /\ due (k - 1) w';
  due_io : forall k, kept_by_io (due k);
  to_come : Z -> W -> Prop;
  to_come_dry : runs_dry to_come;
  to_come_look : forall n w, to_come n w -> to_come n (arrived w).2;
  to_come_os : forall n, kept_by_os (to_come n)
}.

Section Process.
Context {WD WS : Type} `{DriverReads WD} `{InstanceStops WS}.
Context (config : xvc_instance_config_t).
Context (D : WS -> Prop) (HD : kept_by_io D).

(** The clients have at most [n] bytes still to send. *)
Definition ending (n : Z) (w : WS) : Prop := D w /\ to_come n w.

Lemma ending_dry : runs_dry ending.
Proof.
  destruct to_come_dry as [B1 B2 D1 D2 D3 D4 D5 D6], HD as [E1 E2 E3 E6]. split.
  - intros n fd k w [_ Hw]. by eapply B1.
  - intros n fd d w [_ Hw]. by eapply B2.
  - intros n w [_ Hw]. by eapply D1.
  - intros n m w [Hk Hw] Hm. split; [done|by eapply D2].
  - intros n fd l w [Hk Hw]. split; [by apply E2|by apply D3].
  - intros n fd l w r d w' [Hk Hw] E4 Hr. split; [|by eapply D4].
    pose proof (E2 fd l w Hk) as Hd. by rewrite E4 in Hd.
  - intros n fd d w [Hk Hw]. split; [by apply E3|by apply D5].
  - intros n fd w [Hk Hw]. split; [by apply E6|by apply D6].
Qed.

Lemma ending_os n : kept_by_os (ending n).
Proof.
  destruct (io_os _ HD) as [A1 A2 A3 A4 A5 A6 A7 A8], (to_come_os n) as [B1 B2 B3 B4 B5 B6 B7 B8].
  split; intros; unfold ending in *; naive_solver.
Qed.

Definition fine_adapter (ad : ftdi_context * WD) : Prop := fine_ftdi ad.1.

Lemma adapter_period_tame p : tame (fun s : mem * (ftdi_context * WD) => fine_adapter s.2) (ad_set_period p).
Proof.
  intros [m [c w]] Hs. cbn. pose proof (ftdi_set_period_tame p (mk_fstate c m w) Hs) as Ht.
  destruct (ftdi_adapter_set_period p (mk_fstate c m w)) as [[r s']| |]; [|done..]. by destruct Ht.
Qed.

Lemma adapter_scan_tame tms tdi tdo n : n < 2 ^ 59 -> tame (fun s : mem * (ftdi_context * WD) => fine_adapter s.2) (ad_scan tms tdi tdo n).
Proof.
  intros Hn [m [c w]] Hs. cbn. pose proof (ftdi_scan_tame tms tdi tdo n Hn (mk_fstate c m w) Hs) as Ht.
  destruct (ftdi_adapter_scan tms tdi tdo n (mk_fstate c m w)) as [[r s']| |]; [|done..]. by destruct Ht.
Qed.

#[local] Abbreviation talking n := (talks fine_adapter ending n).
Definition calm (n : Z) (s : istate WD WS) : Prop := talking n (i_x s).
#[local] Abbreviation tames n := (tame (calm n)).

Lemma lift_os_calm {A} n (call : WS -> A * WS) (s : istate WD WS) :
  (forall w, ending n w -> ending n (call w).2) -> calm n s -> calm n (lift_os call s).2.
Proof.
  intros Hc [Ha Hw]. unfold lift_os. specialize (Hc _ Hw). by destruct (call (x_w (i_x s))) as [a w].
Qed.

Lemma process_os_calm n : kept_by_os (calm n).
Proof. destruct (ending_os n). split; intros; apply lift_os_calm; auto. Qed.

Lemma set_ictx_tame n f : (forall s, i_x (f s) = i_x s) -> tames n (set_ictx f).
Proof. intros Hf. apply tame_modify. intros s Hs. unfold calm. by rewrite Hf. Qed.

Lemma time_null_tame n : tames n time_null.
Proof.
  intros s Hs. unfold time_null. pose proof (kept_time _ (process_os_calm n) s Hs) as Ht.
  by destruct (os_time s) as [t s'].
Qed.

Lemma on_xvc_tame {A} n (op : M (xstate (ftdi_context * WD) WS) A) : tame (talking n) op -> tames n (on_xvc op).
Proof. intros Hop. by apply (tame_zoom _ (talking n)). Qed.

#[local] Hint Resolve time_null_tame : tame.
#[local] Hint Extern 2 (tame _ (set_ictx _)) => apply set_ictx_tame; intros; reflexivity : tame.
#[local] Hint Extern 2 (tame _ (on_xvc (xvc_handle _ _ _ _))) =>
  apply on_xvc_tame, xvc_handle_tame; [apply ending_dry|exact adapter_period_tame|exact adapter_scan_tame|lia] : tame.
#[local] Hint Extern 2 (tame _ (on_xvc xvc_close)) => apply on_xvc_tame, ends_ret, I : tame.
#[local] Hint Extern 2 (tame _ (on_xvc xvc_free)) => apply on_xvc_tame, xvc_free_tame : tame.

Lemma on_client_connect_tame n i c : tames n (on_client_connect config i c).
Proof.
  unfold on_client_connect, is_lock_expired, client_ip_matches, set_client_lock, release_client_lock, client_ip, ictx. tame.
Qed.

Lemma on_client_data_tame n i c : n < 2 ^ 64 -> tames n (on_client_data config i c).
Proof. intros Hn. unfold on_client_data, ictx. tame. Qed.

Lemma on_client_disconnect_tame n i c : tames n (on_client_disconnect config i c).
Proof. unfold on_client_disconnect, set_client_lock, client_ip, ictx. tame. Qed.
End Process.

Section Run.
Context {WD WS : Type} `{DriverReads WD} `{InstanceStops WS}.
Context (config : xvc_instance_config_t) (n : Z) (Hn : n < 2 ^ 64).
#[local] Abbreviation I := (istate WD WS).

#[local] Abbreviation connect := (Some (on_client_connect (WD := WD) (WS := WS) config)).
#[local] Abbreviation data := (Some (on_client_data (WD := WD) (WS := WS) config)).
#[local] Abbreviation disconnect := (Some (on_client_disconnect (WD := WD) (WS := WS) config)).

(** Nothing is known of the signals. *)
Definition whenever (w : WS) : Prop := True.

Lemma whenever_io : kept_by_io whenever.
Proof. by repeat split. Qed.

Lemma calm_weaken (D D' : WS -> Prop) (s : I) : (forall w, D w -> D' w) -> calm D n s -> calm D' n s.
Proof. intros HD [Ha [Hd Hw]]. split; [done|]. split; [by apply HD|done]. Qed.

(** The server runs in a calm process. *)
Definition serving (D : WS -> Prop) (s : sstate I) : Prop :=
  calls_back connect data disconnect (s_srv s) /\ calm D n (s_env s).

Lemma server_calm {A} (D : WS -> Prop) (op : M (sstate I) A) : kept_by_io D ->
  ((forall f i c, connect = Some f -> tame (calm (WD := WD) D n) (f i c)) ->
   (forall f i c, data = Some f -> tame (calm (WD := WD) D n) (f i c)) ->
   (forall f i c, disconnect = Some f -> tame (calm (WD := WD) D n) (f i c)) ->
   tame (server_fine (calm (WD := WD) D n) connect data disconnect) op) -> tame (serving D) op.
Proof.
  intros HD Hop. apply Hop; intros f i c [= <-].
  - by apply on_client_connect_tame.
  - by apply on_client_data_tame.
  - by apply on_client_disconnect_tame.
Qed.

Lemma poll_calm D t : kept_by_io D -> tame (serving D) (tcp_server_poll t).
Proof. intros HD. apply server_calm; [done|]. intros. apply poll_tame; [by apply process_os_calm|done..]. Qed.

Lemma start_calm D : kept_by_io D -> tame (serving D) tcp_server_start.
Proof. intros HD. apply server_calm; [done|]. intros. apply start_tame. by apply process_os_calm. Qed.

Lemma stop_calm D : kept_by_io D -> tame (serving D) tcp_server_stop.
Proof. intros HD. apply server_calm; [done|]. intros. apply stop_tame; [by apply process_os_calm|done..]. Qed.

(** A look at the signals: the process is told to stop, or a look is gone. *)
Lemma deliver_calm k (s : I) : calm (due k) n s ->
  exists s', deliver s = Done (tt, s') /\ calm whenever n s' /\
    (g_running (i_globals s') = false \/ 0 < k /\ calm (due (k - 1)) n s').
Proof.
  intros [Ha [Hk Hw]]. unfold deliver, lift_os. pose proof (due_look k (x_w (i_x s))) as Hd.
  pose proof (to_come_look n _ Hw) as Hw'. destruct (arrived (x_w (i_x s))) as [sigs w].
  eexists. split; [reflexivity|]. split; [done|].
  destruct (Hd sigs w Hk eq_refl) as [Hst|[Hk0 Hk']]; [left; by apply stop_stops|by right].
Qed.

Lemma loop_calm k (s : sstate I) : k < 2 ^ 64 -> serving (due k) s ->
  match instance_loop s with Done (_, s') => serving whenever s' | Undef => True | Stuck => False end.
Proof.
  intros Hk Hs. apply (while_indexed instance_round (fun i _ s => serving (due i) s)
    (fun e => match e with Done (_, s') => serving whenever s' | Undef => True | Stuck => False end) k); [|done..].
  clear k s Hk Hs. intros k u s [Hc Hs]. unfold instance_round.
  destruct (deliver_calm k (s_env s) Hs) as (env & E1 & Hw & Hd).
  assert (E2 : callback deliver s = Done (tt, s <| s_env := env |>)) by (unfold callback, zoom; by rewrite E1).
  rewrite (bind_done _ _ _ _ _ E2). unfold callback at 1, zoom at 1, mbind at 1, M_bind at 1. cbn [iget gets s_env setter].
  destruct Hd as [-> | [Hk Hd]]; [by split|]. destruct (g_running (i_globals env)); [|by split].
  pose proof (poll_calm (due (k - 1)) 1000 (due_io _) (s <| s_env := env |> <| s_env := env |>) (conj Hc Hd)) as Hp.
  unfold mbind at 1, M_bind at 1. destruct (tcp_server_poll 1000 _) as [[r s1]| |]; [|done..].
  destruct Hp as (_ & Hc1 & Hs1). destruct (r <? 0).
  - split; [done|]. by eapply calm_weaken; [|exact Hs1].
  - exists (k - 1). by split; [lia|].
Qed.

(** An operation of the adapter. *)
Lemma ftdi_op_calm {A} D (op : M (fstate WD) A) : tame ftdi_fine op -> tame (calm D n) (ftdi_op op).
Proof.
  intros Hop s [Ha Hw]. unfold ftdi_op. specialize (Hop (mk_fstate (x_ad (i_x s)).1 (x_mem (i_x s)) (x_ad (i_x s)).2) Ha).
  destruct (op _) as [[a f]| |]; [|done..]. by destruct Hop as [_ Hop].
Qed.

Lemma close_adapter_calm D : tame (calm D n) close_adapter.
Proof.
  unfold close_adapter. apply ends_seq; [|intros _]; apply ftdi_op_calm; [apply ftdi_close_tame|apply ftdi_destroy_tame].
Qed.

Lemma new_context_calm D (s s' : I) : D (x_w (i_x s)) -> to_come n (x_w (i_x s)) -> new_context s = Done (true, s') -> calm D n s'.
Proof.
  intros Hd Hw. unfold new_context. destruct (ftdi_adapter_create (x_mem (i_x s))) as [[c|] m] eqn:Ec; intros [= <-].
  split; [|done]. unfold fine_adapter. cbn. unfold ftdi_adapter_create in Ec.
  destruct (alloc_ok (x_mem (i_x s))) as [[] m1]; [|done]. cbn [negb] in Ec.
  destruct (mpsse_adapter_create m1) as [[mc|] m2] eqn:Em; [|done]. injection Ec as <- <-.
  intros c' [= <-]. unfold mpsse_adapter_create in Em. destruct (alloc_ok m1) as [[] m3]; [|done]. cbn [negb] in Em.
  destruct (malloc_array m3 _) as [[tx|] m4]; destruct (malloc_array m4 _) as [[rx|] m5]; try done.
  injection Em as <- <-. by repeat split.
Qed.
End Run.

(** ** The whole run *)

Section Whole.
Context {WD WS : Type} `{DriverHandles WD} `{!DriverReads WD} `{QuietIo WS} `{!InstanceStops WS}.
Context (config : xvc_instance_config_t).
#[local] Abbreviation I := (istate WD WS).

Lemma bind_ends {S A B} (m : M S A) (k : A -> M S B) (Q : A -> S -> Prop) s :
  match m s with Done (a, s') => Q a s' | Undef => True | Stuck => False end ->
  (forall a s', Q a s' -> k a s' <> Stuck) -> (m ≫= k) s <> Stuck.
Proof. intros Hm Hk. unfold mbind, M_bind. destruct (m s) as [[a s']| |]; [by apply Hk|done..]. Qed.

Lemma tame_ends {S A B} (P : S -> Prop) (m : M S A) (k : A -> M S B) s :
  tame P m -> P s -> (forall a s', P s' -> k a s' <> Stuck) -> (m ≫= k) s <> Stuck.
Proof.
  intros Hm Hs Hk. apply (bind_ends m k (fun _ => P)); [|done]. specialize (Hm s Hs).
  destruct (m s) as [[a s']| |]; [by destruct Hm|done..].
Qed.

Lemma serving_ends k n (s : I) wl : k < 2 ^ 64 -> n < 2 ^ 64 -> calm (due k) n s ->
  ('(started, srv) ← with_server (fresh_server (Some wl) (Some (on_client_connect config)) (Some (on_client_data config))
       (Some (on_client_disconnect config)) (port config)) tcp_server_start;
   if started <? 0 then _ ← close_adapter; mret 1
   else
     '(_, srv) ← with_server srv instance_loop;
     _ ← with_server srv tcp_server_stop;
     _ ← close_adapter;
     mret 0) s <> Stuck.
Proof.
  intros Hk Hn Hs. set (sv := fresh_server _ _ _ _ _).
  assert (Hsv : serving config n (due k) (mk_sstate sv s)) by (split; [done|exact Hs]).
  apply (bind_ends _ _ (fun '(_, srv) s' => serving config n (due k) (mk_sstate srv s'))).
  { pose proof (start_calm config n Hn (due k) (due_io k) _ Hsv) as Ht. unfold with_server.
    destruct (tcp_server_start (mk_sstate sv s)) as [[r [sv1 s1]]| |]; [by destruct Ht|done..]. }
  intros [started sv1] s1 Hs1. destruct (started <? 0).
  { apply (tame_ends (calm (due k) n)); [by apply close_adapter_calm|by destruct Hs1|done]. }
  apply (bind_ends _ _ (fun '(_, srv) s' => serving config n whenever (mk_sstate srv s'))).
  { pose proof (loop_calm config n Hn k _ Hk Hs1) as Ht. unfold with_server.
    destruct (instance_loop (mk_sstate sv1 s1)) as [[r [sv2 s2]]| |]; done. }
  intros [u sv2] s2 Hs2. apply (bind_ends _ _ (fun _ s' => calm whenever n s')).
  { pose proof (stop_calm config n Hn whenever whenever_io _ Hs2) as Ht. unfold with_server.
    destruct (tcp_server_stop (mk_sstate sv2 s2)) as [[r [sv3 s3]]| |]; [by destruct Ht as (_ & _ & ?)|done..]. }
  intros x s3 Hs3. apply (tame_ends (calm whenever n)); [by apply close_adapter_calm|done|done].
Qed.

Lemma run_instance_not_stuck k n (s : I) :
  k < 2 ^ 64 -> n < 2 ^ 64 -> due k (x_w (i_x s)) -> to_come n (x_w (i_x s)) -> run_instance config s <> Stuck.
Proof.
  intros Hk Hn Hd Hw. unfold run_instance. set (P := calm (WD := WD) (due k) n).
  apply (bind_ends _ _ (fun (b : bool) s1 => if b then P s1 else True)).
  { destruct (new_context s) as [[[] s1]| |] eqn:E1; try done; [by eapply new_context_calm|].
    unfold new_context in E1. by destruct (ftdi_adapter_create (x_mem (i_x s))) as [[c|] m]. }
  intros [] s1 Hs1; cbn [negb]; [|done].
  apply (tame_ends P); [apply ftdi_op_calm, ftdi_open_tame|done|]. intros r s2 Hs2. destruct (r <? 0).
  { apply (tame_ends P); [apply ftdi_op_calm, ftdi_error_tame|done|]. intros e s3 Hs3.
    by apply (tame_ends P); [apply ftdi_op_calm, ftdi_destroy_tame|done|]. }
  apply (tame_ends P); [|done|].
  { destruct (0 <? inst_frequency config); [apply ftdi_op_calm, ftdi_set_frequency_tame|by apply ends_ret]. }
  intros u s3 Hs3. cbv zeta. destruct (whitelist_load config) as [rw wl]. by apply (serving_ends k n).
Qed.

(** C6: an instance is not held for ever by a faulty device.  What the scans
    and the calls of the driver answer is arbitrary, up to one thing: a
    successful read of a queue that is not empty gives at least a byte
    ([DriverReads]).  Under the conditions that a signal to stop is due within
    [k] looks, and that the clients send at most [n] bytes in all and none of
    them stalls in a read or a write ([to_come]), [run_instance] is caught
    neither in a loop nor in a call that blocks.  A run can still leave defined
    behaviour, on a faulty device or a length out of range; C5 has the
    conditions under which it does not.  A run that returns, returns 0 or 1 and
    has given the descriptors and the driver handles back, on every path: no
    memory, no device, no port, told to stop.  A client that does stall holds
    the instance: [InstanceSafe.stalled_client_holds]. *)
Theorem run_instance_ends k n (s : I) :
  due k (x_w (i_x s)) -> to_come n (x_w (i_x s)) -> k < 2 ^ 64 -> n < 2 ^ 64 ->
  run_instance config s <> Stuck /\
  (forall ret s', run_instance config s = Done (ret, s') -> released s s' /\ (ret = 0 \/ ret = 1)).
Proof.
  intros Hd Hw Hk Hn. split; [by apply (run_instance_not_stuck k n)|]. intros ret s'. by apply run_instance_released.
Qed.
End Whole.

(** ** A run on the concrete process *)

Fixpoint stops_within (k : nat) (l : list (list signal)) : bool :=
  match k, l with
  | S k, sigs :: l => stops sigs || stops_within k l
  | _, _ => false
  end.

Lemma lift_ws_keeps {A} (P : link -> list (list signal) -> Prop) (call : sim_os -> A * sim_os) w :
  P (ws_link w) (ws_signals w) -> P (ws_link (lift_ws call w).2) (ws_signals (lift_ws call w).2).
Proof. unfold lift_ws. by destruct (call (ws_os w)). Qed.

#[export] Program Instance sim_ws_stops : InstanceStops sim_ws := {
  due k w := stops_within (Z.to_nat k) (ws_signals w) = true;
  to_come n w := zlen (l_in (ws_link w)) <= n
}.
Next Obligation.
  intros k w sigs w' Hk [= <- <-]. cbn [ws_signals]. destruct (Z.ltb_spec 0 k) as [Hpos|Hneg].
  - assert (Hk' : stops_within (S (Z.to_nat (k - 1))) (ws_signals w) = true) by (rewrite <- Hk; f_equal; lia).
    clear Hk. destruct (ws_signals w) as [|x l]; [done|].
    cbn [stops_within hd tl] in *. apply orb_prop in Hk' as [Hk|Hk]; [by left|right]. by split.
  - assert (Hk' : stops_within 0 (ws_signals w) = true) by (rewrite <- Hk; f_equal; lia). done.
Qed.
Next Obligation.
  intros k. split.
  - split; intros; refine (lift_ws_keeps (fun _ s => stops_within (Z.to_nat k) s = true) _ _ _); assumption.
  - intros fd l w Hw. done.
  - intros fd d w Hw. done.
  - intros fd w Hw. done.
Qed.
Next Obligation.
  assert (Hd : forall l (i : list Z), zlen (drop l i) <= zlen i) by (intros; unfold zlen; rewrite length_drop; lia).
  split; [done|done|..].
  - intros n w Hw. pose proof (zlen_nonneg (l_in (ws_link w))). lia.
  - intros n m w Hw Hm. lia.
  - intros n fd k w Hw. cbn. etrans; [apply Hd|done].
  - intros n fd k w r d w' Hw. cbn. intros [= <- _ <-] Hr. cbn. unfold zlen in *. rewrite length_take in Hr.
    rewrite length_drop. lia.
  - intros n fd d w Hw. cbn. done.
  - intros n fd w Hw. done.
Qed.
Next Obligation. by intros n w Hw. Qed.
Next Obligation.
  intros n. split; intros; refine (lift_ws_keeps (fun l _ => zlen (l_in l) <= n) _ _ _); assumption.
Qed.

Lemma run_instance_ends_witness :
  (due 3 (x_w (i_x sim_process)) /\ to_come 2 (x_w (i_x sim_process))) /\
  exists ret s', run_instance sim_inst sim_process = Done (ret, s') /\ released sim_process s' /\ (ret = 0 \/ ret = 1).
Proof.
  assert (Hd : due 3 (x_w (i_x sim_process))) by reflexivity.
  assert (Ht : to_come 2 (x_w (i_x sim_process))) by (apply Z.leb_le; reflexivity).
  split; [exact (conj Hd Ht)|].
  assert (E2 : match run_instance sim_inst sim_process with Done _ => true | _ => false end = true) by (vm_compute; reflexivity).
  pose proof (run_instance_ends sim_inst 3 2 sim_process Hd Ht ltac:(lia) ltac:(lia)) as [_ He].
  destruct (run_instance sim_inst sim_process) as [[ret s']| |] eqn:E1; [|discriminate E2..].
  exists ret, s'. split; [reflexivity|exact (He ret s' eq_refl)].
Defined.

(** ** After a failed scan

    The device of MpsseFaults.v fails once, in the middle of a client's shift.
    The callback ends the session and frees the buffers of the protocol
    context while the MPSSE buffer still holds the observers of the scan; the
    next client only has to set the TCK period on the recovered device to have
    its bytes written into the freed block. *)
Definition faulty_process : istate faulty sim_ws :=
  mk_istate (mk_globals true false) "" 0 false None
    (mk_xstate xvc_zero (mk_mem ∅ 0 [] (fun _ _ => 0)) (mk_ftdi (Some mpsse_zero) false 0 "", ([FT_OK; FT_OK; 1], sim_closed_world))
       (mk_ws sim_env (mk_link (bytes_of "shift:" ++ xvc_put_int32 16 ++ [0x22; 0x80; 0x00; 0x55] ++ bytes_of "settck:" ++ [100; 0; 0; 0]) []) [])).

Definition two_clients (second : M (istate faulty sim_ws) Z) : M (istate faulty sim_ws) (Z * Z * Z) :=
  o ← ftdi_op (ftdi_adapter_open (-1) (-1) None 0 0);
  r ← on_client_data sim_inst 0 (mk_conn 5 CONN_STATE_ACTIVE 0 0 0 0);
  r' ← second;
  mret (o, r, r').

Example freed_result_written :
  match two_clients (mret 0) faulty_process with Done (r, _) => r | _ => (0, 0, 0) end = (0, 1, 0) /\
  two_clients (on_client_data sim_inst 1 (mk_conn 6 CONN_STATE_ACTIVE 0 0 0 0)) faulty_process = Undef.
Proof. split; vm_compute; reflexivity. Qed.
