(* ===== verification/InstanceSafe.v ===== *)
(** An instance stays within defined behaviour.

    On a healthy device, and as long as no client sends a length out of the
    range of the computation, no part of an instance leaves defined behaviour,
    whatever the connections do: the clients may come, fail and go in any
    order.  With InstanceEnds.v: the run returns.  At the end, concrete runs:
    one that ends, one that a stalled client holds, one that is stopped within
    a session. *)

From S2P Require Import Prelude Outcome Frame Jtag Bits Memory CString D2xx SimDevice MpsseBuffer MpsseSettled MpsseScan MpsseRefine MpsseAdapter.
From S2P Require Import HandleFrame ServerFrame Config Whitelist FtdiAdapter XvcProtocol XvcRefine XvcServer XvcStream XvcSafe.
From S2P Require Import TcpServer TcpInvariant Instance InstanceLock InstanceFrame Ends InstanceEnds.
From stdpp Require Import strings gmap.
Open Scope Z_scope.

#[local] Abbreviation out := (outcome False True).
#[local] Abbreviation safe := (Outcome.safe False True).

(** ** Opening and closing the adapter *)

Section Heap.
Context {W : Type} `{D2XX W}.
#[local] Abbreviation heap_ok := (fun s : mstate W => mem_wf (ms_mem s)).
#[local] Abbreviation kept := (preserves heap_ok).

Lemma malloc_array_wf m n r m' : malloc_array m n = (r, m') -> mem_wf m -> mem_wf m'.
Proof.
  unfold malloc_array, mem_wf. destruct (m_fail m) as [|[] rest]; intros [= <- <-] Hm b l Hb; cbn in *;
    specialize (Hm b l Hb); lia.
Qed.

Lemma alloc_wf m b m' : alloc_ok m = (b, m') -> mem_wf m -> mem_wf m'.
Proof. unfold alloc_ok, mem_wf. destruct (m_fail m) as [|[] rest]; intros [= <- <-] Hm; done. Qed.

Lemma set_ctx_heap f : kept (set_ctx f).
Proof. by apply preserves_modify. Qed.

Lemma set_buf_heap f : kept (set_buf f).
Proof. by apply preserves_modify. Qed.

Lemma set_error_heap e : kept (set_error e).
Proof. by apply preserves_modify. Qed.

Lemma ft_heap {A} (call : W -> A * W) : kept (ft call).
Proof. intros s a s' Hs. unfold ft. destruct (call (ms_w s)) as [a1 w]. by intros [= <- <-]. Qed.

Lemma array_heap n : kept (heap (fun m => malloc_array m n)).
Proof.
  intros s a s' Hs. unfold heap. destruct (malloc_array (ms_mem s) n) as [r m] eqn:E1. intros [= <- <-]. by eapply malloc_array_wf.
Qed.

#[local] Hint Resolve set_ctx_heap set_buf_heap set_error_heap ft_heap array_heap : frame.

Lemma open_heap vendor product serial index interface : kept (mpsse_adapter_open vendor product serial index interface).
Proof.
  unfold mpsse_adapter_open, open_device, configure_device, enter_mpsse, drain_junk, setup_buffers, close_handle, ctx_of, buf_of.
  frame.
Qed.
End Heap.

Section Adapter.
Context {W E T : Type} `{MpsseDeviceLaws W E T} `{!MpsseEngineLaws E T} `{!MpsseOpenLaws W E T}.
Context `{!DriverHandles W} `{!DriverReads W}.

(** An adapter that has been created and not been opened. *)
Definition unopened (s : fstate W) : Prop :=
  ftdi_is_open (fs_ctx s) = false /\ exists c, mpsse (fs_ctx s) = Some c /\ MpsseBuffer.is_open c = false /\ fresh_context c.

Lemma create_unopened m c m' (w : W) : ftdi_adapter_create m = (c, m') -> mem_wf m ->
  mem_wf m' /\ match c with Some c => unopened (mk_fstate c m' w) | None => True end.
Proof.
  unfold ftdi_adapter_create. destruct (alloc_ok m) as [b m1] eqn:E1. intros Ec Hm. eapply alloc_wf in Hm; [|exact E1].
  destruct b; [|by injection Ec as <- <-]. cbn [negb] in Ec. destruct (mpsse_adapter_create m1) as [mc m2] eqn:E2.
  assert (Hm2 : mem_wf m2 /\ forall c', mc = Some c' -> MpsseBuffer.is_open c' = false).
  { clear Ec. unfold mpsse_adapter_create in E2. destruct (alloc_ok m1) as [b m3] eqn:E3. eapply alloc_wf in Hm; [|exact E3].
    destruct b; cbn [negb] in E2; [|by injection E2 as <- <-].
    destruct (malloc_array m3 _) as [tx m4] eqn:E4. eapply malloc_array_wf in Hm; [|exact E4].
    destruct (malloc_array m4 _) as [rx m5] eqn:E5. eapply malloc_array_wf in Hm; [|exact E5].
    destruct tx, rx; injection E2 as <- <-; (split; [done|]); try done. by intros c' [= <-]. }
  destruct mc as [mc|]; injection Ec as <- <-; [|by destruct Hm2]. split; [apply Hm2|]. split; [done|].
  exists mc. split; [done|]. split; [by apply Hm2|]. by eapply create_fresh.
Qed.

Lemma open_adapter_ok vendor product serial index interface (s : fstate W) : unopened s -> mem_wf (fs_mem s) ->
  exists r s', ftdi_adapter_open vendor product serial index interface s = Done (r, s') /\ mem_wf (fs_mem s') /\
    (r = 0 /\ (exists c, ftdi_ready s' c) \/
     r = -1 /\ ftdi_is_open (fs_ctx s') = false /\ exists c, mpsse (fs_ctx s') = Some c /\ MpsseBuffer.is_open c = false).
Proof.
  intros (Ho & c & Hc & Hco & Hf) Hm. unfold ftdi_adapter_open, ftdi_adapter_open_with_mode, fctx, gets.
  rewrite (bind_done _ _ s (fs_ctx s) s eq_refl), Hc.
  destruct (mpsse_open_ok vendor product serial index interface (mview c s)) as (r & s1 & E1 & Hr).
  pose proof (open_heap vendor product serial index interface (mview c s) r s1 Hm E1) as Hm1.
  rewrite (bind_done _ _ _ _ _ (on_mpsse_done (-1) _ s c _ s1 Hc E1)).
  destruct Hr as [(-> & _)|(-> & _ & Hi)]; cbn [Z.eqb negb].
  - apply open_ready in E1; [|done]. eexists _, _. split; [reflexivity|]. split; [done|]. left. split; [done|].
    exists (ms_ctx s1). split; [done|]. split; [done|]. by destruct s1.
  - eexists _, _. split; [reflexivity|]. split; [done|]. right. split; [done|]. split; [exact Ho|].
    exists (ms_ctx s1). split; [done|]. by rewrite Hi.
Qed.

Lemma set_frequency_ok (s : fstate W) c f : ftdi_ready s c -> mem_wf (fs_mem s) -> 0 <= f < 2 ^ 32 ->
  exists r s' c', ftdi_adapter_set_frequency f s = Done (r, s') /\ ftdi_ready s' c' /\ mem_wf (fs_mem s').
Proof.
  intros HR Hm Hf. unfold ftdi_adapter_set_frequency. destruct (f =? 0); [by exists (-1), s, c|].
  destruct HR as (Ho & Hc & HR). destruct (set_frequency_ready (mview c s) f HR Hf) as (s1 & E1 & R1 & _ & _ & _ & M1 & _).
  rewrite (bind_done _ _ _ _ _ (on_mpsse_done (-1) _ s c _ s1 Hc E1)). destruct s1 as [c1 m1 w1].
  eexists _, _, c1. split; [reflexivity|]. split; [by split_and!|]. by apply (mem_frame_wf _ _ _ M1).
Qed.

Lemma close_adapter_ready (s : fstate W) c : ftdi_ready s c ->
  exists s', ftdi_adapter_close s = Done (tt, s') /\ ftdi_is_open (fs_ctx s') = false /\
    exists c', mpsse (fs_ctx s') = Some c' /\ MpsseBuffer.is_open c' = false.
Proof.
  intros (Ho & Hc & HR). unfold ftdi_adapter_close, fctx, gets. rewrite (bind_done _ _ s (fs_ctx s) s eq_refl), Ho.
  destruct (close_ready (mview c s) HR) as (s1 & E1 & Hi). cbn [negb].
  rewrite (bind_done _ _ _ _ _ (on_mpsse_done tt _ s c _ s1 Hc E1)). eexists. split; [reflexivity|]. split; [done|]. by exists (ms_ctx s1).
Qed.

Lemma destroy_adapter_ok (s : fstate W) : ftdi_is_open (fs_ctx s) = false ->
  (exists c, mpsse (fs_ctx s) = Some c /\ MpsseBuffer.is_open c = false) -> exists s', ftdi_adapter_destroy s = Done (tt, s').
Proof.
  intros Ho (c & Hc & Hi). unfold ftdi_adapter_destroy, fctx, gets. rewrite (bind_done _ _ s (fs_ctx s) s eq_refl), Ho.
  rewrite (bind_done (mret tt) _ s tt s eq_refl).
  assert (Ed : exists s1, mpsse_adapter_destroy (mview c s) = Done (tt, s1)).
  { unfold mpsse_adapter_destroy, ctx_of, gets. rewrite (bind_done _ _ (mview c s) c _ eq_refl), Hi. by eexists. }
  destruct Ed as [s1 E1]. rewrite (bind_done _ _ _ _ _ (on_mpsse_done tt _ s c _ s1 Hc E1)). by eexists.
Qed.
End Adapter.

(** ** The surroundings *)

(** [coming n w]: whoever connects from now on to a server with vectors of [n]
    bytes is polite.  The calls that open, watch and close descriptors do not
    change what the clients of the others send. *)
Class Clients (W : Type) `{TcpOs W} `{Signals W} `{ClientStreams W} := {
  coming : Z -> W -> Prop;
  coming_sockets : forall n, kept_by_sockets (coming n);
  coming_os : forall n, kept_by_os (coming n);
  coming_arrived : forall n w, coming n w -> coming n (arrived w).2;
  client_accepted : forall n fd w r a w', coming n w -> os_accept fd w = ((r, a), w') -> 0 <= r -> polite n (client_in r w');
  client_accept : forall fd fd' w r a w', os_accept fd w = ((r, a), w') -> (0 <= r -> fd' <> r) -> client_in fd' w' = client_in fd' w;
  client_close : forall fd fd' w, fd' <> fd -> client_in fd' (os_close fd w).2 = client_in fd' w;
  client_socket : forall fd w, client_in fd (os_socket w).2 = client_in fd w;
  client_sockopt : forall fd fd' o v w, client_in fd (os_setsockopt fd' o v w).2 = client_in fd w;
  client_bind : forall fd fd' p w, client_in fd (os_bind fd' p w).2 = client_in fd w;
  client_listen : forall fd fd' n w, client_in fd (os_listen fd' n w).2 = client_in fd w;
  client_select : forall fd n r e t w, client_in fd (os_select n r e t w).2 = client_in fd w;
  client_time : forall fd w, client_in fd (os_time w).2 = client_in fd w;
  client_arrived : forall fd w, client_in fd (arrived w).2 = client_in fd w
}.

(** ** The process *)

Section Process.
Context {WD WS E T : Type} `{MpsseDeviceLaws WD E T} `{!MpsseEngineLaws E T} `{!MpsseOpenLaws WD E T}.
Context `{!DriverHandles WD} `{!DriverReads WD} `{QuietIo WS} `{!ClientStreams WS} `{!Clients WS}.
Context (config : xvc_instance_config_t).
#[local] Abbreviation I := (istate WD WS).
#[local] Abbreviation size := (Config.xvc_buffer_size config).
#[local] Abbreviation max := (xvc_vector_size size).

(** The protocol context can be used, and the clients behind the descriptors
    [A] and those to come are polite. *)
Record fit (A : gset Z) (s : I) : Prop := {
  fit_live : live size (i_x s);
  fit_coming : coming max (x_w (i_x s));
  fit_polite : forall fd, fd ∈ A -> polite max (client_in fd (x_w (i_x s)))
}.

(** The world goes on. *)
Lemma fit_world A (s : I) w : fit A s -> coming max w ->
  (forall fd, fd ∈ A -> client_in fd w = client_in fd (x_w (i_x s))) -> fit A (s <| i_x := (i_x s) <| x_w := w |> |>).
Proof.
  intros [[L1 L2 L3 L4] Fc Fp] Hc Hi. split; [|done|].
  - split; [done|done|done|]. destruct L4 as [?|(bv & br & HS)]; [by left|right]. exists bv, br. by destruct HS.
  - intros fd Hfd. cbn. rewrite Hi by done. by apply Fp.
Qed.

Lemma fit_fewer A B (s : I) : B ⊆ A -> fit A s -> fit B s.
Proof. intros HB [F1 F2 F3]. split; [done|done|]. intros fd Hfd. apply F3. set_solver. Qed.

(** A system call that is not about a client. *)
Lemma fit_os {X} A (call : WS -> X * WS) (s : I) : fit A s ->
  (coming max (x_w (i_x s)) -> coming max (call (x_w (i_x s))).2) ->
  (forall fd, fd ∈ A -> client_in fd (call (x_w (i_x s))).2 = client_in fd (x_w (i_x s))) -> fit A (lift_os call s).2.
Proof.
  intros Hf Hc Hi. unfold lift_os. destruct (call (x_w (i_x s))) as [a w]. cbn in *. apply fit_world; [done|by apply Hc, Hf|done].
Qed.

Lemma process_keeps_fit : os_keeps fit.
Proof.
  pose proof (coming_os (W := WS) max) as [K1 K2 K3 K4 K5 K6 K7 K8]. split.
  - apply fit_fewer.
  - intros A s Hf. by apply fit_os; [|apply K1|intros fd _; apply client_socket].
  - intros A fd s r a s' E1 Hf. cbn in E1. unfold lift_os in E1. destruct (os_accept fd (x_w (i_x s))) as [[r1 a1] w] eqn:Ea.
    injection E1 as <- <- <-. pose proof (K6 fd _ (fit_coming _ _ Hf)) as Hc. rewrite Ea in Hc. cbn [snd] in Hc.
    destruct (Z.leb_spec 0 r1) as [Hr|Hr].
    + intros Hnew. assert (Hf1 : fit A (s <| i_x := (i_x s) <| x_w := w |> |>)).
      { apply fit_world; [done|done|]. intros fd' Hfd. eapply client_accept; [exact Ea|]. intros _ ->. done. }
      destruct Hf1 as [F1 F2 F3]. split; [done|done|]. intros fd' [->%elem_of_singleton|Hfd]%elem_of_union; [|by apply F3].
      eapply client_accepted; [apply Hf|exact Ea|done].
    + apply fit_world; [done|done|]. intros fd' Hfd. eapply client_accept; [exact Ea|]. lia.
  - intros A fd s Hn Hf. apply fit_os; [done|apply K7|]. intros fd' Hfd. apply client_close. by intros ->.
  - intros A fd o v s Hf. by apply fit_os; [|apply K2|intros fd' _; apply client_sockopt].
  - intros A fd p s Hf. by apply fit_os; [|apply K3|intros fd' _; apply client_bind].
  - intros A fd n s Hf. by apply fit_os; [|apply K4|intros fd' _; apply client_listen].
  - intros A n r e t s Hf. by apply fit_os; [|apply K5|intros fd' _; apply client_select].
  - intros A s Hf. by apply fit_os; [|apply K8|intros fd' _; apply client_time].
Qed.

(** *** The callbacks *)

#[local] Abbreviation worse_than s0 := (no_worse (C := I) fit s0).

Lemma client_ip_done conn (s : I) : client_ip conn s = Done (inet_ntop (conn_addr conn), s).
Proof.
  unfold client_ip, tcp_connection_ip. assert (Hs : strlen (inet_ntop (conn_addr conn)) < INET_ADDRSTRLEN) by apply inet_ntop_short.
  by rewrite (proj2 (Z.ltb_lt _ _) Hs).
Qed.

Lemma client_ip_safe P conn : safe P (client_ip (WD := WD) (WS := WS) conn).
Proof. intros s Hs. by rewrite client_ip_done. Qed.

Lemma time_safe s0 : safe (worse_than s0) time_null.
Proof.
  intros s Hs. unfold time_null. pose proof (mild_time fit process_keeps_fit s) as Ht.
  destruct (os_time s) as [a s']. cbn in *. by eapply no_worse_trans.
Qed.

Lemma set_ictx_safe s0 f : (forall s : I, i_x (f s) = i_x s) -> safe (worse_than s0) (set_ictx f).
Proof.
  intros Hf. apply safe_modify. intros s [H1' H2']. specialize (Hf s). split.
  - cbn. by rewrite Hf.
  - intros A [F1 F2 F3]%H2'. split; by rewrite Hf.
Qed.

#[local] Hint Resolve client_ip_safe time_safe : safe.
#[local] Hint Extern 2 (Outcome.safe _ _ _ (set_ictx _)) => apply set_ictx_safe; reflexivity : safe.

Lemma set_client_lock_safe s0 ip : safe (worse_than s0) (set_client_lock config ip).
Proof. unfold set_client_lock. safely. Qed.
#[local] Hint Resolve set_client_lock_safe : safe.

Lemma on_client_connect_safe s0 i conn : safe (worse_than s0) (on_client_connect config i conn).
Proof. unfold on_client_connect, is_lock_expired, release_client_lock, client_ip_matches, ictx. safely. Qed.

Lemma on_client_disconnect_safe s0 i conn : safe (worse_than s0) (on_client_disconnect config i conn).
Proof. unfold on_client_disconnect, ictx. safely. Qed.

Context (Hsize : 4 <= max) (Hmax : max * 8 <= SCAN_MAX).

(** Another state of the protocol handler, of which the other clients notice nothing. *)
Lemma fit_handler A fd (s : I) x : fit A s -> live size x -> near (coming max) fd (x_w (i_x s)) (x_w x) ->
  fit (A ∖ {[ fd ]}) (s <| i_x := x |>).
Proof.
  intros [F1 F2 F3] Hx [N1 N2]. split; [done|by apply N2|]. intros fd' [Hin Hne]%elem_of_difference. cbn.
  rewrite N1 by set_solver. by apply F3.
Qed.

Lemma data_safe i conn (env : I) : fit {[ conn_fd conn ]} env ->
  out (on_client_data config i conn env) (fun r env' =>
    (forall A, fit A env -> fit (A ∖ {[ conn_fd conn ]}) env') /\ (r = 0 -> forall A, fit A env -> fit A env')).
Proof.
  intros [F1 F2 F3]. unfold on_client_data, ictx. apply outcome_gets.
  eapply outcome_bind with (Q := fun _ s => i_x s = i_x env); [by destruct (active_xvc_conn env)|]. intros [] s Hs.
  assert (Hfit : forall A, fit A env -> fit A s) by (intros A [G1 G2 G3]; split; by rewrite Hs).
  set (fd := conn_fd conn) in *.
  eapply outcome_bind with (Q := fun r s' => live size (i_x s') /\ near (coming max) fd (x_w (i_x s)) (x_w (i_x s')) /\
      s' = s <| i_x := i_x s' |> /\ (r = 0 -> polite max (client_in fd (x_w (i_x s'))))).
  { apply outcome_zoom. rewrite Hs. eapply outcome_mono; [apply (xvc_handle_safe (coming max) (coming_sockets max)); [done..|]|].
    - apply F3. set_solver.
    - intros r x (Lx & Nx & Px). by split_and!. }
  intros r s1 (L1 & N1 & E1 & P1). destruct (Z.eqb_spec r 0) as [->|Hr]; cbn [negb].
  - split; [intros A Ha|intros _ A Ha]; rewrite E1; [by apply fit_handler; [apply Hfit| |]|].
    pose proof (fit_handler A fd s (i_x s1) (Hfit A Ha) L1 N1) as [G1 G2 G3]. split; [done|done|]. intros fd' Hfd.
    destruct (decide (fd' = fd)) as [->|Hne]; [by apply P1|]. apply G3. set_solver.
  - assert (Ec : on_xvc xvc_close s1 = Done (tt, s1)) by (by destruct s1). rewrite (bind_done _ _ _ _ _ Ec).
    eapply outcome_bind with (Q := fun _ s' => live size (i_x s') /\ x_w (i_x s') = x_w (i_x s1) /\ s' = s <| i_x := i_x s' |>).
    { apply outcome_zoom. eapply outcome_mono; [apply (xvc_free_safe size _ L1)|].
      intros [] x [Lx Wx]. split; [done|]. split; [done|]. cbn [i_x setter].
      change (s1 <| i_x := x |> = (s <| i_x := i_x s1 |>) <| i_x := x |>). by rewrite <- E1. }
    intros [] s2 (L2 & W2 & E2). split; [|done]. intros A Ha.
    apply (fit_handler A fd s (i_x s2)) in L2; [|by apply Hfit|by rewrite W2]. destruct L2 as [G1 G2 G3]. by split.
Qed.

(** *** The server *)

#[local] Abbreviation connect := (Some (on_client_connect config)).
#[local] Abbreviation data := (Some (on_client_data config)).
#[local] Abbreviation disconnect := (Some (on_client_disconnect config)).

Lemma callbacks_keep_fit : callbacks_keep (C := I) connect data disconnect fit False True.
Proof.
  pose proof (callbacks_quiet (WD := WD) (WS := WS) config) as Hq. split; intros f i c env [= <-] Hf.
  - by apply on_client_connect_safe.
  - eapply outcome_mono; [apply outcome_and; [by apply data_safe|]|].
    + intros r env' E1. by apply (quiet_data _ _ _ Hq _ i c env r env' eq_refl).
    + intros r env' [[Hk Hk0] Hfds]. by split_and!.
  - by apply on_client_disconnect_safe.
Qed.

Context (wl : whitelist_t) (Hwl : Forall proper_entry (wl_entries wl)) (others : gset Z).

Lemma checks_defined w addr : Some wl = Some w -> 0 <= addr < 2 ^ 32 -> whitelist_check w (AF_INET addr) = Undef -> False.
Proof. intros [= <-] Ha Hu. destruct (whitelist_check_total wl addr Ha Hwl) as [b Hb]. congruence. Qed.

#[local] Abbreviation serves := (works (C := I) (Some wl) connect data disconnect others fit ∅).

Lemma deliver_serves s : serves s -> out (callback deliver s) (fun _ => serves).
Proof.
  intros Hs. unfold callback, zoom, deliver, lift_os. pose proof (arrived_fds (x_w (i_x (s_env s)))) as Hf.
  pose proof (client_arrived (W := WS)) as Hi. pose proof (coming_arrived (W := WS) max (x_w (i_x (s_env s)))) as Hc.
  specialize (fun fd => Hi fd (x_w (i_x (s_env s)))).
  destruct (arrived (x_w (i_x (s_env s)))) as [sigs w]. cbn [snd] in *. apply (works_same _ _ _ _ _ _ _ s); [done|].
  split; [done|]. split; [done|]. intros A HA. apply (fit_world A (s_env s) w) in HA as [G1 G2 G3]; [by split|by apply Hc, HA|auto].
Qed.

Lemma loop_serves s : serves s -> out (instance_loop s) (fun _ => serves).
Proof.
  intros Hs. apply (outcome_while _ (fun _ => serves)); [|done|done]. clear s Hs. intros [] s Hs. unfold instance_round.
  eapply outcome_bind; [by apply deliver_serves|]. intros [] s1 H1'.
  assert (Eg : callback (iget i_globals) s1 = Done (i_globals (s_env s1), s1)) by (by destruct s1).
  rewrite (bind_done _ _ _ _ _ Eg). destruct (g_running _); [|done].
  eapply outcome_bind; [by apply (poll_works (Some wl) connect data disconnect others fit False True process_keeps_fit callbacks_keep_fit checks_defined)|].
  intros r s2 [H2' _]. by destruct (r <? 0).
Qed.

(** An operation of the server within the process. *)
Lemma with_server_out {X B} (op : M (sstate I) X) sv (k : X * tcp_server_t I -> M I B) s Q R :
  out (op (mk_sstate sv s)) Q -> (forall a s', Q a s' -> out (k (a, s_srv s') (s_env s')) R) ->
  out ((with_server sv op ≫= k) s) R.
Proof.
  intros Ho Hk. unfold with_server, mbind, M_bind. destruct (op (mk_sstate sv s)) as [[a s']| |]; [by apply Hk|done..].
Qed.

(** *** The adapter around it *)

Lemma ftdi_op_done {X} (op : M (fstate WD) X) (s : I) a f :
  op (mk_fstate (x_ad (i_x s)).1 (x_mem (i_x s)) (x_ad (i_x s)).2) = Done (a, f) ->
  ftdi_op op s = Done (a, s <| i_x := (i_x s) <| x_mem := fs_mem f |> <| x_ad := (fs_ctx f, fs_w f) |> |>).
Proof. intros E1. unfold ftdi_op. by rewrite E1. Qed.

(** The adapter of a process that is in order can be closed. *)
Lemma close_adapter_out (ret : Z) (s : I) : fit ∅ s -> out ((_ ← close_adapter (WD := WD) (WS := WS); mret ret) s) (fun _ _ => True).
Proof.
  intros [[_ [c Hc] _ _] _ _]. apply (ftdi_ready_mem _ _ (x_mem (i_x s))) in Hc.
  destruct (close_adapter_ready _ _ Hc) as (f1 & E1 & Ho & Hx). unfold close_adapter.
  change (setter fs_mem _ _) with (mk_fstate (x_ad (i_x s)).1 (x_mem (i_x s)) (x_ad (i_x s)).2) in E1.
  destruct (destroy_adapter_ok f1 Ho Hx) as [f2 E2].
  eapply outcome_bind with (Q := fun _ _ => True); [|done].
  rewrite (bind_done _ _ _ _ _ (ftdi_op_done _ s _ _ E1)). erewrite (ftdi_op_done _ _ tt f2); [done|]. cbn. by destruct f1.
Qed.

(** From the start of the server on. *)
Lemma serve_instance_safe (s : I) : open_fds (x_w (i_x s)) = others -> fit ∅ s ->
  out (('(started, srv) ← with_server (fresh_server (Some wl) connect data disconnect (port config)) tcp_server_start;
   if started <? 0 then _ ← close_adapter; mret 1
   else
     '(_, srv) ← with_server srv instance_loop;
     _ ← with_server srv tcp_server_stop;
     _ ← close_adapter;
     mret 0) s) (fun _ _ => True).
Proof.
  intros Ho Hf.
  destruct (start_works (Some wl) connect data disconnect others fit False True process_keeps_fit callbacks_keep_fit (port config) s Ho Hf)
    as (r & s1 & E1 & Hr).
  eapply with_server_out with (Q := fun a s' => a = r /\ s' = s1); [by rewrite E1|]. intros a s' [-> ->].
  destruct Hr as [(-> & Hw & _)|(-> & _ & _ & _ & Hf1)]; cbn [Z.ltb Z.compare]; [|by apply close_adapter_out].
  eapply with_server_out with (Q := fun _ => serves); [apply loop_serves; by destruct s1|]. intros [] s2 H2'.
  eapply with_server_out with (Q := fun _ s' => fit ∅ (s_env s')).
  - eapply outcome_mono; [apply (stop_works (Some wl) connect data disconnect others fit False True process_keeps_fit callbacks_keep_fit); by destruct s2|].
    by intros [] s3 [Hf3 _].
  - intros [] s3 Hf3. by apply close_adapter_out.
Qed.
End Process.

(** ** The whole run *)

Section Whole.
Context {WD WS E T : Type} `{MpsseDeviceLaws WD E T} `{!MpsseEngineLaws E T} `{!MpsseOpenLaws WD E T}.
Context `{!DriverHandles WD} `{!DriverReads WD} `{QuietIo WS} `{!ClientStreams WS} `{!Clients WS}.
Context (config : xvc_instance_config_t).
#[local] Abbreviation I := (istate WD WS).
#[local] Abbreviation max := (xvc_vector_size (Config.xvc_buffer_size config)).

(** What a configuration has to give: a white list without an entry for the
    whole address space, a 32-bit frequency, vectors that hold the reply to a
    settck and fit a scan. *)
Record runnable : Prop := {
  run_whitelist : Forall proper_entry (wl_entries (whitelist_load config).2);
  run_frequency : inst_frequency config < 2 ^ 32;
  run_size : 4 <= max;
  run_scan : max * 8 <= SCAN_MAX
}.

(** With an adapter that is open. *)
Lemma opened_fit (s : I) c : ftdi_ready (mk_fstate (x_ad (i_x s)).1 (x_mem (i_x s)) (x_ad (i_x s)).2) c ->
  mem_wf (x_mem (i_x s)) -> x_ctx (i_x s) = xvc_zero -> coming max (x_w (i_x s)) -> fit config ∅ s.
Proof.
  intros Hc Hm Hx Hw. split; [|done|set_solver]. split; rewrite ?Hx; [done| |by left|by left].
  exists c. by apply (ftdi_ready_mem (mk_fstate (x_ad (i_x s)).1 (x_mem (i_x s)) (x_ad (i_x s)).2)).
Qed.

Lemma run_instance_safe (s : I) : runnable -> mem_wf (x_mem (i_x s)) -> coming max (x_w (i_x s)) -> out (run_instance config s) (fun _ _ => True).
Proof.
  intros Hrun Hm Hw. unfold run_instance.
  destruct (ftdi_adapter_create (x_mem (i_x s))) as [c m] eqn:Ec. pose proof (create_unopened _ _ _ (x_ad (i_x s)).2 Ec Hm) as [Hm1 Hu].
  destruct c as [c|].
  2: { assert (E1 : exists s1, new_context s = Done (false, s1)) by (unfold new_context; rewrite Ec; by eexists).
       destruct E1 as [s1 E1]. by rewrite (bind_done _ _ _ _ _ E1). }
  assert (E1 : exists s1, new_context s = Done (true, s1) /\ x_ad (i_x s1) = (c, (x_ad (i_x s)).2) /\ x_mem (i_x s1) = m /\
    x_ctx (i_x s1) = xvc_zero /\ x_w (i_x s1) = x_w (i_x s)) by (unfold new_context; rewrite Ec; by eexists).
  destruct E1 as (s1 & E1 & A1 & M1 & X1 & W1). rewrite (bind_done _ _ _ _ _ E1). cbn [negb].
  destruct (open_adapter_ok (-1) (-1) (Some (id_value (device_id config))) 0 0 _ Hu Hm1) as (r & f & E2 & Hm2 & Hr).
  assert (E2' : ftdi_adapter_open (-1) (-1) (Some (id_value (device_id config))) 0 0
    (mk_fstate (x_ad (i_x s1)).1 (x_mem (i_x s1)) (x_ad (i_x s1)).2) = Done (r, f)) by (by rewrite A1, M1).
  rewrite (bind_done _ _ _ _ _ (ftdi_op_done _ _ _ _ E2')). set (s2 := setter i_x _ s1).
  destruct Hr as [(-> & c2 & R2)|(-> & Ho & Hx)]; cbn [Z.ltb Z.compare].
  2: { assert (E3 : exists e, ftdi_op ftdi_adapter_error s2 = Done (e, s2)).
       { unfold ftdi_op, ftdi_adapter_error, fctx, gets, mbind, M_bind. eexists. subst s2. by destruct s1 as [? ? ? ? ? []], f. }
       destruct E3 as [e E3]. rewrite (bind_done _ _ _ _ _ E3).
       assert (Ef : mk_fstate (x_ad (i_x s2)).1 (x_mem (i_x s2)) (x_ad (i_x s2)).2 = f) by (by destruct f).
       destruct (destroy_adapter_ok f Ho Hx) as [f3 E4]. rewrite <- Ef in E4. by rewrite (bind_done _ _ _ _ _ (ftdi_op_done _ _ _ _ E4)). }
  assert (Ef : mk_fstate (x_ad (i_x s2)).1 (x_mem (i_x s2)) (x_ad (i_x s2)).2 = f) by (by destruct f).
  rewrite <- Ef in R2, Hm2.
  eapply outcome_bind with (Q := fun _ s3 => fit config ∅ s3 /\ open_fds (x_w (i_x s3)) = open_fds (x_w (i_x s2))).
  { destruct (Z.ltb_spec 0 (inst_frequency config)) as [Hf|Hf].
    - destruct (set_frequency_ok _ c2 (inst_frequency config) R2 Hm2) as (r3 & f3 & c3 & E3 & R3 & Hm3); [pose proof (run_frequency Hrun); lia|].
      rewrite (ftdi_op_done _ _ _ _ E3). split; [|done]. apply (opened_fit _ c3); try done. cbn. by rewrite W1.
    - split; [|done]. apply (opened_fit _ c2); try done. cbn. by rewrite W1. }
  intros u s3 [Hfit Ho3]. cbv zeta. pose proof (run_whitelist Hrun) as Hwl. destruct (whitelist_load config) as [rw wl]. cbn [snd] in Hwl.
  apply (serve_instance_safe config (run_size Hrun) (run_scan Hrun) wl Hwl (open_fds (x_w (i_x s2))) s3 Ho3 Hfit).
Qed.

Context `{!InstanceStops WS}.

(** C5: an instance on a healthy device runs to its end within defined
    behaviour.  The configuration is [runnable]: its white list has no entry of
    prefix length 0, its frequency fits 32 bits and its vectors are 64 KiB at
    most (which the 131088 bytes in the output of the discovery tool
    exceed: beyond 64 KiB a scan can overflow its byte count).
    The clients may connect, send commands in whatever pieces, be cut off in
    the middle of one or refuse their replies, and leave in any order, as long
    as none sends a length out of the range of the computation ([coming]) or
    stalls in a read or a write ([to_come]); memory may run out, the device may
    be missing and the port taken.  Once a signal to stop is due within [k]
    looks and the clients send at most [n] bytes in all, [run_instance] returns
    0 or 1, and every descriptor it opened is closed and every driver handle
    given back.  The heap is not part of that: a run that stops in the middle
    of a session keeps its buffers ([stop_keeps_buffers]). *)
Theorem run_instance_defined k n (s : I) : runnable ->
  mem_wf (x_mem (i_x s)) -> coming max (x_w (i_x s)) ->
  due k (x_w (i_x s)) -> to_come n (x_w (i_x s)) -> k < 2 ^ 64 -> n < 2 ^ 64 ->
  exists ret s', run_instance config s = Done (ret, s') /\ released s s' /\ (ret = 0 \/ ret = 1).
Proof.
  intros Hrun Hm Hw Hd Ht Hk Hn. pose proof (run_instance_safe s Hrun Hm Hw) as Hs.
  pose proof (run_instance_not_stuck config k n s Hk Hn Hd Ht) as Hns.
  destruct (run_instance config s) as [[ret s']| |] eqn:E1; [|done..]. exists ret, s'. split; [done|].
  by apply (run_instance_released config).
Qed.
End Whole.

(** ** A network of clients

    The operating system of TcpInvariant.v with a stream per descriptor and one
    for each client to come.  Three bytes are read and two written at a time;
    [nt_room] writes succeed.  A descriptor of [nt_stalled] does not end after
    its stream: reading on blocks. *)

Record net := mk_net {
  nt_os : sim_os;
  nt_streams : list (Z * list Z);
  nt_coming : list (list Z);
  nt_room : nat;
  nt_stalled : list Z;
  nt_sent : list (Z * list Z);
  nt_signals : list (list signal)
}.

#[export] Instance eta_net : Eta net := fun w =>
  mk_net (nt_os w) (nt_streams w) (nt_coming w) (nt_room w) (nt_stalled w) (nt_sent w) (nt_signals w).

(** The bytes behind [fd], the newest first, and what is left when [k] of them
    are gone. *)
Fixpoint stream (fd : Z) (l : list (Z * list Z)) : list Z :=
  match l with
  | [] => []
  | (x, d) :: l => if x =? fd then d else stream fd l
  end.

Fixpoint shorten (fd : Z) (k : nat) (l : list (Z * list Z)) : list (Z * list Z) :=
  match l with
  | [] => []
  | (x, d) :: l => if x =? fd then (x, drop k d) :: l else (x, d) :: shorten fd k l
  end.

Lemma stream_shorten fd fd' k l : stream fd' (shorten fd k l) = if fd' =? fd then drop k (stream fd l) else stream fd' l.
Proof.
  destruct (Z.eqb_spec fd' fd) as [->|Hne]; induction l as [|[x d] l IH]; cbn [stream shorten]; rewrite ?drop_nil; try done.
  - destruct (Z.eqb_spec x fd) as [->|Hx]; cbn [stream]; [by rewrite Z.eqb_refl|]. by rewrite (proj2 (Z.eqb_neq _ _) Hx).
  - destruct (Z.eqb_spec x fd) as [->|Hx]; cbn [stream]; [by rewrite (proj2 (Z.eqb_neq fd fd') ltac:(congruence))|].
    by destruct (x =? fd').
Qed.

Lemma shorten_bytes fd k l :
  (length (concat (map snd (shorten fd k l))) + length (take k (stream fd l)) = length (concat (map snd l)))%nat.
Proof.
  induction l as [|[x d] l IH]; cbn [stream shorten]; [by rewrite take_nil|].
  destruct (x =? fd); cbn [map concat snd]; rewrite !length_app; [|lia]. rewrite length_drop, length_take. lia.
Qed.

Definition nt_bytes (w : net) : Z := zlen (concat (map snd (nt_streams w) ++ nt_coming w)).

Definition lift_net {A} (call : sim_os -> A * sim_os) (w : net) : A * net :=
  let '(a, o) := call (nt_os w) in (a, w <| nt_os := o |>).

(** An accepted descriptor is the one of the next client. *)
Definition greet (w : net) (r : Z) : net :=
  if 0 <=? r then w <| nt_streams := (r, hd [] (nt_coming w)) :: nt_streams w |> <| nt_coming := tl (nt_coming w) |> else w.

#[export] Instance net_os : TcpOs net := {
  os_socket := lift_net os_socket;
  os_setsockopt fd o v := lift_net (os_setsockopt fd o v);
  os_bind fd p := lift_net (os_bind fd p);
  os_listen fd n := lift_net (os_listen fd n);
  os_select n r e t := lift_net (os_select n r e t);
  os_accept fd w := let '((r, a), w') := lift_net (os_accept fd) w in ((r, a), greet w' r);
  os_close fd := lift_net (os_close fd);
  os_time := lift_net os_time
}.

#[export] Instance net_sockets : Sockets net := {
  sock_read fd n w :=
    let d := take (Z.to_nat (Z.min n 3)) (stream fd (nt_streams w)) in
    ((zlen d, d), w <| nt_streams := shorten fd (Z.to_nat (Z.min n 3)) (nt_streams w) |>);
  sock_write fd d w :=
    match nt_room w with
    | O => (-1, w)
    | S room => (Z.min (zlen d) 2, w <| nt_sent := nt_sent w ++ [(fd, take 2 d)] |> <| nt_room := room |>)
    end;
  sock_quickack _ w := w;
  read_blocks fd _ w := in_set fd (nt_stalled w) && bool_decide (stream fd (nt_streams w) = []);
  write_blocks _ _ _ := false
}.

#[export] Instance net_signals : Signals net := {
  arrived w := (hd [] (nt_signals w), w <| nt_signals := tl (nt_signals w) |>)
}.

(** A call of the operating system leaves the clients alone. *)
Lemma lift_net_world {A} (call : sim_os -> A * sim_os) w :
  (lift_net call w).2 = w <| nt_os := (call (nt_os w)).2 |> /\ (lift_net call w).1 = (call (nt_os w)).1.
Proof. unfold lift_net. by destruct (call (nt_os w)). Qed.

Lemma accept_net fd w r a w' : os_accept fd w = ((r, a), w') ->
  exists o, os_accept fd (nt_os w) = ((r, a), o) /\ w' = greet (w <| nt_os := o |>) r.
Proof.
  change (os_accept fd w) with (let '((r, a), w') := lift_net (os_accept fd) w in ((r, a), greet w' r)). unfold lift_net.
  destruct (os_accept fd (nt_os w)) as [[r1 a1] o]. intros [= <- <- <-]. by exists o.
Qed.

Lemma kept_by_net (P : net -> Prop) :
  (forall w o, P w -> P (w <| nt_os := o |>)) -> (forall w r, P w -> P (greet w r)) -> kept_by_os P.
Proof.
  intros Ho Hg. split.
  6: { intros fd w Hw. destruct (os_accept fd w) as [[r a] w'] eqn:E1. apply accept_net in E1 as (o & _ & ->). by apply Hg, Ho. }
  all: intros; cbn [os_socket os_setsockopt os_bind os_listen os_select os_close os_time net_os];
    rewrite (proj1 (lift_net_world _ _)); by apply Ho.
Qed.

#[export] Program Instance net_laws : TcpOsLaws net := { open_fds w := open_fds (nt_os w) }.
Next Obligation.
  intros w r w'. cbn [os_socket net_os]. unfold lift_net. pose proof (socket_fds (nt_os w)) as Hl.
  destruct (os_socket (nt_os w)) as [r1 o]. intros [= <- <-]. by apply (Hl r1 o).
Qed.
Next Obligation.
  intros fd w r a w' (o & E1 & ->)%accept_net. pose proof (accept_fds fd (nt_os w) r a o E1) as Hl.
  unfold greet. by destruct (0 <=? r).
Qed.
Next Obligation. intros w fd. apply fd_limit. Qed.
Next Obligation. intros fd w. exact (close_fds fd (nt_os w)). Qed.
Next Obligation. intros fd o v w. exact (sockopt_fds fd o v (nt_os w)). Qed.
Next Obligation. intros fd p w. exact (bind_fds fd p (nt_os w)). Qed.
Next Obligation. intros fd n w. exact (listen_fds fd n (nt_os w)). Qed.
Next Obligation.
  intros n r e t w. cbn [os_select net_os]. rewrite (proj1 (lift_net_world _ _)). exact (select_fds n r e t (nt_os w)).
Qed.
Next Obligation. intros w. exact (time_fds (nt_os w)). Qed.

#[export] Instance net_quiet : QuietIo net.
Proof. split; [done| |done|done]. intros fd d w. cbn [sock_write net_sockets]. by destruct (nt_room w). Qed.

#[export] Program Instance net_stops : InstanceStops net := {
  due k w := stops_within (Z.to_nat k) (nt_signals w) = true;
  to_come n w := nt_bytes w <= n /\ nt_stalled w = []
}.
Next Obligation.
  intros k w sigs w' Hk [= <- <-]. cbn. revert Hk. destruct (Z.ltb_spec 0 k) as [Hpos|Hneg].
  - replace (Z.to_nat k) with (S (Z.to_nat (k - 1))) by lia. destruct (nt_signals w) as [|x l]; [done|].
    intros [Hk|Hk]%orb_prop; [by left|by right].
  - by replace (Z.to_nat k) with 0%nat by lia.
Qed.
Next Obligation.
  intros k. split; [|done| |done].
  - apply kept_by_net; [done|]. intros w r Hw. unfold greet. by destruct (0 <=? r).
  - intros fd d w Hw. cbn. by destruct (nt_room w).
Qed.
Next Obligation.
  assert (Hr : forall fd k w, nt_bytes (sock_read fd k w).2 + (sock_read fd k w).1.1 = nt_bytes w).
  { intros fd k w. cbn. unfold nt_bytes, zlen. cbn. rewrite !concat_app, !length_app.
    pose proof (shorten_bytes fd (Z.to_nat (Z.min k 3)) (nt_streams w)). lia. }
  assert (Hz : forall fd k w, 0 <= (sock_read fd k w).1.1) by (intros; cbn; apply zlen_nonneg).
  split.
  - intros n fd k w [_ Hs]. cbn. by rewrite Hs.
  - done.
  - intros n w [Hw _]. pose proof (zlen_nonneg (concat (map snd (nt_streams w) ++ nt_coming w))). unfold nt_bytes in Hw. lia.
  - intros n m w [Hw Hs] Hm. split; [lia|done].
  - intros n fd k w [Hw Hs]. specialize (Hr fd k w). specialize (Hz fd k w). split; [lia|exact Hs].
  - intros n fd k w r d w' [Hw Hs] E1 Hpos. assert (Hs' : nt_stalled w' = nt_stalled w) by (by injection E1 as _ _ <-).
    specialize (Hr fd k w). rewrite E1 in Hr. cbn in Hr. split; [lia|congruence].
  - intros n fd d w Hw. cbn. by destruct (nt_room w).
  - done.
Qed.
Next Obligation. by intros n w Hw. Qed.
Next Obligation.
  intros n. apply kept_by_net; [done|]. intros w r [Hw Hs]. unfold greet. destruct (0 <=? r); [|done]. split; [|exact Hs].
  unfold nt_bytes, zlen in *. cbn in *. rewrite concat_app in *. rewrite !length_app in *.
  destruct (nt_coming w); cbn in *; rewrite ?length_app in *; lia.
Qed.

#[export] Program Instance net_clients : ClientStreams net := { client_in fd w := stream fd (nt_streams w) }.
Next Obligation.
  intros fd n w r d w' Hn [= <- <- <-] Hr. cbn. rewrite stream_shorten, Z.eqb_refl, take_drop.
  split; [done|]. split; [|done]. unfold zlen. rewrite length_take. lia.
Qed.
Next Obligation. intros fd fd' n w Hne. cbn. rewrite stream_shorten. by rewrite (proj2 (Z.eqb_neq _ _) Hne). Qed.
Next Obligation. intros fd fd' d w. cbn. by destruct (nt_room w). Qed.
Next Obligation. done. Qed.

#[export] Program Instance net_polite : Clients net := { coming n w := Forall (polite n) (nt_coming w) }.
Next Obligation.
  intros n. split; [done| |done]. intros fd d w Hw. cbn. by destruct (nt_room w).
Qed.
Next Obligation.
  intros n. apply kept_by_net; [done|]. intros w r Hw. unfold greet. destruct (0 <=? r); [|done]. cbn.
  by destruct Hw.
Qed.
Next Obligation. done. Qed.
Next Obligation.
  intros n fd w r a w' Hw (o & _ & ->)%accept_net Hr. unfold greet. rewrite (proj2 (Z.leb_le 0 r) Hr). cbn.
  rewrite Z.eqb_refl. destruct Hw; [|done]. by split; [apply Forall_nil_2|].
Qed.
Next Obligation.
  intros fd fd' w r a w' (o & _ & ->)%accept_net Hr. unfold greet. destruct (Z.leb_spec 0 r) as [Hpos|]; [|done]. cbn.
  by rewrite (proj2 (Z.eqb_neq _ _) (not_eq_sym (Hr Hpos))).
Qed.
Next Obligation. done. Qed.
Next Obligation. intros fd w. cbn [os_socket net_os]. by rewrite (proj1 (lift_net_world _ _)). Qed.
Next Obligation. done. Qed.
Next Obligation. done. Qed.
Next Obligation. done. Qed.
Next Obligation. intros fd n r e t w. cbn [os_select net_os]. by rewrite (proj1 (lift_net_world _ _)). Qed.
Next Obligation. done. Qed.
Next Obligation. done. Qed.

(** A process that is told to stop after so many looks at the signals. *)
Definition net_of (looks : nat) (clients : list (list Z)) (stalled : list Z) : istate world net :=
  mk_istate (mk_globals true false) "" 0 false None
    (mk_xstate xvc_zero (mk_mem ∅ 0 [] (fun _ _ => 0)) (mk_ftdi None false 0 "", sim_closed_world)
       (mk_net (mk_os [0; 1; 2]
            [mk_select 1 false [3] []; mk_select 1 false [4] []; mk_select 2 false [3; 4] []; mk_select 1 false [3] []; mk_select 1 false [4] []]
            [10; 11; 12])
          [] clients 12 stalled [] (replicate looks [] ++ [[SIGTERM]]))).

(** Three clients: the first asks who is there, shifts 16 bits and is cut off in
    a settck, the second connects in between, and the third gets one half of
    its reply. *)
Definition net_start : list Z -> istate world net := net_of 8
  [bytes_of "getinfo:shift:" ++ xvc_put_int32 16 ++ [0x22; 0x80; 0x00; 0x55] ++ bytes_of "settck:" ++ [100; 0];
   bytes_of "getinfo:";
   bytes_of "settck:" ++ [100; 0; 0; 0]].

Definition net_process : istate world net := net_start [].

Definition net_result (e : exec (Z * istate world net)) : option (Z * list Z * list Z * list (Z * list Z) * list Z) :=
  match e with
  | Done (r, s) =>
      let w := x_w (i_x s) in Some (r, so_open (nt_os w), opened (x_ad (i_x s)).2, nt_streams w, concat (map snd (nt_sent w)))
  | _ => None
  end.

Example net_runs :
  net_result (run_instance sim_inst net_process) =
    Some (0, [0; 1; 2], [], [(4, []); (5, bytes_of "getinfo:"); (4, [])],
          bytes_of "xvcServer_v1.0:2048" ++ [10; 0; 0; 33; 0]).
Proof. vm_compute. reflexivity. Qed.

(** When the first client stalls in its settck instead, the instance is held in
    the read, and the signal to stop does not get it out. *)
Example stalled_client_holds : run_instance sim_inst (net_start [4]) = Stuck.
Proof. vm_compute. reflexivity. Qed.

(** The sizes of the blocks that are still allocated. *)
Definition live_sizes (e : exec (Z * istate world net)) : option (list nat) :=
  match e with
  | Done (_, s) => Some ((fun b => length b.2) <$> map_to_list (m_blocks (x_mem (i_x s))))
  | _ => None
  end.

(** A client that has taken the target to Run-Test/Idle is between two commands
    when the instance is told to stop: nothing frees the two buffers of its
    session. *)
Example stop_keeps_buffers :
  live_sizes (run_instance sim_inst (net_of 2 [bytes_of "shift:" ++ xvc_put_int32 6 ++ [0x1F; 0x00]] [])) = Some [4096%nat; 2048%nat].
Proof. vm_compute. reflexivity. Qed.

Lemma polite_check max l : forallb (fun b => (0 <=? b) && (b <? 256)) l && polite_for (S (length l)) max l = true -> polite max l.
Proof.
  intros [Hb Hp]%andb_true_iff. split; [|done]. rewrite forallb_forall in Hb.
  apply Forall_forall. intros b Hin%list_elem_of_In%Hb. zb. done.
Qed.

Lemma run_instance_defined_witness :
  (runnable sim_inst /\ mem_wf (x_mem (i_x net_process)) /\ coming 2048 (x_w (i_x net_process)) /\
   due 9 (x_w (i_x net_process)) /\ to_come 100 (x_w (i_x net_process))) /\
  exists ret s', run_instance sim_inst net_process = Done (ret, s') /\ released net_process s' /\ (ret = 0 \/ ret = 1).
Proof.
  assert (Hr : runnable sim_inst).
  { split; [apply Forall_nil_2|apply Z.ltb_lt|apply Z.leb_le|apply Z.leb_le]; vm_compute; reflexivity. }
  assert (Hm : mem_wf (x_mem (i_x net_process))) by (intros b l Hb; discriminate Hb).
  assert (Hc : coming 2048 (x_w (i_x net_process))).
  { apply Forall_forall. intros l Hl. apply polite_check. revert l Hl. apply Forall_forall.
    repeat (apply Forall_cons_2; [vm_compute; reflexivity|]). apply Forall_nil_2. }
  assert (Hd : due 9 (x_w (i_x net_process))) by (vm_compute; reflexivity).
  assert (Ht : to_come 100 (x_w (i_x net_process))) by (split; [apply Z.leb_le; vm_compute|]; reflexivity).
  split; [exact (conj Hr (conj Hm (conj Hc (conj Hd Ht))))|].
  exact (run_instance_defined sim_inst 9 100 net_process Hr Hm Hc Hd Ht ltac:(lia) ltac:(lia)).
Defined.
