(* ===== verification/Logging.v ===== *)
(** logging.c: levels, targets and the line that a message becomes.

    A level is its number, as in the enumeration of logging.h.  The global
    structure is a record; what a message causes is a list of effects.  The
    text that [vsnprintf] makes of the format and its arguments, and the time
    as [localtime] and [strftime] print it, are arguments.  The mutex only
    orders the output of several threads, which the program does not have. *)

From S2P Require Import Prelude CString.
From Stdlib Require Import Ascii String.
Open Scope Z_scope.

(** ** Levels *)

Definition XVC_LOG_TRACE : Z := 0.
Definition XVC_LOG_DEBUG : Z := 1.
Definition XVC_LOG_INFO : Z := 2.
Definition XVC_LOG_WARN : Z := 3.
Definition XVC_LOG_ERROR : Z := 4.
Definition XVC_LOG_FATAL : Z := 5.

Definition level_names : list string := ["TRACE"; "DEBUG"; "INFO"; "WARN"; "ERROR"; "FATAL"]%string.
Definition syslog_priority : list Z := [7; 7; 6; 4; 3; 2].

Definition log_level_name (level : Z) : string :=
  if (0 <=? level) && (level <? zlen level_names) then default "UNKNOWN"%string (get_at level level_names)
  else "UNKNOWN"%string.

(** [None] is a null pointer. *)
Definition log_level_from_string (str : option string) : Z :=
  match str with
  | None => XVC_LOG_INFO
  | Some str =>
      if str_caseeq str "debug" then XVC_LOG_DEBUG
      else if str_caseeq str "info" then XVC_LOG_INFO
      else if str_caseeq str "warn" || str_caseeq str "warning" then XVC_LOG_WARN
      else if str_caseeq str "error" then XVC_LOG_ERROR
      else if str_caseeq str "fatal" then XVC_LOG_FATAL
      else XVC_LOG_INFO
  end.

(** ** State *)

Definition LOG_TARGET_STDOUT : Z := 1.
Definition LOG_TARGET_STDERR : Z := 2.
Definition LOG_TARGET_FILE : Z := 4.
Definition LOG_TARGET_SYSLOG : Z := 8.

Record log_config_t := mk_log_config {
  lc_level : Z;
  lc_targets : Z;
  lc_file : string;
  include_timestamp : bool;
  include_level : bool;
  include_source : bool;
  lc_instance : Z
}.
#[export] Instance eta_log_config : Eta log_config_t := fun c =>
  mk_log_config (lc_level c) (lc_targets c) (lc_file c) (include_timestamp c) (include_level c)
    (include_source c) (lc_instance c).

(** [log_open]: the file is open. *)
Record log_state := mk_log { log_config : log_config_t; log_open : bool; log_initialized : bool }.
#[export] Instance eta_log_state : Eta log_state := fun g => mk_log (log_config g) (log_open g) (log_initialized g).

Definition log_zero : log_state := mk_log (mk_log_config 0 0 "" false false false 0) false false.

Definition has_target (targets t : Z) : bool := negb (Z.land targets t =? 0).

(** ** Operations *)

(** [mutex_ok] and [file_ok]: whether the mutex and the file can be had. *)
Definition log_init (config : log_config_t) (mutex_ok file_ok : bool) (g : log_state) : Z * log_state :=
  if log_initialized g then (0, g)
  else
    let g := g <| log_config := config |> in
    if negb mutex_ok then (-1, g)
    else if has_target (lc_targets config) LOG_TARGET_FILE && negb (String.eqb (lc_file config) "") then
      if file_ok then (0, g <| log_open := true |> <| log_initialized := true |>)
      else (-1, g <| log_open := false |>)
    else (0, g <| log_initialized := true |>).

Definition log_shutdown (g : log_state) : log_state :=
  if negb (log_initialized g) then g
  else (if log_open g then g <| log_open := false |> else g) <| log_initialized := false |>.

Definition log_set_level (level : Z) (g : log_state) : log_state :=
  g <| log_config := (log_config g) <| lc_level := level |> |>.

Definition log_set_instance (instance_id : Z) (g : log_state) : log_state :=
  g <| log_config := (log_config g) <| lc_instance := instance_id |> |>.

Definition log_enabled (level : Z) (g : log_state) : bool := lc_level (log_config g) <=? level.

(** ** A message *)

Inductive log_effect :=
  | ToStdout (line : string)
  | ToStderr (line : string)
  | ToFile (line : string)
  | ToSyslog (priority : Z) (line : string)
  | Exit (code : Z).

Definition PREFIX_SIZE : Z := 128.
Definition MESSAGE_SIZE : Z := 1024.

(** [pos += snprintf(prefix + pos, sizeof(prefix) - pos, ..)], where the last
    argument is what is printed: the string in [prefix] up to its first NUL
    and [pos], which counts what did not fit too.  A size that wraps around
    is a write outside the array. *)
Definition append_prefix (p : Z * string) (text : string) : exec (Z * string) :=
  let '(pos, prefix) := p in
  if PREFIX_SIZE <? pos then Undef
  else Done (pos + strlen text,
             if pos <=? strlen prefix then (prefix +:+ truncated (PREFIX_SIZE - pos) text)%string else prefix).

Definition when (c : bool) (text : string) (p : Z * string) : exec (Z * string) :=
  if c then append_prefix p text else Done p.

Definition source_basename (file : string) : string :=
  match str_rchr "/"%char file with Some (_, base) => base | None => file end.

Definition log_prefix (c : log_config_t) (level : Z) (file : option string) (line : Z) (now : string) : exec string :=
  p ← when (include_timestamp c) ("[" +:+ (now +:+ "] "))%string (0, ""%string);
  p ← when (0 <? lc_instance c) ("[I" +:+ (fmt_d (lc_instance c) +:+ "] "))%string p;
  p ← (if include_level c then
         name ← of_option (get_at level level_names);
         append_prefix p ("[" +:+ (name +:+ "] "))%string
       else Done p);
  p ← match file with
      | Some file => when (include_source c) (source_basename file +:+ (":" +:+ (fmt_d line +:+ ": ")))%string p
      | None => Done p
      end;
  Done p.2.

(** [now] is the time as it stands in the 32 bytes of [timestamp], and
    [text] what the format and the arguments make. *)
Definition log_vmsg (level : Z) (file : option string) (line : Z) (text now : string) (g : log_state)
  : exec (list log_effect) :=
  let c := log_config g in
  if level <? lc_level c then Done []
  else
    prefix ← log_prefix c level file line now;
    let message := truncated MESSAGE_SIZE text in
    let out := (prefix +:+ (message +:+ String LF ""))%string in
    syslog ← (if has_target (lc_targets c) LOG_TARGET_SYSLOG
              then prio ← of_option (get_at level syslog_priority); Done [ToSyslog prio message]
              else Done []);
    Done ((if has_target (lc_targets c) LOG_TARGET_STDOUT then [ToStdout out] else []) ++
          (if has_target (lc_targets c) LOG_TARGET_STDERR then [ToStderr out] else []) ++
          (if has_target (lc_targets c) LOG_TARGET_FILE && log_open g then [ToFile out] else []) ++
          syslog ++
          (if level =? XVC_LOG_FATAL then [Exit 1] else [])).

Definition log_msg (level : Z) (file : option string) (line : Z) (text now : string) (g : log_state)
  : exec (list log_effect) := log_vmsg level file line text now g.

Example log_example :
  log_vmsg XVC_LOG_WARN (Some "src/main.c"%string) 149 "gone"
    "2024-01-02 03:04:05" (mk_log (mk_log_config 2 2 "" true true true 3) false true) =
  Done [ToStderr ("[2024-01-02 03:04:05] [I3] [WARN] main.c:149: gone" +:+ String LF "")%string].
Proof. reflexivity. Qed.

(** ** The prefix *)

(** What the array holds after the whole text was printed. *)
Definition printed (full : string) : Z * string := (strlen full, truncated PREFIX_SIZE full).

Lemma append_printed full text :
  strlen full <= PREFIX_SIZE -> append_prefix (printed full) text = Done (printed (full +:+ text)%string).
Proof.
  intros Hl. unfold append_prefix, printed. rewrite (proj2 (Z.ltb_ge _ _)) by lia. rewrite strlen_app. f_equal. f_equal.
  unfold truncated, PREFIX_SIZE in *. rewrite str_take_app.
  destruct (Z.eq_dec (strlen full) 128) as [E1|Hne].
  - replace (Z.to_nat (128 - 1) - String.length full)%nat with 0%nat by (unfold strlen in E1; lia).
    rewrite (proj2 (Z.leb_gt _ _)); [by rewrite app_string_nil|].
    pose proof (strlen_truncated 128 full ltac:(lia)) as Ht. unfold truncated in Ht. lia.
  - rewrite (str_take_all _ full) by (unfold strlen in *; lia). rewrite Z.leb_refl.
    do 2 f_equal. unfold strlen in *. lia.
Qed.

(** The prefix of a message as it should read. *)
Definition stamp_text (c : log_config_t) (now : string) : string :=
  if include_timestamp c then ("[" +:+ (now +:+ "] "))%string else ""%string.
Definition instance_text (c : log_config_t) : string :=
  if 0 <? lc_instance c then ("[I" +:+ (fmt_d (lc_instance c) +:+ "] "))%string else ""%string.
Definition level_text (c : log_config_t) (level : Z) : string :=
  if include_level c then ("[" +:+ (log_level_name level +:+ "] "))%string else ""%string.
Definition source_text (c : log_config_t) (file : option string) (line : Z) : string :=
  match file with
  | Some file => if include_source c then (source_basename file +:+ (":" +:+ (fmt_d line +:+ ": ")))%string else ""%string
  | None => ""%string
  end.
Definition prefix_text (c : log_config_t) (level : Z) (file : option string) (line : Z) (now : string) : string :=
  (((stamp_text c now +:+ instance_text c) +:+ level_text c level) +:+ source_text c file line)%string.

Lemma when_printed (b : bool) full text : strlen full <= PREFIX_SIZE ->
  when b text (printed full) = Done (printed (full +:+ if b then text else "")%string).
Proof. intros Hl. destruct b; [by apply append_printed|]. unfold when. by rewrite app_string_nil. Qed.

Lemma level_name_ok level : 0 <= level <= 5 ->
  get_at level level_names = Some (log_level_name level) /\ strlen (log_level_name level) <= 5.
Proof.
  intros Hl. assert (Hc : level = 0 \/ level = 1 \/ level = 2 \/ level = 3 \/ level = 4 \/ level = 5) by lia.
  destruct Hc as [->|[->|[->|[->|[->| ->]]]]]; split; (reflexivity || by vm_compute).
Qed.

Lemma stamp_short c now : strlen now <= 31 -> strlen (stamp_text c now) <= 34.
Proof. intros Hn. unfold stamp_text. destruct (include_timestamp c); [|done]. rewrite !strlen_app. change (strlen "[") with 1. change (strlen "] ") with 2. lia. Qed.

Lemma instance_short c : strlen (instance_text c) <= 25.
Proof.
  unfold instance_text, fmt_d. destruct (Z.ltb_spec 0 (lc_instance c)) as [Hi|]; [|done]. rewrite (proj2 (Z.ltb_ge (lc_instance c) 0)) by lia.
  rewrite !strlen_app. change (strlen "[I") with 2. change (strlen "] ") with 2. pose proof (dec_digits_length 20 (lc_instance c)).
  unfold fmt_u, strlen. lia.
Qed.

Lemma level_short c level : 0 <= level <= 5 -> strlen (level_text c level) <= 8.
Proof.
  intros Hl. unfold level_text. destruct (include_level c); [|done]. rewrite !strlen_app.
  change (strlen "[") with 1. change (strlen "] ") with 2. pose proof (proj2 (level_name_ok level Hl)). lia.
Qed.

Lemma log_prefix_ok c level file line now :
  0 <= level <= 5 -> strlen now <= 31 ->
  log_prefix c level file line now = Done (truncated PREFIX_SIZE (prefix_text c level file line now)).
Proof.
  intros Hl Hn. pose proof (stamp_short c now Hn) as L1. pose proof (instance_short c) as L2.
  pose proof (level_short c level Hl) as L3. unfold log_prefix.
  change (0, ""%string) with (printed ""). rewrite when_printed by done. rewrite app_string_empty. cbn [mbind exec_bind].
  fold (stamp_text c now). rewrite when_printed by (unfold PREFIX_SIZE; lia). fold (instance_text c). cbn [mbind exec_bind].
  assert (E1 : (if include_level c
                then name ← of_option (get_at level level_names);
                     append_prefix (printed (stamp_text c now +:+ instance_text c)) ("[" +:+ (name +:+ "] "))%string
                else Done (printed (stamp_text c now +:+ instance_text c))) =
               Done (printed ((stamp_text c now +:+ instance_text c) +:+ level_text c level)%string)).
  { unfold level_text. destruct (include_level c); [|by rewrite app_string_nil].
    rewrite (proj1 (level_name_ok level Hl)). cbn [of_option mbind exec_bind]. apply append_printed.
    rewrite strlen_app. unfold PREFIX_SIZE. lia. }
  rewrite E1. cbn [mbind exec_bind]. unfold prefix_text, source_text. destruct file as [file|].
  - rewrite when_printed by (rewrite !strlen_app; unfold PREFIX_SIZE; lia). done.
  - by rewrite app_string_nil.
Qed.

(** ** Messages *)

(** The effects that carry the line, by target. *)
Definition goes_to (g : log_state) (t : Z) : bool := has_target (lc_targets (log_config g)) t.

(** C40: what a message does.  A message below the level does nothing.  Any
    other one is written once to each of the configured targets, the file only
    while it is open, as the prefix cut to its array, the text cut to 1023
    characters and a line break; syslog gets the text with the priority of the
    level; and a fatal message ends the process after that.  The prefix is
    built without leaving its array, whatever the instance and the source. *)
Theorem log_message (level : Z) (file : option string) (line : Z) (text now : string) (g : log_state) :
  0 <= level <= 5 -> strlen now <= 31 ->
  exists effects, log_vmsg level file line text now g = Done effects /\
    (log_enabled level g = false -> effects = []) /\
    (log_enabled level g = true ->
       let message := truncated 1024 text in
       let out := (truncated 128 (prefix_text (log_config g) level file line now) +:+ (message +:+ String LF ""))%string in
       strlen out <= 127 + 1023 + 1 /\
       (forall l, ToStdout l ∈ effects <-> goes_to g LOG_TARGET_STDOUT = true /\ l = out) /\
       (forall l, ToStderr l ∈ effects <-> goes_to g LOG_TARGET_STDERR = true /\ l = out) /\
       (forall l, ToFile l ∈ effects <-> goes_to g LOG_TARGET_FILE = true /\ log_open g = true /\ l = out) /\
       (forall p l, ToSyslog p l ∈ effects <->
          goes_to g LOG_TARGET_SYSLOG = true /\ l = message /\ p = nth (Z.to_nat level) [7; 7; 6; 4; 3; 2] 0) /\
       (forall k, Exit k ∈ effects <-> level = XVC_LOG_FATAL /\ k = 1) /\
       (level = XVC_LOG_FATAL -> last effects = Some (Exit 1)) /\ NoDup effects).
Proof.
  intros Hl Hn. unfold log_vmsg, log_enabled. rewrite Z.ltb_antisym, log_prefix_ok by done.
  destruct (lc_level (log_config g) <=? level) eqn:El; cbn [negb]; [|by exists []].
  cbn [mbind exec_bind]. fold MESSAGE_SIZE. fold PREFIX_SIZE.
  pose proof (strlen_truncated PREFIX_SIZE (prefix_text (log_config g) level file line now) ltac:(done)) as Lp.
  pose proof (strlen_truncated MESSAGE_SIZE text ltac:(done)) as Lm.
  revert Lp Lm. generalize (truncated PREFIX_SIZE (prefix_text (log_config g) level file line now)).
  generalize (truncated MESSAGE_SIZE text). intros message prefix Lp Lm.
  assert (Hp : get_at level syslog_priority = Some (nth (Z.to_nat level) [7; 7; 6; 4; 3; 2] 0)).
  { apply get_at_ok. change (0 <= level < 6). lia. }
  rewrite Hp. cbn [of_option]. unfold goes_to.
  replace (if has_target (lc_targets (log_config g)) LOG_TARGET_SYSLOG then _ else _)
    with (Done (if has_target (lc_targets (log_config g)) LOG_TARGET_SYSLOG
                then [ToSyslog (nth (Z.to_nat level) [7; 7; 6; 4; 3; 2] 0) message] else []))
    by (by destruct (has_target _ LOG_TARGET_SYSLOG)).
  cbn [mbind exec_bind]. eexists. split; [reflexivity|].
  split; [done|]. intros _. cbv zeta.
  split. { rewrite !strlen_app. unfold PREFIX_SIZE, MESSAGE_SIZE in *. change (strlen (String LF "")) with 1. lia. }
  generalize (prefix +:+ (message +:+ String LF ""))%string. intros out.
  destruct (Z.eqb_spec level XVC_LOG_FATAL);
  destruct (has_target (lc_targets (log_config g)) LOG_TARGET_STDOUT),
    (has_target (lc_targets (log_config g)) LOG_TARGET_STDERR),
    (has_target (lc_targets (log_config g)) LOG_TARGET_FILE), (log_open g),
    (has_target (lc_targets (log_config g)) LOG_TARGET_SYSLOG); cbn [app andb mret exec_ret];
  (split_and!; [intros; rewrite ?elem_of_cons, ?elem_of_nil; naive_solver..| |]);
  try done; repeat (constructor; [rewrite ?elem_of_cons, ?elem_of_nil; naive_solver|]); try constructor.
Qed.

Lemma log_message_witness :
  exists effects, log_vmsg XVC_LOG_FATAL (Some "src/main.c"%string) 472 "no configuration" "2024-01-02 03:04:05"
      (mk_log (mk_log_config 2 10 "" true true false 0) false true) = Done effects /\ last effects = Some (Exit 1).
Proof.
  destruct (log_message XVC_LOG_FATAL (Some "src/main.c"%string) 472 "no configuration" "2024-01-02 03:04:05"
      (mk_log (mk_log_config 2 10 "" true true false 0) false true)) as (effects & E1 & _ & H1); [by vm_compute..|].
  exists effects. split; [exact E1|]. apply H1; reflexivity.
Defined.

(** ** Names of levels *)

(** The characters of a string in lower case. *)
Fixpoint lower (s : string) : string :=
  match s with String c s => String (tolower c) (lower s) | EmptyString => EmptyString end.

Lemma caseeq_lower a b : str_caseeq a b = String.eqb (lower a) (lower b).
Proof. revert b. induction a as [|c a IH]; intros [|d b]; cbn; try done. rewrite IH. by destruct (Ascii.eqb _ _). Qed.

(** Names and levels.  Reading a level does not depend on the case of the
    letters, always gives one of DEBUG to FATAL, and gives back the level of
    every printed name but one: the name of the TRACE level is read as INFO. *)
Theorem level_name_roundtrip (s t : string) (level : Z) :
  (lower s = lower t -> log_level_from_string (Some s) = log_level_from_string (Some t)) /\
  XVC_LOG_DEBUG <= log_level_from_string (Some s) <= XVC_LOG_FATAL /\
  (log_level_name level <> "UNKNOWN"%string <-> XVC_LOG_TRACE <= level <= XVC_LOG_FATAL) /\
  (XVC_LOG_TRACE <= level <= XVC_LOG_FATAL ->
     log_level_from_string (Some (log_level_name level)) =
       if decide (level = XVC_LOG_TRACE) then XVC_LOG_INFO else level).
Proof.
  split. { intros E1. unfold log_level_from_string. by rewrite !(caseeq_lower s), !(caseeq_lower t), E1. }
  split. { unfold log_level_from_string. repeat case_match; done. }
  assert (Hc : 0 <= level <= 5 -> level = 0 \/ level = 1 \/ level = 2 \/ level = 3 \/ level = 4 \/ level = 5) by lia.
  split.
  - unfold log_level_name. destruct ((0 <=? level) && (level <? zlen level_names)) eqn:El.
    + apply andb_true_iff in El as [H1%Z.leb_le H2%Z.ltb_lt]. change (zlen level_names) with 6 in H2.
      unfold XVC_LOG_TRACE, XVC_LOG_FATAL. split; [lia|]. intros _.
      destruct Hc as [->|[->|[->|[->|[->| ->]]]]]; [lia|done..].
    + split; [done|]. intros [H1 H2]. unfold XVC_LOG_TRACE, XVC_LOG_FATAL in *.
      rewrite (proj2 (Z.leb_le 0 level)) in El by lia. rewrite (proj2 (Z.ltb_lt level (zlen level_names))) in El; [done|].
      change (level < 6). lia.
  - intros Hl. by destruct (Hc Hl) as [->|[->|[->|[->|[->| ->]]]]].
Qed.

Lemma level_name_roundtrip_witness :
  log_level_from_string (Some "Warn"%string) = log_level_from_string (Some "WARN"%string) /\
  log_level_from_string (Some (log_level_name XVC_LOG_TRACE)) = XVC_LOG_INFO.
Proof.
  split; [by apply (level_name_roundtrip "Warn" "WARN" 0)|].
  apply (level_name_roundtrip "" "" XVC_LOG_TRACE). by split.
Defined.
