(* ===== verification/DeviceManager.v ===== *)
(** device_manager.c: the devices the driver lists, and who uses them.

    The driver is the boundary of D2xx.v.  A device pointer is an index of
    [devices]; [None] is the null pointer.  [device_manager_print] and the
    like answer the text they print. *)

From S2P Require Import Prelude CString Memory D2xx Config.
From stdpp Require Import strings.
Open Scope Z_scope.

Definition FTDI_VENDOR_ID : Z := 0x0403.
Definition FT2232H_PRODUCT_ID : Z := 0x6010.
Definition FT232H_PRODUCT_ID : Z := 0x6014.
Definition MAX_DEVICES : Z := 32.

(** ** Data *)

Inductive device_state_t :=
  | DEVICE_STATE_UNKNOWN
  | DEVICE_STATE_AVAILABLE
  | DEVICE_STATE_IN_USE
  | DEVICE_STATE_ERROR.

#[export] Instance device_state_eq_dec : EqDecision device_state_t.
Proof. solve_decision. Defined.

Record hs2_device_t := mk_device {
  vendor_id : Z;
  product_id : Z;
  bus_number : Z;
  device_address : Z;
  serial : string;
  manufacturer : string;
  product : string;
  bus_location : string;
  dev_state : device_state_t;
  assigned_instance : Z
}.
#[export] Instance eta_hs2_device : Eta hs2_device_t := fun d =>
  mk_device (vendor_id d) (product_id d) (bus_number d) (device_address d) (serial d) (manufacturer d)
    (product d) (bus_location d) (dev_state d) (assigned_instance d).

Record device_manager_t := mk_manager {
  devices : list hs2_device_t;
  device_count : Z;
  mgr_initialized : bool
}.
#[export] Instance eta_device_manager : Eta device_manager_t := fun m =>
  mk_manager (devices m) (device_count m) (mgr_initialized m).

(** All bytes zero. *)
Definition zero_device : hs2_device_t := mk_device 0 0 0 0 "" "" "" "" DEVICE_STATE_UNKNOWN 0.
Definition zero_manager : device_manager_t := mk_manager (replicate (Z.to_nat MAX_DEVICES) zero_device) 0 false.

(** The manager, the heap (only whether [calloc] succeeds) and the driver. *)
Record dmstate (W : Type) := mk_dmstate { dm_mgr : device_manager_t; dm_mem : mem; dm_w : W }.
Arguments mk_dmstate {W} _ _ _.
Arguments dm_mgr {W} _.
Arguments dm_mem {W} _.
Arguments dm_w {W} _.
#[export] Instance eta_dmstate {W} : Eta (dmstate W) := fun s => mk_dmstate (dm_mgr s) (dm_mem s) (dm_w s).

(** ** Scanning *)

(** [ftdi_dev->ID] is 0xVVVVPPPP. *)
Definition node_vid (n : FT_DEVICE_LIST_INFO_NODE) : Z := Z.land (Z.shiftr (ft_ID n) 16) 0xFFFF.
Definition node_pid (n : FT_DEVICE_LIST_INFO_NODE) : Z := Z.land (ft_ID n) 0xFFFF.

Definition supported (n : FT_DEVICE_LIST_INFO_NODE) : bool :=
  (node_vid n =? FTDI_VENDOR_ID) && ((node_pid n =? FT2232H_PRODUCT_ID) || (node_pid n =? FT232H_PRODUCT_ID)).

(** What the body of the loop stores for the entry [i] of the list. *)
Definition found_device (i : Z) (n : FT_DEVICE_LIST_INFO_NODE) : hs2_device_t :=
  mk_device (node_vid n) (node_pid n) 0 0 (truncated MAX_SERIAL_LEN (ft_SerialNumber n)) (truncated 64 "FTDI")
    (truncated 64 (ft_Description n)) (truncated 16 ("FTDI-" +:+ fmt_u i)%string) DEVICE_STATE_AVAILABLE 0.

Fixpoint scan_nodes (i : Z) (nodes : list FT_DEVICE_LIST_INFO_NODE) (m : device_manager_t) : device_manager_t :=
  match nodes with
  | [] => m
  | n :: nodes =>
      if device_count m <? MAX_DEVICES then
        scan_nodes (i + 1) nodes
          (if supported n
           then m <| devices := <[Z.to_nat (device_count m) := found_device i n]> (devices m) |>
                  <| device_count := device_count m + 1 |>
           else m)
      else m
  end.

(** What [device_manager_shutdown] leaves of a manager. *)
Definition shut_down (m : device_manager_t) : device_manager_t := m <| mgr_initialized := false |> <| device_count := 0 |>.

Section Scan.
Context {W : Type} `{D2XX W}.
#[local] Abbreviation D := (M (dmstate W)).

Definition dm_ft {A} (call : W -> A * W) : D A := fun s =>
  let '(a, w) := call (dm_w s) in Done (a, s <| dm_w := w |>).
Definition set_mgr (f : device_manager_t -> device_manager_t) : D unit := modify (fun s => s <| dm_mgr := f (dm_mgr s) |>).
Definition dm_calloc : D bool := fun s => let '(b, m) := alloc_ok (dm_mem s) in Done (b, s <| dm_mem := m |>).

Definition device_manager_init : D Z :=
  _ ← set_mgr (fun _ => zero_manager);
  status ← dm_ft (FT_SetVIDPID 0x0403 0x6010);
  if negb (status =? FT_OK) then mret (-1)
  else _ ← set_mgr (fun m => m <| mgr_initialized := true |>); mret 0.

Definition device_manager_shutdown : D unit := set_mgr shut_down.

(** The driver fills an array of [numDevices] entries. *)
Definition device_manager_scan : D Z :=
  m ← gets dm_mgr;
  if negb (mgr_initialized m) then mret (-1)
  else
    '(status, numDevices) ← dm_ft FT_CreateDeviceInfoList;
    if negb (status =? FT_OK) then mret (-1)
    else if numDevices =? 0 then mret 0
    else
      devList ← dm_calloc;
      if negb (devList : bool) then mret (-1)
      else
        '(status, nodes) ← dm_ft (FT_GetDeviceInfoList numDevices);
        if numDevices <? zlen nodes then undefined
        else if negb (status =? FT_OK) then mret (-1)
        else
          _ ← set_mgr (fun m => scan_nodes 0 nodes (m <| device_count := 0 |>));
          gets (fun s => device_count (dm_mgr s)).
End Scan.

(** ** Finding *)

(** The loop over the devices up to [device_count]. *)
Definition known (m : device_manager_t) : list hs2_device_t := take (Z.to_nat (device_count m)) (devices m).

Fixpoint first_from (f : hs2_device_t -> bool) (i : nat) (l : list hs2_device_t) : option nat :=
  match l with
  | [] => None
  | d :: l => if f d then Some i else first_from f (S i) l
  end.

Definition matches_id (id : device_id_t) (dev : hs2_device_t) : bool :=
  match id_type id with
  | DEVICE_ID_SERIAL => String.eqb (serial dev) (id_value id)
  | DEVICE_ID_BUS => String.eqb (bus_location dev) (id_value id)
  | DEVICE_ID_AUTO => bool_decide (dev_state dev = DEVICE_STATE_AVAILABLE)
  | _ => false
  end.

Definition device_manager_find (m : device_manager_t) (id : option device_id_t) : option nat :=
  match id with
  | None => None
  | Some id => first_from (matches_id id) 0 (known m)
  end.

Definition device_manager_find_available (m : device_manager_t) : option nat :=
  first_from (fun d => bool_decide (dev_state d = DEVICE_STATE_AVAILABLE)) 0 (known m).

Definition device_manager_get (m : device_manager_t) (index : Z) : option nat :=
  if (index <? 0) || (device_count m <=? index) then None else Some (Z.to_nat index).

(** ** Assigning *)

(** [device] points into [devices]; another pointer is undefined. *)
Definition device_manager_assign (m : device_manager_t) (device : option nat) (instance_id : Z)
  : exec (Z * device_manager_t) :=
  match device with
  | None => Done (-1, m)
  | Some k =>
      dev ← of_option (devices m !! k);
      if negb (bool_decide (dev_state dev = DEVICE_STATE_AVAILABLE)) then Done (-1, m)
      else Done (0, m <| devices := <[k := dev <| dev_state := DEVICE_STATE_IN_USE |>
                                             <| assigned_instance := instance_id |>]> (devices m) |>)
  end.

Definition device_manager_release (m : device_manager_t) (device : option nat) : exec device_manager_t :=
  match device with
  | None => Done m
  | Some k =>
      dev ← of_option (devices m !! k);
      Done (m <| devices := <[k := dev <| dev_state := DEVICE_STATE_AVAILABLE |>
                                      <| assigned_instance := 0 |>]> (devices m) |>)
  end.

(** ** Printing *)

Definition or_else (s d : string) : string := if String.eqb s "" then d else s.

Definition state_text (d : hs2_device_t) : string :=
  match dev_state d with
  | DEVICE_STATE_AVAILABLE => "Available"
  | DEVICE_STATE_IN_USE => "In Use"
  | _ => "Unknown"
  end.

Definition print_device (verbose : bool) (i : nat) (dev : hs2_device_t) : string :=
  ln ("Device #" +:+ fmt_d (Z.of_nat i + 1) +:+ ":") +:+
  ln ("  Manufacturer: " +:+ or_else (manufacturer dev) "Unknown") +:+
  ln ("  Product: " +:+ or_else (product dev) "Unknown") +:+
  ln ("  Serial Number: " +:+ or_else (serial dev) "N/A") +:+
  ln ("  Suggested Instance ID: " +:+ fmt_d (Z.of_nat i + 1)) +:+
  ln ("  Suggested Port: " +:+ fmt_d (DEFAULT_BASE_PORT + Z.of_nat i)) +:+
  (if verbose then
     ln ("  Vendor ID: 0x" +:+ fmt_04X (vendor_id dev)) +:+
     ln ("  Product ID: 0x" +:+ fmt_04X (product_id dev)) +:+
     ln ("  State: " +:+ state_text dev)
   else "") +:+
  ln "".

Definition device_manager_print (m : device_manager_t) (verbose : bool) : string :=
  ln ("Detected " +:+ fmt_d (device_count m) +:+ " Digilent HS2 device(s):") +:+ ln "" +:+
  concat_str (imap (print_device verbose) (known m)).

(** ** The configuration of the devices *)

(** The device that stands for an instance: its serial number, or where it is. *)
Definition device_id_of (dev : hs2_device_t) : device_id_t :=
  if negb (String.eqb (serial dev) "")
  then mk_device_id DEVICE_ID_SERIAL (truncated MAX_SERIAL_LEN (serial dev))
  else mk_device_id DEVICE_ID_BUS (truncated MAX_SERIAL_LEN (bus_location dev)).

Definition alias_of (dev : hs2_device_t) : string :=
  truncated MAX_ALIAS_LEN ("HS2-" +:+ if negb (String.eqb (serial dev) "") then serial dev else bus_location dev)%string.

Definition generated_instance (i : Z) (p : Z) (dev : hs2_device_t) (inst : xvc_instance_config_t) : xvc_instance_config_t :=
  inst <| Config.instance_id := i + 1 |> <| port := p |> <| enabled := true |>
       <| inst_frequency := DEFAULT_FREQUENCY |> <| latency_timer := DEFAULT_LATENCY |>
       <| device_id := device_id_of dev |> <| alias := alias_of dev |>.

(** The loop from the device [i] on; the port is computed in [int]. *)
Fixpoint generate_instances (base_port i : Z) (devs : list hs2_device_t) (c : xvc_global_config_t)
  : exec xvc_global_config_t :=
  match devs with
  | [] => Done c
  | dev :: devs =>
      if i <? MAX_INSTANCES then
        p ← int_arith (base_port + i);
        generate_instances base_port (i + 1) devs
          (c <| instances := alter (generated_instance i p dev) (Z.to_nat i) (instances c) |>
             <| instance_count := instance_count c + 1 |>)
      else Done c
  end.

Definition device_manager_generate_config (m : device_manager_t) (base_port : Z) : exec (Z * xvc_global_config_t) :=
  c ← generate_instances base_port 0 (known m) (config_init <| Config.base_port := base_port |>);
  Done (0, c).
