(* ===== verification/DeviceRefine.v ===== *)
(** What the device manager promises.

    Its well-formedness, kept by every operation; a scan keeps the supported
    devices of the driver's list, in order, up to its limit; a device has one
    user at a time; the configuration it generates is within the limits of
    config.h and finds the devices again. *)

From S2P Require Import Prelude CString Memory D2xx Config ConfigRefine DeviceManager.
From S2P Require Import Jtag SimDevice.
From stdpp Require Import strings.
Open Scope Z_scope.

(** ** Well-formed managers *)

Record wf_device (d : hs2_device_t) : Prop := {
  wfd_vendor : vendor_id d = FTDI_VENDOR_ID;
  wfd_product : product_id d = FT2232H_PRODUCT_ID \/ product_id d = FT232H_PRODUCT_ID;
  wfd_serial : strlen (serial d) < MAX_SERIAL_LEN;
  wfd_name : strlen (product d) < 64;
  wfd_maker : manufacturer d = "FTDI"%string;
  wfd_bus : exists i, 0 <= i < 2 ^ 32 /\ bus_location d = ("FTDI-" +:+ fmt_u i)%string;
  wfd_state : dev_state d = DEVICE_STATE_AVAILABLE /\ assigned_instance d = 0 \/ dev_state d = DEVICE_STATE_IN_USE
}.

Record wf_manager (m : device_manager_t) : Prop := {
  wfm_length : zlen (devices m) = MAX_DEVICES;
  wfm_count : 0 <= device_count m <= MAX_DEVICES;
  wfm_device : Forall wf_device (known m)
}.

Lemma known_lookup (m : device_manager_t) k :
  wf_manager m -> (k < Z.to_nat (device_count m))%nat -> known m !! k = devices m !! k.
Proof. intros Hm Hk. unfold known. by rewrite lookup_take_lt. Qed.

Lemma length_known m : wf_manager m -> length (known m) = Z.to_nat (device_count m).
Proof.
  intros [Hl Hc _]. unfold known. rewrite length_take. unfold zlen, MAX_DEVICES in *. lia.
Qed.

Lemma zero_manager_wf : wf_manager zero_manager.
Proof. split; cbn; [done|done|]. constructor. Qed.

(** ** Scanning *)

(** The supported entries with their positions in the driver's list. *)
Fixpoint found_from (i : Z) (nodes : list FT_DEVICE_LIST_INFO_NODE) : list hs2_device_t :=
  match nodes with
  | [] => []
  | n :: nodes => (if supported n then [found_device i n] else []) ++ found_from (i + 1) nodes
  end.

Definition found_devices (nodes : list FT_DEVICE_LIST_INFO_NODE) : list hs2_device_t := found_from 0 nodes.

(** Ten digits hold a 32-bit number. *)
Lemma dec_digits_ten f k n : 0 <= n < 10 ^ (Z.of_nat k + 1) -> (k <= f)%nat -> (String.length (dec_digits f n) <= S k)%nat.
Proof.
  revert k n. induction f as [|f IH]; intros k n Hn Hk; cbn [dec_digits]; [cbn; lia|].
  destruct (Z.ltb_spec n 10); [cbn; lia|]. destruct k as [|k]; [change (10 ^ (Z.of_nat 0 + 1)) with 10 in Hn; lia|].
  rewrite length_app_string. cbn [String.length]. enough (String.length (dec_digits f (n / 10)) <= S k)%nat by lia.
  apply IH; [|lia]. split; [apply Z.div_pos; lia|]. apply Z.div_lt_upper_bound; [lia|].
  rewrite <- Z.pow_succ_r by lia. replace (Z.succ (Z.of_nat k + 1)) with (Z.of_nat (S k) + 1) by lia. lia.
Qed.

Lemma bus_text i : 0 <= i < 2 ^ 32 -> truncated 16 ("FTDI-" +:+ fmt_u i)%string = ("FTDI-" +:+ fmt_u i)%string.
Proof.
  intros Hi. apply truncated_id. rewrite strlen_app. change (strlen "FTDI-") with 5.
  pose proof (dec_digits_ten 20 9 i) as Hd. change (10 ^ (Z.of_nat 9 + 1)) with 10000000000 in Hd.
  unfold fmt_u, strlen. lia.
Qed.

Lemma found_device_wf i n : supported n = true -> 0 <= i < 2 ^ 32 -> wf_device (found_device i n).
Proof.
  unfold supported. intros [Hv%Z.eqb_eq Hp]%andb_true_iff Hi. unfold found_device.
  split; cbn [vendor_id product_id serial product manufacturer bus_location dev_state assigned_instance].
  - done.
  - apply orb_true_iff in Hp as [Hp%Z.eqb_eq|Hp%Z.eqb_eq]; [by left|by right].
  - pose proof (strlen_truncated MAX_SERIAL_LEN (ft_SerialNumber n) ltac:(done)). lia.
  - pose proof (strlen_truncated 64 (ft_Description n) ltac:(done)). lia.
  - done.
  - exists i. split; [done|]. by apply bus_text.
  - by left.
Qed.

Lemma found_from_wf i nodes : 0 <= i -> i + zlen nodes <= 2 ^ 32 -> Forall wf_device (found_from i nodes).
Proof.
  revert i. induction nodes as [|n nodes IH]; intros i Hi Hn; [constructor|]. rewrite zlen_cons in Hn.
  pose proof (zlen_nonneg nodes). cbn [found_from]. apply Forall_app. split; [|by apply IH; lia].
  destruct (supported n) eqn:En; [|constructor]. constructor; [|constructor]. apply found_device_wf; [done|lia].
Qed.

Lemma take_insert_next {A} (k : nat) (x : A) l : (k < length l)%nat -> take (S k) (<[k := x]> l) = take k l ++ [x].
Proof.
  intros Hk. rewrite (take_S_r _ _ x) by (by apply list_lookup_insert_eq). by rewrite take_insert_ge by lia.
Qed.

Lemma scan_nodes_ok i nodes m :
  zlen (devices m) = MAX_DEVICES -> 0 <= device_count m <= MAX_DEVICES ->
  let m' := scan_nodes i nodes m in
  zlen (devices m') = MAX_DEVICES /\ 0 <= device_count m' <= MAX_DEVICES /\
  mgr_initialized m' = mgr_initialized m /\
  known m' = known m ++ take (Z.to_nat (MAX_DEVICES - device_count m)) (found_from i nodes).
Proof.
  cbv zeta. revert i m. induction nodes as [|n nodes IH]; intros i m Hl Hc; cbn [scan_nodes found_from].
  - rewrite take_nil, app_nil_r. done.
  - destruct (Z.ltb_spec (device_count m) MAX_DEVICES) as [Hlt|Hge].
    2: { replace (Z.to_nat (MAX_DEVICES - device_count m)) with 0%nat by lia. rewrite app_nil_r. done. }
    destruct (supported n); [|by apply IH].
    set (m1 := m <| devices := _ |> <| device_count := _ |>).
    destruct (IH (i + 1) m1) as (H1 & H2 & H3 & H4).
    { unfold m1. cbn. unfold zlen. by rewrite length_insert. } { unfold m1. cbn. lia. }
    rewrite H4. split; [done|]. split; [done|]. split; [by rewrite H3|]. unfold known. subst m1. cbn [devices device_count setter].
    replace (Z.to_nat (device_count m + 1)) with (S (Z.to_nat (device_count m))) by lia.
    rewrite take_insert_next by (unfold zlen, MAX_DEVICES in *; lia). rewrite <- app_assoc. f_equal.
    replace (Z.to_nat (MAX_DEVICES - device_count m)) with (S (Z.to_nat (MAX_DEVICES - (device_count m + 1)))) by lia.
    done.
Qed.

Lemma found_length i nodes : length (found_from i nodes) = length (filter (fun node => supported node = true) nodes).
Proof.
  revert i. induction nodes as [|x l IH]; intros i; [done|]. cbn [found_from]. rewrite length_app, filter_cons, IH.
  destruct (supported x); [rewrite decide_True by done|rewrite decide_False by done]; done.
Qed.

Section Scan.
Context {W : Type} `{D2XX W}.

(** A scan that gets the list of the driver. *)
Definition listed (s : dmstate W) (st n st' : Z) : bool :=
  mgr_initialized (dm_mgr s) && (st =? FT_OK) && negb (n =? 0) && (alloc_ok (dm_mem s)).1 && (st' =? FT_OK).

(** C36: what a scan finds.  When every step succeeds, the devices are the
    supported entries of the driver's list in its order, as many as fit, and
    the answer is their number.  Otherwise the devices stay as they were, so
    that after a scan that finds nothing the old ones are still there; the
    answer is 0 when the driver has no device and -1 when something failed. *)
Theorem device_scan_correct (s : dmstate W) (st n st' : Z) (nodes : list FT_DEVICE_LIST_INFO_NODE) (w1 w2 : W) :
  wf_manager (dm_mgr s) ->
  FT_CreateDeviceInfoList (dm_w s) = ((st, n), w1) -> FT_GetDeviceInfoList n w1 = ((st', nodes), w2) ->
  zlen nodes <= n < 2 ^ 32 ->
  exists r s', device_manager_scan s = Done (r, s') /\ wf_manager (dm_mgr s') /\
    if listed s st n st'
    then known (dm_mgr s') = take 32 (found_devices nodes) /\
         r = Z.min 32 (zlen (filter (fun node => supported node = true) nodes))
    else dm_mgr s' = dm_mgr s /\ r = if mgr_initialized (dm_mgr s) && (st =? FT_OK) && (n =? 0) then 0 else -1.
Proof.
  intros Hm E1 E2 Hn. unfold device_manager_scan, listed, gets. erewrite bind_done; [|reflexivity].
  destruct (mgr_initialized (dm_mgr s)); cbn [negb andb]; [|by exists (-1), s].
  assert (F1 : dm_ft FT_CreateDeviceInfoList s = Done ((st, n), s <| dm_w := w1 |>)) by (unfold dm_ft; by rewrite E1).
  rewrite (bind_done _ _ _ _ _ F1). destruct (st =? FT_OK); cbn [negb andb]; [|by eexists _, _].
  destruct (n =? 0); cbn [negb andb]; [by eexists _, _|].
  unfold dm_calloc. destruct (alloc_ok (dm_mem s)) as [ok m] eqn:Ea. cbn [fst].
  set (s1 := s <| dm_w := w1 |> <| dm_mem := m |>).
  erewrite (bind_done _ _ _ ok s1); [|by cbn; rewrite Ea]. destruct ok; cbn [negb andb]; [|by eexists _, _].
  set (s2 := s1 <| dm_w := w2 |>).
  assert (F2 : dm_ft (FT_GetDeviceInfoList n) s1 = Done ((st', nodes), s2)) by (unfold dm_ft; cbn [dm_w setter s1]; by rewrite E2).
  rewrite (bind_done _ _ _ _ _ F2). rewrite (proj2 (Z.ltb_ge _ _)) by lia.
  destruct (st' =? FT_OK); cbn [negb andb]; [|by eexists _, _].
  erewrite bind_done; [|reflexivity]. eexists _, _. split; [reflexivity|].
  set (m0 := (dm_mgr s) <| device_count := 0 |>). change (dm_mgr s2) with (dm_mgr s). fold m0. cbn [dm_mgr setter].
  destruct (scan_nodes_ok 0 nodes m0) as (H1 & H2 & H3 & H4); [apply Hm|by subst m0; cbn|].
  assert (Hk : known (scan_nodes 0 nodes m0) = take 32 (found_devices nodes)) by (rewrite H4; by subst m0).
  assert (Hw : wf_manager (scan_nodes 0 nodes m0)).
  { split; [done|done|]. rewrite Hk. apply Forall_take, found_from_wf; lia. }
  split; [exact Hw|]. split; [exact Hk|]. pose proof (length_known _ Hw) as Hlen. rewrite Hk, length_take in Hlen.
  unfold zlen. rewrite <- (found_length 0). unfold found_devices in Hlen. lia.
Qed.
End Scan.

Lemma device_scan_correct_witness :
  exists r s', device_manager_scan (mk_dmstate (zero_manager <| mgr_initialized := true |>)
      (mk_mem ∅ 1 [] (fun _ _ => 0)) (mk_world (mk_engine [] 0 (mk_target Jtag.TEST_LOGIC_RESET false) false (true, 0)) [] 0 [])) = Done (r, s') /\
    r = 1 /\ map serial (known (dm_mgr s')) = ["210249A"%string].
Proof.
  set (s := mk_dmstate _ _ _).
  destruct (device_scan_correct s FT_OK 1 FT_OK [mk_ft_node 0x04036010 "210249A" "Digilent USB Device"] (dm_w s) (dm_w s))
    as (r & s' & E1 & _ & H1).
  - split; [done|done|constructor].
  - reflexivity.
  - reflexivity.
  - done.
  - change (listed s FT_OK 1 FT_OK) with true in H1. destruct H1 as [Hk Hr]. exists r, s'. split; [exact E1|].
    split; [exact Hr|]. rewrite Hk. reflexivity.
Defined.

(** ** Users of devices *)

Definition available (m : device_manager_t) (k : nat) : Prop := dev_state <$> known m !! k = Some DEVICE_STATE_AVAILABLE.

Lemma first_from_some f i l k : first_from f i l = Some k <->
  (i <= k)%nat /\ (exists d, l !! (k - i)%nat = Some d /\ f d = true) /\
  forall j d, (i <= j < k)%nat -> l !! (j - i)%nat = Some d -> f d = false.
Proof.
  revert i. induction l as [|x l IH]; intros i; cbn [first_from].
  - split; [done|]. intros (_ & (d & Hd & _) & _). done.
  - destruct (f x) eqn:Ex.
    + split.
      * intros [= ->]. split; [lia|]. rewrite Nat.sub_diag. split; [by exists x|]. intros j d. lia.
      * intros (Hi & (d & Hd & Hf) & Hall). destruct (decide (i = k)) as [->|Hne]; [done|].
        specialize (Hall i x ltac:(lia)). rewrite Nat.sub_diag in Hall. rewrite Hall in Ex; done.
    + rewrite IH. split.
      * intros (Hi & (d & Hd & Hf) & Hall). split; [lia|]. split.
        { exists d. replace (k - i)%nat with (S (k - S i)) by lia. done. }
        intros j d' Hj. destruct (decide (j = i)) as [->|Hne]; [rewrite Nat.sub_diag; by intros [= <-]|].
        replace (j - i)%nat with (S (j - S i)) by lia. apply Hall. lia.
      * intros (Hi & (d & Hd & Hf) & Hall). destruct (decide (k = i)) as [->|Hne].
        { rewrite Nat.sub_diag in Hd. injection Hd as <-. congruence. }
        split; [lia|]. split.
        { exists d. replace (k - i)%nat with (S (k - S i)) in Hd by lia. done. }
        intros j d' Hj Hl. apply (Hall j d' ltac:(lia)). by replace (j - i)%nat with (S (j - S i)) by lia.
Qed.

Lemma first_from_none f i l : first_from f i l = None <-> forall d, d ∈ l -> f d = false.
Proof.
  revert i. induction l as [|x l IH]; intros i; cbn [first_from].
  - split; [intros _ d Hd%elem_of_nil; done|done].
  - destruct (f x) eqn:Ex.
    + split; [done|]. intros Hall. rewrite Hall in Ex; [done|by left].
    + rewrite IH. split; [intros Hall d [->|Hd]%elem_of_cons; auto|]. intros Hall d Hd. apply Hall. by right.
Qed.

Lemma find_available_some m k : device_manager_find_available m = Some k <->
  available m k /\ forall j, (j < k)%nat -> ~ available m j.
Proof.
  unfold device_manager_find_available, available. rewrite first_from_some. rewrite Nat.sub_0_r. split.
  - intros (_ & (d & Hd & Ha%bool_decide_eq_true) & Hall). rewrite Hd. cbn. split; [by rewrite Ha|].
    intros j Hj. destruct (known m !! j) as [dj|] eqn:Ej; [|done]. cbn. intros [= Hdj].
    specialize (Hall j dj ltac:(lia)). rewrite Nat.sub_0_r in Hall. specialize (Hall Ej).
    by apply bool_decide_eq_false in Hall.
  - intros [Ha Hall]. split; [lia|]. destruct (known m !! k) as [d|]; [|done]. injection Ha as Ha. split.
    + exists d. split; [done|]. by apply bool_decide_eq_true.
    + intros j dj Hj. rewrite Nat.sub_0_r. intros Ej. apply bool_decide_eq_false. intros Hd.
      apply (Hall j ltac:(lia)). rewrite Ej. cbn. by rewrite Hd.
Qed.

(** The device [k] gets other contents. *)
Definition with_device (m : device_manager_t) (k : nat) (d : hs2_device_t) : device_manager_t :=
  m <| devices := <[k := d]> (devices m) |>.

Lemma known_with m k d : wf_manager m -> known (with_device m k d) = <[k := d]> (known m).
Proof.
  intros Hm. unfold known, with_device. cbn [devices device_count setter].
  destruct (decide (k < Z.to_nat (device_count m))%nat) as [Hk|Hk].
  - by rewrite take_insert_lt by done.
  - rewrite take_insert_ge by lia. rewrite list_insert_ge; [done|]. rewrite length_take. lia.
Qed.

Lemma with_device_wf m k d : wf_manager m -> (is_Some (known m !! k) -> wf_device d) -> wf_manager (with_device m k d).
Proof.
  intros Hm Hd. pose proof Hm as [Hl Hc Hf]. split; [cbn; unfold zlen; by rewrite length_insert|done|].
  rewrite known_with by done. destruct (known m !! k) as [x|] eqn:Ek.
  - apply Forall_insert; [done|]. by apply Hd.
  - rewrite list_insert_ge; [done|]. by apply lookup_ge_None.
Qed.

(** What the users of a manager do: [Assign k a], [Release k]. *)
Inductive use := Assign (k : nat) (a : Z) | Release (k : nat).

Definition use_step (m : device_manager_t) (u : use) : exec device_manager_t :=
  match u with
  | Assign k a => '(_, m) ← device_manager_assign m (Some k) a; mret m
  | Release k => device_manager_release m (Some k)
  end.

Fixpoint uses (m : device_manager_t) (us : list use) : exec device_manager_t :=
  match us with
  | [] => Done m
  | u :: us => m ← use_step m u; uses m us
  end.

(** The device [k] has a user. *)
Definition taken (m : device_manager_t) (k : nat) : Prop :=
  (k < Z.to_nat (device_count m))%nat /\ exists d, devices m !! k = Some d /\ dev_state d = DEVICE_STATE_IN_USE.

Lemma taken_closed m k : taken m k ->
  ~ available m k /\ (forall b, device_manager_assign m (Some k) b = Done (-1, m)) /\
  device_manager_find_available m <> Some k.
Proof.
  intros (Hk & d & Hd & Hs). assert (Hna : ~ available m k).
  { unfold available, known. rewrite lookup_take_lt, Hd by done. cbn. by rewrite Hs. }
  split; [done|]. split; [|by intros [? _]%find_available_some].
  intros b. unfold device_manager_assign. rewrite Hd. cbn. by rewrite bool_decide_eq_false_2 by (by rewrite Hs).
Qed.

(** Only a release of [k] ends that. *)
Lemma taken_step m u m' k : taken m k -> u <> Release k -> use_step m u = Done m' -> taken m' k.
Proof.
  intros Ht Hu E1. pose proof Ht as (Hk & d & Hd & Hs).
  assert (Hother : forall j d', j <> k -> taken (with_device m j d') k).
  { intros j d' Hj. split; [done|]. exists d. split; [|done]. cbn. by rewrite list_lookup_insert_ne. }
  destruct u as [j a|j]; cbn [use_step] in E1.
  - destruct (decide (j = k)) as [->|Hj].
    + destruct (taken_closed m k Ht) as (_ & Ha & _). rewrite Ha in E1. by injection E1 as <-.
    + unfold device_manager_assign in E1. destruct (devices m !! j) as [x|]; [|done]. cbn [of_option mbind exec_bind] in E1.
      destruct (negb _); injection E1 as <-; [done|by apply Hother].
  - unfold device_manager_release in E1. destruct (devices m !! j) as [x|]; [|done]. injection E1 as <-.
    apply Hother. congruence.
Qed.

Lemma taken_uses us m m' k : taken m k -> Release k ∉ us -> uses m us = Done m' -> taken m' k.
Proof.
  revert m. induction us as [|u us IH]; intros m Ht Hn E1; cbn [uses] in E1; [by injection E1 as <-|].
  apply not_elem_of_cons in Hn as [Hu Hn]. destruct (use_step m u) as [m1| |] eqn:E2; [|done..].
  apply (IH m1); [|done|done]. apply (taken_step m u); [done|congruence|done].
Qed.

(** A search that does not look at what has changed. *)
Lemma first_from_insert f i l k d d' : l !! k = Some d -> f d' = f d -> first_from f i (<[k := d']> l) = first_from f i l.
Proof.
  revert i k. induction l as [|x l IH]; intros i [|k] Hd Hf; cbn in *; [done..| |].
  - injection Hd as ->. by rewrite Hf.
  - destruct (f x); [done|]. by apply IH.
Qed.

(** C37: one user at a time.  Assigning a known device succeeds exactly when it
    is available.  However the devices are then assigned and released, as long
    as this one is not released it cannot be assigned to anyone and is not what
    the search for an available device finds; the searches by serial number and
    by location do not look at users and go on finding it.  The other devices
    are as before, and the release restores the manager of before.  The search
    finds the first available device, like the search for an "auto"
    identifier, and both operations keep the manager well-formed. *)
Theorem device_exclusive (m : device_manager_t) (k : nat) (a : Z) :
  wf_manager m -> (k < length (known m))%nat ->
  exists r m', device_manager_assign m (Some k) a = Done (r, m') /\ wf_manager m' /\
    (r = 0 \/ r = -1) /\ (r = 0 <-> available m k) /\ (r = -1 -> m' = m) /\
    (forall j, device_manager_find_available m = Some j <-> available m j /\ forall i, (i < j)%nat -> ~ available m i) /\
    (device_manager_find m (Some (mk_device_id DEVICE_ID_AUTO "")) = device_manager_find_available m) /\
    (r = 0 ->
       ~ available m' k /\ assigned_instance <$> known m' !! k = Some a /\
       (forall us m2, Release k ∉ us -> uses m' us = Done m2 ->
          ~ available m2 k /\ (forall b, device_manager_assign m2 (Some k) b = Done (-1, m2)) /\
          device_manager_find_available m2 <> Some k) /\
       (forall id, id_type id <> DEVICE_ID_AUTO -> device_manager_find m' (Some id) = device_manager_find m (Some id)) /\
       (forall j, j <> k -> known m' !! j = known m !! j) /\
       device_manager_release m' (Some k) = Done m).
Proof.
  intros Hm Hk. rewrite (length_known m Hm) in Hk.
  destruct (lookup_lt_is_Some_2 (known m) k) as [d Hd]; [by rewrite length_known|].
  pose proof Hd as Hd'. rewrite known_lookup in Hd' by done.
  assert (Hw : wf_device d) by (pose proof (wfm_device _ Hm) as Hf; by apply (Forall_lookup_1 _ _ _ _ Hf Hd)).
  unfold device_manager_assign. rewrite Hd'. cbn [of_option mbind exec_bind].
  assert (Hav : available m k <-> dev_state d = DEVICE_STATE_AVAILABLE).
  { unfold available. rewrite Hd. cbn. split; [by intros [= ->]|by intros ->]. }
  destruct (bool_decide (dev_state d = DEVICE_STATE_AVAILABLE)) eqn:Eb; cbn [negb].
  2: { apply bool_decide_eq_false in Eb. exists (-1), m. split; [done|]. split; [done|]. split; [by right|].
       split; [split; [done|by intros ?%Hav]|]. split; [done|]. split; [apply find_available_some|]. done. }
  apply bool_decide_eq_true in Eb.
  set (d' := d <| dev_state := DEVICE_STATE_IN_USE |> <| assigned_instance := a |>). fold (with_device m k d').
  assert (Hw' : wf_device d') by (destruct Hw; split; try done; by right).
  assert (Hkn : known (with_device m k d') !! k = Some d').
  { rewrite known_with by done. apply list_lookup_insert_eq. by apply lookup_lt_is_Some_1; rewrite Hd. }
  assert (Hde : devices (with_device m k d') !! k = Some d').
  { cbn. apply list_lookup_insert_eq. by apply lookup_lt_is_Some_1; rewrite Hd'. }
  exists 0, (with_device m k d'). split; [done|]. split; [by apply with_device_wf|]. split; [by left|].
  split; [by split; [intros _; apply Hav|]|]. split; [done|]. split; [apply find_available_some|]. split; [done|]. intros _.
  assert (Ht : taken (with_device m k d') k) by (split; [done|by exists d']).
  split; [by apply taken_closed|]. split; [by rewrite Hkn|].
  split. { intros us m2 Hn Eu. by apply taken_closed, (taken_uses us (with_device m k d')). }
  split. { intros id Hid. unfold device_manager_find. rewrite known_with by done. apply (first_from_insert _ _ _ _ d); [done|].
           unfold matches_id. by destruct (id_type id). }
  split. { intros j Hj. rewrite known_with by done. by apply list_lookup_insert_ne. }
  unfold device_manager_release. rewrite Hde. cbn [of_option mbind exec_bind]. f_equal.
  unfold with_device, d'. cbn [devices setter]. rewrite list_insert_insert_eq.
  destruct (wfd_state _ Hw) as [[H1 H2]|H1]; [|congruence].
  rewrite list_insert_id; [by destruct m|]. rewrite Hd'. f_equal. destruct d. cbn in H1, H2 |- *. by rewrite H1, H2.
Qed.

(** One device. *)
Definition example_device : hs2_device_t := found_device 0 (mk_ft_node 0x04036010 "210249A" "Digilent USB Device").
Definition example_manager : device_manager_t := scan_nodes 0 [mk_ft_node 0x04036010 "210249A" "Digilent USB Device"]
  (zero_manager <| mgr_initialized := true |>).

Lemma example_manager_wf : wf_manager example_manager.
Proof. split; [done|done|]. constructor; [by apply found_device_wf|constructor]. Qed.

Lemma device_exclusive_witness :
  exists m' m2, device_manager_assign example_manager (Some 0%nat) 3 = Done (0, m') /\
    uses m' [Assign 0 4; Assign 0 5] = Done m2 /\ device_manager_find_available m2 <> Some 0%nat /\
    device_manager_find m' (Some (mk_device_id DEVICE_ID_SERIAL "210249A")) = Some 0%nat /\
    device_manager_release m' (Some 0%nat) = Done example_manager.
Proof.
  destruct (device_exclusive example_manager 0 3 example_manager_wf) as (r & m' & E1 & _ & _ & H1 & _ & _ & _ & H2); [by vm_compute; lia|].
  assert (Hr : r = 0) by (by apply H1). subst r. destruct (H2 eq_refl) as (_ & _ & Hb & Hf & _ & Hr).
  assert (Eu : uses m' [Assign 0 4; Assign 0 5] = Done m').
  { pose proof E1 as Em. vm_compute in Em. injection Em as <-. vm_compute. reflexivity. }
  exists m', m'. split; [exact E1|]. split; [exact Eu|]. split.
  { apply (Hb [Assign 0 4; Assign 0 5] m'); [|exact Eu]. intros [?|[?|?%elem_of_nil]%elem_of_cons]%elem_of_cons; done. }
  split; [rewrite Hf by done; vm_compute; reflexivity|exact Hr].
Defined.

(** ** The generated configuration *)

Lemma generate_ok base i devs c :
  0 <= i -> INT_MIN <= base -> base + Z.min (i + zlen devs) 32 - 1 <= INT_MAX ->
  zlen (instances c) = MAX_INSTANCES ->
  exists c', generate_instances base i devs c = Done c' /\
    instance_mgmt_enabled c' = instance_mgmt_enabled c /\ Config.base_port c' = Config.base_port c /\
    max_instances c' = max_instances c /\ log_file c' = log_file c /\ log_level c' = log_level c /\ daemonize c' = daemonize c /\
    instance_count c' = instance_count c + Z.max 0 (Z.min (i + zlen devs) 32 - i) /\
    zlen (instances c') = MAX_INSTANCES /\
    forall j, instances c' !! j =
      match devs !! (j - Z.to_nat i)%nat with
      | Some dev => if decide (Z.to_nat i <= j)%nat
                    then generated_instance (Z.of_nat j) (base + Z.of_nat j) dev <$> instances c !! j
                    else instances c !! j
      | None => instances c !! j
      end.
Proof.
  revert i c. induction devs as [|dev devs IH]; intros i c Hi Hb0 Hb Hl; cbn [generate_instances].
  - exists c. split; [done|]. repeat (split; [done|]). split; [change (zlen (@nil hs2_device_t)) with 0; lia|]. split; [done|].
    intros j. by rewrite lookup_nil.
  - rewrite zlen_cons in *. pose proof (zlen_nonneg devs). change MAX_INSTANCES with 32 in *.
    destruct (Z.ltb_spec i 32) as [Hlt|Hge].
    2: { exists c. split; [done|]. repeat (split; [done|]). split; [lia|]. split; [done|]. intros j.
         destruct ((dev :: devs) !! (j - Z.to_nat i)%nat); [|done]. destruct (decide _); [|done].
         rewrite (lookup_ge_None_2 (instances c)); [done|]. unfold zlen in Hl. lia. }
    rewrite int_arith_ok by lia. cbn [mbind exec_bind].
    set (c1 := c <| instances := _ |> <| instance_count := _ |>).
    destruct (IH (i + 1) c1) as (c' & E1 & F1 & F2 & F3 & F4 & F5 & F6 & F7 & F8 & F9).
    { lia. } { done. } { lia. } { unfold c1. cbn. unfold zlen. by rewrite length_alter. }
    exists c'. split; [exact E1|]. repeat (split; [done|]). split; [rewrite F7; unfold c1; cbn [instance_count setter]; lia|]. split; [done|].
    intros j. rewrite F9. unfold c1. cbn [instances setter].
    destruct (decide (j = Z.to_nat i)) as [->|Hne].
    + transitivity (alter (generated_instance i (base + i) dev) (Z.to_nat i) (instances c) !! Z.to_nat i).
      { destruct (devs !! _); [by rewrite decide_False by lia|done]. }
      rewrite Nat.sub_diag, list_lookup_alter_eq, Z2Nat.id by lia. cbn [lookup list_lookup]. by rewrite decide_True by lia.
    + rewrite list_lookup_alter_ne by done. destruct (decide (Z.to_nat i <= j)%nat) as [Hj|Hj].
      * replace (j - Z.to_nat i)%nat with (S (j - Z.to_nat (i + 1))) by lia. cbn [lookup list_lookup].
        destruct (devs !! (j - Z.to_nat (i + 1))%nat); [|done]. by rewrite decide_True by lia.
      * transitivity (instances c !! j); [destruct (devs !! _); [by rewrite decide_False by lia|done]|].
        by destruct ((dev :: devs) !! _).
Qed.

(** The instance that stands for a device. *)
Definition instance_for (base : Z) (j : nat) (dev : hs2_device_t) : xvc_instance_config_t :=
  generated_instance (Z.of_nat j) (base + Z.of_nat j) dev (default_instance j).

Lemma serial_known dev : strlen (serial dev) < MAX_SERIAL_LEN -> truncated MAX_SERIAL_LEN (serial dev) = serial dev.
Proof. apply truncated_id. Qed.

Lemma bus_known dev : wf_device dev -> strlen (bus_location dev) < 16.
Proof.
  intros Hd. destruct (wfd_bus _ Hd) as (i & Hi & ->). rewrite strlen_app. change (strlen "FTDI-") with 5.
  pose proof (dec_digits_ten 20 9 i) as Ht. change (10 ^ (Z.of_nat 9 + 1)) with 10000000000 in Ht. unfold fmt_u, strlen. lia.
Qed.

Lemma device_id_value dev : wf_device dev ->
  id_value (device_id_of dev) = if String.eqb (serial dev) "" then bus_location dev else serial dev.
Proof.
  intros Hd. unfold device_id_of. destruct (String.eqb (serial dev) ""); cbn [negb id_value]; apply truncated_id.
  - pose proof (bus_known _ Hd). unfold MAX_SERIAL_LEN. lia.
  - apply Hd.
Qed.

Lemma device_id_finds dev : wf_device dev -> matches_id (device_id_of dev) dev = true.
Proof.
  intros Hd. pose proof (device_id_value _ Hd) as Hv. unfold matches_id. rewrite Hv. unfold device_id_of.
  destruct (String.eqb (serial dev) ""); cbn [negb id_type]; apply String.eqb_refl.
Qed.

Lemma instance_for_wf base j dev : wf_device dev -> (j < 32)%nat -> INT_MIN <= base + Z.of_nat j <= INT_MAX ->
  wf_instance j (instance_for base j dev).
Proof.
  intros Hd Hj Hp. destruct (default_instance_wf j Hj).
  split; cbn [instance_for generated_instance setter Config.instance_id port device_id alias inst_frequency latency_timer
    xvc_buffer_size whitelist client_lock_timeout pid default_instance]; try done.
  - split; [|unfold device_id_of; destruct (negb _); cbn; by intros [|]].
    rewrite device_id_value by done. destruct (String.eqb (serial dev) ""); [|apply Hd].
    pose proof (bus_known _ Hd). unfold MAX_SERIAL_LEN. lia.
  - unfold alias_of. match goal with |- strlen (truncated _ ?t) < _ => pose proof (strlen_truncated MAX_ALIAS_LEN t ltac:(done)) end. lia.
Qed.

Lemma generated_ok m base : wf_manager m -> INT_MIN <= base -> base + device_count m - 1 <= INT_MAX -> base <= INT_MAX ->
  exists c, device_manager_generate_config m base = Done (0, c) /\ wf_config c /\
    instance_mgmt_enabled c = true /\ Config.base_port c = base /\ max_instances c = 32 /\
    log_file c = log_file config_init /\ log_level c = log_level config_init /\ daemonize c = daemonize config_init /\
    instance_count c = device_count m /\
    forall j, instances c !! j = match known m !! j with Some dev => Some (instance_for base j dev) | None => instances config_init !! j end.
Proof.
  intros Hm Hb0 Hb1 Hb2. pose proof (length_known _ Hm) as Hlen. pose proof (wfm_count _ Hm) as Hc. unfold MAX_DEVICES in Hc.
  assert (Hz : zlen (known m) = device_count m) by (unfold zlen; lia).
  destruct (generate_ok base 0 (known m) (config_init <| Config.base_port := base |>)) as (c & E1 & F1 & F2 & F3 & F4 & F5 & F6 & F7 & F8 & F9).
  { done. } { done. } { lia. } { done. }
  assert (Hi : forall j, instances c !! j = match known m !! j with Some dev => Some (instance_for base j dev) | None => instances config_init !! j end).
  { intros j. rewrite F9. change (Z.to_nat 0) with 0%nat. rewrite Nat.sub_0_r. destruct (known m !! j) as [dev|] eqn:Ek; [|done].
    rewrite decide_True by lia. cbn [instances setter].
    assert (Hj : (j < 32)%nat) by (apply lookup_lt_Some in Ek; lia).
    destruct (instances config_init !! j) as [inst|] eqn:Ei.
    2: { apply lookup_ge_None in Ei. change (32 <= j)%nat in Ei. lia. }
    apply default_instances_lookup in Ei as [-> _]. done. }
  exists c. unfold device_manager_generate_config. rewrite E1. split; [done|].
  assert (Hcount : instance_count c = device_count m).
  { rewrite F7. change (instance_count (config_init <| Config.base_port := base |>)) with 0. lia. }
  split; [|by rewrite F1, F2, F3, F4, F5, F6].
  assert (Hw : Forall wf_device (known m)) by apply Hm.
  split.
  - exact F8.
  - intros j inst. rewrite Hi. destruct (known m !! j) as [dev|] eqn:Ek.
    + intros [= <-]. assert (Hj : (j < length (known m))%nat) by (apply lookup_lt_is_Some_1; by rewrite Ek).
      apply instance_for_wf; [by apply (Forall_lookup_1 _ _ _ _ Hw Ek)|lia..].
    + intros Hd%default_instances_lookup. destruct Hd as [-> Hj]. by apply default_instance_wf.
  - rewrite F2. cbn. lia.
  - rewrite F3. done.
  - rewrite Hcount. done.
  - intros j inst. rewrite Hi, Hcount. destruct (known m !! j) as [dev|] eqn:Ek.
    + intros _ _. apply lookup_lt_Some in Ek. lia.
    + by intros [-> _]%default_instances_lookup.
  - rewrite Hcount. destruct (Z.eq_dec (device_count m) 0) as [|Hne]; [by left|right]. rewrite Hi.
    destruct (lookup_lt_is_Some_2 (known m) (Z.to_nat (device_count m - 1))) as [dev Hdev]; [lia|].
    rewrite Hdev. eexists. split; [reflexivity|]. done.
Qed.

Lemma find_own m j dev : wf_device dev -> known m !! j = Some dev ->
  exists i dev', device_manager_find m (Some (device_id_of dev)) = Some i /\ (i <= j)%nat /\
    known m !! i = Some dev' /\ matches_id (device_id_of dev) dev' = true.
Proof.
  intros Hd Ek. pose proof (device_id_finds _ Hd) as Hmt. unfold device_manager_find.
  destruct (first_from (matches_id (device_id_of dev)) 0 (known m)) as [i|] eqn:Ef.
  - apply first_from_some in Ef as (_ & (dev' & Ei & Hi) & Hall). rewrite Nat.sub_0_r in Ei. exists i, dev'.
    split; [done|]. split; [|done]. destruct (decide (i <= j)%nat) as [|Hlt]; [done|]. exfalso.
    specialize (Hall j dev ltac:(lia)). rewrite Nat.sub_0_r in Hall. rewrite (Hall Ek) in Hmt. done.
  - rewrite first_from_none in Ef. rewrite Ef in Hmt; [done|]. by eapply list_elem_of_lookup_2.
Qed.

Lemma apart_no_match dev dev' : wf_device dev -> matches_id (device_id_of dev) dev' = true ->
  serial dev' <> serial dev -> bus_location dev' <> bus_location dev -> False.
Proof.
  intros Hd. pose proof (device_id_value _ Hd) as Hv. unfold matches_id. rewrite Hv. unfold device_id_of.
  destruct (String.eqb (serial dev) ""); cbn [negb id_type]; by intros ?%String.eqb_eq.
Qed.

Lemma generate_overflow_from base i devs c :
  0 <= i -> i + zlen devs <= 32 -> base <= INT_MAX -> INT_MIN <= base -> 1 <= zlen devs ->
  INT_MAX < base + i + zlen devs - 1 -> generate_instances base i devs c = Undef.
Proof.
  revert i c. induction devs as [|dev devs IH]; intros i c Hi Hn Hb Hb0 Hd Hover; [by rewrite zlen_nil in Hd|].
  rewrite zlen_cons in *. cbn [generate_instances]. change MAX_INSTANCES with 32.
  pose proof (zlen_nonneg devs). rewrite (proj2 (Z.ltb_lt i 32)) by lia.
  destruct (decide (base + i <= INT_MAX)) as [Hok|Hno].
  - rewrite int_arith_ok by lia. cbn [mbind exec_bind]. apply IH; lia.
  - unfold int_arith, int_ok. by rewrite (proj2 (Z.leb_gt (base + i) INT_MAX)), andb_false_r by lia.
Qed.

Lemma generate_overflow m base : wf_manager m -> INT_MIN <= base <= INT_MAX -> INT_MAX < base + device_count m - 1 ->
  device_manager_generate_config m base = Undef.
Proof.
  intros Hm Hb Hover. unfold device_manager_generate_config. pose proof (length_known _ Hm). pose proof (wfm_count _ Hm) as Hc.
  unfold MAX_DEVICES in Hc. assert (Hz : zlen (known m) = device_count m) by (unfold zlen; lia).
  rewrite generate_overflow_from; [done|lia..].
Qed.

(** C38: the generated configuration.  From a well-formed manager and a base
    port that leaves room it is within the limits of the configuration, enables
    one instance per device, in order, on consecutive ports, and leaves the
    other instances at their defaults; looking up the identifier of an
    instance finds a device with that identifier, and the instance's own
    device when no earlier one shares its serial number or its place.  A port that does not fit an int is
    the one case of undefined behaviour. *)
Theorem generated_config (m : device_manager_t) (base : Z) :
  wf_manager m -> INT_MIN <= base <= INT_MAX ->
  if decide (base + device_count m - 1 <= INT_MAX)
  then exists c, device_manager_generate_config m base = Done (0, c) /\ wf_config c /\
    Config.base_port c = base /\ instance_count c = device_count m /\
    (forall j inst, instances c !! j = Some inst ->
       (enabled inst = true <-> Z.of_nat j < device_count m) /\
       (enabled inst = false -> inst = default_instance j)) /\
    (forall j dev, known m !! j = Some dev -> exists inst, instances c !! j = Some inst /\
       Config.instance_id inst = Z.of_nat j + 1 /\ port inst = base + Z.of_nat j /\
       inst_frequency inst = DEFAULT_FREQUENCY /\
       (exists i dev', device_manager_find m (Some (device_id inst)) = Some i /\ (i <= j)%nat /\
          known m !! i = Some dev' /\ matches_id (device_id inst) dev' = true) /\
       ((forall i d, (i < j)%nat -> known m !! i = Some d -> serial d <> serial dev /\ bus_location d <> bus_location dev) ->
        device_manager_find m (Some (device_id inst)) = Some j))
  else device_manager_generate_config m base = Undef.
Proof.
  intros Hm Hb. pose proof (length_known _ Hm) as Hlen. pose proof (wfm_count _ Hm) as Hc.
  destruct (decide (base + device_count m - 1 <= INT_MAX)) as [Hroom|Hover].
  2: { apply (generate_overflow m base Hm Hb). lia. }
  destruct (generated_ok m base Hm ltac:(lia) Hroom ltac:(lia)) as (c & E1 & Hw & _ & Hbase & _ & _ & _ & _ & Hcount & Hi).
  exists c. split; [exact E1|]. split; [exact Hw|]. split; [exact Hbase|]. split; [exact Hcount|]. split.
  - intros j inst. rewrite Hi. destruct (known m !! j) as [dev|] eqn:Ek.
    + intros [= <-]. apply lookup_lt_Some in Ek. split; [split; [lia|done]|done].
    + intros [-> _]%default_instances_lookup. apply lookup_ge_None in Ek. split; [split; [done|lia]|done].
  - intros j dev Ek. exists (instance_for base j dev). rewrite Hi, Ek. split; [done|]. repeat (split; [done|]).
    change (device_id (instance_for base j dev)) with (device_id_of dev).
    assert (Hd : wf_device dev) by (pose proof (wfm_device _ Hm) as Hf; by apply (Forall_lookup_1 _ _ _ _ Hf Ek)).
    destruct (find_own m j dev Hd Ek) as (i & dev' & Ef & Hij & Ei & Hmt).
    split; [by exists i, dev'|]. intros Hapart. rewrite Ef. f_equal. destruct (decide (i = j)) as [|Hne]; [done|].
    destruct (Hapart i dev' ltac:(lia) Ei). exfalso. by eapply apart_no_match.
Qed.

Lemma generated_config_witness :
  exists c, device_manager_generate_config example_manager 2542 = Done (0, c) /\
    exists inst, instances c !! 0%nat = Some inst /\ device_manager_find example_manager (Some (device_id inst)) = Some 0%nat.
Proof.
  pose proof (generated_config example_manager 2542 example_manager_wf ltac:(by vm_compute)) as Hg.
  rewrite decide_True in Hg by (by vm_compute). destruct Hg as (c & E1 & _ & _ & _ & _ & Hi).
  exists c. split; [exact E1|]. destruct (Hi 0%nat example_device eq_refl) as (inst & Ei & _ & _ & _ & _ & Hf).
  exists inst. split; [exact Ei|]. apply Hf. intros i d Hlt. lia.
Defined.
