(* ===== verification/Discover.v ===== *)
(** discover_main.c: the discovery tool.

    The files of the tool are texts: the outputs answer what they print.  The
    sequence of answers of [getopt_long] is an argument of [discover_main],
    and so is whether the output file can be created. *)

From S2P Require Import Prelude CString Memory D2xx Config DeviceManager Logging.
From stdpp Require Import strings.
Open Scope Z_scope.

Definition VERSION : string := "1.0.0".

Inductive output_format_t := FORMAT_INI | FORMAT_JSON | FORMAT_YAML.

Record discover_opts := mk_opts {
  output_file : string;
  format : output_format_t;
  opt_base_port : Z;
  opt_verbose : Z;
  opt_quiet : bool
}.
#[export] Instance eta_discover_opts : Eta discover_opts := fun o =>
  mk_opts (output_file o) (format o) (opt_base_port o) (opt_verbose o) (opt_quiet o).

Definition default_opts : discover_opts := mk_opts "" FORMAT_INI DEFAULT_BASE_PORT 0 false.

(** ** The outputs *)

Notation DQ := (Ascii.Ascii false true false false false true false false).

Definition quoted (s : string) : string := (String DQ (s +:+ String DQ ""))%string.

(** [opts.base_port + i] is computed in [int]. *)
Definition port_of (base_port : Z) (i : nat) : exec Z := int_arith (base_port + Z.of_nat i).

(** A loop that prints: the texts of the rounds, one after the other. *)
Fixpoint print_each {A} (f : nat -> A -> exec string) (i : nat) (l : list A) : exec string :=
  match l with
  | [] => Done ""%string
  | x :: l => t ← f i x; r ← print_each f (S i) l; Done (t +:+ r)%string
  end.

Definition json_device (base_port : Z) (count : Z) (i : nat) (dev : hs2_device_t) : exec string :=
  p ← port_of base_port i;
  Done (ln "    {" +:+
    ln ("      " +:+ quoted "instance_id" +:+ ": " +:+ fmt_d (Z.of_nat i + 1)%Z +:+ ",") +:+
    ln ("      " +:+ quoted "port" +:+ ": " +:+ fmt_d p +:+ ",") +:+
    ln ("      " +:+ quoted "manufacturer" +:+ ": " +:+ quoted (manufacturer dev) +:+ ",") +:+
    ln ("      " +:+ quoted "product" +:+ ": " +:+ quoted (product dev) +:+ ",") +:+
    ln ("      " +:+ quoted "serial" +:+ ": " +:+ quoted (serial dev) +:+ ",") +:+
    ln ("      " +:+ quoted "bus_location" +:+ ": " +:+ quoted (bus_location dev)) +:+
    ln ("    }" +:+ if (Z.of_nat i <? count - 1)%Z then "," else ""))%string.

Definition output_json (m : device_manager_t) (base_port : Z) : exec (Z * string) :=
  body ← print_each (json_device base_port (device_count m)) 0 (known m);
  Done (0, ln "{" +:+
    ln ("  " +:+ quoted "version" +:+ ": " +:+ quoted VERSION +:+ ",") +:+
    ln ("  " +:+ quoted "base_port" +:+ ": " +:+ fmt_d base_port +:+ ",") +:+
    ln ("  " +:+ quoted "devices" +:+ ": [") +:+
    body +:+ ln "  ]" +:+ ln "}")%string.

Definition yaml_device (base_port : Z) (count : Z) (i : nat) (dev : hs2_device_t) : exec string :=
  p ← port_of base_port i;
  Done (ln ("  - instance_id: " +:+ fmt_d (Z.of_nat i + 1)%Z) +:+
    ln ("    port: " +:+ fmt_d p) +:+
    ln ("    manufacturer: " +:+ quoted (manufacturer dev)) +:+
    ln ("    product: " +:+ quoted (product dev)) +:+
    ln ("    serial: " +:+ quoted (serial dev)) +:+
    ln ("    bus_location: " +:+ quoted (bus_location dev)) +:+
    (if (Z.of_nat i <? count - 1)%Z then ln "" else ""))%string.

Definition output_yaml (m : device_manager_t) (base_port : Z) : exec (Z * string) :=
  body ← print_each (yaml_device base_port (device_count m)) 0 (known m);
  Done (0, ln "# XVC Server Device Configuration" +:+
    ln ("version: " +:+ quoted VERSION) +:+
    ln ("base_port: " +:+ fmt_d base_port) +:+ ln "" +:+
    ln "devices:" +:+ body)%string.

(** ["%-*s"] *)
Fixpoint spaces (n : nat) : string :=
  match n with O => "" | S n => " " +:+ spaces n end%string.

Definition pad (n : nat) (s : string) : string := (s +:+ spaces (n - String.length s))%string.

Definition ini_mapping (m : device_manager_t) (i : nat) (inst : xvc_instance_config_t) : exec string :=
  dev ← of_option (devices m !! i);
  Done (ln (fmt_d (instance_id inst) +:+ " = " +:+ pad 20 (config_format_device_id (device_id inst) 128).2 +:+
            "  # " +:+ product dev +:+ ": " +:+ manufacturer dev))%string.

Definition ini_settings (i : nat) (inst : xvc_instance_config_t) : exec string :=
  Done (ln (fmt_d (Z.of_nat i + 1)%Z +:+ ":frequency = " +:+ fmt_u DEFAULT_FREQUENCY) +:+
        ln (fmt_d (Z.of_nat i + 1)%Z +:+ ":xvc_buffer_size = " +:+ fmt_d 131088))%string.

Definition ini_alias (i : nat) (inst : xvc_instance_config_t) : exec string :=
  Done (ln (fmt_d (Z.of_nat i + 1)%Z +:+ " = " +:+ alias inst))%string.

Definition output_ini (m : device_manager_t) (base_port : Z) : exec (Z * string) :=
  '(_, config) ← device_manager_generate_config m base_port;
  let insts := take (Z.to_nat (instance_count config)) (instances config) in
  mappings ← print_each (ini_mapping m) 0 insts;
  settings ← print_each ini_settings 0 insts;
  aliases ← print_each ini_alias 0 insts;
  Done (0, ln "# XVC Server Configuration" +:+
    ln ("# Generated by xvc-discover " +:+ VERSION) +:+
    ln "# Edit this file to customize settings" +:+ ln "" +:+
    ln "[instance_management]" +:+
    ln "enabled = true" +:+
    ln ("base_port = " +:+ fmt_d base_port) +:+
    ln ("max_instances = " +:+ fmt_d MAX_INSTANCES) +:+ ln "" +:+
    ln "[instance_mappings]" +:+
    ln "# Format: instance_id = device_id" +:+
    ln "# device_id: SN:serial, BUS:bus-dev, CUSTOM:name, or auto" +:+
    mappings +:+ ln "" +:+
    ln "[instance_settings]" +:+
    ln "# Per-instance settings (format: id:setting = value)" +:+
    settings +:+ ln "" +:+
    ln "[instance_aliases]" +:+
    ln "# Human-readable names for instances" +:+
    aliases +:+ ln "")%string.

(** ** The command line *)

(** An answer of [getopt_long], with its argument. *)
Inductive discover_option :=
  | OptOutput (arg : string)
  | OptFormat (arg : string)
  | OptBasePort (arg : string)
  | OptVerbose
  | OptQuiet
  | OptHelp
  | OptVersion
  | OptUnknown.

Definition format_of (arg : string) : output_format_t :=
  if String.eqb arg "json" then FORMAT_JSON
  else if String.eqb arg "yaml" then FORMAT_YAML
  else FORMAT_INI.

(** [inr] ends the program with its status and what it has printed. *)
Definition print_usage (prog : string) : string :=
  ln ("Usage: " +:+ prog +:+ " [OPTIONS]") +:+ ln "" +:+
  ln "Scan for Digilent HS2 devices and generate configuration." +:+ ln "" +:+
  ln "Options:" +:+
  ln "  -o, --output FILE      Output configuration file (default: stdout)" +:+
  ln "  -f, --format FORMAT    Output format: ini, json, yaml (default: ini)" +:+
  ln ("  -b, --base-port PORT   Base port for instance numbering (default: " +:+ fmt_d DEFAULT_BASE_PORT +:+ ")") +:+
  ln "  -v, --verbose          Enable verbose output" +:+
  ln "  -q, --quiet            Suppress normal output" +:+
  ln "  -h, --help             Display this help message" +:+
  ln "  -V, --version          Display version information".

Definition print_version : string :=
  ln ("xvc-discover version " +:+ VERSION) +:+ ln "Digilent HS2 device discovery tool for XVC Server".

Fixpoint discover_options (prog : string) (args : list discover_option) (o : discover_opts)
  : discover_opts + (Z * string) :=
  match args with
  | [] => inl o
  | OptOutput arg :: args => discover_options prog args (o <| output_file := truncated 256 arg |>)
  | OptFormat arg :: args => discover_options prog args (o <| format := format_of arg |>)
  | OptBasePort arg :: args => discover_options prog args (o <| opt_base_port := atoi arg |>)
  | OptVerbose :: args => discover_options prog args (o <| opt_verbose := opt_verbose o + 1 |>)
  | OptQuiet :: args => discover_options prog args (o <| opt_quiet := true |>)
  | OptHelp :: _ => inr (0, print_usage prog)
  | OptVersion :: _ => inr (0, print_version)
  | OptUnknown :: _ => inr (1, print_usage prog)
  end.

Definition discover_log (o : discover_opts) : log_config_t :=
  mk_log_config (if negb (opt_verbose o =? 0) then XVC_LOG_DEBUG else if opt_quiet o then XVC_LOG_ERROR else XVC_LOG_INFO)
    LOG_TARGET_STDERR "" false true (1 <? opt_verbose o) 0.

(** What the program leaves behind: its status, what it printed and the file. *)
Record discovery := mk_discovery {
  status : Z;
  stdout : string;
  stderr : string;
  written : option (string * string)
}.

Definition no_devices : string :=
  ln "No Digilent HS2 devices detected." +:+
  ln "Please check:" +:+
  ln "  - USB connections" +:+
  ln "  - USB permissions (try running with sudo)" +:+
  ln "  - D2XX driver (FTDI proprietary)".

Definition written_note (file : string) : string :=
  ln "" +:+ ln ("Configuration written to: " +:+ file) +:+
  ln "Edit the configuration file to customize settings, then run:" +:+
  ln ("  sudo xvc-server " +:+ file).

Definition output (o : discover_opts) (m : device_manager_t) : exec (Z * string) :=
  match format o with
  | FORMAT_JSON => output_json m (opt_base_port o)
  | FORMAT_YAML => output_yaml m (opt_base_port o)
  | FORMAT_INI => output_ini m (opt_base_port o)
  end.

Section Discover.
Context {W : Type} `{D2XX W}.
#[local] Abbreviation D := (M (dmstate W)).

(** [can_create]: whether the output file can be created; [g]: the log. *)
Definition discover_run (o : discover_opts) (can_create : bool) (g : log_state) : D (discovery * log_state) :=
  ret ← device_manager_init;
  if ret <? 0 then mret (mk_discovery 1 "" (ln "Failed to initialize device manager") None, g)
  else
    count ← device_manager_scan;
    if count <? 0 then
      _ ← device_manager_shutdown;
      mret (mk_discovery 1 "" (ln "Device scan failed") None, g)
    else if count =? 0 then
      _ ← device_manager_shutdown;
      mret (mk_discovery 0 (if opt_quiet o then "" else no_devices) "" None, g)
    else
      m ← gets dm_mgr;
      let to_file := negb (String.eqb (output_file o) "") in
      let list := if negb (opt_quiet o) && negb to_file
                  then device_manager_print m (negb (opt_verbose o =? 0)) else ""%string in
      if to_file && negb can_create then
        _ ← device_manager_shutdown;
        mret (mk_discovery 1 list (ln ("Cannot open output file: " +:+ output_file o)) None, g)
      else
        '(ret, text) ← lift_exec (output o m);
        _ ← device_manager_shutdown;
        mret (if to_file
              then mk_discovery ret (list +:+ if opt_quiet o then "" else written_note (output_file o)) "" (Some (output_file o, text))
              else mk_discovery ret (list +:+ text) "" None, log_shutdown g).

(** The state of the log is at first that of a fresh process. *)
Definition discover_main (prog : string) (args : list discover_option) (mutex_ok can_create : bool)
  : D (discovery * log_state) :=
  match discover_options prog args default_opts with
  | inr (ret, text) => mret (mk_discovery ret text "" None, log_zero)
  | inl o =>
      let '(_, g) := log_init (discover_log o) mutex_ok false log_zero in
      discover_run o can_create g
  end.
End Discover.

Example discover_example :
  let m := scan_nodes 0 [mk_ft_node 0x04036014 "210A" "HS2"] zero_manager in
  output_yaml m 3000 = Done (0, ln "# XVC Server Device Configuration" +:+ ln ("version: " +:+ quoted "1.0.0") +:+
    ln "base_port: 3000" +:+ ln "" +:+ ln "devices:" +:+ ln "  - instance_id: 1" +:+ ln "    port: 3000" +:+
    ln ("    manufacturer: " +:+ quoted "FTDI") +:+ ln ("    product: " +:+ quoted "HS2") +:+
    ln ("    serial: " +:+ quoted "210A") +:+ ln ("    bus_location: " +:+ quoted "FTDI-0"))%string.
Proof. vm_compute. reflexivity. Qed.
