(* ===== verification/DiscoverRefine.v ===== *)
(** The INI output of the discovery tool is read back by the server.

    The text that [output_ini] prints differs from a saved configuration in
    comments only; the lines are compared one by one and the rest is the round
    trip of ConfigRefine.v. *)

From S2P Require Import Prelude CString Config ConfigRefine DeviceManager DeviceRefine Logging Discover.
From S2P Require Import Memory D2xx.
From Stdlib Require Import Ascii.
From stdpp Require Import strings.
Open Scope Z_scope.

(** ** Comments at the end of a line *)

(** Characters that a line of a file can have. *)
Definition text_char (c : ascii) : bool := negb (code c =? 0) && negb (Ascii.eqb c LF).

Lemma c_str_text s : all_chars text_char s = true -> c_str (ln s) = ln s.
Proof.
  unfold ln. induction s as [|c s IH]; [done|]. cbn [all_chars]. intros [H1 H2]%andb_true_iff.
  rewrite app_string_cons. cbn [c_str]. unfold text_char in H1. destruct (code c =? 0); [done|]. by rewrite IH.
Qed.

Lemma line_text c : line_char c = true -> text_char c = true.
Proof. unfold line_char, text_char. rewrite !andb_true_iff. tauto. Qed.

Lemma all_space_spaces n : all_space (spaces n) = true.
Proof. induction n as [|n IH]; [done|]. cbn [spaces]. exact IH. Qed.

Lemma spaces_chars f n : f (Ascii.Ascii false false false false false true false false) = true -> all_chars f (spaces n) = true.
Proof. intros Hf. induction n as [|n IH]; [done|]. cbn [spaces]. rewrite all_chars_app, IH. cbn. by rewrite Hf. Qed.

(** What follows the comment character is trimmed, not lost. *)
Lemma trim_commented s w r : solid s = true ->
  exists r', trim (s +:+ (w +:+ String "#" r))%string = (s +:+ (w +:+ String "#" r'))%string.
Proof.
  intros Hs. unfold trim. rewrite solid_skip by done.
  assert (Hr : exists r', trim_end (String "#" r) = String "#" r').
  { cbn [trim_end all_space isspace]. change (isspace "#") with false. cbn [andb]. by eexists. }
  destruct Hr as [r' Hr]. exists r'. rewrite <- (app_string_assoc s w), <- (app_string_assoc s w _).
  rewrite trim_end_app by (by rewrite Hr). by rewrite Hr.
Qed.

Lemma cut_at_app c a b : all_chars (fun d => negb (Ascii.eqb d c)) a = true -> cut_at c (a +:+ String c b)%string = a.
Proof. intros Ha. unfold cut_at. by rewrite str_chr_app. Qed.

Lemma config_line_commented st s n r : value_ok s = true -> all_chars text_char r = true ->
  config_line st (ln (s +:+ (spaces n +:+ String "#" r))%string) = config_line st (ln s).
Proof.
  destruct st as [section c]. intros Hv Hr. pose proof Hv as [Hs Hc]%andb_true_iff.
  rewrite (config_line_plain (section, c) s Hv). unfold config_line.
  rewrite c_str_text.
  2: { rewrite !all_chars_app. rewrite (all_chars_impl line_char text_char s line_text Hc), spaces_chars by done. cbn [all_chars]. by rewrite Hr. }
  unfold ln. rewrite !app_string_assoc, app_string_cons.
  destruct (trim_commented s (spaces n) (r +:+ String LF "")%string Hs) as [r' ->].
  destruct s as [|ch s']; [done|]. rewrite app_string_cons.
  pose proof Hc as [H1 _]%andb_true_iff. unfold line_char in H1.
  apply andb_true_iff in H1 as [[[_ H1%negb_true_iff]%andb_true_iff H2%negb_true_iff]%andb_true_iff _].
  rewrite H1, H2. cbn [orb]. rewrite <- app_string_cons, <- app_string_assoc.
  rewrite cut_at_app.
  2: { rewrite all_chars_app, spaces_chars by done. rewrite andb_true_r. apply (all_chars_impl line_char); [|exact Hc].
       unfold line_char; intros d; rewrite !andb_true_iff; tauto. }
  rewrite (cut_at_id ";").
  2: { rewrite all_chars_app, spaces_chars by done. rewrite andb_true_r. apply (all_chars_impl line_char); [|exact Hc].
       unfold line_char; intros d; rewrite !andb_true_iff; tauto. }
  rewrite trim_solid by (done || apply all_space_spaces). done.
Qed.

(** ** The lines of the output *)

Lemma print_each_lines {A} (f : nat -> A -> exec string) (g : nat -> A -> list string) k l :
  (forall i x, l !! i = Some x -> f (k + i)%nat x = Done (concat_str (map ln (g (k + i)%nat x)))) ->
  print_each f k l = Done (concat_str (map ln (concat (imap (fun i => g (k + i)%nat) l)))).
Proof.
  revert k. induction l as [|x l IH]; intros k Hf; [done|]. cbn [print_each imap concat].
  pose proof (Hf 0%nat x eq_refl) as H1. rewrite Nat.add_0_r in H1. rewrite H1. cbn [mbind exec_bind].
  rewrite IH. 2: { intros i y Hi. replace (S k + i)%nat with (k + S i)%nat by lia. by apply Hf. }
  cbn [mbind exec_bind]. rewrite map_app, concat_str_app, Nat.add_0_r. f_equal. f_equal. f_equal. f_equal. f_equal.
  apply imap_ext. intros i y _. cbn. by rewrite Nat.add_succ_r.
Qed.

(** The identifier of the server's session: what the tool enables, with the
    buffer size that it writes. *)
Definition tuned_instance (inst : xvc_instance_config_t) : xvc_instance_config_t :=
  if enabled inst then inst <| xvc_buffer_size := 131088 |> else inst.
Definition tuned (c : xvc_global_config_t) : xvc_global_config_t := c <| instances := map tuned_instance (instances c) |>.

(** A device whose texts survive the syntax of the file. *)
Record printable (dev : hs2_device_t) : Prop := {
  pr_id : value_ok (device_id_text (device_id_of dev)) = true;
  pr_alias : value_ok (alias_of dev) = true;
  pr_product : all_chars text_char (product dev) = true
}.

Lemma spaces_more n x : (spaces n +:+ ("  " +:+ x))%string = (spaces (n + 2) +:+ x)%string.
Proof. induction n as [|n IH]; [done|]. cbn [spaces Nat.add]. by rewrite !app_string_assoc, IH. Qed.

Definition comment_of (dev : hs2_device_t) : string := (" " +:+ (product dev +:+ (": " +:+ manufacturer dev)))%string.

Definition commented_mapping (base : Z) (j : nat) (dev : hs2_device_t) : string :=
  ((fmt_d (Z.of_nat j + 1) +:+ (" = " +:+ device_id_text (device_id_of dev))) +:+
   (spaces (20 - String.length (device_id_text (device_id_of dev)) + 2) +:+ String "#" (comment_of dev)))%string.

Lemma device_id_of_wf dev : wf_device dev -> wf_id (device_id_of dev).
Proof.
  intros Hd. split.
  - rewrite device_id_value by done. destruct (String.eqb (serial dev) ""); [|apply Hd].
    pose proof (bus_known _ Hd). unfold MAX_SERIAL_LEN. lia.
  - unfold device_id_of. destruct (negb _); cbn; by intros [|].
Qed.

Lemma ini_mapping_line m base j dev : wf_manager m -> known m !! j = Some dev ->
  ini_mapping m j (instance_for base j dev) = Done (concat_str (map ln [commented_mapping base j dev])).
Proof.
  intros Hm Ek. assert (Hj : (j < Z.to_nat (device_count m))%nat) by (rewrite <- (length_known m Hm); by eapply lookup_lt_Some).
  assert (Hd : wf_device dev) by (pose proof (wfm_device _ Hm) as Hf; by apply (Forall_lookup_1 _ _ _ _ Hf Ek)).
  unfold ini_mapping. rewrite <- known_lookup, Ek by done. cbn [of_option mbind exec_bind].
  change (device_id (instance_for base j dev)) with (device_id_of dev).
  rewrite id_text_fits by (by apply device_id_of_wf). cbn [snd map concat_str]. rewrite app_string_nil.
  change (Config.instance_id (instance_for base j dev)) with (Z.of_nat j + 1). f_equal. f_equal.
  unfold commented_mapping, comment_of, pad. generalize (fmt_d (Z.of_nat j + 1)), (device_id_text (device_id_of dev)). intros k v.
  rewrite !app_string_assoc. f_equal. f_equal. f_equal. rewrite <- spaces_more. reflexivity.
Qed.

Lemma fmt_d_key j : 0 <= j < 32 -> INT_MIN <= j + 1 <= INT_MAX.
Proof. unfold INT_MIN, INT_MAX. lia. Qed.

Lemma commented_mapping_ok st base j dev : printable dev -> wf_device dev -> (j < 32)%nat ->
  config_line st (ln (commented_mapping base j dev)) =
  config_line st (ln (fmt_d (Z.of_nat j + 1) +:+ (" = " +:+ device_id_text (device_id_of dev)))%string).
Proof.
  intros [Hi _ Hp] Hd Hj. apply config_line_commented.
  - apply entry_value_ok; [|done]. apply id_key_ok, fmt_d_key. lia.
  - unfold comment_of. rewrite !all_chars_app, Hp, (wfd_maker _ Hd). done.
Qed.

Lemma commented_mapping_short base j dev : printable dev -> wf_device dev -> (j < 32)%nat ->
  short_line (commented_mapping base j dev) = true.
Proof.
  intros [Hi _ Hp] Hd Hj. apply andb_true_iff in Hi as [_ Hi].
  assert (Hlf : forall s, all_chars text_char s = true -> all_chars (fun c => negb (Ascii.eqb c LF)) s = true).
  { intros s. apply all_chars_impl. intros c. unfold text_char. rewrite andb_true_iff. tauto. }
  pose proof (fmt_d_chars _ (fmt_d_key (Z.of_nat j) ltac:(lia))) as Hk. unfold short_line. apply andb_true_iff. split.
  - apply Hlf. unfold commented_mapping, comment_of. rewrite !all_chars_app.
    rewrite (all_chars_impl line_char text_char _ line_text Hk), (all_chars_impl line_char text_char _ line_text Hi).
    rewrite spaces_chars by done. cbn [all_chars]. rewrite !all_chars_app, Hp, (wfd_maker _ Hd). done.
  - apply Z.ltb_lt. unfold commented_mapping, comment_of. pose proof (id_text_length _ (device_id_of_wf _ Hd)) as L1.
    pose proof (fmt_d_length (Z.of_nat j + 1)) as L2. pose proof (wfd_name _ Hd) as L3.
    assert (L4 : forall n, strlen (spaces n) = Z.of_nat n).
    { induction n as [|n IH]; [done|]. cbn [spaces]. rewrite strlen_app, IH. change (strlen " ") with 1. lia. }
    rewrite !strlen_app, L4. change (strlen " = ") with 3.
    match goal with |- context [strlen (String "#" ?x)] => change (strlen (String "#" x)) with (strlen ("#" +:+ x)%string) end.
    rewrite !strlen_app, (wfd_maker _ Hd). change (strlen "#") with 1. change (strlen " ") with 1. change (strlen ": ") with 2.
    change (strlen "FTDI") with 4. lia.
Qed.

(** ** The generated configuration as a saved one *)

Section Output.
Context (m : device_manager_t) (base : Z) (c : xvc_global_config_t).
Context (Hm : wf_manager m) (Hb : INT_MIN <= base) (Hroom : base + 32 <= INT_MAX).
Context (Hp : Forall printable (known m)).
Context (Hgen : device_manager_generate_config m base = Done (0, c)).

Lemma generated_c : wf_config c /\ instance_mgmt_enabled c = true /\ Config.base_port c = base /\ max_instances c = 32 /\
  log_file c = log_file config_init /\ log_level c = log_level config_init /\ daemonize c = daemonize config_init /\
  instance_count c = device_count m /\
  forall j, instances c !! j = match known m !! j with Some dev => Some (instance_for base j dev) | None => instances config_init !! j end.
Proof.
  pose proof (wfm_count _ Hm) as Hc. unfold MAX_DEVICES in Hc.
  destruct (generated_ok m base Hm Hb ltac:(lia) ltac:(lia)) as (c' & E1 & Hg). rewrite Hgen in E1. injection E1 as <-. exact Hg.
Qed.

Lemma known_small j dev : known m !! j = Some dev -> (j < 32)%nat /\ wf_device dev /\ printable dev.
Proof.
  intros Ek. pose proof (wfm_count _ Hm) as Hc. unfold MAX_DEVICES in Hc. split; [|split].
  - apply lookup_lt_Some in Ek. rewrite length_known in Ek by done. lia.
  - pose proof (wfm_device _ Hm) as Hf. by apply (Forall_lookup_1 _ _ _ _ Hf Ek).
  - by apply (Forall_lookup_1 _ _ _ _ Hp Ek).
Qed.

(** The instances that are written. *)
Lemma written_instances : take (Z.to_nat (instance_count c)) (instances c) = imap (instance_for base) (known m).
Proof.
  destruct generated_c as (_ & _ & _ & _ & _ & _ & _ & Hcount & Hi). apply list_eq. intros j.
  rewrite lookup_take, list_lookup_imap, Hcount, Hi, <- (length_known m Hm). case_decide as Hj.
  - destruct (lookup_lt_is_Some_2 _ _ Hj) as [dev Hdev]. by rewrite Hdev.
  - by rewrite (lookup_ge_None_2 (known m)) by lia.
Qed.

Lemma tuned_written : saved_instances (tuned c) = imap (fun j dev => tuned_instance (instance_for base j dev)) (known m).
Proof.
  unfold saved_instances, tuned. cbn [instances instance_count setter]. rewrite <- fmap_take.
  change (tuned_instance <$> take (Z.to_nat (instance_count c)) (instances c) = imap (fun j dev => tuned_instance (instance_for base j dev)) (known m)).
  by rewrite written_instances, fmap_imap.
Qed.

Lemma tuned_lookup j inst : instances (tuned c) !! j = Some inst ->
  (exists dev, known m !! j = Some dev /\ inst = tuned_instance (instance_for base j dev)) \/
  known m !! j = None /\ (j < 32)%nat /\ inst = default_instance j.
Proof.
  destruct generated_c as (_ & _ & _ & _ & _ & _ & _ & Hcount & Hi). unfold tuned. cbn [instances setter].
  rewrite list_lookup_fmap, Hi. destruct (known m !! j) as [dev|] eqn:Ek.
  - cbn [fmap option_fmap option_map]. intros E1. apply (inj Some) in E1. left. exists dev. exact (conj eq_refl (eq_sym E1)).
  - intros (x & Hx & ->)%fmap_Some_1. apply default_instances_lookup in Hx as [-> Hj]. by right.
Qed.

Lemma tuned_wf j inst : wf_instance j inst -> wf_instance j (tuned_instance inst).
Proof. intros Hw. unfold tuned_instance. destruct (enabled inst); [|done]. destruct Hw. by split. Qed.

Lemma tuned_savable : savable (tuned c).
Proof.
  destruct generated_c as (Hw & He & Hbase & Hmax & _ & _ & _ & Hcount & Hi). pose proof (wfm_count _ Hm) as Hc. unfold MAX_DEVICES in Hc.
  assert (Hk : forall j inst, instances (tuned c) !! j = Some inst -> enabled inst = true ->
    exists dev, known m !! j = Some dev /\ inst = tuned_instance (instance_for base j dev)).
  { intros j inst [Hd|(_ & _ & ->)]%tuned_lookup; [done|discriminate]. }
  split.
  - destruct Hw. split.
    + unfold tuned. cbn [instances setter]. unfold zlen. by rewrite length_map.
    + intros j inst. unfold tuned. cbn [instances setter]. rewrite list_lookup_fmap. intros (x & Hx & ->)%fmap_Some_1.
      apply tuned_wf. by apply wfc_instance.
    + done.
    + done.
    + done.
    + intros j inst Hj Hen. destruct (Hk j inst Hj Hen) as (dev & Hd & _). change (instance_count (tuned c)) with (instance_count c).
      rewrite Hcount. apply lookup_lt_Some in Hd. rewrite length_known in Hd by done. lia.
    + destruct wfc_last as [|(x & Hx & Hen)]; [by left|right]. exists (tuned_instance x). unfold tuned. cbn [instances instance_count setter].
      rewrite list_lookup_fmap, Hx. split; [done|]. unfold tuned_instance. by rewrite Hen.
  - change (Config.base_port (tuned c)) with (Config.base_port c). rewrite Hbase. unfold MAX_INSTANCES. lia.
  - intros j inst Hj Hen. destruct (Hk j inst Hj Hen) as (dev & Hd & ->). apply known_small in Hd as (_ & _ & [Hpi _ _]). exact Hpi.
  - intros j inst Hj Hen. destruct (Hk j inst Hj Hen) as (dev & Hd & ->). apply known_small in Hd as (_ & _ & [_ Hpa _]). by right.
Qed.

Lemma tuned_saved : saved_config (tuned c) = tuned c.
Proof.
  destruct generated_c as (_ & He & Hbase & Hmax & Hf & Hlv & Hda & Hcount & Hi).
  assert (Hins : imap (saved_instance (Config.base_port (tuned c))) (instances (tuned c)) = instances (tuned c)).
  { apply list_eq. intros j. rewrite list_lookup_imap. destruct (instances (tuned c) !! j) as [inst|] eqn:Ej; [|done].
    cbn [fmap option_fmap option_map]. f_equal. change (Config.base_port (tuned c)) with (Config.base_port c). rewrite Hbase.
    apply tuned_lookup in Ej as [(dev & _ & ->)|(_ & _ & ->)]; [|reflexivity].
    change (saved_instance base j (tuned_instance (instance_for base j dev))) with
      (mk_instance (Z.of_nat j + 1) (base + (Z.of_nat j + 1) - 1) (device_id_of dev) (alias_of dev) DEFAULT_FREQUENCY DEFAULT_LATENCY
         false JTAG_MODE_MPSSE 131088 WHITELIST_OFF [] DEFAULT_CLIENT_LOCK_TIMEOUT true 0).
    replace (base + (Z.of_nat j + 1) - 1) with (base + Z.of_nat j) by lia. reflexivity. }
  unfold saved_config. rewrite Hins. unfold tuned. destruct c as [a b d e f g h i]. cbn in He, Hbase, Hmax, Hf, Hlv, Hda, Hcount |- *.
  by rewrite Hf, Hlv, Hda.
Qed.

(** ** The text *)

Definition ini_head : list string :=
  ["# XVC Server Configuration"; "# Generated by xvc-discover 1.0.0"; "# Edit this file to customize settings"; "";
   "[instance_management]"; "enabled" +:+ (" = " +:+ "true"); "base_port" +:+ (" = " +:+ fmt_d base);
   "max_instances" +:+ (" = " +:+ fmt_d 32); ""; "[instance_mappings]"; "# Format: instance_id = device_id";
   "# device_id: SN:serial, BUS:bus-dev, CUSTOM:name, or auto"]%string.

Definition ini_lines : list string :=
  ini_head ++ concat (imap (fun j dev => [commented_mapping base j dev]) (known m)) ++
  [""; "[instance_settings]"; "# Per-instance settings (format: id:setting = value)"]%string ++
  flat_map settings_lines (saved_instances (tuned c)) ++
  [""; "[instance_aliases]"; "# Human-readable names for instances"]%string ++
  flat_map alias_lines (saved_instances (tuned c)) ++ [""%string].

(** A section that is printed instance by instance. *)
Lemma print_instances (f : nat -> xvc_instance_config_t -> exec string) (g : nat -> hs2_device_t -> list string) :
  (forall j dev, known m !! j = Some dev -> f j (instance_for base j dev) = Done (concat_str (map ln (g j dev)))) ->
  print_each f 0 (imap (instance_for base) (known m)) = Done (concat_str (map ln (concat (imap g (known m))))).
Proof.
  intros Hf. rewrite (print_each_lines f (fun j inst => match known m !! j with Some dev => g j dev | None => [] end)).
  - do 4 f_equal. cbn [Nat.add]. apply list_eq. intros j. rewrite !list_lookup_imap.
    destruct (known m !! j) as [dev|] eqn:Ek; [|done]. cbn [fmap option_fmap option_map]. by rewrite ?Ek.
  - intros j inst Hj. cbn [Nat.add]. rewrite list_lookup_imap in Hj. destruct (known m !! j) as [dev|] eqn:Ek; [|done].
    injection Hj as <-. by apply Hf.
Qed.

Lemma flat_map_tuned (f : xvc_instance_config_t -> list string) :
  concat (imap (fun j dev => f (tuned_instance (instance_for base j dev))) (known m)) = flat_map f (saved_instances (tuned c)).
Proof.
  rewrite tuned_written, flat_map_concat_map.
  exact (f_equal (@concat _) (eq_sym (fmap_imap (fun j dev => tuned_instance (instance_for base j dev)) f (known m)))).
Qed.

Lemma settings_print j dev : known m !! j = Some dev ->
  ini_settings j (instance_for base j dev) = Done (concat_str (map ln (settings_lines (tuned_instance (instance_for base j dev))))).
Proof.
  intros _. unfold ini_settings.
  change (settings_lines (tuned_instance (instance_for base j dev))) with
    [((fmt_d (Z.of_nat j + 1) +:+ String ":" "frequency") +:+ (" = " +:+ fmt_u DEFAULT_FREQUENCY))%string;
     ((fmt_d (Z.of_nat j + 1) +:+ String ":" "xvc_buffer_size") +:+ (" = " +:+ fmt_d 131088))%string].
  generalize (fmt_d (Z.of_nat j + 1)), (fmt_u DEFAULT_FREQUENCY), (fmt_d 131088). intros k v w.
  cbn [map concat_str]. rewrite app_string_nil, !app_string_assoc. reflexivity.
Qed.

Lemma alias_print j dev : known m !! j = Some dev ->
  ini_alias j (instance_for base j dev) = Done (concat_str (map ln (alias_lines (tuned_instance (instance_for base j dev))))).
Proof.
  intros _. unfold ini_alias, alias_lines. change (enabled (tuned_instance (instance_for base j dev))) with true.
  change (alias (tuned_instance (instance_for base j dev))) with (alias_of dev).
  change (alias (instance_for base j dev)) with (alias_of dev).
  change (Config.instance_id (tuned_instance (instance_for base j dev))) with (Z.of_nat j + 1).
  generalize (fmt_d (Z.of_nat j + 1)). intros k.
  replace (String.eqb (alias_of dev) "") with false by (unfold alias_of; by destruct (negb _)).
  cbn [negb andb map concat_str]. by rewrite app_string_nil.
Qed.

Lemma output_ini_text : output_ini m base = Done (0, concat_str (map ln ini_lines)).
Proof.
  unfold output_ini. rewrite Hgen. cbn [mbind exec_bind]. rewrite written_instances.
  rewrite (print_instances (ini_mapping m) (fun j dev => [commented_mapping base j dev])) by (intros; by apply ini_mapping_line).
  rewrite (print_instances ini_settings _ settings_print), (print_instances ini_alias _ alias_print), !flat_map_tuned. cbn [mbind exec_bind].
  f_equal. f_equal. unfold ini_lines. rewrite !map_app, !concat_str_app.
  unfold ini_head. change (fmt_d MAX_INSTANCES) with (fmt_d 32).
  generalize (concat_str (map ln (concat (imap (fun j dev => [commented_mapping base j dev]) (known m))))).
  generalize (concat_str (map ln (flat_map settings_lines (saved_instances (tuned c))))).
  generalize (concat_str (map ln (flat_map alias_lines (saved_instances (tuned c))))).
  generalize (fmt_d base), (fmt_d 32). intros b k x y z.
  cbn [map concat_str]. rewrite !app_string_nil, !app_string_assoc. reflexivity.
Qed.

(** ** Reading it back *)

Lemma config_lines_same a b : Forall2 (fun x y => forall st, config_line st x = config_line st y) a b ->
  forall st, config_lines st a = config_lines st b.
Proof.
  induction 1 as [|x y a b Hxy _ IH]; intros st; [done|]. cbn [config_lines]. rewrite Hxy.
  destruct (config_line st y); cbn [mbind exec_bind]; [apply IH|done..].
Qed.

Lemma concat_singles {A} (f : nat -> hs2_device_t -> A) l : concat (imap (fun j dev => [f j dev]) l) = imap f l.
Proof. revert f. induction l as [|d l IH]; intros f; [done|]. cbn. f_equal. apply (IH (fun j => f (S j))). Qed.

Lemma mappings_uncommented st :
  config_lines st (map ln (concat (imap (fun j dev => [commented_mapping base j dev]) (known m)))) =
  config_lines st (map ln (flat_map mapping_lines (saved_instances (tuned c)))).
Proof.
  rewrite <- flat_map_tuned.
  change (fun j dev => mapping_lines (tuned_instance (instance_for base j dev))) with
    (fun (j : nat) dev => [(fmt_d (Z.of_nat j + 1) +:+ (" = " +:+ device_id_text (device_id_of dev)))%string]).
  rewrite !concat_singles. apply config_lines_same. apply Forall2_same_length_lookup_2.
  { by rewrite !length_map, !length_imap. }
  intros j x y. rewrite !list_lookup_fmap, !list_lookup_imap. destruct (known m !! j) as [dev|] eqn:Ek; [|done].
  intros [= <-] [= <-] st0. apply known_small in Ek as (Hj & Hd & Hpr). by apply commented_mapping_ok.
Qed.

Lemma ini_head_ok x :
  config_lines (SECTION_NONE, x) (map ln ini_head) =
    Done (SECTION_INSTANCE_MAPPINGS, x <| instance_mgmt_enabled := instance_mgmt_enabled (tuned c) |>
      <| Config.base_port := Config.base_port (tuned c) |> <| max_instances := max_instances (tuned c) |>).
Proof.
  destruct generated_c as (_ & He & Hbase & Hmax & _).
  change (instance_mgmt_enabled (tuned c)) with (instance_mgmt_enabled c). change (Config.base_port (tuned c)) with (Config.base_port c).
  change (max_instances (tuned c)) with (max_instances c). rewrite He, Hbase, Hmax.
  assert (Hbr : INT_MIN <= base <= INT_MAX) by lia. unfold ini_head. do 4 skip_line. header_line.
  next_line ltac:(apply management_line; by vm_compute).
  next_line ltac:(apply management_line; [by vm_compute|apply number_ok; by apply fmt_d_number]).
  next_line ltac:(apply management_line; by vm_compute).
  skip_line. header_line. do 2 skip_line.
  rewrite (management_enabled true), management_base, (management_max 32) by done. reflexivity.
Qed.

Lemma ini_lines_short : forallb short_line ini_lines = true.
Proof.
  pose proof (text_lines_short _ tuned_savable) as Hs. unfold text_lines in Hs. rewrite !forallb_app in Hs.
  apply andb_true_iff in Hs as [_ [_ [_ [H1 [_ [H2 _]%andb_true_iff]%andb_true_iff]%andb_true_iff]%andb_true_iff]%andb_true_iff].
  unfold ini_lines. rewrite !forallb_app, H1, H2, !andb_true_iff.
  split; [|split; [|repeat (split; [first [by vm_compute|done]|]); by vm_compute]].
  - unfold ini_head. cbn [forallb].
    rewrite (short_entry "base_port" (fmt_d base)); [by vm_compute|by vm_compute|apply fmt_d_chars; lia|by vm_compute|].
    pose proof (fmt_d_length base). lia.
  - rewrite concat_singles. apply forallb_forall. intros x Hx. apply list_elem_of_In, list_elem_of_lookup in Hx as [j Hj].
    rewrite list_lookup_imap in Hj. destruct (known m !! j) as [dev|] eqn:Ek; [|done]. injection Hj as <-.
    apply known_small in Ek as (Hj & Hd & Hpr). by apply commented_mapping_short.
Qed.

Lemma ini_settings_head x : config_lines (SECTION_INSTANCE_MAPPINGS, x)
    (map ln [""; "[instance_settings]"; "# Per-instance settings (format: id:setting = value)"]%string) =
  Done (SECTION_INSTANCE_SETTINGS, x).
Proof. skip_line. header_line. skip_line. reflexivity. Qed.

Lemma ini_alias_head x : config_lines (SECTION_INSTANCE_SETTINGS, x)
    (map ln [""; "[instance_aliases]"; "# Human-readable names for instances"]%string) = Done (SECTION_INSTANCE_ALIASES, x).
Proof. skip_line. header_line. skip_line. reflexivity. Qed.

Lemma ini_loaded_saved old : config_load old (Some (concat_str (map ln ini_lines))) = Done (0, saved_config (tuned c)).
Proof.
  pose proof tuned_savable as Hs. cbn [config_load]. rewrite fgets_lines_text by apply ini_lines_short. unfold ini_lines.
  rewrite (run_lines _ _ _ _ (ini_head_ok config_init)). set (x0 := setter max_instances _ _).
  pose proof (mappings_ok (tuned c) x0 Hs eq_refl) as Hmap. rewrite <- mappings_uncommented in Hmap.
  rewrite (run_lines _ _ _ _ Hmap). set (x1 := setter instance_count _ _).
  rewrite (run_lines _ _ _ _ (ini_settings_head x1)), (run_lines _ _ _ _ (settings_ok (tuned c) x1 Hs)). set (x2 := setter instances _ x1).
  rewrite (run_lines _ _ _ _ (ini_alias_head x2)), (run_lines _ _ _ _ (aliases_ok (tuned c) x2 Hs)), tail_ok.
  cbn [mbind exec_bind]. do 2 f_equal. subst x2 x1 x0. cbn [instances instance_count setter].
  rewrite sections_instances by done. unfold saved_config. rewrite <- (saved_count _ Hs). reflexivity.
Qed.

Lemma ini_loaded old : config_load old (Some (concat_str (map ln ini_lines))) = Done (0, tuned c).
Proof. by rewrite ini_loaded_saved, tuned_saved. Qed.
End Output.

(** C39: the output of the tool configures the server.  For devices whose texts
    survive the syntax of the file, the INI text is printed in full, whatever
    the description of the device says in the comment of its line, and the
    server loads from it the generated configuration, with the larger buffers
    that the text asks for. *)
Theorem ini_roundtrip (m : device_manager_t) (base : Z) (old : xvc_global_config_t) :
  wf_manager m -> INT_MIN <= base -> base + 32 <= INT_MAX -> Forall printable (known m) ->
  exists c text, device_manager_generate_config m base = Done (0, c) /\
    output_ini m base = Done (0, text) /\ config_load old (Some text) = Done (0, tuned c).
Proof.
  intros Hm Hb Hroom Hp. pose proof (wfm_count _ Hm) as Hc. unfold MAX_DEVICES in Hc.
  destruct (generated_ok m base Hm Hb ltac:(lia) ltac:(lia)) as (c & Hgen & _).
  exists c, (concat_str (map ln (ini_lines m base c))). split; [exact Hgen|].
  split; [by apply output_ini_text|by apply ini_loaded].
Qed.

Lemma ini_roundtrip_witness :
  exists c text, output_ini example_manager 2542 = Done (0, text) /\ config_load config_init (Some text) = Done (0, c) /\
    (fun i => (id_value (device_id i), xvc_buffer_size i)) <$> instances c !! 0%nat = Some ("210249A"%string, 131088).
Proof.
  destruct (ini_roundtrip example_manager 2542 config_init example_manager_wf) as (c & text & E1 & E2 & E3).
  - by vm_compute.
  - by vm_compute.
  - repeat constructor; by vm_compute.
  - exists (tuned c), text. split; [exact E2|]. split; [exact E3|].
    vm_compute in E1. injection E1 as <-. vm_compute. reflexivity.
Defined.
