(* ===== verification/Supervisor.v ===== *)
(** main.c, the supervisor: one child process per instance.

    The process calls are a parameter.  The model follows one process: where
    [fork] answers 0, what follows is the child, which runs its instance and
    exits.  A run of the program that ends early, by [exit] or by [return] in
    [main], is [inl] of its status.  The answers of [getopt_long] and the text
    of the configuration file are arguments.  Signals that have arrived are
    handled when [g_running] is looked at. *)

From S2P Require Import Prelude CString Memory D2xx Config Logging DeviceManager.
From S2P Require Import FtdiAdapter XvcProtocol TcpServer Instance.
From stdpp Require Import strings.
Open Scope Z_scope.

(** [waitpid_any] is [waitpid(-1, &status, WNOHANG)], [waitpid] waits for one
    child until it has ended; [waitpid_blocks] says that it never does, and
    that the call does not return. *)
Class Procs (W : Type) := {
  fork : W -> Z * W;
  waitpid_any : W -> Z * W;
  waitpid : Z -> W -> Z * W;
  waitpid_blocks : Z -> W -> bool;
  kill : Z -> signal -> W -> Z * W;
  sleep : Z -> W -> W;
  daemon : W -> Z * W
}.

(** ** State *)

(** The globals of main.c and of logging.c; [sv_i] is what an instance runs
    on, with the flags of the signal handler. *)
Record supervisor (WD WS : Type) := mk_supervisor {
  g_config : xvc_global_config_t;
  g_device_mgr : device_manager_t;
  g_log : log_state;
  sv_i : istate WD WS
}.
Arguments mk_supervisor {WD WS}.
Arguments g_config {WD WS} _.
Arguments g_device_mgr {WD WS} _.
Arguments g_log {WD WS} _.
Arguments sv_i {WD WS} _.
#[export] Instance eta_supervisor {WD WS} : Eta (supervisor WD WS) := fun s =>
  mk_supervisor (g_config s) (g_device_mgr s) (g_log s) (sv_i s).

(** ** The command line *)

Inductive server_option :=
  | OptDaemon
  | OptPort (arg : string)
  | OptVerbose
  | OptHelp
  | OptVersion
  | OptUnknown.

Record server_opts := mk_server_opts { opt_daemonize : bool; opt_verbose : Z; port_override : Z }.
#[export] Instance eta_server_opts : Eta server_opts := fun o =>
  mk_server_opts (opt_daemonize o) (opt_verbose o) (port_override o).

Definition VERSION : string := "1.0.0".

Definition print_usage (prog : string) : string :=
  ln ("Usage: " +:+ prog +:+ " [OPTIONS] <config-file>") +:+ ln "" +:+
  ln "Run XVC server for Digilent HS2 devices." +:+ ln "" +:+
  ln "Options:" +:+
  ln "  -d, --daemon           Run as daemon" +:+
  ln "  -p, --port PORT        Override base port" +:+
  ln "  -v, --verbose          Increase log level (can be used multiple times)" +:+
  ln "                          0 = INFO (default)" +:+
  ln "                          1 = DEBUG (-v)" +:+
  ln "                          2+ = TRACE (-vv, -vvv)" +:+
  ln "  -h, --help             Display this help message" +:+
  ln "  -V, --version          Display version information" +:+
  ln "" +:+ ln "Examples:" +:+
  ln ("  " +:+ prog +:+ " /etc/xvc-server/xvc-server-multi.conf") +:+
  ln ("  " +:+ prog +:+ " -d /etc/xvc-server/xvc-server-multi.conf") +:+
  ln ("  " +:+ prog +:+ " -v /etc/xvc-server/xvc-server-multi.conf") +:+
  ln ("  " +:+ prog +:+ " -vv /etc/xvc-server/xvc-server-multi.conf").

Definition print_version : string :=
  ln ("xvc-server version " +:+ VERSION) +:+ ln "XVC Server for Digilent HS2 JTAG Adapters".

Fixpoint server_options (prog : string) (args : list server_option) (o : server_opts) : server_opts + (Z * string) :=
  match args with
  | [] => inl o
  | OptDaemon :: args => server_options prog args (o <| opt_daemonize := true |>)
  | OptPort arg :: args => server_options prog args (o <| port_override := atoi arg |>)
  | OptVerbose :: args => server_options prog args (o <| opt_verbose := opt_verbose o + 1 |>)
  | OptHelp :: _ => inr (0, print_usage prog)
  | OptVersion :: _ => inr (0, print_version)
  | OptUnknown :: _ => inr (1, print_usage prog)
  end.

Definition server_log (o : server_opts) : log_config_t :=
  mk_log_config (if opt_verbose o =? 0 then XVC_LOG_INFO else if opt_verbose o =? 1 then XVC_LOG_DEBUG else XVC_LOG_TRACE)
    (Z.lor LOG_TARGET_STDERR (if opt_daemonize o then LOG_TARGET_SYSLOG else 0)) "" true true (2 <=? opt_verbose o) 0.

(** [g_config.instances[i].port = port_override + i] from the index [i] on. *)
Fixpoint override_ports (p : Z) (i : nat) (n : nat) (insts : list xvc_instance_config_t)
  : exec (list xvc_instance_config_t) :=
  match n with
  | O => Done insts
  | S n => q ← int_arith (p + Z.of_nat i); override_ports p (S i) n (alter (fun inst => inst <| port := q |>) i insts)
  end.

Definition override_config (p : Z) (c : xvc_global_config_t) : exec xvc_global_config_t :=
  if p =? 0 then Done c
  else insts ← override_ports p 0 (Z.to_nat (instance_count c)) (instances c);
       Done (c <| base_port := p |> <| instances := insts |>).

Section Supervisor.
Context {WD WS : Type} `{D2XX WD} `{TcpOs WS} `{Sockets WS} `{Signals WS} `{Procs WS}.
#[local] Abbreviation Sv := (M (supervisor WD WS)).

Definition on_instance {A} (op : M (istate WD WS) A) : Sv A := zoom sv_i (fun i s => s <| sv_i := i |>) op.

Definition sys {A} (call : WS -> A * WS) : Sv A := on_instance (fun i => Done (lift_os call i)).

(** [waitpid(pid, NULL, 0)]. *)
Definition wait_for (p : Z) : Sv Z :=
  on_instance (fun i => if waitpid_blocks p (x_w (i_x i)) then Stuck else Done (lift_os (waitpid p) i)).

Definition update_pid (k : nat) (p : Z) : Sv unit :=
  modify (fun s => s <| g_config := (g_config s) <| instances := alter (fun i => i <| pid := p |>) k (instances (g_config s)) |> |>).

Definition instance_at (k : nat) : Sv xvc_instance_config_t := fun s => lift_exec (of_option (instances (g_config s) !! k)) s.

(** [g_running], after the handler has run. *)
Definition running_now : Sv bool := _ ← on_instance deliver; gets (fun s => g_running (i_globals (sv_i s))).

(** Go on unless the process has ended. *)
Definition or_exit {A B} (m : Sv (Z + A)) (k : A -> Sv (Z + B)) : Sv (Z + B) :=
  r ← m; match r with inl code => mret (inl code) | inr a => k a end.

(** ** Children *)

(** [run_instance], which first sets the prefix of the log. *)
Definition child (k : nat) : Sv Z :=
  inst ← instance_at k;
  _ ← modify (fun s => s <| g_log := log_set_instance (instance_id inst) (g_log s) |>);
  on_instance (run_instance inst).

Definition spawn_instance (k : nat) : Sv (Z + Z) :=
  p ← sys fork;
  if p <? 0 then mret (inr (-1))
  else if p =? 0 then ret ← child k; mret (inl ret)
  else _ ← update_pid k p; mret (inr p).

(** The instance with this process, among the first [instance_count]. *)
Definition instance_of (c : xvc_global_config_t) (p : Z) : option nat :=
  fst <$> list_find (fun i => pid i = p) (take (Z.to_nat (instance_count c)) (instances c)).

Definition restart (k : nat) : Sv (Z + unit) :=
  inst ← instance_at k;
  _ ← update_pid k 0;
  running ← running_now;
  if (running : bool) && enabled inst then
    _ ← sys (fun w => (tt, sleep 1 w));
    or_exit (spawn_instance k) (fun _ => mret (inr tt))
  else mret (inr tt).

(** One round of [while ((pid = waitpid(-1, &status, WNOHANG)) > 0)]. *)
Definition check_round (_ : unit) : Sv (unit + (Z + unit)) :=
  p ← sys waitpid_any;
  if p <=? 0 then mret (inr (inr tt))
  else
    c ← gets g_config;
    match instance_of c p with
    | None => mret (inl tt)
    | Some k => r ← restart k; mret (match r with inl code => inr (inl code) | inr _ => inl tt end)
    end.

Definition check_children : Sv (Z + unit) := while_loop check_round tt.

(** ** The program *)

Fixpoint each (f : nat -> Sv (Z + unit)) (l : list nat) : Sv (Z + unit) :=
  match l with
  | [] => mret (inr tt)
  | k :: l => or_exit (f k) (fun _ => each f l)
  end.

(** [for (int i = 0; i < g_config.instance_count; i++)] *)
Definition each_instance (f : nat -> xvc_instance_config_t -> Sv (Z + unit)) : Sv (Z + unit) :=
  c ← gets g_config;
  each (fun k => inst ← instance_at k; f k inst) (seq 0 (Z.to_nat (instance_count c))).

Definition spawn_one (k : nat) (inst : xvc_instance_config_t) : Sv (Z + unit) :=
  if enabled inst then or_exit (spawn_instance k) (fun _ => mret (inr tt)) else mret (inr tt).

Definition spawn_all : Sv (Z + unit) := each_instance spawn_one.

(** Reloading is not implemented; the request is dropped. *)
Definition take_reload (i : istate WD WS) : istate WD WS :=
  if g_reload (i_globals i) then i <| i_globals := (i_globals i) <| g_reload := false |> |> else i.

(** The main loop. *)
Definition manager_round (_ : unit) : Sv (unit + (Z + unit)) :=
  running ← running_now;
  if negb (running : bool) then mret (inr (inr tt))
  else
    r ← check_children;
    match r with
    | inl code => mret (inr (inl code))
    | inr _ =>
        _ ← on_instance (set_ictx take_reload);
        _ ← sys (fun w => (tt, sleep 1 w));
        mret (inl tt)
    end.

Definition manager_loop : Sv (Z + unit) := while_loop manager_round tt.

Definition kill_one (k : nat) (inst : xvc_instance_config_t) : Sv (Z + unit) :=
  _ ← (if 0 <? pid inst then sys (kill (pid inst) SIGTERM) else mret 0); mret (inr tt).

Definition kill_all : Sv (Z + unit) := each_instance kill_one.

Definition wait_one (k : nat) (inst : xvc_instance_config_t) : Sv (Z + unit) :=
  _ ← (if 0 <? pid inst then wait_for (pid inst) else mret 0); mret (inr tt).

Definition wait_all : Sv (Z + unit) := each_instance wait_one.

Definition cleanup : Sv unit :=
  modify (fun s => s <| g_device_mgr := shut_down (g_device_mgr s) |> <| g_log := log_shutdown (g_log s) |>).

(** From the spawning of the instances to the end. *)
Definition supervise : Sv (Z + unit) :=
  or_exit spawn_all (fun _ => or_exit manager_loop (fun _ => or_exit kill_all (fun _ => or_exit wait_all (fun _ =>
    _ ← cleanup; mret (inr tt))))).

(** From the loaded configuration to the end. *)
Definition serve (o : server_opts) : Sv Z :=
  c ← gets g_config;
  c ← lift_exec (override_config (port_override o) c);
  _ ← modify (fun s => s <| g_config := c |>);
  daemonized ← (if opt_daemonize o then sys daemon else mret 0);
  if daemonized <? 0 then mret 1
  else
    match instances c !! 0%nat with
    | None => undefined
    | Some inst =>
        if (instance_count c =? 1) && enabled inst then
          ret ← child 0;
          _ ← modify (fun s => s <| g_log := log_shutdown (g_log s) |>);
          mret ret
        else
          r ← supervise;
          mret (match r with inl code => code | inr _ => 0 end)
    end.

(** The status of the process and what it prints on the standard output. *)
Definition main (prog : string) (args : list server_option) (config_file : option string)
    (files : string -> option string) (mutex_ok : bool) : Sv (Z * string) :=
  match server_options prog args (mk_server_opts false 0 0) with
  | inr r => mret r
  | inl o =>
      match config_file with
      | None => mret (1, print_usage prog)
      | Some file =>
          _ ← modify (fun s => s <| g_log := (log_init (server_log o) mutex_ok false (g_log s)).2 |>);
          c ← gets g_config;
          '(ret, c) ← lift_exec (config_load c (files file));
          _ ← modify (fun s => s <| g_config := c |>);
          if ret <? 0 then mret (1, ""%string)
          else status ← serve o; mret (status, ""%string)
      end
  end.
End Supervisor.
