(* ===== verification/SupervisorInvariant.v ===== *)
(** The supervisor's children are the processes of its instances.

    The invariant, what happens when a child ends, and that a supervisor that
    is told to stop comes to its end and leaves no child behind. *)

From S2P Require Import Prelude CString Memory D2xx Config ConfigRefine Logging DeviceManager.
From S2P Require Import SimDevice FtdiAdapter XvcProtocol XvcServer TcpServer TcpInvariant.
From S2P Require Import Instance InstanceLock Supervisor.
From stdpp Require Import strings gmap.
Open Scope Z_scope.

(** ** What the supervisor relies on of the operating system

    The children of the process, those that have ended and are not waited for
    included.  Interrupted calls are restarted (SA_RESTART): when [waitpid]
    comes back, the child has ended. *)

Class ProcsLaws (W : Type) `{Signals W} `{Procs W} := {
  children : W -> gset Z;
  fork_children : forall w p w', fork w = (p, w') ->
    if 0 <? p then (p ∉ children w) /\ children w' = {[ p ]} ∪ children w
    else if p =? 0 then children w' = ∅ else children w' = children w;
  any_children : forall w p w', waitpid_any w = (p, w') ->
    if 0 <? p then p ∈ children w /\ children w' = children w ∖ {[ p ]} else children w' = children w;
  waitpid_children : forall p w, children (waitpid p w).2 = children w ∖ {[ p ]};
  kill_children : forall p sig w, children (kill p sig w).2 = children w;
  sleep_children : forall n w, children (sleep n w) = children w;
  arrived_children : forall w, children (arrived w).2 = children w;
  daemon_children : forall w r w', daemon w = (r, w') -> children w' = if r <? 0 then children w else ∅
}.

(** Somebody stops the process in the end: [patience] looks at the flag are
    left at most.  The other calls do not take part in that. *)
Class StopComes (W : Type) `{Signals W} `{Procs W} := {
  patience : W -> Z;
  patience_range : forall w, 0 <= patience w < 2 ^ 60;
  patience_look : forall w sigs w', arrived w = (sigs, w') ->
    patience w' <= patience w /\ (stops sigs = true \/ patience w' < patience w);
  patience_fork : forall w, patience (fork w).2 = patience w;
  patience_any : forall w, patience (waitpid_any w).2 = patience w;
  patience_sleep : forall n w, patience (sleep n w) = patience w
}.

(** Children that end when they are asked to: [told] are those that have been
    sent SIGTERM, and waiting for one of them comes back.  Nothing is known of
    the others. *)
Class ChildrenObey (W : Type) `{ProcsLaws W} := {
  told : W -> gset Z;
  told_kill : forall p w, p ∈ children w -> told (kill p SIGTERM w).2 = {[ p ]} ∪ told w;
  told_waitpid : forall p w, told w ⊆ told (waitpid p w).2;
  told_ends : forall p w, p ∈ children w -> p ∈ told w -> waitpid_blocks p w = false
}.

(** ** Processes of instances *)

Definition alive (l : list Z) : list Z := base.filter (fun p => 0 < p) l.

Lemma alive_insert (l : list Z) (k : nat) x y : l !! k = Some x ->
  exists r, alive l ≡ₚ alive [x] ++ r /\ alive (<[k := y]> l) ≡ₚ alive [y] ++ r.
Proof.
  intros Hk. exists (alive (take k l) ++ alive (drop (S k) l)). unfold alive.
  assert (Hlt : (k < length l)%nat) by (by eapply lookup_lt_Some). split.
  - rewrite <- (take_drop_middle l k x Hk) at 1. change (x :: drop (S k) l) with ([x] ++ drop (S k) l).
    rewrite !filter_app. by rewrite !(assoc_L app), (comm app (base.filter _ (take k l)) (base.filter _ [x])).
  - rewrite insert_take_drop by done. change (y :: drop (S k) l) with ([y] ++ drop (S k) l).
    rewrite !filter_app. by rewrite !(assoc_L app), (comm app (base.filter _ (take k l)) (base.filter _ [y])).
Qed.

Lemma alive_one p : alive [p] = if 0 <? p then [p] else [].
Proof. unfold alive. rewrite filter_cons, filter_nil. destruct (Z.ltb_spec 0 p); case_decide; (done || lia). Qed.

Lemma elements_less (C : gset Z) p : p ∈ C -> elements C ≡ₚ p :: elements (C ∖ {[ p ]}).
Proof.
  intros Hp. rewrite (union_difference_singleton_L p C Hp) at 1. rewrite elements_union_singleton; [done|set_solver].
Qed.

Lemma elements_more (C : gset Z) p : p ∉ C -> elements ({[ p ]} ∪ C) ≡ₚ p :: elements C.
Proof. apply elements_union_singleton. Qed.

Section Invariant.
Context {WD WS : Type} `{D2XX WD} `{TcpOs WS} `{Sockets WS} `{Signals WS} `{!Procs WS} `{!ProcsLaws WS}.
#[local] Abbreviation SV := (supervisor WD WS).

Definition world (s : SV) : WS := x_w (i_x (sv_i s)).
Definition with_world (s : SV) (w : WS) : SV := s <| sv_i := (sv_i s) <| i_x := (i_x (sv_i s)) <| x_w := w |> |> |>.
Definition flags (s : SV) : globals := i_globals (sv_i s).
Definition with_flags (s : SV) (g : globals) : SV := s <| sv_i := (sv_i s) <| i_globals := g |> |>.

(** The processes of the configured instances. *)
Definition pids_of (c : xvc_global_config_t) : list Z := map pid (take (Z.to_nat (instance_count c)) (instances c)).
Definition with_pid (c : xvc_global_config_t) (k : nat) (p : Z) : xvc_global_config_t :=
  c <| instances := alter (fun i => i <| pid := p |>) k (instances c) |>.

Definition sized (c : xvc_global_config_t) : Prop := zlen (instances c) = MAX_INSTANCES /\ 0 <= instance_count c <= MAX_INSTANCES.

Record Supervised (s : SV) : Prop := {
  sup_sized : sized (g_config s);
  sup_children : alive (pids_of (g_config s)) ≡ₚ elements (children (world s))
}.

(** *** Calls *)

Lemma sys_ok {A} (call : WS -> A * WS) (s : SV) a w : call (world s) = (a, w) -> sys call s = Done (a, with_world s w).
Proof. intros E1. unfold sys, on_instance, zoom, lift_os. unfold world in E1. by rewrite E1. Qed.


Lemma running_ok (s : SV) sigs w : arrived (world s) = (sigs, w) ->
  let g := foldl signal_handler (flags s) sigs in
  running_now s = Done (g_running g, with_flags (with_world s w) g).
Proof.
  intros E1 g. unfold running_now, on_instance.
  rewrite (bind_done _ _ s tt (with_flags (with_world s w) g)); [reflexivity|].
  unfold zoom, deliver, lift_os. unfold world in E1. rewrite E1. reflexivity.
Qed.

(** *** The configuration *)

Lemma sized_with c k p : sized c -> sized (with_pid c k p).
Proof. intros [Hl Hc]. split; [|done]. cbn. unfold zlen. by rewrite length_alter. Qed.

Lemma pids_with c k p inst : (k < Z.to_nat (instance_count c))%nat -> instances c !! k = Some inst ->
  pids_of (with_pid c k p) = <[k := p]> (pids_of c).
Proof.
  intros Hk Hi. unfold pids_of, with_pid. cbn [instances instance_count setter]. apply list_eq. intros j.
  rewrite list_lookup_fmap, lookup_take.
  destruct (decide (j = k)) as [->|Hne].
  - rewrite list_lookup_alter_eq, Hi. case_decide; [|lia]. cbn. symmetry. apply list_lookup_insert_eq.
    rewrite length_map, length_take. apply lookup_lt_Some in Hi. lia.
  - rewrite list_lookup_alter_ne, list_lookup_insert_ne, list_lookup_fmap, lookup_take by done. done.
Qed.

Lemma pids_at c k inst : (k < Z.to_nat (instance_count c))%nat -> instances c !! k = Some inst -> pids_of c !! k = Some (pid inst).
Proof. intros Hk Hi. unfold pids_of. rewrite list_lookup_fmap, lookup_take, Hi. by case_decide. Qed.

Lemma with_pid_at c k p inst : instances c !! k = Some inst -> instances (with_pid c k p) !! k = Some (inst <| pid := p |>).
Proof. intros Hi. cbn. by rewrite list_lookup_alter_eq, Hi. Qed.

Lemma instance_of_some c p k : instance_of c p = Some k ->
  (k < Z.to_nat (instance_count c))%nat /\ exists inst, instances c !! k = Some inst /\ pid inst = p.
Proof.
  unfold instance_of. intros ([k' inst] & Hf & ->)%fmap_Some. apply list_find_Some in Hf as (Hi & Hp & _).
  rewrite lookup_take in Hi. case_decide; [|done]. split; [done|]. by exists inst.
Qed.

Lemma instance_of_alive c p : p ∈ alive (pids_of c) -> exists k, instance_of c p = Some k.
Proof.
  intros [Hp Hin]%list_elem_of_filter. unfold pids_of in Hin. apply list_elem_of_fmap in Hin as (inst & -> & Hin).
  unfold instance_of. destruct (list_find (fun i => pid i = pid inst) _) as [[k i]|] eqn:Ef; [by exists k|].
  apply list_find_None in Ef. rewrite Forall_forall in Ef. by destruct (Ef inst Hin).
Qed.

(** *** Starting a process

    The parent's side: [fork] does not answer 0. *)

Context (parent : forall w : WS, (fork w).1 <> 0).

Definition forked (c : xvc_global_config_t) (k : nat) (p : Z) : xvc_global_config_t := if 0 <? p then with_pid c k p else c.

Lemma spawn_ok (s : SV) k inst p w :
  Supervised s -> (k < Z.to_nat (instance_count (g_config s)))%nat -> instances (g_config s) !! k = Some inst -> pid inst = 0 ->
  fork (world s) = (p, w) ->
  exists r s', spawn_instance k s = Done (inr r, s') /\ Supervised s' /\
    g_config s' = forked (g_config s) k p /\ world s' = w /\ flags s' = flags s /\
    g_log s' = g_log s /\ g_device_mgr s' = g_device_mgr s.
Proof.
  intros [Hz Hc] Hk Hi Hp Ef. unfold spawn_instance. rewrite (bind_done _ _ _ _ _ (sys_ok _ _ _ _ Ef)).
  pose proof (parent (world s)) as Hne. rewrite Ef in Hne. cbn in Hne. pose proof (fork_children _ _ _ Ef) as Hch.
  unfold forked. destruct (Z.ltb_spec p 0) as [Hneg|Hpos].
  - rewrite (proj2 (Z.ltb_ge 0 p)) by lia. rewrite (proj2 (Z.ltb_ge 0 p)) in Hch by lia. rewrite (proj2 (Z.eqb_neq p 0)) in Hch by lia.
    exists (-1), (with_world s w). split; [done|]. split; [|done]. split; [done|]. change (world (with_world s w)) with w. by rewrite Hch.
  - rewrite (proj2 (Z.eqb_neq p 0)) by lia. rewrite (proj2 (Z.ltb_lt 0 p)) in * by lia. destruct Hch as [Hnew Hch].
    erewrite bind_done; [|reflexivity]. eexists p, _. split; [reflexivity|]. split; [|done].
    split; [by apply (sized_with (g_config s))|]. change (alive (pids_of (with_pid (g_config s) k p)) ≡ₚ elements (children w)).
    rewrite (pids_with _ _ _ inst) by done. rewrite Hch, (elements_more _ _ Hnew).
    destruct (alive_insert (pids_of (g_config s)) k (pid inst) p) as (r & A1 & A2); [by apply pids_at|].
    rewrite A2, Hp in *. rewrite alive_one in A1. cbn in A1. rewrite alive_one, (proj2 (Z.ltb_lt 0 p)) by lia. cbn. by rewrite <- Hc, A1.
Qed.

(** *** A child that has ended

    Between [waitpid] and the reset, one process of the configuration is no
    longer a child. *)

Record Missing (s : SV) (p : Z) : Prop := {
  miss_sized : sized (g_config s);
  miss_children : alive (pids_of (g_config s)) ≡ₚ p :: elements (children (world s))
}.

Lemma reaped (s : SV) p w : Supervised s -> waitpid_any (world s) = (p, w) -> 0 < p -> Missing (with_world s w) p.
Proof.
  intros [Hz Hc] Ew Hp. pose proof (any_children _ _ _ Ew) as Hch. rewrite (proj2 (Z.ltb_lt 0 p)) in Hch by lia.
  destruct Hch as [Hin Hch]. split; [done|]. change (world (with_world s w)) with w. rewrite Hch, <- elements_less by done. exact Hc.
Qed.

Lemma reset_ok (s : SV) k inst : Missing s (pid inst) -> (k < Z.to_nat (instance_count (g_config s)))%nat ->
  instances (g_config s) !! k = Some inst -> 0 < pid inst -> Supervised (s <| g_config := with_pid (g_config s) k 0 |>).
Proof.
  intros [Hz Hc] Hk Hi Hp. split; [by apply sized_with|].
  change (alive (pids_of (with_pid (g_config s) k 0)) ≡ₚ elements (children (world s))). rewrite (pids_with _ _ _ inst) by done.
  destruct (alive_insert (pids_of (g_config s)) k (pid inst) 0) as (r & A1 & A2); [by apply pids_at|].
  rewrite A2. rewrite A1, alive_one, (proj2 (Z.ltb_lt 0 _)) in Hc by lia. cbn in Hc |- *. by apply Permutation.Permutation_cons_inv in Hc.
Qed.

(** What becomes of the instance [k]: the flags after the signals [sigs], and
    the answer [q] of [fork] when it is started again. *)
Definition restarted (c : xvc_global_config_t) (k : nat) (inst : xvc_instance_config_t) (g : globals) (q : Z)
  : xvc_global_config_t :=
  let c := with_pid c k 0 in if g_running g && enabled inst then forked c k q else c.

Lemma restart_ok (s : SV) k inst sigs w1 :
  Missing s (pid inst) -> (k < Z.to_nat (instance_count (g_config s)))%nat ->
  instances (g_config s) !! k = Some inst -> 0 < pid inst -> arrived (world s) = (sigs, w1) ->
  let g := foldl signal_handler (flags s) sigs in
  let '(q, w2) := fork (sleep 1 w1) in
  exists s', restart k s = Done (inr tt, s') /\ Supervised s' /\ flags s' = g /\
    g_config s' = restarted (g_config s) k inst g q /\
    world s' = (if g_running g && enabled inst then w2 else w1) /\ g_log s' = g_log s /\ g_device_mgr s' = g_device_mgr s.
Proof.
  intros Hm Hk Hi Hp Ea. cbv zeta. destruct (fork (sleep 1 w1)) as [q w2] eqn:Ef. set (g := foldl signal_handler (flags s) sigs).
  pose proof (reset_ok s k inst Hm Hk Hi Hp) as [Hz0 Hc0]. cbn [g_config setter] in Hz0, Hc0.
  unfold restart, instance_at. rewrite (bind_done _ _ s inst s) by (by rewrite Hi).
  set (s0 := s <| g_config := with_pid (g_config s) k 0 |>). erewrite (bind_done _ _ s tt s0); [|reflexivity].
  rewrite (bind_done _ _ _ _ _ (running_ok s0 sigs w1 Ea)). change (flags s0) with (flags s). fold g.
  set (s1 := with_flags (with_world s0 w1) g).
  assert (Hs1 : Supervised s1).
  { split; [done|]. change (world s1) with w1. change (g_config s1) with (with_pid (g_config s) k 0). rewrite Hc0.
    change (world s0) with (world s). pose proof (arrived_children (world s)) as Hac. rewrite Ea in Hac. cbn in Hac. by rewrite Hac. }
  unfold restarted. destruct (g_running g && enabled inst); [|by exists s1].
  assert (E2 : sys (fun w => (tt, sleep 1 w)) s1 = Done (tt, with_world s1 (sleep 1 w1))) by (by apply sys_ok).
  rewrite (bind_done _ _ _ _ _ E2). set (s2 := with_world s1 (sleep 1 w1)).
  assert (Hs2 : Supervised s2).
  { destruct Hs1 as [Hz1 Hc1]. split; [done|]. change (world s2) with (sleep 1 w1). by rewrite sleep_children. }
  destruct (spawn_ok s2 k (inst <| pid := 0 |>) q w2) as (r & s3 & E3 & Hs3 & Hcfg & Hw & Hf & Hl & Hd).
  { done. } { exact Hk. } { by apply with_pid_at. } { done. } { exact Ef. }
  exists s3. unfold or_exit. rewrite (bind_done _ _ _ _ _ E3). split; [done|]. split; [done|]. split; [exact Hf|].
  split; [exact Hcfg|]. split; [exact Hw|]. by split.
Qed.

(** ** Loops over the instances *)



(** *** Starting *)


Lemma forked_count c k p : instance_count (forked c k p) = instance_count c.
Proof. unfold forked. by destruct (0 <? p). Qed.

Lemma forked_other c k p j : j <> k -> instances (forked c k p) !! j = instances c !! j.
Proof. intros Hj. unfold forked. destruct (0 <? p); [|done]. cbn. by rewrite list_lookup_alter_ne. Qed.


(** *** Stopping *)

Section Stopping.
Context `{!ChildrenObey WS}.





End Stopping.

(** ** Watching the children *)

Lemma check_round_ended (s : SV) p w : Supervised s -> waitpid_any (world s) = (p, w) -> 0 < p ->
  let '(sigs, w1) := arrived w in
  let g := foldl signal_handler (flags s) sigs in
  let '(q, w2) := fork (sleep 1 w1) in
  exists k inst s', instance_of (g_config s) p = Some k /\ instances (g_config s) !! k = Some inst /\
    check_round tt s = Done (inl tt, s') /\ Supervised s' /\ flags s' = g /\
    g_config s' = restarted (g_config s) k inst g q /\
    world s' = (if g_running g && enabled inst then w2 else w1) /\ g_log s' = g_log s /\ g_device_mgr s' = g_device_mgr s.
Proof.
  intros Hs Ew Hp. destruct (arrived w) as [sigs w1] eqn:Ea. cbv zeta. destruct (fork (sleep 1 w1)) as [q w2] eqn:Ef.
  pose proof (reaped s p w Hs Ew Hp) as Hm.
  assert (Hin : p ∈ alive (pids_of (g_config s))).
  { destruct Hs as [_ Hc]. rewrite Hc. apply elem_of_elements. pose proof (any_children _ _ _ Ew) as Hch.
    rewrite (proj2 (Z.ltb_lt 0 p)) in Hch by lia. by destruct Hch. }
  destruct (instance_of_alive _ _ Hin) as [k Hk]. destruct (instance_of_some _ _ _ Hk) as (Hlt & inst & Hi & <-).
  pose proof (restart_ok (with_world s w) k inst sigs w1 Hm Hlt Hi Hp Ea) as Hr. cbv zeta in Hr. rewrite Ef in Hr.
  destruct Hr as (s' & E1 & Hs' & Hf & Hg & Hw & Hl & Hd). exists k, inst, s'. split; [done|]. split; [done|]. split; [|by split_and!].
  unfold check_round. rewrite (bind_done _ _ _ _ _ (sys_ok _ _ _ _ Ew)), (proj2 (Z.leb_gt (pid inst) 0)) by lia.
  rewrite (bind_done (gets g_config) _ _ (g_config s) (with_world s w)) by done. rewrite Hk.
  by rewrite (bind_done _ _ _ _ _ E1).
Qed.


Lemma restarted_count c k inst g q : instance_count (restarted c k inst g q) = instance_count c.
Proof. unfold restarted. destruct (g_running g && enabled inst); [by rewrite forked_count|done]. Qed.

Lemma restarted_at c k inst g q : instances c !! k = Some inst ->
  instances (restarted c k inst g q) !! k = Some (inst <| pid := if g_running g && enabled inst && (0 <? q) then q else 0 |>).
Proof.
  intros Hi. unfold restarted, forked. destruct (g_running g && enabled inst); cbn [andb]; [|by apply with_pid_at].
  destruct (0 <? q); [|by apply with_pid_at]. by rewrite (with_pid_at _ _ _ (inst <| pid := 0 |>)) by (by apply with_pid_at).
Qed.

Lemma restarted_other c k inst g q j : j <> k -> instances (restarted c k inst g q) !! j = instances c !! j.
Proof.
  intros Hj. unfold restarted. destruct (g_running g && enabled inst); [rewrite forked_other by done|];
    cbn; by rewrite list_lookup_alter_ne.
Qed.

(** C17: the end of a child.  When [waitpid] reports a child, it is the process
    of exactly one instance.  After the signals that have arrived, an enabled
    instance of a supervisor that is still running is started again; it keeps
    the process that [fork] gives, and is without one, for good, when [fork]
    fails; a stopping supervisor starts nothing.  The other instances keep
    their processes, and the processes of the instances are again the children
    of the supervisor, each once. *)
Theorem child_ended (s : SV) p w : Supervised s -> waitpid_any (world s) = (p, w) -> 0 < p ->
  let '(sigs, w1) := arrived w in
  let g := foldl signal_handler (flags s) sigs in
  exists k inst s', instances (g_config s) !! k = Some inst /\ pid inst = p /\
    (forall j other, (j < Z.to_nat (instance_count (g_config s)))%nat -> instances (g_config s) !! j = Some other -> pid other = p -> j = k) /\
    check_round tt s = Done (inl tt, s') /\ Supervised s' /\ flags s' = g /\
    (forall j, j <> k -> instances (g_config s') !! j = instances (g_config s) !! j) /\
    let q := (fork (sleep 1 w1)).1 in
    instances (g_config s') !! k = Some (inst <| pid := if g_running g && enabled inst && (0 <? q) then q else 0 |>).
Proof.
  intros Hs Ew Hp. pose proof (check_round_ended s p w Hs Ew Hp) as Hr. destruct (arrived w) as [sigs w1]. cbv zeta in *.
  destruct (fork (sleep 1 w1)) as [q w2]. destruct Hr as (k & inst & s' & Hk & Hi & E1 & Hs' & Hf & Hg & _).
  destruct (instance_of_some _ _ _ Hk) as (Hlt & inst' & Hi' & Hpid). rewrite Hi in Hi'. injection Hi' as <-.
  exists k, inst, s'. split; [done|]. split; [done|]. split.
  { intros j other Hj Ho Hpo. destruct (decide (j = k)) as [|Hne]; [done|]. exfalso.
    destruct Hs as [_ Hc].
    destruct (alive_insert (pids_of (g_config s)) k (pid inst) 0) as (r & A1 & A2); [by apply pids_at|].
    assert (Hnd : NoDup (alive (pids_of (g_config s)))) by (rewrite Hc; apply NoDup_elements).
    rewrite A1, alive_one, Hpid, (proj2 (Z.ltb_lt 0 p)) in Hnd by lia. apply NoDup_cons in Hnd as [Hnin _]. apply Hnin.
    rewrite alive_one in A2. cbn in A2. cbn [app]. rewrite <- A2. apply list_elem_of_filter. split; [lia|].
    apply list_elem_of_lookup. exists j. rewrite list_lookup_insert_ne by done. rewrite <- Hpo. by apply pids_at. }
  split; [exact E1|]. split; [done|]. split; [done|]. rewrite Hg. split; [intros j Hj; by apply restarted_other|].
  by apply restarted_at.
Qed.

Context `{!StopComes WS} `{!ChildrenObey WS}.







(** ** The program *)






End Invariant.

(** ** An operating system to run the program in

    Children end in the order of [sy_ended], and when they have been sent
    SIGTERM ([sy_told]); the process is told to stop after [sy_left] looks at
    the flag, a thousand at most. *)

Record sim_sys := mk_sys { sy_ws : sim_ws; sy_children : gset Z; sy_ended : list Z; sy_left : nat; sy_told : gset Z }.

Definition lift_sys {A} (call : sim_ws -> A * sim_ws) (w : sim_sys) : A * sim_sys :=
  let '(a, o) := call (sy_ws w) in (a, mk_sys o (sy_children w) (sy_ended w) (sy_left w) (sy_told w)).

#[export] Instance sim_sys_os : TcpOs sim_sys := {
  os_socket := lift_sys os_socket;
  os_setsockopt fd o v := lift_sys (os_setsockopt fd o v);
  os_bind fd p := lift_sys (os_bind fd p);
  os_listen fd n := lift_sys (os_listen fd n);
  os_select n r e t := lift_sys (os_select n r e t);
  os_accept fd := lift_sys (os_accept fd);
  os_close fd := lift_sys (os_close fd);
  os_time := lift_sys os_time
}.

#[export] Instance sim_sys_sockets : Sockets sim_sys := {
  sock_read fd n := lift_sys (sock_read fd n);
  sock_write fd d := lift_sys (sock_write fd d);
  sock_quickack fd w := (lift_sys (fun x => (tt, sock_quickack fd x)) w).2;
  read_blocks fd n w := read_blocks fd n (sy_ws w);
  write_blocks fd d w := write_blocks fd d (sy_ws w)
}.

Definition looks_left (w : sim_sys) : nat := Nat.min 1000 (sy_left w).

#[export] Instance sim_sys_signals : Signals sim_sys := {
  arrived w := match looks_left w with
               | O => ([SIGTERM], w)
               | S n => ([], mk_sys (sy_ws w) (sy_children w) (sy_ended w) n (sy_told w))
               end
}.

Definition next_pid (C : gset Z) : Z := 1 + foldr Z.max 100 (elements C).

Definition with_children (w : sim_sys) (C : gset Z) (l : list Z) : sim_sys := mk_sys (sy_ws w) C l (sy_left w) (sy_told w).

#[export] Instance sim_sys_procs : Procs sim_sys := {
  fork w := let p := next_pid (sy_children w) in (p, with_children w ({[ p ]} ∪ sy_children w) (sy_ended w));
  waitpid_any w := match sy_ended w with
                   | [] => (0, w)
                   | p :: l => if bool_decide (0 < p /\ p ∈ sy_children w)
                               then (p, with_children w (sy_children w ∖ {[ p ]}) l)
                               else (0, with_children w (sy_children w) l)
                   end;
  waitpid p w := (p, with_children w (sy_children w ∖ {[ p ]}) (sy_ended w));
  waitpid_blocks p w := bool_decide (p ∈ sy_children w /\ p ∉ sy_told w);
  kill p sig w :=
    match sig with
    | SIGTERM => (0, mk_sys (sy_ws w) (sy_children w) (sy_ended w) (sy_left w) ({[ p ]} ∪ sy_told w))
    | _ => (0, w)
    end;
  sleep _ w := w;
  daemon w := (0, with_children w ∅ [])
}.

Lemma next_pid_fresh (C : gset Z) : 0 < next_pid C /\ next_pid C ∉ C.
Proof.
  assert (Hb : forall l, 100 <= foldr Z.max 100 l /\ Forall (fun x => x <= foldr Z.max 100 l) l).
  { induction l as [|x l [IH1 IH2]]; cbn; [split; [lia|constructor]|]. split; [lia|]. constructor; [lia|].
    eapply Forall_impl; [exact IH2|]. cbn. lia. }
  destruct (Hb (elements C)) as [H1 H2]. unfold next_pid. split; [lia|]. intros Hin%elem_of_elements.
  rewrite Forall_forall in H2. specialize (H2 _ Hin). lia.
Qed.

#[export] Program Instance sim_sys_laws : ProcsLaws sim_sys := { children := sy_children }.
Next Obligation.
  intros w p w' [= <- <-]. destruct (next_pid_fresh (sy_children w)) as [H1 H2]. by rewrite (proj2 (Z.ltb_lt 0 _)) by lia.
Qed.
Next Obligation.
  intros w p w'. cbn. destruct (sy_ended w) as [|q l]; [by intros [= <- <-]|].
  destruct (bool_decide (0 < q /\ q ∈ sy_children w)) eqn:Eb; intros [= <- <-]; [|done].
  apply bool_decide_eq_true in Eb as [Hp Hin]. by rewrite (proj2 (Z.ltb_lt 0 q)).
Qed.
Next Obligation. done. Qed.
Next Obligation. by intros p []. Qed.
Next Obligation. done. Qed.
Next Obligation. intros w. cbn [arrived sim_sys_signals]. by destruct (looks_left w). Qed.
Next Obligation. by intros w r w' [= <- <-]. Qed.

Lemma sim_sys_parent (w : sim_sys) : (fork w).1 <> 0.
Proof. destruct (next_pid_fresh (sy_children w)) as [H1 _]. cbn. lia. Qed.

#[export] Program Instance sim_sys_stop : StopComes sim_sys := { patience w := Z.of_nat (looks_left w) }.
Next Obligation. intros w. unfold looks_left. lia. Qed.
Next Obligation.
  intros w sigs w'. cbn [arrived sim_sys_signals]. destruct (looks_left w) as [|n] eqn:El; intros [= <- <-]; [rewrite El; split; [lia|by left]|].
  unfold looks_left in *. cbn [sy_left]. split; [lia|]. right. lia.
Qed.
Next Obligation. done. Qed.
Next Obligation.
  intros w. cbn. destruct (sy_ended w) as [|q l]; [done|]. by destruct (bool_decide _).
Qed.
Next Obligation. done. Qed.

#[export] Program Instance sim_sys_obey : ChildrenObey sim_sys := { told := sy_told }.
Next Obligation. done. Qed.
Next Obligation. done. Qed.
Next Obligation. intros p w Hp Ht. apply bool_decide_eq_false. by intros [_ ?]. Qed.

(** The same with children that do not care about signals. *)
Definition stubborn : Procs sim_sys := {|
  fork := fork; waitpid_any := waitpid_any; waitpid := waitpid; kill := kill; sleep := sleep; daemon := daemon;
  waitpid_blocks p w := bool_decide (p ∈ sy_children w)
|}.

(** Two mapped instances, and a process with a child to reap. *)
Definition two_instances : string :=
  (ln "[instance_mappings]" +:+ ln "1 = SN:210A" +:+ ln "2 = SN:210B")%string.

Definition loaded (text : string) : xvc_global_config_t :=
  match config_load config_init (Some text) with Done (_, c) => c | _ => config_init end.

Definition fresh_process (c : xvc_global_config_t) (C : gset Z) (ended : list Z) (left : nat) : supervisor SimDevice.world sim_sys :=
  mk_supervisor c zero_manager log_zero
    (mk_istate (mk_globals true false) "" 0 false None
       (mk_xstate xvc_zero (mk_mem ∅ 0 [] (fun _ _ => 0)) sim_cable (mk_sys (mk_ws sim_env (mk_link [] []) []) C ended left ∅))).


(** Both instances run; the second one's process has ended. *)
Definition running_two : supervisor SimDevice.world sim_sys :=
  fresh_process (with_pid (with_pid (loaded two_instances) 0 101) 1 102) {[ 101; 102 ]} [102] 5.

Lemma running_two_supervised : Supervised running_two.
Proof.
  split; [by split|].
  change (alive (pids_of (g_config running_two))) with (alive (pids_of (with_pid (with_pid (loaded two_instances) 0 101) 1 102))).
  assert (Hp : pids_of (with_pid (with_pid (loaded two_instances) 0 101) 1 102) = [101; 102]) by (by vm_compute).
  rewrite Hp. change (children (world running_two)) with ({[ 101; 102 ]} : gset Z).
  rewrite elements_union_singleton by set_solver. by rewrite elements_singleton.
Qed.

Lemma child_ended_witness :
  exists k inst s', instances (g_config running_two) !! k = Some inst /\ pid inst = 102 /\
    check_round tt running_two = Done (inl tt, s') /\ Supervised s'.
Proof.
  set (w := with_children (world running_two) ({[ 101; 102 ]} ∖ {[ 102 ]}) []).
  assert (Ew : waitpid_any (world running_two) = (102, w)).
  { cbn. rewrite bool_decide_eq_true_2; [done|]. split; [lia|set_solver]. }
  pose proof (child_ended sim_sys_parent running_two 102 w running_two_supervised Ew ltac:(lia)) as Hc.
  destruct (arrived w) as [sigs w1]. destruct Hc as (k & inst & s' & H1 & H2 & _ & H3 & H4 & _).
  exists k, inst, s'. by split_and!.
Defined.


(** A child that ignores SIGTERM keeps the program from ending. *)
Example stubborn_child_holds :
  @main _ _ _ _ _ _ stubborn "xvc-server" [OptVerbose; OptPort "4000"] (Some "multi.conf"%string) (fun _ => Some two_instances) true
    (fresh_process config_init ∅ [102; 101; 102] 5) = Stuck.
Proof. vm_compute. reflexivity. Qed.
